(* ===== verification/_CoqProject ===== *)
-Q . S2P
Prelude.v
Memory.v
CTypes.v
GdtUtil.v
Processor.v
Format.v
VprintfSpec.v
TextScreen.v
AwdConsole.v
AwdAlloc.v
PageTable.v
PageBuilder.v
AwdKernel.v
AwdPaging.v
AwdMain.v
Entry.v
LogDevices.v
KernelLog.v
Panics.v
Lobo.v
KernelBitset.v
Pmm.v
KernelHeap.v
KernelList.v
KernelEarly.v
Handover.v
Vmm.v
Tlb.v
Scheduler.v
Budget.v
Threads.v
Keyboard.v
KeyboardRace.v
Debugger.v
Interrupts.v
Structs.v
Traps.v
KernelMain.v
Echo.v
KernelStart.v
Drivers.v
System.v
Boot.v
