(* ===== verification/Prelude.v ===== *)
(** Verification of CanidaeOS: AWD, the 32-bit loader; Lobo, the 64-bit kernel it
    starts; the C library of the kernel; and the host tool gdt_util.

    * The program

    GRUB starts AWD (src/src/awd) with a multiboot structure.  [awd_main] tests
    the processor, finds
    the kernel among the modules, checks and copies its ELF image, builds page
    tables for it from a queue of regions, switches to long mode and jumps to
    Lobo (src/src/lobo).  Lobo loads its segments, calls its constructors, sets up its early heap, log, interrupt table, page
    directory and page bitmap, then a scheduler with one kernel thread per
    activity; the timer preempts threads, the keyboard interrupt fills a queue
    that a thread reads.  (So it is written; the load of the page directory
    stops it, see below.)  Components call each other directly; there is one
    processor.  A timer or device interrupt may come between any two
    instructions of a thread; it is described where it comes while the thread is
    not inside a kernel operation ([Traps]), and inside the one operation that
    shares its data with an interrupt, the keyboard's queue ([KeyboardRace],
    between all accesses of the removal to the queue and its size).
    The kernel's own structures are not locked; other interleavings inside its
    operations are not described: [Schedule] is one step although the timer's
    handler has turned interrupts on before it.

    * How the code is modelled

    A C integer is a [Z] with the wrap-around of its type written out; memory is
    a map of bytes with little-endian words ([Memory]).  A function that changes
    state is a term of the monad [ST] over the state of its program, in the order
    of the code; a panic, a failed assertion, an undefined access and exhausted
    fuel are values of [stop].  Code that is not C is modelled instruction by
    instruction where it moves state (context switch, interrupt entry and exit).
    What the processor does (address translation, interrupt frames, [iretq])
    is written down from its manual, and what only the build determines
    (addresses of literals, of stubs, of the instruction behind a call) are
    parameters.  The flags of RFLAGS are saved and restored as the code does it;
    what arithmetic sets them to is not followed.  A stack holds what the
    assembly pushes; the frames the compiler lays out for C++ functions, which
    lie below that, are not described.

    The kernel's memory [k_mem] is what it sees through the tables in CR3: the
    loader's until [vmm_init], then the kernel's own.  Loading CR3 ([write_cr3])
    needs tables that map the running code, and is a page fault otherwise: the
    walk is that of the processor, through the tables in memory.  The other
    accesses of the kernel to its own memory are described without the walk;
    [Boot] says what its tables must be for this (the window from KERNEL_VMB on
    mapped in place) and proves that they stay so.  Assertions are on, as in the
    build the Makefile makes.

    * The files

    - [Prelude]: machine integers, [outcome], the monad and its laws, what a
      computation leaves alone ([steps]), tactics, hint databases.  [Memory]:
      memory, and the string functions of
      src/src/libc/string and awd/libc/string.  [CTypes]: C structures, unions
      and arrays, laid out by the two ABIs; [Structs]: the structures of the
      headers, and accesses by offset as accesses to their members.
      [GdtUtil]: src/util/gdt_util.c,
      and how the processor reads a descriptor.  [Processor]: the instructions of
      the entry code.
    - [Format]: atoi, itoa, itoa64, vprintf of both libraries over the interface
      [CharSink] of the functions that print a character and a string;
      [VprintfSpec]: the grammar of format strings and what they render to.
    - [TextScreen]: the VGA text buffer, shared by both consoles.
    - AWD: [AwdConsole] (console/console.c, logging.c) with its abstract
      terminal; [AwdAlloc] (memory/alloc.c, memory.c); [AwdKernel] (multiboot.c,
      kernel/kernel.c); [AwdPaging] (memory/paging.c); [AwdMain] (main.c,
      requirements.c, version.c).  [Entry]: the assembly of both programs from
      the boot loader to [awd_main] and from there to [kernel_early] (awd/boot,
      awd/check, paging_enable.s, kernel/enter.s, boot_awd.s, gdt.s, crti.s).
      [Handover]: the end of main.c, and [AwdMain] and [Entry] together;
      [System]: [Handover] and [KernelStart] together, both programs in one run.
    - [PageTable]: four-level page tables in memory, their well-formedness and
      the processor's translation; [PageBuilder]: the interface of a component
      that builds tables with an allocator, with the theorems AWD's paging and
      the kernel's memory manager share.
    - [LogDevices] and [KernelLog]: vga_console.cpp, uart.cpp, log.cpp,
      version.cpp, libc_helpers.cpp.  [Panics]: log/panic.cpp, awd/panic.c,
      both abort.c and stack-smash-protector.c, on a processor that can halt.
    - [Lobo]: the kernel's state, one record: memory and a field per static
      object.  [KernelBitset] (common/bitset.h), [Pmm] (mem/pmm.cpp),
      [KernelHeap] (mem/heap.cpp, and pmm::init), [KernelList]
      (common/single_linked_list.h), [Vmm] (mem/vmm.cpp, arch/x86_64/vmm.cpp,
      mem/memmap.h) and [Tlb] (the same with the processor's translation cache,
      and the functions that invalidate it), [Scheduler] (task/scheduler.cpp,
      switch_thread.s), [Budget] (how much of the heap an operation takes) and
      [Threads] (what the scheduler promises), [Keyboard] (hal/keyboard.cpp,
      ps2_keyboard.cpp) and [KeyboardRace] (its queue with interrupts inside the
      removal), [Interrupts] (interrupts.cpp, interrupt_asm.s) and
      [Traps] (what they promise).
    - The kernel from above: [KernelEarly] (init_memory of kernel_early.cpp,
      awd_info.h, the registry's add), [Debugger] (debug/kernel_debugger.cpp),
      [KernelMain] (main.cpp), [Echo] (from the key to the screen),
      [KernelStart] (kernel_early), [Drivers] (driver.h, driver.cpp,
      driver_registry.cpp), [Boot] (the start behind the page directory's load,
      through every component).

    A static object of the kernel is a record field; what it allocates or reaches
    through pointers (bitmap, page tables, list nodes, control blocks, stacks,
    interrupt frames, the interrupt table) is in its memory [k_mem].  A call of
    the log from a kernel component is recorded in [k_log]; what a call prints
    is in [KernelLog].  So are AWD's calls that act on its console, its
    initialisation included, in [a_log]; what they do is in [AwdConsole].

    * What is proved

    - Boot: the tests of the processor find what they test for; a bootable
      machine reaches the kernel with every byte of every
      segment at its link address ([awd_main_boots]); the parts: the loader, the
      multiboot search, the page tables as a refinement of the queue of regions
      to the processor's translation; the jump into the kernel faults nowhere
      ([kernel_entered]); together, [loader_enters_kernel]: what the kernel sees
      through the loader's tables is what its entry code needs, and it finds the
      configuration block at both of its addresses, the physical one, which
      [kernel_early] reads the heap from, and the one [init_memory] reads.
    - Output: both vprintfs equal the reference rendering on every sink; both
      consoles refine an abstract terminal and write nothing outside the text
      buffer; a log call finishes whatever the serial port does and prints its
      line on both devices; so does a panic, a failed assertion and [abort],
      which then halt.
    - Memory: allocators give aligned disjoint blocks; page allocation takes the
      first free run; the linked list refines a list; mapping and unmapping
      change the translation of exactly the region, also as the processor sees it
      through its cache ([accesses_follow_mapping]), and the invalidation by
      addresses is as good as the loading of CR3 where it ends
      ([invalidate_after_unmap]); unmapping the running code faults; a memory
      map's destruction undoes its construction.
    - Threads: an invariant of the scheduler holds in every reachable state;
      [Schedule] terminates and picks the next ready thread; no ready thread
      waits longer than a round; a thread switched out, or preempted by the
      timer, goes on with registers, stack pointer and stack as they were, the
      preempted one also with its flags.
    - Interrupts: the table sends every vector to its stub; device interrupts
      are transparent; exceptions are reported with the registers of the code
      that raised them.  Keyboard: a queue and a decoder; what is typed appears on
      the screen; what an interrupt inside the removal of a scancode does.
    - Start and use: as it is built the system does not come up.  [kernel_early]
      ends with a page fault in [vmm_init], which loads a directory that maps
      nothing ([vmm_init_maps_nothing], and [system_stops] from [awd_main] on);
      behind that, what AWD hands over would hold no memory map
      ([no_memory_map_stops]).  What stands behind it does what it means to, on
      a machine that gets there: from a well-formed memory map exactly the free
      pages above 4 MiB are free ([init_memory_correct]); the rest of the start
      sets up every component and [kernel_main] leaves a well-formed scheduler
      with its five threads ([kernel_boots]) unless the heap has fewer bytes
      left than a number that is computed; the debugger's line editor stays in
      its buffer, its commands print the lists they name, the registered drivers
      under the names they were constructed with ([drivers_listed]), and a
      session changes nothing but the keyboard's queue and the log.
    - Theorems on errors state where the code fails: see their comments.  A
      theorem that allows a failure for lack of memory says how little memory
      that takes.

    * Fuel

    Every loop that is not structural has fuel computed from its arguments
    (string lengths, page counts, the 501 tries of the scheduler, the length of
    a queue), and the theorems prove that it is enough: no theorem excludes
    [OutOfFuel] by hypothesis.  The loops over the memory map take fuel as an
    argument, and any more than the length of the map will do; the debugger
    reads for as long as scancodes arrive, and [OutOfFuel] is the end of them.

    * Not modelled

    [pop_back] of the list (it names a member that does not exist, so no use of
    it compiles); the port functions but [outb] (nothing calls
    outw, outl, inw; inb's results are arguments); [cpu::IdleLoop] (it halts
    until the next interrupt, forever: [kernel_main] ends in the state it idles
    in); liballoc.h (declarations without an implementation); the .fini section
    (never run).  The C code compiled for the constructors in
    .init and the instructions of [awd_main] between [paging_enable] and
    [kernel_enter] enter [Entry] and [Handover] by what they leave alone, but for
    the stores to the configuration block and the entry point.  Only [Tlb] has a
    translation cache; the cache of memory itself is not modelled. *)

From stdpp Require Export base numbers list gmap strings.
From Stdlib Require Export ZArith Lia.

(** ** Machine integers

    Every C integer is a [Z].  A value of an unsigned type of [w] bits lies in
    [0 <= x < 2^w]; the functions below are the conversions C performs, written
    out where the source stores into or computes in that type. *)

Declare Scope mach_scope.
Delimit Scope mach_scope with mach.

Definition u8 (x : Z) : Z := (x mod 256)%Z.
Definition u16 (x : Z) : Z := (x mod 65536)%Z.
Definition u32 (x : Z) : Z := (x mod 4294967296)%Z.
Definition u64 (x : Z) : Z := (x mod 18446744073709551616)%Z.
Definition s8 (x : Z) : Z := ((x + 128) mod 256 - 128)%Z.
Definition s32 (x : Z) : Z := ((x + 2147483648) mod 4294967296 - 2147483648)%Z.

Notation "x +64 y" := (u64 (x + y)) (at level 50, left associativity) : mach_scope.
Notation "x -64 y" := (u64 (x - y)) (at level 50, left associativity) : mach_scope.
Notation "x *64 y" := (u64 (x * y)) (at level 40, left associativity) : mach_scope.
Notation "x +32 y" := (u32 (x + y)) (at level 50, left associativity) : mach_scope.
Notation "x -32 y" := (u32 (x - y)) (at level 50, left associativity) : mach_scope.
Notation "x *32 y" := (u32 (x * y)) (at level 40, left associativity) : mach_scope.

(** ** Outcomes and the state monad

    A run of a function either finishes with a value or stops: a [panic()]
    (which prints and then executes [cli; hlt]), a failed [assert()] (which
    panics), [cli; hlt] by itself, an access the language leaves undefined, or a loop whose fuel in
    the model is used up (theorems show the last does not happen). *)

Inductive stop : Type :=
  | Panic (msg : string)
  | AssertFailed (cond : string)
  | Fault (what : string)
  | Halted
  | OutOfFuel.

Inductive outcome (A : Type) : Type :=
  | Done (a : A)
  | Stopped (why : stop).
Arguments Done {A} a.
Arguments Stopped {A} why.

Definition ST (S A : Type) : Type := S -> outcome (A * S).

#[export] Instance ST_ret (S : Type) : MRet (ST S) := fun A a s => Done (a, s).
#[export] Instance ST_bind (S : Type) : MBind (ST S) := fun A B f m s =>
  match m s with
  | Done (a, s') => f a s'
  | Stopped r => Stopped r
  end.

Definition stop_with {S A : Type} (r : stop) : ST S A := fun _ => Stopped r.
Definition get {S : Type} : ST S S := fun s => Done (s, s).
Definition gets {S A : Type} (f : S -> A) : ST S A := fun s => Done (f s, s).
Definition put {S : Type} (s : S) : ST S unit := fun _ => Done (tt, s).
Definition modify {S : Type} (f : S -> S) : ST S unit := fun s => Done (tt, f s).
Definition skip {S : Type} : ST S unit := fun s => Done (tt, s).
Definition when {S : Type} (b : bool) (m : ST S unit) : ST S unit :=
  if b then m else skip.
(** [assert(cond)] of the debug build, the only build the Makefile has. *)
Definition assert_c {S : Type} (b : bool) (cond : string) : ST S unit :=
  if b then skip else stop_with (AssertFailed cond).

(** A C [for] loop over a known sequence of values of its control variable. *)
Fixpoint forM {S A : Type} (l : list A) (f : A -> ST S unit) : ST S unit :=
  match l with
  | [] => skip
  | x :: l' => f x ;; forM l' f
  end.

(** The same on a state without effects: [for (i = 0; i < n; i++) s = f(i, s)]. *)
Definition for_upto {S : Type} (n : Z) (f : Z -> S -> S) (s : S) : S :=
  foldl (fun s i => f i s) s (seqZ 0 n).

Lemma for_upto_ind {S : Type} (I : Z -> S -> Prop) (n : Z) (f : Z -> S -> S) (s : S) :
  (0 <= n)%Z -> I 0%Z s ->
  (forall i s', (0 <= i < n)%Z -> I i s' -> I (i + 1)%Z (f i s')) ->
  I n (for_upto n f s).
Proof.
  intros Hn H0 Hstep. unfold for_upto.
  cut (forall k a s', (0 <= k)%Z -> (0 <= a)%Z -> (a + k = n)%Z -> I a s' ->
         I n (foldl (fun s i => f i s) s' (seqZ a k))).
  { intros H. by apply H; [lia..|]. }
  intros k a s' Hk. revert a s'. pattern k. apply natlike_ind; [| |done].
  - intros a s' _ <- HI. by rewrite Z.add_0_r.
  - intros k' Hk' IH a s' Ha Hsum HI.
    rewrite seqZ_cons by lia. simpl. rewrite Z.pred_succ.
    apply IH; [lia..|]. apply Hstep; [lia|done].
Qed.

(** Weakest precondition: [wp m Q E s] says that a run of [m] from [s] either
    finishes with a value and a state related by [Q], or stops for a reason
    that satisfies [E].  With [E := never] it is total correctness. *)
Definition wp {S A : Type} (m : ST S A) (Q : A -> S -> Prop) (E : stop -> Prop) (s : S) : Prop :=
  match m s with
  | Done (a, s') => Q a s'
  | Stopped r => E r
  end.
Definition never (_ : stop) : Prop := False.

Section WP.
Context {S : Type}.
Implicit Types (s : S) (E : stop -> Prop).

Lemma wp_bind {A B} (m : ST S A) (f : A -> ST S B) Q E s :
  wp (m ≫= f) Q E s <-> wp m (fun a s' => wp (f a) Q E s') E s.
Proof. unfold wp, mbind, ST_bind. by destruct (m s) as [[a s']|r]. Qed.

Lemma wp_ret {A} (a : A) Q E s : wp (mret a) Q E s <-> Q a s.
Proof. done. Qed.

Lemma wp_get Q E s : wp get Q E s <-> Q s s.
Proof. done. Qed.

Lemma wp_gets {A} (f : S -> A) Q E s : wp (gets f) Q E s <-> Q (f s) s.
Proof. done. Qed.

Lemma wp_put s' Q E s : wp (put s') Q E s <-> Q tt s'.
Proof. done. Qed.

Lemma wp_modify (f : S -> S) Q E s : wp (modify f) Q E s <-> Q tt (f s).
Proof. done. Qed.

Lemma wp_skip Q E s : wp skip Q E s <-> Q tt s.
Proof. done. Qed.

Lemma wp_stop {A} r (Q : A -> S -> Prop) E s : wp (stop_with r) Q E s <-> E r.
Proof. done. Qed.

Lemma wp_when b (m : ST S unit) Q E s :
  wp (when b m) Q E s <-> if b then wp m Q E s else Q tt s.
Proof. by destruct b. Qed.

Lemma wp_assert b c Q E s :
  wp (assert_c b c) Q E s <-> if b then Q tt s else E (AssertFailed c).
Proof. by destruct b. Qed.

Lemma wp_mono {A} (m : ST S A) (Q Q' : A -> S -> Prop) E s :
  wp m Q E s -> (forall a s', Q a s' -> Q' a s') -> wp m Q' E s.
Proof. unfold wp. destruct (m s) as [[a s']|r]; eauto. Qed.

(** Rule of the [for] loop: [I done s] holds after the iterations of [done]. *)
Lemma wp_forM {A} (l : list A) (f : A -> ST S unit) (I : list A -> S -> Prop) E s :
  I [] s ->
  (forall pre x post s', l = pre ++ x :: post -> I pre s' ->
     wp (f x) (fun _ s'' => I (pre ++ [x]) s'') E s') ->
  wp (forM l f) (fun _ s' => I l s') E s.
Proof.
  intros H0 Hstep.
  cut (forall pre post s', l = pre ++ post -> I pre s' ->
         wp (forM post f) (fun _ s'' => I l s'') E s').
  { intros H. by apply (H [] l). }
  intros pre post. revert pre. induction post as [|x post IH]; intros pre s' -> HI; simpl.
  - apply wp_skip. by rewrite app_nil_r.
  - apply wp_bind. eapply wp_mono; [by eapply Hstep|].
    intros [] s'' HI'. specialize (IH (pre ++ [x]) s'').
    rewrite <- app_assoc in IH. by apply IH.
Qed.

(** A run that cannot stop is a run that finishes. *)
Lemma wp_done {A} (m : ST S A) Q s :
  wp m Q never s -> exists a s', m s = Done (a, s') /\ Q a s'.
Proof. unfold wp, never. destruct (m s) as [[a s']|r]; [eauto|done]. Qed.

Lemma done_wp {A} (m : ST S A) (Q : A -> S -> Prop) E s a s' :
  m s = Done (a, s') -> Q a s' -> wp m Q E s.
Proof. unfold wp. by intros ->. Qed.

End WP.

Create Rewrite HintDb wpdb.
#[export] Hint Rewrite @wp_bind @wp_ret @wp_get @wp_gets @wp_put @wp_modify
  @wp_skip @wp_stop @wp_when @wp_assert : wpdb.

(** Push [wp] through the monadic operations. *)
Ltac wp_norm := repeat progress (autorewrite with wpdb; cbn beta iota).

(** ** Equality of computations

    Two computations are equivalent when they agree on every state; the monad
    laws hold up to it, and [mbind] and [forM] respect it. *)

Record ST_eq {S A : Type} (m m' : ST S A) : Prop := ST_eq_intro {
  ST_eq_at : forall s, m s = m' s
}.
Arguments ST_eq_intro {S A m m'} _.
Arguments ST_eq_at {S A m m'} _ _.
#[export] Instance ST_equiv (S A : Type) : Equiv (ST S A) := ST_eq.
#[export] Instance ST_equivalence (S A : Type) : Equivalence (≡@{ST S A}).
Proof.
  split.
  - by intros m.
  - intros m m' [H]. split. intros s. by rewrite H.
  - intros m m' m'' [H] [H']. split. intros s. by rewrite H, H'.
Qed.

#[export] Instance bind_proper (S A B : Type) :
  Proper (pointwise_relation A (≡) ==> (≡) ==> (≡)) (@mbind (ST S) _ A B).
Proof.
  intros f g Hfg m m' [Hm]. split. intros s. unfold mbind, ST_bind. rewrite Hm.
  destruct (m' s) as [[a s']|]; [apply Hfg|done].
Qed.

Section Monad.
Context {S : Type}.

Lemma bind_assoc {A B C} (m : ST S A) (f : A -> ST S B) (g : B -> ST S C) :
  ((m ≫= f) ≫= g) ≡ (m ≫= (fun x => f x ≫= g)).
Proof. split. intros s. unfold mbind, ST_bind. by destruct (m s) as [[a s']|]. Qed.

Lemma ret_bind {A B} (a : A) (f : A -> ST S B) : (mret a ≫= f) ≡ f a.
Proof. done. Qed.

Lemma bind_ret (m : ST S unit) : (m ;; skip) ≡ m.
Proof. split. intros s. unfold mbind, ST_bind. by destruct (m s) as [[[] s']|]. Qed.

Lemma skip_bind {A} (m : ST S A) : (skip ;; m) ≡ m.
Proof. done. Qed.

Lemma forM_app {A} (l1 l2 : list A) (f : A -> ST S unit) :
  forM (l1 ++ l2) f ≡ (forM l1 f ;; forM l2 f).
Proof.
  induction l1 as [|x l1 IH]; simpl; [done|].
  rewrite bind_assoc. apply bind_proper; [|done]. intros _. apply IH.
Qed.

Lemma forM_ext {A} (l : list A) (f g : A -> ST S unit) :
  (forall x, x ∈ l -> f x ≡ g x) -> forM l f ≡ forM l g.
Proof.
  induction l as [|x l IH]; simpl; intros H; [done|].
  apply bind_proper; [|apply H; left]. intros _. apply IH. intros y Hy. apply H. by right.
Qed.

Lemma bind_done {A B} (m : ST S A) (f : A -> ST S B) s a s' :
  m s = Done (a, s') -> (m ≫= f) s = f a s'.
Proof. intros H. unfold mbind, ST_bind. by rewrite H. Qed.

Lemma bind_done_inv {A B} (m : ST S A) (f : A -> ST S B) s b s' :
  (m ≫= f) s = Done (b, s') -> exists a s1, m s = Done (a, s1) /\ f a s1 = Done (b, s').
Proof. unfold mbind, ST_bind. destruct (m s) as [[a s1]|]; [|done]. by exists a, s1. Qed.
Lemma bind_stopped {A B} (m : ST S A) (f : A -> ST S B) s r :
  m s = Stopped r -> (m ≫= f) s = Stopped r.
Proof. intros H. unfold mbind, ST_bind. by rewrite H. Qed.

Lemma gets_bind {A B} (f : S -> A) (k : A -> ST S B) s : (gets f ≫= k) s = k (f s) s.
Proof. done. Qed.

Lemma modify_bind {B} (f : S -> S) (k : unit -> ST S B) s : (modify f ≫= k) s = k tt (f s).
Proof. done. Qed.

Lemma assert_bind {B} b c (k : unit -> ST S B) s :
  b = true -> (assert_c b c ≫= k) s = k tt s.
Proof. by intros ->. Qed.

(** A run of the first two steps of a sequence. *)
Lemma seq_done {A B C} (f : ST S A) (g : ST S B) (k : B -> ST S C) s b s' :
  (f ;; g) s = Done (b, s') -> (f ;; (g ≫= k)) s = k b s'.
Proof.
  unfold mbind, ST_bind. destruct (f s) as [[a t]|]; [|done]. by intros ->.
Qed.

End Monad.

(** ** What a computation leaves alone

    [steps R m]: a run of [m] that finishes leads from a state to one related
    by [R].  For a preorder [R] this goes through a body by its structure. *)

Definition steps {S A : Type} (R : S -> S -> Prop) (m : ST S A) : Prop :=
  forall s a s', m s = Done (a, s') -> R s s'.

Create HintDb steps.

Section Steps.
Context {S : Type} (R : S -> S -> Prop) `{HR : !PreOrder R}.

Lemma steps_ret {A} (a : A) : steps R (mret a).
Proof. by intros s b s' [= _ <-]. Qed.
Lemma steps_stop {A} r : steps R (stop_with (A := A) r).
Proof. done. Qed.
Lemma steps_gets {A} (f : S -> A) : steps R (gets f).
Proof. by intros s b s' [= _ <-]. Qed.
Lemma steps_skip : steps R skip.
Proof. by intros s b s' [= _ <-]. Qed.
Lemma steps_bind {A B} (m : ST S A) (f : A -> ST S B) :
  steps R m -> (forall a, steps R (f a)) -> steps R (m ≫= f).
Proof.
  intros Hm Hf s b s' (a & s1 & H1 & H2)%bind_done_inv. etrans; [by eapply Hm|by eapply Hf].
Qed.
Lemma steps_if {A} (b : bool) (m1 m2 : ST S A) : steps R m1 -> steps R m2 -> steps R (if b then m1 else m2).
Proof. by destruct b. Qed.
Lemma steps_when b m : steps R m -> steps R (when b m).
Proof. intros H. destruct b; [exact H|exact steps_skip]. Qed.
Lemma steps_assert b c : steps R (assert_c b c).
Proof. destruct b; [exact steps_skip|exact (steps_stop _)]. Qed.
Lemma steps_forM {A} (f : A -> ST S unit) l : (forall x, steps R (f x)) -> steps R (forM l f).
Proof.
  intros H. induction l as [|x l IH]; cbn [forM]; [exact steps_skip|]. by apply steps_bind.
Qed.
Lemma steps_modify (f : S -> S) : (forall s, R s (f s)) -> steps R (modify f).
Proof. intros H s b s' [= _ <-]. apply H. Qed.
End Steps.

Lemma steps_mono {S A : Type} (R R' : S -> S -> Prop) (m : ST S A) :
  (forall s s', R s s' -> R' s s') -> steps R m -> steps R' m.
Proof. intros H Hm s a s' Hr. by eapply H, Hm. Qed.

#[export] Hint Resolve steps_ret steps_stop steps_gets steps_skip steps_assert steps_forM : steps.
#[export] Hint Extern 0 (PreOrder _) => exact _ : steps.

(** Goes through a body: binds, conditionals, and calls of the hint database. *)
Ltac steps_step :=
  match goal with
  | |- steps _ (_ ≫= _) => apply steps_bind; [exact _| |intros ?]
  | |- steps _ (if _ then _ else _) => apply steps_if
  | |- steps _ (when _ _) => apply steps_when; [exact _|]
  | |- steps _ (let _ := _ in _) => cbv zeta
  end.
Ltac steps := repeat steps_step; auto with steps.

(** ** Arithmetic shared by the components *)

Section Words.
Local Open Scope Z_scope.
Implicit Types x y a f : Z.

Lemma u8_small x : 0 <= x < 256 -> u8 x = x.
Proof. apply Z.mod_small. Qed.
Lemma u16_small x : 0 <= x < 65536 -> u16 x = x.
Proof. apply Z.mod_small. Qed.
Lemma u32_small x : 0 <= x < 4294967296 -> u32 x = x.
Proof. apply Z.mod_small. Qed.
Lemma u64_small x : 0 <= x < 18446744073709551616 -> u64 x = x.
Proof. apply Z.mod_small. Qed.
Lemma s32_small x : -2147483648 <= x < 2147483648 -> s32 x = x.
Proof. intros. unfold s32. rewrite Z.mod_small; lia. Qed.

Lemma u8_range x : 0 <= u8 x < 256.
Proof. by apply Z.mod_pos_bound. Qed.
Lemma u16_range x : 0 <= u16 x < 65536.
Proof. by apply Z.mod_pos_bound. Qed.
Lemma u32_range x : 0 <= u32 x < 4294967296.
Proof. by apply Z.mod_pos_bound. Qed.
Lemma u64_range x : 0 <= u64 x < 18446744073709551616.
Proof. by apply Z.mod_pos_bound. Qed.
Lemma s8_range x : -128 <= s8 x < 128.
Proof. unfold s8. pose proof (Z.mod_pos_bound (x + 128) 256 eq_refl). lia. Qed.

Lemma u8_idem x : u8 (u8 x) = u8 x.
Proof. apply u8_small, u8_range. Qed.
Lemma u64_idem x : u64 (u64 x) = u64 x.
Proof. apply u64_small, u64_range. Qed.

(** OR with flag bits below an aligned address is an addition. *)
Lemma land_aligned k a f :
  0 <= k -> a mod 2 ^ k = 0 -> 0 <= f < 2 ^ k -> Z.land a f = 0.
Proof.
  intros Hk Ha Hf. apply Z.bits_inj'. intros n Hn.
  rewrite Z.land_spec, Z.bits_0.
  destruct (decide (n < k)) as [Hlt|Hge].
  - by rewrite <- (Z.mod_pow2_bits_low a k n), Ha, Z.bits_0 by lia.
  - rewrite <- (Z.mod_small f (2 ^ k)), Z.mod_pow2_bits_high by lia.
    apply andb_false_r.
Qed.

Lemma lor_aligned k a f :
  0 <= k -> a mod 2 ^ k = 0 -> 0 <= f < 2 ^ k -> Z.lor a f = a + f.
Proof.
  intros Hk Ha Hf. pose proof (land_aligned k a f Hk Ha Hf).
  rewrite <- Z.lxor_lor by done. by rewrite Z.add_nocarry_lxor.
Qed.

(** Clearing the low [k] bits of a number. *)
Lemma land_clear_low k x :
  0 <= k -> Z.land x (Z.lnot (2 ^ k - 1)) = x - x mod 2 ^ k.
Proof.
  intros Hk. rewrite <- Z.ldiff_land.
  replace (2 ^ k - 1) with (Z.ones k) by (rewrite Z.ones_equiv; lia).
  rewrite Z.ldiff_ones_r by done.
  rewrite Z.shiftl_mul_pow2, Z.shiftr_div_pow2 by done.
  pose proof (Z.div_mod x (2 ^ k) ltac:(apply Z.pow_nonzero; lia)). lia.
Qed.

(** The mask as it is after conversion to a [w]-bit unsigned type. *)
Lemma land_clear_low_w w k x :
  0 <= k <= w -> 0 <= x < 2 ^ w ->
  Z.land x (2 ^ w - 2 ^ k) = x - x mod 2 ^ k.
Proof.
  intros Hk Hx. rewrite <- land_clear_low by lia.
  apply Z.bits_inj'. intros n Hn. rewrite !Z.land_spec.
  destruct (decide (n < w)) as [Hlt|Hge].
  - f_equal.
    assert (2 ^ w - 2 ^ k = Z.lnot (2 ^ k - 1) mod 2 ^ w) as ->.
    { replace (Z.lnot (2 ^ k - 1)) with (2 ^ w - 2 ^ k + (-1) * 2 ^ w)
        by (unfold Z.lnot; lia).
      rewrite Z.mod_add by (apply Z.pow_nonzero; lia).
      pose proof (Z.pow_le_mono_r 2 k w). pose proof (Z.pow_pos_nonneg 2 k).
      rewrite Z.mod_small; lia. }
    apply Z.mod_pow2_bits_low. lia.
  - assert (Z.testbit x n = false) as ->; [|done].
    rewrite <- (Z.mod_small x (2 ^ w)) by done.
    apply Z.mod_pow2_bits_high. lia.
Qed.

(** [(x >> n) & (2^k - 1)]: the field of [k] bits at bit [n]. *)
Lemma field_spec x n k :
  0 <= n -> 0 <= k ->
  Z.land (Z.shiftr x n) (2 ^ k - 1) = x / 2 ^ n mod 2 ^ k.
Proof.
  intros Hn Hk. rewrite Z.shiftr_div_pow2 by done.
  replace (2 ^ k - 1) with (Z.ones k) by (rewrite Z.ones_equiv; lia).
  by apply Z.land_ones.
Qed.

(** Rounding up to a multiple of [al], the way the allocators do it. *)
Lemma round_up_aligned a al :
  0 < al -> a mod al <> 0 -> (a + (al - a mod al)) mod al = 0.
Proof.
  intros Hal Hne.
  replace (a + (al - a mod al)) with ((a / al + 1) * al).
  - apply Z.mod_mul. lia.
  - pose proof (Z.div_mod a al ltac:(lia)). lia.
Qed.

End Words.

Create Rewrite HintDb mach.
Create HintDb mach_range.
#[export] Hint Rewrite u8_small u16_small u32_small u64_small s32_small using lia : mach.
#[export] Hint Resolve u8_range u16_range u32_range u64_range : mach_range.

(** Linear arithmetic in the presence of division and remainder. *)
Ltac lia_div := Z.to_euclidean_division_equations; lia.

(** Remove the conversions whose argument is in range, innermost first. *)
Ltac no_conv x :=
  lazymatch x with
  | context [u8 _] => fail | context [u16 _] => fail | context [u32 _] => fail
  | context [u64 _] => fail | context [s32 _] => fail | _ => idtac
  end.
Ltac mach_small_step :=
  match goal with
  | |- context [u8 ?x] => no_conv x; rewrite (u8_small x) by lia
  | |- context [u16 ?x] => no_conv x; rewrite (u16_small x) by lia
  | |- context [u32 ?x] => no_conv x; rewrite (u32_small x) by lia
  | |- context [u64 ?x] => no_conv x; rewrite (u64_small x) by lia
  | |- context [s32 ?x] => no_conv x; rewrite (s32_small x) by lia
  end.
Ltac mach_small := repeat mach_small_step.
