(* ===== verification/Memory.v ===== *)
(** The byte-addressed memory the program runs in, little-endian loads and
    stores of 16, 32 and 64 bits, and the memory and string functions of the C
    library (src/src/libc/string, of which src/src/awd/libc/string is a
    verbatim copy).

    A pointer is its address.  Reads are total: a byte of an address that was
    never written has some value (0 in the empty memory), and every read gives
    a byte in 0..255.  C makes a pointer that leaves its object undefined, so
    address computations inside an object do not wrap. *)

From S2P Require Import Prelude.
Local Open Scope Z_scope.

Abbreviation mem := (gmap Z Z).

Definition mget (m : mem) (a : Z) : Z := u8 (default 0 (m !! a)).
Definition mput (m : mem) (a v : Z) : mem := <[a := u8 v]> m.

(** Little-endian access to an [n]-byte integer. *)
Fixpoint load (n : nat) (m : mem) (a : Z) : Z :=
  match n with
  | O => 0
  | S n' => mget m a + 256 * load n' m (a + 1)
  end.

Fixpoint store (n : nat) (m : mem) (a v : Z) : mem :=
  match n with
  | O => m
  | S n' => store n' (mput m a v) (a + 1) (v / 256)
  end.

Definition load16 := load 2.
Definition load32 := load 4.
Definition load64 := load 8.
Definition store32 := store 4.
Definition store64 := store 8.

(** [memset]: the [for] loop writes the low byte of [value] [num] times. *)
Fixpoint memset_loop (n : nat) (ptr_index value : Z) (m : mem) : mem :=
  match n with
  | O => m
  | S n' => memset_loop n' (ptr_index + 1) value (mput m ptr_index value)
  end.
Definition memset (m : mem) (ptr value num : Z) : mem :=
  memset_loop (Z.to_nat num) ptr value m.

(** [memcpy]: both pointers advance, one byte per iteration. *)
Fixpoint memcpy_loop (n : nat) (destPtr srcPtr : Z) (m : mem) : mem :=
  match n with
  | O => m
  | S n' => memcpy_loop n' (destPtr + 1) (srcPtr + 1) (mput m destPtr (mget m srcPtr))
  end.
Definition memcpy (m : mem) (dest src n : Z) : mem :=
  memcpy_loop (Z.to_nat n) dest src m.

(** [memmove]: upwards when the destination is below the source, else
    downwards from index [size - 1]. *)
Fixpoint memmove_up (k : nat) (i : Z) (dst src : Z) (m : mem) : mem :=
  match k with
  | O => m
  | S k' => memmove_up k' (i + 1) dst src (mput m (dst + i) (mget m (src + i)))
  end.
Fixpoint memmove_down (i : nat) (dst src : Z) (m : mem) : mem :=
  match i with
  | O => m
  | S i' => memmove_down i' dst src
              (mput m (dst + Z.of_nat i - 1) (mget m (src + Z.of_nat i - 1)))
  end.
Definition memmove (m : mem) (dst src size : Z) : mem :=
  if dst <? src then memmove_up (Z.to_nat size) 0 dst src m
  else memmove_down (Z.to_nat size) dst src m.

(** [strlen] and [strcmp] scan for the terminator; [None] is a scan longer
    than the fuel. *)
Fixpoint strlen_loop (fuel : nat) (m : mem) (idx length : Z) : option Z :=
  match fuel with
  | O => None
  | S fuel' =>
      if mget m idx =? 0 then Some length
      else strlen_loop fuel' m (idx + 1) (length + 1)
  end.
Definition strlen (fuel : nat) (m : mem) (str : Z) : option Z :=
  strlen_loop fuel m str 0.

Fixpoint strcmp (fuel : nat) (m : mem) (str1 str2 : Z) : option Z :=
  match fuel with
  | O => None
  | S fuel' =>
      if mget m str1 =? 0 then Some (mget m str1 - mget m str2)
      else if negb (mget m str1 =? mget m str2) then Some (mget m str1 - mget m str2)
      else strcmp fuel' m (str1 + 1) (str2 + 1)
  end.

(** The loader links copies of its own (src/src/awd/libc/string), of the same
    text. *)
Definition awd_memset := memset.
Definition awd_memcpy := memcpy.
Definition awd_memmove := memmove.
Definition awd_strlen := strlen.
Definition awd_strcmp := strcmp.

(** The C string at [p] is [s]: its bytes, none of them 0, and a terminator. *)
Definition byte_ok (b : Z) : Prop := 0 < b < 256.
Definition cstring (m : mem) (p : Z) (s : list Z) : Prop :=
  Forall byte_ok s /\
  (forall i b, s !! i = Some b -> mget m (p + Z.of_nat i) = b) /\
  mget m (p + Z.of_nat (length s)) = 0.

(** Two memories agree on [n] bytes from [a] on; and everywhere outside. *)
Definition agree_on (m m' : mem) (a n : Z) : Prop :=
  forall b, a <= b < a + n -> mget m b = mget m' b.
Definition agree_outside (m m' : mem) (a n : Z) : Prop :=
  forall b, ~ (a <= b < a + n) -> mget m b = mget m' b.

(** Lay out bytes in memory, to build concrete images. *)
Fixpoint poke (m : mem) (a : Z) (l : list Z) : mem :=
  match l with
  | [] => m
  | b :: l' => poke (mput m a b) (a + 1) l'
  end.

(** ** Bytes *)

Lemma mget_range m a : 0 <= mget m a < 256.
Proof. apply u8_range. Qed.

Lemma mget_mput m a b v : mget (mput m a v) b = if decide (a = b) then u8 v else mget m b.
Proof.
  unfold mget, mput. rewrite lookup_insert. case_decide; [|done].
  simpl. apply u8_idem.
Qed.

Lemma mget_mput_eq m a v : mget (mput m a v) a = u8 v.
Proof. rewrite mget_mput. by rewrite decide_True. Qed.

Lemma mget_mput_ne m a b v : a <> b -> mget (mput m a v) b = mget m b.
Proof. intros. rewrite mget_mput. by rewrite decide_False. Qed.

#[export] Hint Rewrite mget_mput_eq : mach.
#[export] Hint Rewrite mget_mput_ne using lia : mach.
#[export] Hint Resolve mget_range : mach_range.

Lemma mget_poke_ne m a l b :
  b < a \/ a + Z.of_nat (length l) <= b -> mget (poke m a l) b = mget m b.
Proof.
  revert m a. induction l as [|x l IH]; intros m a Hb; [done|]. simpl length in Hb. cbn [poke].
  rewrite IH by lia. apply mget_mput_ne. lia.
Qed.

(** ** Words *)

Lemma load_ext n m m' a :
  agree_on m m' a (Z.of_nat n) -> load n m a = load n m' a.
Proof.
  revert a. induction n as [|n IH]; intros a H; simpl; [done|].
  rewrite (H a) by lia. f_equal. f_equal. apply IH. intros b Hb. apply H. lia.
Qed.

Lemma load_range n m a : 0 <= load n m a < 256 ^ Z.of_nat n.
Proof.
  revert a. induction n as [|n IH]; intros a; [simpl; lia|].
  cbn [load]. rewrite Nat2Z.inj_succ, Z.pow_succ_r by lia.
  pose proof (mget_range m a). specialize (IH (a + 1)). lia.
Qed.

Lemma load64_range m a : 0 <= load64 m a < 18446744073709551616.
Proof. apply (load_range 8). Qed.
Lemma load32_range m a : 0 <= load32 m a < 4294967296.
Proof. apply (load_range 4). Qed.
#[export] Hint Resolve load64_range load32_range : mach_range.

Lemma mget_store_ne n m a v b :
  ~ (a <= b < a + Z.of_nat n) -> mget (store n m a v) b = mget m b.
Proof.
  revert m a v. induction n as [|n IH]; intros m a v H; simpl; [done|].
  rewrite IH by lia. apply mget_mput_ne. lia.
Qed.

Lemma store_agree n m a v : agree_outside (store n m a v) m a (Z.of_nat n).
Proof. intros b Hb. by apply mget_store_ne. Qed.

Lemma load_store_eq n m a v : load n (store n m a v) a = v mod 256 ^ Z.of_nat n.
Proof.
  revert m a v. induction n as [|n IH]; intros m a v; [by rewrite Z.mod_1_r|].
  cbn [load store]. rewrite mget_store_ne, mget_mput_eq, IH by lia.
  rewrite Nat2Z.inj_succ, Z.pow_succ_r by lia.
  unfold u8.
  rewrite Z.rem_mul_r by (try apply Z.pow_nonzero; lia). lia.
Qed.

Lemma load_store_ne n k m a b v :
  b + Z.of_nat k <= a \/ a + Z.of_nat n <= b -> load k (store n m a v) b = load k m b.
Proof. intros H. apply load_ext. intros c Hc. apply mget_store_ne. lia. Qed.

Lemma load64_store64_eq m a v : load64 (store64 m a v) a = u64 v.
Proof. apply (load_store_eq 8). Qed.

Lemma load64_store64_ne m a b v :
  b + 8 <= a \/ a + 8 <= b -> load64 (store64 m a v) b = load64 m b.
Proof. apply (load_store_ne 8 8). Qed.

Lemma load_agree_outside n m m' a k b :
  agree_outside m m' a k -> b + Z.of_nat n <= a \/ a + k <= b ->
  load n m b = load n m' b.
Proof. intros H Hd. apply load_ext. intros c Hc. apply H. lia. Qed.

Lemma load_mput_ne n m a b v :
  a < b \/ b + Z.of_nat n <= a -> load n (mput m a v) b = load n m b.
Proof. intros H. apply load_ext. intros c Hc. apply mget_mput_ne. lia. Qed.

(** Evaluate the reads of the goal through the writes they are apart from or
    coincide with; addresses are compared by [lia]. *)
Ltac mem_step :=
  match goal with
  | |- context [load ?k (store ?n ?m ?a ?v) ?b] =>
      first [rewrite (load_store_ne n k m a b v) by lia
            |constr_eq k n; constr_eq a b; rewrite (load_store_eq n m a v)]
  | |- context [load ?k (mput ?m ?a ?v) ?b] => rewrite (load_mput_ne k m a b v) by lia
  | |- context [mget (store ?n ?m ?a ?v) ?b] => rewrite (mget_store_ne n m a v b) by lia
  | |- context [mget (mput ?m ?a ?v) ?b] =>
      first [rewrite (mget_mput_ne m a b v) by lia|constr_eq a b; rewrite (mget_mput_eq m a v)]
  end.
Ltac mem_simpl := unfold load16, load32, load64, store32, store64; repeat mem_step.

Lemma load_zero n m a :
  (forall b, a <= b < a + Z.of_nat n -> mget m b = 0) -> load n m a = 0.
Proof.
  revert a. induction n as [|n IH]; intros a H; simpl; [done|].
  rewrite H by lia. rewrite IH; [done|]. intros; apply H; lia.
Qed.

(** ** memset, memcpy, memmove *)

Lemma memset_loop_get n p v m b :
  mget (memset_loop n p v m) b =
    if decide (p <= b < p + Z.of_nat n) then u8 v else mget m b.
Proof.
  revert p m. induction n as [|n IH]; intros p m; simpl.
  - by rewrite decide_False by lia.
  - rewrite IH, mget_mput. repeat case_decide; try done; lia.
Qed.

Lemma memset_get m p v n b :
  0 <= n -> mget (memset m p v n) b = if decide (p <= b < p + n) then u8 v else mget m b.
Proof. intros. unfold memset. rewrite memset_loop_get. by rewrite Z2Nat.id. Qed.

Lemma memset_agree m p v n : 0 <= n -> agree_outside (memset m p v n) m p n.
Proof. intros Hn b Hb. rewrite memset_get by done. by rewrite decide_False. Qed.

Lemma memset_zero_load k m p n b :
  0 <= n -> p <= b -> b + Z.of_nat k <= p + n -> load k (memset m p 0 n) b = 0.
Proof.
  intros. apply load_zero. intros c Hc. rewrite memset_get by done.
  rewrite decide_True by lia. done.
Qed.

(** A forward byte copy is right when no byte is read after it was written. *)
Lemma memcpy_loop_get n d s m b :
  d <= s \/ s + Z.of_nat n <= d ->
  mget (memcpy_loop n d s m) b =
    if decide (d <= b < d + Z.of_nat n) then mget m (s + (b - d)) else mget m b.
Proof.
  revert d s m. induction n as [|n IH]; intros d s m H; simpl.
  - by rewrite decide_False by lia.
  - rewrite IH by lia.
    destruct (decide (d <= b < d + Z.of_nat (S n))) as [Hin|Hout].
    + case_decide as Hin'.
      * rewrite mget_mput_ne by lia. f_equal. lia.
      * assert (b = d) as -> by lia. rewrite mget_mput_eq.
        rewrite u8_small by apply mget_range. f_equal. lia.
    + rewrite decide_False by lia. apply mget_mput_ne. lia.
Qed.

Lemma memcpy_get m d s n b :
  0 <= n -> d <= s \/ s + n <= d ->
  mget (memcpy m d s n) b =
    if decide (d <= b < d + n) then mget m (s + (b - d)) else mget m b.
Proof.
  intros Hn H. unfold memcpy. rewrite memcpy_loop_get by lia. by rewrite Z2Nat.id.
Qed.

Lemma memmove_up_get k i d s m b :
  d < s ->
  mget (memmove_up k i d s m) b =
    if decide (d + i <= b < d + i + Z.of_nat k) then mget m (s + (b - d)) else mget m b.
Proof.
  intros Hds. revert i m. induction k as [|k IH]; intros i m; simpl.
  - by rewrite decide_False by lia.
  - rewrite IH.
    destruct (decide (d + i <= b < d + i + Z.of_nat (S k))) as [Hin|Hout].
    + case_decide as Hin'.
      * by rewrite mget_mput_ne by lia.
      * assert (b = d + i) as -> by lia. rewrite mget_mput_eq.
        rewrite u8_small by apply mget_range. f_equal. lia.
    + rewrite decide_False by lia. apply mget_mput_ne. lia.
Qed.

Lemma memmove_down_get k d s m b :
  s <= d ->
  mget (memmove_down k d s m) b =
    if decide (d <= b < d + Z.of_nat k) then mget m (s + (b - d)) else mget m b.
Proof.
  intros Hsd. revert m. induction k as [|k IH]; intros m; cbn [memmove_down].
  - by rewrite decide_False by lia.
  - rewrite IH.
    destruct (decide (d <= b < d + Z.of_nat (S k))) as [Hin|Hout].
    + case_decide as Hin'.
      * by rewrite mget_mput_ne by lia.
      * assert (b = d + Z.of_nat (S k) - 1) as -> by lia. rewrite mget_mput_eq.
        rewrite u8_small by apply mget_range. f_equal. lia.
    + rewrite decide_False by lia. apply mget_mput_ne. lia.
Qed.

Lemma memmove_get (m : mem) (dst src size b : Z) (Hsize : 0 <= size) :
  mget (memmove m dst src size) b =
    if decide (dst <= b < dst + size) then mget m (src + (b - dst)) else mget m b.
Proof.
  unfold memmove. destruct (dst <? src) eqn:E.
  - rewrite memmove_up_get by lia. rewrite Z.add_0_r. by rewrite Z2Nat.id.
  - rewrite memmove_down_get by lia. by rewrite Z2Nat.id.
Qed.

(** [memmove] copies [size] bytes whatever the overlap of source and
    destination, and changes nothing else. *)
Theorem memmove_correct (m : mem) (dst src size b : Z) (Hsize : 0 <= size) :
  mget (memmove m dst src size) b =
    if decide (dst <= b < dst + size) then mget m (src + (b - dst)) else mget m b.
Proof. by apply memmove_get. Qed.

Definition sample_mem : mem := store32 (store64 ∅ 100 72623859790382856) 108 3735928559.

Lemma memmove_correct_witness :
  0 <= 8 /\ mget (memmove sample_mem 102 100 8) 109 = mget sample_mem 107.
Proof. split; [lia|]. apply (memmove_correct sample_mem 102 100 8 109). lia. Defined.

(** ** C strings *)

Lemma cstring_tail m p b s : cstring m p (b :: s) -> mget m p = b /\ byte_ok b /\ cstring m (p + 1) s.
Proof.
  intros (Hok & Hget & Hend). inversion Hok; subst.
  split; [|split; [done|split; [done|split]]].
  - specialize (Hget 0%nat b eq_refl). by rewrite Z.add_0_r in Hget.
  - intros i c Hc. specialize (Hget (S i) c Hc). rewrite <- Hget. f_equal. lia.
  - rewrite <- Hend. f_equal. simpl length. lia.
Qed.

Lemma cstring_nil m p : cstring m p [] -> mget m p = 0.
Proof. intros (_ & _ & H). by rewrite Z.add_0_r in H. Qed.

Lemma strlen_loop_correct fuel m p s n :
  cstring m p s -> (length s < fuel)%nat ->
  strlen_loop fuel m p n = Some (n + Z.of_nat (length s)).
Proof.
  revert p s n. induction fuel as [|fuel IH]; intros p s n Hs Hf; [lia|].
  destruct s as [|b s]; simpl.
  - rewrite (cstring_nil _ _ Hs). simpl. by rewrite Z.add_0_r.
  - apply cstring_tail in Hs as (-> & [Hb _] & Hs).
    destruct (b =? 0) eqn:E; [lia|]. rewrite (IH _ s) by (try done; simpl in Hf; lia).
    f_equal. lia.
Qed.

Lemma strlen_correct fuel m p s :
  cstring m p s -> (length s < fuel)%nat -> strlen fuel m p = Some (Z.of_nat (length s)).
Proof. intros. unfold strlen. by erewrite strlen_loop_correct. Qed.

(** The order [strcmp] decides: the first differing byte, a missing byte
    counting as 0. *)
Fixpoint strcmp_spec (s1 s2 : list Z) : Z :=
  match s1, s2 with
  | [], [] => 0
  | [], b2 :: _ => - b2
  | b1 :: _, [] => b1
  | b1 :: s1', b2 :: s2' => if b1 =? b2 then strcmp_spec s1' s2' else b1 - b2
  end.

Lemma strcmp_spec_ok fuel m p1 p2 s1 s2 :
  cstring m p1 s1 -> cstring m p2 s2 -> (Nat.min (length s1) (length s2) < fuel)%nat ->
  strcmp fuel m p1 p2 = Some (strcmp_spec s1 s2).
Proof.
  revert p1 p2 s1 s2. induction fuel as [|fuel IH]; intros p1 p2 s1 s2 H1 H2 Hf; [lia|].
  destruct s1 as [|b1 s1]; simpl.
  - rewrite (cstring_nil _ _ H1). destruct s2 as [|b2 s2]; simpl.
    + by rewrite (cstring_nil _ _ H2).
    + by apply cstring_tail in H2 as (-> & _ & _).
  - apply cstring_tail in H1 as (-> & [Hb1 _] & H1).
    destruct (b1 =? 0) eqn:E; [lia|]. destruct s2 as [|b2 s2]; simpl.
    + rewrite (cstring_nil _ _ H2), E. simpl. f_equal. lia.
    + apply cstring_tail in H2 as (-> & _ & H2).
      destruct (b1 =? b2) eqn:E'; simpl; [|done].
      apply IH; try done. simpl in Hf. lia.
Qed.

Lemma strcmp_spec_zero s1 s2 :
  Forall byte_ok s1 -> Forall byte_ok s2 -> strcmp_spec s1 s2 = 0 <-> s1 = s2.
Proof.
  revert s2. induction s1 as [|b1 s1 IH]; intros [|b2 s2] H1 H2; simpl; try done.
  - inversion H2 as [|?? [? ?] ?]; subst. split; [lia|done].
  - inversion H1 as [|?? [? ?] ?]; subst. split; [lia|done].
  - inversion H1; subst. inversion H2; subst. destruct (b1 =? b2) eqn:E.
    + rewrite IH by done. assert (b1 = b2) as -> by lia. naive_solver.
    + split; [lia|]. intros [= -> ->]. lia.
Qed.

(** [strcmp] on two C strings returns 0 exactly when they are equal. *)
Theorem strcmp_correct (fuel : nat) (m : mem) (p1 p2 : Z) (s1 s2 : list Z)
    (H1 : cstring m p1 s1) (H2 : cstring m p2 s2) (Hfuel : (length s1 < fuel)%nat) :
  exists r, strcmp fuel m p1 p2 = Some r /\ (r = 0 <-> s1 = s2).
Proof.
  exists (strcmp_spec s1 s2). split; [apply strcmp_spec_ok; (done || lia)|].
  apply strcmp_spec_zero; [apply H1|apply H2].
Qed.

(** "AB" at 10 and "AC" at 20. *)
Definition sample_strings : mem :=
  mput (mput (mput (mput (mput (mput ∅ 10 65) 11 66) 12 0) 20 65) 21 67) 22 0.

Lemma strcmp_correct_witness :
  exists r, strcmp 3 sample_strings 10 20 = Some r /\ (r = 0 <-> [65; 66] = [65; 67]).
Proof.
  apply strcmp_correct; [..|simpl; lia]; unfold cstring, byte_ok;
    (split; [repeat constructor; lia|]); (split; [|reflexivity]);
    intros [|[|i]] b; simpl; intros [= <-]; reflexivity.
Defined.
