(* ===== verification/CTypes.v ===== *)
(** The layout of C structures under the two ABIs the program is compiled for
    (System V for i386 and for x86-64): sizes, alignments and member offsets,
    packed structures and unions, access to members in memory; members are
    aligned, lie inside their object and do not overlap, so that a store to one
    changes no other. *)

From S2P Require Import Prelude Memory.
Local Open Scope Z_scope.

(** ** Types and their layout *)

(** Integers by their size in bytes; a member that is an anonymous structure has
    the name _. *)
Inductive ctype :=
  | CInt (size : Z)
  | CPtr
  | CArray (t : ctype) (n : Z)
  | CStruct (packed : bool) (fs : fields)
  | CUnion (fs : fields)
with fields :=
  | FNil
  | FCons (f : string) (t : ctype) (fs : fields).

Scheme ctype_fields_ind := Induction for ctype Sort Prop
  with fields_ctype_ind := Induction for fields Sort Prop.
Combined Scheme ctype_mutind from ctype_fields_ind, fields_ctype_ind.

Fixpoint fields_of (l : list (string * ctype)) : fields :=
  match l with [] => FNil | (f, t) :: l' => FCons f t (fields_of l') end.
Definition c_struct (l : list (string * ctype)) : ctype := CStruct false (fields_of l).
Definition c_packed (l : list (string * ctype)) : ctype := CStruct true (fields_of l).
Definition c_union (l : list (string * ctype)) : ctype := CUnion (fields_of l).

Definition uint8 : ctype := CInt 1.
Definition uint16 : ctype := CInt 2.
Definition uint32 : ctype := CInt 4.
Definition uint64 : ctype := CInt 8.

(** What the ABIs differ in: pointers, and where 8-byte integers may lie. *)
Class Abi := { abi_ptr : Z; abi_align8 : Z }.
Class AbiOk (A : Abi) := {
  abi_ptr_ok : abi_ptr = 4 \/ abi_ptr = 8;
  abi_align8_ok : abi_align8 = 4 \/ abi_align8 = 8
}.
Definition i386 : Abi := {| abi_ptr := 4; abi_align8 := 4 |}.
Definition x86_64 : Abi := {| abi_ptr := 8; abi_align8 := 8 |}.
#[export] Instance i386_ok : AbiOk i386.
Proof. split; by left. Qed.
#[export] Instance x86_64_ok : AbiOk x86_64.
Proof. split; by right. Qed.

Definition align_up (a al : Z) : Z := (a + al - 1) / al * al.

Section Layout.
Context {A : Abi}.

Fixpoint alignof (t : ctype) : Z :=
  match t with
  | CInt n => if n =? 8 then abi_align8 else n
  | CPtr => abi_ptr
  | CArray t' _ => alignof t'
  | CStruct packed fs => if packed then 1 else aligns fs
  | CUnion fs => aligns fs
  end
with aligns (fs : fields) : Z :=
  match fs with FNil => 1 | FCons _ t fs' => Z.max (alignof t) (aligns fs') end.

(** Where a member goes if the members before it end at [pos]. *)
Definition place (packed : bool) (pos : Z) (t : ctype) : Z :=
  if packed then pos else align_up pos (alignof t).

Fixpoint sizeof (t : ctype) : Z :=
  match t with
  | CInt n => n
  | CPtr => abi_ptr
  | CArray t' n => sizeof t' * n
  | CStruct packed fs => align_up (end_of_struct packed 0 fs) (if packed then 1 else aligns fs)
  | CUnion fs => align_up (sizes fs) (aligns fs)
  end
with end_of_struct (packed : bool) (pos : Z) (fs : fields) : Z :=
  match fs with
  | FNil => pos
  | FCons _ t fs' => end_of_struct packed (place packed pos t + sizeof t) fs'
  end
with sizes (fs : fields) : Z :=
  match fs with FNil => 0 | FCons _ t fs' => Z.max (sizeof t) (sizes fs') end.

(** The members with their offsets. *)
Fixpoint placed (packed : bool) (pos : Z) (fs : fields) : list (string * (Z * ctype)) :=
  match fs with
  | FNil => []
  | FCons f t fs' =>
      (f, (place packed pos t, t)) :: placed packed (place packed pos t + sizeof t) fs'
  end.
Fixpoint overlaid (fs : fields) : list (string * (Z * ctype)) :=
  match fs with FNil => [] | FCons f t fs' => (f, (0, t)) :: overlaid fs' end.
Definition members (t : ctype) : list (string * (Z * ctype)) :=
  match t with
  | CStruct packed fs => placed packed 0 fs
  | CUnion fs => overlaid fs
  | _ => []
  end.

Fixpoint lookup_member (f : string) (l : list (string * (Z * ctype))) : option (Z * ctype) :=
  match l with
  | [] => None
  | (g, ot) :: l' => if String.eqb g f then Some ot else lookup_member f l'
  end.

(** The offset and type of a member of a member ... *)
Fixpoint member (t : ctype) (path : list string) : option (Z * ctype) :=
  match path with
  | [] => Some (0, t)
  | f :: path' =>
      match lookup_member f (members t) with
      | None => None
      | Some (o, t') =>
          match member t' path' with Some (o', t'') => Some (o + o', t'') | None => None end
      end
  end.
Definition offsetof (t : ctype) (path : list string) : option Z := fst <$> member t path.

(** Reading and storing a scalar member of the object at [a]. *)
Definition scalar_size (t : ctype) : option nat :=
  match t with
  | CInt n => Some (Z.to_nat n)
  | CPtr => Some (Z.to_nat abi_ptr)
  | _ => None
  end.
Definition read_member (t : ctype) (path : list string) (m : mem) (a : Z) : option Z :=
  match member t path with
  | Some (o, t') => (fun n => load n m (a + o)) <$> scalar_size t'
  | None => None
  end.
Definition write_member (t : ctype) (path : list string) (m : mem) (a v : Z) : option mem :=
  match member t path with
  | Some (o, t') => (fun n => store n m (a + o) v) <$> scalar_size t'
  | None => None
  end.
End Layout.

(** ** Well-formed types *)

Fixpoint ctype_ok (t : ctype) : Prop :=
  match t with
  | CInt n => n = 1 \/ n = 2 \/ n = 4 \/ n = 8
  | CPtr => True
  | CArray t' n => ctype_ok t' /\ 0 <= n
  | CStruct _ fs | CUnion fs => fields_ok fs
  end
with fields_ok (fs : fields) : Prop :=
  match fs with FNil => True | FCons _ t fs' => ctype_ok t /\ fields_ok fs' end.

Lemma align_up_spec a al : 0 < al -> a <= align_up a al < a + al /\ align_up a al mod al = 0.
Proof. intros Hal. unfold align_up. split; [lia_div|apply Z.mod_mul; lia]. Qed.

Section Facts.
Context {A : Abi} {Aok : AbiOk A}.

(** Alignments are powers of two, at most 8. *)
Definition align_ok (z : Z) : Prop := z = 1 \/ z = 2 \/ z = 4 \/ z = 8.

Lemma max_align x y : align_ok x -> align_ok y -> align_ok (Z.max x y) /\ (Z.max x y) mod x = 0 /\ (Z.max x y) mod y = 0.
Proof. unfold align_ok. intros [->|[->|[->| ->]]] [->|[->|[->| ->]]]; vm_compute; auto 10. Qed.

Lemma aligns_ok :
  (forall t, ctype_ok t -> align_ok (alignof t)) /\ (forall fs, fields_ok fs -> align_ok (aligns fs)).
Proof.
  destruct abi_ptr_ok as [Hp|Hp]; destruct abi_align8_ok as [H8|H8]; unfold align_ok;
  (apply ctype_mutind; cbn [alignof aligns ctype_ok fields_ok]; rewrite ?Hp, ?H8; [| | | | |auto|];
   [intros n Hn; destruct (Z.eqb_spec n 8); lia|auto|intros t IH n [Ht _]; auto|intros [] fs IH H; auto|auto|
    intros f t IHt fs IHfs [H1 H2]; by apply max_align; [apply IHt|apply IHfs]]).
Qed.
Lemma align_pos t : ctype_ok t -> 0 < alignof t.
Proof. intros H%aligns_ok. unfold align_ok in H. lia. Qed.
Lemma aligns_pos fs : fields_ok fs -> 0 < aligns fs.
Proof. intros H%aligns_ok. unfold align_ok in H. lia. Qed.

Lemma place_spec packed pos t :
  ctype_ok t -> pos <= place packed pos t /\ (packed = false -> place packed pos t mod alignof t = 0).
Proof.
  intros Ht. pose proof (align_up_spec pos _ (align_pos t Ht)). unfold place.
  destruct packed; split; try lia; done.
Qed.

Lemma sizes_nonneg :
  (forall t, ctype_ok t -> 0 <= sizeof t) /\
  (forall fs, fields_ok fs -> 0 <= sizes fs /\ forall packed pos, pos <= end_of_struct packed pos fs).
Proof.
  apply ctype_mutind; cbn [sizeof sizes end_of_struct ctype_ok fields_ok].
  - lia.
  - destruct abi_ptr_ok; lia.
  - intros t IH n [Ht Hn]. specialize (IH Ht). lia.
  - intros packed fs IH Hok. destruct (IH Hok) as [_ H]. specialize (H packed 0).
    assert (0 < if packed then 1 else aligns fs) as Hal by (destruct packed; [lia|by apply aligns_pos]).
    pose proof (align_up_spec (end_of_struct packed 0 fs) _ Hal). lia.
  - intros fs IH Hok. destruct (IH Hok) as [H _].
    pose proof (align_up_spec (sizes fs) _ (aligns_pos fs Hok)). lia.
  - intros _. split; [lia|intros; lia].
  - intros f t IHt fs IHfs [H1 H2]. specialize (IHt H1). destruct (IHfs H2) as [Ha Hb]. split; [lia|].
    intros packed pos. pose proof (place_spec packed pos t H1) as [Hp _].
    specialize (Hb packed (place packed pos t + sizeof t)). lia.
Qed.
Definition sizeof_nonneg t : ctype_ok t -> 0 <= sizeof t := proj1 sizes_nonneg t.

(** The size is a multiple of the alignment, so the elements of an array are
    aligned. *)
Lemma sizeof_aligned t : ctype_ok t -> sizeof t mod alignof t = 0.
Proof.
  induction t as [n| |t IH n|packed fs|fs]; cbn [sizeof alignof ctype_ok].
  - destruct abi_align8_ok as [->| ->]; intros [->|[->|[->| ->]]]; done.
  - intros _. apply Z.mod_same. destruct abi_ptr_ok; lia.
  - intros [Ht Hn]. specialize (IH Ht). pose proof (align_pos t Ht).
    rewrite Z.mul_mod, IH by lia. apply Z.mod_0_l. lia.
  - intros Hok. apply align_up_spec. destruct packed; [lia|by apply aligns_pos].
  - intros Hok. apply align_up_spec. by apply aligns_pos.
Qed.

(** ** Members *)

Definition range := (Z * ctype)%type.
Definition inside (lo hi : Z) (r : range) : Prop := lo <= r.1 /\ r.1 + sizeof r.2 <= hi.

Lemma placed_inside packed pos fs f r :
  fields_ok fs -> lookup_member f (placed packed pos fs) = Some r ->
  ctype_ok r.2 /\ inside pos (end_of_struct packed pos fs) r /\ (packed = false -> r.1 mod alignof r.2 = 0).
Proof.
  revert pos. induction fs as [|g t fs IH]; intros pos Hok Hl; [done|].
  destruct Hok as [H1 H2]. cbn [placed lookup_member end_of_struct] in *.
  destruct (place_spec packed pos t H1) as [Hp Hal]. pose proof (sizeof_nonneg t H1) as Hs.
  destruct (String.eqb g f).
  - injection Hl as <-. split; [done|]. split; [|done]. split; cbn [fst snd]; [lia|].
    apply (proj2 (proj2 sizes_nonneg fs H2)).
  - destruct (IH _ H2 Hl) as (G1 & [G2 G3] & G4). split; [done|]. split; [split; lia|done].
Qed.

(** Members of different names do not overlap. *)
Lemma placed_disjoint packed pos fs f g r q :
  fields_ok fs -> f <> g -> lookup_member f (placed packed pos fs) = Some r ->
  lookup_member g (placed packed pos fs) = Some q ->
  r.1 + sizeof r.2 <= q.1 \/ q.1 + sizeof q.2 <= r.1.
Proof.
  intros Hok Hne. revert pos Hok. induction fs as [|h t fs IH]; intros pos Hok Hf Hg; [done|].
  destruct Hok as [H1 H2]. cbn [placed lookup_member] in *.
  destruct (String.eqb_spec h f) as [E1|], (String.eqb_spec h g) as [E2|]; [congruence| | |by eapply IH].
  - injection Hf as <-. destruct (placed_inside _ _ _ _ _ H2 Hg) as (_ & [G _] & _). left. exact G.
  - injection Hg as <-. destruct (placed_inside _ _ _ _ _ H2 Hf) as (_ & [G _] & _). right. exact G.
Qed.

Lemma overlaid_inside fs f r :
  fields_ok fs -> lookup_member f (overlaid fs) = Some r ->
  ctype_ok r.2 /\ r.1 = 0 /\ sizeof r.2 <= sizes fs.
Proof.
  induction fs as [|g t fs IH]; intros Hok Hl; [done|]. destruct Hok as [H1 H2].
  cbn [overlaid lookup_member sizes] in *. destruct (String.eqb g f).
  - injection Hl as <-. cbn [fst snd]. split; [done|]. lia.
  - destruct (IH H2 Hl) as (G1 & G2 & G3). split; [done|]. lia.
Qed.

Lemma members_inside t f r :
  ctype_ok t -> lookup_member f (members t) = Some r -> ctype_ok r.2 /\ inside 0 (sizeof t) r.
Proof.
  destruct t as [n| |t n|packed fs|fs]; cbn [members ctype_ok sizeof]; intros Hok Hl; try done.
  - destruct (placed_inside _ _ _ _ _ Hok Hl) as (H1 & [H2 H3] & _). split; [done|]. split; [done|].
    assert (0 < if packed then 1 else aligns fs) as Hal by (destruct packed; [lia|by apply aligns_pos]).
    pose proof (align_up_spec (end_of_struct packed 0 fs) _ Hal). lia.
  - destruct (overlaid_inside _ _ _ Hok Hl) as (H1 & H2 & H3). split; [done|].
    pose proof (align_up_spec (sizes fs) _ (aligns_pos fs Hok)). split; lia.
Qed.

(** A member of a member lies inside the object. *)
Lemma member_inside t path r :
  ctype_ok t -> member t path = Some r -> ctype_ok r.2 /\ inside 0 (sizeof t) r.
Proof.
  revert t r. induction path as [|f path IH]; intros t r Hok Hm; cbn [member] in Hm.
  - injection Hm as <-. split; [done|]. unfold inside. cbn. lia.
  - destruct (lookup_member f (members t)) as [[o t']|] eqn:E; [|done].
    destruct (members_inside _ _ _ Hok E) as [Ht' [H1 H2]]. cbn [fst snd] in *.
    destruct (member t' path) as [[o' t'']|] eqn:E'; [|done]. injection Hm as <-.
    destruct (IH t' _ Ht' E') as [G1 [G2 G3]]. split; [done|]. unfold inside in *. cbn [fst snd] in *. lia.
Qed.

Lemma scalar_sizeof t n : ctype_ok t -> scalar_size t = Some n -> Z.of_nat n = sizeof t.
Proof.
  destruct t; cbn [scalar_size sizeof ctype_ok]; intros Hok [= <-]; [lia|].
  destruct abi_ptr_ok as [->| ->]; done.
Qed.
End Facts.

(** ** Theorems *)

(** The members of a structure, packed or not: each lies inside it, at an offset
    its alignment divides if the structure is not packed; the size of the
    structure is a multiple of its alignment; and a store to a member (or to a
    member of it) is read back, cut to the member's width, and leaves every
    other member as it was. *)
Theorem struct_members (A : Abi) (Aok : AbiOk A) (packed : bool) (fs : fields) (f : string) (path : list string)
    (m m' : mem) (a v : Z)
    (Hok : fields_ok fs) (Hwrite : write_member (CStruct packed fs) (f :: path) m a v = Some m') :
  let t := CStruct packed fs in
  sizeof t mod alignof t = 0 /\
  (forall o t', lookup_member f (members t) = Some (o, t') ->
    0 <= o /\ o + sizeof t' <= sizeof t /\ (packed = false -> o mod alignof t' = 0)) /\
  (exists n, read_member t (f :: path) m' a = Some (v mod 256 ^ Z.of_nat n)) /\
  (forall b, ~ (a <= b < a + sizeof t) -> mget m' b = mget m b) /\
  forall g path', g <> f -> read_member t (g :: path') m' a = read_member t (g :: path') m a.
Proof.
  intros t. split; [by apply sizeof_aligned|].
  unfold write_member in Hwrite. destruct (member (CStruct packed fs) (f :: path)) as [[o t1]|] eqn:E; [|done].
  destruct (scalar_size t1) as [n|] eqn:En; [|done]. injection Hwrite as <-.
  destruct (member_inside t _ _ Hok E) as [H1 [H2 H3]]. cbn [fst snd] in *.
  pose proof (scalar_sizeof _ _ H1 En) as Hn. split; [|split; [|split]].
  - intros o' t' Hl. destruct (members_inside t f _ Hok Hl) as [_ [G1 G2]].
    destruct (placed_inside packed 0 fs f _ Hok Hl) as (_ & _ & G3). done.
  - exists n. unfold read_member. unfold t. rewrite E, En. cbn [fmap option_fmap option_map]. by rewrite load_store_eq.
  - intros b Hb. apply mget_store_ne. lia.
  - intros g path' Hg. unfold read_member. unfold t.
    destruct (member (CStruct packed fs) (g :: path')) as [[o2 t2]|] eqn:E2; [|done].
    destruct (scalar_size t2) as [k|] eqn:Ek; [|done]. cbn [fmap option_fmap option_map]. f_equal.
    apply load_store_ne. cbn [member] in E, E2.
    destruct (lookup_member f _) as [[o5 tf]|] eqn:Ef; [|done]. destruct (lookup_member g _) as [[o6 tg]|] eqn:Eg; [|done].
    destruct (placed_inside packed 0 fs f _ Hok Ef) as (Kf & _). destruct (placed_inside packed 0 fs g _ Hok Eg) as (Kg & _).
    pose proof (placed_disjoint packed 0 fs f g _ _ Hok ltac:(done) Ef Eg) as Hd. cbn [fst snd] in *.
    destruct (member tf path) as [[o3 t3]|] eqn:E3; [|done]. injection E as <- <-.
    destruct (member tg path') as [[o4 t4]|] eqn:E4; [|done]. injection E2 as <- <-.
    destruct (member_inside _ _ _ Kf E3) as [_ [P1 P2]]. destruct (member_inside _ _ _ Kg E4) as [Q0 [Q1 Q2]].
    pose proof (scalar_sizeof _ _ Q0 Ek) as Hk. cbn [fst snd] in *. lia.
Qed.
