(* ===== verification/GdtUtil.v ===== *)
(** The descriptor generator src/util/gdt_util.c, and the decoding of a segment
    descriptor by the processor (Intel SDM, volume 3, figure 3-8), which is what
    the generated words are for.  [printf] is the host's; the words it is given
    are the output here. *)

From S2P Require Import Prelude.
Local Open Scope Z_scope.
Local Open Scope mach_scope.

(** ** The flag macros *)

Definition SEG_DESCTYPE (x : Z) : Z := Z.shiftl x 4.
Definition SEG_PRES (x : Z) : Z := Z.shiftl x 7.
Definition SEG_SAVL (x : Z) : Z := Z.shiftl x 12.
Definition SEG_LONG (x : Z) : Z := Z.shiftl x 13.
Definition SEG_SIZE (x : Z) : Z := Z.shiftl x 14.
Definition SEG_GRAN (x : Z) : Z := Z.shiftl x 15.
Definition SEG_PRIV (x : Z) : Z := Z.shiftl (Z.land x 3) 5.
Definition SEG_DATA_RDWR : Z := 2.
Definition SEG_CODE_EXRD : Z := 10.

Definition segment_flags (priv type : Z) : Z :=
  Z.lor (SEG_DESCTYPE 1) (Z.lor (SEG_PRES 1) (Z.lor (SEG_SAVL 0) (Z.lor (SEG_LONG 0)
    (Z.lor (SEG_SIZE 1) (Z.lor (SEG_GRAN 1) (Z.lor (SEG_PRIV priv) type)))))).
Definition GDT_CODE_PL0 : Z := segment_flags 0 SEG_CODE_EXRD.
Definition GDT_DATA_PL0 : Z := segment_flags 0 SEG_DATA_RDWR.
Definition GDT_CODE_PL3 : Z := segment_flags 3 SEG_CODE_EXRD.
Definition GDT_DATA_PL3 : Z := segment_flags 3 SEG_DATA_RDWR.

(** ** The program *)

(** The word [create_descriptor] prints; [base << 16] is a 32-bit shift. *)
Definition create_descriptor (base limit flag : Z) : Z :=
  let descriptor := Z.land limit 983040 in
  let descriptor := Z.lor descriptor (Z.land (Z.shiftl flag 8) 15793920) in
  let descriptor := Z.lor descriptor (Z.land (Z.shiftr base 16) 255) in
  let descriptor := Z.lor descriptor (Z.land base 4278190080) in
  let descriptor := u64 (Z.shiftl descriptor 32) in
  let descriptor := Z.lor descriptor (u32 (Z.shiftl base 16)) in
  Z.lor descriptor (Z.land limit 65535).

Definition gdt_util_main : list Z :=
  [create_descriptor 0 0 0;
   create_descriptor 0 1048575 GDT_CODE_PL0;
   create_descriptor 0 1048575 GDT_DATA_PL0;
   create_descriptor 0 1048575 GDT_CODE_PL3;
   create_descriptor 0 1048575 GDT_DATA_PL3].

(** ** What the processor reads in a descriptor *)

Definition bits_at (d n k : Z) : Z := Z.land (Z.shiftr d n) (2 ^ k - 1).
Definition desc_base (d : Z) : Z :=
  Z.lor (bits_at d 16 24) (Z.shiftl (bits_at d 56 8) 24).
Definition desc_limit (d : Z) : Z :=
  Z.lor (bits_at d 0 16) (Z.shiftl (bits_at d 48 4) 16).
Definition desc_type (d : Z) : Z := bits_at d 40 4.
Definition desc_is_code_or_data (d : Z) : bool := Z.testbit d 44.
Definition desc_privilege (d : Z) : Z := bits_at d 45 2.
Definition desc_present (d : Z) : bool := Z.testbit d 47.
Definition desc_available (d : Z) : bool := Z.testbit d 52.
Definition desc_long (d : Z) : bool := Z.testbit d 53.
Definition desc_size32 (d : Z) : bool := Z.testbit d 54.
Definition desc_granular (d : Z) : bool := Z.testbit d 55.

(** ** Bit by bit *)

(** A run of [k] set bits from bit [j] on. *)
Lemma mask_bit j k n :
  0 <= j -> 0 <= k -> 0 <= n -> Z.testbit (Z.shiftl (Z.ones k) j) n = (j <=? n) && (n <? j + k).
Proof.
  intros Hj Hk Hn. rewrite Z.shiftl_spec by done. destruct (j <=? n) eqn:E.
  - rewrite Z.testbit_ones_nonneg by lia. cbn. lia.
  - by rewrite Z.testbit_neg_r by lia.
Qed.

Ltac split_tests :=
  repeat match goal with
  | |- context [?a <=? ?b] => destruct (Z.leb_spec a b); try lia
  | |- context [?a <? ?b] => destruct (Z.ltb_spec a b); try lia
  end; cbn [andb orb]; rewrite ?andb_true_r, ?andb_false_r, ?orb_false_r, ?orb_true_r; cbn [andb orb].

(** The bits of a descriptor, in terms of the arguments. *)
Lemma create_bits base limit flag n :
  0 <= n < 64 ->
  Z.testbit (create_descriptor base limit flag) n =
    if n <? 16 then Z.testbit limit n
    else if n <? 40 then Z.testbit base (n - 16)
    else if n <? 48 then Z.testbit flag (n - 40)
    else if n <? 52 then Z.testbit limit (n - 32)
    else if n <? 56 then Z.testbit flag (n - 40)
    else Z.testbit base (n - 32).
Proof.
  intros Hn. unfold create_descriptor, u64, u32.
  change 983040 with (Z.shiftl (Z.ones 4) 16).
  change 15793920 with (Z.lor (Z.shiftl (Z.ones 8) 8) (Z.shiftl (Z.ones 4) 20)).
  change 255 with (Z.shiftl (Z.ones 8) 0). change 4278190080 with (Z.shiftl (Z.ones 8) 24).
  change 65535 with (Z.shiftl (Z.ones 16) 0).
  change 18446744073709551616 with (2 ^ 64). change 4294967296 with (2 ^ 32).
  rewrite !Z.lor_spec, (Z.mod_pow2_bits_low _ 64) by lia. rewrite Z.shiftl_spec, Z.land_spec, mask_bit by lia.
  destruct (Z.ltb_spec n 32).
  - rewrite (Z.testbit_neg_r _ (n - 32)) by lia. rewrite Z.mod_pow2_bits_low, Z.shiftl_spec by lia.
    split_tests; [by rewrite (Z.testbit_neg_r base (n - 16)) by lia|done].
  - rewrite Z.mod_pow2_bits_high by lia.
    rewrite !Z.lor_spec, !Z.land_spec, Z.lor_spec, !mask_bit, Z.shiftl_spec, Z.shiftr_spec by lia.
    replace (n - 32 + 16) with (n - 16) by lia. replace (n - 32 - 8) with (n - 40) by lia.
    split_tests; done.
Qed.

Lemma bits_at_bit d n k i :
  0 <= n -> 0 <= k -> 0 <= i -> Z.testbit (bits_at d n k) i = Z.testbit d (i + n) && (i <? k).
Proof.
  intros Hn Hk Hi. unfold bits_at. replace (2 ^ k - 1) with (Z.ones k) by (rewrite Z.ones_equiv; lia).
  rewrite Z.land_spec, Z.shiftr_spec, Z.testbit_ones_nonneg by lia. done.
Qed.

(** A value of [w] bits has no bits beyond. *)
Lemma high_bit x w i : 0 <= x < 2 ^ w -> 0 <= w <= i -> Z.testbit x i = false.
Proof. intros Hx Hi. rewrite <- (Z.mod_small x (2 ^ w)) by done. apply Z.mod_pow2_bits_high. lia. Qed.

Lemma create_base base limit flag :
  0 <= base < 2 ^ 32 -> desc_base (create_descriptor base limit flag) = base.
Proof.
  intros Hb. apply Z.bits_inj'. intros i Hi. unfold desc_base.
  rewrite Z.lor_spec, Z.shiftl_spec, bits_at_bit by lia.
  destruct (Z.leb_spec 32 i) as [Hh|Hh].
  - rewrite (high_bit base 32), bits_at_bit by lia. split_tests.
  - destruct (Z.ltb_spec i 24).
    + rewrite (Z.testbit_neg_r _ (i - 24)), create_bits by lia. split_tests.
      by replace (i + 16 - 16) with i by lia.
    + rewrite !bits_at_bit, !create_bits by lia. split_tests.
      by replace (i - 24 + 56 - 32) with i by lia.
Qed.

Lemma create_limit base limit flag :
  desc_limit (create_descriptor base limit flag) = limit mod 2 ^ 20.
Proof.
  apply Z.bits_inj'. intros i Hi. unfold desc_limit.
  rewrite Z.lor_spec, Z.shiftl_spec, bits_at_bit by lia.
  destruct (Z.leb_spec 20 i) as [Hh|Hh].
  - rewrite Z.mod_pow2_bits_high, bits_at_bit by lia. split_tests.
  - rewrite Z.mod_pow2_bits_low by lia. destruct (Z.ltb_spec i 16).
    + rewrite (Z.testbit_neg_r _ (i - 16)), create_bits by lia. split_tests.
      by rewrite Z.add_0_r.
    + rewrite !bits_at_bit, !create_bits by lia. split_tests.
      by replace (i - 16 + 48 - 32) with i by lia.
Qed.

Lemma create_field base limit flag n k :
  0 <= k -> 40 <= n -> n + k <= 48 ->
  bits_at (create_descriptor base limit flag) n k = bits_at flag (n - 40) k.
Proof.
  intros Hk Hn Hnk. apply Z.bits_inj'. intros i Hi. rewrite !bits_at_bit by lia.
  destruct (Z.ltb_spec i k); [|by rewrite !andb_false_r]. rewrite !andb_true_r, create_bits by lia.
  split_tests. f_equal. lia.
Qed.

Lemma create_flag_bit base limit flag n :
  40 <= n < 48 \/ 52 <= n < 56 ->
  Z.testbit (create_descriptor base limit flag) n = Z.testbit flag (n - 40).
Proof. intros Hn. rewrite create_bits by lia. split_tests; done. Qed.

(** ** The theorem *)

(** C39. The processor reads back what [create_descriptor] was given: the base, the
    low 20 bits of the limit, and type, descriptor type, privilege, presence,
    availability, long mode, size and granularity from the places of the flag
    word that the [SEG_] macros put them in. *)
Theorem create_descriptor_roundtrip (base limit flag : Z) (Hbase : 0 <= base < 2 ^ 32) :
  let d := create_descriptor base limit flag in
  desc_base d = base /\ desc_limit d = limit mod 2 ^ 20 /\
  desc_type d = bits_at flag 0 4 /\ desc_privilege d = bits_at flag 5 2 /\
  desc_is_code_or_data d = Z.testbit flag 4 /\ desc_present d = Z.testbit flag 7 /\
  desc_available d = Z.testbit flag 12 /\ desc_long d = Z.testbit flag 13 /\
  desc_size32 d = Z.testbit flag 14 /\ desc_granular d = Z.testbit flag 15.
Proof.
  intros d. unfold d, desc_type, desc_privilege, desc_is_code_or_data, desc_present, desc_available,
    desc_long, desc_size32, desc_granular.
  rewrite create_base, create_limit, !create_field, !create_flag_bit by lia. done.
Qed.

(** The five words printed by the program: a null descriptor, and for both
    privilege levels a present 32-bit code and data segment of 4 GiB. *)
Lemma create_descriptor_roundtrip_witness :
  gdt_util_main = [0; 58434644969848831; 58425848876826623; 58540198086115327; 58531401993093119] /\
  desc_base 58540198086115327 = 0 /\ desc_limit 58540198086115327 = 1048575 /\
  desc_privilege 58540198086115327 = 3 /\ desc_present 58540198086115327 = true.
Proof.
  assert (create_descriptor 0 1048575 GDT_CODE_PL3 = 58540198086115327) as He by reflexivity.
  destruct (create_descriptor_roundtrip 0 1048575 GDT_CODE_PL3) as (H1 & H2 & _ & H3 & _ & H4 & _); [lia|].
  rewrite He in H1, H2, H3, H4. split; [reflexivity|]. split; [exact H1|].
  split; [exact H2|]. split; [exact H3|exact H4].
Defined.
