(* ===== verification/Processor.v ===== *)
(** The instructions of the entry code, on a processor with its registers, its
    memory and the mode of its code segment: the stack, the flags register,
    [cpuid], the control registers that turn paging and long mode on, and the
    loading of segments from the descriptor table (Intel SDM, volume 2, and
    volume 3, sections 3.4 and 9.8.5).  Which flags can be written, what [cpuid]
    answers and which status flags an operation leaves are parameters. *)

From stdpp Require Export functions.
From S2P Require Import Prelude Memory GdtUtil.
Local Open Scope Z_scope.
Local Open Scope mach_scope.

(** ** Registers *)

Inductive reg : Type :=
  | RAX | RBX | RCX | RDX | RDI | RSP | RBP | RIP | FLAGS
  | CS | SS | DS | ES | FS | GS
  | CR0 | CR3 | CR4 | EFER | GDT_LIMIT | GDT_BASE.
#[export] Instance reg_eq_dec : EqDecision reg.
Proof. solve_decision. Defined.

(** [p_64]: the code segment is a 64-bit one. *)
Record proc := Proc { p_reg : reg -> Z; p_mem : mem; p_64 : bool }.
Definition set_reg (r : reg) (v : Z) (s : proc) : proc := Proc (<[r := v]> (p_reg s)) (p_mem s) (p_64 s).
Definition set_pmem (m : mem) (s : proc) : proc := Proc (p_reg s) m (p_64 s).
Definition set_64 (b : bool) (s : proc) : proc := Proc (p_reg s) (p_mem s) b.

Definition rd (r : reg) : ST proc Z := gets (fun s => p_reg s r).
Definition mov (r : reg) (v : Z) : ST proc unit := modify (set_reg r v).
Definition copy (dst src : reg) : ST proc unit := v ← rd src; mov dst v.

(** What a processor is free to do: [writable] are the flags [popfd] writes,
    [cpuid_leaf] the values of EAX, EBX, ECX and EDX, [status] the status flags
    after an operation with the given result. *)
Class Cpu := { writable : Z; cpuid_leaf : Z -> Z * Z * Z * Z; status : Z -> Z }.

(** CF, PF, AF, ZF, SF and OF; VM and RF, which [pushfd] clears in its image. *)
Definition status_flags : Z := 2261.
Definition vm_rf : Z := 196608.
Definition ID : Z := Z.shiftl 1 21.
Definition LM : Z := Z.shiftl 1 29.
(** The bits [CR0.PG], [CR0.PE], [CR4.PAE] and [EFER.LME]. *)
Definition PG : Z := 31.
Definition PE : Z := 0.
Definition PAE : Z := 5.
Definition LME : Z := 8.

Section Instructions.
Context {C : Cpu}.

(** [popfd] writes every flag but VM and RF of the eleven it may not reserve. *)
Class CpuOk := {
  status_writable : Z.land status_flags writable = status_flags;
  vm_rf_fixed : Z.land vm_rf writable = 0
}.

Definition push32 (v : Z) : ST proc unit :=
  sp ← rd RSP;
  mov RSP (sp -32 4) ;;
  modify (fun s => set_pmem (store32 (p_mem s) (sp -32 4) v) s).
Definition pop32 (r : reg) : ST proc unit :=
  sp ← rd RSP;
  m ← gets p_mem;
  mov r (load32 m sp) ;;
  mov RSP (sp +32 4).
Definition push64 (v : Z) : ST proc unit :=
  sp ← rd RSP;
  mov RSP (sp -64 8) ;;
  modify (fun s => set_pmem (store64 (p_mem s) (sp -64 8) v) s).
Definition pop64 (r : reg) : ST proc unit :=
  sp ← rd RSP;
  m ← gets p_mem;
  mov r (load64 m sp) ;;
  mov RSP (sp +64 8).

Definition pushfd : ST proc unit := f ← rd FLAGS; push32 (Z.ldiff f vm_rf).
Definition popfd : ST proc unit :=
  old ← rd FLAGS;
  pop32 FLAGS ;;
  new ← rd FLAGS;
  mov FLAGS (Z.lor (Z.land new writable) (Z.ldiff old writable)).
(** The status flags after an operation with result [v]. *)
Definition set_status (v : Z) : ST proc unit :=
  f ← rd FLAGS; mov FLAGS (Z.lor (Z.ldiff f status_flags) (Z.land (status v) status_flags)).
Definition alu (r : reg) (v : Z) : ST proc unit := mov r v ;; set_status v.
Definition cli : ST proc unit := f ← rd FLAGS; mov FLAGS (Z.ldiff f 512).

Definition cpuid : ST proc unit :=
  leaf ← rd RAX;
  let '(a, b, c, d) := cpuid_leaf leaf in
  mov RAX (u32 a) ;; mov RBX (u32 b) ;; mov RCX (u32 c) ;; mov RDX (u32 d).

(** Whether the processor has long mode; without it EFER.LME is reserved. *)
Definition has_long_mode : bool :=
  let '(highest, _, _, _) := cpuid_leaf 2147483648 in
  let '(_, _, _, d) := cpuid_leaf 2147483649 in
  (2147483649 <=? u32 highest) && Z.testbit (u32 d) 29.

(** Of the model-specific registers only EFER, 0xC0000080. *)
Definition rdmsr : ST proc unit :=
  r ← rd RCX;
  if r =? 3221225600 then
    v ← rd EFER; mov RAX (u32 v) ;; mov RDX (u32 (Z.shiftr v 32))
  else stop_with (Fault "model-specific register").
Definition wrmsr : ST proc unit :=
  r ← rd RCX; a ← rd RAX; d ← rd RDX;
  let v := Z.lor (Z.shiftl (u32 d) 32) (u32 a) in
  if r =? 3221225600 then
    if Z.testbit v LME && negb has_long_mode then stop_with (Fault "#GP: no long mode")
    else mov EFER v
  else stop_with (Fault "model-specific register").
(** Paging with EFER.LME set needs PAE, and paging needs protected mode. *)
Definition mov_cr0 (v : Z) : ST proc unit :=
  efer ← rd EFER; cr4 ← rd CR4;
  if Z.testbit v PG && (negb (Z.testbit v PE) || Z.testbit efer LME && negb (Z.testbit cr4 PAE))
  then stop_with (Fault "#GP: paging")
  else mov CR0 v.
Definition long_mode_active (s : proc) : bool :=
  Z.testbit (p_reg s EFER) LME && Z.testbit (p_reg s CR0) PG.

(** ** Segments *)

(** [lgdt] reads a limit and a base of 32 or 64 bits. *)
Definition lgdt32 (p : Z) : ST proc unit :=
  m ← gets p_mem; mov GDT_LIMIT (load16 m p) ;; mov GDT_BASE (load32 m (p + 2)).
Definition lgdt64 (p : Z) : ST proc unit :=
  m ← gets p_mem; mov GDT_LIMIT (load16 m p) ;; mov GDT_BASE (load64 m (p + 2)).

(** The descriptor a selector of the global table names: selectors are
    multiples of 8 plus a privilege in the low two bits. *)
Definition descriptor (sel : Z) : ST proc Z :=
  limit ← rd GDT_LIMIT; base ← rd GDT_BASE; m ← gets p_mem;
  let off := Z.ldiff sel 7 in
  if Z.testbit sel 2 || (off =? 0) || (limit <? off + 7) then stop_with (Fault "#GP: selector")
  else mret (load64 m (base + off)).

(** What the processor asks of a descriptor, at privilege [cpl]. *)
Definition is_code (d : Z) : bool := desc_is_code_or_data d && Z.testbit d 43.
Definition is_writable_data (d : Z) : bool := desc_is_code_or_data d && negb (Z.testbit d 43) && Z.testbit d 41.
Definition code_ok (cpl d : Z) : bool := is_code d && desc_present d && (desc_privilege d =? cpl).
Definition stack_ok (cpl d : Z) : bool := is_writable_data d && desc_present d && (desc_privilege d =? cpl).
Definition data_ok (cpl d : Z) : bool :=
  desc_is_code_or_data d && (negb (Z.testbit d 43) || Z.testbit d 41) && desc_present d && (cpl <=? desc_privilege d).

(** [mov sreg, sel] with a selector that is not null and has the privilege of
    the running code, as all here. *)
Definition mov_seg (r : reg) (sel : Z) : ST proc unit :=
  cs ← rd CS;
  d ← descriptor sel;
  let cpl := Z.land cs 3 in
  if (Z.land sel 3 =? cpl) && (if decide (r = SS) then stack_ok cpl d else data_ok cpl d)
  then mov r sel else stop_with (Fault "#GP: segment").

(** [jmp sel:offset] in long mode: the L bit of the segment makes the code
    64-bit; L and D together are reserved.  The offset follows in the text. *)
Definition far_jmp (sel : Z) : ST proc unit :=
  cs ← rd CS;
  d ← descriptor sel;
  active ← gets long_mode_active;
  if code_ok (Z.land cs 3) d && negb (active && desc_long d && desc_size32 d) then
    mov CS (Z.lor (Z.ldiff sel 3) (Z.land cs 3)) ;; modify (set_64 (active && desc_long d))
  else stop_with (Fault "#GP: code segment").

(** Code assembled for 64-bit mode. *)
Definition bits64 (m : ST proc unit) : ST proc unit :=
  b ← gets p_64; if (b : bool) then m else stop_with (Fault "64-bit code outside 64-bit mode").

(** [call] of a procedure that ends with [ret]; [ret_addr] is the address
    behind the call. *)
Definition ret64 : ST proc unit := pop64 RIP.
Definition call64 (ret_addr : Z) (f : ST proc unit) : ST proc unit :=
  push64 ret_addr ;; f ;;
  rip ← rd RIP;
  if rip =? ret_addr then skip else stop_with (Fault "return to a wrong address").
End Instructions.
Arguments CpuOk : clear implicits.

(** ** Data the assembler lays out *)

(** The [n] bytes of a number, lowest first; [db], [dw], [dd] and [dq]. *)
Fixpoint le (n : nat) (v : Z) : list Z :=
  match n with O => [] | S n' => u8 v :: le n' (v / 256) end.
Definition db := le 1.
Definition dw := le 2.
Definition dd := le 4.
Definition dq := le 8.

(** Memory holds [bytes] from [a] on. *)
Definition image (m : mem) (a : Z) (bytes : list Z) : Prop :=
  forall i b, bytes !! i = Some b -> mget m (a + Z.of_nat i) = b.

Lemma image_app m a l1 l2 :
  image m a (l1 ++ l2) <-> image m a l1 /\ image m (a + Z.of_nat (length l1)) l2.
Proof.
  split.
  - intros H. split; intros i b Hi.
    + apply H. by apply lookup_app_l_Some.
    + replace (a + Z.of_nat (length l1) + Z.of_nat i) with (a + Z.of_nat (length l1 + i)) by lia.
      apply H. rewrite lookup_app_r by lia. by replace (length l1 + i - length l1)%nat with i by lia.
  - intros [H1 H2] i b [Hi|[Hge Hi]]%lookup_app_Some; [by apply H1|].
    specialize (H2 _ _ Hi).
    by replace (a + Z.of_nat (length l1) + Z.of_nat (i - length l1)) with (a + Z.of_nat i) in H2 by lia.
Qed.

Lemma le_length n v : length (le n v) = n.
Proof. revert v. induction n as [|n IH]; intros v; cbn; by rewrite ?IH. Qed.

Lemma image_load n m a v : image m a (le n v) -> load n m a = v mod 256 ^ Z.of_nat n.
Proof.
  revert a v. induction n as [|n IH]; intros a v H; [by rewrite Z.mod_1_r|].
  cbn [load]. rewrite (IH (a + 1) (v / 256)).
  - pose proof (H 0%nat (u8 v) eq_refl) as H0. rewrite Z.add_0_r in H0. rewrite H0.
    rewrite Nat2Z.inj_succ, Z.pow_succ_r by lia. unfold u8.
    rewrite Z.rem_mul_r by (try apply Z.pow_nonzero; lia). lia.
  - intros i b Hi. replace (a + 1 + Z.of_nat i) with (a + Z.of_nat (S i)) by lia. by apply H.
Qed.

Lemma image_ext m m' a bytes :
  agree_on m m' a (Z.of_nat (length bytes)) -> image m a bytes -> image m' a bytes.
Proof.
  intros Hag H i b Hi. rewrite <- Hag; [by apply H|]. apply lookup_lt_Some in Hi. lia.
Qed.

(** A number laid out among other data. *)
Lemma image_at m a bytes k n v :
  image m a bytes -> take n (drop k bytes) = le n v ->
  load n m (a + Z.of_nat k) = v mod 256 ^ Z.of_nat n.
Proof.
  intros H Ht. apply image_load. intros i b Hi. rewrite <- Ht in Hi.
  apply lookup_take_Some in Hi as [Hi _]. rewrite lookup_drop in Hi.
  replace (a + Z.of_nat k + Z.of_nat i) with (a + Z.of_nat (k + i)) by lia. by apply H.
Qed.

(** ** Running instructions *)

Lemma reg_set_eq r v s : p_reg (set_reg r v s) r = v.
Proof. apply fn_lookup_insert. Qed.
Lemma reg_set_ne r r' v s : r <> r' -> p_reg (set_reg r v s) r' = p_reg s r'.
Proof. apply fn_lookup_insert_ne. Qed.
Lemma mem_set_reg r v s : p_mem (set_reg r v s) = p_mem s.
Proof. done. Qed.
Lemma bits_set_reg r v s : p_64 (set_reg r v s) = p_64 s.
Proof. done. Qed.
Lemma reg_set_mem m s r : p_reg (set_pmem m s) r = p_reg s r.
Proof. done. Qed.
Lemma mem_set_mem m s : p_mem (set_pmem m s) = m.
Proof. done. Qed.
Lemma bits_set_mem m s : p_64 (set_pmem m s) = p_64 s.
Proof. done. Qed.
Lemma reg_set_64 b s r : p_reg (set_64 b s) r = p_reg s r.
Proof. done. Qed.
Lemma mem_set_64 b s : p_mem (set_64 b s) = p_mem s.
Proof. done. Qed.
Lemma bits_set_64 b s : p_64 (set_64 b s) = b.
Proof. done. Qed.

Create Rewrite HintDb proc.
#[export] Hint Rewrite reg_set_eq mem_set_reg bits_set_reg reg_set_mem mem_set_mem bits_set_mem
  reg_set_64 mem_set_64 bits_set_64 : proc.
#[export] Hint Rewrite reg_set_ne using discriminate : proc.

Section Running.
Context {C : Cpu} {B : Type}.
Implicit Types (k : unit -> ST proc B) (s : proc).

Lemma rd_bind r (k : Z -> ST proc B) s : (rd r ≫= k) s = k (p_reg s r) s.
Proof. done. Qed.
Lemma mem_bind (k : mem -> ST proc B) s : (gets p_mem ≫= k) s = k (p_mem s) s.
Proof. done. Qed.
Lemma bits_bind (k : bool -> ST proc B) s : (gets p_64 ≫= k) s = k (p_64 s) s.
Proof. done. Qed.
Lemma mov_bind r v k s : (mov r v ≫= k) s = k tt (set_reg r v s).
Proof. done. Qed.
Lemma copy_bind r r' k s : (copy r r' ≫= k) s = k tt (set_reg r (p_reg s r') s).
Proof. done. Qed.
Lemma set_status_bind v k s :
  (set_status v ≫= k) s =
    k tt (set_reg FLAGS (Z.lor (Z.ldiff (p_reg s FLAGS) status_flags) (Z.land (status v) status_flags)) s).
Proof. done. Qed.
Lemma alu_bind r v k s : (alu r v ≫= k) s = (set_status v ≫= k) (set_reg r v s).
Proof. done. Qed.
Lemma push32_bind v k s :
  (push32 v ≫= k) s =
    k tt (set_pmem (store32 (p_mem s) (p_reg s RSP -32 4) v) (set_reg RSP (p_reg s RSP -32 4) s)).
Proof. done. Qed.
Lemma push64_bind v k s :
  (push64 v ≫= k) s =
    k tt (set_pmem (store64 (p_mem s) (p_reg s RSP -64 8) v) (set_reg RSP (p_reg s RSP -64 8) s)).
Proof. done. Qed.
Lemma pop64_bind r k s :
  (pop64 r ≫= k) s = k tt (set_reg RSP (p_reg s RSP +64 8) (set_reg r (load64 (p_mem s) (p_reg s RSP)) s)).
Proof. done. Qed.
Lemma assoc_at {A D} (m : ST proc A) (f : A -> ST proc D) (g : D -> ST proc B) s :
  ((m ≫= f) ≫= g) s = (m ≫= (fun x => f x ≫= g)) s.
Proof. apply ST_eq_at, bind_assoc. Qed.
End Running.

(** One instruction at the head of a program, its reads simplified; those that
    use the stack are a step of their own. *)
Ltac proc_step :=
  lazymatch goal with
  | |- context [((_ ≫= _) ≫= _) _] => rewrite assoc_at
  | |- context [(rd _ ≫= _) _] => rewrite rd_bind
  | |- context [(gets p_mem ≫= _) _] => rewrite mem_bind
  | |- context [(gets p_64 ≫= _) _] => rewrite bits_bind
  | |- context [(mov _ _ ≫= _) _] => rewrite mov_bind
  | |- context [(copy _ _ ≫= _) _] => rewrite copy_bind
  | |- context [(alu _ _ ≫= _) _] => rewrite alu_bind
  | |- context [(set_status _ ≫= _) _] => rewrite set_status_bind
  end; autorewrite with proc; cbv beta.
Ltac stack_step :=
  lazymatch goal with
  | |- context [(push32 _ ≫= _) _] => rewrite push32_bind
  | |- context [(push64 _ ≫= _) _] => rewrite push64_bind
  | |- context [(pop64 _ ≫= _) _] => rewrite pop64_bind
  end; autorewrite with proc; cbv beta.
Ltac proc := repeat proc_step.

(** Registers but those in [l] are as before. *)
Definition but (l : list reg) (s s' : proc) : Prop := forall r, r ∉ l -> p_reg s' r = p_reg s r.

Lemma but_refl l s : but l s s.
Proof. done. Qed.
Lemma but_trans l s1 s2 s3 : but l s1 s2 -> but l s2 s3 -> but l s1 s3.
Proof. intros H1 H2 r Hr. by rewrite H2, H1. Qed.
Lemma but_set l r v s s' : r ∈ l -> but l s s' -> but l s (set_reg r v s').
Proof. intros Hr H r' Hr'. rewrite reg_set_ne; [by apply H|]. by intros ->. Qed.
Lemma but_set_mem l m s s' : but l s s' -> but l s (set_pmem m s').
Proof. done. Qed.
Lemma but_set_64 l b s s' : but l s s' -> but l s (set_64 b s').
Proof. done. Qed.
Ltac but_step :=
  first [apply but_refl | apply but_set; [compute_done|] | apply but_set_mem | apply but_set_64].
