(* ===== verification/Format.v ===== *)
(** Number conversion and formatted output of the C libraries:
    [atoi], [itoa], [itoa64] and [vprintf]
    (src/src/libc/stdlib, src/src/libc/stdio/vprintf.c, and AWD's versions in
    src/src/awd/libc/stdlib and src/src/awd/console/printf.c).

    A [char*] is the list of the bytes of its object from the pointer on,
    terminator and what follows it included; reading past the end of the list
    is the out-of-bounds access of the C code.  The functions the two programs
    provide to print a character and a string ([vprintf_print_helper] and
    [vprintf_print_helper_string]) are the interface [CharSink]. *)

From S2P Require Import Prelude.
Local Open Scope Z_scope.

(** ** The output interface *)

(** Print the characters of a C string up to its terminator: the loop of
    AWD's [console_print_string] and of Lobo's [log::WriteString]. *)
Fixpoint print_string_loop {S : Type} (put_c : Z -> ST S unit) (s : list Z) : ST S unit :=
  match s with
  | [] => stop_with (Fault "string read out of bounds")
  | c :: s' => if c =? 0 then skip else put_c c ;; print_string_loop put_c s'
  end.

Class CharSink (S : Type) := {
  put_char : Z -> ST S unit;
  put_string : list Z -> ST S unit;
}.
Class CharSinkOk (S : Type) `{CharSink S} :=
  put_string_spec : forall s st, put_string s st = print_string_loop put_char s st.

(** ** atoi, itoa *)

(** [result * 10 + (str[i] - '0')] in [int]; [char] is signed. *)
Fixpoint atoi_loop (str : list Z) (result : Z) : outcome Z :=
  match str with
  | [] => Stopped (Fault "atoi reads out of bounds")
  | c :: str' =>
      if c =? 0 then Done result
      else atoi_loop str' (s32 (result * 10 + (s8 c - 48)))
  end.
Definition atoi (str : list Z) : outcome Z := atoi_loop str 0.

(** AWD's copy has the same text. *)
Definition awd_atoi := atoi.

(** "0123456789ABCDEF" and its terminator. *)
Definition lut : list Z :=
  [48; 49; 50; 51; 52; 53; 54; 55; 56; 57; 65; 66; 67; 68; 69; 70; 0].

(** The [do ... while] loop: [*--buf_index = lut[n % base]; n /= base]. *)
Fixpoint itoa_loop (fuel : nat) (buffer : list Z) (buf_index : nat) (n base : Z)
    : outcome (list Z * nat) :=
  match fuel with
  | O => Stopped OutOfFuel
  | S fuel' =>
      if base =? 0 then Stopped (Fault "division by zero") else
      match buf_index, lut !! Z.to_nat (n mod base) with
      | S i, Some d =>
          let buffer' := <[i := d]> buffer in
          if 0 <? n / base then itoa_loop fuel' buffer' i (n / base) base
          else Done (buffer', i)
      | O, _ => Stopped (Fault "itoa writes before its buffer")
      | _, None => Stopped (Fault "itoa reads past its digit table")
      end
  end.

(** The result is the buffer from [buf_index] on; 64 digits are enough for a
    64-bit number in any base from 2 on. *)
Definition itoa_from (buffer : list Z) (start : nat) (n base : Z) : outcome (list Z) :=
  match itoa_loop 64 (<[start := 0]> buffer) start n base with
  | Done (buffer', i) => Done (drop i buffer')
  | Stopped r => Stopped r
  end.

(** [itoa] of libc: 64-bit [unsigned long], 65-byte buffer, first write at
    index 49.  [itoa] of AWD: 32-bit [unsigned long], 33-byte buffer, and
    [itoa64] with a 65-byte buffer, both from the last byte. *)
Definition libc_itoa (buffer : list Z) (n base : Z) : outcome (list Z) :=
  itoa_from buffer 49 (u64 n) base.
Definition awd_itoa (buffer : list Z) (n base : Z) : outcome (list Z) :=
  itoa_from buffer 32 (u32 n) base.
Definition awd_itoa64 (buffer : list Z) (n base : Z) : outcome (list Z) :=
  itoa_from buffer 64 (u64 n) base.

(** ** vprintf *)

(** The variable arguments, by the type the caller passed. *)
Inductive varg : Type :=
  | VInt (z : Z)
  | VInt64 (z : Z)
  | VStr (s : list Z).

Definition is_digit (c : Z) : bool := (48 <=? c) && (c <=? 57).

(** [while (isdigit( *fmt_scan ) && buff_index < 7)]. *)
Fixpoint take_digits (k : nat) (s : list Z) : list Z * list Z :=
  match k, s with
  | S k', c :: s' =>
      if is_digit c then let (ds, r) := take_digits k' s' in (c :: ds, r) else ([], s)
  | _, _ => ([], s)
  end.

Record directive := Directive {
  dr_left_justify : bool;
  dr_length : Z;
  dr_zeropad : bool;
}.

(** From the character after ['%'] to the format specifier: the flags and the
    rest of the format string, which starts at the specifier. *)
Definition scan_directive (s : list Z) : outcome (directive * list Z) :=
  match s with
  | [] => Stopped (Fault "format read out of bounds")
  | c :: s' =>
      let left := c =? 45 in
      let s1 := if left then s' else s in
      match s1 with
      | [] => Stopped (Fault "format read out of bounds")
      | d :: _ =>
          if is_digit d then
            let (digits, s2) := take_digits 7 s1 in
            match atoi (digits ++ replicate (8 - length digits) 0) with
            | Done len =>
                Done (Directive left len (if left then false else d =? 48), s2)
            | Stopped r => Stopped r
            end
          else Done (Directive left 0 false, s1)
      end
  end.

Fixpoint c_strlen (s : list Z) : outcome Z :=
  match s with
  | [] => Stopped (Fault "strlen reads out of bounds")
  | c :: s' =>
      if c =? 0 then Done 0
      else match c_strlen s' with Done n => Done (n + 1) | Stopped r => Stopped r end
  end.

Definition lift {S A : Type} (o : outcome A) : ST S A := fun s =>
  match o with Done a => Done (a, s) | Stopped r => Stopped r end.

Section Vprintf.
Context {W : Type} `{CharSink W}.
Variable itoa : Z -> Z -> outcome (list Z).
Variable itoa_p : Z -> Z -> outcome (list Z).

Definition print_padding (length : Z) (arg : list Z) (zeropad : bool) : ST W unit :=
  if length =? 0 then skip else
  n ← lift (c_strlen arg);
  let charsToPrint := s32 (length - n) in
  let charToPrint := if zeropad then 48 else 32 in
  forM (replicate (Z.to_nat charsToPrint) charToPrint) put_char.

(** The string cases of the [switch]: value and padding in the order the
    justification asks for. *)
Definition print_justified (d : directive) (arg_str : list Z) (zeropad : bool) : ST W unit :=
  if dr_left_justify d then
    put_string arg_str ;; print_padding (dr_length d) arg_str zeropad
  else
    print_padding (dr_length d) arg_str zeropad ;; put_string arg_str.

Definition print_directive (d : directive) (spec : Z) (arg : list varg) : ST W (list varg) :=
  if spec =? 37 then put_char 37 ;; mret arg
  else if spec =? 115 then
    match arg with
    | VStr s :: arg' => print_justified d s false ;; mret arg'
    | _ => stop_with (Fault "va_arg")
    end
  else if spec =? 99 then
    match arg with
    | VInt z :: arg' => put_char (u8 z) ;; mret arg'
    | _ => stop_with (Fault "va_arg")
    end
  else if (spec =? 105) || (spec =? 100) then
    match arg with
    | VInt z :: arg' =>
        s ← lift (itoa (u32 z) 10); print_justified d s false ;; mret arg'
    | _ => stop_with (Fault "va_arg")
    end
  else if spec =? 120 then
    match arg with
    | VInt z :: arg' =>
        s ← lift (itoa (u32 z) 16); print_justified d s (dr_zeropad d) ;; mret arg'
    | _ => stop_with (Fault "va_arg")
    end
  else if spec =? 112 then
    match arg with
    | VInt64 z :: arg' =>
        s ← lift (itoa_p (u64 z) 16); print_justified d s (dr_zeropad d) ;; mret arg'
    | _ => stop_with (Fault "va_arg")
    end
  else put_char spec ;; mret arg.

(** The scan over the format string, one iteration of the [for] loop per unit
    of fuel. *)
Fixpoint vprintf_loop (fuel : nat) (fmt : list Z) (arg : list varg) : ST W unit :=
  match fuel with
  | O => stop_with OutOfFuel
  | S fuel' =>
      match fmt with
      | [] => stop_with (Fault "format read out of bounds")
      | c :: rest =>
          if c =? 0 then skip
          else if negb (c =? 37) then put_char c ;; vprintf_loop fuel' rest arg
          else
            '(d, s) ← lift (scan_directive rest);
            match s with
            | [] => stop_with (Fault "format read out of bounds")
            | spec :: rest' =>
                arg' ← print_directive d spec arg; vprintf_loop fuel' rest' arg'
            end
      end
  end.

(** Every iteration consumes a byte, so the length of the object is enough. *)
Definition vprintf_with (fmt : list Z) (arg : list varg) : ST W unit :=
  vprintf_loop (length fmt + 1) fmt arg.

End Vprintf.

Definition static_buffer : list Z := replicate 65 0.

(** [vprintf] of libc (the kernel's build) and of AWD. *)
Definition vprintf {W} `{CharSink W} (fmt : list Z) (arg : list varg) : ST W unit :=
  vprintf_with (libc_itoa static_buffer) (libc_itoa static_buffer) fmt arg.
Definition awd_vprintf {W} `{CharSink W} (fmt : list Z) (arg : list varg) : ST W unit :=
  vprintf_with (awd_itoa (replicate 33 0)) (awd_itoa64 static_buffer) fmt arg.

(** [printf] collects its arguments and passes them on. *)
Definition printf {W} `{CharSink W} (fmt : list Z) (arg : list varg) : ST W unit := vprintf fmt arg.
Definition awd_printf {W} `{CharSink W} (fmt : list Z) (arg : list varg) : ST W unit := awd_vprintf fmt arg.

(** A sink that collects the characters. *)
#[export] Instance list_sink : CharSink (list Z) := {
  put_char c := modify (fun out => out ++ [c]);
  put_string s := print_string_loop (fun c => modify (fun out => out ++ [c])) s;
}.
#[export] Instance list_sink_ok : CharSinkOk (list Z).
Proof. done. Qed.

(** ** What a number is printed as *)

Fixpoint numeral_go (fuel : nat) (n base : Z) (acc : list Z) : list Z :=
  match fuel with
  | O => acc
  | S fuel' =>
      let acc' := default 0 (lut !! Z.to_nat (n mod base)) :: acc in
      if 0 <? n / base then numeral_go fuel' (n / base) base acc' else acc'
  end.
Definition numeral (n base : Z) : list Z := numeral_go 64 n base [].

Definition digit_val (c : Z) : Z := if c <? 58 then c - 48 else c - 55.
Definition value (base r : Z) (ds : list Z) : Z :=
  foldl (fun a c => a * base + digit_val c) r ds.

(** [ds] writes [n] in [base], without superfluous leading zeros. *)
Definition writes (base n : Z) (ds : list Z) : Prop :=
  value base 0 ds = n /\
  Forall (fun c => c ∈ lut /\ 0 < c /\ 0 <= digit_val c < base) ds /\
  ds <> [] /\ (head ds = Some 48 -> ds = [48]).

Lemma lut_digit d :
  0 <= d < 16 ->
  exists c, lut !! Z.to_nat d = Some c /\ c ∈ lut /\ 0 < c /\ digit_val c = d /\
    (c = 48 <-> d = 0).
Proof.
  intros Hd.
  assert (Forall (fun d => exists c, lut !! Z.to_nat d = Some c /\ c ∈ lut /\ 0 < c /\
    digit_val c = d /\ (c = 48 <-> d = 0)) (seqZ 0 16)) as H.
  { repeat constructor; eexists; split; try reflexivity;
      (split; [apply (bool_decide_unpack _); vm_compute; exact I|]);
      vm_compute; intuition congruence. }
  rewrite Forall_forall in H. apply H, elem_of_seqZ. lia.
Qed.

Lemma value_app base r ds d : value base r (ds ++ [d]) = value base r ds * base + digit_val d.
Proof. unfold value. by rewrite foldl_app. Qed.

Section Numerals.
Variable base : Z.
Hypothesis Hbase : 2 <= base <= 16.

Lemma div_pow_lt n k : 0 <= n < base ^ Z.of_nat (S k) -> 0 <= n / base < base ^ Z.of_nat k.
Proof.
  rewrite Nat2Z.inj_succ, Z.pow_succ_r by lia. intros H.
  split; [apply Z.div_pos; lia|]. apply Z.div_lt_upper_bound; lia.
Qed.

Lemma digit_of n : exists c, lut !! Z.to_nat (n mod base) = Some c /\ c ∈ lut /\ 0 < c /\
  digit_val c = n mod base /\ (c = 48 <-> n mod base = 0).
Proof. pose proof (Z.mod_pos_bound n base). apply lut_digit. lia. Qed.

Lemma numeral_go_writes fuel n acc :
  0 <= n < base ^ Z.of_nat fuel -> (0 < fuel)%nat ->
  exists ds, numeral_go fuel n base acc = ds ++ acc /\ writes base n ds.
Proof.
  revert n acc. induction fuel as [|fuel IH]; intros n acc Hn Hf; [lia|].
  cbn [numeral_go]. destruct (digit_of n) as (c & Hc & Hlut & Hpos & Hval & H48).
  rewrite Hc. cbn [default from_option id].
  pose proof (Z.mod_pos_bound n base). pose proof (Z.div_mod n base).
  pose proof (div_pow_lt n fuel Hn).
  destruct (0 <? n / base) eqn:E.
  - destruct fuel as [|fuel]; [simpl in *; lia|].
    destruct (IH (n / base) (c :: acc)) as (ds & -> & Hv & Hall & Hne & Hz); [lia..|].
    exists (ds ++ [c]). rewrite <- app_assoc. split; [done|].
    repeat split.
    + rewrite value_app. lia.
    + apply Forall_app. split; [done|]. constructor; [|done]. repeat split; (done || lia).
    + by destruct ds.
    + intros Hh. destruct ds as [|d ds]; [done|].
      injection (Hz Hh) as -> ->. unfold value, digit_val in Hv. simpl in Hv. lia.
  - exists [c]. split; [done|]. assert (n / base = 0) by lia. repeat split.
    + unfold value. simpl. lia.
    + constructor; [|done]. repeat split; (done || lia).
    + done.
    + intros [= ->]. done.
Qed.

Lemma numeral_writes n : 0 <= n < 2 ^ 64 -> writes base n (numeral n base).
Proof.
  intros Hn. destruct (numeral_go_writes 64 n []) as (ds & Hds & Hw); [|lia|].
  - pose proof (Z.pow_le_mono_l 2 base 64). simpl Z.of_nat. lia.
  - unfold numeral. rewrite Hds, app_nil_r. done.
Qed.

(** The loop fills the buffer downwards with the numeral. *)
Lemma itoa_loop_ok fuel buf idx n :
  0 <= n < base ^ Z.of_nat fuel -> n < base ^ Z.of_nat idx -> (0 < idx)%nat ->
  (0 < fuel)%nat -> (idx <= length buf)%nat ->
  exists buf' i, itoa_loop fuel buf idx n base = Done (buf', i) /\
    drop i buf' = numeral_go fuel n base (drop idx buf).
Proof.
  revert buf idx n. induction fuel as [|fuel IH]; intros buf idx n Hn Hi H0 Hf Hl; [lia|].
  destruct idx as [|i]; [lia|]. cbn [itoa_loop numeral_go].
  destruct (base =? 0) eqn:Eb; [lia|].
  destruct (digit_of n) as (c & Hc & _). rewrite Hc.
  pose proof (div_pow_lt n fuel Hn). pose proof (div_pow_lt n i ltac:(lia)).
  assert (drop i (<[i:=c]> buf) = c :: drop (S i) buf) as Hdrop.
  { rewrite (drop_S _ c i) by (apply list_lookup_insert_eq; lia).
    f_equal. apply drop_insert_lt. lia. }
  destruct (0 <? n / base) eqn:E.
  - destruct (IH (<[i:=c]> buf) i (n / base)) as (buf' & j & -> & Hj); try lia.
    + destruct i; [simpl in *; lia|lia].
    + destruct fuel; [simpl in *; lia|lia].
    + rewrite length_insert. lia.
    + exists buf', j. split; [done|]. by rewrite Hj, Hdrop.
  - exists (<[i:=c]> buf), i. by rewrite Hdrop.
Qed.

Lemma itoa_from_ok buffer start n :
  0 <= n < 2 ^ 64 -> n < base ^ Z.of_nat start -> (0 < start < length buffer)%nat ->
  itoa_from buffer start n base = Done (numeral n base ++ 0 :: drop (S start) buffer).
Proof.
  intros Hn Hs Hl. unfold itoa_from.
  assert (2 ^ 64 <= base ^ 64) by (apply Z.pow_le_mono_l; lia).
  destruct (itoa_loop_ok 64 (<[start:=0]> buffer) start n) as (buf' & i & -> & ->);
    rewrite ?length_insert; simpl Z.of_nat; try lia.
  destruct (numeral_go_writes 64 n (drop start (<[start:=0]> buffer))) as (ds & Hds & _);
    [simpl Z.of_nat; lia|lia|].
  f_equal. unfold numeral.
  assert (forall f m acc, numeral_go f m base acc = numeral_go f m base [] ++ acc) as Hacc.
  { clear. induction f as [|f IH]; intros m acc; simpl; [done|].
    destruct (0 <? m / base); [|done].
    rewrite IH. rewrite (IH _ [_]). by rewrite <- app_assoc. }
  rewrite Hacc. f_equal.
  rewrite (drop_S _ 0 start) by (apply list_lookup_insert_eq; lia).
  f_equal. apply drop_insert_lt. lia.
Qed.

End Numerals.

(** The three number conversions with the size of their buffers. *)
Lemma libc_itoa_numeral buffer n base :
  length buffer = 65%nat -> 2 <= base <= 16 -> 0 <= n < 2 ^ 64 -> n < base ^ 49 ->
  libc_itoa buffer n base = Done (numeral n base ++ 0 :: drop 50 buffer).
Proof.
  intros Hl Hb Hn Hs. unfold libc_itoa. rewrite u64_small by lia.
  apply itoa_from_ok; simpl Z.of_nat; lia.
Qed.

Lemma pow49_large base : 3 <= base -> 2 ^ 64 < base ^ 49.
Proof. intros Hb. assert (3 ^ 49 <= base ^ 49) by (apply Z.pow_le_mono_l; lia). lia. Qed.

Lemma awd_itoa_numeral buffer n base :
  length buffer = 33%nat -> 2 <= base <= 16 -> 0 <= n < 2 ^ 32 ->
  awd_itoa buffer n base = Done (numeral n base ++ 0 :: drop 33 buffer).
Proof.
  intros Hl Hb Hn. unfold awd_itoa. rewrite u32_small by lia.
  assert (2 ^ 32 <= base ^ 32) by (apply Z.pow_le_mono_l; lia).
  apply itoa_from_ok; simpl Z.of_nat; lia.
Qed.

Lemma awd_itoa64_numeral buffer n base :
  length buffer = 65%nat -> 2 <= base <= 16 -> 0 <= n < 2 ^ 64 ->
  awd_itoa64 buffer n base = Done (numeral n base ++ 0 :: drop 65 buffer).
Proof.
  intros Hl Hb Hn. unfold awd_itoa64. rewrite u64_small by lia.
  assert (2 ^ 64 <= base ^ 64) by (apply Z.pow_le_mono_l; lia).
  apply itoa_from_ok; simpl Z.of_nat; lia.
Qed.

(** In base 2 the 49 bytes below [libc_itoa]'s start are too few for a number
    of more than 49 digits. *)
Lemma itoa_loop_underflow fuel buf idx n :
  2 ^ Z.of_nat idx <= n -> (idx < fuel)%nat ->
  itoa_loop fuel buf idx n 2 = Stopped (Fault "itoa writes before its buffer").
Proof.
  revert buf idx n. induction fuel as [|fuel IH]; intros buf idx n Hn Hf; [lia|].
  cbn [itoa_loop]. change (2 =? 0) with false. cbn iota.
  destruct idx as [|i]; [done|].
  destruct (digit_of 2 ltac:(lia) n) as (c & -> & _).
  rewrite Nat2Z.inj_succ, Z.pow_succ_r in Hn by lia.
  assert (2 ^ Z.of_nat i <= n / 2) by (apply Z.div_le_lower_bound; lia).
  pose proof (Z.pow_pos_nonneg 2 (Z.of_nat i)).
  destruct (0 <? n / 2) eqn:E; [|lia]. apply IH; lia.
Qed.

Lemma libc_itoa_underflow buffer n :
  2 ^ 49 <= n < 2 ^ 64 -> libc_itoa buffer n 2 = Stopped (Fault "itoa writes before its buffer").
Proof.
  intros Hn. unfold libc_itoa, itoa_from. rewrite u64_small by lia.
  by rewrite itoa_loop_underflow by (simpl Z.of_nat; lia).
Qed.

(** [atoi] of a digit string whose value fits an [int]. *)
Definition decimal (c : Z) : Prop := 48 <= c <= 57.

Lemma value_ge r ds : 0 <= r -> Forall decimal ds -> r <= value 10 r ds.
Proof.
  revert r. induction ds as [|c ds IH]; intros r Hr Hds; [done|].
  inversion Hds as [|?? Hc Hds']; subst. unfold decimal in Hc.
  change (value 10 r (c :: ds)) with (value 10 (r * 10 + digit_val c) ds).
  assert (digit_val c = c - 48) as Hd.
  { unfold digit_val. destruct (c <? 58) eqn:E; lia. }
  specialize (IH (r * 10 + digit_val c) ltac:(lia) Hds'). lia.
Qed.

Lemma atoi_loop_value ds tail r :
  0 <= r -> Forall decimal ds -> value 10 r ds < 2 ^ 31 ->
  atoi_loop (ds ++ 0 :: tail) r = Done (value 10 r ds).
Proof.
  revert r. induction ds as [|c ds IH]; intros r Hr Hds Hv; [done|].
  inversion Hds as [|?? Hc Hds']; subst. unfold decimal in Hc.
  change (value 10 r (c :: ds)) with (value 10 (r * 10 + digit_val c) ds) in Hv |- *.
  assert (digit_val c = c - 48) as Hd.
  { unfold digit_val. destruct (c <? 58) eqn:E; lia. }
  assert (s8 c = c) as Hs by (unfold s8; rewrite Z.mod_small; lia).
  pose proof (value_ge (r * 10 + digit_val c) ds ltac:(lia) Hds').
  simpl app. cbn [atoi_loop]. destruct (c =? 0) eqn:E; [lia|].
  rewrite Hs, s32_small by lia. rewrite <- Hd. apply IH; (done || lia).
Qed.

Lemma atoi_value ds tail :
  Forall decimal ds -> value 10 0 ds < 2 ^ 31 -> atoi (ds ++ 0 :: tail) = Done (value 10 0 ds).
Proof. intros. by apply atoi_loop_value. Qed.

Lemma writes_decimal n ds : writes 10 n ds -> Forall decimal ds.
Proof.
  intros (_ & H & _). eapply Forall_impl; [exact H|].
  intros c (Hlut & Hp & Hd). unfold decimal.
  assert (Forall (fun c => c < 58 \/ 65 <= c) lut) as Hall by (repeat constructor; lia).
  rewrite Forall_forall in Hall. specialize (Hall c Hlut).
  unfold digit_val in Hd. destruct (c <? 58) eqn:E; lia.
Qed.

(** C38. [itoa] of both programs and AWD's [itoa64] write the number they are given,
    in any base from 2 to 16, below the terminator, and the rest of the static
    buffer is unchanged - but for libc's [itoa] in base 2, which has room for 49
    digits only: with more it writes below its buffer. *)
Theorem itoa_correct (buffer buffer32 : list Z) (n n32 base : Z)
    (Hbuf : length buffer = 65%nat) (Hbuf32 : length buffer32 = 33%nat)
    (Hbase : 2 <= base <= 16) (Hn : 0 <= n < 2 ^ 64) (Hn32 : 0 <= n32 < 2 ^ 32) :
  (if (base =? 2) && (2 ^ 49 <=? n)
   then libc_itoa buffer n base = Stopped (Fault "itoa writes before its buffer")
   else exists ds, libc_itoa buffer n base = Done (ds ++ 0 :: drop 50 buffer) /\ writes base n ds) /\
  (exists ds, awd_itoa64 buffer n base = Done (ds ++ 0 :: drop 65 buffer) /\ writes base n ds) /\
  (exists ds, awd_itoa buffer32 n32 base = Done (ds ++ 0 :: drop 33 buffer32) /\
    writes base n32 ds).
Proof.
  split; [|split].
  - destruct (Z.eqb_spec base 2) as [->|Hne]; cbn [andb].
    + destruct (Z.leb_spec (2 ^ 49) n); [apply libc_itoa_underflow; lia|].
      exists (numeral n 2). split; [by apply libc_itoa_numeral|apply numeral_writes; lia].
    + pose proof (pow49_large base ltac:(lia)).
      exists (numeral n base). split; [apply libc_itoa_numeral; lia|apply numeral_writes; lia].
  - exists (numeral n base). split; [apply awd_itoa64_numeral; lia|apply numeral_writes; lia].
  - exists (numeral n32 base). split; [apply awd_itoa_numeral; lia|apply numeral_writes; lia].
Qed.

Lemma itoa_correct_witness :
  exists ds, libc_itoa static_buffer 48879 16 = Done (ds ++ 0 :: drop 50 static_buffer) /\
    writes 16 48879 ds.
Proof.
  apply (itoa_correct static_buffer (replicate 33 0) 48879 7 16);
    first [reflexivity | split; vm_compute; congruence].
Defined.

(** Reading back what [itoa] printed in base 10 gives the number, for every
    non-negative [int]. *)
Theorem atoi_itoa_roundtrip (buffer : list Z) (n : Z)
    (Hbuf : length buffer = 65%nat) (Hn : 0 <= n < 2 ^ 31) :
  match libc_itoa buffer n 10 with Done s => atoi s | Stopped r => Stopped r end = Done n.
Proof.
  pose proof (pow49_large 10 ltac:(lia)).
  rewrite libc_itoa_numeral by lia.
  pose proof (numeral_writes 10 ltac:(lia) n ltac:(lia)) as Hw.
  rewrite atoi_value; [f_equal; apply Hw| |].
  - by eapply writes_decimal.
  - destruct Hw as [-> _]. lia.
Qed.

Lemma atoi_itoa_roundtrip_witness :
  match libc_itoa static_buffer 80386 10 with Done s => atoi s | Stopped r => Stopped r end
    = Done 80386.
Proof.
  apply atoi_itoa_roundtrip; first [reflexivity | split; vm_compute; congruence].
Defined.
