(* ===== verification/VprintfSpec.v ===== *)
(** What [vprintf] prints: a grammar of format strings with its rendering, and
    the theorem that on every sink [vprintf] prints exactly the rendering, one
    character after the other. *)

From S2P Require Import Prelude Format.
Local Open Scope Z_scope.

(** ** Format strings and their rendering *)

Inductive conv : Type :=
  | CvPercent | CvStr | CvChar | CvDec | CvDecI | CvHex | CvPtr.

Inductive item : Type :=
  | Lit (c : Z)
  | Dir (lj : bool) (width : list Z) (cv : conv).

Definition conv_char (cv : conv) : Z :=
  match cv with
  | CvPercent => 37 | CvStr => 115 | CvChar => 99
  | CvDec => 100 | CvDecI => 105 | CvHex => 120 | CvPtr => 112
  end.

Definition item_bytes (it : item) : list Z :=
  match it with
  | Lit c => [c]
  | Dir lj width cv =>
      37 :: (if lj then [45] else []) ++ width ++ [conv_char cv]
  end.

(** Literal bytes are neither NUL nor ['%']; a width has at most 7 digits. *)
Definition item_ok (it : item) : Prop :=
  match it with
  | Lit c => c <> 0 /\ c <> 37
  | Dir _ width _ => Forall decimal width /\ (length width <= 7)%nat
  end.

(** [s] in a field of [w] characters. *)
Definition pad (lj zero : bool) (w : Z) (s : list Z) : list Z :=
  let fill := replicate (Z.to_nat (w - Z.of_nat (length s))) (if zero then 48 else 32) in
  if lj then s ++ fill else fill ++ s.

Definition zero_flag (lj : bool) (width : list Z) : bool :=
  negb lj && match width with d :: _ => d =? 48 | [] => false end.

(** The characters of a C string, up to its terminator. *)
Fixpoint chars_of (s : list Z) : option (list Z) :=
  match s with
  | [] => None
  | c :: s' => if c =? 0 then Some [] else cons c <$> chars_of s'
  end.

Definition render_item (it : item) (arg : list varg) : option (list Z * list varg) :=
  match it with
  | Lit c => Some ([c], arg)
  | Dir lj width cv =>
      let w := value 10 0 width in
      let z := zero_flag lj width in
      match cv, arg with
      | CvPercent, _ => Some ([37], arg)
      | CvStr, VStr s :: arg' =>
          match chars_of s with
          | Some cs => Some (pad lj false w cs, arg')
          | None => None
          end
      | CvChar, VInt c :: arg' => Some ([u8 c], arg')
      | (CvDec | CvDecI), VInt n :: arg' => Some (pad lj false w (numeral (u32 n) 10), arg')
      | CvHex, VInt n :: arg' => Some (pad lj z w (numeral (u32 n) 16), arg')
      | CvPtr, VInt64 n :: arg' => Some (pad lj z w (numeral (u64 n) 16), arg')
      | _, _ => None
      end
  end.

Fixpoint render (its : list item) (arg : list varg) : option (list Z) :=
  match its with
  | [] => Some []
  | it :: its' =>
      match render_item it arg with
      | Some (cs, arg') => app cs <$> render its' arg'
      | None => None
      end
  end.

Definition format_string (its : list item) : list Z := concat (map item_bytes its).

(** ** Lemmas *)

Section Sink.
Context {W : Type} `{CharSinkOk W}.

(** Print these characters, in this order. *)
Definition emit (cs : list Z) : ST W unit := forM cs put_char.

Lemma print_string_loop_emit s cs :
  chars_of s = Some cs -> print_string_loop put_char s ≡ emit cs.
Proof.
  revert cs. induction s as [|c s IH]; intros cs Hcs; simpl in *; [done|].
  destruct (c =? 0) eqn:E.
  - by injection Hcs as <-.
  - destruct (chars_of s) as [cs'|]; [|done]. injection Hcs as <-.
    unfold emit. simpl. apply bind_proper; [|done]. intros ?. by apply IH.
Qed.

Lemma put_string_emit s cs : chars_of s = Some cs -> put_string s ≡ emit cs.
Proof.
  intros Hcs. split. intros st. rewrite put_string_spec.
  by apply ST_eq_at, print_string_loop_emit.
Qed.

Lemma c_strlen_chars s cs : chars_of s = Some cs -> c_strlen s = Done (Z.of_nat (length cs)).
Proof.
  revert cs. induction s as [|c s IH]; intros cs Hcs; simpl in *; [done|].
  destruct (c =? 0) eqn:E; [by injection Hcs as <-|].
  destruct (chars_of s) as [cs'|]; [|done]. injection Hcs as <-.
  rewrite (IH cs') by done. simpl length. f_equal. lia.
Qed.

Lemma chars_of_app ds tail :
  Forall (fun c => 0 < c) ds -> chars_of (ds ++ 0 :: tail) = Some ds.
Proof.
  induction 1 as [|c ds Hc _ IH]; simpl; [done|].
  destruct (c =? 0) eqn:E; [lia|]. by rewrite IH.
Qed.

Lemma emit_app a b : emit (a ++ b) ≡ (emit a ;; emit b).
Proof. apply forM_app. Qed.

Lemma emit_one {A} c (m : ST W A) : (emit [c] ;; m) ≡ (put_char c ;; m).
Proof. unfold emit. simpl. rewrite bind_assoc. by apply bind_proper. Qed.

(** The length test of the padding helper does not change what is printed. *)
Lemma print_padding_emit w s cs z :
  chars_of s = Some cs -> 0 <= w < 10000000 -> Z.of_nat (length cs) < 2 ^ 31 ->
  print_padding w s z ≡
    emit (replicate (Z.to_nat (w - Z.of_nat (length cs))) (if z then 48 else 32)).
Proof.
  intros Hcs Hw Hl. unfold print_padding. destruct (w =? 0) eqn:E.
  - replace (Z.to_nat _) with 0%nat by lia. done.
  - split. intros st. unfold mbind, ST_bind, lift. rewrite (c_strlen_chars _ _ Hcs).
    by rewrite s32_small by lia.
Qed.

Lemma print_justified_emit d s cs z :
  chars_of s = Some cs -> 0 <= dr_length d < 10000000 -> Z.of_nat (length cs) < 2 ^ 31 ->
  (dr_left_justify d = true -> z = false) ->
  print_justified d s z ≡ emit (pad (dr_left_justify d) z (dr_length d) cs).
Proof.
  intros Hcs Hw Hl Hz. unfold print_justified, pad.
  destruct (dr_left_justify d); rewrite emit_app.
  - apply bind_proper; [|by apply put_string_emit].
    intros ?. by apply print_padding_emit.
  - apply bind_proper; [|by apply print_padding_emit].
    intros ?. by apply put_string_emit.
Qed.

Lemma take_digits_all k ds c rest :
  Forall decimal ds -> (length ds <= k)%nat -> is_digit c = false ->
  take_digits k (ds ++ c :: rest) = (ds, c :: rest).
Proof.
  intros Hds. revert k. induction Hds as [|d ds Hd _ IH]; intros k Hk Hc; simpl.
  - destruct k; simpl; [done|]. by rewrite Hc.
  - destruct k; simpl in *; [lia|]. unfold decimal in Hd.
    assert (is_digit d = true) as -> by (unfold is_digit; lia).
    by rewrite IH by (done || lia).
Qed.

Lemma value_bound ds r :
  Forall decimal ds -> 0 <= r ->
  0 <= value 10 r ds < (r + 1) * 10 ^ Z.of_nat (length ds).
Proof.
  intros Hds. revert r. induction Hds as [|d ds Hd _ IH]; intros r Hr; [simpl; lia|].
  unfold decimal in Hd.
  change (value 10 r (d :: ds)) with (value 10 (r * 10 + digit_val d) ds).
  assert (digit_val d = d - 48) as -> by (unfold digit_val; destruct (d <? 58) eqn:E; lia).
  specialize (IH (r * 10 + (d - 48)) ltac:(lia)).
  simpl length. rewrite Nat2Z.inj_succ, Z.pow_succ_r by lia.
  pose proof (Z.pow_pos_nonneg 10 (Z.of_nat (length ds))). nia.
Qed.

Lemma width_bound ds :
  Forall decimal ds -> (length ds <= 7)%nat -> 0 <= value 10 0 ds < 10000000.
Proof.
  intros Hds Hl. pose proof (value_bound ds 0 Hds ltac:(lia)).
  pose proof (Z.pow_le_mono_r 10 (Z.of_nat (length ds)) 7). lia.
Qed.

Lemma conv_char_facts cv :
  is_digit (conv_char cv) = false /\ conv_char cv <> 45 /\ conv_char cv <> 0.
Proof. by destruct cv. Qed.

Lemma scan_directive_dir (lj : bool) width cv rest :
  Forall decimal width -> (length width <= 7)%nat ->
  scan_directive ((if lj then [45] else []) ++ width ++ conv_char cv :: rest) =
    Done (Directive lj (value 10 0 width) (zero_flag lj width), conv_char cv :: rest).
Proof.
  intros Hw Hl. destruct (conv_char_facts cv) as (Hd & H45 & _).
  pose proof (width_bound width Hw Hl).
  assert (forall s, s = width ++ conv_char cv :: rest ->
    match s with
    | [] => Stopped (Fault "format read out of bounds")
    | d :: _ =>
      if is_digit d then
        let (digits, s2) := take_digits 7 s in
        match atoi (digits ++ replicate (8 - length digits) 0) with
        | Done len => Done (Directive lj len (if lj then false else d =? 48), s2)
        | Stopped r => Stopped r
        end
      else Done (Directive lj 0 false, s)
    end = Done (Directive lj (value 10 0 width) (zero_flag lj width), conv_char cv :: rest))
    as Hmain.
  { intros s ->. destruct width as [|d ds].
    - cbn [app]. rewrite Hd. unfold zero_flag. by rewrite andb_false_r.
    - pose proof Hw as Hw'. inversion Hw' as [|?? Hdd _]; subst. unfold decimal in Hdd.
      rewrite take_digits_all by done.
      simpl app at 1. cbn iota.
      assert (is_digit d = true) as -> by (unfold is_digit; lia).
      replace (8 - length (d :: ds))%nat with (S (7 - length (d :: ds))) by (simpl in *; lia).
      cbn [replicate]. rewrite atoi_value by (done || lia).
      unfold zero_flag. by destruct lj. }
  unfold scan_directive. destruct lj.
  - cbn [app]. change (45 =? 45) with true. cbn iota. by apply Hmain.
  - cbn [app]. destruct width as [|d ds] eqn:Ew.
    + cbn [app]. destruct (conv_char cv =? 45) eqn:E; [lia|].
      by rewrite <- (Hmain _ eq_refl).
    + cbn [app]. inversion Hw as [|?? Hdd _]; subst. unfold decimal in Hdd.
      destruct (d =? 45) eqn:E; [lia|]. by rewrite <- (Hmain _ eq_refl).
Qed.

Section Loop.
Variable itoa itoa_p : Z -> Z -> outcome (list Z).
Hypothesis itoa_ok : forall n base, 0 <= n < 2 ^ 32 -> base = 10 \/ base = 16 ->
  exists tail, itoa n base = Done (numeral n base ++ 0 :: tail).
Hypothesis itoa_p_ok : forall n, 0 <= n < 2 ^ 64 ->
  exists tail, itoa_p n 16 = Done (numeral n 16 ++ 0 :: tail).

Lemma numeral_chars n base tail :
  2 <= base <= 16 -> 0 <= n < 2 ^ 64 -> chars_of (numeral n base ++ 0 :: tail) = Some (numeral n base).
Proof.
  intros Hb Hn. apply chars_of_app.
  destruct (numeral_writes base Hb n Hn) as (_ & Hall & _).
  eapply Forall_impl; [exact Hall|]. by intros c (_ & ? & _).
Qed.

Lemma length_numeral_go fuel n base acc :
  (length (numeral_go fuel n base acc) <= fuel + length acc)%nat.
Proof.
  revert n acc. induction fuel as [|fuel IH]; intros n acc; simpl; [lia|].
  case_match; [etrans; [apply IH|]; simpl; lia|simpl; lia].
Qed.

Lemma length_numeral n base : (length (numeral n base) <= 64)%nat.
Proof. apply (length_numeral_go 64 n base []). Qed.

(** Arguments shorter than 2^31 bytes, as [int] lengths assume. *)
Definition arg_ok (a : varg) : Prop :=
  match a with
  | VStr s => Z.of_nat (length s) < 2 ^ 31
  | _ => True
  end.

Lemma length_chars_of s cs : chars_of s = Some cs -> (length cs <= length s)%nat.
Proof.
  revert cs. induction s as [|c s IH]; intros cs Hcs; simpl in *; [done|].
  destruct (c =? 0); [injection Hcs as <-; simpl; lia|].
  destruct (chars_of s); [|done]. injection Hcs as <-. specialize (IH l eq_refl). simpl. lia.
Qed.

Lemma number_emit d n base tail z :
  base = 10 \/ base = 16 -> 0 <= n < 2 ^ 64 -> 0 <= dr_length d < 10000000 ->
  (dr_left_justify d = true -> z = false) ->
  print_justified d (numeral n base ++ 0 :: tail) z ≡
    emit (pad (dr_left_justify d) z (dr_length d) (numeral n base)).
Proof.
  intros Hb Hn Hl Hz. pose proof (length_numeral n base).
  apply print_justified_emit; try done; [apply numeral_chars|]; lia.
Qed.

Lemma lift_done {A} (a : A) : lift (Done a) ≡@{ST W A} mret a.
Proof. done. Qed.

Lemma ret_emit {A} (m : ST W unit) cs (a : A) :
  m ≡ emit cs -> (m ;; mret a) ≡ (emit cs ;; mret a).
Proof. intros Hm. by apply bind_proper. Qed.

Lemma print_directive_emit lj width cv arg cs arg' :
  item_ok (Dir lj width cv) -> Forall arg_ok arg ->
  render_item (Dir lj width cv) arg = Some (cs, arg') ->
  print_directive itoa itoa_p
    (Directive lj (value 10 0 width) (zero_flag lj width)) (conv_char cv) arg
  ≡ (emit cs ;; mret arg').
Proof.
  intros [Hw Hl] Harg Hr. pose proof (width_bound width Hw Hl) as Hb.
  assert (lj = true -> zero_flag lj width = false) as Hz by (by intros ->).
  assert (forall n, 0 <= u32 n < 2 ^ 32) as H32 by (intros; apply u32_range).
  assert (forall n, 0 <= u64 n < 2 ^ 64) as H64 by (intros; apply u64_range).
  unfold print_directive.
  destruct cv, arg as [|[n|n|s] arg]; simpl in Hr |- *; try done;
    try (destruct (chars_of s) as [chs|] eqn:Es; [|done]);
    injection Hr as <- <-;
    try (unfold emit; simpl; by rewrite bind_assoc);
    try (destruct (itoa_ok (u32 n) 10 (H32 n) (or_introl eq_refl)) as [tail ->]);
    try (destruct (itoa_ok (u32 n) 16 (H32 n) (or_intror eq_refl)) as [tail' ->]);
    try (destruct (itoa_p_ok (u64 n) (H64 n)) as [tail'' ->]);
    apply ret_emit; simpl.
  all: try (apply (number_emit (Directive _ _ _)); simpl; try done; try (by auto); pose proof (H32 n); lia).
  inversion Harg as [|?? Hs _]; subst. pose proof (length_chars_of _ _ Es).
  apply (print_justified_emit (Directive _ _ _)); simpl; try done; simpl in Hs; lia.
Qed.

Lemma render_item_args it arg cs arg' :
  render_item it arg = Some (cs, arg') -> Forall arg_ok arg -> Forall arg_ok arg'.
Proof.
  destruct it as [c|lj width cv]; simpl; [by intros [= <- <-]|].
  intros Hr Ha. destruct cv, arg as [|[n|n|s] arg]; simpl in Hr; try done;
    try (destruct (chars_of s); [|done]); injection Hr as <- <-; try done;
    by inversion Ha.
Qed.

Lemma vprintf_loop_emit fuel its arg out tail :
  Forall item_ok its -> Forall arg_ok arg -> render its arg = Some out ->
  (length its < fuel)%nat ->
  vprintf_loop itoa itoa_p fuel (format_string its ++ 0 :: tail) arg ≡ emit out.
Proof.
  revert fuel arg out. induction its as [|it its IH]; intros fuel arg out Hok Ha Hr Hf.
  - destruct fuel; [simpl in Hf; lia|]. by injection Hr as <-.
  - destruct fuel as [|fuel]; [simpl in Hf; lia|].
    inversion Hok as [|?? Hit Hits]; subst. simpl in Hr, Hf.
    destruct (render_item it arg) as [[cs arg']|] eqn:Ei; [|done].
    destruct (render its arg') as [out'|] eqn:Eo; [|done]. injection Hr as <-.
    assert (Forall arg_ok arg') as Ha' by (by eapply render_item_args).
    assert (forall r, r = arg' -> vprintf_loop itoa itoa_p fuel (format_string its ++ 0 :: tail) r
      ≡ emit out') as IH' by (intros r ->; apply IH; try done; lia).
    rewrite emit_app. destruct it as [c|lj width cv].
    + destruct Hit as [Hc0 Hc37]. injection Ei as <- <-. simpl.
      destruct (c =? 0) eqn:E0; [lia|]. destruct (c =? 37) eqn:E37; [lia|].
      cbn [negb]. rewrite emit_one.
      apply bind_proper; [|done]. intros ?. by apply IH'.
    + unfold format_string. simpl. rewrite <- !app_assoc. simpl.
      rewrite scan_directive_dir by apply Hit.
      rewrite lift_done, ret_bind.
      rewrite (print_directive_emit _ _ _ _ _ _ Hit Ha Ei), bind_assoc.
      apply bind_proper; [|done]. intros ?. rewrite ret_bind. by apply IH'.
Qed.

End Loop.
End Sink.

(** ** The theorems *)

Lemma length_item_bytes it : (1 <= length (item_bytes it))%nat.
Proof. destruct it; simpl; lia. Qed.

Lemma length_format_string its : (length its <= length (format_string its))%nat.
Proof.
  unfold format_string. induction its as [|it its IH]; simpl; [lia|].
  rewrite length_app. pose proof (length_item_bytes it). lia.
Qed.

Lemma vprintf_with_emit {W : Type} `{CharSinkOk W} itoa itoa_p its arg out tail :
  (forall n base, 0 <= n < 2 ^ 32 -> base = 10 \/ base = 16 ->
    exists tail, itoa n base = Done (numeral n base ++ 0 :: tail)) ->
  (forall n, 0 <= n < 2 ^ 64 ->
    exists tail, itoa_p n 16 = Done (numeral n 16 ++ 0 :: tail)) ->
  Forall item_ok its -> Forall arg_ok arg -> render its arg = Some out ->
  vprintf_with itoa itoa_p (format_string its ++ 0 :: tail) arg ≡@{ST W unit} emit out.
Proof.
  intros Hi Hp Hits Ha Hr. apply vprintf_loop_emit; try done.
  rewrite length_app. pose proof (length_format_string its). lia.
Qed.

Lemma vprintf_emit {W : Type} `{CharSinkOk W} its arg out tail :
  Forall item_ok its -> Forall arg_ok arg -> render its arg = Some out ->
  vprintf (format_string its ++ 0 :: tail) arg ≡@{ST W unit} emit out.
Proof.
  intros Hits Ha Hr. apply vprintf_with_emit; try done.
  - intros n base Hn [-> | ->]; eexists; apply libc_itoa_numeral; try (eapply Z.lt_trans; [|apply pow49_large]); (done || lia).
  - intros n Hn; eexists; apply libc_itoa_numeral; try (eapply Z.lt_trans; [|apply pow49_large]); (done || lia).
Qed.

Lemma awd_vprintf_emit {W : Type} `{CharSinkOk W} its arg out tail :
  Forall item_ok its -> Forall arg_ok arg -> render its arg = Some out ->
  awd_vprintf (format_string its ++ 0 :: tail) arg ≡@{ST W unit} emit out.
Proof.
  intros Hits Ha Hr. apply vprintf_with_emit; try done.
  - intros n base Hn [-> | ->]; eexists; apply awd_itoa_numeral; (done || lia).
  - intros n Hn; eexists; apply awd_itoa64_numeral; (done || lia).
Qed.

(** C31. Both [vprintf]s, on any sink whose [put_string] prints the characters of
    its string one by one: a format string made of literals and directives,
    with arguments of the types the directives ask for, prints exactly the
    rendering of its items, and reads no byte behind its terminator. *)
Theorem vprintf_correct (W : Type) (sink : CharSink W) (sink_ok : CharSinkOk W)
    (its : list item) (arg : list varg) (out tail : list Z) (st : W)
    (Hits : Forall item_ok its) (Harg : Forall arg_ok arg)
    (Hrender : render its arg = Some out) :
  vprintf (format_string its ++ 0 :: tail) arg st = forM out put_char st /\
  awd_vprintf (format_string its ++ 0 :: tail) arg st = forM out put_char st.
Proof.
  split; apply ST_eq_at; [by apply vprintf_emit|by apply awd_vprintf_emit].
Qed.

(** ["p=%016p %-4d|"] with 0x1234ABCD and 7. *)
Definition sample_items : list item :=
  [Lit 112; Lit 61; Dir false [48; 49; 54] CvPtr; Lit 32; Dir true [52] CvDec; Lit 124].
Definition sample_args : list varg := [VInt64 305441741; VInt 7].
Definition sample_out : list Z :=
  [112; 61] ++ replicate 8 48 ++ [49; 50; 51; 52; 65; 66; 67; 68] ++ [32; 55; 32; 32; 32; 124].

Lemma vprintf_correct_witness :
  vprintf (format_string sample_items ++ [0]) sample_args [] = Done (tt, sample_out).
Proof.
  rewrite (proj1 (vprintf_correct (list Z) list_sink list_sink_ok sample_items sample_args
    sample_out [] [] ltac:(repeat constructor; try lia; discriminate)
    ltac:(repeat constructor) eq_refl)).
  reflexivity.
Defined.

(** A ['%'] as the last character of a format string: both [vprintf]s print
    the terminator as a specifier and go on reading behind it. *)
Theorem vprintf_trailing_percent (its : list item) (arg : list varg) (out : list Z)
    (Hits : Forall item_ok its) (Hlit : Forall (fun it => exists c, it = Lit c) its) :
  vprintf (format_string its ++ [37; 0]) arg out =
    Stopped (Fault "format read out of bounds").
Proof.
  unfold vprintf, vprintf_with.
  assert (forall fuel, (length its + 1 < fuel)%nat ->
    vprintf_loop (libc_itoa static_buffer) (libc_itoa static_buffer) fuel
      (format_string its ++ [37; 0]) arg out = Stopped (Fault "format read out of bounds"))
    as H.
  { revert out. induction its as [|it its IH]; intros out fuel Hf.
    - destruct fuel as [|[|fuel]]; [simpl in Hf; lia..|]. reflexivity.
    - apply Forall_cons in Hlit as [[c ->] Hlit]. apply Forall_cons in Hits as [[H0 H37] Hits].
      destruct fuel as [|fuel]; [simpl in Hf; lia|]. simpl.
      destruct (c =? 0) eqn:E0; [lia|]. destruct (c =? 37) eqn:E37; [lia|]. cbn [negb].
      unfold mbind, ST_bind. simpl. apply IH; (done || simpl in Hf; lia). }
  apply H. rewrite length_app. pose proof (length_format_string its). simpl. lia.
Qed.

Lemma vprintf_trailing_percent_witness :
  vprintf (format_string [Lit 120] ++ [37; 0]) [] [] =
    Stopped (Fault "format read out of bounds").
Proof.
  apply (vprintf_trailing_percent [Lit 120] [] []); repeat constructor;
    (discriminate || eauto).
Defined.
