(* ===== verification/TextScreen.v ===== *)
(** The 80x25 text buffer of the VGA card at 0xB8000, shared by AWD's console
    and Lobo's: the cells a memory shows, how writes and the scrolling loops
    change them, and the memory around them. *)

From S2P Require Import Prelude Memory.
Local Open Scope Z_scope.

Definition cell : Type := Z * Z.

Definition blank (attr : Z) : list cell := replicate 80 (32, attr).

Definition vga : Z := 753664.
Definition cell_at (m : mem) (r c : Z) : cell :=
  (mget m (vga + 2 * (80 * r + c)), mget m (vga + 2 * (80 * r + c) + 1)).
Definition screen (m : mem) : list (list cell) :=
  (fun r => cell_at m r <$> seqZ 0 80) <$> seqZ 0 25.

Definition in_screen (r c : Z) : Prop := 0 <= r < 25 /\ 0 <= c < 80.

Lemma lookup_seqZ_0 n i : 0 <= i < n -> seqZ 0 n !! Z.to_nat i = Some i.
Proof. intros. apply lookup_seqZ. lia. Qed.

Lemma screen_ext m m' :
  (forall r c, in_screen r c -> cell_at m r c = cell_at m' r c) -> screen m = screen m'.
Proof.
  intros H. unfold screen. apply list_fmap_ext. intros i r Hr.
  apply list_fmap_ext. intros j c Hc.
  apply lookup_seqZ in Hr. apply lookup_seqZ in Hc. apply H. unfold in_screen. lia.
Qed.

(** The cells of a buffer written at one cell. *)
Lemma cell_at_write m r c r' c' ch at' :
  in_screen r c -> in_screen r' c' ->
  cell_at (mput (mput m (vga + 2 * (80 * r + c)) ch) (vga + 2 * (80 * r + c) + 1) at') r' c' =
    if decide (r' = r /\ c' = c) then (u8 ch, u8 at') else cell_at m r' c'.
Proof.
  unfold in_screen, cell_at. intros H H'. case_decide as Hd.
  - destruct Hd as [-> ->]. autorewrite with mach. done.
  - assert (80 * r + c <> 80 * r' + c') by lia. by autorewrite with mach.
Qed.

(** Only the text buffer is written. *)
Definition screen_bytes : Z := 4000.
Definition outside_screen (m m' : mem) : Prop := agree_outside m m' vga screen_bytes.

Lemma outside_screen_refl m : outside_screen m m.
Proof. by intros b Hb. Qed.
Lemma outside_screen_trans m1 m2 m3 :
  outside_screen m1 m2 -> outside_screen m2 m3 -> outside_screen m1 m3.
Proof. intros H1 H2 b Hb. by rewrite H1, H2. Qed.

Lemma outside_write m r c ch a :
  in_screen r c ->
  outside_screen (mput (mput m (vga + 2 * (80 * r + c)) ch) (vga + 2 * (80 * r + c) + 1) a) m.
Proof.
  unfold in_screen, screen_bytes. intros H b Hb.
  unfold screen_bytes in Hb. by autorewrite with mach.
Qed.

(** *** Scrolling

    The double loop that copies every line to the one above, over any state that
    holds the memory. *)
Definition copy_cell (line x : Z) (m : mem) : mem :=
  mput (mput m (vga + 2 * (80 * line + x)) (mget m (vga + 2 * (80 * (line + 1) + x))))
    (vga + 2 * (80 * line + x) + 1) (mget m (vga + 2 * (80 * (line + 1) + x) + 1)).

Section Scroll.
Context {T : Type} (the_mem : T -> mem) (inv : T -> Prop) (f : Z -> Z -> T -> T).
Hypothesis Hf : forall line x t, inv t -> 0 <= line < 24 -> 0 <= x < 80 ->
  inv (f line x t) /\ the_mem (f line x t) = copy_cell line x (the_mem t).

(** Afterwards every line but the last shows what the next one showed; the last
    is unchanged. *)
Lemma scroll_loops_ok s :
  inv s ->
  let s' := for_upto 24 (fun line => for_upto 80 (f line)) s in
  inv s' /\ outside_screen (the_mem s') (the_mem s) /\
  forall r c, in_screen r c ->
    cell_at (the_mem s') r c = cell_at (the_mem s) (if decide (r < 24) then r + 1 else r) c.
Proof.
  intros Hok.
  apply (for_upto_ind (fun line s' => inv s' /\ outside_screen (the_mem s') (the_mem s) /\
    forall r c, in_screen r c ->
      cell_at (the_mem s') r c =
        cell_at (the_mem s) (if decide (r < line) then r + 1 else r) c)
    24 (fun line => for_upto 80 (f line)) s); [lia| |].
  { split; [done|]. split; [apply outside_screen_refl|].
    intros r c [Hr Hc]. by rewrite decide_False by lia. }
  intros line s1 Hline (Hcon1 & Hout1 & Hcell1).
  pose proof (for_upto_ind (fun x s' => inv s' /\ outside_screen (the_mem s') (the_mem s) /\
    forall r c, in_screen r c ->
      cell_at (the_mem s') r c =
        cell_at (the_mem s)
          (if decide (r < line \/ (r = line /\ c < x)) then r + 1 else r) c)
    80 (f line) s1) as Hin.
  destruct Hin as (Hcon & Hout & Hcell); [lia| | |].
  - split; [done|]. split; [done|]. intros r c Hrc. rewrite Hcell1 by done.
    unfold in_screen in Hrc. repeat case_decide; try done; lia.
  - intros x s2 Hx (Hcon2 & Hout2 & Hcell2).
    destruct (Hf line x s2 Hcon2 ltac:(lia) ltac:(lia)) as [Hinv Hm]. rewrite Hm. unfold copy_cell.
    assert (in_screen line x) as Hlx by (unfold in_screen; lia).
    split; [done|]. split.
    { eapply outside_screen_trans; [by apply outside_write|done]. }
    intros r c Hrc. rewrite cell_at_write by done.
    assert (in_screen (line + 1) x) as Hnext by (unfold in_screen in *; lia).
    case_decide as Hd.
    + destruct Hd as [-> ->].
      pose proof (Hcell2 _ _ Hnext) as He. rewrite !decide_False in He by lia.
      rewrite decide_True by lia. rewrite <- He. unfold cell_at.
      by rewrite !u8_small by apply mget_range.
    + rewrite Hcell2 by done. unfold in_screen in *. repeat case_decide; try done; lia.
  - split; [done|]. split; [done|]. intros r c Hrc. rewrite Hcell by done.
    unfold in_screen in Hrc. repeat case_decide; try done; lia.
Qed.
End Scroll.

(** ** Lists of rows *)

Lemma screen_row m r : 0 <= r < 25 -> screen m !! Z.to_nat r = Some (cell_at m r <$> seqZ 0 80).
Proof. intros Hr. unfold screen. by rewrite list_lookup_fmap, lookup_seqZ_0 by done. Qed.

(** Every line moved up, the last one filled with [g]. *)
Lemma screen_shift m m' g :
  (forall r c, in_screen r c -> cell_at m' r c =
     if decide (r = 24) then g c else cell_at m (r + 1) c) ->
  screen m' = tail (screen m) ++ [g <$> seqZ 0 80].
Proof.
  intros H. unfold screen.
  change (seqZ 0 25) with (seqZ 0 24 ++ [24]) at 1.
  rewrite fmap_app. f_equal.
  - change (seqZ 0 25) with (0 :: (Z.succ <$> seqZ 0 24)). rewrite fmap_cons. cbn [tail].
    rewrite <- list_fmap_compose. apply list_fmap_ext. intros i r Hr.
    apply list_fmap_ext. intros j c Hc.
    apply lookup_seqZ in Hr. apply lookup_seqZ in Hc. simpl.
    rewrite H by (unfold in_screen; lia). rewrite decide_False by lia. done.
  - cbn [fmap list_fmap]. f_equal. apply list_fmap_ext. intros j c Hc. apply lookup_seqZ in Hc.
    rewrite H by (unfold in_screen; lia). by rewrite decide_True.
Qed.

Lemma screen_scroll m m' attr :
  (forall r c, in_screen r c -> cell_at m' r c =
     if decide (r = 24) then (32, attr) else cell_at m (r + 1) c) ->
  screen m' = tail (screen m) ++ [blank attr].
Proof. intros H. by rewrite (screen_shift m m' (fun _ => (32, attr)) H). Qed.

(** One cell changed. *)
Lemma screen_update m m' r c f :
  in_screen r c ->
  (forall r' c', in_screen r' c' -> cell_at m' r' c' =
     if decide (r' = r /\ c' = c) then f (cell_at m r' c') else cell_at m r' c') ->
  screen m' = alter (alter f (Z.to_nat c)) (Z.to_nat r) (screen m).
Proof.
  intros Hrc H. apply list_eq. intros i. unfold in_screen in Hrc. unfold screen.
  destruct (decide (i = Z.to_nat r)) as [->|Hi].
  - rewrite list_lookup_alter_eq, !list_lookup_fmap, lookup_seqZ_0 by lia.
    cbn [fmap option_fmap option_map]. f_equal. apply list_eq. intros j.
    destruct (decide (j = Z.to_nat c)) as [->|Hj].
    + rewrite list_lookup_alter_eq, !list_lookup_fmap, lookup_seqZ_0 by lia.
      cbn [fmap option_fmap option_map]. f_equal. rewrite H by (unfold in_screen; lia). by rewrite decide_True.
    + rewrite list_lookup_alter_ne, !list_lookup_fmap by done.
      destruct (seqZ 0 80 !! j) as [c'|] eqn:Ec; [|done]. apply lookup_seqZ in Ec.
      cbn [fmap option_fmap option_map]. f_equal. rewrite H by (unfold in_screen; lia). by rewrite decide_False by lia.
  - rewrite list_lookup_alter_ne, !list_lookup_fmap by done.
    destruct (seqZ 0 25 !! i) as [r'|] eqn:Er; [|done].
    cbn [fmap option_fmap option_map]. f_equal.
    apply list_fmap_ext. intros j c' Hc'. apply lookup_seqZ in Hc', Er.
    rewrite H by (unfold in_screen; lia). by rewrite decide_False by lia.
Qed.

Lemma screen_write m r c ch a :
  in_screen r c -> 0 <= ch < 256 -> 0 <= a < 256 ->
  screen (mput (mput m (vga + 2 * (80 * r + c)) ch) (vga + 2 * (80 * r + c) + 1) a) =
    alter (alter (fun _ => (ch, a)) (Z.to_nat c)) (Z.to_nat r) (screen m).
Proof.
  intros Hrc Hch Ha. apply screen_update; [done|]. intros r' c' Hrc'.
  rewrite cell_at_write by done. by rewrite !u8_small by lia.
Qed.

(** Only the character of a cell written. *)
Lemma cell_at_put m r c r' c' ch :
  in_screen r c -> in_screen r' c' ->
  cell_at (mput m (vga + 2 * (80 * r + c)) ch) r' c' =
    if decide (r' = r /\ c' = c) then (u8 ch, (cell_at m r' c').2) else cell_at m r' c'.
Proof.
  unfold in_screen, cell_at. intros H H'. case_decide as Hd.
  - destruct Hd as [-> ->]. cbn [snd]. by autorewrite with mach.
  - assert (80 * r + c <> 80 * r' + c') by lia. by autorewrite with mach.
Qed.

Lemma outside_put m r c ch :
  in_screen r c -> outside_screen (mput m (vga + 2 * (80 * r + c)) ch) m.
Proof.
  unfold in_screen, screen_bytes. intros H b Hb. unfold screen_bytes in Hb. by autorewrite with mach.
Qed.

Lemma screen_blank m :
  (forall r c, in_screen r c -> cell_at m r c = (32, 15)) -> screen m = replicate 25 (blank 15).
Proof.
  intros H. transitivity ((fun _ : Z => blank 15) <$> seqZ 0 25); [|reflexivity].
  unfold screen. apply list_fmap_ext. intros i r Hr.
  transitivity ((fun _ : Z => (32, 15) : cell) <$> seqZ 0 80); [|reflexivity].
  apply list_fmap_ext. intros j c Hc. apply lookup_seqZ in Hr, Hc.
  apply H. unfold in_screen. lia.
Qed.

