(* ===== verification/AwdConsole.v ===== *)
(** AWD's text console (src/src/awd/console/console.c, logging.c and panic.c):
    the cursor and the 80x25 text buffer at 0xB8000, the abstract terminal it
    implements, and the refinement between them. *)

From S2P Require Import Prelude Memory Format VprintfSpec TextScreen.
Local Open Scope Z_scope.
Local Open Scope mach_scope.

(** ** The code *)

Definition CONSOLE_DEFAULT_COLOR : Z := 15.
Definition CONSOLE_ERROR_COLOR : Z := 79.

Record ConsoleData := {
  con_x : Z; con_y : Z;
  con_color : Z;
  con_width : Z; con_height : Z;
  con_buffer_addr : Z;
}.

(** The global [console] and the memory that holds its buffer. *)
Record console := Console { con : ConsoleData; con_mem : mem }.

Definition set_xy (x y : Z) (s : console) : console :=
  Console {| con_x := x; con_y := y; con_color := con_color (con s);
             con_width := con_width (con s); con_height := con_height (con s);
             con_buffer_addr := con_buffer_addr (con s) |} (con_mem s).

Definition console_write_char (x y c attribute : Z) (s : console) : console :=
  let pos := (y *32 con_width (con s) +32 x) *32 2 in
  let addr := con_buffer_addr (con s) in
  Console (con s) (mput (mput (con_mem s) (addr + pos) c) (addr + (pos +32 1)) attribute).

(** One iteration of the inner loop of [console_scroll]. *)
Definition scroll_cell (line x : Z) (s : console) : console :=
  let src := 2 *32 ((line +32 1) *32 con_width (con s) +32 x) in
  let dest := 2 *32 (line *32 con_width (con s) +32 x) in
  let addr := con_buffer_addr (con s) in
  let c := mget (con_mem s) (addr + src) in
  let att := mget (con_mem s) (addr + (src +32 1)) in
  Console (con s) (mput (mput (con_mem s) (addr + dest) c) (addr + (dest +32 1)) att).

Definition console_scroll (s : console) : console :=
  let s1 := for_upto (con_height (con s) -32 1)
              (fun line => for_upto (con_width (con s)) (scroll_cell line)) s in
  for_upto (con_width (con s))
    (fun x s => console_write_char x (con_height (con s) -32 1) 32 (con_color (con s)) s) s1.

Definition console_set_color (attr : Z) (s : console) : console :=
  Console {| con_x := con_x (con s); con_y := con_y (con s); con_color := u8 attr;
             con_width := con_width (con s); con_height := con_height (con s);
             con_buffer_addr := con_buffer_addr (con s) |} (con_mem s).

Definition console_clear (s : console) : console :=
  for_upto (con_width (con s))
    (fun x => for_upto (con_height (con s))
      (fun y => console_write_char x y 32 CONSOLE_DEFAULT_COLOR)) s.

Definition console_init (s : console) : console :=
  console_clear (Console
    {| con_x := 0; con_y := 0; con_color := CONSOLE_DEFAULT_COLOR;
       con_width := 80; con_height := 25; con_buffer_addr := 753664 |} (con_mem s)).

Definition console_newline (s : console) : console :=
  let s1 := set_xy 0 (con_y (con s) +32 1) s in
  if con_height (con s1) <=? con_y (con s1) then
    console_scroll (set_xy (con_x (con s1)) (con_height (con s1) -32 1) s1)
  else s1.

Definition console_print_char (c : Z) (s : console) : console :=
  if c =? 10 then console_newline s
  else
    let s1 := console_write_char (con_x (con s)) (con_y (con s)) c (con_color (con s)) s in
    let s2 := set_xy (con_x (con s1) +32 1) (con_y (con s1)) s1 in
    if con_width (con s2) <=? con_x (con s2) then console_newline s2 else s2.

Definition console_print_string (str : list Z) : ST console unit :=
  print_string_loop (fun c => modify (console_print_char c)) str.

(** [c = c;] and nothing else, yet. *)
Definition console_write_serial (c : Z) : ST console unit := skip.

Definition console_get_y (s : console) : Z := s32 (con_y (con s)).

(** [vprintf_print_helper] and [vprintf_print_helper_string] of AWD. *)
#[export] Instance console_sink : CharSink console := {
  put_char c := modify (console_print_char c);
  put_string := console_print_string;
}.

Definition log_info (fmt : list Z) (arg : list varg) : ST console unit :=
  modify (console_set_color CONSOLE_DEFAULT_COLOR) ;; awd_vprintf fmt arg.
Definition log_notice (fmt : list Z) (arg : list varg) : ST console unit :=
  modify (console_set_color CONSOLE_DEFAULT_COLOR) ;; awd_vprintf fmt arg.
Definition log_error (fmt : list Z) (arg : list varg) : ST console unit :=
  modify (console_set_color CONSOLE_ERROR_COLOR) ;; awd_vprintf fmt arg.

(** ** The abstract terminal *)

Record term := Term {
  t_rows : list (list cell);
  t_x : Z; t_y : Z;
  t_attr : Z;
}.

Definition term_write (c : Z) (t : term) : term :=
  Term (alter (alter (fun _ => (c, t_attr t)) (Z.to_nat (t_x t))) (Z.to_nat (t_y t)) (t_rows t))
    (t_x t) (t_y t) (t_attr t).

Definition term_newline (t : term) : term :=
  if t_y t =? 24 then Term (tail (t_rows t) ++ [blank (t_attr t)]) 0 24 (t_attr t)
  else Term (t_rows t) 0 (t_y t + 1) (t_attr t).

Definition term_put (c : Z) (t : term) : term :=
  if c =? 10 then term_newline t
  else
    let t1 := term_write c t in
    if t_x t =? 79 then term_newline t1
    else Term (t_rows t1) (t_x t + 1) (t_y t) (t_attr t).

Definition term_color (attr : Z) (t : term) : term :=
  Term (t_rows t) (t_x t) (t_y t) attr.

(** ** Abstraction and invariant *)

Definition abs (s : console) : term :=
  Term (screen (con_mem s)) (con_x (con s)) (con_y (con s)) (con_color (con s)).

Definition console_ok (s : console) : Prop :=
  con_width (con s) = 80 /\ con_height (con s) = 25 /\ con_buffer_addr (con s) = vga /\
  0 <= con_x (con s) < 80 /\ 0 <= con_y (con s) < 25 /\ 0 <= con_color (con s) < 256.

(** ** Lemmas *)

Lemma write_char_ok s x y c a :
  console_ok s -> in_screen y x ->
  console_write_char x y c a s =
    Console (con s) (mput (mput (con_mem s) (vga + 2 * (80 * y + x)) c)
                          (vga + 2 * (80 * y + x) + 1) a).
Proof.
  intros (Hw & Hh & Ha & _) [Hy Hx]. unfold console_write_char. rewrite Hw, Ha.
  mach_small.
  f_equal. f_equal; [f_equal|]; lia.
Qed.

Lemma scroll_cell_ok s x line :
  console_ok s -> 0 <= line < 24 -> 0 <= x < 80 ->
  scroll_cell line x s =
    Console (con s) (mput (mput (con_mem s) (vga + 2 * (80 * line + x))
        (mget (con_mem s) (vga + 2 * (80 * (line + 1) + x))))
      (vga + 2 * (80 * line + x) + 1)
      (mget (con_mem s) (vga + 2 * (80 * (line + 1) + x) + 1))).
Proof.
  intros (Hw & Hh & Ha & _) Hl Hx. unfold scroll_cell. rewrite Hw, Ha.
  mach_small.
  replace (2 * (line * 80 + x)) with (2 * (80 * line + x)) by lia.
  replace (2 * ((line + 1) * 80 + x)) with (2 * (80 * (line + 1) + x)) by lia.
  by rewrite !Z.add_assoc.
Qed.

Lemma console_ok_con s m : console_ok s -> console_ok (Console (con s) m).
Proof. done. Qed.

(** After the two loops of the scroll every line but the last shows what the
    next one showed; the last is unchanged. *)
Lemma scroll_lines_ok s :
  console_ok s ->
  let s' := for_upto 24 (fun line => for_upto 80 (scroll_cell line)) s in
  con s' = con s /\ outside_screen (con_mem s') (con_mem s) /\
  forall r c, in_screen r c ->
    cell_at (con_mem s') r c = cell_at (con_mem s) (if decide (r < 24) then r + 1 else r) c.
Proof.
  intros Hok. apply (scroll_loops_ok con_mem (fun s' => con s' = con s)); [|done].
  intros line x t Ht Hl Hx. assert (console_ok t) as Hokt by (unfold console_ok in *; by rewrite Ht).
  by rewrite scroll_cell_ok.
Qed.

(** Blanking the last line. *)
Lemma blank_line_ok s :
  console_ok s ->
  let s' := for_upto 80 (fun x s => console_write_char x (con_height (con s) -32 1) 32 (con_color (con s)) s) s in
  con s' = con s /\ outside_screen (con_mem s') (con_mem s) /\
  forall r c, in_screen r c ->
    cell_at (con_mem s') r c =
      if decide (r = 24) then (32, con_color (con s)) else cell_at (con_mem s) r c.
Proof.
  intros Hok.
  destruct (for_upto_ind (fun x s' => con s' = con s /\ outside_screen (con_mem s') (con_mem s) /\
    forall r c, in_screen r c ->
      cell_at (con_mem s') r c =
        if decide (r = 24 /\ c < x) then (32, con_color (con s)) else cell_at (con_mem s) r c)
    80 (fun x s => console_write_char x (con_height (con s) -32 1) 32 (con_color (con s)) s) s)
    as (Hcon & Hout & Hcell); [lia| | |].
  - split; [done|]. split; [apply outside_screen_refl|]. intros r c Hrc.
    unfold in_screen in Hrc. rewrite decide_False by lia. done.
  - intros x s1 Hx (Hcon1 & Hout1 & Hcell1).
    assert (console_ok s1) as Hok1 by (unfold console_ok in *; by rewrite Hcon1).
    assert (in_screen 24 x) as Hyx by (unfold in_screen; lia).
    pose proof Hok1 as (_ & Hh1 & _). rewrite Hh1. change (u32 (25 - 1)) with 24.
    rewrite write_char_ok by done. cbn [con con_mem]. rewrite Hcon1.
    split; [done|]. split.
    { eapply outside_screen_trans; [by apply outside_write|done]. }
    intros r c Hrc. rewrite cell_at_write, Hcell1 by done.
    destruct Hok as (_ & _ & _ & _ & _ & Hcol). rewrite !(u8_small) by lia.
    unfold in_screen in Hrc. repeat case_decide; try done; lia.
  - split; [done|]. split; [done|]. intros r c Hrc. rewrite Hcell by done.
    unfold in_screen in Hrc. repeat case_decide; try done; lia.
Qed.

(** ** Each operation implements the terminal's *)

(** What an operation of the console guarantees: the invariant, the new
    terminal, and the memory outside the text buffer. *)
Definition implements (f : console -> console) (g : term -> term) : Prop :=
  forall s, console_ok s ->
    console_ok (f s) /\ abs (f s) = g (abs s) /\ outside_screen (con_mem (f s)) (con_mem s).

Lemma abs_eq s rows x y a :
  screen (con_mem s) = rows -> con_x (con s) = x -> con_y (con s) = y ->
  con_color (con s) = a -> abs s = Term rows x y a.
Proof. unfold abs. by intros -> -> -> ->. Qed.

Lemma console_scroll_ok s :
  console_ok s ->
  con (console_scroll s) = con s /\ outside_screen (con_mem (console_scroll s)) (con_mem s) /\
  screen (con_mem (console_scroll s)) = tail (screen (con_mem s)) ++ [blank (con_color (con s))].
Proof.
  intros Hok. unfold console_scroll. pose proof Hok as (Hw & Hh & _). rewrite Hw, Hh.
  change (u32 (25 - 1)) with 24.
  destruct (scroll_lines_ok s Hok) as (Hcon & Hout & Hcell).
  set (s1 := for_upto 24 (fun line => for_upto 80 (scroll_cell line)) s) in *. clearbody s1.
  assert (console_ok s1) as Hok1 by (unfold console_ok in *; by rewrite Hcon).
  destruct (blank_line_ok s1 Hok1) as (Hcon2 & Hout2 & Hcell2).
  split; [by etrans|]. split; [by eapply outside_screen_trans|].
  rewrite Hcon in Hcell2. apply screen_scroll. intros r c Hrc.
  rewrite Hcell2, Hcell by done. unfold in_screen in Hrc.
  repeat case_decide; try done; lia.
Qed.

Lemma set_xy_ok x y s :
  console_ok s -> 0 <= x < 80 -> 0 <= y < 25 -> console_ok (set_xy x y s).
Proof. intros (? & ? & ? & ? & ? & ?) ? ?. unfold console_ok. simpl. lia. Qed.

(** [console_newline] with the cursor still on the screen; [x] may be 80. *)
Lemma newline_ok s :
  con_width (con s) = 80 -> con_height (con s) = 25 -> con_buffer_addr (con s) = vga ->
  0 <= con_y (con s) < 25 -> 0 <= con_color (con s) < 256 ->
  console_ok (console_newline s) /\ abs (console_newline s) = term_newline (abs s) /\
  outside_screen (con_mem (console_newline s)) (con_mem s).
Proof.
  intros Hw Hh Ha Hy Hc. unfold console_newline, term_newline.
  cbn [set_xy con con_x con_y con_height abs t_y t_attr t_rows]. rewrite Hh. mach_small.
  destruct (25 <=? con_y (con s) + 1) eqn:E.
  - assert ((con_y (con s) =? 24) = true) as -> by lia.
    change (25 - 1) with 24. set (s1 := set_xy 0 24 _).
    assert (console_ok s1) as Hok1 by (unfold console_ok, s1; simpl; lia).
    destruct (console_scroll_ok s1 Hok1) as (Hcon & Hout & Hscr).
    split; [unfold console_ok in *; by rewrite Hcon|]. split; [|done].
    apply abs_eq; [exact Hscr|by rewrite Hcon..].
  - assert ((con_y (con s) =? 24) = false) as -> by lia.
    split; [unfold console_ok; simpl; lia|]. split; [done|apply outside_screen_refl].
Qed.

Lemma newline_implements : implements console_newline term_newline.
Proof. intros s (? & ? & ? & ? & ? & ?). by apply newline_ok. Qed.

Lemma write_implements s c :
  console_ok s -> 0 <= c < 256 ->
  let s' := console_write_char (con_x (con s)) (con_y (con s)) c (con_color (con s)) s in
  con s' = con s /\ abs s' = term_write c (abs s) /\ outside_screen (con_mem s') (con_mem s).
Proof.
  intros Hok Hc. pose proof Hok as (_ & _ & _ & Hx & Hy & Hcol).
  rewrite write_char_ok by (done || unfold in_screen; lia).
  split; [done|]. split; [|apply outside_write; unfold in_screen; lia].
  apply abs_eq; try done. simpl. apply screen_write; unfold in_screen; lia.
Qed.

Lemma print_char_implements c :
  0 <= c < 256 -> implements (console_print_char c) (term_put c).
Proof.
  intros Hc s Hok. unfold console_print_char, term_put.
  destruct (c =? 10); [by apply newline_implements|].
  destruct (write_implements s c Hok Hc) as (Hcon & Habs & Hout).
  set (s1 := console_write_char _ _ _ _ s) in *. clearbody s1.
  pose proof Hok as (Hw & Hh & Ha & Hx & Hy & Hcol).
  cbn [set_xy con con_x con_y con_width]. rewrite Hcon, Hw. mach_small.
  change (t_x (abs s)) with (con_x (con s)).
  destruct (80 <=? con_x (con s) + 1) eqn:E.
  - assert ((con_x (con s) =? 79) = true) as -> by lia.
    destruct (newline_ok (set_xy (con_x (con s) + 1) (con_y (con s)) s1)) as (H1 & H2 & H3);
      cbn [set_xy con con_width con_height con_buffer_addr con_y con_color];
      rewrite ?Hcon; try done.
    split; [done|]. split; [|by eapply outside_screen_trans].
    rewrite H2, <- Habs. unfold term_newline, abs, set_xy; simpl. by rewrite Hcon.
  - assert ((con_x (con s) =? 79) = false) as -> by lia.
    split; [unfold console_ok; simpl; rewrite Hcon; lia|]. split; [|done].
    rewrite <- Habs. unfold abs, set_xy; simpl. by rewrite Hcon.
Qed.

Lemma set_color_implements a :
  0 <= a < 256 -> implements (console_set_color a) (term_color a).
Proof.
  intros Ha s (? & ? & ? & ? & ? & ?). unfold console_set_color. rewrite u8_small by lia.
  split; [unfold console_ok; simpl; lia|]. split; [done|apply outside_screen_refl].
Qed.

Lemma implements_id : implements id id.
Proof. intros s Hs. split; [done|]. split; [done|apply outside_screen_refl]. Qed.

Lemma implements_comp f g f' g' :
  implements f g -> implements f' g' -> implements (f' ∘ f) (g' ∘ g).
Proof.
  intros H H' s Hs. destruct (H s Hs) as (H1 & H2 & H3).
  destruct (H' (f s) H1) as (H1' & H2' & H3'). simpl.
  split; [done|]. split; [by rewrite H2', H2|by eapply outside_screen_trans].
Qed.

(** Printing characters one by one. *)
Definition term_print (cs : list Z) (t : term) : term := foldl (fun t c => term_put c t) t cs.

Lemma print_chars_implements cs s :
  Forall (fun c => 0 <= c < 256) cs -> console_ok s ->
  exists s', emit cs s = Done (tt, s') /\
    console_ok s' /\ abs s' = term_print cs (abs s) /\
    outside_screen (con_mem s') (con_mem s).
Proof.
  intros Hcs. revert s. induction Hcs as [|c cs Hc _ IH]; intros s Hs.
  - exists s. split; [done|]. split; [done|]. split; [done|apply outside_screen_refl].
  - destruct (print_char_implements c Hc s Hs) as (H1 & H2 & H3).
    destruct (IH (console_print_char c s) H1) as (s' & Hrun & H1' & H2' & H3').
    exists s'. split; [exact Hrun|]. split; [done|].
    split; [by rewrite H2', H2|by eapply outside_screen_trans].
Qed.

#[export] Instance console_sink_ok : CharSinkOk console.
Proof. done. Qed.

(** [console_clear] blanks every cell in the default colour. *)
Lemma console_clear_ok s :
  console_ok s ->
  con (console_clear s) = con s /\ outside_screen (con_mem (console_clear s)) (con_mem s) /\
  forall r c, in_screen r c -> cell_at (con_mem (console_clear s)) r c = (32, 15).
Proof.
  intros Hok. unfold console_clear. pose proof Hok as (Hw & Hh & _). rewrite Hw, Hh.
  destruct (for_upto_ind (fun x s' => con s' = con s /\ outside_screen (con_mem s') (con_mem s) /\
      forall r c, in_screen r c -> c < x -> cell_at (con_mem s') r c = (32, 15))
    80 (fun x => for_upto 25 (fun y => console_write_char x y 32 CONSOLE_DEFAULT_COLOR)) s)
    as (Hcon & Hout & Hcell); [lia| | |].
  - split; [done|]. split; [apply outside_screen_refl|]. unfold in_screen. lia.
  - intros x s1 Hx (Hcon1 & Hout1 & Hcell1).
    destruct (for_upto_ind (fun y s' => con s' = con s /\
        outside_screen (con_mem s') (con_mem s) /\
        forall r c, in_screen r c -> c < x \/ (c = x /\ r < y) ->
          cell_at (con_mem s') r c = (32, 15))
      25 (fun y => console_write_char x y 32 CONSOLE_DEFAULT_COLOR) s1)
      as (Hcon2 & Hout2 & Hcell2); [lia| | |].
    + split; [done|]. split; [done|]. intros r c Hrc Hlt. apply Hcell1; [done|].
      unfold in_screen in Hrc. lia.
    + intros y s2 Hy (Hcon2 & Hout2 & Hcell2).
      assert (console_ok s2) as Hok2 by (unfold console_ok in *; by rewrite Hcon2).
      assert (in_screen y x) as Hyx by (unfold in_screen; lia).
      rewrite write_char_ok by done. cbn [con con_mem]. split; [done|]. split.
      { eapply outside_screen_trans; [by apply outside_write|done]. }
      intros r c Hrc Hlt. rewrite cell_at_write by done. case_decide; [done|].
      apply Hcell2; [done|lia].
    + split; [done|]. split; [done|]. intros r c Hrc Hlt. apply Hcell2; [done|].
      unfold in_screen in Hrc. lia.
  - split; [done|]. split; [done|]. intros r c Hrc. apply Hcell; [done|].
    unfold in_screen in Hrc. lia.
Qed.

(** Output in a colour: what [log_info], [log_error] and [panic] do first. *)
Lemma coloured_print_run its arg out tail col s :
  Forall item_ok its -> Forall arg_ok arg -> render its arg = Some out ->
  Forall (fun c => 0 <= c < 256) out -> console_ok s -> 0 <= col < 256 ->
  exists s', (modify (console_set_color col) ;; awd_vprintf (format_string its ++ 0 :: tail) arg) s = Done (tt, s') /\
    console_ok s' /\ abs s' = term_print out (term_color col (abs s)) /\
    outside_screen (con_mem s') (con_mem s).
Proof.
  intros Hits Harg Hrender Hout Hs Hcol. destruct (set_color_implements col Hcol s Hs) as (H1 & H2 & H3).
  destruct (print_chars_implements out _ Hout H1) as (s' & Hrun & H1' & H2' & H3').
  exists s'. split.
  - rewrite (bind_done _ _ s tt (console_set_color col s)) by done. rewrite <- Hrun.
    apply (ST_eq_at (awd_vprintf_emit (W := console) its arg out tail Hits Harg Hrender)).
  - split; [done|]. split; [by rewrite H2', H2|by eapply outside_screen_trans].
Qed.

(** ** The theorems *)

(** [console_print_char] refines the abstract terminal: on a well-formed
    console it keeps the cursor on the screen, changes the terminal the way
    [term_put] says (store and advance, wrap at column 80, scroll at the
    bottom, newline), and writes no byte outside the text buffer. *)
Theorem console_print_char_refines (c : Z) (s : console)
    (Hc : 0 <= c < 256) (Hs : console_ok s) :
  console_ok (console_print_char c s) /\
  abs (console_print_char c s) = term_put c (abs s) /\
  outside_screen (con_mem (console_print_char c s)) (con_mem s).
Proof. by apply print_char_implements. Qed.

Definition fresh_console (m : mem) : console :=
  Console {| con_x := 79; con_y := 24; con_color := 15; con_width := 80; con_height := 25;
             con_buffer_addr := vga |} m.

Lemma console_print_char_refines_witness :
  abs (console_print_char 65 (fresh_console ∅)) = term_put 65 (abs (fresh_console ∅)).
Proof.
  apply (console_print_char_refines 65 (fresh_console ∅)); [lia|].
  unfold console_ok; simpl; lia.
Defined.

(** From any memory, [console_init] gives an empty 80x25 terminal with the
    cursor in the top left corner. *)
Theorem console_init_blank (s : console) :
  console_ok (console_init s) /\
  abs (console_init s) = Term (replicate 25 (blank 15)) 0 0 15 /\
  outside_screen (con_mem (console_init s)) (con_mem s).
Proof.
  unfold console_init. set (s0 := Console _ (con_mem s)).
  assert (console_ok s0) as Hok by (unfold console_ok, s0, vga, CONSOLE_DEFAULT_COLOR; simpl; lia).
  destruct (console_clear_ok s0 Hok) as (Hcon & Hout & Hcell).
  split; [unfold console_ok in *; by rewrite Hcon|]. split; [|done].
  apply abs_eq; [by apply screen_blank|by rewrite Hcon..].
Qed.

(** C37. A log call of AWD: it finishes, and the terminal shows the rendering of the
    format string in the colour of the severity, after what it showed before. *)
Theorem log_refines (its : list item) (arg : list varg) (out tail : list Z) (s : console)
    (Hits : Forall item_ok its) (Harg : Forall arg_ok arg)
    (Hrender : render its arg = Some out) (Hout : Forall (fun c => 0 <= c < 256) out)
    (Hs : console_ok s) :
  exists s1 s2,
    log_info (format_string its ++ 0 :: tail) arg s = Done (tt, s1) /\
    console_ok s1 /\ abs s1 = term_print out (term_color 15 (abs s)) /\
    outside_screen (con_mem s1) (con_mem s) /\
    log_error (format_string its ++ 0 :: tail) arg s = Done (tt, s2) /\
    console_ok s2 /\ abs s2 = term_print out (term_color 79 (abs s)) /\
    outside_screen (con_mem s2) (con_mem s).
Proof.
  pose proof (fun col Hcol => coloured_print_run its arg out tail col s Hits Harg Hrender Hout Hs Hcol) as H.
  destruct (H CONSOLE_DEFAULT_COLOR ltac:(unfold CONSOLE_DEFAULT_COLOR; lia)) as (s1 & ? & ? & ? & ?).
  destruct (H CONSOLE_ERROR_COLOR ltac:(unfold CONSOLE_ERROR_COLOR; lia)) as (s2 & ? & ? & ? & ?).
  by exists s1, s2.
Qed.

Lemma log_refines_witness :
  exists s1 s2,
    log_info (format_string sample_items ++ [0]) sample_args (fresh_console ∅) = Done (tt, s1) /\
    console_ok s1 /\
    abs s1 = term_print sample_out (term_color 15 (abs (fresh_console ∅))) /\
    outside_screen (con_mem s1) ∅ /\
    log_error (format_string sample_items ++ [0]) sample_args (fresh_console ∅) = Done (tt, s2) /\
    console_ok s2 /\
    abs s2 = term_print sample_out (term_color 79 (abs (fresh_console ∅))) /\
    outside_screen (con_mem s2) ∅.
Proof.
  apply (log_refines sample_items sample_args sample_out [] (fresh_console ∅)).
  - repeat constructor; try lia; discriminate.
  - repeat constructor.
  - reflexivity.
  - repeat constructor; lia.
  - unfold console_ok; simpl; lia.
Defined.
