(* ===== verification/AwdAlloc.v ===== *)
(** AWD's global state and its bump allocator
    (src/src/awd/memory/alloc.c, memory.c), with the memory regions it keeps. *)

From S2P Require Import Prelude Memory.
Local Open Scope Z_scope.
Local Open Scope mach_scope.

(** ** The globals of the loader *)

Definition PAGE_SIZE : Z := 4096.
Definition AWD_ALLOC_SIZE : Z := 64 * PAGE_SIZE.
Definition AWD_ALLOC_MIN_ALIGNMENT : Z := 8.

(** [PAGE_ROUND_UP(x)]. *)
Definition PAGE_ROUND_UP (x : Z) : Z :=
  Z.land (u64 (u64 x + PAGE_SIZE - 1)) (2 ^ 64 - PAGE_SIZE).

(** alloc.c *)
Record alloc_state := AllocState {
  heap_phys_base : Z;
  heap_phys_current : Z;
  heap_phys_limit : Z;
  alloc_enabled : bool;
}.

(** memory.h: [struct mem_region], [struct mem_info]. *)
Record mem_region := MemRegion { rg_start : Z; rg_end : Z }.
Record mem_info := MemInfo {
  region_low_memory : mem_region;
  region_awd_image : mem_region;
  region_multiboot_files : mem_region;
  region_awd_malloc : mem_region;
  region_kernel_image : mem_region;
}.

(** paging.h: [awd_mapped_region_t]. *)
Record awd_mapped_region := MappedRegion {
  phys_start : Z; phys_end : Z;
  virt_start : Z; virt_end : Z;
  attribute : Z;
}.

(** A call that acts on the console, a line of the log or its initialisation:
    what it does to the screen, which is no part of the memory here, is in
    [AwdConsole]. *)
Inductive log_arg : Type := LNum (z : Z) | LStr (s : string).
Inductive log_call := LogCall (fmt : string) (args : list log_arg) | ConsoleInit.

(** All of the loader's global variables, the memory, and the calls made to
    the console.  [a_queue] is the array [paging_queue] up to
    [paging_queue_num]; [a_paging] is set once [paging_enable] has run. *)
Record awd := Awd {
  a_mem : mem;
  a_heap : alloc_state;
  a_regions : mem_info;
  a_queue : list awd_mapped_region;
  a_paging : bool;
  a_log : list log_call;
}.

Definition set_mem (m : mem) (s : awd) : awd :=
  Awd m (a_heap s) (a_regions s) (a_queue s) (a_paging s) (a_log s).
Definition set_heap (h : alloc_state) (s : awd) : awd :=
  Awd (a_mem s) h (a_regions s) (a_queue s) (a_paging s) (a_log s).
Definition set_regions (r : mem_info) (s : awd) : awd :=
  Awd (a_mem s) (a_heap s) r (a_queue s) (a_paging s) (a_log s).
Definition set_queue (q : list awd_mapped_region) (s : awd) : awd :=
  Awd (a_mem s) (a_heap s) (a_regions s) q (a_paging s) (a_log s).
Definition set_paging (b : bool) (s : awd) : awd :=
  Awd (a_mem s) (a_heap s) (a_regions s) (a_queue s) b (a_log s).
(** All calls below end their line: [fmt] is without the newline of the source's
    format string. *)
Definition newline : string := "
".
Definition awd_log (fmt : string) (args : list log_arg) : ST awd unit :=
  modify (fun s => Awd (a_mem s) (a_heap s) (a_regions s) (a_queue s) (a_paging s)
                       (a_log s ++ [LogCall (fmt +:+ newline) args])).
(** [console_init()]. *)
Definition init_console : ST awd unit :=
  modify (fun s => Awd (a_mem s) (a_heap s) (a_regions s) (a_queue s) (a_paging s) (a_log s ++ [ConsoleInit])).

(** ** alloc.c *)

Definition alloc_init (phys_base : Z) : ST awd unit :=
  modify (set_heap (AllocState phys_base phys_base (phys_base +64 AWD_ALLOC_SIZE) true)).

Definition alloc_finalize : ST awd unit :=
  modify (fun s => set_heap (AllocState (heap_phys_base (a_heap s)) (heap_phys_current (a_heap s))
                               (heap_phys_limit (a_heap s)) false) s).

Definition alloc_get_current : ST awd Z := gets (fun s => heap_phys_current (a_heap s)).
Definition alloc_get_limit : ST awd Z := gets (fun s => heap_phys_limit (a_heap s)).

Definition set_current (c : Z) (h : alloc_state) : alloc_state :=
  AllocState (heap_phys_base h) c (heap_phys_limit h) (alloc_enabled h).

(** [size] and [alignment] are [uint32_t]; the result is a 32-bit pointer. *)
Definition malloc_aligned (size0 alignment0 : Z) : ST awd Z :=
  let size := u32 size0 in
  let alignment1 := u32 alignment0 in
  h ← gets a_heap;
  when (negb (alloc_enabled h)) (stop_with (Panic "malloc: Allocation not enabled!")) ;;
  let alignment := if AWD_ALLOC_MIN_ALIGNMENT <=? alignment1 then alignment1
                   else AWD_ALLOC_MIN_ALIGNMENT in
  let cur := heap_phys_current h in
  let cur' := if negb (cur mod alignment =? 0)
              then cur +64 (alignment - cur mod alignment) else cur in
  modify (fun s => set_heap (set_current cur' (a_heap s)) s) ;;
  when (heap_phys_limit h <=? cur' +64 size)
    (stop_with (Panic "malloc: Allocation hit limit")) ;;
  modify (fun s => set_heap (set_current (cur' +64 size) (a_heap s)) s) ;;
  mret (u32 cur').

Definition malloc (size : Z) : ST awd Z := malloc_aligned size 0.

(** ** memory.c *)

Definition region_print (name : string) (region : mem_region) : ST awd unit :=
  awd_log " * %19s : %016p -> %016p" [LStr name; LNum (rg_start region); LNum (rg_end region)].

Definition memory_regions_print : ST awd unit :=
  awd_log "mem: Printing current memory regions" [] ;;
  awd_log "   %19s : %-16s    %-16s" [LStr "Region Name"; LStr "Start"; LStr "End"] ;;
  r ← gets a_regions;
  region_print "Low Memory" (region_low_memory r) ;;
  region_print "AWD Memory Image" (region_awd_image r) ;;
  region_print "Multiboot Modules" (region_multiboot_files r) ;;
  region_print "AWD Alloc" (region_awd_malloc r) ;;
  region_print "Kernel Memory Image" (region_kernel_image r) ;;
  let kb_taken := (rg_end (region_awd_malloc r) -64 rg_start (region_awd_image r)) / 1024 in
  awd_log " * Memory regions are tracking %d kb of high memory." [LNum kb_taken].

(** [awd_phys_start] and [awd_phys_end] are linker symbols. *)
Definition memory_init (awd_phys_start awd_phys_end : Z) : ST awd unit :=
  modify (fun s => let r := a_regions s in
    set_regions (MemInfo (MemRegion 0 (1048576 - 1))
                   (MemRegion awd_phys_start (PAGE_ROUND_UP awd_phys_end -64 1))
                   (region_multiboot_files r) (region_awd_malloc r) (region_kernel_image r)) s).

Definition memory_heap_init (heap_base : Z) : ST awd unit :=
  modify (fun s => let r := a_regions s in
    set_regions (MemInfo (region_low_memory r) (region_awd_image r) (region_multiboot_files r)
                   (MemRegion heap_base (heap_base +64 AWD_ALLOC_SIZE -64 1))
                   (region_kernel_image r)) s) ;;
  alloc_init heap_base.

(** ** Specification of the allocator *)

(** The heap between its base and its limit, all of it addressable. *)
Definition heap_ok (h : alloc_state) : Prop :=
  alloc_enabled h = true /\
  0 <= heap_phys_base h <= heap_phys_current h /\
  heap_phys_current h < heap_phys_limit h <= 4294967296.

Definition round_up (a al : Z) : Z := if a mod al =? 0 then a else a + (al - a mod al).
Definition eff_align (al : Z) : Z := Z.max al AWD_ALLOC_MIN_ALIGNMENT.

(** A sequence of allocations [(size, alignment)]. *)
Fixpoint mallocs (rs : list (Z * Z)) : ST awd (list Z) :=
  match rs with
  | [] => mret []
  | (size, al) :: rs' => p ← malloc_aligned size al; ps ← mallocs rs'; mret (p :: ps)
  end.

(** The blocks handed out for the requests, one after the other in
    [lo, hi), each aligned. *)
Fixpoint blocks_in (lo hi : Z) (rs : list (Z * Z)) (ps : list Z) : Prop :=
  match rs, ps with
  | [], [] => lo <= hi
  | (size, al) :: rs', p :: ps' =>
      lo <= p /\ p mod eff_align al = 0 /\ blocks_in (p + size) hi rs' ps'
  | _, _ => False
  end.

Definition request_ok (r : Z * Z) : Prop :=
  0 <= r.1 < 4294967296 /\ 0 <= r.2 <= 65536.

(** Steps that only write to the log. *)
Definition with_log (s : awd) (log : list log_call) : awd :=
  Awd (a_mem s) (a_heap s) (a_regions s) (a_queue s) (a_paging s) log.
Definition logs_only (f : ST awd unit) : Prop :=
  forall s, exists log, f s = Done (tt, with_log s log).

Lemma awd_log_logs fmt args : logs_only (awd_log fmt args).
Proof. intros s. by eexists. Qed.

Lemma logs_only_bind f g : logs_only f -> logs_only g -> logs_only (f ;; g).
Proof.
  intros Hf Hg s. destruct (Hf s) as [l1 H1]. destruct (Hg (with_log s l1)) as [l2 H2].
  exists l2. by rewrite (bind_done _ _ _ _ _ H1).
Qed.

Lemma memory_regions_print_logs : logs_only memory_regions_print.
Proof.
  unfold memory_regions_print, region_print.
  do 2 (apply logs_only_bind; [apply awd_log_logs|]).
  intros s. unfold mbind at 1, ST_bind at 1, gets. revert s.
  assert (forall r, logs_only (region_print "Low Memory" (region_low_memory r) ;;
    region_print "AWD Memory Image" (region_awd_image r) ;;
    region_print "Multiboot Modules" (region_multiboot_files r) ;;
    region_print "AWD Alloc" (region_awd_malloc r) ;;
    region_print "Kernel Memory Image" (region_kernel_image r) ;;
    awd_log " * Memory regions are tracking %d kb of high memory."
      [LNum ((rg_end (region_awd_malloc r) -64 rg_start (region_awd_image r)) / 1024)])) as H.
  { intros r. repeat (apply logs_only_bind; [apply awd_log_logs|]). apply awd_log_logs. }
  intros s. apply (H (a_regions s)).
Qed.

Lemma round_up_spec a al :
  0 < al -> a <= round_up a al < a + al /\ round_up a al mod al = 0.
Proof.
  intros Hal. unfold round_up. pose proof (Z.mod_pos_bound a al Hal).
  destruct (a mod al =? 0) eqn:E; [lia|].
  split; [lia|]. apply round_up_aligned; lia.
Qed.

Lemma page_round_up_spec x :
  0 <= x < 2 ^ 64 - 4096 -> PAGE_ROUND_UP x = round_up x 4096.
Proof.
  intros Hx. unfold PAGE_ROUND_UP, PAGE_SIZE, round_up. mach_small.
  change (2 ^ 64 - 4096) with (2 ^ 64 - 2 ^ 12).
  rewrite (land_clear_low_w 64 12) by lia. change (2 ^ 12) with 4096.
  destruct (x mod 4096 =? 0) eqn:E; lia_div.
Qed.

(** One allocation, on every branch. *)
Lemma malloc_aligned_run s size al :
  heap_ok (a_heap s) -> request_ok (size, al) ->
  let p := round_up (heap_phys_current (a_heap s)) (eff_align al) in
  malloc_aligned size al s =
    if p + size <? heap_phys_limit (a_heap s)
    then Done (p, set_heap (set_current (p + size) (a_heap s)) s)
    else Stopped (Panic "malloc: Allocation hit limit").
Proof.
  intros (Hen & Hb & Hl) [Hs Ha] p. simpl in Hs, Ha.
  assert (0 < eff_align al) as Hal by (unfold eff_align, AWD_ALLOC_MIN_ALIGNMENT; lia).
  pose proof (round_up_spec (heap_phys_current (a_heap s)) _ Hal) as [Hp Hpa].
  fold p in Hp, Hpa.
  unfold malloc_aligned. rewrite (u32_small size), (u32_small al) by lia.
  assert ((if AWD_ALLOC_MIN_ALIGNMENT <=? al then al else AWD_ALLOC_MIN_ALIGNMENT)
    = eff_align al) as ->.
  { unfold eff_align, AWD_ALLOC_MIN_ALIGNMENT. destruct (8 <=? al) eqn:E; lia. }
  assert (eff_align al <= 65536) as Hale by (unfold eff_align, AWD_ALLOC_MIN_ALIGNMENT; lia).
  unfold mbind, ST_bind, gets, when, modify, mret, ST_ret. rewrite Hen. cbn [negb skip].
  assert ((if negb (heap_phys_current (a_heap s) mod eff_align al =? 0)
    then heap_phys_current (a_heap s) +64
           (eff_align al - heap_phys_current (a_heap s) mod eff_align al)
    else heap_phys_current (a_heap s)) = p) as ->.
  { unfold p, round_up.
    pose proof (Z.mod_pos_bound (heap_phys_current (a_heap s)) _ Hal).
    destruct (_ =? 0) eqn:E; cbn [negb]; [done|]. rewrite u64_small; lia. }
  rewrite (u64_small (p + size)) by lia.
  destruct (p + size <? heap_phys_limit (a_heap s)) eqn:E.
  - assert ((heap_phys_limit (a_heap s) <=? p + size) = false) as -> by lia.
    cbn [skip]. rewrite u32_small by lia. done.
  - assert ((heap_phys_limit (a_heap s) <=? p + size) = true) as -> by lia. done.
Qed.

Lemma malloc_disabled_run s size al :
  alloc_enabled (a_heap s) = false ->
  malloc_aligned size al s = Stopped (Panic "malloc: Allocation not enabled!").
Proof. intros H. unfold malloc_aligned, mbind, ST_bind, gets, when. by rewrite H. Qed.

Lemma set_current_ok h c :
  heap_ok h -> heap_phys_current h <= c < heap_phys_limit h -> heap_ok (set_current c h).
Proof. intros (? & ? & ?) ?. unfold heap_ok. simpl. split; [done|]. lia. Qed.

Lemma mallocs_blocks rs s ps s' :
  heap_ok (a_heap s) -> Forall request_ok rs -> mallocs rs s = Done (ps, s') ->
  heap_ok (a_heap s') /\ heap_phys_base (a_heap s') = heap_phys_base (a_heap s) /\
  heap_phys_limit (a_heap s') = heap_phys_limit (a_heap s) /\ a_mem s' = a_mem s /\
  blocks_in (heap_phys_current (a_heap s)) (heap_phys_current (a_heap s')) rs ps.
Proof.
  intros Hok Hrs. revert s ps Hok. induction Hrs as [|[size al] rs Hr _ IH]; intros s ps Hok Hrun.
  - injection Hrun as <- <-. simpl. split; [done|]. split; [done|]. split; [done|]. split; [done|lia].
  - simpl in Hrun. unfold mbind, ST_bind in Hrun. rewrite malloc_aligned_run in Hrun by done.
    set (p := round_up _ _) in Hrun.
    destruct (p + size <? _) eqn:E; [|done].
    set (s1 := set_heap _ _) in Hrun.
    destruct (mallocs rs s1) as [[ps1 s2]|r] eqn:E1; [|done]. injection Hrun as <- <-.
    assert (0 < eff_align al) as Hal by (unfold eff_align, AWD_ALLOC_MIN_ALIGNMENT; lia).
    destruct (round_up_spec (heap_phys_current (a_heap s)) _ Hal) as [Hp Hpa]. fold p in Hp, Hpa.
    destruct Hr as [Hsz _]. simpl in Hsz.
    destruct (IH s1 ps1) as (H1 & H2 & H3 & H4 & H5); [|done|].
    + apply set_current_ok; [done|]. lia.
    + split; [done|]. split; [done|]. split; [done|]. split; [done|].
      simpl. split; [lia|]. split; [done|]. exact H5.
Qed.

Lemma blocks_in_le lo hi rs ps : Forall request_ok rs -> blocks_in lo hi rs ps -> lo <= hi.
Proof.
  intros Hrs. revert lo ps. induction Hrs as [|[sz a] rs [Hsz _] _ IH];
    intros lo [|q ps] Hb; simpl in *; try done.
  destruct Hb as (? & _ & Hb). specialize (IH _ _ Hb). lia.
Qed.

Lemma blocks_in_bounds lo hi rs ps i p size al :
  Forall request_ok rs -> blocks_in lo hi rs ps -> ps !! i = Some p -> rs !! i = Some (size, al) ->
  lo <= p /\ p + size <= hi /\ p mod eff_align al = 0.
Proof.
  intros Hrs. revert lo ps i. induction Hrs as [|[sz a] rs [Hsz _] Hrs IH];
    intros lo [|q ps] i Hb Hp Hr; simpl in *; try done.
  destruct Hb as (Hlo & Hq & Hb). destruct i as [|i]; simpl in *.
  - injection Hp as ->. injection Hr as -> ->.
    pose proof (blocks_in_le _ _ _ _ Hrs Hb). done.
  - destruct (IH _ _ _ Hb Hp Hr) as (? & ? & ?). split; [lia|done].
Qed.

Lemma blocks_in_disjoint lo hi rs ps i j p q size al size' al' :
  Forall request_ok rs -> blocks_in lo hi rs ps -> (i < j)%nat ->
  ps !! i = Some p -> rs !! i = Some (size, al) ->
  ps !! j = Some q -> rs !! j = Some (size', al') -> p + size <= q.
Proof.
  intros Hrs. revert lo ps i j. induction Hrs as [|[sz a] rs [Hsz _] Hrs IH];
    intros lo [|q' ps] i j Hb Hij Hp Hr Hq Hr'; simpl in *; try done.
  destruct Hb as (Hlo & Hq' & Hb). destruct i as [|i], j as [|j]; simpl in *; try lia.
  - injection Hp as ->. injection Hr as -> ->.
    by destruct (blocks_in_bounds _ _ _ _ _ _ _ _ Hrs Hb Hq Hr').
  - by apply (IH _ _ i j Hb); try done; lia.
Qed.

(** ** The theorems *)

(** [malloc_aligned] on an initialised heap: the block starts at the first
    multiple of the alignment (at least 8) from the current position, the
    position moves behind it, nothing else changes; a block that would reach
    the limit panics.  Before [alloc_init] every call panics. *)
Theorem malloc_aligned_correct (s : awd) (size al : Z)
    (Hheap : heap_ok (a_heap s)) (Hreq : request_ok (size, al)) :
  (let p := round_up (heap_phys_current (a_heap s)) (eff_align al) in
   malloc_aligned size al s =
     if p + size <? heap_phys_limit (a_heap s)
     then Done (p, set_heap (set_current (p + size) (a_heap s)) s)
     else Stopped (Panic "malloc: Allocation hit limit")) /\
  (forall s0, alloc_enabled (a_heap s0) = false ->
     malloc_aligned size al s0 = Stopped (Panic "malloc: Allocation not enabled!")).
Proof. split; [by apply malloc_aligned_run|]. intros. by apply malloc_disabled_run. Qed.

Definition no_region : mem_region := MemRegion 0 0.
Definition no_regions : mem_info := MemInfo no_region no_region no_region no_region no_region.
Definition sample_awd : awd :=
  Awd ∅ (AllocState 2097152 2097153 (2097152 + 262144) true) no_regions [] false [].

Lemma malloc_aligned_correct_witness :
  malloc_aligned 4096 4096 sample_awd =
    Done (2101248, set_heap (set_current 2105344 (a_heap sample_awd)) sample_awd).
Proof.
  rewrite (proj1 (malloc_aligned_correct sample_awd 4096 4096
    ltac:(unfold heap_ok; simpl; split; [done|lia]) ltac:(unfold request_ok; simpl; lia))).
  reflexivity.
Defined.

(** C36. Whatever sequence of allocations a run makes, the blocks are aligned, lie
    between the position before and the position after, and no two of them
    overlap; the heap stays well formed and the memory untouched. *)
Theorem mallocs_disjoint (rs : list (Z * Z)) (s s' : awd) (ps : list Z)
    (Hheap : heap_ok (a_heap s)) (Hreqs : Forall request_ok rs)
    (Hrun : mallocs rs s = Done (ps, s')) :
  heap_ok (a_heap s') /\ a_mem s' = a_mem s /\
  (forall i p size al, ps !! i = Some p -> rs !! i = Some (size, al) ->
     heap_phys_current (a_heap s) <= p /\ p + size <= heap_phys_current (a_heap s') /\
     p mod eff_align al = 0) /\
  (forall i j p q size al size' al', (i < j)%nat ->
     ps !! i = Some p -> rs !! i = Some (size, al) ->
     ps !! j = Some q -> rs !! j = Some (size', al') -> p + size <= q).
Proof.
  destruct (mallocs_blocks rs s ps s' Hheap Hreqs Hrun) as (H1 & _ & _ & H4 & H5).
  split; [done|]. split; [done|]. split; intros.
  - by eapply blocks_in_bounds.
  - by eapply blocks_in_disjoint.
Qed.

Lemma mallocs_disjoint_witness :
  exists s', mallocs [(10, 0); (4096, 4096)] sample_awd = Done ([2097160; 2101248], s') /\
    2097160 + 10 <= 2101248.
Proof.
  eexists. split; [reflexivity|].
  refine (proj2 (proj2 (proj2 (mallocs_disjoint [(10, 0); (4096, 4096)] sample_awd _
    [2097160; 2101248] _ _ eq_refl))) 0%nat 1%nat _ _ 10 0 4096 4096 _ eq_refl eq_refl eq_refl eq_refl).
  - unfold heap_ok; simpl; split; [done|lia].
  - repeat constructor; simpl; lia.
  - lia.
Defined.
