(* ===== verification/PageTable.v ===== *)
(** Four-level x86-64 page tables as they lie in memory, shared by AWD's
    paging code and Lobo's virtual memory manager.

    A table is 512 little-endian 64-bit entries.  [off] is the distance from a
    physical address to the pointer through which the code reaches it (0 in
    AWD, which runs unpaged; KERNEL_VMB in Lobo).  [mmu_walk] is the hardware's
    translation; [pt_wf] says which tables exist (a map from index paths to
    tables) and what their entries hold.  The lemmas describe the two changes
    the code makes: hanging an empty table below an unused entry, and writing
    an entry of a last-level table. *)

From S2P Require Import Prelude Memory.
Local Open Scope Z_scope.

(** ** Addresses and entries *)

Definition PT_PRESENT : Z := 1.
Definition PT_FLAGS : Z := 3.

Definition idx4 (va : Z) : Z := Z.land (Z.shiftr va 39) 511.
Definition idx3 (va : Z) : Z := Z.land (Z.shiftr va 30) 511.
Definition idx2 (va : Z) : Z := Z.land (Z.shiftr va 21) 511.
Definition idx1 (va : Z) : Z := Z.land (Z.shiftr va 12) 511.

(** The page number a 48-bit address selects. *)
Definition vpage (va : Z) : Z := va / 4096 mod 2 ^ 36.

Definition entry (m : mem) (t i : Z) : Z := load64 m (t + 8 * i).
Definition set_entry (m : mem) (t i e : Z) : mem := store64 m (t + 8 * i) e.

(** Bits 12 to 51 of an entry: the physical address it points to. *)
Definition pte_addr (e : Z) : Z := Z.land e 4503599627366400.

Section Tables.
Variable off : Z.

(** The hardware's walk from the physical address of the top-level table: the
    last-level entry, if every entry on the way is present. *)
Definition mmu_next (m : mem) (phys i : Z) : option Z :=
  let e := entry m (phys + off) i in
  if Z.testbit e 0 then Some (pte_addr e) else None.

Definition mmu_walk (m : mem) (cr3 va : Z) : option Z :=
  match mmu_next m cr3 (idx4 va) with
  | None => None
  | Some p3 =>
      match mmu_next m p3 (idx3 va) with
      | None => None
      | Some p2 =>
          match mmu_next m p2 (idx2 va) with
          | None => None
          | Some p1 =>
              let e := entry m (p1 + off) (idx1 va) in
              if Z.testbit e 0 then Some (pte_addr e + va mod 4096) else None
          end
      end
  end.

(** The physical addresses of tables are below [lim]. *)
Variable lim : Z.

Definition table_ok (t : Z) : Prop :=
  0 <= t - off /\ t - off + 4096 <= lim /\ (t - off) mod 4096 = 0.

Record pt_wf (m : mem) (tab : gmap (list Z) Z) (root : Z) : Prop := {
  pt_root : tab !! [] = Some root;
  pt_table : forall p t, tab !! p = Some t -> table_ok t /\ (length p <= 3)%nat;
  pt_inj : forall p q t, tab !! p = Some t -> tab !! q = Some t -> p = q;
  pt_prefix : forall p i t, tab !! (p ++ [i]) = Some t ->
    0 <= i < 512 /\ exists t', tab !! p = Some t';
  pt_entry : forall p t i, tab !! p = Some t -> (length p < 3)%nat -> 0 <= i < 512 ->
    entry m t i = match tab !! (p ++ [i]) with
                  | Some t' => (t' - off) + PT_FLAGS
                  | None => 0
                  end;
}.

(** The last-level entry of an address: 0 where no table is. *)
Definition leaf (m : mem) (tab : gmap (list Z) Z) (va : Z) : Z :=
  match tab !! [idx4 va; idx3 va; idx2 va] with
  | Some t => entry m t (idx1 va)
  | None => 0
  end.

End Tables.

(** ** Indices *)

Lemma idx_range_aux va n : 0 <= n -> 0 <= Z.land (Z.shiftr va n) 511 < 512.
Proof.
  intros Hn. change 511 with (2 ^ 9 - 1). rewrite field_spec by lia.
  apply Z.mod_pos_bound. lia.
Qed.

Lemma idx4_range va : 0 <= idx4 va < 512.
Proof. by apply idx_range_aux. Qed.
Lemma idx3_range va : 0 <= idx3 va < 512.
Proof. by apply idx_range_aux. Qed.
Lemma idx2_range va : 0 <= idx2 va < 512.
Proof. by apply idx_range_aux. Qed.
Lemma idx1_range va : 0 <= idx1 va < 512.
Proof. by apply idx_range_aux. Qed.
#[export] Hint Resolve idx4_range idx3_range idx2_range idx1_range : mach_range.

Lemma vpage_digits va :
  vpage va = ((idx4 va * 512 + idx3 va) * 512 + idx2 va) * 512 + idx1 va.
Proof.
  unfold idx4, idx3, idx2, idx1, vpage. change 511 with (2 ^ 9 - 1).
  rewrite !field_spec by lia.
  change (2 ^ 39) with (4096 * 512 * 512 * 512). change (2 ^ 30) with (4096 * 512 * 512).
  change (2 ^ 21) with (4096 * 512). change (2 ^ 12) with 4096. change (2 ^ 9) with 512.
  rewrite <- !Z.div_div by lia. set (n := va / 4096).
  change (2 ^ 36) with (512 * (512 * (512 * 512))).
  rewrite !Z.rem_mul_r by lia. lia.
Qed.

(** Two addresses share a page exactly when all four indices agree. *)
Lemma vpage_eq va va' :
  vpage va = vpage va' <->
  idx4 va = idx4 va' /\ idx3 va = idx3 va' /\ idx2 va = idx2 va' /\ idx1 va = idx1 va'.
Proof.
  rewrite !vpage_digits.
  pose proof (idx4_range va). pose proof (idx4_range va').
  pose proof (idx3_range va). pose proof (idx3_range va').
  pose proof (idx2_range va). pose proof (idx2_range va').
  pose proof (idx1_range va). pose proof (idx1_range va'). lia.
Qed.

(** Addresses the hardware accepts: bits 47 to 63 are equal. *)
Definition canonical (va : Z) : Prop :=
  0 <= va < 2 ^ 47 \/ 2 ^ 64 - 2 ^ 47 <= va < 2 ^ 64.

#[export] Instance canonical_dec va : Decision (canonical va).
Proof. unfold canonical. apply _. Defined.

Lemma vpage_canonical va va' :
  canonical va -> canonical va' -> vpage va = vpage va' <-> va / 4096 = va' / 4096.
Proof.
  unfold canonical, vpage. intros H H'.
  change (2 ^ 47) with 140737488355328 in *. change (2 ^ 64) with 18446744073709551616 in *.
  change (2 ^ 36) with 68719476736. lia_div.
Qed.

(** ** Entries *)

Lemma entry_set_eq m t i e : entry (set_entry m t i e) t i = u64 e.
Proof. apply load64_store64_eq. Qed.

Lemma entry_set_ne m t i e t' i' :
  0 <= i < 512 -> 0 <= i' < 512 ->
  (t' + 4096 <= t \/ t + 4096 <= t') \/ (t' = t /\ i' <> i) ->
  entry (set_entry m t i e) t' i' = entry m t' i'.
Proof. intros. apply load64_store64_ne. lia. Qed.

Lemma pte_addr_flags a f :
  0 <= a < 2 ^ 52 -> a mod 4096 = 0 -> 0 <= f < 4096 -> pte_addr (a + f) = a.
Proof.
  intros Ha Hal Hf. unfold pte_addr.
  change 4503599627366400 with (2 ^ 52 - 2 ^ 12).
  rewrite (land_clear_low_w 52 12) by lia_div.
  change (2 ^ 12) with 4096. lia_div.
Qed.

Lemma testbit0_flags a f : a mod 4096 = 0 -> Z.testbit (a + f) 0 = Z.testbit f 0.
Proof.
  intros Ha. rewrite !Z.bit0_odd, Z.odd_add.
  assert (Z.odd a = false) as ->; [|by destruct (Z.odd f)].
  rewrite (Z.div_mod a 4096), Ha, Z.add_0_r by lia.
  change 4096 with (2 * 2048). by rewrite <- Z.mul_assoc, Z.odd_mul.
Qed.

Lemma entry_zero m t i :
  0 <= i < 512 -> (forall b, t <= b < t + 4096 -> mget m b = 0) -> entry m t i = 0.
Proof. intros Hi Hz. apply (load_zero 8). intros b Hb. apply Hz. lia. Qed.

Lemma mget_set_entry_ne m t i e b :
  0 <= i < 512 -> b < t \/ t + 4096 <= b -> mget (set_entry m t i e) b = mget m b.
Proof. intros Hi Hb. apply mget_store_ne. lia. Qed.

Section Lemmas.
Variables off lim : Z.
Hypothesis Hlim : 4096 <= lim <= 2 ^ 52.
Implicit Types (m : mem) (tab : gmap (list Z) Z).

Lemma table_disjoint t t' :
  table_ok off lim t -> table_ok off lim t' -> t <> t' -> t + 4096 <= t' \/ t' + 4096 <= t.
Proof.
  intros (H1 & _ & H2) (H3 & _ & H4) Hne.
  pose proof (Z.div_mod (t - off) 4096). pose proof (Z.div_mod (t' - off) 4096). lia.
Qed.

(** Under the invariant the hardware finds the last-level entry. *)
Lemma mmu_next_wf m tab root p t i :
  pt_wf off lim m tab root -> tab !! p = Some t -> (length p < 3)%nat -> 0 <= i < 512 ->
  mmu_next off m (t - off) i = (fun t' => t' - off) <$> (tab !! (p ++ [i])).
Proof.
  intros Hwf Ht Hp Hi. unfold mmu_next. rewrite Z.sub_add.
  rewrite (pt_entry _ _ _ _ _ Hwf p t i Ht Hp Hi).
  destruct (tab !! (p ++ [i])) as [t'|] eqn:E; [|done].
  destruct (pt_table _ _ _ _ _ Hwf _ _ E) as [(H1 & H2 & H3) _].
  rewrite testbit0_flags by done. simpl. f_equal.
  apply pte_addr_flags; unfold PT_FLAGS; lia.
Qed.

Lemma mmu_walk_wf m tab root va :
  pt_wf off lim m tab root ->
  mmu_walk off m (root - off) va =
    let e := leaf m tab va in
    if Z.testbit e 0 then Some (pte_addr e + va mod 4096) else None.
Proof.
  intros Hwf. unfold mmu_walk, leaf.
  rewrite (mmu_next_wf m tab root [] root _ Hwf (pt_root _ _ _ _ _ Hwf))
    by (simpl; eauto with mach_range lia). simpl.
  destruct (tab !! [idx4 va]) as [t3|] eqn:E3; simpl.
  2:{ destruct (tab !! [idx4 va; idx3 va; idx2 va]) as [t|] eqn:E; [|done].
      destruct (pt_prefix _ _ _ _ _ Hwf [idx4 va; idx3 va] _ _ E) as [_ [t' E']].
      destruct (pt_prefix _ _ _ _ _ Hwf [idx4 va] _ _ E') as [_ [t'' E'']]. congruence. }
  rewrite (mmu_next_wf m tab root [idx4 va] t3 _ Hwf E3)
    by (simpl; eauto with mach_range lia). simpl.
  destruct (tab !! [idx4 va; idx3 va]) as [t2|] eqn:E2; simpl.
  2:{ destruct (tab !! [idx4 va; idx3 va; idx2 va]) as [t|] eqn:E; [|done].
      destruct (pt_prefix _ _ _ _ _ Hwf [idx4 va; idx3 va] _ _ E) as [_ [t' E']]. congruence. }
  rewrite (mmu_next_wf m tab root [idx4 va; idx3 va] t2 _ Hwf E2)
    by (simpl; eauto with mach_range lia). simpl.
  destruct (tab !! [idx4 va; idx3 va; idx2 va]) as [t1|] eqn:E1; simpl; [|done].
  by rewrite Z.sub_add.
Qed.

(** The invariant depends on the tables' bytes only. *)
Lemma pt_wf_ext m m' tab root :
  (forall p t, tab !! p = Some t -> agree_on m' m t 4096) ->
  pt_wf off lim m tab root -> pt_wf off lim m' tab root.
Proof.
  intros Hag Hwf. destruct Hwf as [H1 H2 H3 H4 H5]. split; try done.
  intros p t i Ht Hp Hi. rewrite <- (H5 p t i Ht Hp Hi).
  apply load_ext. intros b Hb. apply (Hag p t Ht). lia.
Qed.

Lemma leaf_ext m m' tab va :
  (forall p t, tab !! p = Some t -> agree_on m' m t 4096) -> leaf m' tab va = leaf m tab va.
Proof.
  intros Hag. unfold leaf. destruct (tab !! _) as [t|] eqn:E; [|done].
  pose proof (idx1_range va). apply load_ext. intros b Hb. apply (Hag _ t E). lia.
Qed.

(** ** Hanging an empty table below an unused entry *)

Lemma pt_extend m tab root p t i n :
  pt_wf off lim m tab root ->
  tab !! p = Some t -> (length p < 3)%nat -> 0 <= i < 512 -> tab !! (p ++ [i]) = None ->
  table_ok off lim n -> (forall q t', tab !! q = Some t' -> t' <> n) ->
  (forall j, 0 <= j < 512 -> entry m n j = 0) ->
  let m' := set_entry m t i ((n - off) + PT_FLAGS) in
  let tab' := <[p ++ [i] := n]> tab in
  pt_wf off lim m' tab' root /\ (forall va, leaf m' tab' va = leaf m tab va).
Proof.
  intros Hwf Ht Hp Hi Hnone Hn Hfresh Hzero m' tab'.
  assert (t <> n) as Htn by (by eapply Hfresh).
  destruct (pt_table _ _ _ _ _ Hwf _ _ Ht) as [Htok _].
  assert (forall q t' j, tab !! q = Some t' -> 0 <= j < 512 -> (t' = t /\ j <> i) \/ t' <> t ->
    entry m' t' j = entry m t' j) as Hkeep.
  { intros q t' j Hq Hj Hc. apply entry_set_ne; try done. destruct Hc as [?|Hne]; [by right|left].
    destruct (pt_table _ _ _ _ _ Hwf _ _ Hq) as [Hq' _].
    destruct (table_disjoint t' t Hq' Htok Hne); lia. }
  assert (forall j, 0 <= j < 512 -> entry m' n j = 0) as Hzero'.
  { intros j Hj. rewrite <- (Hzero j Hj). apply entry_set_ne; try done. left.
    destruct (table_disjoint n t Hn Htok ltac:(done)); lia. }
  assert (forall j, tab !! ((p ++ [i]) ++ [j]) = None) as Hbelow.
  { intros j. destruct (tab !! ((p ++ [i]) ++ [j])) eqn:E; [|done].
    destruct (pt_prefix _ _ _ _ _ Hwf _ _ _ E) as [_ [? ?]]. congruence. }
  split.
  - split.
    + unfold tab'. rewrite lookup_insert_ne; [apply Hwf|]. by destruct p.
    + intros q t' Hq. unfold tab' in Hq. rewrite lookup_insert in Hq. case_decide as Hd.
      * injection Hq as <-. subst q. rewrite length_app. simpl. split; [done|lia].
      * by apply (pt_table _ _ _ _ _ Hwf).
    + intros q q' t' Hq Hq'. unfold tab' in Hq, Hq'. rewrite lookup_insert in Hq, Hq'.
      repeat case_decide; subst; try congruence.
      all: try (injection Hq as ->; by destruct (Hfresh _ _ Hq')).
      all: try (injection Hq' as ->; by destruct (Hfresh _ _ Hq)).
      by eapply (pt_inj _ _ _ _ _ Hwf).
    + intros q j t' Hq. unfold tab' in *. rewrite lookup_insert in Hq. case_decide as Hd.
      * apply app_inj_tail in Hd as [<- <-]. split; [done|]. exists t.
        rewrite lookup_insert_ne; [done|]. intros Heq.
        apply (f_equal length) in Heq. rewrite length_app in Heq. simpl in Heq. lia.
      * destruct (pt_prefix _ _ _ _ _ Hwf _ _ _ Hq) as [Hj [t'' Hq'']]. split; [done|].
        rewrite lookup_insert. case_decide; eauto.
    + intros q t' j Hq Hlen Hj. unfold tab' in *. rewrite lookup_insert in Hq.
      case_decide as Hd.
      * injection Hq as <-. subst q. rewrite Hzero' by done.
        rewrite lookup_insert_ne; [by rewrite Hbelow|]. intros Heq.
        apply (f_equal length) in Heq. rewrite !length_app in Heq. simpl in Heq. lia.
      * destruct (decide (q = p)) as [->|Hqp].
        -- assert (t' = t) as -> by congruence.
           destruct (decide (j = i)) as [->|Hji].
           ++ rewrite lookup_insert_eq. unfold m'. rewrite entry_set_eq.
              destruct Hn as (? & ? & ?). unfold PT_FLAGS. rewrite u64_small; lia.
           ++ rewrite lookup_insert_ne by (by intros [_ ?]%app_inj_tail).
              rewrite Hkeep with (q := p) by (try done; by left).
              by apply (pt_entry _ _ _ _ _ Hwf).
        -- rewrite lookup_insert_ne by (by intros [<- _]%app_inj_tail).
           rewrite Hkeep with (q := q); try done.
           ++ by apply (pt_entry _ _ _ _ _ Hwf).
           ++ right. intros ->. apply Hqp. by eapply (pt_inj _ _ _ _ _ Hwf).
  - intros va. unfold leaf, tab'. pose proof (idx1_range va) as Hi1.
    rewrite lookup_insert. case_decide as Hd.
    + rewrite <- Hd, Hnone. by apply Hzero'.
    + destruct (tab !! [idx4 va; idx3 va; idx2 va]) as [t1|] eqn:E; [|done].
      rewrite Hkeep with (q := [idx4 va; idx3 va; idx2 va]); try done.
      right. intros ->. pose proof (pt_inj _ _ _ _ _ Hwf _ _ _ E Ht) as <-. simpl in Hp. lia.
Qed.

(** ** Writing a last-level entry *)

Lemma pt_set_leaf m tab root va t e :
  pt_wf off lim m tab root -> tab !! [idx4 va; idx3 va; idx2 va] = Some t ->
  let m' := set_entry m t (idx1 va) e in
  pt_wf off lim m' tab root /\
  (forall va', leaf m' tab va' = if decide (vpage va' = vpage va) then u64 e else leaf m tab va').
Proof.
  intros Hwf Ht m'. pose proof (idx1_range va) as Hi.
  destruct (pt_table _ _ _ _ _ Hwf _ _ Ht) as [Htok _].
  assert (forall q t' j, tab !! q = Some t' -> 0 <= j < 512 -> t' <> t ->
    entry m' t' j = entry m t' j) as Hkeep.
  { intros q t' j Hq Hj Hne. apply entry_set_ne; try done. left.
    destruct (pt_table _ _ _ _ _ Hwf _ _ Hq) as [Hq' _].
    destruct (table_disjoint t' t Hq' Htok Hne); lia. }
  split.
  - destruct Hwf as [H1 H2 H3 H4 H5]. split; try done.
    intros q t' j Hq Hlen Hj. rewrite <- (H5 q t' j Hq Hlen Hj).
    apply (Hkeep q); try done. intros ->. pose proof (H3 _ _ _ Ht Hq) as <-. simpl in Hlen. lia.
  - intros va'. pose proof (idx1_range va') as Hi'. unfold leaf.
    case_decide as Hv.
    + apply vpage_eq in Hv as (-> & -> & -> & ->). rewrite Ht. apply entry_set_eq.
    + destruct (tab !! [idx4 va'; idx3 va'; idx2 va']) as [t'|] eqn:E; [|done].
      destruct (decide (t' = t)) as [->|Hne]; [|by apply (Hkeep _ _ _ E)].
      apply entry_set_ne; try done. right. split; [done|]. intros Heq. apply Hv.
      pose proof (pt_inj _ _ _ _ _ Hwf _ _ _ E Ht) as Hidx. injection Hidx as ? ? ?.
      apply vpage_eq. done.
Qed.

(** ** Only a root, all of it zero *)

Lemma pt_empty m root :
  table_ok off lim root -> (forall i, 0 <= i < 512 -> entry m root i = 0) ->
  pt_wf off lim m {[ [] := root ]} root /\ (forall va, leaf m {[ [] := root ]} va = 0).
Proof.
  intros Hr Hz. split; [|intros va; unfold leaf; by rewrite lookup_singleton_ne]. split.
  - apply lookup_singleton_eq.
  - intros p t [<- <-]%lookup_singleton_Some. split; [done|simpl; lia].
  - intros p q t [<- _]%lookup_singleton_Some [<- _]%lookup_singleton_Some. done.
  - intros p i t [Hp _]%lookup_singleton_Some. by destruct p.
  - intros p t i [<- <-]%lookup_singleton_Some _ Hi. rewrite Hz by done.
    by rewrite lookup_singleton_ne.
Qed.

End Lemmas.
