(* ===== verification/PageBuilder.v ===== *)
(** Building page tables with an allocator: what AWD's [paging_commit] and
    Lobo's [vmm] share.

    [PageBuilder] is the interface of a state in which tables are under
    construction: its invariant, what a step may change, and whether the
    allocator has room for a set of tables.  Against it the file proves how
    levels compose to a walk and pages to sequences of pages; the two
    components discharge it. *)

From S2P Require Import Prelude Memory PageTable.
Local Open Scope Z_scope.

(** ** The abstract description of a sequence of mappings *)

(** The last entry written for the page of [va], if there is one, else [e]. *)
Definition last_write (l : list (Z * Z)) (va e : Z) : Z :=
  foldl (fun e p => if decide (vpage va = vpage p.1) then u64 p.2 else e) e l.

(** What the hardware makes of a last-level entry. *)
Definition translate_entry (e va : Z) : option Z :=
  if Z.testbit e 0 then Some (pte_addr e + va mod 4096) else None.

(** The paths of the tables on the way to an address. *)
Definition prefixes (va : Z) : gset (list Z) :=
  {[ [idx4 va]; [idx4 va; idx3 va]; [idx4 va; idx3 va; idx2 va] ]}.
Definition tables_of (l : list (Z * Z)) : gset (list Z) :=
  foldr (fun p D => prefixes p.1 ∪ D) ∅ l.

Lemma tables_of_app l1 l2 : tables_of (l1 ++ l2) = tables_of l1 ∪ tables_of l2.
Proof. unfold tables_of. induction l1 as [|p l1 IH]; simpl; [set_solver|]. rewrite IH. set_solver. Qed.

Lemma last_write_app l1 l2 va e : last_write (l1 ++ l2) va e = last_write l2 va (last_write l1 va e).
Proof. apply foldl_app. Qed.

(** ** Runs of consecutive pages *)

(** A page-aligned run of [n] pages inside the canonical addresses. *)
Definition canonical_run (va n : Z) : Prop :=
  va mod 4096 = 0 /\
  (0 <= va /\ va + 4096 * n <= 2 ^ 47 \/ 2 ^ 64 - 2 ^ 47 <= va /\ va + 4096 * n <= 2 ^ 64).

Lemma canonical_run_in va n a :
  canonical_run va n -> va <= a < va + 4096 * n -> canonical a.
Proof. unfold canonical_run, canonical. lia. Qed.

Lemma last_write_run (f : Z -> Z) v n k va e :
  canonical_run v n -> canonical va -> 0 <= k <= n -> (forall j, 0 <= f j < 2 ^ 64) ->
  last_write ((fun j => (v + 4096 * j, f j)) <$> seqZ 0 k) va e =
    if decide (v <= va < v + 4096 * k) then f ((va - v) / 4096) else e.
Proof.
  intros [Hv Hr] Hc Hk Hf. assert (0 <= k) as Hk0 by lia. revert Hk. pattern k.
  apply natlike_ind; [| |done]; clear k Hk0.
  - intros _. simpl. by rewrite decide_False by lia.
  - intros k Hk0 IH Hk.
    assert (seqZ 0 (Z.succ k) = seqZ 0 k ++ [k]) as ->.
    { rewrite <- (Z2Nat.id k) at 1 by done. rewrite <- Nat2Z.inj_succ, seqZ_S.
      by rewrite !Z2Nat.id, Z.add_0_l by done. }
    rewrite fmap_app, last_write_app, IH by lia. cbn [fmap list_fmap last_write foldl fst snd].
    change (2 ^ 64) with 18446744073709551616 in *. change (2 ^ 47) with 140737488355328 in *.
    rewrite u64_small by apply Hf.
    assert (vpage va = vpage (v + 4096 * k) <-> v + 4096 * k <= va < v + 4096 * (k + 1)) as Hiff.
    { rewrite vpage_canonical; [|done|unfold canonical; change (2 ^ 64) with 18446744073709551616;
        change (2 ^ 47) with 140737488355328; lia]. lia_div. }
    destruct (decide (vpage va = vpage (v + 4096 * k))) as [D1|D1]; rewrite Hiff in D1.
    + rewrite decide_True by lia. f_equal. lia_div.
    + repeat case_decide; (done || lia).
Qed.

(** A page's entry with its address and flags translates by displacement. *)
Lemma translate_run v p fl va :
  v mod 4096 = 0 -> p mod 4096 = 0 -> v <= va -> 0 <= p -> p + (va - v) < 2 ^ 52 ->
  0 <= fl < 4096 -> Z.testbit fl 0 = true ->
  translate_entry (p + 4096 * ((va - v) / 4096) + fl) va = Some (p + (va - v)).
Proof.
  intros Hv Hp Hle Hp0 Hlt Hfl Hbit. change (2 ^ 52) with 4503599627370496 in Hlt.
  unfold translate_entry. rewrite testbit0_flags, Hbit by lia_div.
  rewrite pte_addr_flags by (change (2 ^ 52) with 4503599627370496; lia_div).
  f_equal. lia_div.
Qed.

Lemma size_add_root (D : gset (list Z)) : Z.of_nat (size ({[ [] ]} ∪ D)) <= Z.of_nat (size D) + 1.
Proof.
  rewrite size_union_alt, size_singleton.
  pose proof (subseteq_size (D ∖ {[ [] ]}) D ltac:(set_solver)). lia.
Qed.

(** ** The interface *)

Class PageBuilder (St : Type) := {
  pb_root : Z;
  pb_mem : St -> mem;
  pb_inv : gmap (list Z) Z -> St -> Prop;
  pb_frame : St -> St -> Prop;
  pb_room : gset (list Z) -> St -> bool;
  pb_oom : stop;
  pb_frame_pre : PreOrder pb_frame;
  pb_room_mono : forall D D' s, D ⊆ D' -> pb_room D' s = true -> pb_room D s = true;
  pb_room_inv : forall tab s, pb_inv tab s -> pb_room (dom tab) s = true;
  pb_room_frame : forall D s s', pb_frame s s' -> pb_room D s' = pb_room D s;
  pb_inv_root : forall tab s, pb_inv tab s -> tab !! [] = Some pb_root;
}.
#[export] Existing Instance pb_frame_pre.

Section Builder.
Context {St : Type} {PB : PageBuilder St}.
Implicit Types (tab : gmap (list Z) Z) (s : St) (D : gset (list Z)).

(** State [s'] with tables [tab'] has the tables [D], and the same last-level
    entries as before. *)
Record grown tab s D tab' s' : Prop := {
  gr_inv : pb_inv tab' s';
  gr_frame : pb_frame s s';
  gr_dom : dom tab' = D;
  gr_leaf : forall va, leaf (pb_mem s') tab' va = leaf (pb_mem s) tab va;
}.

(** [level table index] finds the table below an entry or makes it. *)
Definition level_ok (level : Z -> Z -> ST St Z) : Prop :=
  forall tab s p t i D, pb_inv tab s -> tab !! p = Some t -> (length p < 3)%nat -> 0 <= i < 512 ->
    D = dom tab ∪ {[ p ++ [i] ]} ->
    if pb_room D s
    then exists tab' s' t', level t i s = Done (t', s') /\ grown tab s D tab' s' /\
           tab' !! (p ++ [i]) = Some t'
    else level t i s = Stopped pb_oom.

Lemma grown_trans tab s D tab1 s1 D' tab2 s2 :
  grown tab s D tab1 s1 -> grown tab1 s1 D' tab2 s2 -> grown tab s D' tab2 s2.
Proof.
  intros [H1 H2 H3 H4] [H1' H2' H3' H4']. split; try done.
  - by etransitivity.
  - intros va. by rewrite H4', H4.
Qed.

(** Three levels. *)
Lemma walk3 level tab s va D :
  level_ok level -> pb_inv tab s -> D = dom tab ∪ prefixes va ->
  if pb_room D s then
    exists t3 s1 t2 s2 tab' t1 s',
      level pb_root (idx4 va) s = Done (t3, s1) /\ level t3 (idx3 va) s1 = Done (t2, s2) /\
      level t2 (idx2 va) s2 = Done (t1, s') /\ grown tab s D tab' s' /\
      tab' !! [idx4 va; idx3 va; idx2 va] = Some t1 /\
      (exists tab1 tab2, pb_inv tab1 s1 /\ tab1 !! [idx4 va] = Some t3 /\
         pb_inv tab2 s2 /\ tab2 !! [idx4 va; idx3 va] = Some t2)
  else
    level pb_root (idx4 va) s = Stopped pb_oom \/
    exists t3 s1 tab1, level pb_root (idx4 va) s = Done (t3, s1) /\ pb_inv tab1 s1 /\
      tab1 !! [idx4 va] = Some t3 /\
      (level t3 (idx3 va) s1 = Stopped pb_oom \/
       exists t2 s2 tab2, level t3 (idx3 va) s1 = Done (t2, s2) /\ pb_inv tab2 s2 /\
         tab2 !! [idx4 va; idx3 va] = Some t2 /\ level t2 (idx2 va) s2 = Stopped pb_oom).
Proof.
  intros Hlevel Hinv HD. set (D1 := dom tab ∪ {[ [idx4 va] ]}).
  set (D2 := D1 ∪ {[ [idx4 va; idx3 va] ]}). set (D3 := D2 ∪ {[ [idx4 va; idx3 va; idx2 va] ]}).
  assert (D = D3) as -> by (unfold D3, D2, D1; rewrite HD; unfold prefixes; set_solver).
  assert (pb_room D3 s = true -> pb_room D1 s = true /\ pb_room D2 s = true) as Hmono.
  { intros H. split; (eapply pb_room_mono; [|exact H]); unfold D3, D2; set_solver. }
  pose proof (Hlevel tab s [] pb_root (idx4 va) D1 Hinv (pb_inv_root _ _ Hinv)
    ltac:(simpl; lia) (idx4_range va) eq_refl) as L1.
  destruct (pb_room D1 s) eqn:R1.
  2:{ destruct (pb_room D3 s); [by destruct Hmono|]. by left. }
  destruct L1 as (tab1 & s1 & t3 & H1 & G1 & Ht3). cbn [app] in Ht3.
  pose proof (Hlevel tab1 s1 [idx4 va] t3 (idx3 va) D2 (gr_inv _ _ _ _ _ G1) Ht3
    ltac:(simpl; lia) (idx3_range va) ltac:(by rewrite (gr_dom _ _ _ _ _ G1))) as L2.
  rewrite (pb_room_frame _ _ _ (gr_frame _ _ _ _ _ G1)) in L2. destruct (pb_room D2 s) eqn:R2.
  2:{ destruct (pb_room D3 s); [by destruct Hmono|]. right. exists t3, s1, tab1.
      split; [done|]. split; [apply G1|]. split; [done|]. by left. }
  destruct L2 as (tab2 & s2 & t2 & H2 & G2 & Ht2). cbn [app] in Ht2.
  pose proof (Hlevel tab2 s2 [idx4 va; idx3 va] t2 (idx2 va) D3 (gr_inv _ _ _ _ _ G2) Ht2
    ltac:(simpl; lia) (idx2_range va) ltac:(by rewrite (gr_dom _ _ _ _ _ G2))) as L3.
  pose proof (grown_trans _ _ _ _ _ _ _ _ G1 G2) as G12.
  rewrite (pb_room_frame _ _ _ (gr_frame _ _ _ _ _ G12)) in L3. destruct (pb_room D3 s) eqn:R3.
  2:{ right. exists t3, s1, tab1. split; [done|]. split; [apply G1|]. split; [done|]. right.
      exists t2, s2, tab2. split; [done|]. split; [apply G2|]. done. }
  destruct L3 as (tab3 & s3 & t1 & H3 & G3 & Ht1). cbn [app] in Ht1.
  exists t3, s1, t2, s2, tab3, t1, s3. split; [done|]. split; [done|]. split; [done|].
  split; [by eapply grown_trans|]. split; [done|].
  exists tab1, tab2. split; [apply G1|]. split; [done|]. split; [apply G2|done].
Qed.

(** ** Sequences of pages *)

(** [f] writes the entries [l]: if the allocator has room for the tables they
    need it finishes with exactly those tables added and those entries written;
    if not, it stops for want of memory. *)
Definition writes_pages (f : ST St unit) (l : list (Z * Z)) : Prop :=
  forall tab s, pb_inv tab s ->
    let D := dom tab ∪ tables_of l in
    if pb_room D s then
      exists tab' s', f s = Done (tt, s') /\ pb_inv tab' s' /\ pb_frame s s' /\ dom tab' = D /\
        (forall va, leaf (pb_mem s') tab' va = last_write l va (leaf (pb_mem s) tab va))
    else f s = Stopped pb_oom.

Lemma writes_pages_skip : writes_pages skip [].
Proof.
  intros tab s Hinv D. assert (D = dom tab) as -> by (unfold D; simpl; set_solver).
  rewrite (pb_room_inv _ _ Hinv). exists tab, s. split; [done|]. by split.
Qed.

Lemma writes_pages_bind f g l1 l2 :
  writes_pages f l1 -> writes_pages g l2 -> writes_pages (f ;; g) (l1 ++ l2).
Proof.
  intros Hf Hg tab s Hinv D. specialize (Hf tab s Hinv). cbv zeta in Hf.
  assert (pb_room D s = true -> pb_room (dom tab ∪ tables_of l1) s = true) as Hmono.
  { apply pb_room_mono. unfold D. rewrite tables_of_app. set_solver. }
  destruct (pb_room (dom tab ∪ tables_of l1) s) eqn:R1.
  2:{ destruct (pb_room D s); [by specialize (Hmono eq_refl)|]. by apply bind_stopped. }
  destruct Hf as (tab1 & s1 & H1 & Hinv1 & Hf1 & Hd1 & Hl1).
  specialize (Hg tab1 s1 Hinv1). cbv zeta in Hg.
  rewrite (pb_room_frame _ _ _ Hf1), Hd1 in Hg.
  assert (dom tab ∪ tables_of l1 ∪ tables_of l2 = D) as HD.
  { unfold D. rewrite tables_of_app. set_solver. }
  rewrite HD in Hg. rewrite (bind_done _ _ _ _ _ H1).
  destruct (pb_room D s); [|done]. destruct Hg as (tab2 & s2 & H2 & Hinv2 & Hf2 & Hd2 & Hl2).
  exists tab2, s2. split; [done|]. split; [done|].
  split; [by etransitivity|]. split; [done|].
  intros va. by rewrite Hl2, Hl1, last_write_app.
Qed.

Lemma writes_pages_forM {A} (l : list A) (f : A -> ST St unit) g :
  (forall x, x ∈ l -> writes_pages (f x) (g x)) -> writes_pages (forM l f) (l ≫= g).
Proof.
  induction l as [|x l IH]; intros H; [apply writes_pages_skip|].
  change ((x :: l) ≫= g) with (g x ++ (l ≫= g)).
  apply writes_pages_bind; [apply H; left|]. apply IH. intros y Hy. apply H. by right.
Qed.

End Builder.
