(* ===== verification/AwdKernel.v ===== *)
(** AWD's search for the kernel among the multiboot modules
    (src/src/awd/multiboot.c) and its ELF64 loader (src/src/awd/kernel/kernel.c,
    structures in src/src/awd/includes/elf64.h and awd/kernel.h). *)

From S2P Require Import Prelude Memory AwdAlloc.
Local Open Scope Z_scope.
Local Open Scope mach_scope.

(** ** Data *)

Record kernel_region := KRegion { kr_start : Z; kr_size : Z }.
Record kernel_info := KInfo {
  image_start : Z; image_end : Z;
  ki_phys : kernel_region; ki_virt : kernel_region;
}.
Record kernel_loaded_info := KLoaded {
  memory_image : kernel_region;
  kl_virt : kernel_region;
  virtual_entry : Z;
}.

(** Fields of the ELF header and of a program header, at their offsets. *)
Definition e_ident (m : mem) (h i : Z) : Z := mget m (h + i).
Definition e_type (m : mem) (h : Z) : Z := load16 m (h + 16).
Definition e_machine (m : mem) (h : Z) : Z := load16 m (h + 18).
Definition e_entry (m : mem) (h : Z) : Z := load64 m (h + 24).
Definition e_phoff (m : mem) (h : Z) : Z := load64 m (h + 32).
Definition e_phentsize (m : mem) (h : Z) : Z := load16 m (h + 54).
Definition e_phnum (m : mem) (h : Z) : Z := load16 m (h + 56).

Definition p_type (m : mem) (p : Z) : Z := load32 m p.
Definition p_offset (m : mem) (p : Z) : Z := load64 m (p + 8).
Definition p_vaddr (m : mem) (p : Z) : Z := load64 m (p + 16).
Definition p_filesz (m : mem) (p : Z) : Z := load64 m (p + 32).
Definition p_memsz (m : mem) (p : Z) : Z := load64 m (p + 40).

(** ** multiboot.c *)

Definition mods_count (m : mem) (mb : Z) : Z := load32 m (mb + 20).
Definition mods_addr (m : mem) (mb : Z) : Z := load32 m (mb + 24).
Definition boot_loader_name (m : mem) (mb : Z) : Z := load32 m (mb + 64).
Definition mod_start (m : mem) (md : Z) : Z := load32 m md.
Definition mod_end (m : mem) (md : Z) : Z := load32 m (md + 4).
Definition mod_cmdline (m : mem) (md : Z) : Z := load32 m (md + 8).

Definition multiboot_verify (magic : Z) : ST awd unit :=
  when (negb (magic =? 732803074)) (stop_with (Panic "multiboot: Multiboot loading failed (magic is incorrect). Halting.")).

(** The bytes of KERNEL_TAG_NAME; [tag] is the address of that literal.  Eight
    steps of [strcmp] reach the literal's terminator. *)
Definition KERNEL_TAG_NAME : list Z := [107; 101; 114; 110; 101; 108].

Fixpoint find_kernel_loop (n : nat) (i : Z) (tag addr : Z) : ST awd (option Z) :=
  match n with
  | O => mret None
  | S n' =>
      m ← gets a_mem;
      let md := u32 (addr + u32 (16 * i)) in
      match awd_strcmp 8 m (mod_cmdline m md) tag with
      | None => stop_with OutOfFuel
      | Some r => if r =? 0 then mret (Some md) else find_kernel_loop n' (i + 1) tag addr
      end
  end.

(** [0], the null pointer, when no module is the kernel. *)
Definition multiboot_find_kernel (tag mb_struct : Z) : ST awd Z :=
  m ← gets a_mem;
  found ← find_kernel_loop (Z.to_nat (mods_count m mb_struct)) 0 tag (mods_addr m mb_struct);
  match found with
  | Some md => mret md
  | None =>
      when (mods_count m mb_struct =? 0) (stop_with (Panic
      "multiboot: No kernel found, no modules were loaded by the multiboot bootloader.")) ;;
      mret 0
  end.

Definition no_kregion : kernel_region := KRegion 0 0.

(** The fields [phys] and [virt] are not set here; [kernel_analyse] sets them. *)
Definition multiboot_analyse (tag mb_struct : Z) : ST awd kernel_info :=
  m ← gets a_mem;
  awd_log "multiboot: Bootloader is %s" [LNum (boot_loader_name m mb_struct)] ;;
  kernel_module ← multiboot_find_kernel tag mb_struct;
  when (kernel_module =? 0) (stop_with (Fault "null kernel_module")) ;;
  let start := mod_start m kernel_module in
  let stop := mod_end m kernel_module in
  modify (fun s => let r := a_regions s in
    set_regions (MemInfo (region_low_memory r) (region_awd_image r)
                   (MemRegion (PAGE_ROUND_UP start) (PAGE_ROUND_UP stop -64 1))
                   (region_awd_malloc r) (region_kernel_image r)) s) ;;
  mret (KInfo start stop no_kregion no_kregion).

(** ** kernel.c *)

Definition elf_check (m : mem) (h : Z) : bool :=
  if negb (e_ident m h 0 =? 127) then false
  else if negb (e_ident m h 1 =? 69) then false
  else if negb (e_ident m h 2 =? 76) then false
  else if negb (e_ident m h 3 =? 70) then false
  else if negb (e_machine m h =? 62) then false
  else if negb (e_type m h =? 2) then false
  else true.

(** The address of program header [i]. *)
Definition phdr (m : mem) (h i : Z) : Z :=
  let offset := u32 (e_phoff m h +64 u32 (e_phentsize m h * i)) in
  u32 (h + offset).

(** One iteration over the program headers in [kernel_analyse]. *)
Definition analyse_step (m : mem) (h : Z) (pv : kernel_region * kernel_region) (i : Z)
    : kernel_region * kernel_region :=
  let '(phys, virt) := pv in
  let ph := phdr m h i in
  if negb (p_type m ph =? 1) then (phys, virt)
  else
    let virt_start := if p_vaddr m ph <? kr_start virt then p_vaddr m ph else kr_start virt in
    let ph_file_address := u32 (h +64 p_offset m ph) in
    let phys_start := if ph_file_address <? kr_start phys then ph_file_address
                      else kr_start phys in
    let size := kr_size phys +64 u32 (p_memsz m ph) in
    let size' := if negb (size mod 4096 =? 0)
                 then size +64 (4096 -32 (u32 size mod 4096)) else size in
    (KRegion phys_start size', KRegion virt_start (kr_size virt)).

Definition NO_ADDRESS : Z := 18446744073709551360.

Definition kernel_analyse (info : kernel_info) : ST awd kernel_info :=
  m ← gets a_mem;
  let h := image_start info in
  when (negb (elf_check m h)) (stop_with (Panic "kernel error: Kernel is not a ELF executable.")) ;;
  let '(phys, virt) := foldl (analyse_step m h) (KRegion NO_ADDRESS 0, KRegion NO_ADDRESS 0)
                         (seqZ 0 (e_phnum m h)) in
  let virt' := KRegion (kr_start virt) (kr_size phys) in
  awd_log "kernel: Kernel phys. memory image is @ 0x%016p with size %x"
    [LNum (kr_start phys); LNum (kr_size phys)] ;;
  awd_log "kernel: Kernel virt. memory image is @ 0x%016p with size %x"
    [LNum (kr_start virt'); LNum (kr_size virt')] ;;
  mret (KInfo (image_start info) (image_end info) phys virt').

(** One iteration of the copying loop of [kernel_load]. *)
Definition load_step (h kernel_phys_image virt_start i : Z) (m : mem) : mem :=
  let ph := phdr m h i in
  if negb (p_type m ph =? 1) then m
  else
    let ph_file_address := u32 (h +64 p_offset m ph) in
    let dest_address := u32 (kernel_phys_image +64 (p_vaddr m ph -64 virt_start)) in
    awd_memcpy m dest_address ph_file_address (u32 (p_filesz m ph)).

(** The loop reads [e_phnum] before each iteration; it is a 16-bit number, so
    65536 iterations are enough. *)
Fixpoint load_loop (fuel : nat) (i : Z) (h kernel_phys_image virt_start : Z) (m : mem)
    : outcome mem :=
  match fuel with
  | O => Stopped OutOfFuel
  | S fuel' =>
      if i <? e_phnum m h
      then load_loop fuel' (i + 1) h kernel_phys_image virt_start
             (load_step h kernel_phys_image virt_start i m)
      else Done m
  end.
Definition phnum_fuel : nat := Z.to_nat 65536.

Definition kernel_load (info : kernel_info) : ST awd kernel_loaded_info :=
  let h := image_start info in
  kernel_phys_image ← malloc_aligned (kr_size (ki_phys info)) 4096;
  m ← gets a_mem;
  match load_loop phnum_fuel 0 h kernel_phys_image (kr_start (ki_virt info)) m with
  | Stopped r => stop_with r
  | Done m' =>
      modify (set_mem m') ;;
      modify (fun s => let r := a_regions s in
        set_regions (MemInfo (region_low_memory r) (region_awd_image r)
          (region_multiboot_files r) (region_awd_malloc r)
          (MemRegion kernel_phys_image
             (kernel_phys_image +64 kr_size (ki_phys info) -64 1))) s) ;;
      mret (KLoaded (KRegion kernel_phys_image (kr_size (ki_phys info))) (ki_virt info)
              (e_entry m' h))
  end.

(** ** Specification *)

(** The indices of the LOAD program headers. *)
Definition load_headers (m : mem) (h : Z) : list Z :=
  filter (fun i => p_type m (phdr m h i) = 1) (seqZ 0 (e_phnum m h)).

Definition sum_sizes (m : mem) (h : Z) (l : list Z) : Z :=
  foldr (fun i n => round_up (u32 (p_memsz m (phdr m h i))) 4096 + n) 0 l.
Definition min_vaddr (m : mem) (h : Z) (l : list Z) : Z :=
  foldr (fun i n => Z.min (p_vaddr m (phdr m h i)) n) NO_ADDRESS l.
Definition min_file (m : mem) (h : Z) (l : list Z) : Z :=
  foldr (fun i n => Z.min (u32 (h +64 p_offset m (phdr m h i))) n) NO_ADDRESS l.

(** Program header [i] asks for a LOAD. *)
Definition is_load (m : mem) (h i : Z) : Prop :=
  0 <= i < e_phnum m h /\ p_type m (phdr m h i) = 1.

(** Where byte [b] of the kernel's memory image lies in segment [i]. *)
Definition seg_covers (m : mem) (h base vstart i b : Z) : Prop :=
  is_load m h i /\
  base + (p_vaddr m (phdr m h i) - vstart) <= b <
  base + (p_vaddr m (phdr m h i) - vstart) + p_filesz m (phdr m h i).

(** A file image of [len] bytes at [h] whose headers and segments lie inside
    it, and whose segments lie in [size] bytes from [vstart] on without
    overlapping. *)
Record image_ok (m : mem) (h len vstart size : Z) : Prop := {
  im_range : 0 <= h /\ 64 <= len /\ h + len <= 4294967296;
  im_size : 0 <= size < 4294967296;
  im_vstart : 0 <= vstart;
  im_phdr : forall i, 0 <= i < e_phnum m h -> h <= phdr m h i /\ phdr m h i + 56 <= h + len;
  im_file : forall i, is_load m h i ->
    p_offset m (phdr m h i) + p_filesz m (phdr m h i) <= len;
  im_virt : forall i, is_load m h i ->
    vstart <= p_vaddr m (phdr m h i) /\
    p_vaddr m (phdr m h i) - vstart + p_filesz m (phdr m h i) <= size;
  im_disjoint : forall i j, is_load m h i -> is_load m h j -> i <> j ->
    p_vaddr m (phdr m h i) + p_filesz m (phdr m h i) <= p_vaddr m (phdr m h j) \/
    p_vaddr m (phdr m h j) + p_filesz m (phdr m h j) <= p_vaddr m (phdr m h i);
}.

(** ** kernel_analyse *)

Lemma e_phnum_range m h : 0 <= e_phnum m h < 65536.
Proof. apply (load_range 2). Qed.

Lemma analyse_step_load m h a s b i :
  p_type m (phdr m h i) = 1 -> 0 <= s < 2 ^ 63 -> s mod 4096 = 0 ->
  analyse_step m h (KRegion a s, KRegion b 0) i =
    (KRegion (Z.min a (u32 (h +64 p_offset m (phdr m h i))))
             (s + round_up (u32 (p_memsz m (phdr m h i))) 4096),
     KRegion (Z.min b (p_vaddr m (phdr m h i))) 0).
Proof.
  intros Ht Hs Ha. unfold analyse_step. rewrite Ht. cbn [negb Z.eqb Pos.eqb kr_start kr_size].
  pose proof (u32_range (p_memsz m (phdr m h i))) as Hr.
  set (x := u32 (p_memsz m (phdr m h i))) in *. clearbody x.
  set (f := u32 (h +64 p_offset m (phdr m h i))). clearbody f.
  rewrite (u64_small (s + x)) by lia.
  assert (u32 (s + x) mod 4096 = x mod 4096) as Hm by (unfold u32; lia_div).
  assert ((s + x) mod 4096 = x mod 4096) as Hm' by lia_div.
  rewrite Hm, Hm'.
  assert ((if p_vaddr m (phdr m h i) <? b then p_vaddr m (phdr m h i) else b)
    = Z.min b (p_vaddr m (phdr m h i))) as -> by (case_match; lia).
  assert ((if f <? a then f else a) = Z.min a f) as -> by (case_match; lia).
  f_equal. f_equal. unfold round_up. pose proof (Z.mod_pos_bound x 4096).
  destruct (x mod 4096 =? 0); cbn [negb]; [done|]. mach_small. lia.
Qed.

Lemma round_up_4096_bound x : 0 <= x < 4294967296 -> 0 <= round_up x 4096 <= 4294967296.
Proof. intros Hx. unfold round_up. case_match; lia_div. Qed.

Lemma analyse_fold m h l a b s :
  0 <= s -> s + Z.of_nat (length l) * 4294967296 < 2 ^ 63 -> s mod 4096 = 0 ->
  a <= NO_ADDRESS -> b <= NO_ADDRESS ->
  let l' := filter (fun i => p_type m (phdr m h i) = 1) l in
  foldl (analyse_step m h) (KRegion a s, KRegion b 0) l =
    (KRegion (Z.min a (min_file m h l')) (s + sum_sizes m h l'),
     KRegion (Z.min b (min_vaddr m h l')) 0).
Proof.
  revert a b s. induction l as [|i l IH]; intros a b s Hs Hb Hm Ha Hb'.
  - simpl. rewrite Z.add_0_r, !Z.min_l by done. done.
  - cbn [foldl]. rewrite filter_cons. case_decide as Ht.
    + rewrite analyse_step_load; [|done|simpl length in Hb; lia|done].
      pose proof (round_up_4096_bound _ (u32_range (p_memsz m (phdr m h i)))).
      pose proof (round_up_spec (u32 (p_memsz m (phdr m h i))) 4096 ltac:(lia)) as [_ Hr].
      rewrite IH; [|simpl length in Hb; lia|simpl length in Hb; lia|lia_div|lia|lia].
      cbn [sum_sizes min_file min_vaddr foldr].
      rewrite <- !Z.min_assoc, Z.add_assoc. done.
    + unfold analyse_step at 2. destruct (p_type m (phdr m h i) =? 1) eqn:E; [lia|]. cbn [negb].
      apply IH; try done. simpl length in Hb. lia.
Qed.

Lemma kernel_analyse_run info s :
  let m := a_mem s in
  let h := image_start info in
  let l := load_headers m h in
  elf_check m h = true ->
  exists s', kernel_analyse info s =
    Done (KInfo (image_start info) (image_end info)
            (KRegion (min_file m h l) (sum_sizes m h l))
            (KRegion (min_vaddr m h l) (sum_sizes m h l)), s') /\
    a_mem s' = a_mem s /\ a_heap s' = a_heap s /\ a_regions s' = a_regions s /\
    a_queue s' = a_queue s.
Proof.
  intros m h l Helf. unfold kernel_analyse, mbind, ST_bind, gets. fold m h. rewrite Helf.
  cbn [negb when skip].
  rewrite (analyse_fold m h (seqZ 0 (e_phnum m h))).
  - fold (load_headers m h). fold l.
    assert (forall (f : Z -> Z -> Z) (l' : list Z), (forall i n, n <= NO_ADDRESS -> f i n <= NO_ADDRESS) ->
      foldr f NO_ADDRESS l' <= NO_ADDRESS) as Hle.
    { intros f l' Hf. induction l' as [|i l' IH]; simpl; [lia|]. by apply Hf. }
    cbn [kr_start kr_size]. rewrite Z.add_0_l.
    rewrite Z.min_r by (apply Hle; intros; lia).
    rewrite Z.min_r by (apply Hle; intros; lia).
    eexists. split; [reflexivity|]. done.
  - lia.
  - rewrite length_seqZ. pose proof (e_phnum_range m h). lia.
  - done.
  - lia.
  - lia.
Qed.

(** ** kernel_load *)

Lemma fields_agree m m' h len :
  64 <= len -> agree_on m' m h len ->
  e_phoff m' h = e_phoff m h /\ e_phentsize m' h = e_phentsize m h /\
  e_phnum m' h = e_phnum m h /\ e_entry m' h = e_entry m h.
Proof.
  intros Hlen Hag. unfold e_phoff, e_phentsize, e_phnum, e_entry.
  repeat split; apply load_ext; intros b Hb; apply Hag; lia.
Qed.

Lemma phdr_agree m m' h len i :
  64 <= len -> agree_on m' m h len -> phdr m' h i = phdr m h i.
Proof.
  intros Hlen Hag. destruct (fields_agree m m' h len Hlen Hag) as (H1 & H2 & _).
  unfold phdr. by rewrite H1, H2.
Qed.

Lemma pfields_agree m m' h len p :
  agree_on m' m h len -> h <= p -> p + 56 <= h + len ->
  p_type m' p = p_type m p /\ p_offset m' p = p_offset m p /\
  p_vaddr m' p = p_vaddr m p /\ p_filesz m' p = p_filesz m p.
Proof.
  intros Hag H1 H2. unfold p_type, p_offset, p_vaddr, p_filesz.
  repeat split; apply load_ext; intros b Hb; apply Hag; lia.
Qed.

Section Load.
Variables (m : mem) (h len vstart size base : Z).
Hypothesis Himg : image_ok m h len vstart size.
Hypothesis Hbase : 0 <= base /\ base + size <= 4294967296.
(** The block the kernel is loaded into does not overlap the file image. *)
Hypothesis Hapart : h + len <= base \/ base + size <= h.

(** After the first [n] program headers: the file image is intact, each
    segment is copied, every other byte is what it was. *)
Definition loaded (n : Z) (m' : mem) : Prop :=
  agree_on m' m h len /\
  (forall i b, i < n -> seg_covers m h base vstart i b ->
     mget m' b = mget m (h + p_offset m (phdr m h i)
                           + (b - (base + (p_vaddr m (phdr m h i) - vstart))))) /\
  (forall b, (forall i, i < n -> ~ seg_covers m h base vstart i b) -> mget m' b = mget m b).

Lemma loaded_start : loaded 0 m.
Proof.
  split; [by intros b Hb|]. split; [|done].
  intros i b Hi [[? _] _]. lia.
Qed.

Lemma load_step_loaded n m' :
  0 <= n < e_phnum m h -> loaded n m' -> loaded (n + 1) (load_step h base vstart n m').
Proof.
  intros Hn (Hag & Hseg & Hrest).
  destruct Himg as [Hr Hsz Hvs Hph Hfile Hvirt Hdis].
  destruct (Hph n Hn) as [Hp1 Hp2].
  unfold load_step. rewrite (phdr_agree m m' h len) by (done || lia).
  destruct (pfields_agree m m' h len (phdr m h n) Hag Hp1 Hp2) as (-> & -> & -> & ->).
  destruct (p_type m (phdr m h n) =? 1) eqn:Et; cbn [negb].
  2:{ assert (forall b, ~ seg_covers m h base vstart n b) as Hno by (intros b [[_ ?] _]; lia).
      split; [done|]. split.
      - intros i b Hi Hc. apply Hseg; [|done]. destruct (decide (i = n)) as [->|]; [|lia].
        by destruct (Hno b).
      - intros b Hb. apply Hrest. intros i Hi. apply Hb. lia. }
  assert (is_load m h n) as Hload by (split; lia).
  specialize (Hfile n Hload). destruct (Hvirt n Hload) as [Hv1 Hv2].
  pose proof (load64_range m (phdr m h n + 8)) as Hro. fold (p_offset m (phdr m h n)) in Hro.
  pose proof (load64_range m (phdr m h n + 16)) as Hrv. fold (p_vaddr m (phdr m h n)) in Hrv.
  pose proof (load64_range m (phdr m h n + 32)) as Hrf. fold (p_filesz m (phdr m h n)) in Hrf.
  set (po := p_offset m (phdr m h n)) in *. set (pv := p_vaddr m (phdr m h n)) in *.
  set (pf := p_filesz m (phdr m h n)) in *.
  rewrite (u64_small (h + po)), (u64_small (pv - vstart)) by lia.
  rewrite (u64_small (base + (pv - vstart))) by lia.
  destruct (decide (pf = 0)) as [Hz|Hnz].
  { rewrite Hz. change (u32 0) with 0. unfold awd_memcpy, memcpy. cbn [memcpy_loop Z.to_nat].
    assert (forall b, ~ seg_covers m h base vstart n b) as Hno.
    { intros b [_ Hc]. fold pv pf in Hc. lia. }
    split; [done|]. split.
    - intros i b Hi Hc. apply Hseg; [|done]. destruct (decide (i = n)) as [->|]; [|lia].
      by destruct (Hno b).
    - intros b Hb. apply Hrest. intros i Hi. apply Hb. lia. }
  rewrite (u32_small (h + po)), (u32_small (base + (pv - vstart))), (u32_small pf) by lia.
  set (d := base + (pv - vstart)) in *. unfold awd_memcpy.
  assert (forall b, mget (memcpy m' d (h + po) pf) b =
    if decide (d <= b < d + pf) then mget m' (h + po + (b - d)) else mget m' b) as Hcpy
    by (intros b; apply memcpy_get; lia).
  split; [|split].
  - intros b Hb. rewrite Hcpy. rewrite decide_False by lia. by apply Hag.
  - intros i b Hi Hc. rewrite Hcpy. destruct (decide (i = n)) as [->|Hne].
    + destruct Hc as [_ Hc]. fold pv pf in Hc. fold d in Hc. rewrite decide_True by lia.
      fold pv po. fold d. apply Hag. lia.
    + destruct Hc as [Hl Hc]. destruct (Hdis i n Hl Hload Hne) as [Hd|Hd];
        fold pv pf in Hd; rewrite decide_False by lia; (apply Hseg; [lia|by split]).
  - intros b Hb. rewrite Hcpy. rewrite decide_False.
    + apply Hrest. intros i Hi. apply Hb. lia.
    + intros Hc. apply (Hb n ltac:(lia)). split; [done|]. fold pv pf. exact Hc.
Qed.

Lemma load_loop_loaded fuel i m' :
  0 <= i <= e_phnum m h -> loaded i m' -> e_phnum m h - i < Z.of_nat fuel ->
  exists m'', load_loop fuel i h base vstart m' = Done m'' /\ loaded (e_phnum m h) m''.
Proof.
  revert i m'. induction fuel as [|fuel IH]; intros i m' Hi Hl Hf; [lia|].
  cbn [load_loop].
  destruct (fields_agree m m' h len ltac:(apply Himg) ltac:(apply Hl)) as (_ & _ & -> & _).
  destruct (i <? e_phnum m h) eqn:E.
  - apply IH; [lia|by apply load_step_loaded; [lia|]|lia].
  - exists m'. split; [done|]. by replace (e_phnum m h) with i by lia.
Qed.

End Load.

Lemma kernel_load_run s info len :
  let m := a_mem s in
  let h := image_start info in
  let vstart := kr_start (ki_virt info) in
  let size := kr_size (ki_phys info) in
  let base := round_up (heap_phys_current (a_heap s)) 4096 in
  heap_ok (a_heap s) -> image_ok m h len vstart size ->
  h + len <= heap_phys_current (a_heap s) ->
  base + size < heap_phys_limit (a_heap s) ->
  exists s', kernel_load info s =
      Done (KLoaded (KRegion base size) (ki_virt info) (e_entry m h), s') /\
    loaded m h len vstart base (e_phnum m h) (a_mem s') /\
    a_heap s' = set_current (base + size) (a_heap s) /\
    (region_low_memory (a_regions s') = region_low_memory (a_regions s) /\
     region_awd_image (a_regions s') = region_awd_image (a_regions s) /\
     region_awd_malloc (a_regions s') = region_awd_malloc (a_regions s)) /\
    a_queue s' = a_queue s.
Proof.
  intros m h vstart size base Hheap Himg Happ Hfit.
  pose proof Himg as [_ Hsz _ _ _ _ _]. fold size in Hsz.
  pose proof Hheap as (_ & Hb & Hl).
  destruct (round_up_spec (heap_phys_current (a_heap s)) 4096 ltac:(lia)) as [Hbase _].
  fold base in Hbase.
  destruct (load_loop_loaded m h len vstart size base Himg ltac:(lia) ltac:(lia)
    phnum_fuel 0 m) as (m' & Hrun & Hloaded).
  { pose proof (e_phnum_range m h). lia. }
  { apply loaded_start. }
  { unfold phnum_fuel. pose proof (e_phnum_range m h). lia. }
  unfold kernel_load. erewrite bind_done; cycle 1.
  { rewrite malloc_aligned_run by (done || (split; simpl; lia)).
    change (eff_align 4096) with 4096. fold size base.
    assert ((base + size <? heap_phys_limit (a_heap s)) = true) as -> by lia. reflexivity. }
  unfold mbind, ST_bind, gets. cbn [a_mem set_heap]. fold m h vstart. rewrite Hrun.
  destruct (fields_agree m m' h len ltac:(apply Himg) ltac:(apply Hloaded)) as (_ & _ & _ & He).
  rewrite He. eexists. split; [reflexivity|]. done.
Qed.

(** ** The search for the kernel *)

Section FindKernel.
Variables (tag : Z) (names : list (list Z)) (addr : Z).

Definition module_at (i : Z) : Z := u32 (addr + u32 (16 * i)).
(** The command lines of the modules and the tag are C strings in memory. *)
Definition modules_ok (s : awd) : Prop :=
  cstring (a_mem s) tag KERNEL_TAG_NAME /\
  forall i name, names !! i = Some name ->
    cstring (a_mem s) (mod_cmdline (a_mem s) (module_at (Z.of_nat i))) name.

(** The first module called "kernel". *)
Definition first_kernel : option Z :=
  (fun p => module_at (Z.of_nat p.1)) <$> list_find (fun name => name = KERNEL_TAG_NAME) names.

Lemma strcmp_tag m p name :
  cstring m tag KERNEL_TAG_NAME -> cstring m p name ->
  exists r, awd_strcmp 8 m p tag = Some r /\ (r = 0 <-> name = KERNEL_TAG_NAME).
Proof.
  intros Ht Hn. exists (strcmp_spec name KERNEL_TAG_NAME). split.
  - apply strcmp_spec_ok; [done..|]. simpl. lia.
  - apply strcmp_spec_zero; [apply Hn|apply Ht].
Qed.

Lemma find_kernel_loop_run k s rest :
  modules_ok s -> drop k names = rest ->
  find_kernel_loop (length rest) (Z.of_nat k) tag addr s =
    Done ((fun p => module_at (Z.of_nat (k + p.1)%nat)) <$>
            list_find (fun name => name = KERNEL_TAG_NAME) rest, s).
Proof.
  intros [Htag Hok]. revert k. induction rest as [|name rest IH]; intros k Hd; [done|].
  assert (names !! k = Some name) as Hk.
  { rewrite <- (take_drop k names), Hd, lookup_app_r; rewrite length_take.
    - replace (_ - _)%nat with 0%nat; [done|].
      assert (k < length names)%nat; [|lia].
      apply (f_equal length) in Hd. rewrite length_drop in Hd. simpl in Hd. lia.
    - lia. }
  destruct (strcmp_tag (a_mem s) _ name Htag (Hok k name Hk)) as (r & Hr & Hz).
  cbn [find_kernel_loop length]. unfold mbind, ST_bind, gets. fold (module_at (Z.of_nat k)).
  rewrite Hr. simpl list_find. destruct (r =? 0) eqn:E.
  - rewrite decide_True by (apply Hz; lia). simpl. by rewrite Nat.add_0_r.
  - rewrite decide_False by (rewrite <- Hz; lia).
    replace (Z.of_nat k + 1) with (Z.of_nat (S k)) by lia.
    rewrite IH.
    + destruct (list_find _ rest) as [[p x]|]; [|done]. simpl. by rewrite Nat.add_succ_r.
    + replace (S k) with (k + 1)%nat by lia. rewrite <- drop_drop, Hd. done.
Qed.

Lemma multiboot_find_kernel_run mb s :
  modules_ok s -> mods_addr (a_mem s) mb = addr -> mods_count (a_mem s) mb = Z.of_nat (length names) ->
  multiboot_find_kernel tag mb s =
    match first_kernel with
    | Some md => Done (md, s)
    | None => if decide (names = []) then Stopped (Panic
                "multiboot: No kernel found, no modules were loaded by the multiboot bootloader.")
              else Done (0, s)
    end.
Proof.
  intros Hok Ha Hc. unfold multiboot_find_kernel. unfold mbind at 1, ST_bind at 1, gets.
  rewrite Ha, Hc, Nat2Z.id.
  rewrite (bind_done _ _ _ _ _ (find_kernel_loop_run 0 s names Hok eq_refl)).
  unfold first_kernel. destruct (list_find _ names) as [[p x]|]; [done|].
  cbn [fmap option_fmap option_map]. destruct names as [|x l]; [done|].
  rewrite decide_False by done. by assert ((Z.of_nat (length (x :: l)) =? 0) = false) as -> by (simpl; lia).
Qed.

End FindKernel.

Lemma min_fold_le (f : Z -> Z) l i : i ∈ l -> foldr (fun i n => Z.min (f i) n) NO_ADDRESS l <= f i.
Proof. induction 1; simpl; lia. Qed.

Lemma elem_of_load_headers m h i : i ∈ load_headers m h <-> is_load m h i.
Proof.
  unfold load_headers, is_load. rewrite list_elem_of_filter, elem_of_seqZ. naive_solver lia.
Qed.

Lemma sum_sizes_ge m h l i :
  i ∈ l -> round_up (u32 (p_memsz m (phdr m h i))) 4096 <= sum_sizes m h l /\ 0 <= sum_sizes m h l.
Proof.
  assert (forall l', 0 <= sum_sizes m h l') as Hpos.
  { induction l' as [|j l' IH]; simpl; [lia|].
    pose proof (round_up_4096_bound _ (u32_range (p_memsz m (phdr m h j)))). lia. }
  induction 1 as [|i j l _ [IH _]]; split; try apply Hpos; simpl.
  - specialize (Hpos l). lia.
  - pose proof (round_up_4096_bound _ (u32_range (p_memsz m (phdr m h j)))). lia.
Qed.

Lemma multiboot_analyse_run (s : awd) (tag mb : Z) (names : list (list Z))
    (Hok : modules_ok tag names (mods_addr (a_mem s) mb) s)
    (Hcount : mods_count (a_mem s) mb = Z.of_nat (length names)) :
  match first_kernel names (mods_addr (a_mem s) mb) with
  | Some md =>
      md <> 0 ->
      exists s', multiboot_analyse tag mb s =
          Done (KInfo (mod_start (a_mem s) md) (mod_end (a_mem s) md) no_kregion no_kregion, s') /\
        a_mem s' = a_mem s /\ a_heap s' = a_heap s /\
        a_queue s' = a_queue s /\
        region_low_memory (a_regions s') = region_low_memory (a_regions s) /\
        region_awd_image (a_regions s') = region_awd_image (a_regions s) /\
        region_multiboot_files (a_regions s') =
          MemRegion (PAGE_ROUND_UP (mod_start (a_mem s) md))
                    (PAGE_ROUND_UP (mod_end (a_mem s) md) -64 1)
  | None =>
      multiboot_analyse tag mb s = Stopped (
        if decide (names = []) then
          Panic "multiboot: No kernel found, no modules were loaded by the multiboot bootloader."
        else Fault "null kernel_module")
  end.
Proof.
  set (s1 := Awd (a_mem s) (a_heap s) (a_regions s) (a_queue s) (a_paging s)
    (a_log s ++ [LogCall ("multiboot: Bootloader is %s" +:+ newline) [LNum (boot_loader_name (a_mem s) mb)]])).
  pose proof (multiboot_find_kernel_run tag names (mods_addr (a_mem s) mb) mb s1 Hok eq_refl Hcount)
    as Hfind.
  unfold multiboot_analyse, awd_log. unfold mbind, ST_bind, gets, modify. fold s1.
  rewrite Hfind. destruct (first_kernel names _) as [md|] eqn:E.
  - intros Hmd. assert ((md =? 0) = false) as -> by lia. cbn [when skip].
    eexists. split; [reflexivity|]. done.
  - by case_decide.
Qed.

(** ** The theorems *)

(** C34. [multiboot_analyse] takes the first module whose command line is exactly
    "kernel", records its extent and writes its page-rounded region.  With no
    modules at all it panics; when modules exist but none is the kernel, the
    search returns the null pointer and the code dereferences it. *)
Theorem multiboot_analyse_correct (s : awd) (tag mb : Z) (names : list (list Z))
    (Hok : modules_ok tag names (mods_addr (a_mem s) mb) s)
    (Hcount : mods_count (a_mem s) mb = Z.of_nat (length names)) :
  match first_kernel names (mods_addr (a_mem s) mb) with
  | Some md =>
      md <> 0 ->
      exists s', multiboot_analyse tag mb s =
          Done (KInfo (mod_start (a_mem s) md) (mod_end (a_mem s) md) no_kregion no_kregion, s') /\
        a_mem s' = a_mem s /\ a_heap s' = a_heap s /\
        region_multiboot_files (a_regions s') =
          MemRegion (PAGE_ROUND_UP (mod_start (a_mem s) md))
                    (PAGE_ROUND_UP (mod_end (a_mem s) md) -64 1)
  | None =>
      multiboot_analyse tag mb s = Stopped (
        if decide (names = []) then
          Panic "multiboot: No kernel found, no modules were loaded by the multiboot bootloader."
        else Fault "null kernel_module")
  end.
Proof.
  pose proof (multiboot_analyse_run s tag mb names Hok Hcount) as H.
  destruct (first_kernel names _) as [md|]; [|done].
  intros Hmd. destruct (H Hmd) as (s' & H1 & H2 & H3 & _ & _ & _ & H4). by exists s'.
Qed.

(** [kernel_analyse] rejects what is not an ELF64 x86-64 executable; otherwise
    the start of the virtual region is the lowest LOAD address and the size is
    the sum of the LOAD segments' memory sizes rounded up to pages, which is
    at least the rounded size of every segment. *)
Theorem kernel_analyse_correct (s : awd) (info : kernel_info) :
  let m := a_mem s in
  let h := image_start info in
  let l := load_headers m h in
  if elf_check m h then
    exists s', kernel_analyse info s =
      Done (KInfo (image_start info) (image_end info)
              (KRegion (min_file m h l) (sum_sizes m h l))
              (KRegion (min_vaddr m h l) (sum_sizes m h l)), s') /\
      a_mem s' = m /\ a_heap s' = a_heap s /\ a_regions s' = a_regions s /\
      forall i, is_load m h i ->
        min_vaddr m h l <= p_vaddr m (phdr m h i) /\
        round_up (u32 (p_memsz m (phdr m h i))) 4096 <= sum_sizes m h l
  else kernel_analyse info s = Stopped (Panic "kernel error: Kernel is not a ELF executable.").
Proof.
  intros m h l. destruct (elf_check m h) eqn:E.
  - destruct (kernel_analyse_run info s E) as (s' & H1 & H2 & H3 & H4 & _).
    exists s'. split; [done|]. split; [done|]. split; [done|]. split; [done|].
    intros i Hi%elem_of_load_headers. split.
    + apply (min_fold_le (fun i => p_vaddr m (phdr m h i)) _ _ Hi).
    + by apply sum_sizes_ge.
  - unfold kernel_analyse, mbind, ST_bind, gets. fold m h. by rewrite E.
Qed.

(** C32. [kernel_load] of a well-formed image into a heap with room: it returns, the
    block it loads into is the page-aligned block the allocator gives, every
    byte of every LOAD segment's file contents is at its place in it, and no
    other byte of memory changes - in particular the part of a segment beyond
    its file size (its bss) keeps whatever the memory held. *)
Theorem kernel_load_correct (s : awd) (info : kernel_info) (len : Z)
    (Hheap : heap_ok (a_heap s))
    (Himg : image_ok (a_mem s) (image_start info) len (kr_start (ki_virt info))
              (kr_size (ki_phys info)))
    (Happ : image_start info + len <= heap_phys_current (a_heap s))
    (Hfit : round_up (heap_phys_current (a_heap s)) 4096 + kr_size (ki_phys info)
              < heap_phys_limit (a_heap s)) :
  let m := a_mem s in
  let h := image_start info in
  let base := round_up (heap_phys_current (a_heap s)) 4096 in
  exists s', kernel_load info s =
      Done (KLoaded (KRegion base (kr_size (ki_phys info))) (ki_virt info) (e_entry m h), s') /\
    (forall i o, is_load m h i -> 0 <= o < p_filesz m (phdr m h i) ->
       mget (a_mem s') (base + (p_vaddr m (phdr m h i) - kr_start (ki_virt info)) + o) =
       mget m (h + p_offset m (phdr m h i) + o)) /\
    (forall b, (forall i, ~ seg_covers m h base (kr_start (ki_virt info)) i b) ->
       mget (a_mem s') b = mget m b) /\
    heap_phys_current (a_heap s') = base + kr_size (ki_phys info).
Proof.
  intros m h base.
  destruct (kernel_load_run s info len Hheap Himg Happ Hfit) as (s' & H1 & (_ & H2 & H3) & H4 & _).
  exists s'. split; [done|]. split; [|split].
  - intros i o Hi Ho. rewrite (H2 i).
    + f_equal. fold m h base. lia.
    + apply Hi.
    + split; [done|]. fold m h base. lia.
  - intros b Hb. apply H3. intros i _. apply Hb.
  - by rewrite H4.
Qed.

(** An ELF image at [a]: the header, [phs] program headers
    [(vaddr, offset, filesz, memsz)] and the bytes of segments at 256. *)
Definition le64 (z : Z) : list Z := (fun k => z / 2 ^ (8 * k) mod 256) <$> seqZ 0 8.
Definition sample_phdr (p : Z * Z * Z * Z) : list Z :=
  let '(va, o, fs, ms) := p in
  [1; 0; 0; 0; 7; 0; 0; 0] ++ le64 o ++ le64 va ++ le64 0 ++ le64 fs ++ le64 ms ++ le64 4096.
Definition sample_elf (a : Z) (phs : list (Z * Z * Z * Z)) (data : list Z) : mem :=
  let m1 := poke ∅ a ([127; 69; 76; 70] ++ replicate 12 0 ++ [2; 0; 62; 0; 1; 0; 0; 0]
    ++ le64 18446744071562067968 ++ le64 64 ++ le64 0 ++ replicate 4 0
    ++ [64; 0; 56; 0; Z.of_nat (length phs); 0]) in
  let m2 := poke m1 (a + 64) (concat (sample_phdr <$> phs)) in
  poke m2 (a + 256) data.
Definition sample_elf_awd (m : mem) : awd :=
  Awd m (AllocState 2097152 2097152 (2097152 + 262144) true) no_regions [] false [].

Definition one_segment : mem :=
  sample_elf 1048576 [(18446744071562067968, 256, 3, 4096)] [11; 22; 33].
Definition one_segment_info : kernel_info :=
  KInfo 1048576 1052672 (KRegion 1048832 4096) (KRegion 18446744071562067968 4096).

Lemma kernel_load_correct_witness :
  exists s', kernel_load one_segment_info (sample_elf_awd one_segment) =
    Done (KLoaded (KRegion 2097152 4096) (KRegion 18446744071562067968 4096)
            18446744071562067968, s') /\
    mget (a_mem s') 2097154 = 33.
Proof.
  assert (forall i, 0 <= i < e_phnum one_segment 1048576 -> i = 0) as H0.
  { intros i. change (e_phnum one_segment 1048576) with 1. lia. }
  destruct (kernel_load_correct (sample_elf_awd one_segment) one_segment_info 512)
    as (s' & Hrun & Hseg & _).
  - unfold heap_ok. simpl. split; [done|lia].
  - split; simpl.
    + lia.
    + lia.
    + lia.
    + intros i ->%H0. vm_compute. split; discriminate.
    + intros i [->%H0 _]. vm_compute. discriminate.
    + intros i [->%H0 _]. vm_compute. split; discriminate.
    + intros i j [->%H0 _] [->%H0 _]. done.
  - simpl. lia.
  - vm_compute. reflexivity.
  - exists s'. split; [exact Hrun|].
    apply (Hseg 0 2).
    + split; [vm_compute; split; [discriminate|reflexivity]|reflexivity].
    + vm_compute. split; [discriminate|reflexivity].
Defined.

Lemma multiboot_analyse_correct_witness :
  let m := poke (poke (poke (poke ∅ 4096 ([107; 101; 114; 110; 101; 108] ++ [0]))
             8192 ([0; 0; 32; 0; 0; 16; 32; 0; 0; 16; 0; 0; 0; 0; 0; 0]))
             16404 [1; 0; 0; 0; 0; 32; 0; 0]) 12288 [0] in
  exists s', multiboot_analyse 4096 16384 (sample_elf_awd m) =
    Done (KInfo 2097152 2101248 no_kregion no_kregion, s').
Proof.
  intros m.
  assert (cstring m 4096 KERNEL_TAG_NAME) as Hc.
  { split; [repeat constructor; unfold byte_ok; lia|]. split; [|reflexivity].
    intros [|[|[|[|[|[|i]]]]]] b; simpl; intros [= <-]; reflexivity. }
  assert (modules_ok 4096 [KERNEL_TAG_NAME] (mods_addr m 16384) (sample_elf_awd m)) as Hok.
  { split; [exact Hc|]. intros [|i] name; simpl; intros [= <-]. exact Hc. }
  pose proof (multiboot_analyse_correct (sample_elf_awd m) 4096 16384 [KERNEL_TAG_NAME]
    Hok eq_refl) as H.
  change (first_kernel _ _) with (Some 8192) in H.
  destruct (H ltac:(lia)) as (s' & Hrun & _). by exists s'.
Defined.

(** The size [kernel_analyse] computes is the sum of the segments' sizes, not
    the distance from the lowest to the highest address: with two one-page
    segments 1 MiB apart, [kernel_load] reserves 8 KiB and copies the second
    segment behind the end of the whole allocation area. *)
Theorem kernel_load_gap_overruns :
  let s := sample_elf_awd (sample_elf 1048576
             [(18446744071562067968, 256, 1, 4096); (18446744071562067968 + 1048576, 257, 1, 4096)]
             [11; 22]) in
  exists info s1 l s2,
    kernel_analyse (KInfo 1048576 1052672 no_kregion no_kregion) s = Done (info, s1) /\
    kernel_load info s1 = Done (l, s2) /\
    kr_size (memory_image l) = 8192 /\
    mget (a_mem s1) (2097152 + 1048576) = 0 /\ mget (a_mem s2) (2097152 + 1048576) = 22 /\
    heap_phys_limit (a_heap s2) <= 2097152 + 1048576.
Proof.
  do 4 eexists. split; [vm_compute; reflexivity|]. split; [vm_compute; reflexivity|].
  split; [reflexivity|]. split; [vm_compute; reflexivity|]. split; [vm_compute; reflexivity|].
  vm_compute. discriminate.
Qed.
