(* ===== verification/AwdPaging.v ===== *)
(** AWD's paging (src/src/awd/memory/paging.c, awd/paging.h): the queue of
    regions, the mapping of one page and the construction of the page tables
    the kernel starts with.  [paging_enable] (paging_enable.s) loads CR3 with
    [paging_pml4] and turns long mode on; here it sets [a_paging], and its
    instructions are in [Entry]. *)

From S2P Require Import Prelude Memory AwdAlloc PageTable PageBuilder AwdKernel.
Local Open Scope Z_scope.
Local Open Scope mach_scope.

(** ** The queue *)

Definition PAGING_QUEUE_MAX : Z := 10.
Definition PAGING_ATTRIBUTE_READWRITE : Z := 3.

(** The array has ten elements and the code does not check the index: an
    eleventh call writes past its end. *)
Definition paging_queue_mapping (phys_start phys_end virt_start virt_end attribute : Z)
    : ST awd unit :=
  q ← gets a_queue;
  when (PAGING_QUEUE_MAX <=? Z.of_nat (length q)) (stop_with (Fault "paging_queue")) ;;
  modify (set_queue (q ++ [MappedRegion (u64 phys_start) (u64 phys_end) (u64 virt_start)
                             (u64 virt_end) (u8 attribute)])).

Fixpoint queue_print_loop (i : Z) (q : list awd_mapped_region) : ST awd unit :=
  match q with
  | [] => skip
  | r :: q' =>
      awd_log "%2d: 0x%016p-0x%016p 0x%016p-0x%016p"
        [LNum i; LNum (phys_start r); LNum (phys_end r); LNum (virt_start r); LNum (virt_end r)] ;;
      queue_print_loop (i + 1) q'
  end.

Definition paging_queue_print : ST awd unit :=
  q ← gets a_queue;
  awd_log "paging: Printing queue (n=%d)" [LNum (Z.of_nat (length q))] ;;
  queue_print_loop 0 (take (Z.to_nat PAGING_QUEUE_MAX) q).

Definition kernel_mem_base : Z := 18446744071562067968.

Definition paging_init (kernel : kernel_loaded_info) : ST awd unit :=
  r ← gets a_regions;
  let identity (g : mem_region) :=
    paging_queue_mapping (rg_start g) (rg_end g) (rg_start g) (rg_end g)
      PAGING_ATTRIBUTE_READWRITE in
  identity (region_low_memory r) ;;
  identity (region_awd_image r) ;;
  identity (region_awd_malloc r) ;;
  paging_queue_mapping 0 2097152 kernel_mem_base (2097152 + kernel_mem_base)
    PAGING_ATTRIBUTE_READWRITE ;;
  let image := memory_image kernel in
  paging_queue_mapping (kr_start image) (kr_start image + kr_size image)
    (kr_start (kl_virt kernel)) (kr_start (kl_virt kernel) + kr_size image)
    PAGING_ATTRIBUTE_READWRITE ;;
  paging_queue_print.

(** ** Mapping *)

(** "Create or Load": the table below entry [index] of [table].  The mask
    [~attribute] is converted to the 32-bit [uintptr_t].  The page of a new
    table is not cleared. *)
Definition paging_level (table index : Z) : ST awd Z :=
  m ← gets a_mem;
  if entry m table index =? 0 then
    page ← malloc_aligned 4096 4096;
    modify (fun s => set_mem (set_entry (a_mem s) table index (Z.lor page 3)) s) ;;
    mret page
  else mret (Z.land (u32 (entry m table index)) (2 ^ 32 - 4)).

(** [paging_pml4] is the address of the linker-placed top-level table. *)
Definition paging_map_page (paging_pml4 phys virt page_attr : Z) : ST awd unit :=
  pg_p3 ← paging_level paging_pml4 (idx4 virt);
  pg_p2 ← paging_level pg_p3 (idx3 virt);
  pg_p1 ← paging_level pg_p2 (idx2 virt);
  modify (fun s =>
    set_mem (set_entry (a_mem s) pg_p1 (idx1 virt) (Z.lor phys page_attr)) s).

(** The loop [for (uint64_t j = 0; j < sz; j += step)]. *)
Fixpoint map_region_loop (fuel : nat) (paging_pml4 : Z) (region : awd_mapped_region) (sz j : Z)
    : ST awd unit :=
  match fuel with
  | O => stop_with OutOfFuel
  | S fuel' =>
      if j <? sz then
        paging_map_page paging_pml4 (phys_start region +64 j) (virt_start region +64 j)
          (attribute region) ;;
        map_region_loop fuel' paging_pml4 region sz (j +64 4096)
      else skip
  end.

Definition map_region (paging_pml4 : Z) (region : awd_mapped_region) : ST awd unit :=
  let sz := virt_end region -64 virt_start region in
  map_region_loop (Z.to_nat (sz / 4096) + 2) paging_pml4 region sz 0.

Definition clear_pml4 (paging_pml4 : Z) (m : mem) : mem :=
  for_upto 512 (fun i m => set_entry m paging_pml4 i 0) m.

Definition paging_enable : ST awd unit := modify (set_paging true).

Definition paging_commit (paging_pml4 : Z) : ST awd unit :=
  modify (fun s => set_mem (clear_pml4 paging_pml4 (a_mem s)) s) ;;
  q ← gets a_queue;
  forM q (map_region paging_pml4) ;;
  paging_enable ;;
  awd_log "paging: All pages mapped into memory." [].

(** ** Specification *)

(** The pages a region maps, each with the entry it gets, in order. *)
Definition region_pages (r : awd_mapped_region) : list (Z * Z) :=
  let sz := virt_end r -64 virt_start r in
  (fun k => (virt_start r +64 4096 * k, Z.lor (phys_start r +64 4096 * k) (attribute r))) <$>
    seqZ 0 ((sz + 4095) / 4096).
Definition queue_pages (q : list awd_mapped_region) : list (Z * Z) := q ≫= region_pages.

(** The heap above the current position has never been written. *)
Definition heap_zero (s : awd) : Prop :=
  forall b, heap_phys_current (a_heap s) <= b < heap_phys_limit (a_heap s) ->
    mget (a_mem s) b = 0.

Abbreviation LIM32 := 4294967296.

(** Page tables under construction: the tables other than the root are the
    pages allocated since the heap stood at [c0]. *)
Record paging_inv (root c0 : Z) (tab : gmap (list Z) Z) (s : awd) : Prop := {
  pi_heap : heap_ok (a_heap s);
  pi_wf : pt_wf 0 LIM32 (a_mem s) tab root;
  pi_c0 : c0 mod 4096 = 0 /\ root + 4096 <= c0;
  pi_cur : heap_phys_current (a_heap s) = c0 + 4096 * (Z.of_nat (size tab) - 1);
  pi_below : forall p t, tab !! p = Some t ->
    t + 4096 <= heap_phys_current (a_heap s) /\ (p <> [] -> c0 <= t);
  pi_zero : heap_zero s;
}.

(** The hardware's walk reads the root and memory from [c0] on only. *)
Definition own_tables (root c0 : Z) (m : mem) : Prop := forall m',
  (forall b, root <= b < root + 4096 \/ c0 <= b -> mget m' b = mget m b) ->
  forall va, mmu_walk 0 m' root va = mmu_walk 0 m root va.

Lemma paging_inv_own root c0 tab s : paging_inv root c0 tab s -> own_tables root c0 (a_mem s).
Proof.
  intros [_ Hwf _ _ Hbelow _] m' Hm va.
  assert (forall p t, tab !! p = Some t -> agree_on m' (a_mem s) t 4096) as Hag.
  { intros p t Ht b Hb. apply Hm. destruct (decide (p = [])) as [->|Hp].
    - left. by rewrite (pt_root _ _ _ _ _ Hwf) in Ht; injection Ht as <-.
    - right. destruct (Hbelow _ _ Ht) as [_ H]. specialize (H Hp). lia. }
  pose proof (mmu_walk_wf 0 LIM32 ltac:(lia) _ _ _ va (pt_wf_ext 0 LIM32 _ _ _ _ Hag Hwf)) as H1.
  pose proof (mmu_walk_wf 0 LIM32 ltac:(lia) _ _ _ va Hwf) as H2.
  rewrite Z.sub_0_r in H1, H2. by rewrite H1, H2, (leaf_ext _ _ _ _ Hag).
Qed.

(** Nothing but the root, the new tables and the heap position changes. *)
Record paging_frame (root c0 : Z) (s s' : awd) : Prop := {
  pf_mem : forall b, b < root \/ root + 4096 <= b < c0 \/ heap_phys_limit (a_heap s) <= b ->
    mget (a_mem s') b = mget (a_mem s) b;
  pf_limit : heap_phys_limit (a_heap s') = heap_phys_limit (a_heap s);
  pf_rest : a_regions s' = a_regions s /\ a_queue s' = a_queue s /\
    a_paging s' = a_paging s /\ a_log s' = a_log s;
}.

(** ** One level *)

Section Paging.
Variables (root c0 : Z).

Lemma paging_frame_refl s : paging_frame root c0 s s.
Proof. by split. Qed.

Lemma paging_frame_trans s1 s2 s3 :
  paging_frame root c0 s1 s2 -> paging_frame root c0 s2 s3 -> paging_frame root c0 s1 s3.
Proof.
  intros [H1 H2 (H3 & H4 & H5 & H6)] [H1' H2' (H3' & H4' & H5' & H6')]. split; [|congruence|].
  - intros b Hb. rewrite H1', H1; [done..|]. rewrite H2. done.
  - repeat split; congruence.
Qed.

Lemma malloc_page s :
  heap_ok (a_heap s) -> heap_phys_current (a_heap s) mod 4096 = 0 ->
  let c := heap_phys_current (a_heap s) in
  malloc_aligned 4096 4096 s =
    if c + 4096 <? heap_phys_limit (a_heap s)
    then Done (c, set_heap (set_current (c + 4096) (a_heap s)) s)
    else Stopped (Panic "malloc: Allocation hit limit").
Proof.
  intros Hok Hal c. rewrite malloc_aligned_run by (done || (split; simpl; lia)).
  change (eff_align 4096) with 4096. unfold round_up. rewrite Hal. done.
Qed.

Lemma pi_aligned tab s : paging_inv root c0 tab s -> heap_phys_current (a_heap s) mod 4096 = 0.
Proof. intros H. rewrite (pi_cur _ _ _ _ H). pose proof (proj1 (pi_c0 _ _ _ _ H)). lia_div. Qed.

(** An entry that points to a table is taken as it is. *)
Lemma paging_level_old tab s p t i t' :
  paging_inv root c0 tab s -> tab !! p = Some t -> (length p < 3)%nat -> 0 <= i < 512 ->
  tab !! (p ++ [i]) = Some t' -> paging_level t i s = Done (t', s).
Proof.
  intros Hinv Hp Hlen Hi Ht'. pose proof (pi_wf _ _ _ _ Hinv) as Hwf.
  pose proof (pt_entry _ _ _ _ _ Hwf p t i Hp Hlen Hi) as He. rewrite Ht' in He.
  destruct (pt_table _ _ _ _ _ Hwf _ _ Ht') as [(H1 & H2 & H3) _].
  unfold paging_level, mbind, ST_bind, gets. rewrite He. unfold PT_FLAGS.
  destruct (t' - 0 + 3 =? 0) eqn:E; [lia|]. rewrite u32_small by lia.
  change (2 ^ 32 - 4) with (2 ^ 32 - 2 ^ 2). rewrite (land_clear_low_w 32 2) by lia.
  change (2 ^ 2) with 4. unfold mret, ST_ret. do 2 f_equal. lia_div.
Qed.

(** An unused entry gets a fresh table, for which the heap's next page is
    zero already. *)
Lemma paging_level_new tab s p t i :
  paging_inv root c0 tab s -> tab !! p = Some t -> (length p < 3)%nat -> 0 <= i < 512 ->
  tab !! (p ++ [i]) = None ->
  let c := heap_phys_current (a_heap s) in
  if c + 4096 <? heap_phys_limit (a_heap s) then
    exists s', paging_level t i s = Done (c, s') /\
      paging_inv root c0 (<[p ++ [i] := c]> tab) s' /\ paging_frame root c0 s s' /\
      (forall va, leaf (a_mem s') (<[p ++ [i] := c]> tab) va = leaf (a_mem s) tab va)
  else paging_level t i s = Stopped (Panic "malloc: Allocation hit limit").
Proof.
  intros Hinv Hp Hlen Hi Hnone c. pose proof (pi_aligned _ _ Hinv) as Hal.
  destruct Hinv as [Hok Hwf Hc0 Hcur Hbelow Hzero].
  pose proof (pt_entry _ _ _ _ _ Hwf p t i Hp Hlen Hi) as He. rewrite Hnone in He.
  unfold paging_level, mbind, ST_bind, gets. rewrite He, Z.eqb_refl. cbv beta iota.
  rewrite (malloc_page s Hok Hal). fold c.
  destruct (c + 4096 <? heap_phys_limit (a_heap s)) eqn:E; [|done].
  pose proof Hok as (Hen & Hb & Hl). fold c in Hb, Hl, Hal.
  destruct (Hbelow _ _ Hp) as [Htc Ht0]. fold c in Htc.
  assert (table_ok 0 LIM32 t) as Htok by (by apply (pt_table _ _ _ _ _ Hwf) in Hp as [? _]).
  assert (forall j, 0 <= j < 512 -> entry (a_mem s) c j = 0) as Hz.
  { intros j Hj. apply entry_zero; [done|]. intros b Hb'. apply Hzero. fold c. lia. }
  assert (table_ok 0 LIM32 c) as Hcok by (unfold table_ok; rewrite Z.sub_0_r; lia).
  destruct (pt_extend 0 LIM32 ltac:(lia) (a_mem s) tab root p t i c Hwf Hp Hlen Hi Hnone Hcok) as [Hwf' Hleaf].
  { intros q t' Hq ->. destruct (Hbelow _ _ Hq). fold c in H. lia. }
  { done. }
  rewrite Z.sub_0_r in Hwf', Hleaf. unfold PT_FLAGS in *.
  rewrite (lor_aligned 12) by (change (2 ^ 12) with 4096; lia).
  assert (root <= t) as Hrt.
  { destruct p as [|x p]; [rewrite (pt_root _ _ _ _ _ Hwf) in Hp; injection Hp as ->; lia|].
    assert (c0 <= t) by (by apply Ht0). lia. }
  assert (t + 4096 <= root + 4096 \/ c0 <= t) as Hrt'.
  { destruct p as [|x p]; [rewrite (pt_root _ _ _ _ _ Hwf) in Hp; injection Hp as ->; lia|].
    right. by apply Ht0. }
  assert (c0 <= c) as Hc0c.
  { assert (size tab <> 0%nat); [|fold c in Hcur; lia].
    apply map_size_ne_0_lookup. exists [], root. apply (pt_root _ _ _ _ _ Hwf). }
  eexists. split; [reflexivity|]. split; [|split].
  - split; cbn [a_heap a_mem set_mem set_heap heap_phys_current heap_phys_limit set_current].
    + split; [done|]. simpl. lia.
    + exact Hwf'.
    + done.
    + rewrite map_size_insert_None by done. fold c in Hcur. lia.
    + intros q t' Hq. rewrite lookup_insert in Hq. case_decide as Hd.
      * injection Hq as <-. split; [lia|]. intros _. lia.
      * destruct (Hbelow _ _ Hq) as [H1 H2]. fold c in H1. split; [lia|done].
    + intros b Hb'. cbn [a_heap a_mem set_mem set_heap heap_phys_current heap_phys_limit set_current] in *.
      rewrite mget_set_entry_ne by lia. apply Hzero. fold c. lia.
  - split; [|done..]. intros b Hb'. cbn [a_mem set_mem set_heap]. apply mget_set_entry_ne; lia.
  - exact Hleaf.
Qed.

Definition room (D : gset (list Z)) (s : awd) : bool :=
  c0 + 4096 * (Z.of_nat (size D) - 1) <? heap_phys_limit (a_heap s).

Lemma room_mono D D' s : D ⊆ D' -> room D' s = true -> room D s = true.
Proof. unfold room. intros Hs%subseteq_size H. lia. Qed.

Lemma room_inv tab s : paging_inv root c0 tab s -> room (dom tab) s = true.
Proof.
  intros Hinv. unfold room. rewrite size_dom. rewrite <- (pi_cur _ _ _ _ Hinv).
  destruct (pi_heap _ _ _ _ Hinv) as (_ & _ & ?). lia.
Qed.

Lemma room_frame D s s' : paging_frame root c0 s s' -> room D s' = room D s.
Proof. intros H. unfold room. by rewrite (pf_limit _ _ _ _ H). Qed.

#[local] Instance paging_frame_pre : PreOrder (paging_frame root c0).
Proof. split; [exact paging_frame_refl|exact paging_frame_trans]. Qed.

(** AWD as a builder of page tables. *)
#[local] Instance awd_builder : PageBuilder awd := {|
  pb_root := root;
  pb_mem := a_mem;
  pb_inv := paging_inv root c0;
  pb_frame := paging_frame root c0;
  pb_room := room;
  pb_oom := Panic "malloc: Allocation hit limit";
  pb_room_mono := room_mono;
  pb_room_inv := room_inv;
  pb_room_frame := room_frame;
  pb_inv_root := fun tab s H => pt_root _ _ _ _ _ (pi_wf _ _ _ _ H);
|}.

(** Both cases of a level: the path is a table afterwards. *)
Lemma paging_level_ok : level_ok paging_level.
Proof.
  intros tab s p t i D Hinv Hp Hlen Hi ->.
  change (pb_inv tab s) with (paging_inv root c0 tab s) in Hinv. cbn [pb_room awd_builder].
  destruct (tab !! (p ++ [i])) as [t'|] eqn:E.
  - assert (dom tab ∪ {[ p ++ [i] ]} = dom tab) as ->.
    { apply elem_of_dom_2 in E. set_solver. }
    rewrite (room_inv _ _ Hinv). exists tab, s, t'.
    rewrite (paging_level_old tab s p t i t') by done.
    split; [done|]. split; [|done]. split; try done.
  - pose proof (paging_level_new tab s p t i Hinv Hp Hlen Hi E) as Hnew. simpl in Hnew.
    assert (room (dom tab ∪ {[ p ++ [i] ]}) s =
      (heap_phys_current (a_heap s) + 4096 <? heap_phys_limit (a_heap s))) as ->.
    { unfold room. rewrite (pi_cur _ _ _ _ Hinv).
      rewrite size_union by (apply not_elem_of_dom in E; set_solver).
      rewrite size_dom, size_singleton. f_equal. lia. }
    destruct (_ <? _); [|done]. destruct Hnew as (s' & H1 & H2 & H3 & H4).
    do 3 eexists. split; [exact H1|]. split; [|apply lookup_insert_eq].
    split; try done. rewrite dom_insert_L. set_solver.
Qed.

(** Writing an entry of a last-level table. *)
Lemma set_leaf_run tab s t va e :
  paging_inv root c0 tab s -> tab !! [idx4 va; idx3 va; idx2 va] = Some t ->
  let s' := set_mem (set_entry (a_mem s) t (idx1 va) e) s in
  paging_inv root c0 tab s' /\ paging_frame root c0 s s' /\
  (forall va', leaf (a_mem s') tab va' =
     if decide (vpage va' = vpage va) then u64 e else leaf (a_mem s) tab va').
Proof.
  intros [Hok Hwf Hc0 Hcur Hbelow Hzero] Ht s'. pose proof (idx1_range va) as Hi.
  destruct (pt_set_leaf 0 LIM32 (a_mem s) tab root va t e Hwf Ht) as [Hwf' Hleaf].
  destruct (Hbelow _ _ Ht) as [H1 H2]. specialize (H2 ltac:(done)).
  split; [|split]; [|split; [|done..]|done].
  - split; try done. intros b Hb. simpl. rewrite mget_set_entry_ne by (simpl in Hb; lia).
    by apply Hzero.
  - intros b Hb. simpl. destruct Hok as (_ & _ & ?). destruct Hc0. apply mget_set_entry_ne; [done|]. lia.
Qed.

Lemma paging_map_page_writes phys virt attr :
  writes_pages (paging_map_page root phys virt attr) [(virt, Z.lor phys attr)].
Proof.
  intros tab s Hinv D. subst D.
  assert (dom tab ∪ tables_of [(virt, Z.lor phys attr)] = dom tab ∪ prefixes virt) as ->
    by (unfold tables_of; simpl; set_solver).
  pose proof (walk3 paging_level tab s virt _ paging_level_ok Hinv eq_refl) as H.
  change (@pb_root awd awd_builder) with root in H. unfold paging_map_page.
  destruct (pb_room _ s).
  - destruct H as (t3 & s1 & t2 & s2 & tab' & t1 & s' & H1 & H2 & H3 & [Gi Gf Gd Gl] & Ht & _).
    destruct (set_leaf_run tab' s' t1 virt (Z.lor phys attr) Gi Ht) as (Hinv' & Hf' & Hl').
    do 2 eexists. split; [|split; [exact Hinv'|split; [|split; [exact Gd|]]]].
    + erewrite bind_done by exact H1. erewrite bind_done by exact H2.
      erewrite bind_done by exact H3. reflexivity.
    + by eapply paging_frame_trans.
    + intros va. cbn [pb_mem awd_builder] in *. rewrite Hl'. simpl. by rewrite Gl.
  - destruct H as [H|(t3 & s1 & tab1 & H1 & _ & _ & [H|(t2 & s2 & tab2 & H2 & _ & _ & H)])].
    + by apply bind_stopped.
    + erewrite bind_done by exact H1. by apply bind_stopped.
    + erewrite bind_done by exact H1. erewrite bind_done by exact H2. by apply bind_stopped.
Qed.

(** ** Sequences of pages *)

Lemma map_region_loop_writes region sz n k fuel :
  0 <= sz <= 2 ^ 64 - 4096 -> n = (sz + 4095) / 4096 -> 0 <= k <= n -> n - k < Z.of_nat fuel ->
  writes_pages (map_region_loop fuel root region sz (4096 * k))
    ((fun k => (virt_start region +64 4096 * k,
                Z.lor (phys_start region +64 4096 * k) (attribute region))) <$> seqZ k (n - k)).
Proof.
  intros Hsz Hn. revert k. induction fuel as [|fuel IH]; intros k Hk Hf; [lia|].
  cbn [map_region_loop]. destruct (4096 * k <? sz) eqn:E.
  - assert (k < n) by lia_div. rewrite seqZ_cons by lia.
    rewrite (u64_small (4096 * k + 4096)) by lia.
    replace (4096 * k + 4096) with (4096 * (k + 1)) by lia.
    replace (Z.succ k) with (k + 1) by lia. replace (Z.pred (n - k)) with (n - (k + 1)) by lia.
    rewrite fmap_cons. apply (writes_pages_bind _ _ [_]); [apply paging_map_page_writes|].
    apply IH; lia.
  - assert (n - k = 0) as -> by lia_div. apply writes_pages_skip.
Qed.

Definition region_bounded (r : awd_mapped_region) : Prop :=
  virt_end r -64 virt_start r <= 2 ^ 64 - 4096.

Lemma map_region_writes r :
  region_bounded r -> writes_pages (map_region root r) (region_pages r).
Proof.
  intros Hb. unfold map_region, region_pages. red in Hb.
  pose proof (u64_range (virt_end r - virt_start r)).
  set (sz := virt_end r -64 virt_start r) in *.
  replace ((sz + 4095) / 4096) with ((sz + 4095) / 4096 - 0) by lia.
  change 0 with (4096 * 0) at 3. apply map_region_loop_writes; lia_div.
Qed.

(** ** Clearing the top level *)

Lemma clear_pml4_spec m :
  (forall i, 0 <= i < 512 -> entry (clear_pml4 root m) root i = 0) /\
  (forall b, b < root \/ root + 4096 <= b -> mget (clear_pml4 root m) b = mget m b).
Proof.
  unfold clear_pml4. apply (for_upto_ind (fun n m' =>
    (forall i, 0 <= i < n -> entry m' root i = 0) /\
    (forall b, b < root \/ root + 4096 <= b -> mget m' b = mget m b))); [lia|split; [lia|done]|].
  intros n m' Hn [H1 H2]. split.
  - intros i Hi. destruct (decide (i = n)) as [->|Hne]; [by rewrite entry_set_eq|].
    rewrite entry_set_ne by lia. apply H1. lia.
  - intros b Hb. rewrite mget_set_entry_ne by lia. by apply H2.
Qed.

(** The state in which [paging_commit] starts building. *)
Record commit_ok (s : awd) : Prop := {
  co_heap : heap_ok (a_heap s);
  co_cur : heap_phys_current (a_heap s) = c0;
  co_root : 0 <= root /\ root mod 4096 = 0 /\ root + 4096 <= c0 /\ c0 mod 4096 = 0;
  co_zero : heap_zero s;
  co_queue : Forall region_bounded (a_queue s);
}.

Lemma commit_start s :
  commit_ok s ->
  paging_inv root c0 {[ [] := root ]} (set_mem (clear_pml4 root (a_mem s)) s) /\
  forall va, leaf (clear_pml4 root (a_mem s)) {[ [] := root ]} va = 0.
Proof.
  intros [Hok Hcur (Hr0 & Hrm & Hrc & Hcm) Hz _].
  destruct (clear_pml4_spec (a_mem s)) as [Hc1 Hc2]. pose proof Hok as (_ & _ & Hl).
  destruct (pt_empty 0 LIM32 (clear_pml4 root (a_mem s)) root) as [Hwf Hleaf].
  { unfold table_ok. rewrite Z.sub_0_r. lia. }
  { done. }
  split; [|done]. split; try done.
  - rewrite map_size_singleton. cbn [a_heap set_mem]. lia.
  - intros p t [<- <-]%lookup_singleton_Some. cbn [a_heap set_mem]. split; [lia|done].
  - intros b Hb. cbn [a_mem a_heap set_mem] in *. rewrite Hc2 by lia. by apply Hz.
Qed.

Lemma paging_commit_run s :
  commit_ok s ->
  let l := queue_pages (a_queue s) in
  if room ({[ [] ]} ∪ tables_of l) s then
    exists s', paging_commit root s = Done (tt, s') /\
      (forall va, mmu_walk 0 (a_mem s') root va = translate_entry (last_write l va 0) va) /\
      (forall b, b < root \/ root + 4096 <= b < c0 \/ heap_phys_limit (a_heap s) <= b ->
         mget (a_mem s') b = mget (a_mem s) b) /\
      heap_ok (a_heap s') /\ a_regions s' = a_regions s /\ a_paging s' = true /\
      heap_phys_current (a_heap s') = c0 + 4096 * (Z.of_nat (size ({[ [] ]} ∪ tables_of l)) - 1) /\
      own_tables root c0 (a_mem s') /\ heap_phys_limit (a_heap s') = heap_phys_limit (a_heap s)
  else paging_commit root s = Stopped (Panic "malloc: Allocation hit limit").
Proof.
  intros Hco l. destruct (commit_start s Hco) as [Hinv Hleaf].
  assert (writes_pages (forM (a_queue s) (map_region root)) l) as Hq.
  { apply writes_pages_forM. intros r Hr. apply map_region_writes.
    pose proof (co_queue _ Hco) as Hb. rewrite Forall_forall in Hb. by apply Hb. }
  specialize (Hq _ _ Hinv). cbv zeta in Hq. rewrite dom_singleton_L in Hq.
  set (D := {[ [] ]} ∪ tables_of l) in *. change (pb_room D _) with (room D s) in Hq.
  destruct (room D s).
  2:{ unfold paging_commit, mbind, ST_bind, gets, modify. cbn [a_queue set_mem]. by rewrite Hq. }
  destruct Hq as (tab' & s' & Hrun & Hinv' & [Hmem Hlim (Hr & _ & _ & _)] & Hdom & Hleaf').
  pose proof (paging_inv_own _ _ _ _ Hinv') as Hown. destruct Hinv' as [Hok Hwf' _ Hcur' _ _].
  eexists. split; [|split; [|split; [|split; [|split; [|split; [|split; [|split]]]]]]].
  - unfold paging_commit, mbind, ST_bind, gets, modify. cbn [a_queue set_mem]. rewrite Hrun.
    reflexivity.
  - intros va. cbn [a_mem set_paging]. pose proof (mmu_walk_wf 0 LIM32 ltac:(lia) _ _ _ va Hwf') as Hw.
    rewrite Z.sub_0_r in Hw. rewrite Hw. cbv zeta. rewrite Hleaf'. cbn [a_mem set_mem].
    by rewrite Hleaf.
  - intros b Hb. cbn [a_mem set_paging]. rewrite Hmem by done. cbn [a_mem set_mem].
    apply clear_pml4_spec. destruct (co_root _ Hco) as (? & ? & ? & ?).
    destruct (co_heap _ Hco) as (_ & _ & ?). rewrite <- (co_cur _ Hco) in *. lia.
  - exact Hok.
  - exact Hr.
  - done.
  - cbn [a_heap set_paging]. rewrite Hcur', <- size_dom, Hdom. done.
  - exact Hown.
  - exact Hlim.
Qed.

End Paging.

(** ** What a queue of regions translates to *)

(** A page-aligned region inside the canonical addresses. *)
Record region_ok (r : awd_mapped_region) (n : Z) : Prop := {
  rk_aligned : virt_start r mod 4096 = 0 /\ phys_start r mod 4096 = 0;
  rk_size : 0 <= n /\ (virt_end r -64 virt_start r + 4095) / 4096 = n;
  rk_virt : 0 <= virt_start r /\ virt_start r + 4096 * n <= 2 ^ 47 \/
    2 ^ 64 - 2 ^ 47 <= virt_start r /\ virt_start r + 4096 * n <= 2 ^ 64;
  rk_phys : 0 <= phys_start r /\ phys_start r + 4096 * n <= 2 ^ 52;
  rk_attr : attribute r = 3;
}.

Definition in_region (r : awd_mapped_region) (n va : Z) : Prop :=
  virt_start r <= va < virt_start r + 4096 * n.

Lemma region_canonical r n : region_ok r n -> canonical_run (virt_start r) n.
Proof. intros [[? _] _ ? _ _]. by split. Qed.

Lemma last_write_region r n va e :
  region_ok r n -> canonical va ->
  last_write (region_pages r) va e =
    if decide (in_region r n va)
    then phys_start r + 4096 * ((va - virt_start r) / 4096) + 3 else e.
Proof.
  intros Hr Hc. pose proof Hr as [[Hva Hpa] [Hn Hsz] Hv Hp Ha].
  change (2 ^ 47) with 140737488355328 in Hv. change (2 ^ 64) with 18446744073709551616 in Hv.
  change (2 ^ 52) with 4503599627370496 in Hp.
  set (f := fun k => if decide (0 <= k < n) then phys_start r + 4096 * k + 3 else 0).
  assert (region_pages r = (fun k => (virt_start r + 4096 * k, f k)) <$> seqZ 0 n) as ->.
  { unfold region_pages. rewrite Hsz. apply list_fmap_ext. intros i k Hk.
    apply list_elem_of_lookup_2, elem_of_seqZ in Hk. unfold f. rewrite decide_True by lia.
    rewrite Ha, (u64_small (virt_start r + 4096 * k)), (u64_small (phys_start r + 4096 * k)) by lia.
    rewrite (lor_aligned 12) by (change (2 ^ 12) with 4096; lia_div). done. }
  rewrite (last_write_run f _ n n); [|by apply region_canonical|done|lia|].
  - unfold in_region. case_decide; [|done]. unfold f. by rewrite decide_True by lia_div.
  - intros k. unfold f. change (2 ^ 64) with 18446744073709551616. case_decide; lia.
Qed.

(** Inside a region, addresses translate by the region's displacement. *)
Lemma translate_region r n va :
  region_ok r n -> in_region r n va ->
  translate_entry (phys_start r + 4096 * ((va - virt_start r) / 4096) + 3) va =
    Some (phys_start r + (va - virt_start r)).
Proof.
  intros [[Hva Hpa] _ Hv Hp _] Hin. unfold in_region in Hin. apply translate_run; (done || lia).
Qed.

(** The abstract address space of a queue: the last region that holds an
    address decides. *)
Definition pages_of (r : awd_mapped_region) : Z :=
  (virt_end r -64 virt_start r + 4095) / 4096.
Definition queue_translate (q : list awd_mapped_region) (va : Z) : option Z :=
  foldl (fun o r => if decide (in_region r (pages_of r) va)
                    then Some (phys_start r + (va - virt_start r)) else o) None q.
Definition good_region (r : awd_mapped_region) : Prop := region_ok r (pages_of r).

Lemma good_region_bounded r : good_region r -> region_bounded r.
Proof.
  intros H. pose proof (proj2 (rk_size _ _ H)) as Hs. pose proof (rk_virt _ _ H) as Hv.
  red. pose proof (u64_range (virt_end r - virt_start r)). unfold pages_of in *.
  change (2 ^ 64) with 18446744073709551616 in *. change (2 ^ 47) with 140737488355328 in *. lia_div.
Qed.

Lemma queue_translate_writes q va :
  Forall good_region q -> canonical va ->
  translate_entry (last_write (queue_pages q) va 0) va = queue_translate q va.
Proof.
  intros Hq Hc. unfold queue_pages, queue_translate.
  assert (translate_entry 0 va = None) as H0 by done.
  revert H0. generalize (0 : Z) (None : option Z). induction Hq as [|r q Hr _ IH]; intros e o He; [done|].
  change ((r :: q) ≫= region_pages) with (region_pages r ++ (q ≫= region_pages)).
  rewrite last_write_app. cbn [foldl]. apply IH. rewrite (last_write_region r _ va e Hr Hc).
  case_decide; [|done]. by apply (translate_region r (pages_of r)).
Qed.

(** The queue [paging_init] builds for the regions and the loaded kernel. *)
Definition boot_queue (r : mem_info) (k : kernel_loaded_info) : list awd_mapped_region :=
  let same g := MappedRegion (rg_start g) (rg_end g) (rg_start g) (rg_end g) 3 in
  let image := memory_image k in
  [same (region_low_memory r); same (region_awd_image r); same (region_awd_malloc r);
   MappedRegion 0 2097152 kernel_mem_base (kernel_mem_base + 2097152) 3;
   MappedRegion (kr_start image) (kr_start image + kr_size image) (kr_start (kl_virt k))
     (u64 (kr_start (kl_virt k) + kr_size image)) 3].

Definition word64 (z : Z) : Prop := 0 <= z < 2 ^ 64.
Definition boot_words (r : mem_info) (k : kernel_loaded_info) : Prop :=
  word64 (rg_start (region_low_memory r)) /\ word64 (rg_end (region_low_memory r)) /\
  word64 (rg_start (region_awd_image r)) /\ word64 (rg_end (region_awd_image r)) /\
  word64 (rg_start (region_awd_malloc r)) /\ word64 (rg_end (region_awd_malloc r)) /\
  word64 (kr_start (memory_image k)) /\ word64 (kr_start (memory_image k) + kr_size (memory_image k)) /\
  word64 (kr_start (kl_virt k)).

Lemma queue_mapping_run s pS pE vS vE :
  (length (a_queue s) < 10)%nat -> word64 pS -> word64 pE -> word64 vS ->
  paging_queue_mapping pS pE vS vE 3 s =
    Done (tt, set_queue (a_queue s ++ [MappedRegion pS pE vS (u64 vE) 3]) s).
Proof.
  unfold word64. change (2 ^ 64) with 18446744073709551616. intros Hl Hp1 Hp2 Hv.
  unfold paging_queue_mapping, mbind, ST_bind, gets, PAGING_QUEUE_MAX.
  assert ((10 <=? Z.of_nat (length (a_queue s))) = false) as -> by lia. cbn [when skip].
  rewrite (u64_small pS), (u64_small pE), (u64_small vS) by lia. done.
Qed.

Lemma queue_print_loop_run i q s :
  exists log, queue_print_loop i q s =
    Done (tt, Awd (a_mem s) (a_heap s) (a_regions s) (a_queue s) (a_paging s) log).
Proof.
  revert i s. induction q as [|r q IH]; intros i s; simpl.
  - exists (a_log s). by destruct s.
  - unfold mbind, ST_bind, awd_log, modify. edestruct IH as [log Hlog]. rewrite Hlog. by eexists.
Qed.

Lemma paging_init_run s k :
  a_queue s = [] -> boot_words (a_regions s) k ->
  exists log, paging_init k s = Done (tt, Awd (a_mem s) (a_heap s) (a_regions s)
                 (boot_queue (a_regions s) k) (a_paging s) log).
Proof.
  intros Hq (H1 & H2 & H3 & H4 & H5 & H6 & H7 & H8 & H9).
  assert (word64 0 /\ word64 2097152 /\ word64 kernel_mem_base) as (W0 & W1 & W2) by done.
  unfold paging_init. unfold mbind at 1, ST_bind at 1, gets, PAGING_ATTRIBUTE_READWRITE.
  do 5 (erewrite bind_done; [|apply queue_mapping_run; try done;
    cbn [a_queue set_queue]; rewrite Hq; simpl; lia]).
  unfold paging_queue_print, mbind, ST_bind, gets, awd_log, modify.
  edestruct queue_print_loop_run as [log Hlog]. rewrite Hlog. exists log.
  cbn [a_mem a_heap a_regions a_queue a_paging set_queue]. rewrite Hq. cbn [app].
  unfold word64 in *. change (2 ^ 64) with 18446744073709551616 in *.
  rewrite !(u64_small (rg_end _)) by lia. done.
Qed.

Lemma queue_translate_app q r va :
  queue_translate (q ++ [r]) va =
    if decide (in_region r (pages_of r) va) then Some (phys_start r + (va - virt_start r))
    else queue_translate q va.
Proof. unfold queue_translate. by rewrite foldl_app. Qed.

Lemma pages_of_size vs size pS pE a :
  word64 vs -> 0 <= size -> size < 2 ^ 64 ->
  pages_of (MappedRegion pS pE vs (u64 (vs + size)) a) = (size + 4095) / 4096.
Proof.
  unfold pages_of, word64, u64. intros. cbn [virt_end virt_start].
  rewrite Zminus_mod_idemp_l. replace (vs + size - vs) with size by lia.
  rewrite Z.mod_small by lia. done.
Qed.

(** Identity regions translate what they hold to itself. *)
Lemma queue_translate_identity q va :
  Forall (fun r => phys_start r = virt_start r) q ->
  (exists r, r ∈ q /\ in_region r (pages_of r) va) -> queue_translate q va = Some va.
Proof.
  intros Hq (r & Hr & Hin). unfold queue_translate.
  assert (forall o, o = Some va \/ (exists r, r ∈ q /\ in_region r (pages_of r) va) ->
    foldl (fun o r => if decide (in_region r (pages_of r) va)
                      then Some (phys_start r + (va - virt_start r)) else o) o q = Some va) as H.
  { clear r Hr Hin. induction Hq as [|r q Hr _ IH]; intros o Ho; simpl.
    - destruct Ho as [?|(? & Hx & _)]; [done|]. by apply elem_of_nil in Hx.
    - apply IH. case_decide as Hd; [left; f_equal; lia|].
      destruct Ho as [?|(r' & Hx & Hin)]; [by left|right].
      apply elem_of_cons in Hx as [->|Hx]; [done|eauto]. }
  apply H. right. eauto.
Qed.

Definition same_region (g : mem_region) : awd_mapped_region :=
  MappedRegion (rg_start g) (rg_end g) (rg_start g) (rg_end g) 3.

Lemma in_same_region g a :
  0 <= rg_start g -> rg_end g < 2 ^ 64 -> rg_start g <= a < rg_end g ->
  in_region (same_region g) (pages_of (same_region g)) a.
Proof.
  change (2 ^ 64) with 18446744073709551616. intros H0 H1 Ha.
  unfold in_region, pages_of, same_region. cbn [virt_start virt_end].
  rewrite u64_small by lia. lia_div.
Qed.

Lemma boot_paging_run (root c0 : Z) (s : awd) (k : kernel_loaded_info)
    (Hempty : a_queue s = []) (Hwords : boot_words (a_regions s) k)
    (Hco : commit_ok root c0 (set_queue (boot_queue (a_regions s) k) s))
    (Hgood : Forall good_region (boot_queue (a_regions s) k))
    (Hsize : 0 <= kr_size (memory_image k) < 2 ^ 64)
    (Hhigh : kernel_mem_base <= kr_start (kl_virt k))
    (Hroom : c0 + 4096 * Z.of_nat (size (tables_of (queue_pages (boot_queue (a_regions s) k))))
               < heap_phys_limit (a_heap s)) :
  let r := a_regions s in
  let v := kr_start (kl_virt k) in
  let image := memory_image k in
  exists s', (paging_init k ;; paging_commit root) s = Done (tt, s') /\
    (forall o, 0 <= o < kr_size image ->
       mmu_walk 0 (a_mem s') root (v + o) = Some (kr_start image + o)) /\
    (forall a, 0 <= a < 2097152 -> kernel_mem_base + a < v \/ v + kr_size image + 4096 <= kernel_mem_base + a ->
       mmu_walk 0 (a_mem s') root (kernel_mem_base + a) = Some a) /\
    (forall g a, g ∈ [region_low_memory r; region_awd_image r; region_awd_malloc r] ->
       rg_start g <= a < rg_end g -> 0 <= rg_start g -> rg_end g < 2 ^ 47 ->
       mmu_walk 0 (a_mem s') root a = Some a) /\
    (forall b, b < root \/ root + 4096 <= b < c0 -> mget (a_mem s') b = mget (a_mem s) b) /\
    a_paging s' = true /\ a_regions s' = a_regions s /\ own_tables root c0 (a_mem s') /\
    c0 <= heap_phys_current (a_heap s') /\ heap_phys_limit (a_heap s') = heap_phys_limit (a_heap s) /\ heap_ok (a_heap s').
Proof.
  intros r v image. destruct (paging_init_run s k Hempty Hwords) as [log Hinit].
  set (s1 := Awd _ _ _ _ _ log) in Hinit.
  assert (commit_ok root c0 s1) as Hco1 by (destruct Hco; by split).
  pose proof (paging_commit_run root c0 s1 Hco1) as H. cbv zeta in H.
  change (a_queue s1) with (boot_queue r k) in H. set (l := queue_pages _) in *.
  assert (room c0 ({[ [] ]} ∪ tables_of l) s1 = true) as Hr.
  { unfold room. change (a_heap s1) with (a_heap s). pose proof (size_add_root (tables_of l)).
    fold r in Hroom. fold l in Hroom. lia. }
  rewrite Hr in H. destruct H as (s' & H1 & H2 & H3 & Hok' & H5 & H6 & Hcur & H7 & H8).
  exists s'. rewrite (bind_done _ _ _ _ _ Hinit). split; [exact H1|].
  assert (forall va, canonical va -> mmu_walk 0 (a_mem s') root va = queue_translate (boot_queue r k) va) as Hw.
  { intros va Hc. rewrite H2. by apply queue_translate_writes. }
  assert (c0 <= heap_phys_current (a_heap s')) as Hc0.
  { pose proof (subseteq_size {[ [] ]} ({[ [] ]} ∪ tables_of l) ltac:(set_solver)) as Hsz.
    rewrite size_singleton in Hsz. lia. }
  clear H1 H2 Hr Hco1 Hinit Hcur. cbn [a_regions s1] in H5. cbn [a_mem s1] in H3.
  change kernel_mem_base with 18446744071562067968 in *.
  pose proof Hwords as (_ & _ & _ & _ & _ & _ & Wi & _ & Wv).
  fold image v in Hsize, Hhigh, Wi, Wv. unfold word64 in Wi, Wv.
  set (last := MappedRegion (kr_start image) (kr_start image + kr_size image) v
                 (u64 (v + kr_size image)) 3).
  assert (pages_of last = (kr_size image + 4095) / 4096) as Hp
    by (apply pages_of_size; (unfold word64; lia)).
  assert (good_region last) as Hlast by (by apply (Forall_lookup_1 _ _ 4%nat _ Hgood)).
  pose proof (rk_virt _ _ Hlast) as Hv. rewrite Hp in Hv. cbn [last virt_start] in Hv.
  change (2 ^ 47) with 140737488355328 in *. change (2 ^ 64) with 18446744073709551616 in *.
  pose proof (fun q va => queue_translate_app q last va) as Happ. rewrite Hp in Happ.
  assert (forall q va, queue_translate (q ++ [last]) va =
    if decide (v <= va < v + 4096 * ((kr_size image + 4095) / 4096))
    then Some (kr_start image + (va - v)) else queue_translate q va) as Hlookup by exact Happ.
  clear Happ.
  set (window := MappedRegion 0 2097152 kernel_mem_base (kernel_mem_base + 2097152) 3).
  assert (boot_queue r k = ((same_region <$> [region_low_memory r; region_awd_image r;
    region_awd_malloc r]) ++ [window]) ++ [last]) as Hq by done.
  setoid_rewrite Hq in Hw. clear Hq.
  assert (pages_of window = 512) as Hwin by done.
  pose proof (queue_translate_app (same_region <$> [region_low_memory r; region_awd_image r;
    region_awd_malloc r]) window) as Hlookup'. rewrite Hwin in Hlookup'.
  assert (forall va, 0 <= va < 140737488355328 \/ 18446603336221196288 <= va < 18446744073709551616 ->
    canonical va) as Hcan by done.
  split; [|split; [|split; [|split; [intros b Hb; apply H3; lia|done]]]].
  - intros o Ho. rewrite Hw by (apply Hcan; right; lia_div).
    rewrite Hlookup, decide_True by lia_div. f_equal. lia.
  - intros a Ha Hout. rewrite Hw by (apply Hcan; right; lia).
    rewrite Hlookup, decide_False by lia_div. rewrite Hlookup', decide_True
      by (unfold in_region; cbn [window virt_start]; unfold kernel_mem_base; lia).
    cbn [window phys_start virt_start]. unfold kernel_mem_base. f_equal. lia.
  - intros g a Hg Ha H0 H47. rewrite Hw by (apply Hcan; left; lia).
    rewrite Hlookup, decide_False by lia. rewrite Hlookup', decide_False
      by (unfold in_region; cbn [window virt_start]; unfold kernel_mem_base; lia).
    apply queue_translate_identity; [by repeat constructor|].
    exists (same_region g). split; [by apply list_elem_of_fmap_2|]. apply in_same_region; lia.
Qed.

(** ** The theorems *)

(** C10. [paging_commit] builds the address space its queue describes.  From a heap
    at a page boundary whose free part is zero, and with room for exactly the
    tables the queued pages need, it returns, the hardware's walk of the new
    tables translates every canonical address as the last queued region that
    holds it says (and faults on the others), paging is on, and no byte outside
    the top-level table and the allocated pages has changed.  Without the room
    it panics. *)
Theorem paging_commit_refines (root c0 : Z) (s : awd)
    (Hco : commit_ok root c0 s) (Hq : Forall good_region (a_queue s)) :
  let D := {[ [] ]} ∪ tables_of (queue_pages (a_queue s)) in
  if c0 + 4096 * (Z.of_nat (size D) - 1) <? heap_phys_limit (a_heap s) then
    exists s', paging_commit root s = Done (tt, s') /\
      (forall va, canonical va -> mmu_walk 0 (a_mem s') root va = queue_translate (a_queue s) va) /\
      (forall b, b < root \/ root + 4096 <= b < c0 \/ heap_phys_limit (a_heap s) <= b ->
         mget (a_mem s') b = mget (a_mem s) b) /\
      a_paging s' = true /\
      heap_phys_current (a_heap s') = c0 + 4096 * (Z.of_nat (size D) - 1)
  else paging_commit root s = Stopped (Panic "malloc: Allocation hit limit").
Proof.
  intros D. pose proof (paging_commit_run root c0 s Hco) as H. cbv zeta in H. fold D in H.
  unfold room in H. destruct (_ <? _); [|done].
  destruct H as (s' & H1 & H2 & H3 & _ & _ & H6 & H7 & _).
  exists s'. split; [done|]. split; [|done].
  intros va Hc. by rewrite H2, queue_translate_writes.
Qed.

(** The address space the kernel is entered with: its image is at its link
    address, the first two megabytes are mapped at 0xffffffff80000000 (where
    the image is not), and the low megabyte, the loader and its heap are mapped
    to themselves. *)
Theorem boot_address_space (root c0 : Z) (s : awd) (k : kernel_loaded_info)
    (Hempty : a_queue s = []) (Hwords : boot_words (a_regions s) k)
    (Hco : commit_ok root c0 (set_queue (boot_queue (a_regions s) k) s))
    (Hgood : Forall good_region (boot_queue (a_regions s) k))
    (Hsize : 0 <= kr_size (memory_image k) < 2 ^ 64)
    (Hhigh : kernel_mem_base <= kr_start (kl_virt k))
    (Hroom : c0 + 4096 * Z.of_nat (size (tables_of (queue_pages (boot_queue (a_regions s) k))))
               < heap_phys_limit (a_heap s)) :
  let r := a_regions s in
  let v := kr_start (kl_virt k) in
  let image := memory_image k in
  exists s', (paging_init k ;; paging_commit root) s = Done (tt, s') /\
    (forall o, 0 <= o < kr_size image ->
       mmu_walk 0 (a_mem s') root (v + o) = Some (kr_start image + o)) /\
    (forall a, 0 <= a < 2097152 -> kernel_mem_base + a < v \/ v + kr_size image + 4096 <= kernel_mem_base + a ->
       mmu_walk 0 (a_mem s') root (kernel_mem_base + a) = Some a) /\
    (forall g a, g ∈ [region_low_memory r; region_awd_image r; region_awd_malloc r] ->
       rg_start g <= a < rg_end g -> 0 <= rg_start g -> rg_end g < 2 ^ 47 ->
       mmu_walk 0 (a_mem s') root a = Some a).
Proof.
  destruct (boot_paging_run root c0 s k Hempty Hwords Hco Hgood Hsize Hhigh Hroom)
    as (s' & H1 & H2 & H3 & H4 & _).
  exists s'. done.
Qed.

(** A loader of two pages at 1 MiB, its heap at 2 MiB behind a kernel image of
    6000 bytes linked at 0xffffffff80100000. *)
Definition boot_sample : awd :=
  Awd ∅ (AllocState 2097152 2105344 (2097152 + 262144) true)
    (MemInfo (MemRegion 0 1048575) (MemRegion 1048576 1056767) no_region
       (MemRegion 2097152 2359295) no_region) [] false [].
Definition boot_kernel : kernel_loaded_info :=
  KLoaded (KRegion 2097152 6000) (KRegion (kernel_mem_base + 1048576) 6000) (kernel_mem_base + 1048576).
Definition boot_sample_queue : list awd_mapped_region := boot_queue (a_regions boot_sample) boot_kernel.

Lemma boot_sample_good : Forall good_region boot_sample_queue.
Proof.
  unfold boot_sample_queue, boot_queue. simpl.
  repeat constructor; cbn -[Z.pow]; first [left; done | right; done | done].
Qed.

Lemma boot_sample_commit : commit_ok 1048576 2105344 (set_queue boot_sample_queue boot_sample).
Proof.
  split; [unfold heap_ok; simpl; split; [done|lia]|done|done| |].
  - intros b _. done.
  - eapply Forall_impl; [exact boot_sample_good|]. apply good_region_bounded.
Qed.

Lemma boot_address_space_witness :
  exists s', (paging_init boot_kernel ;; paging_commit 1048576) boot_sample = Done (tt, s') /\
    mmu_walk 0 (a_mem s') 1048576 (kernel_mem_base + 1048576 + 4100) = Some (2097152 + 4100) /\
    mmu_walk 0 (a_mem s') 1048576 1048580 = Some 1048580.
Proof.
  destruct (boot_address_space 1048576 2105344 boot_sample boot_kernel) as (s' & H1 & H2 & _ & H4).
  - reflexivity.
  - unfold boot_words, word64. repeat split; by vm_compute.
  - exact boot_sample_commit.
  - exact boot_sample_good.
  - simpl. lia.
  - simpl. unfold kernel_mem_base. lia.
  - vm_compute. reflexivity.
  - exists s'. split; [exact H1|]. split.
    + apply (H2 4100). simpl. lia.
    + apply (H4 (MemRegion 1048576 1056767)); [right; left|simpl; lia..].
Defined.

Lemma paging_commit_refines_witness :
  exists s', paging_commit 1048576 (set_queue boot_sample_queue boot_sample) = Done (tt, s') /\
    a_paging s' = true /\ mmu_walk 0 (a_mem s') 1048576 2359296 = None.
Proof.
  pose proof (paging_commit_refines 1048576 2105344 (set_queue boot_sample_queue boot_sample)
    boot_sample_commit boot_sample_good) as H.
  cbv zeta in H. match type of H with if ?b then _ else _ => assert (b = true) as Hb end.
  { vm_compute. reflexivity. }
  rewrite Hb in H. destruct H as (s' & H1 & H2 & _ & H3 & _).
  exists s'. split; [exact H1|]. split; [exact H3|].
  rewrite H2 by (left; lia). vm_compute. reflexivity.
Defined.

(** A table that [paging_map_page] takes from the heap keeps what the memory
    held: with a stray 3 in the page that becomes the last-level table, mapping
    page 0 also maps page 1, which was never asked for. *)
Theorem paging_map_page_dirty_table :
  let m := store64 ∅ (2105344 + 8192 + 8) 3 in
  let s := set_mem m boot_sample in
  mmu_walk 0 m 1048576 4096 = None /\
  exists s', paging_map_page 1048576 0 0 3 s = Done (tt, s') /\
    mmu_walk 0 (a_mem s') 1048576 0 = Some 0 /\
    mmu_walk 0 (a_mem s') 1048576 4096 = Some 0.
Proof.
  intros m s. split; [vm_compute; reflexivity|].
  eexists. split; [vm_compute; reflexivity|]. split; vm_compute; reflexivity.
Qed.

(** An eleventh mapping is written past the end of the queue. *)
Theorem paging_queue_overflow (s : awd) (pS pE vS vE attr : Z)
    (Hfull : length (a_queue s) = 10%nat) :
  paging_queue_mapping pS pE vS vE attr s = Stopped (Fault "paging_queue").
Proof. unfold paging_queue_mapping, mbind, ST_bind, gets. by rewrite Hfull. Qed.

Lemma paging_queue_overflow_witness :
  paging_queue_mapping 0 0 0 0 3 (set_queue (replicate 10 (MappedRegion 0 0 0 0 3)) boot_sample) =
    Stopped (Fault "paging_queue").
Proof. apply paging_queue_overflow. reflexivity. Defined.
