(* ===== verification/AwdMain.v ===== *)
(** The loader as a whole (src/src/awd/main.c, requirements.c, version.c): the
    steps of [awd_main] in the order of the code, and the end-to-end theorem:
    what it hands to the kernel is a machine on which every byte of every LOAD
    segment is found at its link address. *)

From S2P Require Import Prelude Memory AwdAlloc PageTable PageBuilder AwdKernel AwdPaging.
Local Open Scope Z_scope.
Local Open Scope mach_scope.

(** ** Definitions *)

(** info.h: the fields [awd_main] sets; the others stay 0 (.bss). *)
Record awd_info := AwdInfo {
  kernel_phstart : Z; kernel_phsize : Z;
  multiboot_struct : Z; numCPUs : Z;
  ptr_phys_mem_map : Z; ptr_malloc_current : Z; ptr_malloc_limit : Z;
  log_cursor_y : Z;
}.

Definition awd_version_display : ST awd unit :=
  awd_log "African Wild Dog Loader (version 0.0.1.0)" [].

(** [check_cpuid] and [check_longmode] are assembly ([Entry]); their results are
    arguments.  [awd_halt] never returns. *)
Definition awd_cpu_requirements (check_cpuid check_longmode : Z) : ST awd unit :=
  when (check_cpuid =? 0)
    (stop_with (Panic "CPU does not support CPUID. Unable to boot...")) ;;
  when (check_longmode =? 0)
    (stop_with (Panic "CPU does not support longmode. Unable to boot...")).

(** What the linker and the machine provide. *)
Record platform := Platform {
  pf_tag : Z;               (* address of the literal KERNEL_TAG_NAME *)
  pf_phys_start : Z;        (* awd_phys_start, awd_phys_end (link.ld) *)
  pf_phys_end : Z;
  pf_pml4 : Z;              (* paging_pml4 *)
  pf_cpuid : Z;
  pf_longmode : Z;
  pf_cursor : Z;            (* console_get_y() at the end *)
}.

(** The result is the configuration structure and the address [kernel_enter]
    jumps to. *)
Definition awd_main (p : platform) (mb_magic mb_struct : Z) : ST awd (awd_info * Z) :=
  init_console ;;
  awd_version_display ;;
  multiboot_verify mb_magic ;;
  awd_cpu_requirements (pf_cpuid p) (pf_longmode p) ;;
  memory_init (pf_phys_start p) (pf_phys_end p) ;;
  kernel_info ← multiboot_analyse (pf_tag p) mb_struct;
  kernel_info' ← kernel_analyse kernel_info;
  r ← gets a_regions;
  memory_heap_init (PAGE_ROUND_UP (rg_end (region_multiboot_files r))) ;;
  kernel_loaded_info ← kernel_load kernel_info';
  paging_init kernel_loaded_info ;;
  paging_commit (pf_pml4 p) ;;
  memory_regions_print ;;
  current ← alloc_get_current;
  limit ← alloc_get_limit;
  mret (AwdInfo 0 0 (u32 mb_struct) 0 0 (u32 current) (u32 limit) (pf_cursor p),
        virtual_entry kernel_loaded_info).

(** ** A bootable machine *)

Section Boot.
Variables (p : platform) (mb md : Z) (m : mem).



Definition kernel_size : Z := sum_sizes m (mod_start m md) (load_headers m (mod_start m md)).
Definition kernel_virt : Z := min_vaddr m (mod_start m md) (load_headers m (mod_start m md)).
(** The heap starts at the first page behind the kernel's module. *)
Definition heap_base : Z := round_up (mod_end m md) 4096.
(** The page tables start behind the kernel's memory image. *)
Definition tables_base : Z := heap_base + kernel_size.

Definition main_regions : mem_info :=
  MemInfo (MemRegion 0 1048575)
    (MemRegion (pf_phys_start p) (round_up (pf_phys_end p) 4096 - 1))
    no_region (MemRegion heap_base (heap_base + 262143)) no_region.
Definition main_kernel (entry : Z) : kernel_loaded_info :=
  KLoaded (KRegion heap_base kernel_size) (KRegion kernel_virt kernel_size) entry.
Definition main_queue : list awd_mapped_region := boot_queue main_regions (main_kernel 0).

Record boot_ok (names : list (list Z)) (s : awd) : Prop := {
  bo_mem : a_mem s = m /\ a_queue s = [];
  bo_cpu : pf_cpuid p <> 0 /\ pf_longmode p <> 0;
  bo_modules : modules_ok (pf_tag p) names (mods_addr m mb) s /\
    mods_count m mb = Z.of_nat (length names) /\
    first_kernel names (mods_addr m mb) = Some md /\ md <> 0;
  bo_elf : elf_check m (mod_start m md) = true;
  bo_image : image_ok m (mod_start m md) (mod_end m md - mod_start m md) kernel_virt kernel_size;
  bo_virt : kernel_virt mod 4096 = 0 /\ kernel_mem_base <= kernel_virt /\
    kernel_virt + kernel_size < 2 ^ 64;
  bo_awd : 0 <= pf_phys_start p < pf_phys_end p /\ pf_phys_start p mod 4096 = 0 /\
    pf_phys_end p <= heap_base;
  bo_pml4 : 0 <= pf_pml4 p /\ pf_pml4 p mod 4096 = 0 /\ pf_pml4 p + 4096 <= heap_base;
  bo_heap : heap_base + 262144 <= 4294967296;
  bo_zero : forall b, heap_base <= b < heap_base + 262144 -> mget m b = 0;
  bo_room : tables_base + 4096 * Z.of_nat (size (tables_of (queue_pages main_queue)))
    < heap_base + 262144;
}.

Lemma sum_sizes_mod h l : sum_sizes m h l mod 4096 = 0.
Proof.
  induction l as [|i l IH]; [done|]. simpl.
  destruct (round_up_spec (u32 (p_memsz m (phdr m h i))) 4096 ltac:(lia)) as [_ Hr]. lia_div.
Qed.

Lemma page_round_up_end : 0 <= mod_end m md < 4294967296.
Proof. unfold mod_end. apply load32_range. Qed.

(** What [kernel_load] leaves is what the page tables are built from. *)
Lemma main_commit_ok names s s1 :
  boot_ok names s ->
  loaded m (mod_start m md) (mod_end m md - mod_start m md) kernel_virt heap_base
    (e_phnum m (mod_start m md)) (a_mem s1) ->
  a_heap s1 = AllocState heap_base tables_base (heap_base + 262144) true ->
  a_queue s1 = main_queue ->
  commit_ok (pf_pml4 p) tables_base s1 /\
  Forall good_region main_queue.
Proof.
  intros Hb Hl Hheap Hqueue. destruct Hb as [_ _ _ _ Himg (Hv1 & Hv2 & Hv3) (Ha1 & Ha2 & Ha3) (Hp1 & Hp2 & Hp3) Hh Hz Hroom].
  pose proof (im_size _ _ _ _ _ Himg) as Hsz.
  pose proof (sum_sizes_mod (mod_start m md) (load_headers m (mod_start m md))) as Hsm. fold kernel_size in Hsm.
  destruct (round_up_spec (mod_end m md) 4096 ltac:(lia)) as [Hhb1 Hhb2]. fold heap_base in Hhb1, Hhb2.
  pose proof page_round_up_end as He.
  destruct (round_up_spec (pf_phys_end p) 4096 ltac:(lia)) as [Hpe1 Hpe2].
  change (2 ^ 64) with 18446744073709551616 in *. unfold kernel_mem_base in *.
  assert (Forall good_region main_queue) as Hgood.
  { unfold main_queue, boot_queue, main_regions, main_kernel. cbn -[Z.pow round_up Z.modulo].
    unfold good_region. repeat apply Forall_cons_2; [..|apply Forall_nil_2].
    - split; done || (left; done).
    - split; unfold pages_of; cbn [virt_start virt_end phys_start attribute]; try done;
        rewrite ?(u64_small (round_up _ _ - 1 - _)) by lia;
        change (2 ^ 47) with 140737488355328; change (2 ^ 52) with 4503599627370496; lia_div.
    - split; unfold pages_of; cbn [virt_start virt_end phys_start attribute]; try done;
        rewrite ?(u64_small (heap_base + 262143 - _)) by lia;
        change (2 ^ 47) with 140737488355328; change (2 ^ 52) with 4503599627370496; lia_div.
    - split; done || (right; done).
    - split; unfold pages_of; cbn [virt_start virt_end phys_start attribute]; try done;
        rewrite ?(u64_small (kernel_virt + kernel_size)) by lia;
        rewrite ?(u64_small (kernel_virt + kernel_size - _)) by lia;
        change (2 ^ 47) with 140737488355328; change (2 ^ 52) with 4503599627370496;
        change (2 ^ 64) with 18446744073709551616; lia_div. }
  split; [|done]. split; unfold heap_zero; rewrite ?Hheap, ?Hqueue; cbn [heap_phys_current heap_phys_limit].
  - unfold heap_ok, tables_base in *. cbn. split; [done|]. lia.
  - done.
  - unfold tables_base. repeat split; lia_div.
  - intros b Hb. destruct Hl as (_ & _ & Hrest). rewrite Hrest; [apply Hz; unfold tables_base in *; lia|].
    intros i _ [Hld Hc]. destruct (im_virt _ _ _ _ _ Himg i Hld) as [Hi1 Hi2].
    unfold tables_base in Hb. lia.
  - eapply Forall_impl; [exact Hgood|]. apply good_region_bounded.
Qed.

Lemma round_up_pred x : 0 < round_up x 4096 -> 0 <= x -> round_up (round_up x 4096 - 1) 4096 = round_up x 4096.
Proof.
  intros H0 Hx. destruct (round_up_spec x 4096 ltac:(lia)) as [H1 H2].
  destruct (round_up_spec (round_up x 4096 - 1) 4096 ltac:(lia)) as [H3 H4]. lia_div.
Qed.

(** The loader up to the loaded kernel. *)
Lemma main_load_run names s :
  boot_ok names s ->
  exists s1, loaded m (mod_start m md) (mod_end m md - mod_start m md) kernel_virt heap_base
      (e_phnum m (mod_start m md)) (a_mem s1) /\
    a_heap s1 = AllocState heap_base tables_base (heap_base + 262144) true /\
    a_queue s1 = [] /\ boot_queue (a_regions s1) (main_kernel (e_entry m (mod_start m md))) = main_queue /\
    awd_main p 732803074 mb s =
      (paging_init (main_kernel (e_entry m (mod_start m md))) ;;
       paging_commit (pf_pml4 p) ;;
       memory_regions_print ;;
       current ← alloc_get_current;
       limit ← alloc_get_limit;
       mret (AwdInfo 0 0 (u32 mb) 0 0 (u32 current) (u32 limit) (pf_cursor p),
             e_entry m (mod_start m md))) s1.
Proof.
  intros [[Hm Hq] [Hc1 Hc2] (Hmod & Hcnt & Hfk & Hmd) Helf Himg _ Hawd _ Hh _ Hroom].
  pose proof page_round_up_end as He. pose proof (im_range _ _ _ _ _ Himg) as Hr.
  destruct (round_up_spec (mod_end m md) 4096 ltac:(lia)) as [Hhb1 Hhb2]. fold heap_base in Hhb1, Hhb2.
  assert (PAGE_ROUND_UP (PAGE_ROUND_UP (mod_end m md) -64 1) = heap_base) as Hpru.
  { rewrite (page_round_up_spec (mod_end m md)) by lia. fold heap_base.
    rewrite u64_small, page_round_up_spec by lia. apply round_up_pred; fold heap_base; lia. }
  unfold awd_main. do 2 erewrite bind_done by reflexivity.
  unfold multiboot_verify. erewrite bind_done by reflexivity.
  unfold awd_cpu_requirements. erewrite bind_done; cycle 1.
  { assert ((pf_cpuid p =? 0) = false) as -> by lia.
    assert ((pf_longmode p =? 0) = false) as -> by lia. reflexivity. }
  erewrite bind_done by reflexivity.
  match goal with |- context [(multiboot_analyse _ _ ≫= _) ?st] => set (s2 := st) end.
  assert (a_mem s2 = m) as Hm2 by done.
  pose proof (multiboot_analyse_run s2 (pf_tag p) mb names) as Hrun.
  rewrite Hm2, Hfk in Hrun. specialize (Hrun Hmod Hcnt Hmd).
  destruct Hrun as (s3 & Hrun3 & Hm3 & Hh3 & Hq3 & Hlow3 & Himg3 & Hfile3).
  rewrite (bind_done _ _ _ _ _ Hrun3).
  destruct (kernel_analyse_run (KInfo (mod_start m md) (mod_end m md) no_kregion no_kregion) s3)
    as (s4 & Hrun4 & Hm4 & Hh4 & Hr4 & Hq4).
  { by rewrite Hm3. }
  rewrite Hm3 in Hrun4. cbn [image_start image_end] in Hrun4.
  fold (kernel_virt) (kernel_size) in Hrun4.
  rewrite (bind_done _ _ _ _ _ Hrun4).
  unfold mbind at 1, ST_bind at 1, gets. rewrite Hr4, Hfile3. cbn [rg_end]. rewrite Hpru.
  erewrite bind_done by reflexivity.
  match goal with |- context [(kernel_load _ ≫= _) ?st] => set (s5 := st) end.
  assert (a_heap s5 = AllocState heap_base heap_base (heap_base + 262144) true) as Hh5.
  { unfold s5. cbn. rewrite u64_small; [done|]. unfold AWD_ALLOC_SIZE, PAGE_SIZE. lia. }
  assert (a_mem s5 = m) as Hm5 by (unfold s5; cbn; congruence).
  assert (round_up heap_base 4096 = heap_base) as Hrb by (unfold round_up; by rewrite Hhb2).
  pose proof (im_size _ _ _ _ _ Himg) as Hsz.
  destruct (kernel_load_run s5 (KInfo (mod_start m md) (mod_end m md)
    (KRegion (min_file m (mod_start m md) (load_headers m (mod_start m md))) kernel_size)
    (KRegion kernel_virt kernel_size)) (mod_end m md - mod_start m md))
    as (s6 & Hrun6 & Hl6 & Hh6 & (Hlow6 & Himg6 & Hmal6) & Hq6).
  { rewrite Hh5. unfold heap_ok. simpl. split; [done|lia]. }
  { rewrite Hm5. done. }
  { rewrite Hh5. cbn [heap_phys_current image_start]. lia. }
  { rewrite Hh5. cbn [heap_phys_current heap_phys_limit ki_phys kr_size]. rewrite Hrb.
    unfold tables_base in Hroom. lia. }
  rewrite (bind_done _ _ _ _ _ Hrun6). rewrite Hh5, Hm5 in *.
  cbn [heap_phys_current image_start ki_virt ki_phys kr_start kr_size set_current
       heap_phys_base heap_phys_limit alloc_enabled] in *. rewrite Hrb in *.
  exists s6. split; [done|]. split; [done|]. split; [|split; [|reflexivity]].
  - rewrite Hq6. unfold s5. cbn. rewrite Hq4, Hq3. done.
  - unfold main_queue, boot_queue. rewrite Hlow6, Himg6, Hmal6. unfold s5. cbn -[round_up PAGE_ROUND_UP u64].
    rewrite Hr4, Hlow3, Himg3. unfold s2. cbn -[round_up PAGE_ROUND_UP u64].
    rewrite (page_round_up_spec (pf_phys_end p)) by lia.
    destruct (round_up_spec (pf_phys_end p) 4096 ltac:(lia)) as [Hpe _].
    rewrite (u64_small (round_up (pf_phys_end p) 4096 - 1)) by lia.
    unfold AWD_ALLOC_SIZE, PAGE_SIZE. rewrite (u64_small (heap_base + 64 * 4096)), (u64_small (_ - 1)) by lia.
    replace (heap_base + 64 * 4096 - 1) with (heap_base + 262143) by lia. done.
Qed.

Lemma queue_awd_image r k :
  boot_queue r k = main_queue ->
  rg_start (region_awd_image r) = pf_phys_start p /\
  rg_end (region_awd_image r) = round_up (pf_phys_end p) 4096 - 1.
Proof.
  set (d := MappedRegion 0 0 0 0 0). intros H. split.
  - exact (f_equal (fun l => phys_start (nth 1 l d)) H).
  - exact (f_equal (fun l => phys_end (nth 1 l d)) H).
Qed.

(** The loader to the end. *)
Lemma awd_main_run names s :
  boot_ok names s ->
  exists s' info, awd_main p 732803074 mb s = Done ((info, e_entry m (mod_start m md)), s') /\
    a_paging s' = true /\
    (forall i o, is_load m (mod_start m md) i -> 0 <= o < p_filesz m (phdr m (mod_start m md) i) ->
       exists pa, mmu_walk 0 (a_mem s') (pf_pml4 p) (p_vaddr m (phdr m (mod_start m md) i) + o) = Some pa /\
         mget (a_mem s') pa = mget m (mod_start m md + p_offset m (phdr m (mod_start m md) i) + o)) /\
    (forall o, 0 <= o < kernel_size ->
       mmu_walk 0 (a_mem s') (pf_pml4 p) (kernel_virt + o) = Some (heap_base + o)) /\
    (forall a, 0 <= a < 2097152 ->
       kernel_mem_base + a < kernel_virt \/ kernel_virt + kernel_size + 4096 <= kernel_mem_base + a ->
       mmu_walk 0 (a_mem s') (pf_pml4 p) (kernel_mem_base + a) = Some a) /\
    (forall a, pf_phys_start p <= a < round_up (pf_phys_end p) 4096 - 1 ->
       mmu_walk 0 (a_mem s') (pf_pml4 p) a = Some a) /\
    (forall b, b < pf_pml4 p \/ pf_pml4 p + 4096 <= b < heap_base -> mget (a_mem s') b = mget m b) /\
    own_tables (pf_pml4 p) tables_base (a_mem s') /\
    tables_base <= ptr_malloc_current info < heap_base + 262144 /\
    ptr_malloc_limit info = u32 (heap_base + 262144).
Proof.
  intros Hb. destruct (main_load_run names s Hb) as (s1 & Hl & Hh & Hq & Hbq & Hrun).
  set (entry := e_entry m (mod_start m md)) in *.
  destruct (main_commit_ok names s (set_queue main_queue s1) Hb Hl Hh eq_refl) as [Hco Hgood].
  destruct Hb as [_ _ _ _ Himg (Hv1 & Hv2 & Hv3) (Ha1 & Ha2 & Ha3) (Hp1 & Hp2 & Hp3) Hbh _ Hroom].
  pose proof (im_size _ _ _ _ _ Himg) as Hsz. pose proof (im_vstart _ _ _ _ _ Himg) as Hvs.
  pose proof page_round_up_end as He.
  destruct (round_up_spec (mod_end m md) 4096 ltac:(lia)) as [Hhb1 _]. fold heap_base in Hhb1.
  change (2 ^ 64) with 18446744073709551616 in *.
  assert (kernel_mem_base = 18446744071562067968) as Hk by done. rewrite Hk in Hv2.
  rewrite <- Hbq in Hco, Hgood, Hroom.
  destruct (boot_paging_run (pf_pml4 p) tables_base s1 (main_kernel entry) Hq)
    as (s2 & Hrun2 & Himage & Hwindow & Hident & Hkeep & Hpag & _ & Hown & Hcur & Hlim & Hok); try done.
  - pose proof Hbq as Hw. unfold main_queue, boot_queue, main_regions in Hw.
    cbn [rg_start rg_end region_low_memory region_awd_image region_awd_malloc] in Hw. injection Hw; intros. unfold boot_words, word64.
    destruct (round_up_spec (pf_phys_end p) 4096 ltac:(lia)) as [Hpe _].
    cbn [memory_image kl_virt kr_start kr_size main_kernel].
    change (2 ^ 64) with 18446744073709551616. lia.
  - cbn [main_kernel memory_image kr_size]. change (2 ^ 64) with 18446744073709551616. lia.
  - rewrite Hh. exact Hroom.
  - cbn [main_kernel memory_image kl_virt kr_start kr_size] in Himage.
    destruct (memory_regions_print_logs s2) as [log Hlog].
    exists (with_log s2 log). eexists. split; [|split; [|split; [|split; [|split; [|split; [|split]]]]]].
    + etransitivity; [exact Hrun|]. etransitivity; [eapply seq_done; exact Hrun2|].
      cbv beta. rewrite (bind_done _ _ _ _ _ Hlog). reflexivity.
    + exact Hpag.
    + intros i o Hi Ho. destruct (im_virt _ _ _ _ _ Himg i Hi) as [Hi1 Hi2].
      exists (heap_base + (p_vaddr m (phdr m (mod_start m md) i) - kernel_virt + o)). split.
      * cbn [a_mem]. rewrite <- Himage by lia. f_equal. lia.
      * cbn [a_mem]. rewrite Hkeep by (unfold tables_base; lia).
        destruct Hl as (_ & Hseg & _). rewrite (Hseg i); [f_equal; lia|apply Hi|].
        split; [done|]. lia.
    + intros o Ho. cbn [a_mem]. by apply Himage.
    + exact Hwindow.
    + intros a Ha. destruct (queue_awd_image _ _ Hbq) as [Es Ee]. cbn [a_mem].
      destruct (round_up_spec (pf_phys_end p) 4096 ltac:(lia)) as [Hpe _].
      apply (Hident (region_awd_image (a_regions s1))); [right; left|..]; rewrite ?Es, ?Ee;
        change (2 ^ 47) with 140737488355328; lia.
    + intros b Hb. cbn [a_mem]. rewrite Hkeep by (unfold tables_base; lia).
      destruct Hl as (_ & _ & Hrest). apply Hrest. intros i _ [Hld Hc].
      destruct (im_virt _ _ _ _ _ Himg i Hld). lia.
    + split; [exact Hown|]. rewrite Hh in Hlim. cbn [heap_phys_limit] in Hlim.
      destruct Hok as (_ & _ & Hok). cbn [ptr_malloc_current ptr_malloc_limit a_heap with_log]. rewrite Hlim in *.
      rewrite u32_small by (unfold tables_base in *; lia). split; [lia|done].
Qed.

End Boot.

(** The configuration block. *)
Lemma awd_main_block p magic mb a block entry a' :
  awd_main p magic mb a = Done ((block, entry), a') ->
  exists current limit, block = AwdInfo 0 0 (u32 mb) 0 0 (u32 current) (u32 limit) (pf_cursor p).
Proof.
  unfold awd_main. intros H.
  repeat (apply bind_done_inv in H as (? & ? & _ & H); cbv beta in H). injection H as <- <- <-. eauto.
Qed.

(** ** The theorem *)

(** C8. From a multiboot machine with a module called "kernel" that holds a
    well-formed ELF64 executable and with enough clean memory behind it,
    [awd_main] reaches the kernel: it returns the entry point of the ELF header,
    paging is on, and walking the tables it built the kernel finds every byte of
    every LOAD segment at its link address.  A wrong multiboot magic, and a
    processor without CPUID or long mode, stop the boot. *)
Theorem awd_main_boots (p : platform) (mb md : Z) (m : mem) (names : list (list Z)) (s : awd)
    (Hboot : boot_ok p mb md m names s) :
  let h := mod_start m md in
  (exists s' info, awd_main p 732803074 mb s = Done ((info, e_entry m h), s') /\
    a_paging s' = true /\
    (forall i o, is_load m h i -> 0 <= o < p_filesz m (phdr m h i) ->
       exists pa, mmu_walk 0 (a_mem s') (pf_pml4 p) (p_vaddr m (phdr m h i) + o) = Some pa /\
         mget (a_mem s') pa = mget m (h + p_offset m (phdr m h i) + o))) /\
  (forall magic, magic <> 732803074 -> awd_main p magic mb s =
     Stopped (Panic "multiboot: Multiboot loading failed (magic is incorrect). Halting.")) /\
  (forall p', pf_cpuid p' = 0 -> awd_main p' 732803074 mb s =
     Stopped (Panic "CPU does not support CPUID. Unable to boot...")) /\
  (forall p', pf_cpuid p' <> 0 -> pf_longmode p' = 0 -> awd_main p' 732803074 mb s =
     Stopped (Panic "CPU does not support longmode. Unable to boot...")).
Proof.
  intros h. split; [|split; [|split]].
  - destruct (awd_main_run p mb md m names s Hboot) as (s' & info & H1 & H2 & H3 & _).
    by exists s', info.
  - intros magic Hmagic. unfold awd_main, mbind, ST_bind, multiboot_verify.
    assert ((magic =? 732803074) = false) as -> by lia. done.
  - intros p' H. unfold awd_main, mbind, ST_bind, awd_cpu_requirements. rewrite H. done.
  - intros p' H0 H. unfold awd_main, mbind, ST_bind, awd_cpu_requirements. rewrite H.
    assert ((pf_cpuid p' =? 0) = false) as -> by lia. done.
Qed.

(** A machine: the tag at 4096, the module list at 8192, the multiboot structure
    at 16384, the loader at 1 MiB with its descriptor table in its second page,
    and at 2 MiB the kernel's ELF file, whose segment starts with a descriptor
    table and whose entry is behind it. *)
Definition loader_table : list Z :=
  [0; 0; 0; 0; 0; 0; 0; 0; 0; 0; 0; 0; 0; 152; 32; 0; 0; 0; 0; 0; 0; 146; 0; 0; 23; 0; 0; 16; 16; 0; 0; 0; 0; 0].
Definition kernel_table : list Z :=
  [255; 255; 0; 0; 0; 0; 1; 0; 0; 0; 0; 0; 0; 154; 175; 0; 0; 0; 0; 0; 0; 146; 0; 0; 0; 0; 0; 0; 0; 250; 175; 0;
   0; 0; 0; 0; 0; 242; 0; 0; 39; 0; 0; 0; 32; 128; 255; 255; 255; 255].
Definition boot_file : list (Z * Z * Z * Z) := [(kernel_mem_base + 2097152, 256, 50, 8000)].
Definition boot_memory : mem :=
  poke (poke (poke (poke (poke (sample_elf 2097152 boot_file kernel_table)
    4096 [107; 101; 114; 110; 101; 108; 0])
    8192 [0; 0; 32; 0; 50; 1; 32; 0; 0; 16; 0; 0])
    16384 (replicate 20 0 ++ [1; 0; 0; 0; 0; 32; 0; 0]))
    1052672 loader_table)
    2097176 (le64 (kernel_mem_base + 2097216)).
Definition boot_platform : platform := Platform 4096 1048576 1056768 1048576 1 1 10.
Definition boot_machine : awd :=
  Awd boot_memory (AllocState 0 0 0 false) no_regions [] false [].

Lemma boot_machine_ok : boot_ok boot_platform 16384 8192 boot_memory [KERNEL_TAG_NAME] boot_machine.
Proof.
  assert (forall i, 0 <= i < e_phnum boot_memory 2097152 -> i = 0) as H0.
  { intros i. change (e_phnum boot_memory 2097152) with 1. lia. }
  assert (cstring boot_memory 4096 KERNEL_TAG_NAME) as Hc.
  { split; [repeat constructor; unfold byte_ok; lia|]. split; [|by vm_compute].
    intros [|[|[|[|[|[|i]]]]]] b; simpl; intros [= <-]; by vm_compute. }
  assert (mod_cmdline boot_memory (module_at (mods_addr boot_memory 16384) (Z.of_nat 0)) = 4096)
    as Hcmd by (vm_compute; reflexivity).
  assert (mod_start boot_memory 8192 = 2097152 /\ mod_end boot_memory 8192 = 2097458) as [Hs He]
    by (split; by vm_compute).
  assert (kernel_size 8192 boot_memory = 8192 /\
    kernel_virt 8192 boot_memory = kernel_mem_base + 2097152) as [Hsz Hv] by (split; by vm_compute).
  assert (heap_base 8192 boot_memory = 2101248) as Hb by (by vm_compute).
  split; rewrite ?Hsz, ?Hv, ?Hb, ?Hs, ?He.
  - split; reflexivity.
  - split; discriminate.
  - split; [|split; [|split]]; [|vm_compute; reflexivity|vm_compute; reflexivity|lia].
    split; [exact Hc|]. intros i name Hi. destruct i as [|i]; [|discriminate Hi].
    injection Hi as <-. change (a_mem boot_machine) with boot_memory. rewrite Hcmd. exact Hc.
  - vm_compute. reflexivity.
  - split.
    + lia.
    + lia.
    + unfold kernel_mem_base. lia.
    + intros i Hi. rewrite (H0 i Hi). vm_compute. split; discriminate.
    + intros i [Hi _]. rewrite (H0 i Hi). vm_compute. discriminate.
    + intros i [Hi _]. rewrite (H0 i Hi). vm_compute. split; discriminate.
    + intros i j [Hj _] [Hk _] []. by rewrite (H0 i Hj), (H0 j Hk).
  - vm_compute. repeat split; discriminate.
  - vm_compute. repeat split; discriminate.
  - vm_compute. repeat split; discriminate.
  - lia.
  - intros b Hr. unfold boot_memory, sample_elf.
    repeat rewrite mget_poke_ne by (right; vm_compute (Z.of_nat _); lia).
    reflexivity.
  - vm_compute. reflexivity.
Qed.

Lemma awd_main_boots_witness :
  exists s' info, awd_main boot_platform 732803074 16384 boot_machine =
      Done ((info, e_entry boot_memory 2097152), s') /\ a_paging s' = true /\
    exists pa, mmu_walk 0 (a_mem s') 1048576 (kernel_mem_base + 2097152 + 13) = Some pa /\
      mget (a_mem s') pa = 154.
Proof.
  assert (mod_start boot_memory 8192 = 2097152) as Hs by (vm_compute; reflexivity).
  assert (p_vaddr boot_memory (phdr boot_memory 2097152 0) = kernel_mem_base + 2097152) as Hv
    by (vm_compute; reflexivity).
  assert (mget boot_memory (2097152 + p_offset boot_memory (phdr boot_memory 2097152 0) + 13) = 154)
    as Hbyte by (vm_compute; reflexivity).
  assert (is_load boot_memory 2097152 0 /\ 0 <= 13 < p_filesz boot_memory (phdr boot_memory 2097152 0))
    as [Hl Hf] by (split; [split|]; vm_compute; [split; [discriminate|reflexivity]|reflexivity|
                           split; [discriminate|reflexivity]]).
  destruct (awd_main_boots boot_platform 16384 8192 boot_memory [KERNEL_TAG_NAME] boot_machine
    boot_machine_ok) as [(s' & info & H1 & H2 & H3) _].
  rewrite Hs in H1, H3. exists s', info. split; [exact H1|]. split; [exact H2|].
  destruct (H3 0 13 Hl Hf) as (pa & Hw & Hb). rewrite Hv in Hw. rewrite Hbyte in Hb.
  exists pa. split; [exact Hw|exact Hb].
Defined.
