(* ===== verification/Entry.v ===== *)
(** The way into both programs, in assembly: the multiboot header and the entry
    of AWD (src/src/awd/boot), its tests of the processor (awd/check), the
    switch to long mode (awd/memory/paging_enable.s), the jump to the kernel
    (awd/kernel/enter.s), and the entry of the kernel (lobo/arch/x86_64/
    boot_awd.s, crti.s, crtn.s) with its descriptor table (gdt.s). *)

From S2P Require Import Prelude Memory GdtUtil Processor AwdAlloc PageTable PageBuilder AwdKernel AwdPaging AwdMain.
Local Open Scope Z_scope.
Local Open Scope mach_scope.

(** ** multiboot.s *)

Definition MBALIGN : Z := Z.shiftl 1 0.
Definition MEMINFO : Z := Z.shiftl 1 1.
Definition MB_FLAGS : Z := Z.lor MBALIGN MEMINFO.
Definition MAGIC : Z := 464367618.
Definition CHECKSUM : Z := - (MAGIC + MB_FLAGS).
Definition multiboot_header : list Z := dd MAGIC ++ dd MB_FLAGS ++ dd CHECKSUM.

(** ** The two descriptor tables *)

Definition with_pointer (table : list Z) (gdt64 : Z) : list Z :=
  table ++ dw (Z.of_nat (length table) - 1) ++ dq gdt64.

(** enter.s *)
Definition awd_gdt64 (gdt64 : Z) : list Z :=
  with_pointer
    (dq 0 ++
     dq (Z.lor (Z.shiftl 1 43) (Z.lor (Z.shiftl 1 44) (Z.lor (Z.shiftl 1 47) (Z.shiftl 1 53)))) ++
     dq (Z.lor (Z.shiftl 1 44) (Z.lor (Z.shiftl 1 47) (Z.shiftl 1 41)))) gdt64.

(** gdt.s; the bytes of access and granularity are written in binary there. *)
Definition segment (limit access granularity : Z) : list Z :=
  dw limit ++ dw 0 ++ db 0 ++ db access ++ db granularity ++ db 0.
Definition kernel_gdt64 (gdt64 : Z) : list Z :=
  with_pointer
    (segment 65535 0 1 ++ segment 0 154 175 ++ segment 0 146 0 ++
     segment 0 250 175 ++ segment 0 242 0) gdt64.

(** ** Where the linkers put things

    Addresses in AWD, then in the kernel; [ret_init] and [ret_early] are those
    behind the calls of boot_awd.s. *)

Record places := Places {
  awd_stack_top : Z; ret_main : Z; paging_pml4 : Z;
  awd_gdt : Z; entry_cell : Z; info : Z;
  kernel_start_at : Z; kernel_stack_top : Z; kernel_gdt : Z;
  ret_init : Z; ret_early : Z
}.

Section Code.
Context {C : Cpu} (p : places).

(** boot.s, up to the first instruction of [awd_main]. *)
Definition awd_start : ST proc unit :=
  cli ;;
  mov RSP (awd_stack_top p) ;;
  mov RBP (awd_stack_top p) ;;
  ebx ← rd RBX; push32 ebx ;;
  eax ← rd RAX; push32 eax ;;
  push32 (ret_main p).

(** The [n]th argument of a function that has just been called. *)
Definition cdecl_arg (n : Z) (s : proc) : Z := load32 (p_mem s) (p_reg s RSP + 4 + 4 * n).

(** cpuid.s; the result is in EAX. *)
Definition check_cpuid : ST proc Z :=
  pushfd ;;
  pop32 RAX ;;
  copy RCX RAX ;;
  eax ← rd RAX; alu RAX (Z.lxor eax (Z.shiftl 1 21)) ;;
  eax ← rd RAX; push32 eax ;;
  popfd ;;
  pushfd ;;
  pop32 RAX ;;
  ecx ← rd RCX; push32 ecx ;;
  popfd ;;
  eax ← rd RAX; ecx ← rd RCX; set_status (eax -32 ecx) ;;
  (if eax =? ecx then mov RAX 0 else mov RAX 1) ;;
  rd RAX.

(** longmode.s *)
Definition check_longmode : ST proc Z :=
  mov RAX 2147483648 ;;
  cpuid ;;
  eax ← rd RAX; set_status (eax -32 2147483649) ;;
  if eax <? 2147483649 then mov RAX 0 ;; rd RAX
  else
    mov RAX 2147483649 ;;
    cpuid ;;
    edx ← rd RDX; set_status (Z.land edx (Z.shiftl 1 29)) ;;
    (if Z.land edx (Z.shiftl 1 29) =? 0 then mov RAX 0 else mov RAX 1) ;;
    rd RAX.

(** paging_enable.s *)
Definition paging_enable : ST proc unit :=
  mov RAX (paging_pml4 p) ;;
  copy CR3 RAX ;;
  copy RAX CR4 ;;
  eax ← rd RAX; alu RAX (Z.lor eax (Z.shiftl 1 5)) ;;
  copy CR4 RAX ;;
  mov RCX 3221225600 ;;
  rdmsr ;;
  eax ← rd RAX; alu RAX (Z.lor eax (Z.shiftl 1 8)) ;;
  wrmsr ;;
  copy RAX CR0 ;;
  eax ← rd RAX; alu RAX (Z.lor eax (Z.shiftl 1 31)) ;;
  eax ← rd RAX; mov_cr0 eax.

(** enter.s: the pointer lies behind the three descriptors, whose second is the
    code segment. *)
Definition longmode_enter_kernel : ST proc unit :=
  mov RBX (info p) ;;
  m ← gets p_mem; mov RAX (load64 m (entry_cell p)) ;;
  copy RIP RAX.
Definition kernel_enter : ST proc unit :=
  lgdt32 (awd_gdt p + 24) ;;
  far_jmp 8 ;;
  bits64 longmode_enter_kernel.

(** [_init]: crti.s, what the compiler puts between, and crtn.s. *)
Definition _init (constructors : ST proc unit) : ST proc unit :=
  rbp ← rd RBP; push64 rbp ;;
  copy RBP RSP ;;
  constructors ;;
  pop64 RBP ;;
  ret64.

(** boot_awd.s, up to the first instruction of [kernel_early]; [mov ax] writes
    the low 16 bits of RAX. *)
Definition load_segments : ST proc unit :=
  rax ← rd RAX; push64 rax ;;
  rax ← rd RAX; mov RAX (Z.lor (Z.ldiff rax 65535) 16) ;;
  forM [SS; DS; ES; FS; GS] (fun r => rax ← rd RAX; mov_seg r (u16 rax)) ;;
  pop64 RAX.
Definition kernel_start (constructors : ST proc unit) : ST proc unit :=
  mov RSP (kernel_stack_top p) ;;
  mov RBP (kernel_stack_top p) ;;
  copy RDI RBX ;;
  lgdt64 (kernel_gdt p + 40) ;;
  load_segments ;;
  rdi ← rd RDI; push64 rdi ;;
  call64 (ret_init p) (_init constructors) ;;
  pop64 RDI ;;
  push64 (ret_early p).

(** From [kernel_enter] to [kernel_early]: the processor runs what is at the
    address it jumps to, and the linker puts [_start] at the kernel's entry. *)
Definition enter_lobo (constructors : ST proc unit) : ST proc unit :=
  kernel_enter ;;
  rip ← rd RIP;
  if rip =? kernel_start_at p then bits64 (kernel_start constructors)
  else stop_with (Fault "jump to an unknown address").
End Code.

(** ** The descriptors *)

Definition awd_code : Z := 9174325022162944.
Definition kernel_code : Z := 49427445715042304.
Definition kernel_data : Z := 160528697655296.

Lemma awd_gdt_at m a :
  image m a (awd_gdt64 a) ->
  load64 m (a + 8) = awd_code /\ load16 m (a + 24) = 23 /\ load32 m (a + 26) = u32 a.
Proof.
  intros H. split_and!.
  - change (load 8 m (a + Z.of_nat 8) = awd_code). by rewrite (image_at _ _ _ 8 8 awd_code H).
  - change (load 2 m (a + Z.of_nat 24) = 23). by rewrite (image_at _ _ _ 24 2 23 H).
  - change (load 4 m (a + Z.of_nat 26) = u32 a). by rewrite (image_at _ _ _ 26 4 a H).
Qed.

Lemma kernel_gdt_at m a :
  image m a (kernel_gdt64 a) ->
  load64 m (a + 8) = kernel_code /\ load64 m (a + 16) = kernel_data /\
  load16 m (a + 40) = 39 /\ load64 m (a + 42) = u64 a.
Proof.
  intros H. split_and!.
  - change (load 8 m (a + Z.of_nat 8) = kernel_code). by rewrite (image_at _ _ _ 8 8 kernel_code H).
  - change (load 8 m (a + Z.of_nat 16) = kernel_data). by rewrite (image_at _ _ _ 16 8 kernel_data H).
  - change (load 2 m (a + Z.of_nat 40) = 39). by rewrite (image_at _ _ _ 40 2 39 H).
  - change (load 8 m (a + Z.of_nat 42) = u64 a). by rewrite (image_at _ _ _ 42 8 a H).
Qed.

(** ** The tests of the processor *)

(** Cases on the bits in the goal. *)
Ltac each_bit := repeat match goal with |- context [Z.testbit ?x ?n] => destruct (Z.testbit x n) end; done.

Section Checks.
Context {C : Cpu} (Cok : CpuOk C).

(** Flags as they are outside virtual-8086 mode. *)
Definition flags_ok (f : Z) : Prop := 0 <= f < 2 ^ 32 /\ Z.land f vm_rf = 0.
(** The same flags but for the status flags. *)
Definition same_controls (f f' : Z) : Prop := Z.ldiff f' status_flags = Z.ldiff f status_flags.

Lemma popfd_value f v :
  Z.lor (Z.land v writable) (Z.ldiff (Z.lor (Z.ldiff f status_flags) (Z.land (status v) status_flags)) writable)
    = Z.lor (Z.land v writable) (Z.ldiff f writable).
Proof.
  destruct Cok as [Hs _]. apply Z.bits_inj'. intros n Hn.
  assert (Z.testbit status_flags n = true -> Z.testbit writable n = true) as Hb.
  { rewrite <- Hs, Z.land_spec. by intros [_ ->]%andb_prop. }
  rewrite !Z.lor_spec, !Z.land_spec, !Z.ldiff_spec, !Z.lor_spec, !Z.ldiff_spec, !Z.land_spec.
  destruct (Z.testbit status_flags n); [rewrite Hb by done|]; cbn;
    destruct (Z.testbit v n), (Z.testbit writable n), (Z.testbit f n), (Z.testbit (status v) n); done.
Qed.

Lemma push_pop r v s :
  r <> RSP -> 0 <= p_reg s RSP < 2 ^ 32 ->
  exists s', (push32 v ;; pop32 r) s = Done (tt, s') /\ p_reg s' r = u32 v /\ but [r] s s'.
Proof.
  intros Hr Hsp. eexists. split; [reflexivity|].
  assert (p_reg s RSP -32 4 +32 4 = p_reg s RSP) as Hback by (unfold u32; lia_div).
  split.
  - rewrite reg_set_ne, reg_set_eq by done. autorewrite with proc. apply (load_store_eq 4).
  - intros r' Hr'. destruct (decide (r' = RSP)) as [->|]; [by autorewrite with proc|].
    rewrite !reg_set_ne, reg_set_mem, reg_set_ne by set_solver. done.
Qed.

Lemma read_flags r s :
  r <> RSP -> flags_ok (p_reg s FLAGS) -> 0 <= p_reg s RSP < 2 ^ 32 ->
  exists s', (pushfd ;; pop32 r) s = Done (tt, s') /\ p_reg s' r = p_reg s FLAGS /\ but [r] s s'.
Proof.
  intros Hr [Hf Hv] Hsp. destruct (push_pop r (Z.ldiff (p_reg s FLAGS) vm_rf) s Hr Hsp) as (s' & H & H1 & H2).
  exists s'. split; [exact H|]. split; [|done]. rewrite H1.
  replace (Z.ldiff (p_reg s FLAGS) vm_rf) with (p_reg s FLAGS); [by apply u32_small; lia|].
  apply Z.bits_inj'. intros n Hn. apply (f_equal (fun x => Z.testbit x n)) in Hv.
  rewrite Z.land_spec, Z.bits_0 in Hv. rewrite Z.ldiff_spec.
  by destruct (Z.testbit (p_reg s FLAGS) n), (Z.testbit vm_rf n).
Qed.

Lemma write_flags v s :
  0 <= v < 2 ^ 32 -> 0 <= p_reg s RSP < 2 ^ 32 ->
  exists s', (push32 v ;; popfd) s = Done (tt, s') /\
    p_reg s' FLAGS = Z.lor (Z.land v writable) (Z.ldiff (p_reg s FLAGS) writable) /\ but [FLAGS] s s'.
Proof.
  intros Hv Hsp. destruct (push_pop FLAGS v s ltac:(done) Hsp) as (s1 & H & H1 & H2).
  rewrite u32_small in H1 by lia.
  eexists. split.
  { unfold popfd. rewrite (bind_done (push32 v) _ s tt _ eq_refl), rd_bind. autorewrite with proc.
    rewrite (bind_done (push32 v) _ s tt _ eq_refl) in H. rewrite (bind_done _ _ _ _ _ H), rd_bind. reflexivity. }
  split; [rewrite reg_set_eq, H1; by autorewrite with proc|].
  intros r Hr. rewrite reg_set_ne by set_solver. by apply H2.
Qed.
Lemma id_bit n : 0 <= n -> Z.testbit (Z.shiftl 1 21) n = (n =? 21).
Proof. intros Hn. change (Z.shiftl 1 21) with (2 ^ 21). by rewrite Z.pow2_bits_eqb, Z.eqb_sym by lia. Qed.

(** The flags after writing them with the ID bit flipped. *)
Lemma flip_value f :
  Z.lor (Z.land (Z.lxor f (Z.shiftl 1 21)) writable) (Z.ldiff f writable)
    = if Z.testbit writable 21 then Z.lxor f (Z.shiftl 1 21) else f.
Proof.
  apply Z.bits_inj'. intros n Hn.
  rewrite Z.lor_spec, Z.land_spec, Z.ldiff_spec, Z.lxor_spec, id_bit by done.
  destruct (Z.testbit writable 21) eqn:E; rewrite ?Z.lxor_spec, ?id_bit by done;
    (destruct (Z.eqb_spec n 21) as [->|]; [rewrite E|]); each_bit.
Qed.
Lemma write_back_value f :
  Z.lor (Z.land f writable) (Z.ldiff (if Z.testbit writable 21 then Z.lxor f (Z.shiftl 1 21) else f) writable) = f.
Proof.
  apply Z.bits_inj'. intros n Hn. rewrite Z.lor_spec, Z.land_spec, Z.ldiff_spec.
  destruct (Z.testbit writable 21) eqn:E; rewrite ?Z.lxor_spec, ?id_bit by done;
    [destruct (Z.eqb_spec n 21) as [->|]; [rewrite E|]|]; each_bit.
Qed.

Lemma lxor_range f : 0 <= f < 2 ^ 32 -> 0 <= Z.lxor f (Z.shiftl 1 21) < 2 ^ 32.
Proof.
  intros Hf. rewrite <- (Z.mod_small f (2 ^ 32)) by done.
  replace (Z.lxor (f mod 2 ^ 32) (Z.shiftl 1 21)) with (Z.lxor f (Z.shiftl 1 21) mod 2 ^ 32);
    [by apply Z.mod_pos_bound|].
  apply Z.bits_inj'. intros n Hn. rewrite Z.lxor_spec. destruct (Z.ltb_spec n 32).
  - by rewrite !Z.mod_pow2_bits_low, Z.lxor_spec by lia.
  - rewrite !Z.mod_pow2_bits_high, id_bit by lia. by destruct (Z.eqb_spec n 21); [lia|].
Qed.

Lemma flip_ok f b : flags_ok f -> flags_ok (if b : bool then Z.lxor f (Z.shiftl 1 21) else f).
Proof.
  intros [Hf Hv]. destruct b; [|done]. split; [by apply lxor_range|].
  apply Z.bits_inj'. intros n Hn. apply (f_equal (fun x => Z.testbit x n)) in Hv. rewrite Z.bits_0 in *.
  rewrite Z.land_spec, Z.lxor_spec, id_bit in * by done. destruct (Z.eqb_spec n 21) as [->|]; [|by destruct (Z.testbit f n)].
  by rewrite andb_false_r.
Qed.

Lemma flip_eqb f b : ((if b : bool then Z.lxor f (Z.shiftl 1 21) else f) =? f) = negb b.
Proof.
  destruct b; [|apply Z.eqb_refl]. apply Z.eqb_neq. intros H%(f_equal (fun x => Z.testbit x 21)).
  rewrite Z.lxor_spec, id_bit in H by lia. by destruct (Z.testbit f 21).
Qed.

Lemma status_controls f v : same_controls f (Z.lor (Z.ldiff f status_flags) (Z.land v status_flags)).
Proof.
  apply Z.bits_inj'. intros n Hn. rewrite !Z.ldiff_spec, Z.lor_spec, Z.ldiff_spec, Z.land_spec.
  by destruct (Z.testbit f n), (Z.testbit v n), (Z.testbit status_flags n).
Qed.

Lemma check_cpuid_run s :
  flags_ok (p_reg s FLAGS) -> 0 <= p_reg s RSP < 2 ^ 32 ->
  exists s', check_cpuid s = Done ((if Z.testbit writable 21 then 1 else 0), s') /\
    p_reg s' RSP = p_reg s RSP /\ same_controls (p_reg s FLAGS) (p_reg s' FLAGS).
Proof.
  intros Hf Hsp. set (f := p_reg s FLAGS) in *. unfold check_cpuid.
  destruct (read_flags RAX s ltac:(done) Hf Hsp) as (s1 & H1 & Ha1 & Hb1).
  rewrite (seq_done _ _ _ _ _ _ H1). proc. rewrite Ha1. fold f.
  set (s2 := set_reg FLAGS _ _).
  assert (p_reg s2 RSP = p_reg s RSP) as Hsp2 by (unfold s2; autorewrite with proc; apply Hb1; set_solver).
  destruct (write_flags (Z.lxor f (Z.shiftl 1 21)) s2) as (s3 & H3 & Ha3 & Hb3);
    [by apply lxor_range, Hf|lia|].
  rewrite (seq_done _ _ _ _ _ _ H3).
  unfold s2 in Ha3 at 1. rewrite reg_set_eq in Ha3. rewrite (Hb1 FLAGS) in Ha3 by set_solver.
  fold f in Ha3. rewrite popfd_value, flip_value in Ha3.
  destruct (read_flags RAX s3) as (s4 & H4 & Ha4 & Hb4);
    [done|rewrite Ha3; by apply flip_ok|rewrite Hb3 by set_solver; lia|].
  rewrite (seq_done _ _ _ _ _ _ H4). proc.
  assert (p_reg s4 RCX = f) as Hc4.
  { rewrite Hb4, Hb3 by set_solver. unfold s2. autorewrite with proc. done. }
  assert (p_reg s4 RSP = p_reg s RSP) as Hsp4 by (by rewrite Hb4, Hb3 by set_solver).
  destruct (write_flags (p_reg s4 RCX) s4) as (s5 & H5 & Ha5 & Hb5); [rewrite Hc4; apply Hf|lia|].
  rewrite (seq_done _ _ _ _ _ _ H5). proc.
  rewrite !(Hb5 RAX), !(Hb5 RCX), Hc4, Ha4, Ha3, flip_eqb by set_solver.
  rewrite Hc4, (Hb4 FLAGS), Ha3, write_back_value in Ha5 by set_solver.
  destruct (Z.testbit writable 21); cbn [negb]; eexists; (split; [reflexivity|]); autorewrite with proc;
    rewrite Ha5, Hb5, Hsp4 by set_solver; (split; [done|apply status_controls]).
Qed.
Lemma test_bit x n : 0 <= n -> (Z.land x (Z.shiftl 1 n) =? 0) = negb (Z.testbit x n).
Proof.
  intros Hn. rewrite Z.shiftl_1_l. destruct (Z.testbit x n) eqn:E; cbn [negb].
  - apply Z.eqb_neq. intros H%(f_equal (fun y => Z.testbit y n)).
    by rewrite Z.land_spec, E, Z.pow2_bits_true, Z.bits_0 in H.
  - apply Z.eqb_eq, Z.bits_inj'. intros k Hk. rewrite Z.land_spec, Z.bits_0, Z.pow2_bits_eqb by done.
    by destruct (Z.eqb_spec n k) as [<-|]; [rewrite E|rewrite andb_false_r].
Qed.

Lemma check_longmode_run s :
  exists s', check_longmode s = Done ((if has_long_mode then 1 else 0), s') /\
    p_reg s' RSP = p_reg s RSP /\ same_controls (p_reg s FLAGS) (p_reg s' FLAGS).
Proof.
  unfold check_longmode, cpuid, has_long_mode. proc.
  destruct (cpuid_leaf 2147483648) as [[[a b] c] d]. proc.
  destruct (u32 a <? 2147483649) eqn:Ea.
  - assert ((2147483649 <=? u32 a) = false) as -> by lia. destruct (cpuid_leaf 2147483649) as [[[a' b'] c'] d'].
    eexists. split; [reflexivity|]. autorewrite with proc. split; [done|apply status_controls].
  - assert ((2147483649 <=? u32 a) = true) as -> by lia. proc.
    destruct (cpuid_leaf 2147483649) as [[[a' b'] c'] d']. proc. rewrite test_bit by done.
    destruct (Z.testbit (u32 d') 29); (eexists; split; [reflexivity|]); autorewrite with proc;
      (split; [done|]); (etrans; [apply status_controls|]); apply status_controls.
Qed.
End Checks.

(** ** Into the kernel *)

Section Enter.
Context {C : Cpu} (p : places).

(** The bytes that have to stay as they are up to [kernel_early]: the kernel's
    descriptor table and the block of the loader, where AWD's tables map it. *)
Definition kept_byte (b : Z) : Prop :=
  kernel_gdt p <= b < kernel_gdt p + 50 \/ info p <= b < info p + 32 \/
  kernel_mem_base + info p <= b < kernel_mem_base + info p + 32.
Definition keeps (m m' : mem) : Prop := forall b, kept_byte b -> mget m b = mget m' b.

(** What the linkers laid out where, and where the kernel's stack is. *)
Record laid_out (m : mem) : Prop := {
  lo_awd_gdt : image m (awd_gdt p) (awd_gdt64 (awd_gdt p));
  lo_awd_range : 0 <= awd_gdt p < 2 ^ 32;
  lo_gdt : image m (kernel_gdt p) (kernel_gdt64 (kernel_gdt p));
  lo_gdt_range : 0 <= kernel_gdt p < 2 ^ 64;
  lo_entry : load64 m (entry_cell p) = kernel_start_at p;
  lo_stack_aligned : kernel_stack_top p mod 16 = 0;
  lo_stack_range : 32 <= kernel_stack_top p < 2 ^ 64;
  lo_stack_apart : forall b, kept_byte b -> ~ (kernel_stack_top p - 32 <= b < kernel_stack_top p);
  lo_info : 0 <= info p < 2 ^ 64; lo_ret : 0 <= ret_init p < 2 ^ 64 /\ 0 <= ret_early p < 2 ^ 64
}.

(** What the System V ABI asks of the code of the constructors, run with the
    stack pointer [sp]: it returns with the stack and frame pointers and the
    stack above them as they were; and the kernel's code runs in the segments
    it was given and writes neither its read-only data nor the loader's block. *)
Definition system_regs : list reg := [RSP; RBP; CS; SS; DS; ES; FS; GS; CR0; CR3; CR4; EFER; GDT_LIMIT; GDT_BASE].
Record abi_kept (s s' : proc) : Prop := {
  ak_regs : forall r, r ∈ system_regs -> p_reg s' r = p_reg s r;
  ak_64 : p_64 s' = p_64 s;
  ak_stack : agree_on (p_mem s) (p_mem s') (p_reg s RSP) (kernel_stack_top p - p_reg s RSP);
  ak_keeps : keeps (p_mem s) (p_mem s')
}.
Definition abi_ok (constructors : ST proc unit) : Prop := forall s,
  p_64 s = true -> p_reg s RSP = kernel_stack_top p - 24 ->
  exists s', constructors s = Done (tt, s') /\ abi_kept s s'.

(** Control registers as [paging_enable] leaves them, in code of privilege 0. *)
Record long_mode_on (s : proc) : Prop := {
  lm_active : long_mode_active s = true;
  lm_cr3 : p_reg s CR3 = paging_pml4 p;
  lm_cpl : Z.land (p_reg s CS) 3 = 0
}.

Lemma rdmsr_bind {B} (k : unit -> ST proc B) s :
  p_reg s RCX = 3221225600 ->
  (rdmsr ≫= k) s = k tt (set_reg RDX (u32 (Z.shiftr (p_reg s EFER) 32)) (set_reg RAX (u32 (p_reg s EFER)) s)).
Proof. intros H. unfold rdmsr. proc. by rewrite H. Qed.
Lemma wrmsr_bind {B} (k : unit -> ST proc B) s :
  has_long_mode = true -> p_reg s RCX = 3221225600 ->
  (wrmsr ≫= k) s =
    k tt (set_reg EFER (Z.lor (Z.shiftl (u32 (p_reg s RDX)) 32) (u32 (p_reg s RAX))) s).
Proof. intros Hl H. unfold wrmsr. proc. by rewrite H, Hl, andb_false_r. Qed.

Lemma set_bit x n k : 0 <= n -> Z.testbit (Z.lor x (Z.shiftl 1 n)) k = Z.testbit x k || (n =? k).
Proof. intros Hn. by rewrite Z.lor_spec, Z.shiftl_1_l, Z.pow2_bits_eqb. Qed.

Lemma low_bit x n : 0 <= n < 32 -> Z.testbit (u32 x) n = Z.testbit x n.
Proof. intros Hn. unfold u32. change 4294967296 with (2 ^ 32). apply Z.mod_pow2_bits_low; lia. Qed.

Lemma paging_enable_run s :
  has_long_mode = true -> Z.testbit (p_reg s CR0) PE = true -> Z.land (p_reg s CS) 3 = 0 ->
  exists s', paging_enable p s = Done (tt, s') /\ long_mode_on s' /\ p_mem s' = p_mem s /\
    but [RAX; RCX; RDX; CR0; CR3; CR4; EFER; FLAGS] s s'.
Proof.
  intros Hlm Hpe Hcpl. unfold paging_enable. proc.
  rewrite rdmsr_bind by (by autorewrite with proc). proc.
  rewrite wrmsr_bind by (done || by autorewrite with proc). proc. unfold mov_cr0. proc.
  set (efer := Z.lor (Z.shiftl (u32 _) 32) _).
  assert (Z.testbit efer LME = true) as Hlme.
  { unfold efer. rewrite Z.lor_spec, low_bit, set_bit by done. by rewrite !orb_true_r. }
  rewrite Hlme, !set_bit, Hpe by done. cbn [orb negb andb]. rewrite !orb_true_r. cbn [negb andb orb].
  eexists. split; [reflexivity|]. split_and!.
  - split; autorewrite with proc; [|done|done].
    unfold long_mode_active. autorewrite with proc. rewrite Hlme, set_bit by done. by rewrite orb_true_r.
  - by autorewrite with proc.
  - repeat but_step.
Qed.
Lemma descriptor_bind {B} sel d (k : Z -> ST proc B) s :
  Z.testbit sel 2 = false -> 0 < Z.ldiff sel 7 -> Z.ldiff sel 7 + 7 <= p_reg s GDT_LIMIT ->
  load64 (p_mem s) (p_reg s GDT_BASE + Z.ldiff sel 7) = d -> (descriptor sel ≫= k) s = k d s.
Proof.
  intros H1 H2 H3 <-. unfold descriptor. proc. rewrite H1. cbn [orb].
  assert ((Z.ldiff sel 7 =? 0) = false) as -> by lia.
  by assert ((p_reg s GDT_LIMIT <? Z.ldiff sel 7 + 7) = false) as -> by lia.
Qed.

(** The kernel's table is loaded, in privilege 0. *)
Record gdt_loaded (s : proc) : Prop := {
  gl_limit : p_reg s GDT_LIMIT = 39;
  gl_base : p_reg s GDT_BASE = kernel_gdt p;
  gl_table : image (p_mem s) (kernel_gdt p) (kernel_gdt64 (kernel_gdt p));
  gl_cpl : Z.land (p_reg s CS) 3 = 0
}.

Lemma mov_seg_bind {B} r (k : unit -> ST proc B) s :
  gdt_loaded s -> (mov_seg r 16 ≫= k) s = k tt (set_reg r 16 s).
Proof.
  intros [Hl Hb Ht Hc]. destruct (kernel_gdt_at _ _ Ht) as (_ & Hd & _).
  unfold mov_seg. proc. rewrite (descriptor_bind 16 kernel_data); try (rewrite ?Hl, ?Hb; done).
  rewrite Hc. by destruct (decide (r = SS)).
Qed.

(** Loading the five data segments from the low half of RAX. *)
Lemma load_all_run l s :
  gdt_loaded s -> u16 (p_reg s RAX) = 16 -> (forall r, r ∈ l -> r ∈ [SS; DS; ES; FS; GS]) ->
  exists s', forM l (fun r => rax ← rd RAX; mov_seg r (u16 rax)) s = Done (tt, s') /\
    (forall r, r ∈ l -> p_reg s' r = 16) /\ but l s s' /\ p_mem s' = p_mem s /\ p_64 s' = p_64 s.
Proof.
  revert s. induction l as [|r l IH]; intros s Hg Ha Hin; cbn [forM].
  - exists s. split_and!; [done|by intros r Hr%elem_of_nil|done..].
  - proc. rewrite Ha, mov_seg_bind by done.
    assert (r ∈ [SS; DS; ES; FS; GS]) as Hr by (apply Hin; left).
    assert (forall q, q ∉ [SS; DS; ES; FS; GS] -> p_reg (set_reg r 16 s) q = p_reg s q) as Hsame.
    { intros q Hq. apply reg_set_ne. by intros ->. }
    destruct (IH (set_reg r 16 s)) as (s' & H & H1 & H2 & H3 & H4).
    + destruct Hg as [Hl Hb Ht Hc]. split; rewrite ?Hsame; try done; compute_done.
    + by rewrite Hsame by compute_done.
    + intros q Hq. apply Hin. by right.
    + exists s'. split; [exact H|]. split_and!; [|..|done|done].
      * intros q [->|Hq]%elem_of_cons; [|by apply H1].
        destruct (decide (r ∈ l)); [by apply H1|]. rewrite H2 by done. apply reg_set_eq.
      * intros q Hq. rewrite H2, reg_set_ne by set_solver. done.
Qed.

(** [lgdt], the jump and the first 64-bit instructions. *)
Lemma kernel_enter_run s :
  long_mode_on s -> laid_out (p_mem s) ->
  exists s', kernel_enter p s = Done (tt, s') /\ p_reg s' RIP = kernel_start_at p /\ p_reg s' RBX = info p /\
    p_reg s' CS = 8 /\ p_64 s' = true /\ p_mem s' = p_mem s /\
    but [GDT_LIMIT; GDT_BASE; CS; RAX; RBX; RIP] s s'.
Proof.
  intros [Ha Hr Hc] [Hawd Har _ _ Hent _ _ _ _ _]. destruct (awd_gdt_at _ _ Hawd) as (Hd & Hl & Hb).
  unfold kernel_enter, lgdt32, far_jmp. proc.
  rewrite (descriptor_bind 8 awd_code); autorewrite with proc; [|done|done| |].
  2:{ rewrite Hl. done. }
  2:{ replace (awd_gdt p + 24 + 2) with (awd_gdt p + 26) by lia. rewrite Hb, u32_small by lia. exact Hd. }
  rewrite assoc_at, gets_bind, Hc.
  replace (long_mode_active _) with true
    by (symmetry; unfold long_mode_active in *; by autorewrite with proc).
  change (code_ok 0 awd_code && negb (true && desc_long awd_code && desc_size32 awd_code)) with true.
  change (true && desc_long awd_code) with true. cbv iota. proc.
  rewrite modify_bind. unfold bits64, longmode_enter_kernel. proc.
  eexists. split; [reflexivity|]. autorewrite with proc. split_and!; try done.
  repeat but_step.
Qed.
(** *** The entry of the kernel *)

Let top : Z := kernel_stack_top p.
Definition segment_regs : list reg := [SS; DS; ES; FS; GS].
(** Memory but the topmost [n] bytes of the stack. *)
Definition stack_only (n : Z) (m m' : mem) : Prop := agree_outside m m' (top - n) n.

Lemma keeps_trans m1 m2 m3 : keeps m1 m2 -> keeps m2 m3 -> keeps m1 m3.
Proof. intros H1 H2 b Hb. by rewrite H1, H2. Qed.
Lemma table_kept m m' :
  keeps m m' -> image m (kernel_gdt p) (kernel_gdt64 (kernel_gdt p)) -> image m' (kernel_gdt p) (kernel_gdt64 (kernel_gdt p)).
Proof.
  intros Hk. apply image_ext. intros a Ha. apply Hk. change (length _) with 50%nat in Ha. left. lia.
Qed.

Lemma push_stack m a v : top - 32 <= a <= top - 8 -> stack_only 32 m (store64 m a v).
Proof. intros Ha b Hb. symmetry. apply (mget_store_ne 8). lia. Qed.
Lemma stack_trans n m1 m2 m3 : stack_only n m1 m2 -> stack_only n m2 m3 -> stack_only n m1 m3.
Proof. intros H1 H2 a Ha. by rewrite H1, H2. Qed.

Section Start.
Context (Htop : 32 <= top < 2 ^ 64) (Hapart : forall b, kept_byte b -> ~ (top - 32 <= b < top)).

Lemma stack_keeps m m' : stack_only 32 m m' -> keeps m m'.
Proof. intros Hs b Hb. apply Hs. specialize (Hapart b Hb). lia. Qed.

Lemma sp_sub n k s : p_reg s RSP = top - n -> 0 <= n <= 24 /\ k = n + 8 -> p_reg s RSP -64 8 = top - k.
Proof. intros -> [Hn ->]. rewrite u64_small by lia. lia. Qed.
Lemma sp_add n k s : p_reg s RSP = top - n -> 8 <= n <= 32 /\ k = n - 8 -> p_reg s RSP +64 8 = top - k.
Proof. intros -> [Hn ->]. rewrite u64_small by lia. lia. Qed.

Lemma ax_16 x : u16 (Z.lor (Z.ldiff x 65535) 16) = 16.
Proof.
  unfold u16. change 65536 with (2 ^ 16). change 65535 with (Z.ones 16). apply Z.bits_inj'. intros n Hn.
  destruct (Z.ltb_spec n 16).
  - rewrite Z.mod_pow2_bits_low, Z.lor_spec, Z.ldiff_spec, Z.testbit_ones_nonneg by lia.
    assert ((n <? 16) = true) as -> by lia. by rewrite andb_false_r.
  - rewrite Z.mod_pow2_bits_high by lia. change 16 with (2 ^ 4). rewrite Z.pow2_bits_eqb by lia. lia.
Qed.

Lemma load_segments_run s :
  gdt_loaded s -> p_reg s RSP = top - 0 ->
  exists s', load_segments s = Done (tt, s') /\ (forall r, r ∈ segment_regs -> p_reg s' r = 16) /\
    but (RAX :: segment_regs) s s' /\ stack_only 32 (p_mem s) (p_mem s') /\ p_64 s' = p_64 s.
Proof.
  intros Hg Hsp. pose proof (sp_sub 0 8 s Hsp ltac:(lia)) as Hs1. unfold load_segments. proc. stack_step. proc.
  rewrite Hs1. set (s1 := set_reg RAX _ _).
  assert (stack_only 32 (p_mem s) (p_mem s1)) as Hm1 by (apply push_stack; lia).
  destruct (load_all_run segment_regs s1) as (s2 & H2 & Hr2 & Hb2 & Hm2 & H642).
  - destruct Hg as [Hl Hb Ht Hc]. split; unfold s1; autorewrite with proc; [done..| |done].
    by apply (table_kept (p_mem s)), Ht; apply stack_keeps.
  - apply ax_16.
  - done.
  - rewrite (bind_done _ _ _ _ _ H2). eexists. split; [reflexivity|].
    assert (p_reg s2 RSP = top - 8) as Hsp2.
    { rewrite Hb2 by compute_done. unfold s1. by autorewrite with proc. }
    split_and!.
    + intros r Hr. rewrite !reg_set_ne by (intros <-; revert Hr; compute_done). by apply Hr2.
    + intros r Hr. destruct (decide (r = RSP)) as [->|Hne].
      { rewrite reg_set_eq, Hsp. autorewrite with proc. rewrite (sp_add 8 0 s2) by (done || lia). lia. }
      rewrite !reg_set_ne by (done || set_solver). rewrite Hb2 by set_solver.
      assert (but [RAX; RSP] s s1) as Hb1 by (unfold s1; repeat but_step). apply Hb1. set_solver.
    + autorewrite with proc. by rewrite Hm2.
    + autorewrite with proc. by rewrite H642.
Qed.
(** The top [k] bytes of the stack. *)
Definition top_kept (k : Z) (m m' : mem) : Prop := agree_on m m' (top - k) k.
Definition kept_regs : list reg := [CS; SS; DS; ES; FS; GS; CR0; CR3; CR4; EFER; GDT_LIMIT; GDT_BASE].

Lemma top_trans k m1 m2 m3 : top_kept k m1 m2 -> top_kept k m2 m3 -> top_kept k m1 m3.
Proof. intros H1 H2 a Ha. by rewrite H1, H2. Qed.
Lemma push_top k m a v : 0 <= k -> a + 8 <= top - k -> top_kept k m (store64 m a v).
Proof. intros Hk Ha b Hb. symmetry. apply (mget_store_ne 8). lia. Qed.
Lemma top_load k m m' n : top_kept k m m' -> 8 <= n <= k -> load64 m' (top - n) = load64 m (top - n).
Proof. intros H Hn. symmetry. apply (load_ext 8). intros a Ha. apply H. lia. Qed.

Lemma kept_system r : r ∈ kept_regs -> r ∈ system_regs /\ r ∉ [RAX; RBX; RCX; RDX; RDI; RSP; RBP; RIP].
Proof. intros Hr. pattern r. eapply Forall_forall; [|by apply list_elem_of_In]. compute_done. Qed.

Lemma control_kept r :
  r ∈ [CR0; CR3; CR4; EFER] ->
  r ∈ kept_regs /\ (r ∉ RAX :: segment_regs) /\ (r ∉ [GDT_BASE; GDT_LIMIT; RDI; RBP; RSP]).
Proof. intros Hr. pattern r. eapply Forall_forall; [|by apply list_elem_of_In]. compute_done. Qed.

(** [_init] returns where it was called from, with the stack above it kept. *)
Lemma init_run (constructors : ST proc unit) s :
  abi_ok constructors -> p_64 s = true -> p_reg s RSP = top - 16 ->
  exists s', _init constructors s = Done (tt, s') /\
    p_reg s' RIP = load64 (p_mem s) (top - 16) /\ p_reg s' RSP = top - 8 /\
    (forall r, r ∈ kept_regs -> p_reg s' r = p_reg s r) /\ top_kept 16 (p_mem s) (p_mem s') /\ p_64 s' = true /\
    keeps (p_mem s) (p_mem s').
Proof.
  intros Habi H64 Hsp. pose proof (sp_sub 16 24 s Hsp ltac:(lia)) as Hs1. unfold _init, ret64. proc. stack_step. proc.
  rewrite Hs1. set (s1 := set_reg RBP _ _).
  assert (p_reg s1 RSP = top - 24) as Hsp1 by (unfold s1; by autorewrite with proc).
  destruct (Habi s1 H64 Hsp1) as (s2 & H2 & [Hr2 H642 Hst2 Hro2]). rewrite (bind_done _ _ _ _ _ H2).
  assert (p_reg s2 RSP = top - 24) as Hsp2 by (rewrite Hr2; [done|compute_done]).
  assert (top_kept 16 (p_mem s) (p_mem s2)) as Hk.
  { eapply top_trans; [by apply (push_top 16 _ (top - 24) (p_reg s RBP)); lia|].
    intros a Ha. apply Hst2. fold top. lia. }
  stack_step. rewrite (sp_add 24 16 s2) by (done || lia). unfold pop64. proc.
  eexists. split; [reflexivity|]. split_and!.
  - autorewrite with proc. by rewrite (top_load 16 _ _ 16 Hk) by lia.
  - autorewrite with proc. rewrite u64_small by lia. lia.
  - intros r Hr. rewrite !reg_set_ne by (intros <-; revert Hr; compute_done).
    destruct (kept_system r Hr) as [Hsys Hne]. rewrite Hr2 by done.
    assert (but [RBP; RSP] s s1) as Hb1 by (unfold s1; repeat but_step). apply Hb1. set_solver.
  - done.
  - autorewrite with proc. rewrite H642. exact H64.
  - autorewrite with proc. eapply keeps_trans; [|exact Hro2]. apply stack_keeps, push_stack. lia.
Qed.
(** The call of [_init], with the argument for [kernel_early] saved around it,
    and the call behind it. *)
Lemma init_call_run (constructors : ST proc unit) s :
  abi_ok constructors -> p_64 s = true -> p_reg s RSP = top - 0 -> 0 <= p_reg s RDI < 2 ^ 64 ->
  0 <= ret_init p < 2 ^ 64 -> 0 <= ret_early p < 2 ^ 64 ->
  exists s', (rdi ← rd RDI; push64 rdi ;; call64 (ret_init p) (_init constructors) ;;
              pop64 RDI ;; push64 (ret_early p)) s = Done (tt, s') /\
    p_reg s' RDI = p_reg s RDI /\ p_reg s' RSP = top - 8 /\ load64 (p_mem s') (top - 8) = ret_early p /\
    (forall r, r ∈ kept_regs -> p_reg s' r = p_reg s r) /\ p_64 s' = true /\
    keeps (p_mem s) (p_mem s').
Proof.
  intros Habi H64 Hsp Hdi Hri Hre. unfold call64. proc. stack_step. rewrite (sp_sub 0 8 s) by (done || lia).
  proc. stack_step. proc. set (s1 := set_pmem _ _).
  assert ((top - 8) -64 8 = top - 16) as H16 by (rewrite u64_small by lia; lia).
  assert (p_reg s1 RSP = top - 16) as Hsp1 by (unfold s1; by autorewrite with proc).
  assert (stack_only 32 (p_mem s) (p_mem s1)) as Hm1.
  { eapply stack_trans; [apply (push_stack _ (top - 8) (p_reg s RDI)); lia|].
    unfold s1. autorewrite with proc. rewrite H16. apply push_stack. lia. }
  destruct (init_run constructors s1 Habi H64 Hsp1) as (s2 & H2 & Hip & Hsp2 & Hr2 & Hk & H642 & Hkp2).
  assert (p_mem s1 = store64 (store64 (p_mem s) (top - 8) (p_reg s RDI)) (top - 16) (ret_init p)) as Hms1
    by (unfold s1; autorewrite with proc; by rewrite H16).
  rewrite (bind_done _ _ _ _ _ H2). proc.
  rewrite Hip, Hms1, load64_store64_eq, u64_small, Z.eqb_refl by lia.
  rewrite (bind_done skip _ _ _ _ eq_refl). stack_step. unfold push64. proc.
  assert ((top - 8) +64 8 = top) as Hup by (rewrite u64_small by lia; lia).
  assert (top -64 8 = top - 8) as Hdn by (rewrite u64_small by lia; lia).
  rewrite Hsp2, Hup, Hdn. eexists. split; [reflexivity|]. split_and!; autorewrite with proc.
  - rewrite (top_load 16 _ _ 8 Hk), Hms1 by lia.
    by rewrite load64_store64_ne, load64_store64_eq, u64_small by lia.
  - done.
  - rewrite load64_store64_eq. by apply u64_small.
  - intros r Hr. destruct (kept_system r Hr) as [_ Hne]. autorewrite with proc.
    rewrite !reg_set_ne by (intros <-; revert Hr; compute_done). rewrite Hr2 by done.
    assert (but [RSP] s s1) as Hb1 by (unfold s1; repeat but_step). apply Hb1. set_solver.
  - exact H642.
  - eapply keeps_trans; [by apply stack_keeps|]. eapply keeps_trans; [exact Hkp2|]. apply stack_keeps, push_stack. lia.
Qed.

(** The state in which [kernel_early] starts. *)
Record at_kernel_early (s : proc) : Prop := {
  ke_64 : p_64 s = true;
  ke_argument : p_reg s RDI = info p;
  ke_stack : (p_reg s RSP + 8) mod 16 = 0 /\ load64 (p_mem s) (p_reg s RSP) = ret_early p;
  ke_code : p_reg s CS = 8;
  ke_data : forall r, r ∈ segment_regs -> p_reg s r = 16;
  ke_gdt : gdt_loaded s
}.

Lemma kernel_start_run (constructors : ST proc unit) s :
  abi_ok constructors -> laid_out (p_mem s) ->
  p_64 s = true -> p_reg s CS = 8 -> p_reg s RBX = info p ->
  exists s', kernel_start p constructors s = Done (tt, s') /\ at_kernel_early s' /\
    (forall r, r ∈ [CR0; CR3; CR4; EFER] -> p_reg s' r = p_reg s r) /\ keeps (p_mem s) (p_mem s').
Proof.
  intros Habi [_ _ Ht Hgr _ Hal _ _ Hinfo [Hri Hre]] H64 Hcs Hbx.
  destruct (kernel_gdt_at _ _ Ht) as (_ & _ & Hlim & Hbase).
  unfold kernel_start, lgdt64. proc. set (s1 := set_reg GDT_BASE _ _).
  assert (gdt_loaded s1) as Hg1.
  { split; unfold s1; autorewrite with proc; [done| |done|by rewrite Hcs].
    replace (kernel_gdt p + 40 + 2) with (kernel_gdt p + 42) by lia. rewrite Hbase. apply u64_small. lia. }
  destruct (load_segments_run s1 Hg1) as (s2 & H2 & Hseg2 & Hb2 & Hm2 & H642).
  { unfold s1. autorewrite with proc. fold top. lia. }
  assert (forall r, r ∉ (RAX :: segment_regs) -> r ∉ [GDT_BASE; GDT_LIMIT; RDI; RBP; RSP] -> p_reg s2 r = p_reg s r) as Hsame.
  { intros r Hr Hr'. rewrite Hb2 by done.
    assert (but [GDT_BASE; GDT_LIMIT; RDI; RBP; RSP] s s1) as Hb1 by (unfold s1; repeat but_step). by apply Hb1. }
  assert (p_reg s2 RDI = info p) as Hdi2 by (rewrite Hb2 by compute_done; unfold s1; by autorewrite with proc).
  rewrite (bind_done _ _ _ _ _ H2).
  destruct (init_call_run constructors s2) as (s3 & H3 & Hdi3 & Hsp3 & Hra & Hr3 & H643 & Hk3);
    [done|by rewrite H642| |by rewrite Hdi2|done|done|].
  { rewrite Hb2 by compute_done. unfold s1. autorewrite with proc. fold top. lia. }
  assert (keeps (p_mem s) (p_mem s3)) as Hk by (eapply keeps_trans; [by apply stack_keeps, Hm2|exact Hk3]).
  assert (image (p_mem s3) (kernel_gdt p) (kernel_gdt64 (kernel_gdt p))) as Ht3 by (by apply (table_kept (p_mem s))).
  exists s3. split; [exact H3|]. split; [|split; [|exact Hk]].
  - split; [done|by rewrite Hdi3| |by rewrite Hr3, Hsame by compute_done| |].
    + rewrite Hsp3. split; [|done]. fold top in Hal. lia_div.
    + intros r Hr. rewrite Hr3; [by apply Hseg2|]. unfold segment_regs in Hr. set_solver.
    + destruct Hg1 as [Hl1 Hb1 _ Hc1]. split; [| |done|]; by rewrite Hr3, Hb2 by compute_done.
  - intros r Hr. destruct (control_kept r Hr) as (Hkr & Hn1 & Hn2). rewrite Hr3 by done. by apply Hsame.
Qed.
End Start.
End Enter.

(** ** Theorems *)

(** The kernel's descriptor for code can be loaded again: by [iretq], and by the
    gates of the interrupt table, which name it. *)
Lemma gate_segment p s : gdt_loaded p s -> descriptor 8 s = Done (kernel_code, s).
Proof.
  intros [Hl Hb Ht _]. destruct (kernel_gdt_at _ _ Ht) as (Hd & _).
  unfold descriptor. proc. rewrite Hl, Hb. change (Z.ldiff 8 7) with 8. by rewrite Hd.
Qed.

(** C29. The two tests run and leave the stack pointer and all flags but the status
    flags as they were; [check_cpuid] finds out whether the processor lets the ID
    flag be written, and [check_longmode] whether [cpuid] reports long mode; with
    their results [awd_cpu_requirements] goes on exactly if both do, and stops
    with the message that names what is missing otherwise. *)
Theorem cpu_checks_correct (C : Cpu) (Cok : CpuOk C) (s : proc) (a : awd)
    (Hflags : flags_ok (p_reg s FLAGS)) (Hsp : 0 <= p_reg s RSP < 2 ^ 32) :
  exists has_cpuid s1 has_lm s2,
    check_cpuid s = Done (has_cpuid, s1) /\ check_longmode s1 = Done (has_lm, s2) /\
    p_reg s2 RSP = p_reg s RSP /\ same_controls (p_reg s FLAGS) (p_reg s2 FLAGS) /\
    awd_cpu_requirements has_cpuid has_lm a =
      if Z.testbit writable 21 then
        if has_long_mode then Done (tt, a)
        else Stopped (Panic "CPU does not support longmode. Unable to boot...")
      else Stopped (Panic "CPU does not support CPUID. Unable to boot...").
Proof.
  destruct (check_cpuid_run Cok s Hflags Hsp) as (s1 & H1 & Hs1 & Hf1).
  destruct (check_longmode_run s1) as (s2 & H2 & Hs2 & Hf2).
  do 4 eexists. split; [exact H1|]. split; [exact H2|]. split; [by rewrite Hs2|].
  split; [unfold same_controls in *; by rewrite Hf2|].
  by destruct (Z.testbit writable 21), has_long_mode.
Qed.

(** A boot loader finds the header by its checksum, and by the multiboot
    specification starts AWD with the magic number and the address of its
    structure in EAX and EBX: then [awd_main] is called with them as its two
    arguments, with interrupts off, and accepts the magic number. *)
Theorem awd_starts (p : places) (s : proc) (a : awd)
    (Htop : 16 <= awd_stack_top p < 2 ^ 32) (Hmagic : p_reg s RAX = 732803074) (Hmb : 0 <= p_reg s RBX < 2 ^ 32) :
  u32 (MAGIC + MB_FLAGS + CHECKSUM) = 0 /\ length multiboot_header = 12%nat /\
  exists s', awd_start p s = Done (tt, s') /\
    cdecl_arg 1 s' = p_reg s RBX /\ Z.testbit (p_reg s' FLAGS) 9 = false /\
    multiboot_verify (cdecl_arg 0 s') a = Done (tt, a).
Proof.
  split; [done|]. split; [done|]. unfold awd_start, cli. proc. do 2 (stack_step; proc). unfold push32. proc.
  assert (forall k, 4 <= k <= 16 -> awd_stack_top p -32 k = awd_stack_top p - k) as Hsub
    by (intros k Hk; apply u32_small; lia).
  eexists. split; [reflexivity|]. unfold cdecl_arg. autorewrite with proc. rewrite Hmagic, !Hsub, !u32_small by lia. split_and!.
  - rewrite (load_store_ne 4 4), (load_store_ne 4 4) by lia.
    replace (awd_stack_top p - 4 - 4 - 4 + 4 + 4 * 1) with (awd_stack_top p - 4) by lia.
    etrans; [apply (load_store_eq 4)|]. apply Z.mod_small. lia.
  - by rewrite Z.ldiff_spec, andb_false_r.
  - rewrite (load_store_ne 4 4) by lia.
    replace (awd_stack_top p - 4 - 4 - 4 + 4 + 4 * 0) with (awd_stack_top p - 4 - 4) by lia.
    by replace (load32 _ _) with 732803074 by (symmetry; apply (load_store_eq 4)).
Qed.

(** On a processor with long mode, [paging_enable] turns it on with AWD's page
    tables; and from any later state with the same control registers, in which
    both programs lie in memory as the linkers placed them, [kernel_enter] and
    the kernel's own entry reach [kernel_early]: no instruction faults on the
    way, the code runs in 64-bit mode in a code segment of the kernel's table
    that the gates of its interrupt table can name, the data segments are
    loaded, the argument is the address of [awd_info], and the stack is
    aligned as the ABI asks. *)
Theorem kernel_entered (C : Cpu) (p : places) (constructors : ST proc unit) (s : proc)
    (Hlm : has_long_mode = true) (Hpe : Z.testbit (p_reg s CR0) PE = true) (Hcpl : Z.land (p_reg s CS) 3 = 0)
    (Habi : abi_ok p constructors) :
  exists s1, paging_enable p s = Done (tt, s1) /\ p_mem s1 = p_mem s /\
    forall s2, (forall r, r ∈ [CS; CR0; CR3; CR4; EFER] -> p_reg s2 r = p_reg s1 r) -> laid_out p (p_mem s2) ->
      exists s3, enter_lobo p constructors s2 = Done (tt, s3) /\ at_kernel_early p s3 /\
        p_reg s3 CR3 = paging_pml4 p /\ long_mode_active s3 = true /\
        (exists d, descriptor 8 s3 = Done (d, s3) /\ code_ok 0 d = true /\ desc_long d = true) /\
        keeps p (p_mem s2) (p_mem s3).
Proof.
  destruct (paging_enable_run p s Hlm Hpe Hcpl) as (s1 & H1 & [Hact Hcr3 Hc] & Hm & _).
  exists s1. split; [exact H1|]. split; [exact Hm|]. intros s2 Hsame Hlaid.
  assert (long_mode_on p s2) as Hon2.
  { split; unfold long_mode_active in *; by rewrite !Hsame by compute_done. }
  destruct (kernel_enter_run p s2 Hon2 Hlaid) as (s3 & H3 & Hip & Hbx & Hcs & H64 & Hm3 & Hb3).
  unfold enter_lobo. rewrite (bind_done _ _ _ _ _ H3). proc. rewrite Hip, Z.eqb_refl. unfold bits64. proc. rewrite H64.
  pose proof (lo_stack_range p _ Hlaid) as Htop. pose proof (lo_stack_apart p _ Hlaid) as Hap. rewrite <- Hm3 in Hlaid.
  destruct (kernel_start_run p Htop Hap constructors s3 Habi Hlaid H64 Hcs Hbx) as (s4 & H4 & He & Hr4 & Hk4).
  exists s4. split; [exact H4|]. split; [exact He|].
  assert (forall r, r ∈ [CR0; CR3; CR4; EFER] -> p_reg s4 r = p_reg s2 r) as Hcr.
  { intros r Hr. rewrite Hr4 by done. apply Hb3. set_solver. }
  destruct Hon2 as [Hact2 Hcr32 _]. split; [by rewrite Hcr by compute_done|].
  split; [unfold long_mode_active in *; by rewrite !Hcr by compute_done|].
  split; [|by rewrite <- Hm3]. exists kernel_code. split; [apply (gate_segment p), ke_gdt, He|]. by vm_compute.
Qed.

(** ** Witnesses *)

(** A processor with [cpuid] and long mode. *)
Definition sample_cpu : Cpu := {|
  writable := 2392021;
  cpuid_leaf leaf := if leaf =? 2147483648 then (2147483656, 0, 0, 0) else (0, 0, 0, 739248128);
  status _ := 0
|}.
Definition old_cpu : Cpu := {| writable := 294869; cpuid_leaf _ := (0, 0, 0, 0); status v := v |}.
Lemma sample_cpu_ok : CpuOk sample_cpu.
Proof. by split. Qed.
Lemma old_cpu_ok : CpuOk old_cpu.
Proof. by split. Qed.

Definition sample_places : places := Places
  1056000 1049000 1048576 1052672 1053000 1053104
  18446744071564165184 18446744071564173120 18446744071564165120 18446744071564165268 18446744071564165288.
Definition sample_image : mem :=
  store64 (poke (poke ∅ 1052672 (awd_gdt64 1052672)) 18446744071564165120 (kernel_gdt64 18446744071564165120))
    1053000 18446744071564165184.
Definition sample_proc : proc :=
  Proc (<[RAX := 732803074]> (<[RBX := 65536]> (<[FLAGS := 582]> (<[CR0 := 17]> (<[CS := 16]> (<[RSP := 32768]> (fun _ => 0)))))))
    sample_image false.

Lemma cpu_checks_correct_witness :
  (exists r s1 l s2, @check_cpuid sample_cpu sample_proc = Done (r, s1) /\ @check_longmode sample_cpu s1 = Done (l, s2) /\
     awd_cpu_requirements r l sample_awd = Done (tt, sample_awd)) /\
  (exists r s1 l s2, @check_cpuid old_cpu sample_proc = Done (r, s1) /\ @check_longmode old_cpu s1 = Done (l, s2) /\
     awd_cpu_requirements r l sample_awd = Stopped (Panic "CPU does not support CPUID. Unable to boot...")).
Proof.
  split.
  - destruct (cpu_checks_correct sample_cpu sample_cpu_ok sample_proc sample_awd) as (r & s1 & l & s2 & H1 & H2 & _ & _ & H);
      [by vm_compute|by vm_compute|]. exists r, s1, l, s2. split; [exact H1|]. split; [exact H2|]. exact H.
  - destruct (cpu_checks_correct old_cpu old_cpu_ok sample_proc sample_awd) as (r & s1 & l & s2 & H1 & H2 & _ & _ & H);
      [by vm_compute|by vm_compute|]. exists r, s1, l, s2. split; [exact H1|]. split; [exact H2|]. exact H.
Defined.

Lemma awd_starts_witness :
  exists s', awd_start sample_places sample_proc = Done (tt, s') /\ cdecl_arg 1 s' = 65536.
Proof.
  destruct (awd_starts sample_places sample_proc sample_awd) as (_ & _ & s' & H & Hb & _);
    [by vm_compute|reflexivity|by vm_compute|]. exists s'. split; [exact H|exact Hb].
Defined.

Fixpoint holds_bytes (m : mem) (a : Z) (l : list Z) : bool :=
  match l with [] => true | b :: l' => (mget m a =? b) && holds_bytes m (a + 1) l' end.
Lemma holds_image m a l : holds_bytes m a l = true -> image m a l.
Proof.
  revert a. induction l as [|x l IH]; intros a H i b Hi; [done|].
  apply andb_prop in H as [Hx%Z.eqb_eq Hl]. destruct i as [|i].
  - injection Hi as <-. by rewrite Z.add_0_r.
  - replace (a + Z.of_nat (S i)) with (a + 1 + Z.of_nat i) by lia. by apply IH.
Qed.

Lemma sample_laid_out : laid_out sample_places sample_image.
Proof.
  split; try (cbn; lia).
  - by apply holds_image; vm_compute.
  - by apply holds_image; vm_compute.
  - by vm_compute.
  - done.
  - intros b Hb. unfold kept_byte, kernel_mem_base in Hb. cbn in *. lia.
Qed.

(** Constructors that use a register of their own and the stack below. *)
Definition sample_constructors : ST proc unit := push64 5 ;; pop64 RCX.
Lemma sample_abi_ok : abi_ok sample_places sample_constructors.
Proof.
  intros s _ Hsp. eexists. split; [reflexivity|]. cbn [kernel_stack_top sample_places] in *.
  split; autorewrite with proc; rewrite ?Hsp.
  - intros r Hr. destruct (decide (r = RSP)) as [->|Hne]; [by rewrite reg_set_eq, Hsp|].
    rewrite !reg_set_ne, reg_set_mem, reg_set_ne by (intros <-; (done || revert Hr; compute_done)). done.
  - done.
  - intros a Ha. symmetry. apply (mget_store_ne 8). rewrite u64_small by lia. cbn. lia.
  - intros a Ha. symmetry. apply (mget_store_ne 8). rewrite u64_small by lia.
    unfold kept_byte, kernel_mem_base in Ha. cbn in *. lia.
Qed.

Lemma kernel_entered_witness :
  exists s1 s3, @paging_enable sample_cpu sample_places sample_proc = Done (tt, s1) /\
    enter_lobo sample_places sample_constructors s1 = Done (tt, s3) /\
    p_reg s3 RDI = 1053104 /\ p_reg s3 CR3 = 1048576.
Proof.
  destruct (kernel_entered sample_cpu sample_places sample_constructors sample_proc) as (s1 & H1 & Hm & H);
    [reflexivity|reflexivity|reflexivity|exact sample_abi_ok|].
  destruct (H s1) as (s3 & H3 & He & Hcr & _); [done|rewrite Hm; exact sample_laid_out|].
  exists s1, s3. split; [exact H1|]. split; [exact H3|]. split; [exact (ke_argument _ _ He)|exact Hcr].
Defined.
