(* ===== verification/LogDevices.v ===== *)
(** The two devices the kernel logs to: the text console
    (src/src/lobo/arch/x86_64/drivers/vga_console.cpp) over the text buffer, with
    the abstract terminal it implements, and the serial port (uart.cpp). *)

From S2P Require Import Prelude Memory TextScreen.
Local Open Scope Z_scope.
Local Open Scope mach_scope.

(** ** vga_console.cpp *)

Definition vga_width : Z := 80.
Definition vga_height : Z := 25.
Record vga_dev := Vga {
  bufferAddr : Z;
  vga_x : Z;
  vga_y : Z;
  vga_leftColumn : Z;
  vga_attribute : Z;
}.
Record vga_console := VgaConsole { vd : vga_dev; vmem : mem }.

Definition vga_set_xy (x y : Z) (s : vga_console) : vga_console :=
  VgaConsole (Vga (bufferAddr (vd s)) x y (vga_leftColumn (vd s)) (vga_attribute (vd s))) (vmem s).
Definition vga_offset (x y : Z) : Z := u32 ((y * vga_width + x) * 2).

Definition vga_Init (curX curY : Z) (s : vga_console) : vga_console :=
  VgaConsole (Vga 753664 curX curY (vga_leftColumn (vd s)) (vga_attribute (vd s))) (vmem s).

(** One iteration of the inner loop: line [yi + 1] to line [yi]. *)
Definition vga_scroll_cell (yi xi : Z) (s : vga_console) : vga_console :=
  let buffer := bufferAddr (vd s) in
  let offsetI := vga_offset xi (yi + 1) in
  let offsetP := vga_offset xi (yi + 1 - 1) in
  let m := mput (vmem s) (buffer + offsetP) (mget (vmem s) (buffer + offsetI)) in
  VgaConsole (vd s) (mput m (buffer + (offsetP +32 1)) (mget m (buffer + (offsetI +32 1)))).

(** The two loops of the scroll: lines up, last line cleared. *)
Definition vga_copy_lines (s : vga_console) : vga_console :=
  for_upto (vga_height - 1) (fun yi => for_upto vga_width (vga_scroll_cell yi)) s.
Definition vga_clear_cell (xi : Z) (s : vga_console) : vga_console :=
  VgaConsole (vd s) (mput (vmem s) (bufferAddr (vd s) + vga_offset xi (vga_height - 1)) 32).
Definition vga_clear_line (s : vga_console) : vga_console := for_upto vga_width vga_clear_cell s.

Definition vga_scroll (s : vga_console) : vga_console :=
  let s := vga_copy_lines s in
  vga_clear_line (vga_set_xy (vga_x (vd s)) (vga_y (vd s) - 1) s).

Definition vga_AttemptScroll (s : vga_console) : vga_console :=
  let s := if vga_width <=? vga_x (vd s) then vga_set_xy (vga_leftColumn (vd s)) (vga_y (vd s) + 1) s else s in
  if vga_height <=? vga_y (vd s) then vga_scroll s else s.

Definition vga_PrintChar (c : Z) (s : vga_console) : vga_console :=
  let buffer := bufferAddr (vd s) in
  let x := vga_x (vd s) in
  let y := vga_y (vd s) in
  let left := vga_leftColumn (vd s) in
  vga_AttemptScroll (
    if c =? 10 then vga_set_xy left (y + 1) s
    else if c =? 8 then
      let x' := if x - 1 <? left then left else x - 1 in
      VgaConsole (vd (vga_set_xy x' y s)) (mput (vmem s) (buffer + vga_offset x' y) 32)
    else
      let offset := vga_offset x y in
      vga_set_xy (x + 1) y (VgaConsole (vd s)
        (mput (mput (vmem s) (buffer + offset) c) (buffer + (offset +32 1)) (vga_attribute (vd s))))).

Definition vga_Clear (s : vga_console) : vga_console := vga_set_xy 0 0 s.

Definition vga_FormatSetLeftColumn (column : Z) (s : vga_console) : vga_console :=
  VgaConsole (Vga (bufferAddr (vd s)) (vga_x (vd s)) (vga_y (vd s)) column (vga_attribute (vd s))) (vmem s).

(** ** The abstract terminal *)

Record vterm := VTerm {
  vt_rows : list (list cell);
  vt_x : Z;
  vt_y : Z;
  vt_left : Z;
  vt_attr : Z;
}.

Definition erase (ce : cell) : cell := (32, ce.2).

(** A new line at the left column; at the bottom the rows move up, and the last
    row keeps its colours. *)
Definition vt_newline (t : vterm) : vterm :=
  if vt_y t =? 24
  then VTerm (tail (vt_rows t) ++ [erase <$> default [] (last (vt_rows t))]) (vt_left t) 24 (vt_left t) (vt_attr t)
  else VTerm (vt_rows t) (vt_left t) (vt_y t + 1) (vt_left t) (vt_attr t).

Definition vt_change (f : cell -> cell) (x y : Z) (t : vterm) : list (list cell) :=
  alter (alter f (Z.to_nat x)) (Z.to_nat y) (vt_rows t).

Definition vt_put (c : Z) (t : vterm) : vterm :=
  if c =? 10 then vt_newline t
  else if c =? 8 then
    let x := Z.max (vt_x t - 1) (vt_left t) in
    VTerm (vt_change erase x (vt_y t) t) x (vt_y t) (vt_left t) (vt_attr t)
  else
    let t' := VTerm (vt_change (fun _ => (c, vt_attr t)) (vt_x t) (vt_y t) t) (vt_x t + 1) (vt_y t)
                (vt_left t) (vt_attr t) in
    if vt_x t =? 79 then vt_newline t' else t'.

Definition vt_set_left (column : Z) (t : vterm) : vterm :=
  VTerm (vt_rows t) (vt_x t) (vt_y t) column (vt_attr t).

Definition vt_print (cs : list Z) (t : vterm) : vterm := foldl (fun t c => vt_put c t) t cs.

Definition vga_abs (s : vga_console) : vterm :=
  VTerm (screen (vmem s)) (vga_x (vd s)) (vga_y (vd s)) (vga_leftColumn (vd s)) (vga_attribute (vd s)).

(** The cursor and the left column are on the screen. *)
Record vga_ok (s : vga_console) : Prop := {
  vo_addr : bufferAddr (vd s) = vga;
  vo_x : 0 <= vga_x (vd s) < 80;
  vo_y : 0 <= vga_y (vd s) < 25;
  vo_left : 0 <= vga_leftColumn (vd s) < 80;
  vo_attr : 0 <= vga_attribute (vd s) < 256;
}.

(** ** Refinement *)

Lemma vga_offset_ok x y : in_screen y x -> vga_offset x y = 2 * (80 * y + x).
Proof. unfold in_screen, vga_offset, vga_width. intros H. rewrite u32_small by lia. lia. Qed.

Lemma vga_copy s yi xi :
  bufferAddr (vd s) = vga -> 0 <= yi < 24 -> 0 <= xi < 80 ->
  vd (vga_scroll_cell yi xi s) = vd s /\ vmem (vga_scroll_cell yi xi s) = copy_cell yi xi (vmem s).
Proof.
  intros Ha Hy Hx. split; [done|]. unfold vga_scroll_cell, copy_cell. cbn [vmem]. rewrite Ha.
  rewrite !vga_offset_ok by (unfold in_screen; lia). rewrite !u32_small by lia.
  rewrite mget_mput_ne by lia. repeat (f_equal; try lia).
Qed.

Lemma vga_copy_run s :
  bufferAddr (vd s) = vga ->
  vd (vga_copy_lines s) = vd s /\ outside_screen (vmem (vga_copy_lines s)) (vmem s) /\
  forall r c, in_screen r c ->
    cell_at (vmem (vga_copy_lines s)) r c = cell_at (vmem s) (if decide (r < 24) then r + 1 else r) c.
Proof.
  intros Ha. apply (scroll_loops_ok vmem (fun s' => vd s' = vd s) vga_scroll_cell); [|done].
  intros line x t Ht Hline Hx. rewrite <- Ht. apply vga_copy; [by rewrite Ht|done|done].
Qed.

(** Erasing the last line. *)
Lemma vga_clear_run s :
  bufferAddr (vd s) = vga ->
  vd (vga_clear_line s) = vd s /\ outside_screen (vmem (vga_clear_line s)) (vmem s) /\
  forall r c, in_screen r c -> cell_at (vmem (vga_clear_line s)) r c =
    if decide (r = 24) then erase (cell_at (vmem s) r c) else cell_at (vmem s) r c.
Proof.
  intros Ha.
  destruct (for_upto_ind (fun x s' => vd s' = vd s /\ outside_screen (vmem s') (vmem s) /\
    forall r c, in_screen r c -> cell_at (vmem s') r c =
      if decide (r = 24 /\ c < x) then erase (cell_at (vmem s) r c) else cell_at (vmem s) r c)
    vga_width vga_clear_cell s) as (Hd & Hout & Hcell); [done| | |].
  - split; [done|]. split; [apply outside_screen_refl|]. intros r c [Hr Hc]. by rewrite decide_False by lia.
  - intros x s1 Hx (Hd1 & Hout1 & Hcell1). unfold vga_width in Hx. unfold vga_clear_cell.
    cbn [vd vmem]. rewrite Hd1, Ha. change (vga_height - 1) with 24.
    assert (in_screen 24 x) as Hrc by (unfold in_screen; lia). rewrite vga_offset_ok by done.
    split; [done|]. split; [eapply outside_screen_trans; [by apply outside_put|done]|].
    intros r c Hrc'. rewrite cell_at_put, Hcell1 by done. change (u8 32) with 32.
    unfold in_screen in Hrc'. unfold erase. repeat case_decide; try done; lia.
  - split; [done|]. split; [done|]. intros r c Hrc. unfold vga_clear_line. rewrite Hcell by done.
    unfold in_screen, vga_width in *. repeat case_decide; try done; lia.
Qed.

(** What an operation on the console guarantees. *)
Definition vga_implements (s s' : vga_console) (t : vterm) : Prop :=
  vga_ok s' /\ vga_abs s' = t /\ outside_screen (vmem s') (vmem s).

Lemma last_row m : last (screen m) = Some (cell_at m 24 <$> seqZ 0 80).
Proof. rewrite last_lookup. apply (screen_row m 24). lia. Qed.

(** [AttemptScroll] when the cursor may have left the screen by one column or
    one line. *)
Lemma scroll_none s : vga_ok s -> vga_AttemptScroll s = s.
Proof.
  intros [Ha Hx Hy Hl Hat]. unfold vga_AttemptScroll, vga_width, vga_height.
  assert ((80 <=? vga_x (vd s)) = false) as -> by lia.
  by assert ((25 <=? vga_y (vd s)) = false) as -> by lia.
Qed.

Lemma scroll_wrap s :
  vga_x (vd s) = 80 -> 0 <= vga_leftColumn (vd s) < 80 ->
  vga_AttemptScroll s = vga_AttemptScroll (vga_set_xy (vga_leftColumn (vd s)) (vga_y (vd s) + 1) s).
Proof.
  intros Hx Hl. set (s1 := vga_set_xy _ _ s).
  assert (vga_AttemptScroll s = if vga_height <=? vga_y (vd s1) then vga_scroll s1 else s1) as ->.
  { unfold vga_AttemptScroll. by rewrite Hx. }
  unfold vga_AttemptScroll. change (vga_x (vd s1)) with (vga_leftColumn (vd s)).
  by assert ((vga_width <=? vga_leftColumn (vd s)) = false) as -> by (unfold vga_width; lia).
Qed.

Lemma vga_scroll_eq s : vga_scroll s =
  vga_clear_line (vga_set_xy (vga_x (vd (vga_copy_lines s))) (vga_y (vd (vga_copy_lines s)) - 1) (vga_copy_lines s)).
Proof. reflexivity. Qed.

Lemma scroll_run s :
  bufferAddr (vd s) = vga ->
  vd (vga_scroll s) = vd (vga_set_xy (vga_x (vd s)) (vga_y (vd s) - 1) s) /\
  outside_screen (vmem (vga_scroll s)) (vmem s) /\
  screen (vmem (vga_scroll s)) = tail (screen (vmem s)) ++ [erase <$> default [] (last (screen (vmem s)))].
Proof.
  intros Ha. rewrite vga_scroll_eq. destruct (vga_copy_run s Ha) as (Hd & Hout & Hcell).
  revert Hd Hout Hcell. generalize (vga_copy_lines s). intros s2 Hd Hout Hcell.
  destruct (vga_clear_run (vga_set_xy (vga_x (vd s2)) (vga_y (vd s2) - 1) s2)) as (Hd3 & Hout3 & Hcell3).
  { cbn [vga_set_xy vd bufferAddr]. by rewrite Hd. }
  split; [rewrite Hd3; unfold vga_set_xy; cbn [vd]; rewrite Hd; reflexivity|].
  split; [by eapply outside_screen_trans|].
  rewrite last_row. cbn [default from_option id]. rewrite <- list_fmap_compose.
  apply screen_shift. intros r c Hrc. rewrite Hcell3 by done. cbn [vga_set_xy vmem].
  rewrite !Hcell by done. unfold in_screen in Hrc. simpl.
  repeat case_decide; try done; try lia. by replace r with 24 by lia.
Qed.

Lemma newline_run s :
  bufferAddr (vd s) = vga -> 0 <= vga_y (vd s) < 25 -> 0 <= vga_leftColumn (vd s) < 80 ->
  0 <= vga_attribute (vd s) < 256 ->
  vga_implements s (vga_AttemptScroll (vga_set_xy (vga_leftColumn (vd s)) (vga_y (vd s) + 1) s))
    (vt_newline (vga_abs s)).
Proof.
  intros Ha Hy Hl Hat. set (s1 := vga_set_xy (vga_leftColumn (vd s)) (vga_y (vd s) + 1) s).
  assert (vga_AttemptScroll s1 = if vga_y (vd s) =? 24 then vga_scroll s1 else s1) as ->.
  { unfold vga_AttemptScroll, vga_width, vga_height. change (vga_x (vd s1)) with (vga_leftColumn (vd s)).
    assert ((80 <=? vga_leftColumn (vd s)) = false) as -> by lia.
    change (vga_y (vd s1)) with (vga_y (vd s) + 1).
    by replace (25 <=? vga_y (vd s) + 1) with (vga_y (vd s) =? 24) by lia. }
  unfold vga_implements, vt_newline. cbn [vga_abs vt_y vt_left vt_attr vt_rows].
  destruct (vga_y (vd s) =? 24) eqn:E.
  - destruct (scroll_run s1 Ha) as (Hd & Hout & Hscr).
    assert (vga_y (vd s1) - 1 = 24) as Hy1 by (cbn; lia).
    split; [by split; rewrite Hd; cbn [vga_set_xy vd vga_y]; rewrite ?Hy1; cbn; try lia|].
    split; [|exact Hout]. unfold vga_abs. rewrite Hd, Hscr.
    cbn [vga_set_xy vd vga_x vga_y vga_leftColumn vga_attribute]. by rewrite Hy1.
  - split; [split; cbn; try done; lia|]. split; [done|apply outside_screen_refl].
Qed.

Lemma vga_print_run c s :
  vga_ok s -> 0 <= c < 256 -> vga_implements s (vga_PrintChar c s) (vt_put c (vga_abs s)).
Proof.
  intros Hok Hc. pose proof Hok as [Ha Hx Hy Hl Hat]. unfold vga_PrintChar, vt_put.
  destruct (c =? 10); [by apply newline_run|]. destruct (c =? 8).
  - set (x' := if vga_x (vd s) - 1 <? vga_leftColumn (vd s) then _ else _).
    assert (x' = Z.max (vga_x (vd s) - 1) (vga_leftColumn (vd s))) as Hx'.
    { unfold x'. destruct (vga_x (vd s) - 1 <? vga_leftColumn (vd s)) eqn:E; lia. }
    clearbody x'. assert (in_screen (vga_y (vd s)) x') as Hin by (unfold in_screen; lia).
    rewrite scroll_none by (split; cbn; try done; lia).
    rewrite Ha, vga_offset_ok by done. split; [split; cbn; try done; lia|].
    split; [|by apply outside_put]. unfold vga_abs, vt_change. cbn. rewrite <- Hx'. f_equal.
    apply screen_update; [done|]. intros r' c' Hrc. by rewrite cell_at_put.
  - assert (in_screen (vga_y (vd s)) (vga_x (vd s))) as Hin by (unfold in_screen; lia).
    rewrite Ha, vga_offset_ok by done. rewrite u32_small by (unfold in_screen in Hin; lia).
    set (m' := mput (mput (vmem s) _ c) _ _).
    assert (screen m' = vt_change (fun _ => (c, vga_attribute (vd s))) (vga_x (vd s)) (vga_y (vd s)) (vga_abs s)) as Hm.
    { unfold m'. rewrite Z.add_assoc. by apply screen_write. }
    assert (outside_screen m' (vmem s)) as Hout by (unfold m'; rewrite Z.add_assoc; by apply outside_write).
    clearbody m'. set (s1 := vga_set_xy (vga_x (vd s) + 1) (vga_y (vd s)) (VgaConsole (vd s) m')).
    cbn [vga_abs vt_x vt_y vt_left vt_attr]. rewrite <- Hm.
    change (VTerm (screen m') (vga_x (vd s) + 1) (vga_y (vd s)) (vga_leftColumn (vd s)) (vga_attribute (vd s))) with (vga_abs s1).
    destruct (vga_x (vd s) =? 79) eqn:E.
    + destruct (newline_run s1) as (H1 & H2 & H3); [done..|].
      rewrite (scroll_wrap s1) by (cbn; lia).
      split; [done|]. split; [done|]. eapply outside_screen_trans; [exact H3|done].
    + rewrite scroll_none by (split; cbn; try done; lia).
      split; [split; cbn; try done; lia|]. by split.
Qed.
