(* ===== verification/KernelLog.v ===== *)
(** The kernel's log (src/src/lobo/log/log.cpp, version.cpp and the output
    functions of libc_helpers.cpp) over its devices: the serial port
    (arch/x86_64/drivers/uart.cpp) and the text console of [LogDevices].  A
    device is one of the two classes; a call through the device interface goes
    to the class's function.

    The status register of the serial port is not predictable: [line_status] is
    what reading it will give, for any finite time after which it says ready. *)

From S2P Require Import Prelude Memory Format VprintfSpec TextScreen LogDevices.
Local Open Scope Z_scope.
Local Open Scope mach_scope.

(** ** uart.cpp *)

Record uart_dev := Uart {
  deviceInit : bool;
  uart_leftColumn : Z;
  line_status : list Z;
  uart_out : list (Z * Z);
}.

Definition uart_outb (port value : Z) : ST uart_dev unit :=
  modify (fun u => Uart (deviceInit u) (uart_leftColumn u) (line_status u) (uart_out u ++ [(port, u8 value)])).
Definition uart_inb_status : ST uart_dev Z :=
  u ← get;
  match line_status u with
  | [] => mret 32
  | b :: l => modify (fun u => Uart (deviceInit u) (uart_leftColumn u) l (uart_out u)) ;; mret b
  end.

Definition uart_port : Z := 1016.
Definition uart_setup : list (Z * Z) :=
  [(uart_port + 1, 0); (uart_port + 3, 128); (uart_port, 3); (uart_port + 1, 0); (uart_port + 3, 3);
   (uart_port + 2, 199); (uart_port + 4, 11)].

Fixpoint uart_wait (fuel : nat) : ST uart_dev unit :=
  match fuel with
  | O => stop_with OutOfFuel
  | S fuel' => b ← uart_inb_status; if Z.land b 32 =? 0 then uart_wait fuel' else skip
  end.

(** A newline prints a carriage return and the left margin, whose characters
    print themselves only: two levels of the recursion are enough. *)
Fixpoint uart_PrintChar (depth : nat) (c : Z) : ST uart_dev unit :=
  match depth with
  | O => stop_with OutOfFuel
  | S depth' =>
      u ← get;
      when (negb (deviceInit u))
        (forM uart_setup (fun o => uart_outb o.1 o.2) ;;
         modify (fun u => Uart true (uart_leftColumn u) (line_status u) (uart_out u))) ;;
      uart_wait (S (length (line_status u))) ;;
      uart_outb uart_port c ;;
      when (c =? 10)
        (uart_PrintChar depth' 13 ;;
         u ← get;
         forM (seqZ 0 (uart_leftColumn u)) (fun _ => uart_PrintChar depth' 32))
  end.

Definition uart_FormatSetLeftColumn (column : Z) : ST uart_dev unit :=
  modify (fun u => Uart (deviceInit u) column (line_status u) (uart_out u)).

Definition uart_Clear : ST uart_dev unit := skip.
Definition uart_init : ST uart_dev unit := skip.
Definition uart_call : ST uart_dev unit := skip.

(** ** log.cpp *)

Inductive log_device := DevUart | DevVga.
Record log_state := LogState {
  l_uart : uart_dev;
  l_vga : vga_console;
  m_serialOutDevice : option log_device;
  m_terminalOutDevice : option log_device;
  m_backingStore : bool;
  m_fmtLeftColumn : Z;
}.

Definition on_uart (f : ST uart_dev unit) : ST log_state unit := fun s =>
  match f (l_uart s) with
  | Done (_, u) => Done (tt, LogState u (l_vga s) (m_serialOutDevice s) (m_terminalOutDevice s)
                               (m_backingStore s) (m_fmtLeftColumn s))
  | Stopped r => Stopped r
  end.
Definition on_vga (f : vga_console -> vga_console) : ST log_state unit :=
  modify (fun s => LogState (l_uart s) (f (l_vga s)) (m_serialOutDevice s) (m_terminalOutDevice s)
                     (m_backingStore s) (m_fmtLeftColumn s)).

Definition SetSerialLogging (device : option log_device) : ST log_state unit :=
  modify (fun s => LogState (l_uart s) (l_vga s) device (m_terminalOutDevice s) (m_backingStore s) (m_fmtLeftColumn s)).
Definition SetTerminalDevice (device : option log_device) : ST log_state unit :=
  modify (fun s => LogState (l_uart s) (l_vga s) (m_serialOutDevice s) device (m_backingStore s) (m_fmtLeftColumn s)).

Definition dev_PrintChar (d : log_device) (c : Z) : ST log_state unit :=
  match d with DevUart => on_uart (uart_PrintChar 2 c) | DevVga => on_vga (vga_PrintChar c) end.
Definition dev_FormatSetLeftColumn (d : log_device) (column : Z) : ST log_state unit :=
  match d with
  | DevUart => on_uart (uart_FormatSetLeftColumn column)
  | DevVga => on_vga (vga_FormatSetLeftColumn column)
  end.

Definition WriteChar (c : Z) : ST log_state unit :=
  s ← get;
  match m_serialOutDevice s with Some d => dev_PrintChar d c | None => skip end ;;
  when (m_backingStore s) skip ;;
  match m_terminalOutDevice s with Some d => dev_PrintChar d c | None => skip end.

Definition WriteString (s : list Z) : ST log_state unit := print_string_loop WriteChar s.

(** [vprintf_print_helper] and [vprintf_print_helper_string] of the kernel. *)
#[export] Instance log_sink : CharSink log_state := {
  put_char := WriteChar;
  put_string := WriteString;
}.
#[export] Instance log_sink_ok : CharSinkOk log_state.
Proof. done. Qed.

(** The kernel has the padding helper of vprintf a second time, writing to the
    log directly; [vprintf] uses its own. *)
Definition vprintf_print_padding_helper (length : Z) (arg : list Z) (fmt_length_zeropad : bool) : ST log_state unit :=
  if length =? 0 then skip
  else
    n ← lift (c_strlen arg);
    forM (replicate (Z.to_nat (s32 (length - n))) (if fmt_length_zeropad then 48 else 32)) WriteChar.

Definition FormatSetLeftColumn (column : Z) : ST log_state Z :=
  s ← get;
  modify (fun s => LogState (l_uart s) (l_vga s) (m_serialOutDevice s) (m_terminalOutDevice s)
                     (m_backingStore s) column) ;;
  match m_terminalOutDevice s with Some d => dev_FormatSetLeftColumn d column | None => skip end ;;
  match m_serialOutDevice s with Some d => dev_FormatSetLeftColumn d column | None => skip end ;;
  mret (m_fmtLeftColumn s).

(** ["%8s | "] *)
Definition category_items : list item := [Dir false [56] CvStr; Lit 32; Lit 124; Lit 32].

Definition LogArg (category fmt : list Z) (arg : list varg) : ST log_state unit :=
  vprintf (format_string category_items ++ [0]) [VStr category] ;;
  FormatSetLeftColumn 13 ;;
  vprintf fmt arg ;;
  FormatSetLeftColumn 0 ;;
  WriteChar 10.

Definition Log (category fmt : list Z) (arg : list varg) : ST log_state unit := LogArg category fmt arg.
Definition LogRaw (fmt : list Z) (arg : list varg) : ST log_state unit := vprintf fmt arg.

(** ** version.cpp *)

(** A string literal: its bytes and the terminator. *)
Definition text (s : string) : list Z := (fun a => Z.of_nat (Ascii.nat_of_ascii a)) <$> String.list_ascii_of_string s.
Definition literal (s : string) : list Z := text s ++ [0].

Definition kernel_version_print : ST log_state unit :=
  LogRaw (literal " +----------------------------------------------------------------------------+
") [] ;;
  LogRaw (literal "%26sThe Lobo Kernel (v 0.0.0.1)
") [VStr (literal "")] ;;
  LogRaw (literal " +-------+--------------------------------------------------------------------+
") [].

(** ** What is shown and sent *)

(** The bytes a character is on the line. *)
Definition uart_bytes (left c : Z) : list Z :=
  c :: (if c =? 10 then 13 :: replicate (Z.to_nat left) 32 else []).

Record log_view := LogView {
  lw_term : vterm;
  lw_init : bool;
  lw_left : Z;
  lw_sent : list (Z * Z);
}.

Definition view_put (c : Z) (w : log_view) : log_view :=
  LogView (vt_put c (lw_term w)) true (lw_left w)
    (lw_sent w ++ (if lw_init w then [] else uart_setup) ++ (pair uart_port <$> uart_bytes (lw_left w) c)).
Definition view_print (cs : list Z) (w : log_view) : log_view := foldl (fun w c => view_put c w) w cs.
Definition view_left (column : Z) (w : log_view) : log_view :=
  LogView (vt_set_left column (lw_term w)) (lw_init w) column (lw_sent w).

(** A line of the log: the category in eight columns, the text with the left
    margin behind it, a newline. *)
Definition view_line (cat out : list Z) (w : log_view) : log_view :=
  view_put 10 (view_left 0 (view_print out (view_left 13 (view_print (pad false false 8 cat ++ [32; 124; 32]) w)))).

Definition the_view (s : log_state) : log_view :=
  LogView (vga_abs (l_vga s)) (deviceInit (l_uart s)) (uart_leftColumn (l_uart s)) (uart_out (l_uart s)).

(** The devices the kernel sets. *)
Record log_ok (s : log_state) : Prop := {
  lo_serial : m_serialOutDevice s = Some DevUart;
  lo_term : m_terminalOutDevice s = Some DevVga;
  lo_vga : vga_ok (l_vga s);
}.

(** An operation that shows [w]. *)
Definition shows (s : log_state) (w : log_view) (s' : log_state) : Prop :=
  log_ok s' /\ the_view s' = w /\ outside_screen (vmem (l_vga s')) (vmem (l_vga s)).

(** ** Proofs *)

Lemma uart_wait_run u :
  exists l, uart_wait (S (length (line_status u))) u =
    Done (tt, Uart (deviceInit u) (uart_leftColumn u) l (uart_out u)).
Proof.
  destruct u as [i left st out]. cbn [line_status deviceInit uart_leftColumn uart_out].
  induction st as [|b st IH]; [by exists []|]. cbn [length uart_wait].
  assert (uart_inb_status (Uart i left (b :: st) out) = Done (b, Uart i left st out)) as Hb by done.
  destruct IH as [l IH]. exists (if Z.land b 32 =? 0 then l else st). rewrite (bind_done _ _ _ _ _ Hb).
  by destruct (Z.land b 32 =? 0).
Qed.

Lemma uart_PrintChar_S d c u :
  uart_PrintChar (S d) c u =
    (when (negb (deviceInit u))
       (forM uart_setup (fun o => uart_outb o.1 o.2) ;;
        modify (fun u => Uart true (uart_leftColumn u) (line_status u) (uart_out u))) ;;
     uart_wait (S (length (line_status u))) ;;
     uart_outb uart_port c ;;
     when (c =? 10)
       (uart_PrintChar d 13 ;;
        u ← get;
        forM (seqZ 0 (uart_leftColumn u)) (fun _ => uart_PrintChar d 32))) u.
Proof. done. Qed.

(** A character whose printing does not recurse. *)
Lemma uart_plain d c u :
  deviceInit u = true -> (c =? 10) = false ->
  exists l, uart_PrintChar (S d) c u =
    Done (tt, Uart true (uart_leftColumn u) l (uart_out u ++ [(uart_port, u8 c)])).
Proof.
  intros Hi Hc. destruct (uart_wait_run u) as [l Hl]. exists l. rewrite uart_PrintChar_S, Hi. cbn [negb when].
  rewrite (bind_done skip _ u tt u) by done. rewrite (bind_done _ _ _ _ _ Hl), Hc, Hi. done.
Qed.

Lemma uart_margin n i u :
  deviceInit u = true ->
  exists l, forM (seqZ i (Z.of_nat n)) (fun _ => uart_PrintChar 1 32) u =
    Done (tt, Uart true (uart_leftColumn u) l (uart_out u ++ replicate n (uart_port, 32))).
Proof.
  revert i u. induction n as [|n IH]; intros i u Hi.
  - exists (line_status u). rewrite app_nil_r. destruct u. cbn in *. by subst.
  - rewrite seqZ_cons by lia. cbn [forM]. destruct (uart_plain 0 32 u Hi eq_refl) as [l Hl].
    rewrite (bind_done _ _ _ _ _ Hl). replace (Z.pred (Z.of_nat (S n))) with (Z.of_nat n) by lia.
    destruct (IH (Z.succ i) (Uart true (uart_leftColumn u) l (uart_out u ++ [(uart_port, u8 32)])) eq_refl) as [l' Hl'].
    exists l'. rewrite Hl'. cbn [uart_leftColumn uart_out replicate]. rewrite <- app_assoc. done.
Qed.

Lemma uart_outb_bind {B} p v (k : unit -> ST uart_dev B) u :
  (uart_outb p v ≫= k) u =
    k tt (Uart (deviceInit u) (uart_leftColumn u) (line_status u) (uart_out u ++ [(p, u8 v)])).
Proof. done. Qed.

Lemma uart_setup_run u :
  forM uart_setup (fun o => uart_outb o.1 o.2) u =
    Done (tt, Uart (deviceInit u) (uart_leftColumn u) (line_status u) (uart_out u ++ uart_setup)).
Proof.
  assert (forall l u, forM l (fun o => uart_outb o.1 o.2) u =
    Done (tt, Uart (deviceInit u) (uart_leftColumn u) (line_status u) (uart_out u ++ ((fun o => (o.1, u8 o.2)) <$> l)))) as H.
  { induction l as [|o l IH]; intros v; [cbn; rewrite app_nil_r; by destruct v|].
    cbn [forM fmap list_fmap]. rewrite uart_outb_bind, IH.
    cbn [deviceInit uart_leftColumn line_status uart_out]. by rewrite <- app_assoc. }
  by rewrite H.
Qed.

Lemma uart_print_run c u :
  0 <= c < 256 ->
  exists l, uart_PrintChar 2 c u =
    Done (tt, Uart true (uart_leftColumn u) l
      (uart_out u ++ (if deviceInit u then [] else uart_setup) ++ (pair uart_port <$> uart_bytes (uart_leftColumn u) c))).
Proof.
  intros Hc. rewrite uart_PrintChar_S.
  set (u1 := Uart true (uart_leftColumn u) (line_status u) (uart_out u ++ if deviceInit u then [] else uart_setup)).
  assert (when (negb (deviceInit u)) (forM uart_setup (fun o => uart_outb o.1 o.2) ;;
     modify (fun u => Uart true (uart_leftColumn u) (line_status u) (uart_out u))) u = Done (tt, u1)) as H1.
  { unfold u1. destruct u as [[] left st out]; cbn [deviceInit negb when uart_leftColumn line_status uart_out].
    - by rewrite app_nil_r.
    - rewrite (bind_done _ _ _ _ _ (uart_setup_run _)). done. }
  rewrite (bind_done _ _ _ _ _ H1). destruct (uart_wait_run u1) as [l Hl].
  change (line_status u) with (line_status u1). rewrite (bind_done _ _ _ _ _ Hl).
  rewrite uart_outb_bind. cbn [deviceInit uart_leftColumn line_status uart_out].
  rewrite u8_small by done. unfold uart_bytes. destruct (c =? 10) eqn:E; cbn [when].
  - set (u2 := Uart _ _ l _). destruct (uart_plain 0 13 u2 eq_refl eq_refl) as [l3 H3].
    rewrite (bind_done _ _ _ _ _ H3). set (u3 := Uart true _ l3 _).
    rewrite (bind_done get _ u3 u3 u3) by done.
    assert (forall n, exists l', forM (seqZ 0 n) (fun _ => uart_PrintChar 1 32) u3 =
      Done (tt, Uart true (uart_leftColumn u) l' (uart_out u3 ++ replicate (Z.to_nat n) (uart_port, 32)))) as Hm.
    { intros n. destruct (decide (0 <= n)).
      - destruct (uart_margin (Z.to_nat n) 0 u3 eq_refl) as [l' H']. rewrite Z2Nat.id in H' by done. by exists l'.
      - replace (Z.to_nat n) with 0%nat by lia. exists l3. cbn [replicate]. rewrite app_nil_r.
        unfold seqZ. by replace (Z.to_nat n) with 0%nat by lia. }
    destruct (Hm (uart_leftColumn u3)) as [l' H']. exists l'. rewrite H'. do 2 f_equal.
    unfold u3, u2, u1. cbn [uart_out uart_leftColumn fmap list_fmap]. rewrite <- !app_assoc. cbn [app].
    rewrite fmap_replicate. apply Z.eqb_eq in E as ->. done.
  - exists l. unfold u1. cbn [fmap list_fmap uart_leftColumn uart_out]. by rewrite <- !app_assoc.
Qed.

Lemma WriteChar_run c s :
  log_ok s -> 0 <= c < 256 ->
  exists s', WriteChar c s = Done (tt, s') /\ shows s (view_put c (the_view s)) s' /\
    m_fmtLeftColumn s' = m_fmtLeftColumn s.
Proof.
  intros [Hs Ht Hv] Hc. destruct (uart_print_run c (l_uart s) Hc) as [l Hl].
  destruct (vga_print_run c (l_vga s) Hv Hc) as (V1 & V2 & V3).
  unfold WriteChar. rewrite (bind_done get _ s s s) by done. rewrite Hs, Ht. cbn [dev_PrintChar].
  assert (exists s1, on_uart (uart_PrintChar 2 c) s = Done (tt, s1) /\ s1 = LogState (Uart true (uart_leftColumn (l_uart s)) l
    (uart_out (l_uart s) ++ (if deviceInit (l_uart s) then [] else uart_setup) ++
      (pair uart_port <$> uart_bytes (uart_leftColumn (l_uart s)) c))) (l_vga s) (m_serialOutDevice s)
    (m_terminalOutDevice s) (m_backingStore s) (m_fmtLeftColumn s)) as (s1 & H1 & Hs1)
    by (unfold on_uart; rewrite Hl; by eexists).
  rewrite (bind_done _ _ _ _ _ H1), (bind_done _ _ s1 tt s1) by (by destruct (m_backingStore s)).
  eexists. split; [reflexivity|]. rewrite Hs1. split; [|done].
  split; [by split|]. split; [|exact V3]. unfold the_view, view_put. cbn [l_vga l_uart deviceInit uart_leftColumn uart_out].
  rewrite V2. done.
Qed.

Lemma shows_trans s s1 s2 w1 w2 :
  shows s w1 s1 -> shows s1 w2 s2 -> shows s w2 s2.
Proof. intros (_ & _ & H1) (H2 & H3 & H4). split; [done|]. split; [done|]. by eapply outside_screen_trans. Qed.

Lemma emit_run cs s :
  log_ok s -> Forall (fun c => 0 <= c < 256) cs ->
  exists s', emit cs s = Done (tt, s') /\ shows s (view_print cs (the_view s)) s' /\
    m_fmtLeftColumn s' = m_fmtLeftColumn s.
Proof.
  intros Hs Hcs. revert s Hs. induction Hcs as [|c cs Hc _ IH]; intros s Hs.
  - exists s. split; [done|]. split; [|done]. split; [done|]. split; [done|apply outside_screen_refl].
  - destruct (WriteChar_run c s Hs Hc) as (s1 & H1 & S1 & F1).
    destruct (IH s1 (proj1 S1)) as (s2 & H2 & S2 & F2). exists s2.
    split; [unfold emit; cbn [forM]; rewrite (bind_done _ _ _ _ _ H1); exact H2|].
    split; [|by rewrite F2]. destruct S1 as (A1 & A2 & A3). rewrite A2 in S2.
    eapply shows_trans; [|exact S2]. split; [done|]. by split.
Qed.

Lemma left_run column s :
  log_ok s -> 0 <= column < 80 ->
  exists s', FormatSetLeftColumn column s = Done (m_fmtLeftColumn s, s') /\
    shows s (view_left column (the_view s)) s' /\ m_fmtLeftColumn s' = column.
Proof.
  intros [Hs Ht Hv] Hc. unfold FormatSetLeftColumn. rewrite (bind_done get _ s s s) by done.
  rewrite Hs, Ht. eexists. split; [reflexivity|]. split; [|done].
  split; [split; try done; destruct Hv; by split|]. split; [done|apply outside_screen_refl].
Qed.

Lemma literal_run its arg out s :
  log_ok s -> Forall item_ok its -> Forall arg_ok arg -> render its arg = Some out ->
  Forall (fun c => 0 <= c < 256) out -> forall tail,
  exists s', vprintf (format_string its ++ 0 :: tail) arg s = Done (tt, s') /\
    shows s (view_print out (the_view s)) s' /\ m_fmtLeftColumn s' = m_fmtLeftColumn s.
Proof.
  intros Hs Hits Ha Hr Ho tail. destruct (emit_run out s Hs Ho) as (s' & H1 & H2).
  exists s'. split; [|done]. rewrite <- H1.
  apply (ST_eq_at (vprintf_emit (W := log_state) its arg out tail Hits Ha Hr)).
Qed.

Lemma pad_bytes lj z w s :
  Forall (fun c => 0 <= c < 256) s -> Forall (fun c => 0 <= c < 256) (pad lj z w s).
Proof.
  intros Hs. unfold pad. assert (Forall (fun c => 0 <= c < 256)
    (replicate (Z.to_nat (w - Z.of_nat (length s))) (if z then 48 else 32))) as Hr.
  { apply Forall_replicate. destruct z; lia. }
  destruct lj; by apply Forall_app.
Qed.

Lemma LogArg_run its arg out cat tail ctail s :
  log_ok s -> Forall item_ok its -> Forall arg_ok arg -> render its arg = Some out ->
  Forall (fun c => 0 <= c < 256) out -> Forall (fun c => 0 < c < 256) cat ->
  Z.of_nat (length (cat ++ 0 :: ctail)) < 2 ^ 31 ->
  exists s', LogArg (cat ++ 0 :: ctail) (format_string its ++ 0 :: tail) arg s = Done (tt, s') /\
    shows s (view_line cat out (the_view s)) s' /\ m_fmtLeftColumn s' = 0.
Proof.
  intros Hs Hits Ha Hr Ho Hcat Hlen.
  assert (render category_items [VStr (cat ++ 0 :: ctail)] = Some (pad false false 8 cat ++ [32; 124; 32])) as Hrc.
  { cbn [render category_items render_item]. rewrite chars_of_app; [done|].
    eapply Forall_impl; [exact Hcat|]; cbn; intros; lia. }
  destruct (literal_run category_items [VStr (cat ++ 0 :: ctail)] (pad false false 8 cat ++ [32; 124; 32]) s Hs)
    with (tail := @nil Z) as (s1 & H1 & S1 & F1); [| |exact Hrc| |].
  { repeat constructor; try lia; discriminate. }
  { repeat constructor. exact Hlen. }
  { apply Forall_app. split; [apply pad_bytes; eapply Forall_impl; [exact Hcat|]; cbn; intros; lia|].
    repeat constructor; lia. }
  destruct (left_run 13 s1 (proj1 S1) ltac:(lia)) as (s2 & H2 & S2 & F2).
  destruct (literal_run its arg out s2 (proj1 S2) Hits Ha Hr Ho tail) as (s3 & H3 & S3 & F3).
  destruct (left_run 0 s3 (proj1 S3) ltac:(lia)) as (s4 & H4 & S4 & F4).
  destruct (WriteChar_run 10 s4 (proj1 S4) ltac:(lia)) as (s5 & H5 & S5 & F5).
  exists s5. unfold LogArg. rewrite (bind_done _ _ _ _ _ H1), (bind_done _ _ _ _ _ H2), (bind_done _ _ _ _ _ H3),
    (bind_done _ _ _ _ _ H4). split; [exact H5|]. split; [|by rewrite F5].
  pose proof S1 as (_ & W1 & _). rewrite W1 in S2. pose proof S2 as (_ & W2 & _). rewrite W2 in S3.
  pose proof S3 as (_ & W3 & _). rewrite W3 in S4. pose proof S4 as (_ & W4 & _). rewrite W4 in S5.
  by do 4 (eapply shows_trans; [eassumption|]).
Qed.

(** ** The bytes of a line *)

Lemma view_print_sent cs w :
  lw_init w = true ->
  lw_sent (view_print cs w) = lw_sent w ++ (pair uart_port <$> concat (uart_bytes (lw_left w) <$> cs)) /\
  lw_init (view_print cs w) = true /\ lw_left (view_print cs w) = lw_left w.
Proof.
  revert w. induction cs as [|c cs IH]; intros w Hi.
  - cbn. by rewrite app_nil_r.
  - destruct (IH (view_put c w) eq_refl) as (H1 & H2 & H3). cbn [view_print foldl] in *.
    split; [|done]. unfold view_print in *. rewrite H1. cbn [view_put lw_sent lw_left]. rewrite Hi.
    cbn [fmap list_fmap concat app]. by rewrite fmap_app, <- app_assoc.
Qed.

Lemma plain_bytes left cs : Forall (fun c => c <> 10) cs -> concat (uart_bytes left <$> cs) = cs.
Proof.
  induction 1 as [|c cs Hc _ IH]; [done|]. cbn [fmap list_fmap concat]. unfold uart_bytes at 1.
  assert ((c =? 10) = false) as -> by lia. cbn [app]. by rewrite IH.
Qed.

Lemma line_sent cat out w :
  lw_init w = true -> lw_left w = 0 -> Forall (fun c => c <> 10) cat ->
  lw_sent (view_line cat out w) = lw_sent w ++
    (pair uart_port <$> pad false false 8 cat ++ [32; 124; 32] ++ concat (uart_bytes 13 <$> out) ++ [10; 13]).
Proof.
  intros Hi Hl Hcat. unfold view_line. set (pre := pad false false 8 cat ++ [32; 124; 32]).
  assert (Forall (fun c => c <> 10) pre) as Hpre.
  { unfold pre, pad. repeat apply Forall_app_2; try done; [|repeat constructor; lia].
    apply Forall_replicate. lia. }
  destruct (view_print_sent pre w Hi) as (P1 & P2 & P3).
  destruct (view_print_sent out (view_left 13 (view_print pre w))) as (Q1 & Q2 & Q3); [done|].
  cbn [view_left lw_left lw_sent] in Q1. cbn [view_put view_left lw_sent lw_init lw_left].
  rewrite Q2, Q1, P1, Hl, plain_bytes by done. unfold pre. rewrite !fmap_app, <- !app_assoc. done.
Qed.

(** ** The theorems *)

(** C33. [log::Log]: on the two devices the kernel uses, for every format string and
    arguments that [vprintf] accepts, it returns, whatever the serial port's
    status reads are; the terminal shows, and the serial port gets, the category
    right-justified in eight columns, a bar, the rendering of the text with
    every further line indented to column 13, and a newline; the left margin is
    0 again, and only the text buffer has changed in memory.  (The comment in the
    serial port's FormatSetLeftColumn says that it does nothing; it stores the
    column, and this is what indents the lines it sends.) *)
Theorem log_line_correct (its : list item) (arg : list varg) (out cat tail ctail : list Z) (s : log_state)
    (Hs : log_ok s) (Hits : Forall item_ok its) (Harg : Forall arg_ok arg)
    (Hrender : render its arg = Some out) (Hout : Forall (fun c => 0 <= c < 256) out)
    (Hcat : Forall (fun c => 0 < c < 256 /\ c <> 10) cat)
    (Hlen : Z.of_nat (length (cat ++ 0 :: ctail)) < 2 ^ 31) :
  exists s', Log (cat ++ 0 :: ctail) (format_string its ++ 0 :: tail) arg s = Done (tt, s') /\
    log_ok s' /\ m_fmtLeftColumn s' = 0 /\ uart_leftColumn (l_uart s') = 0 /\
    vga_abs (l_vga s') = lw_term (view_line cat out (the_view s)) /\
    (deviceInit (l_uart s) = true -> uart_leftColumn (l_uart s) = 0 ->
     uart_out (l_uart s') = uart_out (l_uart s) ++
       (pair uart_port <$> pad false false 8 cat ++ [32; 124; 32] ++ concat (uart_bytes 13 <$> out) ++ [10; 13])) /\
    outside_screen (vmem (l_vga s')) (vmem (l_vga s)).
Proof.
  destruct (LogArg_run its arg out cat tail ctail s Hs Hits Harg Hrender Hout) as (s' & H & (S1 & S2 & S3) & F);
    [eapply Forall_impl; [exact Hcat|]; cbn; intros; lia|done|].
  exists s'. split; [exact H|]. split; [done|]. split; [done|].
  assert (uart_leftColumn (l_uart s') = lw_left (the_view s')) as Hleft by done.
  split; [by rewrite Hleft, S2|]. split; [by rewrite <- S2|]. split; [|done].
  intros Hi Hl. change (uart_out (l_uart s')) with (lw_sent (the_view s')). rewrite S2.
  apply line_sent; [done|done|]. eapply Forall_impl; [exact Hcat|]; cbn; tauto.
Qed.

(** The terminal: [VGAConsoleDevice::PrintChar] keeps the cursor on the screen,
    changes the 80x25 terminal the way [vt_put] says (store and advance, wrap
    and scroll at the edges, newline to the left margin, backspace that erases
    but does not go left of the margin), and writes nothing outside the text
    buffer. *)
Theorem vga_PrintChar_refines (c : Z) (s : vga_console) (Hok : vga_ok s) (Hc : 0 <= c < 256) :
  vga_ok (vga_PrintChar c s) /\ vga_abs (vga_PrintChar c s) = vt_put c (vga_abs s) /\
  outside_screen (vmem (vga_PrintChar c s)) (vmem s).
Proof. by apply vga_print_run. Qed.

(** ** Witnesses *)

Definition sample_log : log_state :=
  LogState (Uart true 0 [0; 0; 96] []) (VgaConsole (Vga vga 78 24 0 15) ∅) (Some DevUart) (Some DevVga) false 0.

Lemma sample_log_ok : log_ok sample_log.
Proof. split; [done|done|]. split; cbn; try done; lia. Qed.

(** [Log("pmm", "%d", 7)] *)
Lemma log_line_correct_witness :
  exists s', Log ([112; 109; 109] ++ [0]) (format_string [Dir false [] CvDec] ++ [0]) [VInt 7] sample_log = Done (tt, s') /\
    uart_out (l_uart s') =
      pair uart_port <$> [32; 32; 32; 32; 32; 112; 109; 109; 32; 124; 32; 55; 10; 13].
Proof.
  destruct (log_line_correct [Dir false [] CvDec] [VInt 7] [55] [112; 109; 109] [] [] sample_log sample_log_ok)
    as (s' & H & _ & _ & _ & _ & Hout & _).
  - repeat constructor; cbn; lia.
  - repeat constructor.
  - reflexivity.
  - repeat constructor; lia.
  - repeat constructor; lia.
  - reflexivity.
  - exists s'. split; [exact H|]. rewrite (Hout eq_refl eq_refl). reflexivity.
Defined.

Lemma vga_PrintChar_refines_witness :
  vga_abs (vga_PrintChar 10 (VgaConsole (Vga vga 5 24 13 15) ∅)) =
    vt_put 10 (vga_abs (VgaConsole (Vga vga 5 24 13 15) ∅)).
Proof.
  apply (vga_PrintChar_refines 10 (VgaConsole (Vga vga 5 24 13 15) ∅)); [|lia].
  split; cbn; try done; lia.
Defined.
