(* ===== verification/Panics.v ===== *)
(** How both programs end when something is wrong: AWD's [panic]
    (src/src/awd/panic.c), the kernel's [panic] and [_assert]
    (src/src/lobo/log/panic.cpp), and the failure functions of the C libraries
    (libc/stdlib/abort.c, libc/stack-smash-protector.c, awd/libc/stdlib/abort.c).

    The components stop with a value of [stop]; here is what the machine shows
    and does then. A program is the devices it prints to with the interrupt
    flag, and whether the processor has executed [hlt]: a processor that has
    halted with interrupts off executes nothing more. *)

From S2P Require Import Prelude Memory Format VprintfSpec TextScreen AwdConsole LogDevices KernelLog.
Local Open Scope Z_scope.
Local Open Scope mach_scope.

Record halting (D : Type) := Halting { h_dev : D; h_if : bool; h_halted : bool }.
Arguments Halting {D} _ _ _.
Arguments h_dev {D} _.
Arguments h_if {D} _.
Arguments h_halted {D} _.

Section Halting.
Context {D : Type}.

Definition on_dev {A} (m : ST D A) : ST (halting D) A := fun s =>
  match m (h_dev s) with
  | Done (a, d) => Done (a, Halting d (h_if s) (h_halted s))
  | Stopped r => Stopped r
  end.

(** [cli; hlt] *)
Definition HaltCPU : ST (halting D) unit := modify (fun s => Halting (h_dev s) false true).

(** [while (1) {}]: a halted processor does not execute it; one that runs never
    leaves it. *)
Fixpoint while_1 (fuel : nat) : ST (halting D) unit :=
  match fuel with
  | O => stop_with OutOfFuel
  | S fuel' => s ← get; if h_halted s then skip else while_1 fuel'
  end.

Lemma on_dev_bind {A B} (m : ST D A) (k : A -> ST (halting D) B) d i h a d' :
  m d = Done (a, d') -> (on_dev m ≫= k) (Halting d i h) = k a (Halting d' i h).
Proof. intros H. unfold on_dev, mbind, ST_bind. cbn [h_dev h_if h_halted]. by rewrite H. Qed.

Lemma while_1_running fuel s : h_halted s = false -> while_1 fuel s = Stopped OutOfFuel.
Proof.
  intros H. induction fuel as [|fuel IH]; [done|]. cbn [while_1].
  rewrite (bind_done get _ s s s) by done. by rewrite H.
Qed.
End Halting.

(** ** AWD *)

(** [awd_halt]: [cli], then [hlt] in a loop. *)
Definition awd_panic (fmt : list Z) (arg : list varg) : ST (halting console) unit :=
  on_dev (modify (console_set_color CONSOLE_ERROR_COLOR)) ;;
  on_dev (awd_vprintf fmt arg) ;;
  HaltCPU.

(** AWD's library is built without [__is_libk]. *)
Definition awd_abort (fuel : nat) : ST (halting console) unit :=
  on_dev (awd_vprintf (literal "abort()
") []) ;; while_1 fuel.

(** ** The kernel

    [panic] passes its [va_list] on as the one variable argument of [Log]: the
    argument that the format gets is the address of the list. *)

Section Kernel.
Variable va_list_address : Z.

Definition panic (fmt : list Z) (arg : list varg) : ST (halting log_state) unit :=
  on_dev (Log (literal "panic") fmt [VInt64 va_list_address]) ;; HaltCPU.

Definition lits (s : string) : list item := Lit <$> text s.
Definition quoted : list item := [Lit 34; Dir false [] CvStr; Lit 34].
Definition assert_items : list item :=
  quoted ++ lits " failed
In file " ++ [Dir false [] CvStr] ++ lits ", on line " ++ [Dir false [] CvDec] ++ lits "
In function " ++ quoted.

Definition _assert (expression file function : list Z) (line : Z) : ST (halting log_state) unit :=
  on_dev (Log (literal "assert") (format_string assert_items ++ [0])
    [VStr expression; VStr file; VInt line; VStr function]) ;;
  panic (literal "Assertion failed") [].

(** [abort] of the kernel's library, built with [__is_libk], and the function
    that a smashed stack calls: [__STDC_HOSTED__] is always defined. *)
Definition abort (fuel : nat) : ST (halting log_state) unit :=
  panic (literal "abort()") [] ;; while_1 fuel.
Definition __stack_chk_fail (fuel : nat) : ST (halting log_state) unit := abort fuel ;; while_1 fuel.

(** ** Lemmas *)

(** Text that [vprintf] prints as it is. *)
Definition plain (s : string) : bool :=
  forallb (fun c => negb (c =? 0) && negb (c =? 37)) (text s).
(** A C string of fewer than 2^31 bytes. *)
Definition c_string (cs : list Z) : Prop :=
  Forall (fun c => 0 < c < 256) cs /\ Z.of_nat (length cs) + 1 < 2 ^ 31.

Lemma text_bytes s : Forall (fun c => 0 <= c < 256) (text s).
Proof.
  unfold text. apply Forall_fmap, Forall_true. intros a. unfold compose.
  pose proof (Ascii.nat_ascii_bounded a). lia.
Qed.

Lemma format_lits s : format_string (lits s) = text s.
Proof.
  unfold lits, format_string. induction (text s) as [|c l IH]; [done|].
  cbn [fmap list_fmap map concat item_bytes app]. f_equal. exact IH.
Qed.

Lemma lits_ok s : plain s = true -> Forall item_ok (lits s).
Proof.
  unfold plain, lits. intros H. apply Forall_fmap, Forall_forall. intros c Hc.
  rewrite forallb_forall in H. specialize (H c (proj1 (list_elem_of_In _ _) Hc)).
  unfold compose, item_ok. lia.
Qed.

Lemma render_lits s its arg : render (lits s ++ its) arg = app (text s) <$> render its arg.
Proof.
  unfold lits. induction (text s) as [|c l IH]; cbn [fmap list_fmap app render render_item].
  - by destruct (render its arg).
  - rewrite IH. by destruct (render its arg).
Qed.

Lemma literal_bytes s : plain s = true -> Forall (fun c => 0 < c < 256) (text s).
Proof.
  intros H. pose proof (text_bytes s) as Hb. unfold plain in H. rewrite forallb_forall in H.
  rewrite Forall_forall in *. intros c Hc. specialize (Hb c Hc).
  specialize (H c (proj1 (list_elem_of_In _ _) Hc)). lia.
Qed.

(** A log line of plain text, whatever arguments come with it. *)
Lemma log_plain cat msg arg s :
  log_ok s -> plain cat = true -> plain msg = true -> Z.of_nat (String.length cat) + 1 < 2 ^ 31 ->
  Forall arg_ok arg ->
  exists s', Log (literal cat) (literal msg) arg s = Done (tt, s') /\
    shows s (view_line (text cat) (text msg) (the_view s)) s'.
Proof.
  intros Hs Hc Hm Hl Ha.
  assert (length (text cat) = String.length cat) as Hlen.
  { unfold text. rewrite length_fmap. clear. induction cat as [|a c IH]; [done|]. cbn. by rewrite IH. }
  destruct (LogArg_run (lits msg) arg (text msg) (text cat) [] [] s Hs (lits_ok _ Hm) Ha) as (s' & H & S & _).
  - pose proof (render_lits msg [] arg) as H. rewrite app_nil_r in H. rewrite H. cbn. by rewrite app_nil_r.
  - apply text_bytes.
  - by apply literal_bytes.
  - rewrite length_app. cbn [length]. lia.
  - rewrite format_lits in H. by exists s'.
Qed.

(** The machine after a report: the lines [w] shown, interrupts off, halted. *)
Definition halted_with (s : halting log_state) (w : log_view) (s' : halting log_state) : Prop :=
  h_if s' = false /\ h_halted s' = true /\ shows (h_dev s) w (h_dev s').

Definition panic_view (msg : string) (w : log_view) : log_view := view_line (text "panic") (text msg) w.
Definition assert_text (expression file function : list Z) (line : Z) : list Z :=
  [34] ++ expression ++ [34] ++ text " failed
In file " ++ file ++ text ", on line " ++ numeral (u32 line) 10 ++ text "
In function " ++ [34] ++ function ++ [34].

Lemma panic_run msg arg s :
  log_ok (h_dev s) -> plain msg = true ->
  exists s', panic (literal msg) arg s = Done (tt, s') /\
    halted_with s (panic_view msg (the_view (h_dev s))) s'.
Proof.
  intros Hs Hm. destruct s as [d i h]. cbn [h_dev] in *.
  destruct (log_plain "panic" msg [VInt64 va_list_address] d Hs eq_refl Hm) as (d' & H & S);
    [vm_compute; reflexivity|by repeat constructor|].
  exists (Halting d' false true). unfold panic. rewrite (on_dev_bind _ _ _ _ _ _ _ H).
  split; [done|]. by split; [|split].
Qed.

Lemma render_assert e f fn line :
  c_string e -> c_string f -> c_string fn ->
  render assert_items [VStr (e ++ [0]); VStr (f ++ [0]); VInt line; VStr (fn ++ [0])] =
    Some (assert_text e f fn line).
Proof.
  intros [He _] [Hf _] [Hfn _].
  assert (forall l, Forall (fun c => 0 < c < 256) l -> chars_of (l ++ [0]) = Some l) as Hc.
  { intros l Hl. apply chars_of_app. eapply Forall_impl; [exact Hl|]. cbn. lia. }
  assert (forall l, pad false false (value 10 0 []) l = l) as Hpad.
  { intros l. unfold pad. change (value 10 0 []) with 0. by replace (Z.to_nat _) with 0%nat by lia. }
  unfold assert_items, quoted. rewrite <- ?app_assoc. cbn [app render render_item].
  rewrite (Hc e He), Hpad, render_lits. cbn [app render render_item].
  rewrite (Hc f Hf), Hpad, render_lits. cbn [app render render_item].
  rewrite Hpad, render_lits. cbn [app render render_item]. rewrite (Hc fn Hfn), Hpad.
  unfold assert_text. cbn [fmap option_fmap option_map app]. by rewrite <- ?app_assoc.
Qed.

Lemma numeral_bytes n base :
  0 <= n < 2 ^ 64 -> 2 <= base <= 16 -> Forall (fun c => 0 <= c < 256) (numeral n base).
Proof.
  intros Hn Hb. destruct (numeral_writes base Hb n Hn) as (_ & H & _).
  eapply Forall_impl; [exact H|]. cbn. intros c (_ & H1 & H2). unfold digit_val in H2.
  destruct (c <? 58) eqn:E; lia.
Qed.
Lemma u32_numeral_bytes n : Forall (fun c => 0 <= c < 256) (numeral (u32 n) 10).
Proof.
  pose proof (u32_range n). apply numeral_bytes; [|lia].
  change (2 ^ 64) with 18446744073709551616. lia.
Qed.

Lemma assert_text_bytes e f fn line :
  c_string e -> c_string f -> c_string fn -> Forall (fun c => 0 <= c < 256) (assert_text e f fn line).
Proof.
  assert (forall l, c_string l -> Forall (fun c => 0 <= c < 256) l) as Hc.
  { intros l [Hl _]. eapply Forall_impl; [exact Hl|]. cbn. lia. }
  intros He Hf Hfn. unfold assert_text.
  repeat apply Forall_app_2; auto using text_bytes, u32_numeral_bytes; repeat constructor; lia.
Qed.

Lemma assert_run e f fn line s :
  log_ok (h_dev s) -> c_string e -> c_string f -> c_string fn ->
  exists s', _assert (e ++ [0]) (f ++ [0]) (fn ++ [0]) line s = Done (tt, s') /\
    halted_with s (panic_view "Assertion failed"
      (view_line (text "assert") (assert_text e f fn line) (the_view (h_dev s)))) s'.
Proof.
  intros Hs He Hf Hfn. destruct s as [d i h]. cbn [h_dev] in *.
  destruct (LogArg_run assert_items [VStr (e ++ [0]); VStr (f ++ [0]); VInt line; VStr (fn ++ [0])]
    (assert_text e f fn line) (text "assert") [] [] d Hs) as (d' & H & S & _).
  - unfold assert_items, quoted. repeat apply Forall_app_2; try (by apply lits_ok);
      repeat constructor; try lia; discriminate.
  - destruct He as [_ He], Hf as [_ Hf], Hfn as [_ Hfn].
    repeat constructor; unfold arg_ok; rewrite length_app; cbn [length]; lia.
  - by apply render_assert.
  - by apply assert_text_bytes.
  - by apply literal_bytes.
  - vm_compute. reflexivity.
  - destruct (panic_run "Assertion failed" [] (Halting d' i h) (proj1 S) eq_refl) as (s' & H' & Hh).
    exists s'. unfold _assert, Log. change (literal "assert") with (text "assert" ++ [0]).
    rewrite (on_dev_bind _ _ _ _ _ _ _ H). split; [exact H'|].
    destruct Hh as (H1 & H2 & H3). split; [done|]. split; [done|]. cbn [h_dev] in *.
    rewrite (proj1 (proj2 S)) in H3. by eapply shows_trans.
Qed.

Lemma while_1_halted fuel s : h_halted s = true -> (@while_1 log_state (S fuel)) s = Done (tt, s).
Proof. intros H. cbn [while_1]. rewrite (bind_done get _ s s s) by done. by rewrite H. Qed.

End Kernel.

(** ** The theorems *)

(** C25. Whatever makes the kernel stop by itself is shown and stops the machine: a
    panic with a message of plain text, a failed assertion (with the
    expression, the file, the line and the function), [abort] and the stack
    protector - which says [abort()], not that a stack was smashed - each print
    their lines on both devices, whatever the serial port's status reads are
    and whatever the arguments of the panic, and end with interrupts off and
    the processor halted. *)
Theorem kernel_failures_reported (ap : Z) (msg : string) (arg : list varg) (e f fn : list Z) (line : Z)
    (s : halting log_state) (fuel : nat)
    (Hs : log_ok (h_dev s)) (Hmsg : plain msg = true)
    (He : c_string e) (Hf : c_string f) (Hfn : c_string fn) :
  let w := the_view (h_dev s) in
  (exists s', panic ap (literal msg) arg s = Done (tt, s') /\ halted_with s (panic_view msg w) s') /\
  (exists s', _assert ap (e ++ [0]) (f ++ [0]) (fn ++ [0]) line s = Done (tt, s') /\
     halted_with s (panic_view "Assertion failed" (view_line (text "assert") (assert_text e f fn line) w)) s') /\
  (exists s', abort ap (S fuel) s = Done (tt, s') /\ __stack_chk_fail ap (S fuel) s = Done (tt, s') /\
     halted_with s (panic_view "abort()" w) s').
Proof.
  intros w. split; [by apply panic_run|]. split; [by apply assert_run|].
  destruct (panic_run ap "abort()" [] s Hs eq_refl) as (s' & H & Hh). pose proof (proj1 (proj2 Hh)) as Hhalt.
  exists s'. assert (abort ap (S fuel) s = Done (tt, s')) as Ha.
  { unfold abort. rewrite (bind_done _ _ _ _ _ H). by apply while_1_halted. }
  split; [exact Ha|]. split; [|exact Hh]. unfold __stack_chk_fail. rewrite (bind_done _ _ _ _ _ Ha).
  by apply while_1_halted.
Qed.

(** [panic] with an argument does not show the argument: [%p] prints the
    address of the argument list. *)
Theorem panic_ignores_arguments (ap n : Z) (s : halting log_state) (Hs : log_ok (h_dev s)) (Hap : 0 <= ap < 2 ^ 64) :
  exists s', panic ap (format_string [Dir false [] CvPtr] ++ [0]) [VInt64 n] s = Done (tt, s') /\
    halted_with s (view_line (text "panic") (numeral ap 16) (the_view (h_dev s))) s'.
Proof.
  destruct s as [d i h]. cbn [h_dev] in *. change (2 ^ 64) with 18446744073709551616 in Hap.
  destruct (LogArg_run [Dir false [] CvPtr] [VInt64 ap] (numeral ap 16) (text "panic") [] [] d Hs)
    as (d' & H & S & _).
  - repeat constructor; try lia; discriminate.
  - by repeat constructor.
  - cbn [render render_item fmap option_fmap option_map]. rewrite u64_small by lia. unfold pad.
    change (value 10 0 []) with 0. replace (Z.to_nat _) with 0%nat by lia. cbn. by rewrite app_nil_r.
  - apply numeral_bytes; [change (2 ^ 64) with 18446744073709551616|]; lia.
  - by apply literal_bytes.
  - vm_compute. reflexivity.
  - exists (Halting d' false true). unfold panic, Log. change (literal "panic") with (text "panic" ++ [0]).
    rewrite (on_dev_bind _ _ _ _ _ _ _ H). split; [done|]. by split; [|split].
Qed.

Lemma same_color d : console_ok d -> console_set_color (con_color (con d)) d = d.
Proof.
  intros (_ & _ & _ & _ & _ & Hc). unfold console_set_color. rewrite u8_small by done.
  by destruct d as [[] ?].
Qed.

(** AWD's [panic] shows its message, arguments included, in the error colour
    and halts; AWD's [abort] prints its name and never returns. *)
Theorem awd_panic_reports (its : list item) (arg : list varg) (out tail : list Z) (s : halting console) (fuel : nat)
    (Hits : Forall item_ok its) (Harg : Forall arg_ok arg) (Hrender : render its arg = Some out)
    (Hout : Forall (fun c => 0 <= c < 256) out) (Hs : console_ok (h_dev s)) (Hrun : h_halted s = false) :
  (exists s', awd_panic (format_string its ++ 0 :: tail) arg s = Done (tt, s') /\
     h_if s' = false /\ h_halted s' = true /\ console_ok (h_dev s') /\
     abs (h_dev s') = term_print out (term_color CONSOLE_ERROR_COLOR (abs (h_dev s))) /\
     outside_screen (con_mem (h_dev s')) (con_mem (h_dev s))) /\
  awd_abort fuel s = Stopped OutOfFuel.
Proof.
  destruct s as [d i h]. cbn [h_dev h_halted] in *. split.
  - destruct (coloured_print_run its arg out tail CONSOLE_ERROR_COLOR d Hits Harg Hrender Hout Hs)
      as (d' & H & H1 & H2 & H3); [unfold CONSOLE_ERROR_COLOR; lia|].
    exists (Halting d' false true). unfold awd_panic.
    rewrite (on_dev_bind (modify (console_set_color CONSOLE_ERROR_COLOR)) _ d i h tt
      (console_set_color CONSOLE_ERROR_COLOR d) eq_refl).
    change ((modify (console_set_color CONSOLE_ERROR_COLOR) ;; awd_vprintf (format_string its ++ 0 :: tail) arg) d)
      with (awd_vprintf (format_string its ++ 0 :: tail) arg (console_set_color CONSOLE_ERROR_COLOR d)) in H.
    rewrite (on_dev_bind _ _ _ _ _ _ _ H). done.
  - unfold awd_abort.
    assert (exists d', awd_vprintf (literal "abort()
") [] d = Done (tt, d')) as [d' H].
    { destruct (coloured_print_run (lits "abort()
") [] (text "abort()
") [] (con_color (con d)) d) as (d' & H & _); try done.
      - by apply lits_ok.
      - apply text_bytes.
      - apply Hs.
      - rewrite format_lits, modify_bind, same_color in H by done. by exists d'. }
    rewrite (on_dev_bind _ _ _ _ _ _ _ H). by apply while_1_running.
Qed.

(** ** Witnesses *)

Definition sample_running : halting log_state := Halting sample_log true false.

Lemma sample_running_ok : log_ok (h_dev sample_running).
Proof. exact sample_log_ok. Qed.

Lemma c_string_text s : plain s = true -> Z.of_nat (length (text s)) + 1 < 2 ^ 31 -> c_string (text s).
Proof. intros H1 H2. split; [by apply literal_bytes|done]. Qed.

(** A failed assertion of memmap.h. *)
Lemma kernel_failures_reported_witness :
  exists s', _assert 0 (text "idx < sz" ++ [0]) (text "memmap.h" ++ [0]) (text "operator[]" ++ [0]) 41 sample_running =
      Done (tt, s') /\ h_halted s' = true /\
    vt_rows (vga_abs (l_vga (h_dev s'))) = vt_rows (lw_term (panic_view "Assertion failed" (view_line (text "assert")
      (assert_text (text "idx < sz") (text "memmap.h") (text "operator[]") 41) (the_view sample_log)))).
Proof.
  destruct (kernel_failures_reported 0 "abort()" [] (text "idx < sz") (text "memmap.h") (text "operator[]") 41
    sample_running 0 sample_running_ok eq_refl) as (_ & (s' & H & _ & Hh & _ & Hw & _) & _);
    [apply c_string_text; [reflexivity|vm_compute; reflexivity]..|].
  exists s'. split; [exact H|]. split; [exact Hh|].
  change (vga_abs (l_vga (h_dev s'))) with (lw_term (the_view (h_dev s'))). by rewrite Hw.
Defined.

Lemma panic_ignores_arguments_witness :
  exists s', panic 4096 (format_string [Dir false [] CvPtr] ++ [0]) [VInt64 7] sample_running = Done (tt, s') /\
    numeral 4096 16 = text "1000".
Proof.
  destruct (panic_ignores_arguments 4096 7 sample_running sample_running_ok ltac:(lia)) as (s' & H & _).
  exists s'. split; [exact H|reflexivity].
Defined.

Lemma awd_panic_reports_witness :
  exists s', awd_panic (format_string sample_items ++ [0]) sample_args (Halting (fresh_console ∅) false false) =
    Done (tt, s') /\ h_halted s' = true.
Proof.
  destruct (awd_panic_reports sample_items sample_args sample_out [] (Halting (fresh_console ∅) false false) 0)
    as [(s' & H & _ & Hh & _) _].
  - repeat constructor; try lia; discriminate.
  - repeat constructor.
  - reflexivity.
  - repeat constructor; lia.
  - unfold console_ok; simpl; lia.
  - reflexivity.
  - exists s'. split; [exact H|exact Hh].
Defined.
