(* ===== verification/Lobo.v ===== *)
(** The state of Lobo, the kernel: its memory, the static objects of its
    components, and the processor state it manipulates; with the logging calls,
    [panic] (src/src/lobo/log/panic.cpp), [cpu] (arch/x86_64/cpu.cpp) and the
    address conversions of include/kernel/kernel.h.

    A static object is a record field; what the code allocates or reaches
    through pointers (the PMM's bitmap, page tables, list nodes, thread control
    blocks, stacks) lies in [k_mem]. *)

From S2P Require Import Prelude Memory PageTable.
Local Open Scope Z_scope.
Local Open Scope mach_scope.

(** ** kernel.h *)

Definition KERNEL_VMB : Z := 18446744071562067968.
Definition MEM_VIRT_TO_PHYS (a : Z) : Z := u64 (a - KERNEL_VMB).
Definition MEM_PHYS_TO_VIRT (a : Z) : Z := u64 (a + KERNEL_VMB).
Definition THREAD_STACK_SIZE : Z := 4 * 4096.

(** ** Static objects *)

(** heap.cpp *)
Inductive AllocMode := Uninitialised | EarlyBoot | Full.
#[export] Instance AllocMode_eq_dec : EqDecision AllocMode.
Proof. solve_decision. Defined.
Record kheap := KHeap {
  earlyAllocBase : Z;
  earlyAllocLimit : Z;
  currentMode : AllocMode;
}.

(** bitset.h *)
Record bitset := Bitset { m_ptr : Z; m_length : Z }.

(** pmm.h *)
Record pmm_state := Pmm {
  bitmap : bitset;
  m_initialised : bool;
  m_numPages : Z;
  m_maxFreePages : Z;
  m_nonMemoryBackedPages : Z;
}.

(** vmm.h *)
Record vmm_state := Vmm { m_init : bool; pdir_kernel : Z; pdir_current : Z }.

(** single_linked_list.h *)
Record slist := SList { m_head : Z; m_tail : Z; m_size : Z }.

(** scheduler.h, with [next_tid] of scheduler.cpp.  The two control blocks that
    are members of the scheduler are in memory, at [idleThread] and
    [kernelTask]. *)
Record sched_state := Sched {
  schedulingEnabled : bool;
  idleThread : Z;
  currentThread : Z;
  threads : slist;
  tasks : slist;
  kernelTask : Z;
  currentTask : Z;
  currentThreadIndex : Z;
  next_tid : Z;
}.

(** The bits of RFLAGS that are flags, apart from the interrupt flag: carry (0),
    parity (2), adjust (4), zero (6), sign (7), trap (8), direction (10),
    overflow (11), I/O privilege (12 and 13), nested task (14), resume (16),
    alignment check (18), virtual interrupts (19 and 20), identification (21). *)
Definition STATUS_FLAGS : Z := 4029909.

(** The interrupt flag, the other flags of RFLAGS at their bits, CR3, RSP, the
    fifteen other registers in the order [switch_thread] saves them (rax first,
    r15 last), and RIP.  What arithmetic does to the flags is not followed: they
    are an input of what saves and restores them. *)
Record cpu_state := Cpu {
  cpu_if : bool;
  cpu_status : Z;
  cpu_cr3 : Z;
  cpu_rsp : Z;
  cpu_regs : list Z;
  cpu_rip : Z;
}.

(** hal/keyboard.h: the array is a memory of its own, addressed by index. *)
Record keyboard := Kbd {
  scancode_queue : mem;
  scancode_queue_sz : Z;
  mod_shift_set : bool;
}.

Inductive klog_arg := KNum (z : Z) | KStr (s : string).
(** [Log], [LogRaw] and [WriteChar]. *)
Inductive klog_call :=
  | KLogCall (category fmt : string) (args : list klog_arg)
  | KLogRaw (fmt : string) (args : list klog_arg)
  | KWriteChar (c : Z).

(** [k_out] is what has been written to I/O ports: port and byte, in order. *)
Record kstate := KState {
  k_mem : mem;
  k_heap : kheap;
  k_pmm : pmm_state;
  k_vmm : vmm_state;
  k_sched : sched_state;
  k_drivers : slist;
  k_cpu : cpu_state;
  k_kbd : keyboard;
  k_out : list (Z * Z);
  k_log : list klog_call;
}.

Definition set_kmem (m : mem) (s : kstate) : kstate :=
  KState m (k_heap s) (k_pmm s) (k_vmm s) (k_sched s) (k_drivers s) (k_cpu s) (k_kbd s)
    (k_out s) (k_log s).
Definition set_kheap (h : kheap) (s : kstate) : kstate :=
  KState (k_mem s) h (k_pmm s) (k_vmm s) (k_sched s) (k_drivers s) (k_cpu s) (k_kbd s) (k_out s)
    (k_log s).
Definition set_kpmm (p : pmm_state) (s : kstate) : kstate :=
  KState (k_mem s) (k_heap s) p (k_vmm s) (k_sched s) (k_drivers s) (k_cpu s) (k_kbd s)
    (k_out s) (k_log s).
Definition set_kvmm (v : vmm_state) (s : kstate) : kstate :=
  KState (k_mem s) (k_heap s) (k_pmm s) v (k_sched s) (k_drivers s) (k_cpu s) (k_kbd s)
    (k_out s) (k_log s).
Definition set_ksched (c : sched_state) (s : kstate) : kstate :=
  KState (k_mem s) (k_heap s) (k_pmm s) (k_vmm s) c (k_drivers s) (k_cpu s) (k_kbd s) (k_out s)
    (k_log s).
Definition set_kdrivers (d : slist) (s : kstate) : kstate :=
  KState (k_mem s) (k_heap s) (k_pmm s) (k_vmm s) (k_sched s) d (k_cpu s) (k_kbd s) (k_out s)
    (k_log s).
Definition set_kcpu (c : cpu_state) (s : kstate) : kstate :=
  KState (k_mem s) (k_heap s) (k_pmm s) (k_vmm s) (k_sched s) (k_drivers s) c (k_kbd s)
    (k_out s) (k_log s).
Definition set_kkbd (k : keyboard) (s : kstate) : kstate :=
  KState (k_mem s) (k_heap s) (k_pmm s) (k_vmm s) (k_sched s) (k_drivers s) (k_cpu s) k
    (k_out s) (k_log s).
Definition set_kout (o : list (Z * Z)) (s : kstate) : kstate :=
  KState (k_mem s) (k_heap s) (k_pmm s) (k_vmm s) (k_sched s) (k_drivers s) (k_cpu s)
    (k_kbd s) o (k_log s).
Definition set_klog (l : list klog_call) (s : kstate) : kstate :=
  KState (k_mem s) (k_heap s) (k_pmm s) (k_vmm s) (k_sched s) (k_drivers s) (k_cpu s) (k_kbd s)
    (k_out s) l.

(** ** Logging, panic, cpu *)

(** [log::Get().Log(category, fmt, ...)]: the call is recorded; how a record is
    printed is in [KernelLog]. *)
Definition klog (category fmt : string) (args : list klog_arg) : ST kstate unit :=
  modify (fun s => set_klog (k_log s ++ [KLogCall category fmt args]) s).

Definition klog_raw (fmt : string) (args : list klog_arg) : ST kstate unit :=
  modify (fun s => set_klog (k_log s ++ [KLogRaw fmt args]) s).
Definition kwrite_char (c : Z) : ST kstate unit :=
  modify (fun s => set_klog (k_log s ++ [KWriteChar c]) s).

(** [panic]: a log line, [cli; hlt]. *)
Definition kpanic {A} (fmt : string) : ST kstate A := stop_with (Panic fmt).

Definition set_if (b : bool) : ST kstate unit :=
  modify (fun s => let c := k_cpu s in
    set_kcpu (Cpu b (cpu_status c) (cpu_cr3 c) (cpu_rsp c) (cpu_regs c) (cpu_rip c)) s).
Definition cli : ST kstate unit := set_if false.
Definition sti : ST kstate unit := set_if true.

(** The translation by the tables CR3 points to, which the kernel reaches through
    its window of physical memory at [KERNEL_VMB]; and whether they map the
    running code, whose address [cpu_rip] stands for. *)
Definition cr3_walk (s : kstate) (va : Z) : option Z :=
  mmu_walk KERNEL_VMB (k_mem s) (cpu_cr3 (k_cpu s)) va.
Definition code_mapped (s : kstate) : bool :=
  bool_decide (canonical (cpu_rip (k_cpu s))) &&
  match cr3_walk s (cpu_rip (k_cpu s)) with Some _ => true | None => false end.

(** [mov cr3]: the instruction behind it is fetched through the new tables, and
    if they do not map it that is a page fault. *)
Definition page_fault : stop := Fault "page fault: the running code is not mapped".
Definition set_cr3 (a : Z) (s : kstate) : kstate :=
  let c := k_cpu s in set_kcpu (Cpu (cpu_if c) (cpu_status c) a (cpu_rsp c) (cpu_regs c) (cpu_rip c)) s.
Definition write_cr3 (a : Z) : ST kstate unit :=
  modify (set_cr3 a) ;;
  mapped ← gets code_mapped;
  when (negb mapped) (stop_with page_fault).

Lemma write_cr3_run a s :
  write_cr3 a s = if code_mapped (set_cr3 a s) then Done (tt, set_cr3 a s) else Stopped page_fault.
Proof.
  unfold write_cr3, mbind, ST_bind, modify, gets. by destruct (code_mapped (set_cr3 a s)).
Qed.

(** [outb] of arch/x86_64/ports.cpp. *)
Definition outb (port value : Z) : ST kstate unit :=
  modify (fun s => set_kout (k_out s ++ [(port, u8 value)]) s).

(** Steps of a run. *)
Lemma klog_bind {B} c f a (k : unit -> ST kstate B) s :
  (klog c f a ≫= k) s = k tt (set_klog (k_log s ++ [KLogCall c f a]) s).
Proof. done. Qed.
Lemma klog_raw_bind {B} f a (k : unit -> ST kstate B) s :
  (klog_raw f a ≫= k) s = k tt (set_klog (k_log s ++ [KLogRaw f a]) s).
Proof. done. Qed.
Lemma kwrite_char_bind {B} c (k : unit -> ST kstate B) s :
  (kwrite_char c ≫= k) s = k tt (set_klog (k_log s ++ [KWriteChar c]) s).
Proof. done. Qed.
Lemma outb_bind {B} p v (k : unit -> ST kstate B) s :
  (outb p v ≫= k) s = k tt (set_kout (k_out s ++ [(p, u8 v)]) s).
Proof. done. Qed.
Lemma set_if_bind {B} b (k : unit -> ST kstate B) s :
  (set_if b ≫= k) s = k tt (set_kcpu (Cpu b (cpu_status (k_cpu s)) (cpu_cr3 (k_cpu s)) (cpu_rsp (k_cpu s))
    (cpu_regs (k_cpu s)) (cpu_rip (k_cpu s))) s).
Proof. done. Qed.

(** ** Addresses *)

Lemma virt_phys a : 0 <= a < 2 ^ 64 -> MEM_PHYS_TO_VIRT (MEM_VIRT_TO_PHYS a) = a.
Proof.
  intros Ha. unfold MEM_PHYS_TO_VIRT, MEM_VIRT_TO_PHYS, u64, KERNEL_VMB.
  change (2 ^ 64) with 18446744073709551616 in Ha.
  rewrite Z.add_mod_idemp_l by lia. rewrite Z.sub_add. by apply Z.mod_small.
Qed.

Lemma virt_to_phys_high a : KERNEL_VMB <= a < 2 ^ 64 -> MEM_VIRT_TO_PHYS a = a - KERNEL_VMB.
Proof.
  unfold MEM_VIRT_TO_PHYS, KERNEL_VMB. change (2 ^ 64) with 18446744073709551616.
  intros. apply u64_small. lia.
Qed.

Lemma phys_to_virt_low a : 0 <= a < 2147483648 -> MEM_PHYS_TO_VIRT a = a + KERNEL_VMB.
Proof. unfold MEM_PHYS_TO_VIRT, KERNEL_VMB. intros. apply u64_small. lia. Qed.
