(* ===== verification/KernelBitset.v ===== *)
(** The bitset of src/src/lobo/include/common/bitset.h over kernel memory. *)

From S2P Require Import Prelude Memory Lobo.
Local Open Scope Z_scope.
Local Open Scope mach_scope.

(** ** Operations *)

Definition bitset_byte (b : bitset) (bit : Z) (m : mem) : Z := mget m (m_ptr b + bit / 8).
Definition bitset_put (b : bitset) (bit v : Z) : ST kstate unit :=
  modify (fun s => set_kmem (mput (k_mem s) (m_ptr b + bit / 8) v) s).

Definition bitset_test (b : bitset) (bit : Z) : ST kstate bool :=
  assert_c (bit <? m_length b) "bit < m_length" ;;
  m ← gets k_mem;
  mret (negb (Z.land (bitset_byte b bit m) (Z.shiftl 1 (bit mod 8)) =? 0)).

Definition bitset_set (b : bitset) (bit : Z) : ST kstate unit :=
  assert_c (bit <? m_length b) "bit < m_length" ;;
  m ← gets k_mem;
  bitset_put b bit (Z.lor (bitset_byte b bit m) (Z.shiftl 1 (bit mod 8))).

Definition bitset_clear (b : bitset) (bit : Z) : ST kstate unit :=
  assert_c (bit <? m_length b) "bit < m_length" ;;
  m ← gets k_mem;
  bitset_put b bit (Z.land (bitset_byte b bit m) (Z.lnot (Z.shiftl 1 (bit mod 8)))).

Definition bitset_flip (b : bitset) (bit : Z) : ST kstate unit :=
  assert_c (bit <? m_length b) "bit < m_length" ;;
  t ← bitset_test b bit;
  if (t : bool) then bitset_clear b bit else bitset_set b bit.

(** ** Specification *)

(** Bit [i] of the set. *)
Definition bit_of (m : mem) (b : bitset) (i : Z) : bool :=
  Z.testbit (mget m (m_ptr b + i / 8)) (i mod 8).

(** Memory [m'] is [m] with bit [bit] of the set [b] made [v]. *)
Definition bit_updated (b : bitset) (bit : Z) (v : bool) (m m' : mem) : Prop :=
  (forall i, 0 <= i -> bit_of m' b i = if decide (i = bit) then v else bit_of m b i) /\
  (forall a, a <> m_ptr b + bit / 8 -> mget m' a = mget m a).

Lemma testbit_pow2 k i : 0 <= k -> Z.testbit (Z.shiftl 1 k) i = bool_decide (i = k).
Proof.
  intros Hk. rewrite Z.shiftl_1_l. destruct (decide (i = k)) as [->|Hne].
  - rewrite bool_decide_eq_true_2 by done. by apply Z.pow2_bits_true.
  - rewrite bool_decide_eq_false_2 by done. apply Z.pow2_bits_false. lia.
Qed.

Lemma land_pow2_zero x k :
  0 <= k -> negb (Z.land x (Z.shiftl 1 k) =? 0) = Z.testbit x k.
Proof.
  intros Hk. destruct (Z.testbit x k) eqn:E.
  - destruct (Z.land x (Z.shiftl 1 k) =? 0) eqn:E0; [|done]. apply Z.eqb_eq in E0.
    apply (f_equal (fun z => Z.testbit z k)) in E0.
    rewrite Z.land_spec, testbit_pow2, E, Z.bits_0 in E0 by done.
    by rewrite bool_decide_eq_true_2 in E0.
  - assert (Z.land x (Z.shiftl 1 k) = 0) as ->; [|done].
    apply Z.bits_inj'. intros i Hi. rewrite Z.land_spec, testbit_pow2, Z.bits_0 by done.
    case_bool_decide; [subst; by rewrite E|apply andb_false_r].
Qed.

Lemma testbit_u8 x i : 0 <= i < 8 -> Z.testbit (u8 x) i = Z.testbit x i.
Proof. intros Hi. unfold u8. change 256 with (2 ^ 8). apply Z.mod_pow2_bits_low. lia. Qed.

(** Writing a byte whose bits are those of the old one but for one. *)
Lemma bit_update_byte (b : bitset) (bit : Z) (v : bool) (m : mem) (x : Z) :
  0 <= bit ->
  (forall k, 0 <= k < 8 -> Z.testbit x k =
     if decide (k = bit mod 8) then v else Z.testbit (bitset_byte b bit m) k) ->
  bit_updated b bit v m (mput m (m_ptr b + bit / 8) x).
Proof.
  intros Hbit Hx. split.
  - intros i Hi. unfold bit_of. rewrite mget_mput.
    pose proof (Z.mod_pos_bound i 8 ltac:(lia)).
    destruct (decide (m_ptr b + bit / 8 = m_ptr b + i / 8)) as [Heq|Hne].
    + rewrite testbit_u8, Hx by lia. unfold bitset_byte.
      replace (bit / 8) with (i / 8) by lia.
      destruct (decide (i = bit)) as [->|Hib]; [by rewrite decide_True|].
      rewrite decide_False; [done|]. lia_div.
    + rewrite decide_False; [done|]. congruence.
  - intros a Ha. by rewrite mget_mput_ne.
Qed.

Lemma bitset_test_run b bit s :
  0 <= bit < m_length b -> bitset_test b bit s = Done (bit_of (k_mem s) b bit, s).
Proof.
  intros Hb. unfold bitset_test, mbind, ST_bind, assert_c, gets.
  assert ((bit <? m_length b) = true) as -> by lia. cbn [skip].
  rewrite land_pow2_zero by (pose proof (Z.mod_pos_bound bit 8); lia). done.
Qed.

Lemma bitset_set_run b bit s :
  0 <= bit < m_length b ->
  exists m', bitset_set b bit s = Done (tt, set_kmem m' s) /\ bit_updated b bit true (k_mem s) m'.
Proof.
  intros Hb. eexists. split.
  - unfold bitset_set, mbind, ST_bind, assert_c, gets.
    assert ((bit <? m_length b) = true) as -> by lia. reflexivity.
  - apply bit_update_byte; [lia|]. intros k Hk.
    rewrite Z.lor_spec, testbit_pow2 by (pose proof (Z.mod_pos_bound bit 8); lia).
    case_bool_decide as Hd; [rewrite decide_True by done; apply orb_true_r|].
    by rewrite decide_False, orb_false_r.
Qed.

Lemma bitset_clear_run b bit s :
  0 <= bit < m_length b ->
  exists m', bitset_clear b bit s = Done (tt, set_kmem m' s) /\ bit_updated b bit false (k_mem s) m'.
Proof.
  intros Hb. eexists. split.
  - unfold bitset_clear, mbind, ST_bind, assert_c, gets.
    assert ((bit <? m_length b) = true) as -> by lia. reflexivity.
  - apply bit_update_byte; [lia|]. intros k Hk.
    rewrite Z.land_spec, Z.lnot_spec, testbit_pow2 by (pose proof (Z.mod_pos_bound bit 8); lia).
    case_bool_decide as Hd; [rewrite decide_True by done; apply andb_false_r|].
    by rewrite decide_False, andb_true_r.
Qed.

Lemma bitset_out_of_range b bit s :
  m_length b <= bit ->
  bitset_test b bit s = Stopped (AssertFailed "bit < m_length") /\
  bitset_set b bit s = Stopped (AssertFailed "bit < m_length") /\
  bitset_clear b bit s = Stopped (AssertFailed "bit < m_length") /\
  bitset_flip b bit s = Stopped (AssertFailed "bit < m_length").
Proof.
  intros Hb. unfold bitset_test, bitset_set, bitset_clear, bitset_flip, mbind, ST_bind, assert_c.
  by assert ((bit <? m_length b) = false) as -> by lia.
Qed.

(** The bits depend on the bytes of the set only. *)
Lemma bit_of_ext m m' b i n :
  (forall a, m_ptr b <= a < m_ptr b + n -> mget m' a = mget m a) -> 0 <= i -> i / 8 < n ->
  bit_of m' b i = bit_of m b i.
Proof. intros H Hi Hn. unfold bit_of. rewrite H; [done|]. lia_div. Qed.

(** ** The theorem *)

(** Every operation on a bit below the length does exactly what its name says
    and touches no byte but the bit's own; above the length every one of them
    fails its assertion. *)
Theorem bitset_ops_correct (b : bitset) (bit : Z) (s : kstate) (Hpos : 0 <= bit) :
  if bit <? m_length b then
    bitset_test b bit s = Done (bit_of (k_mem s) b bit, s) /\
    (exists m', bitset_set b bit s = Done (tt, set_kmem m' s) /\
       bit_updated b bit true (k_mem s) m') /\
    (exists m', bitset_clear b bit s = Done (tt, set_kmem m' s) /\
       bit_updated b bit false (k_mem s) m') /\
    (exists m', bitset_flip b bit s = Done (tt, set_kmem m' s) /\
       bit_updated b bit (negb (bit_of (k_mem s) b bit)) (k_mem s) m')
  else
    bitset_test b bit s = Stopped (AssertFailed "bit < m_length") /\
    bitset_set b bit s = Stopped (AssertFailed "bit < m_length") /\
    bitset_clear b bit s = Stopped (AssertFailed "bit < m_length") /\
    bitset_flip b bit s = Stopped (AssertFailed "bit < m_length").
Proof.
  destruct (bit <? m_length b) eqn:E; [|apply bitset_out_of_range; lia].
  assert (0 <= bit < m_length b) as Hb by lia.
  split; [by apply bitset_test_run|]. split; [by apply bitset_set_run|].
  split; [by apply bitset_clear_run|].
  unfold bitset_flip, assert_c. rewrite E.
  rewrite (bind_done skip _ s tt s) by done.
  rewrite (bind_done _ _ _ _ _ (bitset_test_run b bit s Hb)).
  destruct (bit_of (k_mem s) b bit); [by apply bitset_clear_run|by apply bitset_set_run].
Qed.

Definition no_slist : slist := SList 0 0 0.
Definition sample_sched : sched_state :=
  Sched false 0 0 no_slist no_slist 0 0 0 1.
Definition sample_cpu : cpu_state := Cpu true 0 0 0 (replicate 15 0) 0.
Definition sample_kstate (m : mem) (h : kheap) (p : pmm_state) : kstate :=
  KState m h p (Vmm false 0 0) sample_sched no_slist sample_cpu (Kbd ∅ 0 false) [] [].
Definition no_heap : kheap := KHeap 0 0 Uninitialised.
Definition no_pmm : pmm_state := Pmm (Bitset 0 0) false 0 0 0.

Lemma bitset_ops_correct_witness :
  exists m', bitset_set (Bitset 100 20) 13 (sample_kstate ∅ no_heap no_pmm) =
      Done (tt, set_kmem m' (sample_kstate ∅ no_heap no_pmm)) /\
    bit_updated (Bitset 100 20) 13 true ∅ m'.
Proof.
  exact (proj1 (proj2 (bitset_ops_correct (Bitset 100 20) 13 (sample_kstate ∅ no_heap no_pmm)
    ltac:(lia)))).
Defined.
