(* ===== verification/Pmm.v ===== *)
(** The physical memory manager (src/src/lobo/mem/pmm.cpp, kernel/pmm.h): a
    bitmap with one bit per page, set when the page is in use.  [pmm::init]
    allocates the bitmap with [kmalloc] and is in [KernelHeap]. *)

From S2P Require Import Prelude Memory Lobo KernelBitset.
Local Open Scope Z_scope.
Local Open Scope mach_scope.

(** ** Operations *)

Definition bitmap_set (physAddress : Z) : ST kstate unit :=
  p ← gets k_pmm; bitset_set (bitmap p) (physAddress / 4096).
Definition bitmap_free (physAddress : Z) : ST kstate unit :=
  p ← gets k_pmm; bitset_clear (bitmap p) (physAddress / 4096).
Definition bitmap_test (physAddress : Z) : ST kstate bool :=
  p ← gets k_pmm; bitset_test (bitmap p) (physAddress / 4096).

Definition pmm_set (physAddress : Z) : ST kstate unit := bitmap_set physAddress.
Definition pmm_free (physAddress : Z) : ST kstate unit := bitmap_free physAddress.
Definition pmm_test (physAddress : Z) : ST kstate bool := bitmap_test physAddress.

(** The loop over [checkIndex], an [unsigned int]: the index and the address
    computed from it wrap at 32 bits. *)
Fixpoint check_free (fuel : nat) (checkIndex idx numContiguous : Z) : ST kstate bool :=
  match fuel with
  | O => stop_with OutOfFuel
  | S fuel' =>
      if checkIndex <? idx +64 numContiguous then
        t ← pmm_test (checkIndex *32 4096);
        if (t : bool) then mret false
        else check_free fuel' (checkIndex +32 1) idx numContiguous
      else mret true
  end.

(** The loop over [k], also an [unsigned int]. *)
Fixpoint mark_used (fuel : nat) (k idx numContiguous : Z) : ST kstate unit :=
  match fuel with
  | O => stop_with OutOfFuel
  | S fuel' =>
      if k <? idx +64 numContiguous then
        pmm_set (k *32 4096) ;; mark_used fuel' (k +32 1) idx numContiguous
      else skip
  end.

Definition run_fuel (numContiguous : Z) : nat := S (Z.to_nat numContiguous).

Fixpoint allocate_loop (fuel : nat) (idx numContiguous : Z) : ST kstate Z :=
  match fuel with
  | O => stop_with OutOfFuel
  | S fuel' =>
      p ← gets k_pmm;
      if idx <? m_numPages p then
        let init_address := idx *64 4096 in
        t ← pmm_test init_address;
        if (t : bool) then allocate_loop fuel' (idx +64 1) numContiguous
        else if numContiguous <=? 1 then pmm_set init_address ;; mret init_address
        else
          allWasFree ← check_free (run_fuel numContiguous) (u32 (idx +64 1)) idx numContiguous;
          if (allWasFree : bool) then
            mark_used (run_fuel numContiguous) (u32 idx) idx numContiguous ;;
            mret init_address
          else allocate_loop fuel' (idx +64 1) numContiguous
      else
        klog "pmm" "Out of memory, no physical fragment of size %d" [KNum numContiguous] ;;
        kpanic "PMM Out of Memory"
  end.

Definition pmm_allocate (numContiguous : Z) : ST kstate Z :=
  p ← gets k_pmm;
  allocate_loop (S (Z.to_nat (m_numPages p))) 0 numContiguous.

(** The loop the three reporting functions share: the free pages and the used
    ones. *)
Fixpoint count_pages (l : list Z) (numFreePages used : Z) : ST kstate (Z * Z) :=
  match l with
  | [] => mret (numFreePages, used)
  | i :: l' =>
      t ← pmm_test (i *64 4096);
      if (t : bool) then count_pages l' numFreePages (used +64 1)
      else count_pages l' (numFreePages +64 1) used
  end.

Definition debug_print_free_pages : ST kstate unit :=
  p ← gets k_pmm;
  c ← count_pages (seqZ 0 (m_numPages p)) 0 0;
  let numFreePages := c.1 in
  let pagesUsed := m_numPages p -64 numFreePages in
  klog "pmm" "%d/%d pages free" [KNum numFreePages; KNum (m_numPages p)] ;;
  klog "pmm" "Used %dKB / %dKB of memory (%dMB / %dMB)"
    [KNum (pagesUsed *64 4); KNum (m_numPages p *64 4); KNum ((pagesUsed *64 4) / 1024);
     KNum ((m_numPages p *64 4) / 1024)].

Definition debug_print_free_memory : ST kstate unit :=
  p ← gets k_pmm;
  c ← count_pages (seqZ 0 (m_numPages p)) 0 0;
  let numFreePages := c.1 in
  let pagesUsed := m_numPages p -64 numFreePages -64 m_nonMemoryBackedPages p in
  let pageLimit := m_maxFreePages p in
  klog "pmm" "%d/%d pages free" [KNum numFreePages; KNum pageLimit] ;;
  klog "pmm" "Used %dKB / %dKB of memory (%dMB / %dMB)"
    [KNum (pagesUsed *64 4); KNum (pageLimit *64 4); KNum ((pagesUsed *64 4) / 1024);
     KNum ((pageLimit *64 4) / 1024)].

(** The used pages are added to [m_nonMemoryBackedPages], which is not reset. *)
Definition set_free_memory : ST kstate unit :=
  p ← gets k_pmm;
  c ← count_pages (seqZ 0 (m_numPages p)) 0 (m_nonMemoryBackedPages p);
  modify (fun s => let p := k_pmm s in
    set_kpmm (Pmm (bitmap p) (m_initialised p) (m_numPages p) c.1 c.2) s).

(** ** Specification *)

(** Page [i] is in use. *)
Definition page_used (s : kstate) (i : Z) : bool := bit_of (k_mem s) (bitmap (k_pmm s)) i.

(** An initialised manager of less than 4 GiB: from page 2^20 on the 32-bit
    arithmetic of the multi-page search wraps ([pmm_allocate_wraps]). *)
Definition pmm_ok (s : kstate) : Prop :=
  m_length (bitmap (k_pmm s)) = m_numPages (k_pmm s) /\
  0 <= m_numPages (k_pmm s) < 1048576.

(** The bytes of the bitmap. *)
Definition bitmap_byte (s : kstate) (a : Z) : Prop :=
  let b := bitmap (k_pmm s) in
  m_ptr b <= a < m_ptr b + m_length b / 8 + 1.

(** Memory [m'] is that of [s] with the pages of [lo, hi) made used. *)
Definition pages_marked (s : kstate) (lo hi : Z) (m' : mem) : Prop :=
  (forall j, 0 <= j -> bit_of m' (bitmap (k_pmm s)) j =
     if decide (lo <= j < hi) then true else page_used s j) /\
  (forall a, ~ bitmap_byte s a -> mget m' a = mget (k_mem s) a).

(** Pages [i .. i + n) exist and are free. *)
Definition fits (s : kstate) (n i : Z) : Prop :=
  0 <= i /\ i + n <= m_numPages (k_pmm s) /\ forall j, i <= j < i + n -> page_used s j = false.

Definition free_run (used : Z -> bool) (lo hi : Z) : bool :=
  forallb (fun j => negb (used j)) (seqZ lo (hi - lo)).

Inductive search_result := Found (i : Z) | NoMemory | Overrun.

(** What the search over the starting points [l] comes to. *)
Fixpoint search_pages (used : Z -> bool) (pages n : Z) (l : list Z) : search_result :=
  match l with
  | [] => NoMemory
  | i :: l' =>
      if used i then search_pages used pages n l'
      else if free_run used i (Z.min (i + n) pages)
           then (if i + n <=? pages then Found i else Overrun)
           else search_pages used pages n l'
  end.

(** ** Single pages *)

Lemma page_index i : 0 <= i -> u64 (i * 4096) = i * 4096 -> (i *64 4096) / 4096 = i.
Proof. intros Hi ->. by rewrite Z.div_mul. Qed.

Lemma pmm_test_run s i :
  0 <= i < m_length (bitmap (k_pmm s)) -> pmm_test (i * 4096) s = Done (page_used s i, s).
Proof.
  intros Hi. unfold pmm_test, bitmap_test. unfold mbind, ST_bind, gets.
  rewrite Z.div_mul by lia. by rewrite bitset_test_run.
Qed.

Lemma pmm_test_assert s i :
  m_length (bitmap (k_pmm s)) <= i -> pmm_test (i * 4096) s = Stopped (AssertFailed "bit < m_length").
Proof.
  intros Hi. unfold pmm_test, bitmap_test. unfold mbind, ST_bind, gets.
  rewrite Z.div_mul by lia. by apply bitset_out_of_range.
Qed.

Lemma pages_marked_intro s i m' :
  0 <= i < m_length (bitmap (k_pmm s)) ->
  bit_updated (bitmap (k_pmm s)) i true (k_mem s) m' -> pages_marked s i (i + 1) m'.
Proof.
  intros Hi [H1 H2]. split.
  - intros j Hj. rewrite H1 by done. repeat case_decide; try done; lia.
  - intros a Ha. apply H2. intros ->. apply Ha. unfold bitmap_byte. lia_div.
Qed.

Lemma pmm_set_run s i :
  0 <= i < m_length (bitmap (k_pmm s)) ->
  exists m', pmm_set (i * 4096) s = Done (tt, set_kmem m' s) /\ pages_marked s i (i + 1) m'.
Proof.
  intros Hi. destruct (bitset_set_run (bitmap (k_pmm s)) i s Hi) as (m' & H1 & H2).
  exists m'. split; [|by apply pages_marked_intro].
  unfold pmm_set, bitmap_set. unfold mbind, ST_bind, gets. by rewrite Z.div_mul.
Qed.

Lemma pages_marked_trans s lo mid hi m1 m2 :
  lo <= mid <= hi ->
  pages_marked s lo mid m1 -> pages_marked (set_kmem m1 s) mid hi m2 -> pages_marked s lo hi m2.
Proof.
  intros Hle [H1 H2] [H3 H4]. split.
  - intros j Hj. cbn [k_pmm set_kmem] in H3. rewrite H3 by done.
    unfold page_used. cbn [k_pmm k_mem set_kmem]. rewrite H1 by done. unfold page_used.
    repeat case_decide; try done; lia.
  - intros a Ha. rewrite <- (H2 a Ha). by apply H4.
Qed.

(** ** The search *)

Section Search.
Variables (used : Z -> bool) (pages : Z).

Lemma free_run_cons lo hi :
  lo < hi -> free_run used lo hi = negb (used lo) && free_run used (lo + 1) hi.
Proof.
  intros H. unfold free_run. rewrite seqZ_cons by lia. simpl.
  by replace (Z.pred (hi - lo)) with (hi - (lo + 1)) by lia.
Qed.

Lemma free_run_nil lo hi : hi <= lo -> free_run used lo hi = true.
Proof. intros H. unfold free_run. by rewrite seqZ_nil by lia. Qed.

Lemma free_run_true lo hi :
  free_run used lo hi = true <-> forall j, lo <= j < hi -> used j = false.
Proof.
  unfold free_run. rewrite forallb_forall. split.
  - intros H j Hj. specialize (H j). rewrite <- list_elem_of_In, elem_of_seqZ in H.
    by destruct (used j); [specialize (H ltac:(lia))|].
  - intros H j Hj. rewrite <- list_elem_of_In, elem_of_seqZ in Hj. by rewrite H by lia.
Qed.

Definition fits_in (n i : Z) : Prop :=
  0 <= i /\ i + n <= pages /\ forall j, i <= j < i + n -> used j = false.

(** What the outcome of the search from [lo] on means. *)
Lemma search_pages_spec n lo k :
  0 < n -> 0 <= lo -> 0 <= k -> lo + k = pages ->
  match search_pages used pages n (seqZ lo k) with
  | Found i => lo <= i /\ fits_in n i /\ forall j, lo <= j < i -> ~ fits_in n j
  | NoMemory => (forall j, lo <= j -> ~ fits_in n j) /\ (k = 0 \/ used (pages - 1) = true)
  | Overrun => (forall j, lo <= j -> ~ fits_in n j) /\ 0 < k /\ used (pages - 1) = false
  end.
Proof.
  intros Hn Hlo Hk. revert lo Hlo. pattern k. apply natlike_ind; [| |done]; clear k Hk.
  - intros lo Hlo Hs. cbn. split; [|by left]. intros j Hj (_ & ? & _). lia.
  - intros k Hk IH lo Hlo Hs. rewrite seqZ_cons by lia. rewrite Z.pred_succ.
    cbn [search_pages]. specialize (IH (Z.succ lo) ltac:(lia) ltac:(lia)).
    assert (~ fits_in n lo -> match search_pages used pages n (seqZ (Z.succ lo) k) with
      | Found i => lo <= i /\ fits_in n i /\ forall j, lo <= j < i -> ~ fits_in n j
      | NoMemory => (forall j, lo <= j -> ~ fits_in n j) /\
          (k = 0 -> used lo = true -> used (pages - 1) = true) /\ (k <> 0 -> used (pages - 1) = true)
      | Overrun => (forall j, lo <= j -> ~ fits_in n j) /\ used (pages - 1) = false
      end) as Hnext.
    { intros Hnot. assert (forall j, lo <= j -> (Z.succ lo <= j -> ~ fits_in n j) -> ~ fits_in n j) as Hlift.
      { intros j Hj H. destruct (decide (j = lo)) as [->|]; [done|]. apply H. lia. }
      destruct (search_pages used pages n (seqZ (Z.succ lo) k)) as [i| |].
      - destruct IH as (H1 & H2 & H3). split; [lia|]. split; [done|].
        intros j Hj. apply Hlift; [lia|]. intros. apply H3. lia.
      - destruct IH as [H1 H2]. split; [intros j Hj; apply Hlift; auto|].
        split; [intros H0 Hu; by replace (pages - 1) with lo by lia|]. intros. by destruct H2.
      - destruct IH as (H1 & H2 & H3). split; [intros j Hj; apply Hlift; auto|done]. }
    destruct (used lo) eqn:Eu.
    { assert (~ fits_in n lo) as Hnot by (intros (_ & _ & H); rewrite H in Eu by lia; done).
      specialize (Hnext Hnot). destruct (search_pages _ _ _ _) as [i| |]; [done| |].
      - destruct Hnext as (H1 & H2 & H3). split; [done|]. right.
        destruct (decide (k = 0)); auto.
      - destruct Hnext. split; [done|]. split; [lia|done]. }
    destruct (free_run used lo (Z.min (lo + n) pages)) eqn:Ef.
    + rewrite free_run_true in Ef. destruct (lo + n <=? pages) eqn:El.
      * split; [lia|]. split; [|lia]. split; [done|]. split; [lia|]. intros j Hj. apply Ef. lia.
      * split; [intros j Hj (_ & ? & _); lia|]. split; [lia|]. apply Ef. lia.
    + assert (~ fits_in n lo) as Hnot.
      { intros (_ & H1 & H2). assert (free_run used lo (Z.min (lo + n) pages) = true); [|congruence].
        apply free_run_true. intros j Hj. apply H2. lia. }
      specialize (Hnext Hnot). destruct (search_pages _ _ _ _) as [i| |]; [done| |].
      * destruct Hnext as (H1 & H2 & H3). split; [done|].
        destruct (decide (k = 0)) as [->|]; [|auto]. exfalso.
        rewrite (free_run_cons lo) in Ef by lia. rewrite Eu, free_run_nil in Ef by lia. done.
      * destruct Hnext. split; [done|]. split; [lia|done].
Qed.
End Search.

(** ** The loops *)

Section Loops.
Variable s : kstate.
Hypothesis Hok : pmm_ok s.
Let pages : Z := m_numPages (k_pmm s).

Lemma check_free_run fuel c idx n :
  0 <= c <= pages -> 0 <= idx -> c <= idx + n < 4294967296 -> idx + n - c < Z.of_nat fuel ->
  check_free fuel c idx n s =
    if free_run (page_used s) c (Z.min (idx + n) pages)
    then (if idx + n <=? pages then Done (true, s) else Stopped (AssertFailed "bit < m_length"))
    else Done (false, s).
Proof.
  destruct Hok as [Hlen Hp]. fold pages in Hlen, Hp.
  revert c. induction fuel as [|fuel IH]; intros c Hc Hidx He Hf; [lia|].
  cbn [check_free]. rewrite (u64_small (idx + n)) by lia.
  destruct (c <? idx + n) eqn:E.
  - rewrite (u32_small (c * 4096)) by lia. destruct (decide (c < pages)) as [Hlt|Hge].
    + rewrite (bind_done _ _ _ _ _ (pmm_test_run s c ltac:(lia))).
      rewrite free_run_cons by lia. destruct (page_used s c) eqn:Eu; [done|]. cbn [negb andb].
      rewrite (u32_small (c + 1)) by lia. apply IH; lia.
    + rewrite free_run_nil by lia. assert ((idx + n <=? pages) = false) as -> by lia.
      apply bind_stopped. apply pmm_test_assert. lia.
  - rewrite free_run_nil by lia. by assert ((idx + n <=? pages) = true) as -> by lia.
Qed.

End Loops.

Lemma mark_used_run fuel k idx n s :
  pmm_ok s -> 0 <= idx <= k -> k <= idx + n <= m_numPages (k_pmm s) -> idx + n - k < Z.of_nat fuel ->
  exists m', mark_used fuel k idx n s = Done (tt, set_kmem m' s) /\ pages_marked s k (idx + n) m'.
Proof.
  revert k s. induction fuel as [|fuel IH]; intros k s [Hlen Hp] Hidx Hk Hf; [lia|].
  cbn [mark_used]. rewrite (u64_small (idx + n)) by lia.
  destruct (k <? idx + n) eqn:E.
  - rewrite (u32_small (k * 4096)), (u32_small (k + 1)) by lia.
    destruct (pmm_set_run s k ltac:(lia)) as (m1 & H1 & Hm1).
    rewrite (bind_done _ _ _ _ _ H1).
    destruct (IH (k + 1) (set_kmem m1 s)) as (m2 & H2 & Hm2); [done|lia|simpl; lia|lia|].
    exists m2. split; [exact H2|]. eapply pages_marked_trans; [|exact Hm1|exact Hm2]. lia.
  - exists (k_mem s). split; [by destruct s|]. replace (idx + n) with k by lia.
    split; [|done]. intros j Hj. by rewrite decide_False by lia.
Qed.

(** The number of pages a request asks for. *)
Definition request_pages (n : Z) : Z := Z.max n 1.

Lemma allocate_loop_run fuel idx n s :
  pmm_ok s -> 0 <= n <= 2147483648 -> 0 <= idx <= m_numPages (k_pmm s) ->
  m_numPages (k_pmm s) - idx < Z.of_nat fuel ->
  match search_pages (page_used s) (m_numPages (k_pmm s)) (request_pages n)
          (seqZ idx (m_numPages (k_pmm s) - idx)) with
  | Found i => exists m', allocate_loop fuel idx n s = Done (i * 4096, set_kmem m' s) /\
                 pages_marked s i (i + request_pages n) m'
  | NoMemory => allocate_loop fuel idx n s = Stopped (Panic "PMM Out of Memory")
  | Overrun => allocate_loop fuel idx n s = Stopped (AssertFailed "bit < m_length")
  end.
Proof.
  intros Hok Hn. pose proof Hok as [Hlen Hp]. set (pages := m_numPages (k_pmm s)) in *.
  revert idx. induction fuel as [|fuel IH]; intros idx Hidx Hf; [lia|].
  cbn [allocate_loop]. rewrite gets_bind. fold pages.
  destruct (idx <? pages) eqn:E.
  2:{ rewrite seqZ_nil by lia. cbn [search_pages]. reflexivity. }
  rewrite seqZ_cons by lia. cbn [search_pages].
  rewrite (u64_small (idx * 4096)), (u64_small (idx + 1)) by lia.
  rewrite (bind_done _ _ _ _ _ (pmm_test_run s idx ltac:(lia))).
  specialize (IH (idx + 1) ltac:(lia) ltac:(lia)).
  replace (Z.pred (pages - idx)) with (pages - (idx + 1)) by lia.
  replace (Z.succ idx) with (idx + 1) by lia.
  destruct (page_used s idx) eqn:Eu; [exact IH|].
  destruct (n <=? 1) eqn:E1.
  - assert (request_pages n = 1) as -> by (unfold request_pages; lia).
    rewrite free_run_cons, Eu, free_run_nil by lia. cbn [negb andb].
    assert ((idx + 1 <=? pages) = true) as -> by lia.
    destruct (pmm_set_run s idx ltac:(lia)) as (m1 & H1 & Hm1).
    exists m1. rewrite (bind_done _ _ _ _ _ H1). done.
  - assert (request_pages n = n) as Hreq by (unfold request_pages; lia). rewrite Hreq in *.
    rewrite (u32_small (idx + 1)), (u32_small idx) by lia.
    pose proof (check_free_run s Hok (run_fuel n) (idx + 1) idx n ltac:(lia) ltac:(lia) ltac:(lia)
      ltac:(unfold run_fuel; lia)) as Hc. fold pages in Hc.
    rewrite free_run_cons, Eu by lia. cbn [negb andb].
    destruct (free_run (page_used s) (idx + 1) (Z.min (idx + n) pages)).
    + destruct (idx + n <=? pages) eqn:E2; [|by apply bind_stopped].
      rewrite (bind_done _ _ _ _ _ Hc).
      destruct (mark_used_run (run_fuel n) idx idx n s Hok) as (m1 & H1 & Hm1);
        [lia|fold pages; lia|unfold run_fuel; lia|].
      exists m1. rewrite (bind_done _ _ _ _ _ H1). done.
    + rewrite (bind_done _ _ _ _ _ Hc). exact IH.
Qed.

Lemma fits_fits_in s n i : fits s n i <-> fits_in (page_used s) (m_numPages (k_pmm s)) n i.
Proof. done. Qed.

Lemma pmm_allocate_run n s :
  pmm_ok s -> 0 <= n <= 2147483648 ->
  let k := request_pages n in
  (exists i m', fits s k i /\ (forall j, j < i -> ~ fits s k j) /\
     pmm_allocate n s = Done (i * 4096, set_kmem m' s) /\ pages_marked s i (i + k) m') \/
  (forall j, ~ fits s k j) /\
    pmm_allocate n s = Stopped (
      if (m_numPages (k_pmm s) =? 0) || page_used s (m_numPages (k_pmm s) - 1)
      then Panic "PMM Out of Memory" else AssertFailed "bit < m_length").
Proof.
  intros Hok Hn k. pose proof Hok as [_ Hp]. set (pages := m_numPages (k_pmm s)) in *.
  pose proof (allocate_loop_run (S (Z.to_nat pages)) 0 n s Hok Hn) as Hrun. fold pages k in Hrun.
  specialize (Hrun ltac:(lia) ltac:(lia)). rewrite Z.sub_0_r in Hrun.
  pose proof (search_pages_spec (page_used s) pages k 0 pages) as Hspec.
  specialize (Hspec ltac:(unfold k, request_pages; lia) ltac:(lia) ltac:(lia) ltac:(lia)).
  assert (forall j, j < 0 -> ~ fits s k j) as Hneg by (intros j Hj (? & _); lia).
  assert (pmm_allocate n s = allocate_loop (S (Z.to_nat pages)) 0 n s) as Heq by done.
  rewrite Heq. destruct (search_pages _ _ _ _) as [i| |].
  - left. destruct Hspec as (H1 & H2 & H3), Hrun as (m' & Hr & Hm). exists i, m'.
    split; [done|]. split; [|done].
    intros j Hj. destruct (decide (j < 0)); [by apply Hneg|]. apply H3. lia.
  - right. destruct Hspec as [H1 H2]. split.
    + intros j. destruct (decide (j < 0)); [by apply Hneg|]. apply H1. lia.
    + rewrite Hrun. destruct H2 as [->| ->]; [done|]. by rewrite orb_true_r.
  - right. destruct Hspec as (H1 & H2 & H3). split.
    + intros j. destruct (decide (j < 0)); [by apply Hneg|]. apply H1. lia.
    + rewrite Hrun, H3. by assert ((pages =? 0) = false) as -> by lia.
Qed.

(** ** Counting *)

Definition free_count (s : kstate) (l : list Z) : Z :=
  Z.of_nat (length (filter (fun i => page_used s i = false) l)).

Lemma count_pages_run s l a b :
  pmm_ok s -> Forall (fun i => 0 <= i < m_numPages (k_pmm s)) l ->
  0 <= a -> a + Z.of_nat (length l) < 2 ^ 64 -> 0 <= b -> b + Z.of_nat (length l) < 2 ^ 64 ->
  count_pages l a b s =
    Done ((a + free_count s l, b + (Z.of_nat (length l) - free_count s l)), s).
Proof.
  intros [Hlen Hp]. change (2 ^ 64) with 18446744073709551616.
  revert a b. induction l as [|i l IH]; intros a b Hl Ha Ha' Hb Hb'.
  - unfold free_count. cbn. by rewrite !Z.add_0_r.
  - inversion Hl; subst. cbn [count_pages]. rewrite (u64_small (i * 4096)) by lia.
    rewrite (bind_done _ _ _ _ _ (pmm_test_run s i ltac:(lia))).
    simpl length in Ha', Hb'. unfold free_count. rewrite filter_cons. fold (free_count s l).
    destruct (page_used s i) eqn:Eu.
    + rewrite decide_False by done. rewrite (u64_small (b + 1)) by lia. rewrite IH by (done || lia).
      unfold free_count. cbn [length]. do 3 f_equal; lia.
    + rewrite decide_True by done. rewrite (u64_small (a + 1)) by lia. rewrite IH by (done || lia).
      unfold free_count. cbn [length]. do 3 f_equal; lia.
Qed.

(** ** Sequences of allocations *)

Fixpoint pmm_allocates (rs : list Z) : ST kstate (list Z) :=
  match rs with
  | [] => mret []
  | n :: rs' => a ← pmm_allocate n; as' ← pmm_allocates rs'; mret (a :: as')
  end.

(** The block for a request of [n] pages at address [a] holds page [j]. *)
Definition block_page (a n j : Z) : Prop := a / 4096 <= j < a / 4096 + request_pages n.

Lemma pages_marked_ok s lo hi m' : pmm_ok s -> pages_marked s lo hi m' -> pmm_ok (set_kmem m' s).
Proof. done. Qed.

Lemma pmm_allocates_run rs s ps s' :
  pmm_ok s -> Forall (fun n => 0 <= n <= 2147483648) rs -> pmm_allocates rs s = Done (ps, s') ->
  exists m', s' = set_kmem m' s /\
    (forall i a n j, ps !! i = Some a -> rs !! i = Some n -> block_page a n j ->
       a mod 4096 = 0 /\ 0 <= j < m_numPages (k_pmm s) /\ page_used s j = false /\ page_used s' j = true) /\
    (forall i k a b n n' j, (i < k)%nat -> ps !! i = Some a -> rs !! i = Some n ->
       ps !! k = Some b -> rs !! k = Some n' -> block_page a n j -> ~ block_page b n' j) /\
    (forall j, 0 <= j -> page_used s j = true -> page_used s' j = true).
Proof.
  intros Hok Hrs. revert s ps s' Hok. induction Hrs as [|n rs Hn _ IH]; intros s ps s' Hok Hrun.
  - injection Hrun as <- <-. exists (k_mem s). split; [by destruct s|]. done.
  - cbn [pmm_allocates] in Hrun.
    destruct (pmm_allocate_run n s Hok Hn) as [(i0 & m1 & (Hf1 & Hf2 & Hf3) & _ & Hr & [Hm _])|[_ Hr]].
    2:{ rewrite (bind_stopped _ _ _ _ Hr) in Hrun. done. }
    rewrite (bind_done _ _ _ _ _ Hr) in Hrun. set (s1 := set_kmem m1 s) in *.
    unfold mbind, ST_bind in Hrun. destruct (pmm_allocates rs s1) as [[ps1 s2]|] eqn:E; [|done].
    injection Hrun as <- <-. destruct (IH s1 ps1 s2 Hok E) as (m2 & Hs2 & H1 & H2 & H3).
    assert (forall j, 0 <= j -> page_used s1 j =
      if decide (i0 <= j < i0 + request_pages n) then true else page_used s j) as Hs1 by exact Hm.
    assert (forall j, block_page (i0 * 4096) n j <-> i0 <= j < i0 + request_pages n) as Hbp.
    { intros j. unfold block_page. by rewrite Z.div_mul. }
    exists m2. split; [rewrite Hs2; done|]. split; [|split].
    + intros [|i] a n' j Ha Hn' Hj; simpl in Ha, Hn'.
      * injection Ha as <-. injection Hn' as <-. apply Hbp in Hj.
        split; [by rewrite Z.mod_mul|]. split; [lia|]. split; [apply Hf3; lia|].
        apply H3; [lia|]. rewrite Hs1 by lia. by rewrite decide_True.
      * destruct (H1 i a n' j Ha Hn' Hj) as (Hal & Hr1 & Hu & Hu').
        split; [done|]. split; [done|]. split; [|done].
        rewrite Hs1 in Hu by lia. by case_decide.
    + intros [|i] [|k] a b n1 n2 j Hik Ha Hn1 Hb Hn2 Hj Hj'; try lia; simpl in *.
      * injection Ha as <-. injection Hn1 as <-. apply Hbp in Hj.
        destruct (H1 k b n2 j Hb Hn2 Hj') as (_ & Hr1 & Hu & _).
        rewrite Hs1, decide_True in Hu by lia. done.
      * by apply (H2 i k a b n1 n2 j ltac:(lia) Ha Hn1 Hb Hn2).
    + intros j Hj Hu. apply H3; [done|]. rewrite Hs1 by done. by case_decide.
Qed.

Lemma free_count_le s l : 0 <= free_count s l <= Z.of_nat (length l).
Proof. unfold free_count. pose proof (length_filter (fun i => page_used s i = false) l). lia. Qed.

Lemma count_all_run s b :
  pmm_ok s -> 0 <= b < 2 ^ 63 ->
  count_pages (seqZ 0 (m_numPages (k_pmm s))) 0 b s =
    Done ((free_count s (seqZ 0 (m_numPages (k_pmm s))),
           b + (m_numPages (k_pmm s) - free_count s (seqZ 0 (m_numPages (k_pmm s))))), s).
Proof.
  intros Hok Hb. pose proof Hok as [_ Hp]. change (2 ^ 63) with 9223372036854775808 in Hb.
  rewrite count_pages_run; try done.
  - rewrite length_seqZ, Z2Nat.id by lia. done.
  - apply Forall_forall. intros i Hi%elem_of_seqZ. lia.
  - rewrite length_seqZ. change (2 ^ 64) with 18446744073709551616. lia.
  - lia.
  - rewrite length_seqZ. change (2 ^ 64) with 18446744073709551616. lia.
Qed.

(** ** The theorems *)

(** C11. [pmm::allocate(n)] takes the lowest run of [max n 1] free pages: it returns
    its address, marks exactly its pages used and writes nothing outside the
    bitmap.  When there is no such run it panics if the last page is in use;
    if the last page is free, the search runs past the end of the bitmap and
    fails the bitset's assertion instead of reporting that memory is out. *)
Theorem pmm_allocate_correct (n : Z) (s : kstate)
    (Hok : pmm_ok s) (Hn : 0 <= n <= 2147483648) :
  let k := request_pages n in
  (exists i m', fits s k i /\ (forall j, j < i -> ~ fits s k j) /\
     pmm_allocate n s = Done (i * 4096, set_kmem m' s) /\ pages_marked s i (i + k) m') \/
  (forall j, ~ fits s k j) /\
    pmm_allocate n s = Stopped (
      if (m_numPages (k_pmm s) =? 0) || page_used s (m_numPages (k_pmm s) - 1)
      then Panic "PMM Out of Memory" else AssertFailed "bit < m_length").
Proof. by apply pmm_allocate_run. Qed.

(** Five pages with the bitmap byte at 100: pages 0 and 2 used. *)
Definition sample_pmm : kstate :=
  sample_kstate (mput ∅ 100 5) no_heap (Pmm (Bitset 100 5) true 5 0 0).

Lemma pmm_allocate_correct_witness :
  exists m', pmm_allocate 2 sample_pmm = Done (3 * 4096, set_kmem m' sample_pmm) /\
    pages_marked sample_pmm 3 (3 + 2) m'.
Proof.
  destruct (pmm_allocate_correct 2 sample_pmm) as [(i & m' & Hf & _ & Hr & Hm)|[Hno _]].
  - split; [done|]. simpl. lia.
  - lia.
  - assert (i = 3) as ->.
    { assert (pmm_allocate 2 sample_pmm = Done (12288, set_kmem (mput (mput (mput ∅ 100 5) 100 13) 100 29) sample_pmm)) as Hc
        by reflexivity.
      rewrite Hc in Hr. injection Hr. lia. }
    exists m'. done.
  - exfalso. apply (Hno 3). split; [lia|]. split; [vm_compute; discriminate|].
    intros j Hj. assert (j = 3 \/ j = 4) as [-> | ->] by (unfold request_pages in Hj; lia); reflexivity.
Defined.

(** Any sequence of requests that is granted gets page-aligned blocks of
    existing pages that were free before, are used afterwards, and belong to no
    other block; pages in use stay in use. *)
Theorem pmm_allocates_disjoint (rs : list Z) (s s' : kstate) (ps : list Z)
    (Hok : pmm_ok s) (Hrs : Forall (fun n => 0 <= n <= 2147483648) rs)
    (Hrun : pmm_allocates rs s = Done (ps, s')) :
  (forall i a n j, ps !! i = Some a -> rs !! i = Some n -> block_page a n j ->
     a mod 4096 = 0 /\ 0 <= j < m_numPages (k_pmm s) /\ page_used s j = false /\ page_used s' j = true) /\
  (forall i k a b n n' j, (i < k)%nat -> ps !! i = Some a -> rs !! i = Some n ->
     ps !! k = Some b -> rs !! k = Some n' -> block_page a n j -> ~ block_page b n' j) /\
  (forall j, 0 <= j -> page_used s j = true -> page_used s' j = true).
Proof. by destruct (pmm_allocates_run rs s ps s' Hok Hrs Hrun) as (m' & _ & H). Qed.

Lemma pmm_allocates_disjoint_witness :
  exists s', pmm_allocates [1; 2] sample_pmm = Done ([4096; 12288], s') /\
    ~ block_page 12288 2 1.
Proof.
  eexists. split; [reflexivity|].
  refine (proj1 (proj2 (pmm_allocates_disjoint [1; 2] sample_pmm _ [4096; 12288] _ _ eq_refl))
    0%nat 1%nat 4096 12288 1 2 1 _ eq_refl eq_refl eq_refl eq_refl _).
  - split; [done|]. simpl. lia.
  - repeat constructor; lia.
  - lia.
  - unfold block_page, request_pages. change (4096 / 4096) with 1. lia.
Defined.

(** [set_free_memory] on a manager that never ran it makes the present use the
    zero point: [debug_print_free_memory] in a later state reports the free
    pages of that state, and as used the pages that were taken since. *)
Theorem free_memory_report (s t : kstate)
    (Hok : pmm_ok s) (Hzero : m_nonMemoryBackedPages (k_pmm s) = 0) :
  let all := seqZ 0 (m_numPages (k_pmm s)) in
  exists s', set_free_memory s = Done (tt, s') /\
    m_maxFreePages (k_pmm s') = free_count s all /\ k_mem s' = k_mem s /\
    (k_pmm t = k_pmm s' ->
     let taken := free_count s all -64 free_count t all in
     exists t', debug_print_free_memory t = Done (tt, t') /\
       k_log t' = (k_log t ++ [KLogCall "pmm" "%d/%d pages free"
                                 [KNum (free_count t all); KNum (free_count s all)]]) ++
                  [KLogCall "pmm" "Used %dKB / %dKB of memory (%dMB / %dMB)"
                     [KNum (taken *64 4); KNum (free_count s all *64 4);
                      KNum ((taken *64 4) / 1024); KNum ((free_count s all *64 4) / 1024)]]).
Proof.
  intros all. pose proof Hok as [Hlen Hp]. eexists. split; [|split; [|split]].
  - unfold set_free_memory. rewrite gets_bind, Hzero.
    rewrite (bind_done _ _ _ _ _ (count_all_run s 0 Hok ltac:(lia))). reflexivity.
  - done.
  - done.
  - intros Ht taken. assert (pmm_ok t) as Hokt by (unfold pmm_ok; by rewrite Ht).
    assert (m_numPages (k_pmm t) = m_numPages (k_pmm s)) as Hn by (by rewrite Ht).
    unfold debug_print_free_memory. rewrite gets_bind.
    rewrite (bind_done _ _ _ _ _ (count_all_run t 0 Hokt ltac:(lia))).
    rewrite !Hn, Ht. cbn [fst snd m_numPages m_nonMemoryBackedPages m_maxFreePages k_pmm set_kpmm].
    fold all. pose proof (free_count_le s all) as Hs. pose proof (free_count_le t all) as Htc.
    assert (Z.of_nat (length all) = m_numPages (k_pmm s)) as Hl
      by (unfold all; rewrite length_seqZ; lia).
    assert (m_numPages (k_pmm s) -64 free_count t all -64
      (0 + (m_numPages (k_pmm s) - free_count s all)) = taken) as ->.
    { unfold taken, u64. rewrite Zminus_mod_idemp_l. f_equal. lia. }
    eexists. split; [reflexivity|]. done.
Qed.

Lemma free_memory_report_witness :
  exists s', set_free_memory sample_pmm = Done (tt, s') /\ m_maxFreePages (k_pmm s') = 3.
Proof.
  destruct (free_memory_report sample_pmm sample_pmm) as (s' & H1 & H2 & _).
  - split; [done|]. simpl. lia.
  - done.
  - exists s'. split; [exact H1|exact H2].
Defined.

(** From page 2^20 on (memory beyond 4 GiB) the 32-bit address of the
    multi-page search wraps: asked for two pages at page 2^20 - 1 the code
    tests page 0 instead of page 2^20, and marks page 0. *)
Theorem pmm_allocate_wraps (s : kstate)
    (Hlen : 1048576 < m_length (bitmap (k_pmm s))) :
  check_free (run_fuel 2) 1048576 1048575 2 s = Done (negb (page_used s 0), s) /\
  exists m', mark_used (run_fuel 2) 1048575 1048575 2 s = Done (tt, set_kmem m' s) /\
    bit_of m' (bitmap (k_pmm s)) 0 = true /\
    bit_of m' (bitmap (k_pmm s)) 1048576 = page_used s 1048576.
Proof.
  split.
  - cbn [check_free run_fuel]. unfold run_fuel. change (S (Z.to_nat 2)) with 3%nat.
    cbn [check_free]. change (1048576 <? 1048575 +64 2) with true. cbv iota.
    change (1048576 *32 4096) with (0 * 4096).
    rewrite (bind_done _ _ _ _ _ (pmm_test_run s 0 ltac:(lia))).
    by destruct (page_used s 0).
  - unfold run_fuel. change (S (Z.to_nat 2)) with 3%nat. cbn [mark_used].
    change (1048575 <? 1048575 +64 2) with true. cbv iota.
    change (1048575 *32 4096) with (1048575 * 4096). change (1048575 +32 1) with 1048576.
    change (1048576 <? 1048575 +64 2) with true. change (1048576 *32 4096) with (0 * 4096).
    change (1048576 +32 1) with 1048577. change (1048577 <? 1048575 +64 2) with false. cbv iota.
    destruct (pmm_set_run s 1048575 ltac:(lia)) as (m1 & H1 & Hm1 & _).
    rewrite (bind_done _ _ _ _ _ H1).
    destruct (pmm_set_run (set_kmem m1 s) 0 ltac:(simpl; lia)) as (m2 & H2 & Hm2 & _).
    rewrite (bind_done _ _ _ _ _ H2). exists m2. split; [done|]. split.
    + change (bitmap (k_pmm s)) with (bitmap (k_pmm (set_kmem m1 s))). by rewrite Hm2.
    + change (bitmap (k_pmm s)) with (bitmap (k_pmm (set_kmem m1 s))). rewrite Hm2 by lia.
      rewrite decide_False by lia. change (page_used (set_kmem m1 s) 1048576)
        with (bit_of m1 (bitmap (k_pmm s)) 1048576). by rewrite Hm1.
Qed.

Lemma pmm_allocate_wraps_witness :
  check_free (run_fuel 2) 1048576 1048575 2
    (sample_kstate (mput ∅ 100 1) no_heap (Pmm (Bitset 100 2097152) true 2097152 0 0)) =
    Done (false, sample_kstate (mput ∅ 100 1) no_heap (Pmm (Bitset 100 2097152) true 2097152 0 0)).
Proof.
  refine (proj1 (pmm_allocate_wraps _ _)). simpl. lia.
Defined.
