(* ===== verification/KernelHeap.v ===== *)
(** The kernel heap (src/src/lobo/mem/heap.cpp) in its early and full modes, and
    the initialisation of the physical memory manager, which allocates its
    bitmap from it ([pmm::init] in mem/pmm.cpp).

    [client_alloc] at the end is what the other components rely on: they are
    verified against it and [kmalloc_client] shows it. *)

From S2P Require Import Prelude Memory AwdAlloc Lobo KernelBitset Pmm.
Local Open Scope Z_scope.
Local Open Scope mach_scope.

(** ** Operations *)

Definition heap_early_get_current : ST kstate Z := gets (fun s => earlyAllocBase (k_heap s)).
Definition heap_early_get_limit : ST kstate Z := gets (fun s => earlyAllocLimit (k_heap s)).

Definition heap_early_init (base limit : Z) : ST kstate unit :=
  modify (set_kheap (KHeap base limit EarlyBoot)).

Definition heap_init_full : ST kstate unit :=
  modify (fun s => set_kheap (KHeap (earlyAllocBase (k_heap s)) (earlyAllocLimit (k_heap s)) Full) s).

Definition set_base (base : Z) : ST kstate unit :=
  modify (fun s => set_kheap (KHeap base (earlyAllocLimit (k_heap s)) (currentMode (k_heap s))) s).

(** [if ((base % alignment) != 0) base += alignment - (base % alignment);]; a
    remainder by 0 is undefined. *)
Definition align_base (alignment : Z) : ST kstate unit :=
  when (alignment =? 0) (stop_with (Fault "remainder by zero")) ;;
  base ← gets (fun s => earlyAllocBase (k_heap s));
  when (negb (base mod alignment =? 0)) (set_base (base +64 (alignment - base mod alignment))).

Definition page_mask (a : Z) : Z := Z.land a (2 ^ 64 - 2 ^ 12).

Definition kmalloc_aligned (sz alignment : Z) : ST kstate Z :=
  mode ← gets (fun s => currentMode (k_heap s));
  match mode with
  | Full =>
      cli ;;
      old_base ← gets (fun s => earlyAllocBase (k_heap s));
      align_base alignment ;;
      block ← gets (fun s => earlyAllocBase (k_heap s));
      limit ← gets (fun s => earlyAllocLimit (k_heap s));
      let new_current := block +64 sz in
      when (limit <? new_current) (kpanic "kmalloc(early): Ran out of memory!") ;;
      when (negb (page_mask old_base =? page_mask new_current))
        (pmm_set (page_mask new_current -64 KERNEL_VMB)) ;;
      set_base new_current ;;
      sti ;;
      mret block
  | EarlyBoot =>
      align_base alignment ;;
      block ← gets (fun s => earlyAllocBase (k_heap s));
      limit ← gets (fun s => earlyAllocLimit (k_heap s));
      let new_current := block +64 sz in
      when (limit <? new_current) (kpanic "kmalloc(early): Ran out of memory!") ;;
      set_base new_current ;;
      klog "kmalloc" "alloc 0x%x bytes @ 0x%p" [KNum sz; KNum block] ;;
      mret block
  | Uninitialised =>
      kpanic "Attempted a memory allocation before heap was initialised!"
  end.

Definition kmalloc (sz : Z) : ST kstate Z := kmalloc_aligned sz 8.
Definition kmalloc_page (sz : Z) : ST kstate Z := kmalloc_aligned sz 4096.

Definition pmm_init (num : Z) : ST kstate unit :=
  p ← gets k_pmm;
  if m_initialised p then skip
  else
    modify (fun s => let p := k_pmm s in
      set_kpmm (Pmm (bitmap p) (m_initialised p) num (m_maxFreePages p) (m_nonMemoryBackedPages p)) s) ;;
    ptr ← kmalloc (num / 8 +64 1);
    modify (fun s => let p := k_pmm s in
      set_kpmm (Pmm (Bitset ptr num) (m_initialised p) (m_numPages p) (m_maxFreePages p)
                  (m_nonMemoryBackedPages p)) s) ;;
    forM (seqZ 0 num) (fun i => pmm_set (i *64 4096)) ;;
    modify (fun s => let p := k_pmm s in
      set_kpmm (Pmm (bitmap p) true (m_numPages p) (m_maxFreePages p) (m_nonMemoryBackedPages p)) s).

(** ** Specification *)

(** A heap in the upper half; in full mode every page up to the limit has a bit
    in the bitmap, and the bitmap lies below the free part of the heap. *)
Record kheap_ok (s : kstate) : Prop := {
  kh_mode : currentMode (k_heap s) <> Uninitialised;
  kh_range : KERNEL_VMB <= earlyAllocBase (k_heap s) <= earlyAllocLimit (k_heap s);
  kh_limit : earlyAllocLimit (k_heap s) < 2 ^ 64;
  kh_full : currentMode (k_heap s) = Full ->
    (earlyAllocLimit (k_heap s) - KERNEL_VMB) / 4096 < m_length (bitmap (k_pmm s)) /\
    forall a, bitmap_byte s a -> a < earlyAllocBase (k_heap s);
}.

(** Everything but the memory, the heap, the interrupt flag and the log. *)
Record same_rest (s s' : kstate) : Prop := {
  sr_pmm : k_pmm s' = k_pmm s;
  sr_vmm : k_vmm s' = k_vmm s;
  sr_sched : k_sched s' = k_sched s;
  sr_drivers : k_drivers s' = k_drivers s;
  sr_cr3 : cpu_cr3 (k_cpu s') = cpu_cr3 (k_cpu s);
  sr_regs : cpu_rsp (k_cpu s') = cpu_rsp (k_cpu s) /\ cpu_regs (k_cpu s') = cpu_regs (k_cpu s) /\
    cpu_rip (k_cpu s') = cpu_rip (k_cpu s);
  sr_io : k_kbd s' = k_kbd s /\ k_out s' = k_out s;
}.

(** The page the full mode marks: the one the new position is in, if the
    position has changed page. *)
Definition marked_page (s : kstate) (p sz : Z) : option Z :=
  let base := earlyAllocBase (k_heap s) in
  if decide (currentMode (k_heap s) = Full)
  then if decide (base / 4096 = (p + sz) / 4096) then None else Some ((p + sz - KERNEL_VMB) / 4096)
  else None.

(** State [s'] is [s] after the allocation of [sz] bytes at [p]. *)
Record allocated (s : kstate) (sz p : Z) (s' : kstate) : Prop := {
  ka_heap : k_heap s' = KHeap (p + sz) (earlyAllocLimit (k_heap s)) (currentMode (k_heap s));
  ka_mem : forall a, (currentMode (k_heap s) = Full -> ~ bitmap_byte s a) ->
    mget (k_mem s') a = mget (k_mem s) a;
  ka_bits : forall j, 0 <= j -> page_used s' j =
    bool_decide (marked_page s p sz = Some j) || page_used s j;
  ka_if : cpu_if (k_cpu s') =
    if decide (currentMode (k_heap s) = Full) then true else cpu_if (k_cpu s);
  ka_rest : same_rest s s';
}.

Definition kalloc_at (s : kstate) (al : Z) : Z := round_up (earlyAllocBase (k_heap s)) al.

(** ** Proofs *)

Lemma same_rest_refl s : same_rest s s.
Proof. by split. Qed.
Lemma same_rest_trans s1 s2 s3 : same_rest s1 s2 -> same_rest s2 s3 -> same_rest s1 s3.
Proof.
  intros [? ? ? ? ? (? & ? & ?) (? & ?)] [? ? ? ? ? (? & ? & ?) (? & ?)]. split; try congruence.
  - split; [congruence|]. split; congruence.
  - split; congruence.
Qed.

Lemma align_base_run s al :
  0 < al <= 65536 -> 0 <= earlyAllocBase (k_heap s) -> earlyAllocBase (k_heap s) + al < 2 ^ 64 ->
  align_base al s = Done (tt, set_kheap (KHeap (kalloc_at s al) (earlyAllocLimit (k_heap s))
                                           (currentMode (k_heap s))) s).
Proof.
  change (2 ^ 64) with 18446744073709551616. intros Hal Hb Hl. unfold align_base, kalloc_at, round_up.
  set (base := earlyAllocBase (k_heap s)) in *.
  assert ((al =? 0) = false) as -> by lia. rewrite (bind_done _ _ s tt s) by done.
  rewrite gets_bind. fold base. pose proof (Z.mod_pos_bound base al ltac:(lia)).
  destruct (base mod al =? 0) eqn:E; cbn [negb when].
  - unfold skip. unfold base. by destruct s as [? [] ? ? ? ? ? ? ? ?].
  - rewrite u64_small by lia. done.
Qed.

Lemma page_mask_spec a : 0 <= a < 2 ^ 64 -> page_mask a = a - a mod 4096.
Proof. intros Ha. unfold page_mask. by rewrite (land_clear_low_w 64 12) by lia. Qed.

Lemma marked_address a :
  KERNEL_VMB <= a < 2 ^ 64 -> page_mask a -64 KERNEL_VMB = (a - KERNEL_VMB) / 4096 * 4096.
Proof.
  intros Ha. rewrite page_mask_spec by (unfold KERNEL_VMB in Ha; lia).
  unfold KERNEL_VMB in *. change (2 ^ 64) with 18446744073709551616 in Ha.
  rewrite u64_small by lia_div. lia_div.
Qed.

(** Marking a page that may be none. *)
Lemma mark_run s old new :
  kheap_ok s -> currentMode (k_heap s) = Full ->
  KERNEL_VMB <= old -> old <= new <= earlyAllocLimit (k_heap s) ->
  let target := if decide (old / 4096 = new / 4096) then None else Some ((new - KERNEL_VMB) / 4096) in
  exists m', when (negb (page_mask old =? page_mask new)) (pmm_set (page_mask new -64 KERNEL_VMB)) s
      = Done (tt, set_kmem m' s) /\
    (forall a, ~ bitmap_byte s a -> mget m' a = mget (k_mem s) a) /\
    (forall j, 0 <= j -> bit_of m' (bitmap (k_pmm s)) j = bool_decide (target = Some j) || page_used s j).
Proof.
  intros [_ _ Hlim Hfull] Hmode Hold Hnew target. destruct (Hfull Hmode) as [Hlen _].
  change (2 ^ 64) with 18446744073709551616 in Hlim.
  rewrite marked_address by (change (2 ^ 64) with 18446744073709551616; lia).
  rewrite !page_mask_spec by (unfold KERNEL_VMB in *; change (2 ^ 64) with 18446744073709551616; lia).
  assert ((old - old mod 4096 =? new - new mod 4096) = bool_decide (old / 4096 = new / 4096)) as ->.
  { case_bool_decide; lia_div. }
  unfold target. case_bool_decide as Hd.
  - rewrite decide_True by done. exists (k_mem s). split; [by destruct s|]. done.
  - rewrite decide_False by done. cbn [negb when].
    destruct (pmm_set_run s ((new - KERNEL_VMB) / 4096)) as (m' & H1 & H2 & H3).
    { split; [apply Z.div_pos; lia|]. eapply Z.le_lt_trans; [|exact Hlen]. apply Z.div_le_mono; lia. }
    exists m'. split; [done|]. split; [done|]. intros j Hj. rewrite H2 by done.
    case_decide as Hj'; case_bool_decide as Hb; try done.
    + destruct Hb. f_equal. lia.
    + injection Hb as <-. lia.
Qed.

Lemma kmalloc_aligned_run s sz al :
  kheap_ok s -> 0 < al <= 65536 -> 0 <= sz < 2 ^ 63 ->
  earlyAllocLimit (k_heap s) + al + sz < 2 ^ 64 ->
  let p := kalloc_at s al in
  if p + sz <=? earlyAllocLimit (k_heap s)
  then exists s', kmalloc_aligned sz al s = Done (p, s') /\ allocated s sz p s'
  else kmalloc_aligned sz al s = Stopped (Panic "kmalloc(early): Ran out of memory!").
Proof.
  intros Hok Hal Hsz Hover p. pose proof Hok as [Hmode Hr Hlim Hfull].
  change (2 ^ 63) with 9223372036854775808 in Hsz.
  change (2 ^ 64) with 18446744073709551616 in Hlim, Hover. unfold KERNEL_VMB in Hr.
  destruct (round_up_spec (earlyAllocBase (k_heap s)) al ltac:(lia)) as [Hp _].
  fold (kalloc_at s al) in Hp. fold p in Hp.
  unfold kmalloc_aligned. rewrite gets_bind.
  destruct (currentMode (k_heap s)) eqn:Em; [by destruct Hmode|..].
  - erewrite bind_done; [|apply align_base_run; change (2 ^ 64) with 18446744073709551616; lia].
    rewrite !gets_bind. cbn [k_heap set_kheap earlyAllocBase earlyAllocLimit]. fold p.
    rewrite (u64_small (p + sz)) by lia.
    destruct (p + sz <=? earlyAllocLimit (k_heap s)) eqn:E.
    + assert ((earlyAllocLimit (k_heap s) <? p + sz) = false) as -> by lia.
      eexists. split; [reflexivity|]. split; try done.
      * intros j Hj. unfold marked_page. rewrite decide_False by (by rewrite Em). done.
      * by rewrite decide_False by (by rewrite Em).
    + assert ((earlyAllocLimit (k_heap s) <? p + sz) = true) as -> by lia. done.
  - unfold cli, set_if. rewrite modify_bind, gets_bind.
    set (s1 := set_kcpu _ s). erewrite bind_done; [|apply align_base_run;
      change (2 ^ 64) with 18446744073709551616; simpl; lia].
    rewrite !gets_bind. cbn [k_heap set_kheap earlyAllocBase earlyAllocLimit].
    change (kalloc_at s1 al) with p. change (k_heap s1) with (k_heap s).
    rewrite (u64_small (p + sz)) by lia.
    destruct (p + sz <=? earlyAllocLimit (k_heap s)) eqn:E.
    2:{ assert ((earlyAllocLimit (k_heap s) <? p + sz) = true) as -> by lia. done. }
    assert ((earlyAllocLimit (k_heap s) <? p + sz) = false) as -> by lia.
    rewrite (bind_done (when false _) _ _ tt _ eq_refl). set (s2 := set_kheap _ s1).
    assert (kheap_ok s2) as Hok2.
    { split; simpl; rewrite ?Em; try done.
      - unfold KERNEL_VMB. lia.
      - intros _. destruct (Hfull eq_refl) as [H1 H2]. split; [done|].
        intros a Ha. specialize (H2 a Ha). lia. }
    destruct (mark_run s2 (earlyAllocBase (k_heap s)) (p + sz) Hok2) as (m' & H1 & H2 & H3);
      [by simpl; rewrite Em|unfold KERNEL_VMB; lia|simpl; lia|].
    rewrite (bind_done _ _ _ _ _ H1). eexists. split; [reflexivity|]. split; try done.
    + intros a Ha. by apply H2, Ha.
    + intros j Hj. unfold marked_page. rewrite decide_True by done. exact (H3 j Hj).
    + by rewrite decide_True.
Qed.

Lemma kalloc_at_spec s al :
  0 < al -> earlyAllocBase (k_heap s) <= kalloc_at s al < earlyAllocBase (k_heap s) + al /\
            kalloc_at s al mod al = 0.
Proof. intros Hal. by apply round_up_spec. Qed.

(** The invariant after an allocation. *)
Lemma allocated_ok s sz al p s' :
  kheap_ok s -> p = kalloc_at s al -> 0 < al -> 0 <= sz -> p + sz <= earlyAllocLimit (k_heap s) ->
  allocated s sz p s' -> kheap_ok s'.
Proof.
  intros [Hmode Hr Hlim Hfull] -> Hal Hsz Hfit [Hheap _ _ _ [Hpmm _ _ _ _ _]].
  destruct (kalloc_at_spec s al Hal) as [Hp _].
  split; rewrite Hheap; cbn [currentMode earlyAllocBase earlyAllocLimit]; try done.
  - lia.
  - intros Hf. rewrite Hpmm. destruct (Hfull Hf) as [H1 H2]. split; [done|].
    intros a Ha. unfold bitmap_byte in Ha. rewrite Hpmm in Ha. specialize (H2 a Ha). lia.
Qed.

Definition krequest_ok (limit : Z) (r : Z * Z) : Prop :=
  0 <= r.1 < 2 ^ 62 /\ 0 < r.2 <= 65536 /\ limit + r.2 + r.1 < 2 ^ 64.

Fixpoint kmallocs (rs : list (Z * Z)) : ST kstate (list Z) :=
  match rs with
  | [] => mret []
  | (sz, al) :: rs' => p ← kmalloc_aligned sz al; ps ← kmallocs rs'; mret (p :: ps)
  end.

Lemma kmallocs_run rs s ps s' :
  kheap_ok s -> Forall (krequest_ok (earlyAllocLimit (k_heap s))) rs ->
  kmallocs rs s = Done (ps, s') ->
  kheap_ok s' /\ same_rest s s' /\ earlyAllocBase (k_heap s) <= earlyAllocBase (k_heap s') /\
  earlyAllocLimit (k_heap s') = earlyAllocLimit (k_heap s) /\
  (forall a, ~ bitmap_byte s a -> mget (k_mem s') a = mget (k_mem s) a) /\
  (forall i p sz al, ps !! i = Some p -> rs !! i = Some (sz, al) ->
     earlyAllocBase (k_heap s) <= p /\ p mod al = 0 /\ p + sz <= earlyAllocBase (k_heap s')) /\
  (forall i j p q sz al sz' al', (i < j)%nat -> ps !! i = Some p -> rs !! i = Some (sz, al) ->
     ps !! j = Some q -> rs !! j = Some (sz', al') -> p + sz <= q).
Proof.
  revert s ps s'. induction rs as [|[sz al] rs IH]; intros s ps s' Hok Hrs Hrun.
  - injection Hrun as <- <-. split; [done|]. split; [apply same_rest_refl|].
    split; [lia|]. split; [done|]. split; [done|]. split; intros; done.
  - inversion Hrs as [|? ? [Hsz [Hal Hov]] Hrs']; subst. cbn [fst snd] in *.
    cbn [kmallocs] in Hrun.
    pose proof (kmalloc_aligned_run s sz al Hok Hal ltac:(change (2 ^ 62) with 4611686018427387904 in *;
      change (2 ^ 63) with 9223372036854775808; lia) ltac:(lia)) as H1. cbv zeta in H1.
    destruct (kalloc_at_spec s al ltac:(lia)) as [Hp Hpa]. set (p0 := kalloc_at s al) in *.
    destruct (p0 + sz <=? earlyAllocLimit (k_heap s)) eqn:E.
    2:{ rewrite (bind_stopped _ _ _ _ H1) in Hrun. done. }
    destruct H1 as (s1 & H1 & Ha). rewrite (bind_done _ _ _ _ _ H1) in Hrun.
    unfold mbind, ST_bind in Hrun. destruct (kmallocs rs s1) as [[ps1 s2]|] eqn:E1; [|done].
    injection Hrun as <- <-.
    pose proof (allocated_ok s sz al p0 s1 Hok eq_refl ltac:(lia) ltac:(lia) ltac:(lia) Ha) as Hok1.
    pose proof (ka_heap _ _ _ _ Ha) as Hh.
    assert (earlyAllocLimit (k_heap s1) = earlyAllocLimit (k_heap s)) as Hl1 by (by rewrite Hh).
    assert (earlyAllocBase (k_heap s1) = p0 + sz) as Hb1 by (by rewrite Hh).
    destruct (IH s1 ps1 s2 Hok1 ltac:(by rewrite Hl1) E1) as (G1 & G2 & G3 & G4 & G5 & G6 & G7).
    split; [done|]. split; [eapply same_rest_trans; [apply Ha|done]|]. split; [lia|].
    split; [congruence|]. split; [|split].
    + intros a Hna. rewrite G5; [by apply (ka_mem _ _ _ _ Ha)|]. unfold bitmap_byte.
      by rewrite (sr_pmm _ _ (ka_rest _ _ _ _ Ha)).
    + intros [|i] p sz' al' Hpi Hri; simpl in Hpi, Hri.
      * injection Hpi as <-. injection Hri as <- <-. lia.
      * destruct (G6 i p sz' al' Hpi Hri) as (? & ? & ?). split; [lia|done].
    + intros [|i] [|j] p q sz1 al1 sz2 al2 Hij Hpi Hri Hqj Hrj; try lia; simpl in *.
      * injection Hpi as <-. injection Hri as <- <-. destruct (G6 j q sz2 al2 Hqj Hrj). lia.
      * by apply (G7 i j p q sz1 al1 sz2 al2 ltac:(lia)).
Qed.

(** ** The bitmap *)

Lemma set_all_run num k s :
  m_length (bitmap (k_pmm s)) = num -> num < 2 ^ 51 -> 0 <= k <= num ->
  exists m', forM (seqZ 0 k) (fun i => pmm_set (i *64 4096)) s = Done (tt, set_kmem m' s) /\
    pages_marked s 0 k m'.
Proof.
  intros Hlen Hnum Hk. change (2 ^ 51) with 2251799813685248 in Hnum.
  assert (0 <= k) as Hk0 by lia. revert Hk. pattern k. apply natlike_ind; [| |done]; clear k Hk0.
  - intros _. exists (k_mem s). split; [by destruct s|]. split; [|done].
    intros j Hj. by rewrite decide_False by lia.
  - intros k Hk0 IH Hk. destruct (IH ltac:(lia)) as (m1 & H1 & Hm1).
    assert (seqZ 0 (Z.succ k) = seqZ 0 k ++ [k]) as ->.
    { rewrite <- (Z2Nat.id k) at 1 by done. rewrite <- Nat2Z.inj_succ, seqZ_S.
      by rewrite !Z2Nat.id, Z.add_0_l by done. }
    rewrite (ST_eq_at (forM_app _ _ _) s), (bind_done _ _ _ _ _ H1). cbn [forM].
    rewrite u64_small by lia.
    destruct (pmm_set_run (set_kmem m1 s) k ltac:(simpl; lia)) as (m2 & H2 & Hm2).
    rewrite (bind_done _ _ _ _ _ H2). exists m2. split; [done|].
    eapply pages_marked_trans; [|exact Hm1|exact Hm2]. lia.
Qed.

(** [pmm::init]: in the early mode with room for the bitmap. *)
Lemma pmm_init_run num s :
  kheap_ok s -> currentMode (k_heap s) = EarlyBoot -> m_initialised (k_pmm s) = false ->
  0 <= num < 2 ^ 51 -> earlyAllocLimit (k_heap s) + 8 + (num / 8 + 1) < 2 ^ 64 ->
  let p := kalloc_at s 8 in
  if p + (num / 8 + 1) <=? earlyAllocLimit (k_heap s) then
    exists s', pmm_init num s = Done (tt, s') /\
      k_pmm s' = Pmm (Bitset p num) true num (m_maxFreePages (k_pmm s)) (m_nonMemoryBackedPages (k_pmm s)) /\
      k_heap s' = KHeap (p + (num / 8 + 1)) (earlyAllocLimit (k_heap s)) EarlyBoot /\
      (forall i, 0 <= i < num -> page_used s' i = true) /\
      (forall a, ~ (p <= a < p + (num / 8 + 1)) -> mget (k_mem s') a = mget (k_mem s) a) /\
      k_vmm s' = k_vmm s
  else pmm_init num s = Stopped (Panic "kmalloc(early): Ran out of memory!").
Proof.
  intros Hok Hmode Hinit Hnum Hov p. change (2 ^ 51) with 2251799813685248 in *.
  assert (0 <= num / 8 + 1 < 2251799813685248) as Hsz by lia_div.
  unfold pmm_init. rewrite gets_bind, Hinit, modify_bind.
  match goal with |- context [set_kpmm ?q s] => set (s1 := set_kpmm q s) end.
  assert (kheap_ok s1) as Hok1.
  { destruct Hok as [H1 H2 H3 H4]. split; try done. }
  rewrite (u64_small (num / 8 + 1)) by lia.
  pose proof (kmalloc_aligned_run s1 (num / 8 + 1) 8 Hok1 ltac:(lia)
    ltac:(change (2 ^ 63) with 9223372036854775808; lia) ltac:(simpl; lia)) as H1. cbv zeta in H1.
  change (kalloc_at s1 8) with p in H1. change (k_heap s1) with (k_heap s) in H1.
  destruct (p + (num / 8 + 1) <=? earlyAllocLimit (k_heap s)) eqn:E.
  2:{ unfold kmalloc. by rewrite (bind_stopped _ _ _ _ H1). }
  destruct H1 as (s2 & H1 & [Hheap Hmem _ _ [Hpmm Hvmm _ _ _ _ _]]).
  unfold kmalloc. rewrite (bind_done _ _ _ _ _ H1), modify_bind. rewrite Hpmm.
  match goal with |- context [set_kpmm ?q s2] => set (s3 := set_kpmm q s2) end.
  destruct (set_all_run num num s3 eq_refl ltac:(change (2 ^ 51) with 2251799813685248; lia) ltac:(lia))
    as (m4 & H4 & [Hm4 Hm4']).
  rewrite (bind_done _ _ _ _ _ H4). eexists. split; [reflexivity|].
  split; [done|]. split; [cbn; rewrite Hheap; simpl; by rewrite Hmode|]. split; [|split].
  - intros i Hi. unfold page_used. cbn [k_mem k_pmm bitmap set_kpmm set_kmem]. cbn in Hm4.
    rewrite Hm4 by lia. by rewrite decide_True.
  - intros a Ha. cbn [k_mem set_kpmm set_kmem]. rewrite Hm4'.
    + cbn [s3 k_mem set_kpmm]. apply Hmem. simpl. by rewrite Hmode.
    + unfold bitmap_byte. cbn. lia.
  - cbn. by rewrite Hvmm.
Qed.

(** ** What clients of the heap rely on *)

(** A heap whose bitmap lies below its free part. *)
Record heap_ready (s : kstate) : Prop := {
  hr_ok : kheap_ok s;
  hr_bitmap : forall a, bitmap_byte s a -> a < earlyAllocBase (k_heap s);
}.

(** A byte that belongs to a client: allocated, and not of the bitmap. *)
Definition client_byte (s : kstate) (a : Z) : Prop :=
  a < earlyAllocBase (k_heap s) /\ ~ bitmap_byte s a.

(** After an allocation of [sz] bytes at [p]: the block is new and the client's,
    what was the client's stays so and keeps its contents. *)
Record client_alloc (s : kstate) (sz p : Z) (s' : kstate) : Prop := {
  ca_ready : heap_ready s';
  ca_new : earlyAllocBase (k_heap s) <= p /\ KERNEL_VMB <= p /\ p + sz < 2 ^ 64;
  ca_block : forall a, p <= a < p + sz -> client_byte s' a;
  ca_old : forall a, client_byte s a -> client_byte s' a /\ mget (k_mem s') a = mget (k_mem s) a;
  ca_base : earlyAllocBase (k_heap s') = p + sz;
  ca_limit : earlyAllocLimit (k_heap s') = earlyAllocLimit (k_heap s);
  ca_rest : same_rest s s';
}.

Lemma kmalloc_client s sz :
  heap_ready s -> 0 <= sz < 2 ^ 62 -> earlyAllocLimit (k_heap s) + 8 + sz < 2 ^ 64 ->
  let p := kalloc_at s 8 in
  if p + sz <=? earlyAllocLimit (k_heap s)
  then exists s', kmalloc sz s = Done (p, s') /\ client_alloc s sz p s'
  else kmalloc sz s = Stopped (Panic "kmalloc(early): Ran out of memory!").
Proof.
  intros [Hok Hbm] Hsz Hov p. change (2 ^ 62) with 4611686018427387904 in Hsz.
  pose proof (kmalloc_aligned_run s sz 8 Hok ltac:(lia)
    ltac:(change (2 ^ 63) with 9223372036854775808; lia) ltac:(lia)) as H. cbv zeta in H. fold p in H.
  unfold kmalloc. destruct (p + sz <=? _) eqn:E; [|exact H].
  destruct H as (s' & H1 & Ha). exists s'. split; [done|].
  destruct (kalloc_at_spec s 8 ltac:(lia)) as [Hp _]. fold p in Hp.
  pose proof (kh_range _ Hok) as [Hr _]. pose proof (kh_limit _ Hok) as Hl.
  pose proof (allocated_ok s sz 8 p s' Hok eq_refl ltac:(lia) ltac:(lia) ltac:(lia) Ha) as Hok'.
  destruct Ha as [Hheap Hmem _ _ Hrest]. pose proof (sr_pmm _ _ Hrest) as Hpmm.
  assert (forall a, bitmap_byte s' a <-> bitmap_byte s a) as Hbb
    by (intros a; unfold bitmap_byte; by rewrite Hpmm).
  split; try done.
  - split; [done|]. intros a Hab%Hbb. rewrite Hheap. cbn [earlyAllocBase]. specialize (Hbm a Hab). lia.
  - lia.
  - intros a Hab. split; [rewrite Hheap; cbn [earlyAllocBase]; lia|].
    rewrite Hbb. intros Hc. specialize (Hbm a Hc). lia.
  - intros a [Ha1 Ha2]. split; [|by apply Hmem].
    split; [rewrite Hheap; cbn [earlyAllocBase]; lia|by rewrite Hbb].
  - by rewrite Hheap.
  - by rewrite Hheap.
Qed.

(** ** The theorems *)

(** [kmalloc_aligned] on every branch: before initialisation it panics; in both
    modes it hands out the first aligned address and moves the position behind
    the block, or panics when the block does not fit.  The early mode touches
    no memory; the full mode enables interrupts and marks at most one page, the
    one the new position lies in when that is not the page it was in before. *)
Theorem kmalloc_aligned_correct (s : kstate) (sz al : Z)
    (Hal : 0 < al <= 65536) (Hsz : 0 <= sz < 2 ^ 63)
    (Hover : earlyAllocLimit (k_heap s) + al + sz < 2 ^ 64) :
  (currentMode (k_heap s) = Uninitialised ->
     kmalloc_aligned sz al s =
       Stopped (Panic "Attempted a memory allocation before heap was initialised!")) /\
  (kheap_ok s ->
     let p := kalloc_at s al in
     if p + sz <=? earlyAllocLimit (k_heap s)
     then exists s', kmalloc_aligned sz al s = Done (p, s') /\ allocated s sz p s' /\
            kheap_ok s' /\ p mod al = 0
     else kmalloc_aligned sz al s = Stopped (Panic "kmalloc(early): Ran out of memory!")).
Proof.
  split.
  - intros Hm. unfold kmalloc_aligned. by rewrite gets_bind, Hm.
  - intros Hok p. pose proof (kmalloc_aligned_run s sz al Hok Hal Hsz Hover) as H.
    cbv zeta in H. fold p in H. destruct (p + sz <=? _) eqn:E; [|done].
    destruct H as (s' & H1 & H2). exists s'. split; [done|]. split; [done|].
    destruct (kalloc_at_spec s al ltac:(lia)) as [_ Hm]. split; [|done].
    apply (allocated_ok s sz al p s'); (done || lia).
Qed.

(** Eight pages of which the first two are used, and a heap that starts in page
    1 with the bitmap below it. *)
Definition sample_full : kstate :=
  sample_kstate (mput ∅ (KERNEL_VMB + 4096) 3) (KHeap (KERNEL_VMB + 4112) (KERNEL_VMB + 32767) Full)
    (Pmm (Bitset (KERNEL_VMB + 4096) 8) true 8 0 0).

Lemma sample_full_ok : kheap_ok sample_full.
Proof.
  split.
  - done.
  - vm_compute. split; discriminate.
  - done.
  - intros _. split; [by vm_compute|]. intros a Ha.
    change (KERNEL_VMB + 4096 <= a < KERNEL_VMB + 4096 + 2) in Ha.
    change (a < KERNEL_VMB + 4112). lia.
Qed.

Lemma kmalloc_aligned_correct_witness :
  exists s', kmalloc_aligned 4096 4096 sample_full = Done (KERNEL_VMB + 8192, s') /\ kheap_ok s'.
Proof.
  destruct (kmalloc_aligned_correct sample_full 4096 4096) as [_ H].
  - lia.
  - lia.
  - vm_compute. reflexivity.
  - specialize (H sample_full_ok). cbv zeta in H.
    change (kalloc_at sample_full 4096) with (KERNEL_VMB + 8192) in H.
    change (KERNEL_VMB + 8192 + 4096 <=? earlyAllocLimit (k_heap sample_full)) with true in H.
    destruct H as (s' & H1 & _ & H2 & _). exists s'. split; [exact H1|exact H2].
Defined.

(** C12. Blocks of any sequence of kernel allocations are aligned, inside the heap
    and pairwise disjoint; nothing but the PMM's bitmap is written. *)
Theorem kmallocs_disjoint (rs : list (Z * Z)) (s s' : kstate) (ps : list Z)
    (Hok : kheap_ok s) (Hrs : Forall (krequest_ok (earlyAllocLimit (k_heap s))) rs)
    (Hrun : kmallocs rs s = Done (ps, s')) :
  kheap_ok s' /\ same_rest s s' /\
  (forall a, ~ bitmap_byte s a -> mget (k_mem s') a = mget (k_mem s) a) /\
  (forall i p sz al, ps !! i = Some p -> rs !! i = Some (sz, al) ->
     earlyAllocBase (k_heap s) <= p /\ p mod al = 0 /\ p + sz <= earlyAllocLimit (k_heap s)) /\
  (forall i j p q sz al sz' al', (i < j)%nat -> ps !! i = Some p -> rs !! i = Some (sz, al) ->
     ps !! j = Some q -> rs !! j = Some (sz', al') -> p + sz <= q).
Proof.
  destruct (kmallocs_run rs s ps s' Hok Hrs Hrun) as (H1 & H2 & H3 & H4 & H5 & H6 & H7).
  split; [done|]. split; [done|]. split; [done|]. split; [|done].
  intros i p sz al Hp Hr. destruct (H6 i p sz al Hp Hr) as (? & ? & ?).
  destruct (kh_range _ H1). split; [done|]. split; [done|]. lia.
Qed.

Lemma kmallocs_disjoint_witness :
  exists s', kmallocs [(10, 8); (100, 4096)] sample_full =
      Done ([KERNEL_VMB + 4112; KERNEL_VMB + 8192], s') /\ KERNEL_VMB + 4112 + 10 <= KERNEL_VMB + 8192.
Proof.
  eexists. split; [reflexivity|].
  refine (proj2 (proj2 (proj2 (proj2 (kmallocs_disjoint [(10, 8); (100, 4096)] sample_full _
    [KERNEL_VMB + 4112; KERNEL_VMB + 8192] _ _ eq_refl)))) 0%nat 1%nat _ _ 10 8 100 4096 _
    eq_refl eq_refl eq_refl eq_refl).
  - exact sample_full_ok.
  - repeat (apply Forall_cons_2 || apply Forall_nil_2); repeat split; vm_compute; (discriminate || reflexivity).
  - lia.
Defined.

(** [pmm::init(num)] allocates the bitmap from the early heap, makes every page
    used, and writes only the bitmap; a second call does nothing. *)
Theorem pmm_init_correct (num : Z) (s : kstate)
    (Hok : kheap_ok s) (Hmode : currentMode (k_heap s) = EarlyBoot)
    (Hnum : 0 <= num < 2 ^ 51) (Hover : earlyAllocLimit (k_heap s) + 8 + (num / 8 + 1) < 2 ^ 64) :
  let p := kalloc_at s 8 in
  (m_initialised (k_pmm s) = false ->
   if p + (num / 8 + 1) <=? earlyAllocLimit (k_heap s) then
     exists s', pmm_init num s = Done (tt, s') /\
       m_initialised (k_pmm s') = true /\ bitmap (k_pmm s') = Bitset p num /\
       m_numPages (k_pmm s') = num /\
       earlyAllocBase (k_heap s') = p + (num / 8 + 1) /\
       (forall i, 0 <= i < num -> page_used s' i = true) /\
       (forall a, ~ (p <= a < p + (num / 8 + 1)) -> mget (k_mem s') a = mget (k_mem s) a)
   else pmm_init num s = Stopped (Panic "kmalloc(early): Ran out of memory!")) /\
  (m_initialised (k_pmm s) = true -> pmm_init num s = Done (tt, s)).
Proof.
  intros p. split.
  - intros Hinit. pose proof (pmm_init_run num s Hok Hmode Hinit Hnum Hover) as H.
    cbv zeta in H. fold p in H. destruct (_ <=? _); [|done].
    destruct H as (s' & H1 & H2 & H3 & H4 & H5 & _). exists s'.
    rewrite H2, H3. done.
  - intros Hinit. unfold pmm_init. by rewrite gets_bind, Hinit.
Qed.

Definition sample_early : kstate :=
  sample_kstate ∅ (KHeap (KERNEL_VMB + 4097) (KERNEL_VMB + 65536) EarlyBoot) no_pmm.

Lemma pmm_init_correct_witness :
  exists s', pmm_init 20 sample_early = Done (tt, s') /\
    bitmap (k_pmm s') = Bitset (KERNEL_VMB + 4104) 20 /\ page_used s' 19 = true.
Proof.
  destruct (pmm_init_correct 20 sample_early) as [H _].
  - split; [done|vm_compute; split; discriminate|done|done].
  - done.
  - lia.
  - vm_compute. reflexivity.
  - specialize (H eq_refl).
    change (kalloc_at sample_early 8) with (KERNEL_VMB + 4104) in H.
    change (KERNEL_VMB + 4104 + (20 / 8 + 1) <=? earlyAllocLimit (k_heap sample_early)) with true in H.
    destruct H as (s' & H1 & _ & H2 & _ & _ & H3 & _). exists s'.
    split; [exact H1|]. split; [exact H2|]. apply H3. lia.
Defined.

(** In full mode an allocation over several pages marks only the last of them:
    after a block of three pages from the middle of page 1 the page manager
    still hands out page 2, which lies inside the block. *)
Theorem kmalloc_full_leaves_pages_free :
  exists s1 s2,
    kmalloc 12288 sample_full = Done (KERNEL_VMB + 4112, s1) /\
    page_used s1 4 = true /\ page_used s1 2 = false /\ page_used s1 3 = false /\
    pmm_allocate 1 s1 = Done (8192, s2) /\
    KERNEL_VMB + 4112 <= MEM_PHYS_TO_VIRT 8192 /\
    MEM_PHYS_TO_VIRT 8192 + 4096 <= KERNEL_VMB + 4112 + 12288.
Proof.
  do 2 eexists. split; [vm_compute; reflexivity|]. split; [vm_compute; reflexivity|].
  split; [vm_compute; reflexivity|]. split; [vm_compute; reflexivity|].
  split; [vm_compute; reflexivity|]. split; vm_compute; discriminate.
Qed.
