(* ===== verification/KernelList.v ===== *)
(** The singly linked list of src/src/lobo/include/common/single_linked_list.h,
    with its nodes in kernel memory: a value at offset 0, the next pointer at
    offset 8.  [pop_back] is not modelled: it names a field that does not exist
    and no code instantiates it. *)

From S2P Require Import Prelude Memory AwdAlloc Lobo KernelBitset Pmm KernelHeap.
Local Open Scope Z_scope.
Local Open Scope mach_scope.

(** ** Operations *)

Definition node_value (m : mem) (node : Z) : Z := load64 m node.
Definition node_next (m : mem) (node : Z) : Z := load64 m (node + 8).
Definition set_value (node v : Z) : ST kstate unit :=
  modify (fun s => set_kmem (store64 (k_mem s) node v) s).
Definition set_next (node v : Z) : ST kstate unit :=
  modify (fun s => set_kmem (store64 (k_mem s) (node + 8) v) s).
Definition NODE_SIZE : Z := 16.

(** The list object is passed and returned: it is a member of its owner. *)
Definition create_head (val : Z) : ST kstate slist :=
  head ← kmalloc NODE_SIZE;
  set_value head val ;;
  set_next head 0 ;;
  mret (SList head head 1).

Definition push_back (l : slist) (val : Z) : ST kstate slist :=
  if m_head l =? 0 then create_head val
  else
    new_node ← kmalloc NODE_SIZE;
    set_value new_node val ;;
    set_next new_node 0 ;;
    set_next (m_tail l) new_node ;;
    mret (SList (m_head l) new_node (m_size l +64 1)).

Definition push_front (l : slist) (val : Z) : ST kstate slist :=
  if m_head l =? 0 then create_head val
  else
    new_node ← kmalloc NODE_SIZE;
    set_value new_node val ;;
    set_next new_node (m_head l) ;;
    mret (SList new_node (m_tail l) (m_size l +64 1)).

(** An iterator is the pointer to its node.  [operator++]: both forms move the
    iterator itself. *)
Definition list_begin (l : slist) : Z := m_head l.
Definition list_end : Z := 0.
Definition itr_eq (a b : Z) : bool := a =? b.
Definition itr_ne (a b : Z) : bool := negb (a =? b).
Definition itr_next (m : mem) (node : Z) : Z := if node =? 0 then node else node_next m node.

Fixpoint at_loop (n : nat) (m : mem) (node : Z) : Z :=
  match n with
  | O => node
  | S n' => at_loop n' m (itr_next m node)
  end.

(** [operator*] dereferences the node. *)
Definition itr_deref (node : Z) : ST kstate Z :=
  when (itr_eq node list_end) (stop_with (Fault "null node")) ;;
  m ← gets k_mem;
  mret (node_value m node).

Definition list_at (l : slist) (index : Z) : ST kstate Z :=
  if m_size l <=? index then mret 0
  else
    m ← gets k_mem;
    itr_deref (at_loop (Z.to_nat index) m (list_begin l)).

Definition list_size (l : slist) : Z := m_size l.

(** ** Specification *)

(** The chain of [nodes] with [vals] from pointer [p] to the null pointer. *)
Fixpoint chain (m : mem) (p : Z) (nodes vals : list Z) : Prop :=
  match nodes, vals with
  | [], [] => p = 0
  | n :: nodes', v :: vals' =>
      p = n /\ node_value m n = v /\ chain m (node_next m n) nodes' vals'
  | _, _ => False
  end.

Definition node_byte (n a : Z) : Prop := n <= a < n + NODE_SIZE.

(** The nodes are client memory in the upper half, apart from each other. *)
Record nodes_ok (s : kstate) (nodes : list Z) : Prop := {
  no_addr : forall n, n ∈ nodes -> KERNEL_VMB <= n /\ n + 16 < 2 ^ 64;
  no_client : forall n a, n ∈ nodes -> node_byte n a -> client_byte s a;
  no_apart : forall i j n n', nodes !! i = Some n -> nodes !! j = Some n' -> i <> j ->
    n + 16 <= n' \/ n' + 16 <= n;
}.

Record list_repr (s : kstate) (l : slist) (nodes vals : list Z) : Prop := {
  lr_chain : chain (k_mem s) (m_head l) nodes vals;
  lr_tail : last nodes = (if decide (nodes = []) then None else Some (m_tail l));
  lr_size : m_size l = Z.of_nat (length nodes) /\
    KERNEL_VMB + 16 * m_size l <= earlyAllocBase (k_heap s);
  lr_nodes : nodes_ok s nodes;
}.

(** From [s] to [s'] the heap has grown; client memory outside [nodes] is
    unchanged. *)
Record list_kept (s : kstate) (nodes : list Z) (s' : kstate) : Prop := {
  lk_ready : heap_ready s';
  lk_base : earlyAllocBase (k_heap s) <= earlyAllocBase (k_heap s');
  lk_limit : earlyAllocLimit (k_heap s') = earlyAllocLimit (k_heap s);
  lk_client : forall a, client_byte s a -> client_byte s' a;
  lk_mem : forall a, client_byte s a -> (forall n, n ∈ nodes -> ~ node_byte n a) ->
    mget (k_mem s') a = mget (k_mem s) a;
  lk_rest : same_rest s s';
}.

(** The operations as a client uses them, and their meaning on a list. *)
Inductive list_op := PushBack (v : Z) | PushFront (v : Z).
Definition op_value (o : list_op) : Z := match o with PushBack v | PushFront v => v end.
Definition run_op (l : slist) (o : list_op) : ST kstate slist :=
  match o with PushBack v => push_back l v | PushFront v => push_front l v end.
Fixpoint run_ops (l : slist) (os : list list_op) : ST kstate slist :=
  match os with
  | [] => mret l
  | o :: os' => l' ← run_op l o; run_ops l' os'
  end.
Definition op_spec (vals : list Z) (o : list_op) : list Z :=
  match o with PushBack v => vals ++ [v] | PushFront v => v :: vals end.

(** ** Chains *)

Lemma chain_length m p nodes vals : chain m p nodes vals -> length nodes = length vals.
Proof.
  revert p vals. induction nodes as [|n nodes IH]; intros p [|v vals]; simpl; try done.
  intros (_ & _ & H). by rewrite (IH _ _ H).
Qed.

Lemma chain_ext m m' p nodes vals :
  (forall n a, n ∈ nodes -> node_byte n a -> mget m' a = mget m a) ->
  chain m p nodes vals -> chain m' p nodes vals.
Proof.
  revert p vals. induction nodes as [|n nodes IH]; intros p [|v vals] Hag; simpl; try done.
  assert (forall k, 0 <= k <= 8 -> load64 m' (n + k) = load64 m (n + k)) as Hl.
  { intros k Hk. apply (load_ext 8). intros a Ha. apply (Hag n); [left|].
    unfold node_byte, NODE_SIZE. lia. }
  intros (-> & Hv & Hc). split; [done|]. unfold node_value, node_next in *.
  rewrite (Hl 8) by lia. specialize (Hl 0 ltac:(lia)). rewrite Z.add_0_r in Hl. rewrite Hl.
  split; [done|]. apply IH; [|done]. intros n' a Hn'. apply Hag. by right.
Qed.

(** Appending a node: the last next pointer is redirected. *)
Lemma chain_snoc m m' p nodes vals t new v :
  chain m p nodes vals -> last nodes = Some t -> new <> 0 ->
  (forall n a, n ∈ nodes -> node_byte n a -> ~ (t + 8 <= a < t + 16) -> mget m' a = mget m a) ->
  (forall i j n n', nodes !! i = Some n -> nodes !! j = Some n' -> i <> j -> n + 16 <= n' \/ n' + 16 <= n) ->
  node_next m' t = new -> node_value m' new = v -> node_next m' new = 0 ->
  chain m' p (nodes ++ [new]) (vals ++ [v]).
Proof.
  revert p vals. induction nodes as [|n nodes IH]; intros p [|w vals] Hc Hlast Hnew Hag Hap Ht Hv Hn; try done.
  cbn [app chain] in *. destruct Hc as (-> & Hw & Hc). split; [done|].
  assert (node_value m' n = w) as Hw'.
  { rewrite <- Hw. unfold node_value. apply (load_ext 8). intros a Ha. apply (Hag n); [left|..].
    - unfold node_byte, NODE_SIZE. lia.
    - destruct nodes as [|n2 nodes]; [injection Hlast as ->; lia|].
      assert (exists j, (n :: n2 :: nodes) !! S j = Some t) as [j Hj].
      { change (last (n :: n2 :: nodes)) with (last (n2 :: nodes)) in Hlast.
        rewrite last_lookup in Hlast. by eexists. }
      specialize (Hap 0%nat (S j) n t eq_refl Hj ltac:(lia)). lia. }
  split; [done|]. destruct nodes as [|n2 nodes].
  - injection Hlast as ->. rewrite Ht. destruct vals as [|]; [|done]. simpl. done.
  - assert (exists j, (n :: n2 :: nodes) !! S j = Some t) as [j Hj].
    { change (last (n :: n2 :: nodes)) with (last (n2 :: nodes)) in Hlast.
      rewrite last_lookup in Hlast. by eexists. }
    assert (node_next m' n = node_next m n) as ->.
    { unfold node_next. apply (load_ext 8). intros a Ha. apply (Hag n); [left|..].
      - unfold node_byte, NODE_SIZE. lia.
      - specialize (Hap 0%nat (S j) n t eq_refl Hj ltac:(lia)). lia. }
    apply IH; try done.
    + intros n' a Hn'. apply Hag. by right.
    + intros i1 i2 a1 a2 H1 H2 Hne. apply (Hap (S i1) (S i2)); try done. lia.
Qed.

Lemma at_loop_chain m p nodes vals i n v :
  chain m p nodes vals -> nodes !! i = Some n -> vals !! i = Some v ->
  (forall n', n' ∈ nodes -> n' <> 0) -> at_loop i m p = n /\ node_value m n = v.
Proof.
  revert p nodes vals. induction i as [|i IH]; intros p [|n0 nodes] [|v0 vals] Hc Hn Hv Hnz; try done;
    cbn [chain] in Hc; destruct Hc as (-> & Hv0 & Hc); simpl in Hn, Hv.
  - injection Hn as <-. injection Hv as <-. done.
  - cbn [at_loop]. unfold itr_next. specialize (Hnz n0 ltac:(left)) as H0.
    destruct (n0 =? 0) eqn:E; [lia|]. apply (IH _ nodes vals); try done.
    intros n' Hn'. apply Hnz. by right.
Qed.

(** ** A new node *)

Record node_made (s : kstate) (p v nx : Z) (s' : kstate) : Prop := {
  nm_alloc : client_alloc s NODE_SIZE p (set_kmem (k_mem s') s');
  nm_value : node_value (k_mem s') p = v;
  nm_next : node_next (k_mem s') p = nx;
}.

(** Writing client memory of an allocated block keeps the allocation. *)
Lemma client_alloc_write s sz p s' m :
  client_alloc s sz p s' -> (forall a, ~ (p <= a < p + sz) -> mget m a = mget (k_mem s') a) ->
  client_alloc s sz p (set_kmem m s').
Proof.
  intros [[[R1 R2 R3 R4] Rb] Hnew Hblk Hold Hbase Hlim [? ? ? ? ? ? ?]] Hm.
  split; try done. intros a Ha. destruct (Hold a Ha) as [Hc Hg]. split; [exact Hc|].
  cbn [k_mem set_kmem]. rewrite Hm; [done|]. destruct Ha as [Ha _]. lia.
Qed.

Lemma new_node_run s v nx :
  heap_ready s -> earlyAllocLimit (k_heap s) + 24 < 2 ^ 64 ->
  0 <= v < 2 ^ 64 -> 0 <= nx < 2 ^ 64 ->
  let p := kalloc_at s 8 in
  if p + 16 <=? earlyAllocLimit (k_heap s)
  then exists s', node_made s p v nx s' /\ forall B (k : Z -> ST kstate B),
      (n ← kmalloc NODE_SIZE; set_value n v ;; set_next n nx ;; k n) s = k p s'
  else forall B (k : Z -> ST kstate B),
      (n ← kmalloc NODE_SIZE; set_value n v ;; set_next n nx ;; k n) s =
        Stopped (Panic "kmalloc(early): Ran out of memory!").
Proof.
  intros Hr Hov Hv Hnx p. change (2 ^ 64) with 18446744073709551616 in Hv, Hnx.
  pose proof (kmalloc_client s NODE_SIZE Hr ltac:(unfold NODE_SIZE; lia)
    ltac:(unfold NODE_SIZE; lia)) as H. cbv zeta in H. fold p in H.
  change (p + NODE_SIZE) with (p + 16) in H.
  destruct (p + 16 <=? _).
  2:{ intros B k. by rewrite (bind_stopped _ _ _ _ H). }
  destruct H as (s1 & H1 & Hca).
  exists (set_kmem (store64 (store64 (k_mem s1) p v) (p + 8) nx) s1). split; [split|].
  - apply (client_alloc_write _ _ _ s1); [done|]. intros a Ha. unfold NODE_SIZE in Ha.
    cbn [k_mem set_kmem]. unfold store64. rewrite !mget_store_ne by lia. done.
  - unfold node_value. cbn [k_mem set_kmem]. rewrite load64_store64_ne by lia.
    rewrite load64_store64_eq. by apply u64_small.
  - unfold node_next. cbn [k_mem set_kmem]. rewrite load64_store64_eq. by apply u64_small.
  - intros B k. by rewrite (bind_done _ _ _ _ _ H1).
Qed.

Lemma made_kept s p v nx s' nodes : node_made s p v nx s' -> list_kept s nodes s'.
Proof.
  intros [[[[R1 R2 R3 R4] Rb] Hnew Hblk Hold Hbase Hlim [? ? ? ? ? ? ?]] _ _].
  unfold NODE_SIZE in *. split; try done.
  - cbn in Hbase. rewrite Hbase. lia.
  - intros a Ha. by apply Hold.
  - intros a Ha _. by apply Hold.
Qed.

(** A new node is apart from the nodes there were. *)
Lemma made_nodes s p v nx s' nodes :
  nodes_ok s nodes -> node_made s p v nx s' -> nodes_ok s' (nodes ++ [p]).
Proof.
  intros [Ha Hc Hap] Hm. pose proof (lk_client _ _ _ (made_kept _ _ _ _ _ nodes Hm)) as Hk.
  destruct Hm as [[_ Hnew Hblk _ _ _ _] _ _]. unfold NODE_SIZE in *.
  assert (forall n, n ∈ nodes -> n + 16 <= p) as Hbelow.
  { intros n Hn. destruct (Hc n (n + 15) Hn) as [Hb _]; [unfold node_byte, NODE_SIZE; lia|]. lia. }
  split.
  - intros n [Hn| ->%list_elem_of_singleton]%elem_of_app; [by apply Ha|lia].
  - intros n a [Hn| ->%list_elem_of_singleton]%elem_of_app Hb; [by eapply Hk, Hc|].
    apply Hblk. unfold node_byte, NODE_SIZE in Hb. lia.
  - intros i j n n' Hi Hj Hij.
    apply lookup_app_Some in Hi as [Hi|[Hi1 Hi]], Hj as [Hj|[Hj1 Hj]].
    + by eapply Hap.
    + apply list_lookup_singleton_Some in Hj as [_ <-]. left. by eapply Hbelow, list_elem_of_lookup_2.
    + apply list_lookup_singleton_Some in Hi as [_ <-]. right. by eapply Hbelow, list_elem_of_lookup_2.
    + apply list_lookup_singleton_Some in Hi as [? _], Hj as [? _]. lia.
Qed.

Lemma nodes_ok_perm s nodes nodes' : nodes ≡ₚ nodes' -> nodes_ok s nodes -> nodes_ok s nodes'.
Proof.
  intros Hp [Ha Hc Hap]. split.
  - intros n. rewrite <- Hp. apply Ha.
  - intros n a. rewrite <- Hp. apply Hc.
  - symmetry in Hp. apply Permutation_inj in Hp as [_ (f & Hf & Hl)].
    intros i j n n' Hi Hj Hij. rewrite Hl in Hi, Hj. eapply Hap; [exact Hi|exact Hj|].
    intros He. by apply Hf in He.
Qed.

(** ** The operations refine lists *)

Lemma repr_head s l nodes vals :
  list_repr s l nodes vals -> (m_head l =? 0) = bool_decide (nodes = []).
Proof.
  intros [Hc _ _ [Ha _ _]]. destruct nodes as [|n nodes], vals as [|v vals]; try done; simpl in Hc.
  - by rewrite Hc.
  - destruct Hc as (-> & _). specialize (Ha n ltac:(left)). unfold KERNEL_VMB in Ha.
    rewrite bool_decide_false by done. lia.
Qed.

(** A list stays what it is while its nodes are not written. *)
Lemma repr_kept s s' l nodes vals :
  (forall n a, n ∈ nodes -> node_byte n a ->
     client_byte s' a /\ mget (k_mem s') a = mget (k_mem s) a) ->
  earlyAllocBase (k_heap s) <= earlyAllocBase (k_heap s') ->
  list_repr s l nodes vals -> list_repr s' l nodes vals.
Proof.
  intros Hk Hb [Hc Ht Hs [Ha Hcl Hap]]. split; [|done|lia|].
  - eapply chain_ext; [|done]. intros n a Hn Hnb. by apply (Hk n).
  - split; [done| |done]. intros n a Hn Hnb. by apply (Hk n).
Qed.

Lemma kept_trans s1 s2 s3 nodes nodes' :
  list_kept s1 nodes s2 -> list_kept s2 nodes' s3 ->
  (forall n, n ∈ nodes' -> n ∈ nodes \/ forall a, client_byte s1 a -> ~ node_byte n a) ->
  list_kept s1 nodes s3.
Proof.
  intros [R1 B1 L1 C1 M1 S1] [R2 B2 L2 C2 M2 S2] Hn. split; [done|lia|congruence| | |].
  - intros a Ha. by apply C2, C1.
  - intros a Ha Hna. rewrite M2; [by apply M1|by apply C1|].
    intros n Hn' Hb. destruct (Hn n Hn') as [H|H]; [by apply (Hna n)|by apply (H a)].
  - by eapply same_rest_trans.
Qed.

Lemma made_first s p v s' l vals :
  list_repr s l [] vals -> heap_ready s -> node_made s p v 0 s' ->
  list_repr s' (SList p p 1) [p] [v].
Proof.
  intros [Hc _ _ Hn] Hr Hm. pose proof (made_nodes _ _ _ _ _ _ Hn Hm) as Hn'.
  pose proof (kh_range _ (hr_ok _ Hr)) as [Hb _].
  destruct Hm as [[_ Hnew _ _ Hbase _ _] Hv Hx]. split; [by simpl|done| |done].
  unfold NODE_SIZE in *. cbn in Hbase |- *. rewrite Hbase. lia.
Qed.

Lemma push_back_run s l nodes vals v :
  list_repr s l nodes vals -> heap_ready s -> earlyAllocLimit (k_heap s) + 24 < 2 ^ 64 ->
  0 <= v < 2 ^ 64 ->
  let p := kalloc_at s 8 in
  if p + 16 <=? earlyAllocLimit (k_heap s)
  then exists l' s', push_back l v s = Done (l', s') /\ list_kept s nodes s' /\
    list_repr s' l' (nodes ++ [p]) (vals ++ [v]) /\ (forall a, client_byte s a -> ~ node_byte p a)
  else push_back l v s = Stopped (Panic "kmalloc(early): Ran out of memory!").
Proof.
  intros Hl Hr Hov Hv p. pose proof (new_node_run s v 0 Hr Hov Hv ltac:(lia)) as H.
  cbv zeta in H. fold p in H. unfold push_back. rewrite (repr_head _ _ _ _ Hl).
  destruct (p + 16 <=? _).
  2:{ case_bool_decide; apply H. }
  destruct H as (s1 & Hm & Hrun). pose proof (made_kept _ _ _ _ _ nodes Hm) as Hk.
  assert (forall a, client_byte s a -> ~ node_byte p a) as Hfresh.
  { destruct Hm as [[_ Hnew _ _ _ _ _] _ _]. intros a [Ha _] Hb. unfold node_byte in Hb. lia. }
  case_bool_decide as He.
  - subst nodes. unfold create_head. rewrite Hrun. do 2 eexists. split; [reflexivity|].
    split; [done|]. split; [|done]. pose proof (chain_length _ _ _ _ (lr_chain _ _ _ _ Hl)).
    destruct vals; [|done]. by eapply made_first.
  - rewrite Hrun. do 2 eexists. split; [reflexivity|].
    pose proof (made_nodes _ _ _ _ _ _ (lr_nodes _ _ _ _ Hl) Hm) as Hn'.
    destruct Hl as [Hc Ht [Hs Hsb] Hn]. rewrite decide_False in Ht by done.
    assert (m_tail l ∈ nodes) as Htn.
    { rewrite last_lookup in Ht. by eapply list_elem_of_lookup_2. }
    assert (m_tail l + 16 <= p) as Htp.
    { destruct (no_client _ _ Hn (m_tail l) (m_tail l + 15) Htn) as [Hb _];
        [unfold node_byte, NODE_SIZE; lia|]. destruct Hm as [[_ ? _ _ _ _ _] _ _]. lia. }
    set (s2 := set_kmem _ s1).
    assert (forall a, ~ (m_tail l + 8 <= a < m_tail l + 16) -> mget (k_mem s2) a = mget (k_mem s1) a) as Hmem.
    { intros a Ha. apply (mget_store_ne 8). lia. }
    destruct Hk as [K1 K2 K3 K4 K5 K6]. split; [|split; [|done]].
    + split; try done. 1:{ destruct K1 as [[? ? ? ?] ?]. by split; [split|]. }
      2:{ by destruct K6. }
      intros a Ha Hna. rewrite Hmem; [by apply K5|]. intros Hb.
      apply (Hna _ Htn). unfold node_byte, NODE_SIZE. lia.
    + destruct Hm as [[_ Hnew Hblk Hold Hbase Hlim _] Hnv Hnn]. split.
      * change (m_head _) with (m_head l).
        eapply (chain_snoc (k_mem s) _ _ _ _ (m_tail l)); try done.
        -- unfold KERNEL_VMB in Hnew. lia.
        -- intros n a Hnin Hb Ha. rewrite Hmem by done. apply (Hold a). by eapply no_client.
        -- apply Hn.
        -- unfold node_next. cbn [s2 k_mem set_kmem]. rewrite load64_store64_eq.
           apply u64_small. unfold KERNEL_VMB, NODE_SIZE in Hnew. change (2 ^ 64) with 18446744073709551616 in Hnew. lia.
        -- unfold node_value in *. rewrite <- Hnv. apply (load_ext 8). intros a Ha. apply Hmem. lia.
        -- unfold node_next in *. rewrite <- Hnn. apply (load_ext 8). intros a Ha. apply Hmem. lia.
      * rewrite last_snoc, decide_False by (by destruct nodes). done.
      * cbn [m_size]. rewrite length_app, Nat2Z.inj_add, <- Hs. simpl length.
        unfold NODE_SIZE in *. cbn in Hbase. pose proof (kh_range _ (hr_ok _ Hr)).
        pose proof (kh_limit _ (hr_ok _ Hr)). unfold KERNEL_VMB in *.
        change (2 ^ 64) with 18446744073709551616 in *.
        rewrite u64_small by lia. cbn. lia.
      * destruct Hn' as [? ? ?]. by split.
Qed.

Lemma push_front_run s l nodes vals v :
  list_repr s l nodes vals -> heap_ready s -> earlyAllocLimit (k_heap s) + 24 < 2 ^ 64 ->
  0 <= v < 2 ^ 64 ->
  let p := kalloc_at s 8 in
  if p + 16 <=? earlyAllocLimit (k_heap s)
  then exists l' s', push_front l v s = Done (l', s') /\ list_kept s nodes s' /\
    list_repr s' l' (p :: nodes) (v :: vals) /\ (forall a, client_byte s a -> ~ node_byte p a)
  else push_front l v s = Stopped (Panic "kmalloc(early): Ran out of memory!").
Proof.
  intros Hl Hr Hov Hv p.
  assert (0 <= m_head l < 2 ^ 64) as Hhead.
  { destruct Hl as [Hc _ _ [Ha _ _]]. destruct nodes as [|n nodes], vals as [|w vals]; try done; simpl in Hc.
    - by rewrite Hc.
    - destruct Hc as (-> & _). specialize (Ha n ltac:(left)). unfold KERNEL_VMB in Ha. lia. }
  unfold push_front. rewrite (repr_head _ _ _ _ Hl). case_bool_decide as He.
  - subst nodes. pose proof (new_node_run s v 0 Hr Hov Hv ltac:(lia)) as H.
    cbv zeta in H. fold p in H. unfold create_head.
    pose proof (chain_length _ _ _ _ (lr_chain _ _ _ _ Hl)). destruct vals; [|done].
    destruct (p + 16 <=? _); [|apply H].
    destruct H as (s1 & Hm & Hrun). rewrite Hrun. do 2 eexists. split; [reflexivity|].
    split; [by eapply made_kept|]. split; [by eapply made_first|].
    destruct Hm as [[_ Hnew _ _ _ _ _] _ _]. intros a [Ha _] Hb. unfold node_byte in Hb. lia.
  - pose proof (new_node_run s v (m_head l) Hr Hov Hv Hhead) as H. cbv zeta in H. fold p in H.
    destruct (p + 16 <=? _); [|apply H].
    destruct H as (s1 & Hm & Hrun). rewrite Hrun. do 2 eexists. split; [reflexivity|].
    pose proof (made_kept _ _ _ _ _ nodes Hm) as Hk.
    pose proof (made_nodes _ _ _ _ _ _ (lr_nodes _ _ _ _ Hl) Hm) as Hn'.
    pose proof (Permutation_sym (Permutation_cons_append nodes p)) as Hperm.
    apply (nodes_ok_perm _ _ (p :: nodes)) in Hn'; [|done].
    destruct Hm as [[_ Hnew Hblk Hold Hbase Hlim _] Hnv Hnn]. split; [done|]. split.
    2:{ intros a [Ha _] Hb. unfold node_byte in Hb. lia. }
    destruct Hl as [Hc Ht [Hs Hsb] Hn]. rewrite decide_False in Ht by done. split.
    + cbn [m_head chain]. split; [done|]. split; [done|]. rewrite Hnn.
      eapply chain_ext; [|done]. intros n a Hnin Hb. apply (Hold a). by eapply no_client.
    + rewrite decide_False by done. destruct nodes; [done|]. exact Ht.
    + cbn [m_size]. simpl length. rewrite Nat2Z.inj_succ, <- Hs.
      unfold NODE_SIZE in *. cbn in Hbase. pose proof (kh_range _ (hr_ok _ Hr)).
      pose proof (kh_limit _ (hr_ok _ Hr)). unfold KERNEL_VMB in *.
      change (2 ^ 64) with 18446744073709551616 in *.
      rewrite u64_small by lia. lia.
    + done.
Qed.

Lemma run_op_run s l nodes vals o :
  list_repr s l nodes vals -> heap_ready s -> earlyAllocLimit (k_heap s) + 24 < 2 ^ 64 ->
  0 <= op_value o < 2 ^ 64 ->
  if kalloc_at s 8 + 16 <=? earlyAllocLimit (k_heap s)
  then exists l' s' nodes', run_op l o s = Done (l', s') /\ list_kept s nodes s' /\
    list_repr s' l' nodes' (op_spec vals o) /\
    (forall n, n ∈ nodes' -> n ∈ nodes \/ forall a, client_byte s a -> ~ node_byte n a)
  else run_op l o s = Stopped (Panic "kmalloc(early): Ran out of memory!").
Proof.
  intros Hl Hr Hov Hv. destruct o as [v|v]; simpl in Hv.
  - pose proof (push_back_run s l nodes vals v Hl Hr Hov Hv) as H. cbv zeta in H.
    destruct (_ <=? _); [|done]. destruct H as (l' & s' & H1 & H2 & H3 & H4).
    exists l', s'. eexists. do 3 (split; [done|]).
    intros n [?| ->%list_elem_of_singleton]%elem_of_app; [by left|by right].
  - pose proof (push_front_run s l nodes vals v Hl Hr Hov Hv) as H. cbv zeta in H.
    destruct (_ <=? _); [|done]. destruct H as (l' & s' & H1 & H2 & H3 & H4).
    exists l', s'. eexists. do 3 (split; [done|]).
    intros n [->|?]%elem_of_cons; [by right|by left].
Qed.

Lemma list_at_run s l nodes vals i :
  list_repr s l nodes vals -> 0 <= i ->
  list_at l i s = Done (default 0 (vals !! Z.to_nat i), s).
Proof.
  intros [Hc Ht [Hs _] Hn] Hi. unfold list_at. pose proof (chain_length _ _ _ _ Hc) as Hlen.
  destruct (m_size l <=? i) eqn:E.
  - by rewrite lookup_ge_None_2 by lia.
  - assert (Z.to_nat i < length nodes)%nat as [n Hni]%lookup_lt_is_Some by lia.
    assert (Z.to_nat i < length vals)%nat as [v Hvi]%lookup_lt_is_Some by lia.
    assert (forall n', n' ∈ nodes -> n' <> 0) as Hnz.
    { intros n' Hn'%(no_addr _ _ Hn). unfold KERNEL_VMB in Hn'. lia. }
    rewrite gets_bind. unfold list_begin. destruct (at_loop_chain _ _ _ _ _ _ _ Hc Hni Hvi Hnz) as [-> Hv].
    specialize (Hnz n ltac:(by eapply list_elem_of_lookup_2)). unfold itr_deref, itr_eq, list_end.
    assert ((n =? 0) = false) as -> by lia. rewrite Hvi, (bind_done (when false _) _ s tt s), gets_bind, Hv by done. done.
Qed.

Lemma run_ops_run os s l nodes vals :
  list_repr s l nodes vals -> heap_ready s -> earlyAllocLimit (k_heap s) + 24 < 2 ^ 64 ->
  Forall (fun o => 0 <= op_value o < 2 ^ 64) os ->
  match run_ops l os s with
  | Done (l', s') => list_kept s nodes s' /\
      exists nodes', list_repr s' l' nodes' (foldl op_spec vals os)
  | Stopped r => r = Panic "kmalloc(early): Ran out of memory!"
  end.
Proof.
  revert s l nodes vals. induction os as [|o os IH]; intros s l nodes vals Hl Hr Hov Hos.
  - cbn. split; [|by exists nodes]. split; try done.
  - apply Forall_cons in Hos as [Ho Hos]. cbn [run_ops foldl].
    pose proof (run_op_run s l nodes vals o Hl Hr Hov ltac:(done)) as H'.
    destruct (_ <=? _); [|by rewrite (bind_stopped _ _ _ _ H')].
    destruct H' as (l1 & s1 & nodes1 & H1 & Hk & Hl1 & Hn1). rewrite (bind_done _ _ _ _ _ H1).
    specialize (IH s1 l1 nodes1 _ Hl1 (lk_ready _ _ _ Hk) ltac:(by rewrite (lk_limit _ _ _ Hk)) ltac:(done)).
    destruct (run_ops l1 os s1) as [[l2 s2]|]; [|done]. destruct IH as [Hk2 Hl2].
    split; [|done]. by eapply kept_trans.
Qed.

(** ** The theorem *)

(** C30. A list object in kernel memory behaves as a list: any sequence of
    [push_back] and [push_front] leaves the list those operations make, or
    panics because the heap is full; [at] reads any of its positions and gives
    a null value from [size()] on; memory of the heap's other clients and the
    state of the other components are unchanged. *)
Theorem list_ops_refine (os : list list_op) (s : kstate) (l : slist) (nodes vals : list Z)
    (Hl : list_repr s l nodes vals) (Hr : heap_ready s)
    (Hov : earlyAllocLimit (k_heap s) + 24 < 2 ^ 64)
    (Hos : Forall (fun o => 0 <= op_value o < 2 ^ 64) os) :
  match run_ops l os s with
  | Done (l', s') =>
      list_size l' = Z.of_nat (length (foldl op_spec vals os)) /\
      (forall i, 0 <= i -> list_at l' i s' = Done (default 0 (foldl op_spec vals os !! Z.to_nat i), s')) /\
      (exists nodes', list_repr s' l' nodes' (foldl op_spec vals os)) /\
      (forall a, client_byte s a -> (forall n, n ∈ nodes -> ~ node_byte n a) ->
         client_byte s' a /\ mget (k_mem s') a = mget (k_mem s) a) /\
      heap_ready s' /\ same_rest s s'
  | Stopped r => r = Panic "kmalloc(early): Ran out of memory!"
  end.
Proof.
  pose proof (run_ops_run os s l nodes vals Hl Hr Hov Hos) as H.
  destruct (run_ops l os s) as [[l' s']|]; [|done]. destruct H as [Hk [nodes' Hl']].
  split; [|split; [|split; [|split; [|split]]]].
  - destruct Hl' as [Hc _ [Hs _] _]. unfold list_size. by rewrite Hs, (chain_length _ _ _ _ Hc).
  - intros i Hi. by eapply list_at_run.
  - by exists nodes'.
  - intros a Ha Hna. split; [by eapply lk_client|by eapply lk_mem].
  - by eapply lk_ready.
  - by eapply lk_rest.
Qed.

Lemma empty_repr s : kheap_ok s -> list_repr s no_slist [] [].
Proof.
  intros [_ Hr _ _]. split; [done|done| |].
  - split; [done|]. cbn. lia.
  - split; intros *; [intros []%not_elem_of_nil|intros []%not_elem_of_nil|done].
Qed.

Lemma list_ops_refine_witness :
  exists l' s', run_ops no_slist [PushBack 7; PushFront 5; PushBack 9] sample_full = Done (l', s') /\
    list_at l' 2 s' = Done (9, s') /\ list_at l' 0 s' = Done (5, s') /\ list_at l' 3 s' = Done (0, s').
Proof.
  pose proof (list_ops_refine [PushBack 7; PushFront 5; PushBack 9] sample_full no_slist [] []) as H.
  assert (exists l' s', run_ops no_slist [PushBack 7; PushFront 5; PushBack 9] sample_full = Done (l', s'))
    as (l' & s' & Hrun) by (do 2 eexists; vm_compute; reflexivity).
  exists l', s'. split; [exact Hrun|]. rewrite Hrun in H. destruct H as (_ & H & _).
  - apply empty_repr, sample_full_ok.
  - split; [exact sample_full_ok|]. intros a Ha.
    change (KERNEL_VMB + 4096 <= a < KERNEL_VMB + 4096 + 2) in Ha.
    change (a < KERNEL_VMB + 4112). lia.
  - vm_compute. reflexivity.
  - repeat constructor; vm_compute; (discriminate || reflexivity).
  - split; [apply (H 2); lia|]. split; [apply (H 0); lia|apply (H 3); lia].
Defined.
