(* ===== verification/KernelEarly.v ===== *)
(** The start of the kernel (src/src/lobo/arch/x86_64/kernel_early.cpp): the
    memory map AWD hands over, and the initialisation of the physical memory
    manager from it; the driver registry (drivers/driver_registry.cpp).

    The memory map is a linked list in kernel memory; the loops over it have
    fuel that the theorems only bound below by its length. *)

From S2P Require Import Prelude Memory AwdAlloc PageTable PageBuilder AwdKernel AwdPaging AwdMain Lobo KernelBitset Pmm KernelHeap KernelList.
Local Open Scope Z_scope.
Local Open Scope mach_scope.

(** ** awd_info.h *)

Definition AWD_MEMMAP_FREE : Z := 0.

Definition ai_ptr_phys_mem_map (m : mem) (info : Z) : Z := load32 m (info + 16).
Definition ai_ptr_malloc_current (m : mem) (info : Z) : Z := load32 m (info + 20).
Definition ai_ptr_malloc_limit (m : mem) (info : Z) : Z := load32 m (info + 24).
Definition ai_log_cursor_y (m : mem) (info : Z) : Z := load32 m (info + 28).

Definition mm_next (m : mem) (p : Z) : Z := load32 m p.
Definition mm_type (m : mem) (p : Z) : Z := s8 (mget m (p + 4)).
Definition mm_startAddress (m : mem) (p : Z) : Z :=
  Z.lor (u64 (Z.shiftl (load32 m (p + 8)) 32)) (load32 m (p + 12)).
Definition mm_size (m : mem) (p : Z) : Z :=
  Z.lor (u64 (Z.shiftl (load32 m (p + 16)) 32)) (load32 m (p + 20)).

(** ** kernel_early.cpp *)

(** Phase 1 of [init_memory]: the end of the highest free region. *)
Fixpoint find_end_loop (fuel : nat) (awd_memmap mem_end_address : Z) : ST kstate Z :=
  match fuel with
  | O => stop_with OutOfFuel
  | S fuel' =>
      if awd_memmap =? MEM_PHYS_TO_VIRT 0 then mret mem_end_address
      else
        m ← gets k_mem;
        let endAddress := mm_startAddress m awd_memmap +64 mm_size m awd_memmap in
        find_end_loop fuel' (MEM_PHYS_TO_VIRT (mm_next m awd_memmap))
          (if mm_type m awd_memmap =? AWD_MEMMAP_FREE then
             if mem_end_address <? endAddress then endAddress else mem_end_address
           else mem_end_address)
  end.

(** The pages of one region; the fuel is one more than the number of them. *)
Fixpoint free_pages_loop (fuel : nat) (i endAddress : Z) : ST kstate unit :=
  match fuel with
  | O => stop_with OutOfFuel
  | S fuel' =>
      if i <? endAddress then pmm_free i ;; free_pages_loop fuel' (i +64 4096) endAddress else skip
  end.
Definition region_fuel (startAddress endAddress : Z) : nat :=
  S (S (Z.to_nat ((endAddress - startAddress) / 4096))).

(** Phase 2: the pages of every free region. *)
Fixpoint free_regions_loop (fuel : nat) (awd_memmap : Z) : ST kstate unit :=
  match fuel with
  | O => stop_with OutOfFuel
  | S fuel' =>
      if awd_memmap =? MEM_PHYS_TO_VIRT 0 then skip
      else
        m ← gets k_mem;
        let startAddress := mm_startAddress m awd_memmap in
        let endAddress := startAddress +64 mm_size m awd_memmap in
        when (mm_type m awd_memmap =? AWD_MEMMAP_FREE)
          (free_pages_loop (region_fuel startAddress endAddress) startAddress endAddress) ;;
        m ← gets k_mem;
        free_regions_loop fuel' (MEM_PHYS_TO_VIRT (mm_next m awd_memmap))
  end.

Definition init_memory (fuel : nat) (awd_info : Z) : ST kstate unit :=
  m ← gets k_mem;
  mem_end_address ← find_end_loop fuel (MEM_PHYS_TO_VIRT (ai_ptr_phys_mem_map m awd_info)) 0;
  klog "mem" "Last addressable free RAM is 0x%p, or %p frames"
    [KNum mem_end_address; KNum (mem_end_address / 4096)] ;;
  klog "mem" "Bitmap fits in %p bytes" [KNum (mem_end_address / 4096 / 8)] ;;
  pmm_init (mem_end_address / 4096) ;;
  m ← gets k_mem;
  free_regions_loop fuel (MEM_PHYS_TO_VIRT (ai_ptr_phys_mem_map m awd_info)) ;;
  forM (seqZ 0 1024) (fun i => pmm_set (i *64 4096)) ;;
  set_free_memory.

(** ** driver_registry.cpp *)

Definition driver_registry_add (drv : Z) : ST kstate unit :=
  l ← gets k_drivers;
  l' ← push_back l drv;
  modify (set_kdrivers l').

(** ** Specification *)

Record region := Region { mr_free : bool; mr_start : Z; mr_size : Z }.
Definition region_at (m : mem) (a : Z) : region :=
  Region (mm_type m a =? AWD_MEMMAP_FREE) (mm_startAddress m a) (mm_size m a).

(** The list that starts at physical address [p], as the virtual addresses of
    its nodes. *)
Inductive mm_list (m : mem) : Z -> list Z -> Prop :=
  | mm_nil : mm_list m 0 []
  | mm_cons p l :
      0 < p < 4294967296 -> mm_list m (mm_next m (MEM_PHYS_TO_VIRT p)) l ->
      mm_list m p (MEM_PHYS_TO_VIRT p :: l).

(** Where free memory ends. *)
Definition end_of (rs : list region) : Z :=
  foldl (fun e r => if mr_free r then Z.max e (mr_start r + mr_size r) else e) 0 rs.

(** The pages a region frees: those that an address [start + 4096 k] before its
    end lies in. *)
Definition region_pages (r : region) : Z := (mr_size r + 4095) / 4096.
Definition frees (r : region) (j : Z) : bool :=
  mr_free r && (mr_start r / 4096 <=? j) && (j <? mr_start r / 4096 + region_pages r).
Definition region_fits (num : Z) (r : region) : bool :=
  negb (mr_free r) || (region_pages r =? 0) || (mr_start r / 4096 + region_pages r <=? num).

(** Memory [m'] is that of [s] with the pages in [P] freed. *)
Definition pages_freed (s : kstate) (P : Z -> bool) (m' : mem) : Prop :=
  (forall j, 0 <= j -> bit_of m' (bitmap (k_pmm s)) j = negb (P j) && page_used s j) /\
  (forall a, ~ bitmap_byte s a -> mget m' a = mget (k_mem s) a).

(** Comparisons of numbers, as booleans. *)
Ltac bool_lia :=
  cbn beta; apply Bool.eq_true_iff_eq;
  rewrite ?orb_true_iff, ?andb_true_iff, ?negb_true_iff, ?Z.eqb_eq, ?Z.leb_le, ?Z.ltb_lt; intuition (lia || congruence).

(** ** The pages of a region *)

Lemma pmm_free_run s i :
  0 <= i -> i / 4096 < m_length (bitmap (k_pmm s)) ->
  exists m', pmm_free i s = Done (tt, set_kmem m' s) /\ pages_freed s (Z.eqb (i / 4096)) m'.
Proof.
  intros Hi Hlt. destruct (bitset_clear_run (bitmap (k_pmm s)) (i / 4096) s ltac:(split; [lia_div|done]))
    as (m' & H & Hb & Ho).
  exists m'. split; [unfold pmm_free, bitmap_free; by rewrite gets_bind|]. split.
  - intros j Hj. rewrite Hb by done. unfold page_used.
    destruct (i / 4096 =? j) eqn:E; case_decide; try lia; done.
  - intros a Ha. apply Ho. intros ->. apply Ha. unfold bitmap_byte. lia_div.
Qed.

Lemma pages_freed_trans s P Q m1 m2 :
  pages_freed s P m1 -> pages_freed (set_kmem m1 s) Q m2 -> pages_freed s (fun j => P j || Q j) m2.
Proof.
  intros [H1 H2] [H3 H4]. split.
  - intros j Hj. cbn [k_pmm set_kmem] in H3. rewrite H3 by done. unfold page_used at 1.
    cbn [k_mem k_pmm set_kmem]. rewrite H1 by done. destruct (P j), (Q j); cbn; by rewrite ?andb_false_r.
  - intros a Ha. rewrite <- (H2 a Ha). by apply H4.
Qed.

Lemma pages_freed_ext s P Q m' :
  (forall j, 0 <= j -> P j = Q j) -> pages_freed s P m' -> pages_freed s Q m'.
Proof. intros H [H1 H2]. split; [|done]. intros j Hj. rewrite H1, H by done. done. Qed.

Lemma pages_freed_none s P : (forall j, 0 <= j -> P j = false) -> pages_freed s P (k_mem s).
Proof. intros H. split; [|done]. intros j Hj. by rewrite H. Qed.

Lemma free_pages_run n fuel i e s :
  0 <= i -> e < 2 ^ 52 -> (n < fuel)%nat ->
  i + 4096 * (Z.of_nat n - 1) < e \/ n = 0%nat -> e <= i + 4096 * Z.of_nat n ->
  if bool_decide (n = 0%nat) || (i / 4096 + Z.of_nat n <=? m_length (bitmap (k_pmm s)))
  then exists m', free_pages_loop fuel i e s = Done (tt, set_kmem m' s) /\
    pages_freed s (fun j => (i / 4096 <=? j) && (j <? i / 4096 + Z.of_nat n)) m'
  else free_pages_loop fuel i e s = Stopped (AssertFailed "bit < m_length").
Proof.
  change (2 ^ 52) with 4503599627370496. revert fuel i s.
  induction n as [|n IH]; intros fuel i s Hi He Hf Hlo Hhi; (destruct fuel as [|fuel]; [lia|]); cbn [free_pages_loop].
  - assert ((i <? e) = false) as -> by lia. rewrite bool_decide_true by done. cbn [orb].
    exists (k_mem s). split; [by destruct s|]. apply pages_freed_none. intros j Hj. bool_lia.
  - replace (Z.of_nat (S n)) with (Z.of_nat n + 1) in * by lia.
    assert ((i <? e) = true) as -> by lia. rewrite bool_decide_false by done. cbn [orb].
    assert ((i + 4096) / 4096 = i / 4096 + 1) as Hnext by lia_div.
    destruct (decide (i / 4096 < m_length (bitmap (k_pmm s)))) as [Hlt|Hge].
    + destruct (pmm_free_run s i Hi Hlt) as (m1 & H1 & F1). rewrite (bind_done _ _ _ _ _ H1).
      rewrite u64_small by lia.
      specialize (IH fuel (i + 4096) (set_kmem m1 s) ltac:(lia) He ltac:(lia) ltac:(lia) ltac:(lia)).
      cbn [k_pmm set_kmem] in IH. rewrite Hnext in IH.
      destruct (bool_decide (n = 0%nat) || (i / 4096 + 1 + Z.of_nat n <=? m_length (bitmap (k_pmm s)))) eqn:E.
      * assert ((i / 4096 + (Z.of_nat n + 1) <=? m_length (bitmap (k_pmm s))) = true) as ->.
        { apply orb_true_iff in E as [E|E]; [apply bool_decide_eq_true in E; lia|lia]. }
        destruct IH as (m2 & H2 & F2). exists m2. split; [exact H2|].
        eapply pages_freed_ext; [|exact (pages_freed_trans _ _ _ _ _ F1 F2)]. intros j Hj. bool_lia.
      * apply orb_false_iff in E as [_ E].
        by assert ((i / 4096 + (Z.of_nat n + 1) <=? m_length (bitmap (k_pmm s))) = false) as -> by lia.
    + assert ((i / 4096 + (Z.of_nat n + 1) <=? m_length (bitmap (k_pmm s))) = false) as -> by lia.
      apply bind_stopped. unfold pmm_free, bitmap_free. rewrite gets_bind.
      by apply bitset_out_of_range; lia.
Qed.

(** ** The list *)

Definition region_ok (r : region) : Prop := 0 <= mr_start r /\ 0 <= mr_size r /\ mr_start r + mr_size r < 2 ^ 52.

Lemma virt_ne p : 0 < p < 4294967296 -> (MEM_PHYS_TO_VIRT p =? MEM_PHYS_TO_VIRT 0) = false.
Proof.
  intros Hp. apply Z.eqb_neq. unfold MEM_PHYS_TO_VIRT, KERNEL_VMB, u64. intros He.
  destruct (decide (p < 2147483648)); lia_div.
Qed.

Lemma region_at_ext m m' a : (forall b, a <= b < a + 24 -> mget m' b = mget m b) -> region_at m' a = region_at m a.
Proof.
  intros H. unfold region_at, mm_type, mm_startAddress, mm_size.
  assert (forall k, 0 <= k <= 20 -> load32 m' (a + k) = load32 m (a + k)) as Hl.
  { intros k Hk. apply (load_ext 4). intros b Hb. apply H. lia. }
  by rewrite !Hl, H by lia.
Qed.

Lemma mm_list_ext m m' p l :
  mm_list m p l -> (forall a b, a ∈ l -> a <= b < a + 24 -> mget m' b = mget m b) -> mm_list m' p l.
Proof.
  induction 1 as [|p l Hp _ IH]; intros H; [constructor|]. constructor; [done|].
  assert (mm_next m' (MEM_PHYS_TO_VIRT p) = mm_next m (MEM_PHYS_TO_VIRT p)) as ->.
  { apply (load_ext 4). intros b Hb. apply (H (MEM_PHYS_TO_VIRT p)); [left|lia]. }
  apply IH. intros a b Ha Hb. apply (H a); [by right|done].
Qed.

Lemma regions_ext m m' (l : list Z) :
  (forall a b, a ∈ l -> a <= b < a + 24 -> mget m' b = mget m b) -> region_at m' <$> l = region_at m <$> l.
Proof.
  intros H. apply list_fmap_ext. intros i a Ha. apply region_at_ext. intros b. apply H.
  by eapply list_elem_of_lookup_2.
Qed.

(** Phase 1. *)
Lemma find_end_run l p fuel e s :
  mm_list (k_mem s) p l -> (length l < fuel)%nat -> Forall region_ok (region_at (k_mem s) <$> l) ->
  find_end_loop fuel (MEM_PHYS_TO_VIRT p) e s =
    Done (foldl (fun e r => if mr_free r then Z.max e (mr_start r + mr_size r) else e) e (region_at (k_mem s) <$> l), s).
Proof.
  intros Hl. revert fuel e. induction Hl as [|p l Hp _ IH]; intros fuel e Hf Hr; destruct fuel as [|fuel]; try (simpl in Hf; lia);
    cbn [find_end_loop].
  - by rewrite Z.eqb_refl.
  - rewrite virt_ne, gets_bind by done. cbn [fmap list_fmap foldl] in *. inversion Hr as [|? ? Ha Hrs]; subst.
    rewrite IH by (done || (simpl in Hf; lia)). do 3 f_equal.
    destruct Ha as (H1 & H2 & H3). change (2 ^ 52) with 4503599627370496 in H3. cbn [region_at mr_free mr_start mr_size] in *.
    rewrite u64_small by lia. destruct (mm_type _ _ =? _); [|done].
    destruct (e <? _) eqn:E; lia.
Qed.

(** One region. *)
Lemma region_run r s :
  region_ok r ->
  let e := mr_start r +64 mr_size r in
  if region_fits (m_length (bitmap (k_pmm s))) r
  then exists m', when (mr_free r) (free_pages_loop (region_fuel (mr_start r) e) (mr_start r) e) s = Done (tt, set_kmem m' s) /\
    pages_freed s (frees r) m'
  else when (mr_free r) (free_pages_loop (region_fuel (mr_start r) e) (mr_start r) e) s = Stopped (AssertFailed "bit < m_length").
Proof.
  intros (H1 & H2 & H3) e. change (2 ^ 52) with 4503599627370496 in H3.
  assert (e = mr_start r + mr_size r) as He by (unfold e; apply u64_small; lia).
  unfold region_fits, frees. destruct (mr_free r); cbn [negb orb andb when].
  2:{ exists (k_mem s). split; [by destruct s|]. by apply pages_freed_none. }
  assert (0 <= region_pages r /\ 4096 * (region_pages r - 1) < mr_size r <= 4096 * region_pages r) as [Hn0 Hn]
    by (unfold region_pages; lia_div).
  pose proof (free_pages_run (Z.to_nat (region_pages r)) (region_fuel (mr_start r) e) (mr_start r) e s H1) as H.
  rewrite Z2Nat.id in H by done.
  assert (bool_decide (Z.to_nat (region_pages r) = 0%nat) = (region_pages r =? 0)) as Hb.
  { apply Bool.eq_true_iff_eq. rewrite bool_decide_eq_true, Z.eqb_eq. lia. }
  rewrite Hb in H. apply H.
  - change (2 ^ 52) with 4503599627370496. lia.
  - unfold region_fuel. rewrite He. replace (mr_start r + mr_size r - mr_start r) with (mr_size r) by lia.
    unfold region_pages. assert ((mr_size r + 4095) / 4096 <= mr_size r / 4096 + 1) by lia_div. lia.
  - destruct (decide (Z.to_nat (region_pages r) = 0%nat)); [by right|left; lia].
  - lia.
Qed.

(** Phase 2. *)
Definition off_bitmap (s : kstate) (a : Z) : Prop := forall b, a <= b < a + 24 -> ~ bitmap_byte s b.

Lemma free_regions_run l p fuel s :
  mm_list (k_mem s) p l -> (length l < fuel)%nat -> Forall region_ok (region_at (k_mem s) <$> l) ->
  Forall (off_bitmap s) l ->
  let rs := region_at (k_mem s) <$> l in
  if forallb (region_fits (m_length (bitmap (k_pmm s)))) rs
  then exists m', free_regions_loop fuel (MEM_PHYS_TO_VIRT p) s = Done (tt, set_kmem m' s) /\
    pages_freed s (fun j => existsb (fun r => frees r j) rs) m'
  else free_regions_loop fuel (MEM_PHYS_TO_VIRT p) s = Stopped (AssertFailed "bit < m_length").
Proof.
  revert p fuel s. induction l as [|a l IH]; intros p fuel s Hl Hf Hr Hoff; destruct fuel as [|fuel]; try (simpl in Hf; lia);
    cbn [free_regions_loop].
  - inversion Hl; subst. rewrite Z.eqb_refl. exists (k_mem s). split; [by destruct s|]. by apply pages_freed_none.
  - inversion Hl as [|? ? Hp Hl' Hpe]; subst. rewrite virt_ne, gets_bind by done.
    cbn [fmap list_fmap forallb existsb] in *. inversion Hr as [|? ? Hra Hrs]; subst.
    inversion Hoff as [|? ? Ho Hos]; subst. set (a := MEM_PHYS_TO_VIRT p) in *.
    pose proof (region_run (region_at (k_mem s) a) s Hra) as H1. cbv zeta in H1.
    cbn [region_at mr_free mr_start mr_size] in H1. fold (region_at (k_mem s) a) in H1.
    destruct (region_fits (m_length (bitmap (k_pmm s))) (region_at (k_mem s) a)); cbn [andb].
    2:{ by apply bind_stopped. }
    destruct H1 as (m1 & H1 & F1). rewrite (bind_done _ _ _ _ _ H1), gets_bind. cbn [k_mem set_kmem].
    assert (forall a' b, a' ∈ a :: l -> a' <= b < a' + 24 -> mget m1 b = mget (k_mem s) b) as Hkeep.
    { intros a' b Ha' Hb. apply F1. rewrite Forall_forall in Hoff. by apply (Hoff a'). }
    assert (mm_next m1 a = mm_next (k_mem s) a) as ->.
    { apply (load_ext 4). intros b Hb. apply (Hkeep a); [left|lia]. }
    assert (forall a' b, a' ∈ l -> a' <= b < a' + 24 -> mget m1 b = mget (k_mem s) b) as Hkeep'.
    { intros a' b Ha'. apply Hkeep. by right. }
    specialize (IH _ fuel (set_kmem m1 s) (mm_list_ext _ _ _ _ Hl' Hkeep') ltac:(simpl in Hf; lia)).
    cbn [k_mem set_kmem] in IH. rewrite (regions_ext _ _ _ Hkeep') in IH. specialize (IH Hrs Hos).
    cbn [k_pmm set_kmem] in IH. destruct (forallb _ _); [|done].
    destruct IH as (m2 & H2 & F2). exists m2. split; [exact H2|].
    exact (pages_freed_trans _ _ _ _ _ F1 F2).
Qed.

(** ** The whole of [init_memory] *)

Definition memmap (s : kstate) (nodes : list Z) : list region := region_at (k_mem s) <$> nodes.
Definition frames (rs : list region) : Z := end_of rs / 4096.

(** What [init_memory] is called with: the early heap, a page manager that has
    not been initialised, and a memory map of [nodes] that, like the
    information block at [info], lies below the free part of the heap. *)
Record handover (s : kstate) (info : Z) (nodes : list Z) : Prop := {
  ho_heap : kheap_ok s;
  ho_mode : currentMode (k_heap s) = EarlyBoot;
  ho_pmm : m_initialised (k_pmm s) = false /\ m_nonMemoryBackedPages (k_pmm s) = 0;
  ho_list : mm_list (k_mem s) (ai_ptr_phys_mem_map (k_mem s) info) nodes;
  ho_regions : Forall region_ok (memmap s nodes);
  ho_frames : frames (memmap s nodes) < 2 ^ 20;
  ho_below : Forall (fun a => a + 24 <= earlyAllocBase (k_heap s)) (info :: nodes);
  ho_limit : earlyAllocLimit (k_heap s) + 8 + (frames (memmap s nodes) / 8 + 1) < 2 ^ 64;
}.

(** The bitmap has room in the heap. *)
Definition bitmap_fits (s : kstate) (num : Z) : bool :=
  kalloc_at s 8 + (num / 8 + 1) <=? earlyAllocLimit (k_heap s).

(** Pages in use after the initialisation: the first 4 MiB and what no free
    region covers. *)
Definition page_taken (rs : list region) (i : Z) : bool := (i <? 1024) || negb (existsb (fun r => frees r i) rs).

Lemma end_of_nonneg rs : 0 <= end_of rs.
Proof.
  unfold end_of. assert (forall e, 0 <= e -> 0 <= foldl (fun e r =>
    if mr_free r then Z.max e (mr_start r + mr_size r) else e) e rs) as H; [|by apply H].
  induction rs as [|r rs IH]; intros e He; [done|]. cbn [foldl]. apply IH. destruct (mr_free r); lia.
Qed.

(** Free regions made of whole pages fit. *)
Lemma whole_pages_fit rs :
  Forall region_ok rs -> Forall (fun r => mr_start r mod 4096 = 0 /\ mr_size r mod 4096 = 0) rs ->
  forallb (region_fits (frames rs)) rs = true.
Proof.
  intros Hok Hal. assert (forall l e, e <= foldl (fun e r => if mr_free r then Z.max e (mr_start r + mr_size r) else e) e l /\
    forall r, r ∈ l -> mr_free r = true -> mr_start r + mr_size r <=
      foldl (fun e r => if mr_free r then Z.max e (mr_start r + mr_size r) else e) e l) as Hmax.
  { induction l as [|r l IH]; intros e; cbn [foldl]; [split; [lia|by intros r Hr%elem_of_nil]|].
    destruct (IH (if mr_free r then Z.max e (mr_start r + mr_size r) else e)) as [H1 H2]. split.
    - destruct (mr_free r); lia.
    - intros r' [->|Hr']%elem_of_cons Hf; [rewrite Hf in *; lia|by apply H2]. }
  apply forallb_forall. intros r Hr%list_elem_of_In. rewrite Forall_forall in Hok, Hal.
  destruct (Hok r Hr) as (? & ? & ?), (Hal r Hr) as [? ?]. unfold region_fits.
  destruct (mr_free r) eqn:Ef; [|done]. destruct (Hmax rs 0) as [_ Hend]. specialize (Hend r Hr Ef).
  change (foldl _ 0 rs) with (end_of rs) in Hend. unfold frames, region_pages. cbn [negb orb].
  apply orb_true_iff. right. apply Z.leb_le. lia_div.
Qed.

(** Marking the first 4 MiB. *)
Lemma mark_low_run s :
  m_length (bitmap (k_pmm s)) < 2 ^ 51 -> 0 <= m_length (bitmap (k_pmm s)) ->
  if 1024 <=? m_length (bitmap (k_pmm s))
  then exists m', forM (seqZ 0 1024) (fun i => pmm_set (i *64 4096)) s = Done (tt, set_kmem m' s) /\ pages_marked s 0 1024 m'
  else forM (seqZ 0 1024) (fun i => pmm_set (i *64 4096)) s = Stopped (AssertFailed "bit < m_length").
Proof.
  intros Hlt Hn. set (num := m_length (bitmap (k_pmm s))) in *. change (2 ^ 51) with 2251799813685248 in Hlt.
  destruct (1024 <=? num) eqn:E; [by apply (set_all_run num); [| |lia]|].
  destruct (set_all_run num num s eq_refl Hlt ltac:(lia)) as (m' & H & _).
  assert (seqZ 0 1024 = seqZ 0 num ++ num :: seqZ (num + 1) (1024 - num - 1)) as ->.
  { replace 1024 with (num + (1024 - num)) at 1 by lia. rewrite seqZ_app, Z.add_0_l by lia.
    f_equal. rewrite seqZ_cons by lia. f_equal; f_equal; lia. }
  rewrite (ST_eq_at (forM_app _ _ _) s), (bind_done _ _ _ _ _ H). cbn [forM]. apply bind_stopped.
  rewrite u64_small by lia. unfold pmm_set, bitmap_set. rewrite gets_bind, Z.div_mul by lia.
  apply bitset_out_of_range. cbn. lia.
Qed.

(** The three steps after [pmm_init]. *)
Definition take_pages (fuel : nat) (info : Z) : ST kstate unit :=
  m ← gets k_mem;
  free_regions_loop fuel (MEM_PHYS_TO_VIRT (ai_ptr_phys_mem_map m info)) ;;
  forM (seqZ 0 1024) (fun i => pmm_set (i *64 4096)) ;;
  set_free_memory.

Lemma take_pages_run nodes fuel info s :
  let num := m_numPages (k_pmm s) in let rs := memmap s nodes in
  pmm_ok s -> m_nonMemoryBackedPages (k_pmm s) = 0 -> (forall i, 0 <= i < num -> page_used s i = true) ->
  mm_list (k_mem s) (ai_ptr_phys_mem_map (k_mem s) info) nodes -> (length nodes < fuel)%nat ->
  Forall region_ok rs -> Forall (off_bitmap s) nodes ->
  if forallb (region_fits num) rs && (1024 <=? num) then
    exists s', take_pages fuel info s = Done (tt, s') /\ pmm_ok s' /\ m_numPages (k_pmm s') = num /\
      bitmap (k_pmm s') = bitmap (k_pmm s) /\ m_initialised (k_pmm s') = m_initialised (k_pmm s) /\
      (forall i, 0 <= i < num -> page_used s' i = page_taken rs i) /\
      m_maxFreePages (k_pmm s') = free_count s' (seqZ 0 num) /\
      (forall a, ~ bitmap_byte s a -> mget (k_mem s') a = mget (k_mem s) a) /\ k_heap s' = k_heap s
  else take_pages fuel info s = Stopped (AssertFailed "bit < m_length").
Proof.
  intros num rs Hok Hz Hused Hl Hf Hr Hoff. pose proof Hok as [Hlen Hnum]. fold num in Hlen, Hnum.
  unfold take_pages. rewrite gets_bind.
  pose proof (free_regions_run nodes _ fuel s Hl Hf Hr Hoff) as H1. cbv zeta in H1. rewrite Hlen in H1.
  fold (memmap s nodes) rs in H1. destruct (forallb (region_fits num) rs); cbn [andb].
  2:{ by apply bind_stopped. }
  destruct H1 as (m1 & H1 & F1 & O1). rewrite (bind_done _ _ _ _ _ H1).
  pose proof (mark_low_run (set_kmem m1 s)) as H2. cbn [k_pmm set_kmem] in H2. rewrite Hlen in H2.
  specialize (H2 ltac:(change (2 ^ 51) with 2251799813685248; lia) ltac:(lia)).
  destruct (1024 <=? num) eqn:E; [|by apply bind_stopped].
  destruct H2 as (m2 & H2 & F2 & O2). rewrite (bind_done _ _ _ _ _ H2). cbn [k_pmm k_mem set_kmem] in *.
  set (s2 := set_kmem m2 (set_kmem m1 s)).
  pose proof (count_all_run s2 0 Hok ltac:(lia)) as H3. unfold set_free_memory. rewrite gets_bind.
  change (m_nonMemoryBackedPages (k_pmm s2)) with (m_nonMemoryBackedPages (k_pmm s)). rewrite Hz, (bind_done _ _ _ _ _ H3).
  eexists. split; [reflexivity|]. split; [done|]. split; [done|]. split; [done|]. split; [done|]. split; [|split; [done|split]].
  - intros i Hi. change (bit_of m2 (bitmap (k_pmm s)) i = page_taken rs i). rewrite F2 by lia. unfold page_used at 1.
    cbn [k_pmm k_mem set_kmem]. rewrite F1, Hused by lia. unfold page_taken. rewrite andb_true_r.
    destruct (i <? 1024) eqn:Ei; case_decide; (done || lia).
  - intros a Ha. cbn [k_mem set_kpmm set_kmem s2]. rewrite O2 by done. by apply O1.
  - done.
Qed.

Lemma mem_kept_load m m' (P : Z -> Prop) a :
  (forall b, ~ P b -> mget m' b = mget m b) -> (forall b, a <= b < a + 4 -> ~ P b) -> load32 m' a = load32 m a.
Proof. intros H1 H2. apply (load_ext 4). intros b Hb. apply H1, H2. lia. Qed.

Lemma init_memory_run nodes fuel info s :
  handover s info nodes -> (length nodes < fuel)%nat ->
  let rs := memmap s nodes in let num := frames rs in
  if negb (bitmap_fits s num) then init_memory fuel info s = Stopped (Panic "kmalloc(early): Ran out of memory!")
  else if forallb (region_fits num) rs && (1024 <=? num) then
    exists s', init_memory fuel info s = Done (tt, s') /\ pmm_ok s' /\ m_numPages (k_pmm s') = num /\
      m_initialised (k_pmm s') = true /\
      (forall i, 0 <= i < num -> page_used s' i = page_taken rs i) /\
      m_maxFreePages (k_pmm s') = free_count s' (seqZ 0 num) /\
      (forall a, ~ (kalloc_at s 8 <= a < earlyAllocBase (k_heap s')) -> mget (k_mem s') a = mget (k_mem s) a) /\
      k_heap s' = KHeap (kalloc_at s 8 + (num / 8 + 1)) (earlyAllocLimit (k_heap s)) EarlyBoot /\
      bitmap (k_pmm s') = Bitset (kalloc_at s 8) num
  else init_memory fuel info s = Stopped (AssertFailed "bit < m_length").
Proof.
  intros [Hheap Hmode [Hinit Hz] Hl Hr Hfr Hbelow Hlim] Hf rs num. change (2 ^ 20) with 1048576 in Hfr.
  fold rs num in Hfr, Hlim. pose proof (end_of_nonneg rs) as He. assert (0 <= num) as Hnum by (unfold num, frames; lia_div).
  unfold init_memory. rewrite gets_bind, (bind_done _ _ _ _ _ (find_end_run nodes _ fuel 0 s Hl Hf Hr)).
  fold (memmap s nodes) rs. change (foldl _ 0 rs) with (end_of rs). rewrite !klog_bind. fold (frames rs) num.
  match goal with |- context [set_klog ?l ?t] => set (s1 := set_klog l t) end.
  assert (k_heap s1 = k_heap s /\ k_pmm s1 = k_pmm s /\ k_mem s1 = k_mem s) as (Eh & Ep & Em) by done.
  assert (kheap_ok s1) as Hheap1 by (destruct Hheap; by split). unfold bitmap_fits.
  pose proof (pmm_init_run num s1 Hheap1 ltac:(by rewrite Eh) ltac:(by rewrite Ep)
    ltac:(change (2 ^ 51) with 2251799813685248; lia) ltac:(by rewrite Eh)) as H1.
  cbv zeta in H1. change (kalloc_at s1 8) with (kalloc_at s 8) in H1. rewrite Eh in H1.
  clearbody s1. set (p := kalloc_at s 8) in *. destruct (p + _ <=? _); cbn [negb]; [|by apply bind_stopped].
  destruct H1 as (s2 & H1 & Hp2 & Hh2 & Hu2 & Hm2 & _). rewrite (bind_done _ _ _ _ _ H1). rewrite Em in Hm2.
  fold (take_pages fuel info). destruct (kalloc_at_spec s 8 ltac:(lia)) as [Hge _]. fold p in Hge.
  apply Forall_cons_1 in Hbelow as [Hinfo Hbelow]. rewrite Forall_forall in Hbelow.
  assert (forall a b, a ∈ nodes -> a <= b < a + 24 -> mget (k_mem s2) b = mget (k_mem s) b) as Hkeep.
  { intros a b Ha Hb. apply Hm2. specialize (Hbelow a Ha). lia. }
  assert (ai_ptr_phys_mem_map (k_mem s2) info = ai_ptr_phys_mem_map (k_mem s) info) as Hptr.
  { apply (load_ext 4). intros b Hb. apply Hm2. lia. }
  assert (memmap s2 nodes = rs) as Hrs by (by apply regions_ext).
  pose proof (take_pages_run nodes fuel info s2) as H2. cbv zeta in H2.
  unfold pmm_ok, off_bitmap, bitmap_byte in H2.
  rewrite Hptr, Hrs, Hp2 in H2. cbn [m_numPages m_length m_ptr bitmap m_initialised m_nonMemoryBackedPages] in H2. rewrite Ep, Hz in H2.
  specialize (H2 ltac:(lia) eq_refl Hu2 (mm_list_ext _ _ _ _ Hl Hkeep) Hf Hr).
  destruct (_ && _).
  - destruct H2 as (s' & H2 & G1 & G2 & G3 & G4 & G5 & G6 & G7 & G8).
    { apply Forall_forall. intros a Ha b Hb. specialize (Hbelow a Ha). lia. }
    exists s'. rewrite G8, Hh2. cbn [earlyAllocBase]. do 6 (split; [done|]). split; [|by split].
    intros a Ha. rewrite G7 by lia. apply Hm2. lia.
  - apply H2. apply Forall_forall. intros a Ha b Hb. specialize (Hbelow a Ha). lia.
Qed.

(** What AWD hands over: the field of the memory map is not among those
    [awd_main] sets. *)
Lemma awd_main_no_map p magic mb a info entry a' :
  awd_main p magic mb a = Done ((info, entry), a') -> AwdMain.ptr_phys_mem_map info = 0.
Proof.
  unfold awd_main. intros H.
  repeat (apply bind_done_inv in H as (? & ? & _ & H); cbv beta in H). by injection H as <- <- <-.
Qed.

(** Without a memory map no page is covered, and marking the first 4 MiB fails
    the bitset's assertion, if the heap has room for the one byte of the
    bitmap. *)
Lemma no_map_stops fuel info s :
  kheap_ok s -> currentMode (k_heap s) = EarlyBoot ->
  m_initialised (k_pmm s) = false /\ m_nonMemoryBackedPages (k_pmm s) = 0 ->
  ai_ptr_phys_mem_map (k_mem s) info = 0 -> info + 24 <= earlyAllocBase (k_heap s) ->
  earlyAllocLimit (k_heap s) + 9 < 2 ^ 64 -> (0 < fuel)%nat ->
  init_memory fuel info s = Stopped (
    if bitmap_fits s 0 then AssertFailed "bit < m_length" else Panic "kmalloc(early): Ran out of memory!").
Proof.
  intros Hheap Hmode Hpmm Hblock Hinfo Hlimit Hfuel.
  assert (handover s info []) as Hho.
  { split; [done|done|done|rewrite Hblock; constructor|apply Forall_nil_2|done|by apply Forall_cons_2; [|apply Forall_nil_2]|].
    change (frames (memmap s []) / 8 + 1) with 1. lia. }
  pose proof (init_memory_run [] fuel info s Hho Hfuel) as H. cbv zeta in H. change (frames (memmap s [])) with 0 in H.
  by destruct (bitmap_fits s 0).
Qed.

(** ** Theorems *)

(** C14. [init_memory] on every branch.  From a well-formed memory map it leaves a
    page manager that covers memory up to the end of the highest free region,
    in which exactly the first 4 MiB and the pages no free region touches are
    in use, and whose free pages are counted; it writes nothing but the new
    bitmap.  It panics when the heap has no room for the bitmap, and fails the
    bitset's assertion when the free memory ends before 4 MiB or ends inside a
    page. *)
Theorem init_memory_correct (nodes : list Z) (fuel : nat) (info : Z) (s : kstate)
    (Hho : handover s info nodes) (Hfuel : (length nodes < fuel)%nat) :
  let rs := memmap s nodes in let num := frames rs in
  (bitmap_fits s num = false -> init_memory fuel info s = Stopped (Panic "kmalloc(early): Ran out of memory!")) /\
  (bitmap_fits s num = true -> forallb (region_fits num) rs && (1024 <=? num) = false ->
     init_memory fuel info s = Stopped (AssertFailed "bit < m_length")) /\
  (bitmap_fits s num = true -> forallb (region_fits num) rs && (1024 <=? num) = true ->
     exists s', init_memory fuel info s = Done (tt, s') /\ pmm_ok s' /\ m_numPages (k_pmm s') = num /\
       (forall i, 0 <= i < num -> page_used s' i = page_taken rs i) /\
       m_maxFreePages (k_pmm s') = free_count s' (seqZ 0 num) /\
       (forall a, ~ (kalloc_at s 8 <= a < earlyAllocBase (k_heap s')) -> mget (k_mem s') a = mget (k_mem s) a)).
Proof.
  intros rs num. pose proof (init_memory_run nodes fuel info s Hho Hfuel) as H. cbv zeta in H. fold rs num in H.
  split; [|split]; intros Hfit; rewrite Hfit in H; cbn [negb] in H; [done| |]; intros Hre; rewrite Hre in H; [done|].
  destruct H as (s' & H1 & H2 & H3 & _ & H4 & H5 & H6 & _). by exists s'.
Qed.

(** A map of two regions at physical 8192 and 8224: 8 MiB from 0 on free, and a
    reserved page behind them. *)
Definition sample_map : mem :=
  poke (poke (poke ∅
    (KERNEL_VMB + 4112) [0; 32; 0; 0])
    (KERNEL_VMB + 8192) [32; 32; 0; 0; 0; 0; 0; 0; 0; 0; 0; 0; 0; 0; 0; 0; 0; 0; 0; 0; 0; 0; 128; 0])
    (KERNEL_VMB + 8224) [0; 0; 0; 0; 1; 0; 0; 0; 0; 0; 0; 0; 0; 0; 128; 0; 0; 0; 0; 0; 0; 16; 0; 0].
Definition sample_handover : kstate :=
  sample_kstate sample_map (KHeap (KERNEL_VMB + 8256) (KERNEL_VMB + 65536) EarlyBoot) no_pmm.
Definition sample_nodes : list Z := [KERNEL_VMB + 8192; KERNEL_VMB + 8224].

Lemma sample_memmap : memmap sample_handover sample_nodes = [Region true 0 8388608; Region false 8388608 4096].
Proof. vm_compute. reflexivity. Qed.

Lemma sample_handover_ok : handover sample_handover (KERNEL_VMB + 4096) sample_nodes.
Proof.
  assert (frames (memmap sample_handover sample_nodes) = 2048) as Hf by (rewrite sample_memmap; reflexivity).
  split; rewrite ?Hf, ?sample_memmap.
  - split; [done|vm_compute; split; discriminate|reflexivity|discriminate].
  - reflexivity.
  - done.
  - change (mm_list sample_map 8192 [MEM_PHYS_TO_VIRT 8192; MEM_PHYS_TO_VIRT 8224]).
    constructor; [lia|]. change (mm_next sample_map (MEM_PHYS_TO_VIRT 8192)) with 8224.
    constructor; [lia|]. change (mm_next sample_map (MEM_PHYS_TO_VIRT 8224)) with 0. constructor.
  - repeat constructor; vm_compute; discriminate.
  - reflexivity.
  - repeat constructor; vm_compute; discriminate.
  - vm_compute. reflexivity.
Qed.

Lemma init_memory_correct_witness :
  exists s', init_memory 3 (KERNEL_VMB + 4096) sample_handover = Done (tt, s') /\
    page_used s' 1023 = true /\ page_used s' 1024 = false.
Proof.
  destruct (init_memory_correct sample_nodes 3 (KERNEL_VMB + 4096) sample_handover) as (_ & _ & H).
  - exact sample_handover_ok.
  - simpl. lia.
  - rewrite sample_memmap in H. destruct H as (s' & H1 & _ & _ & H2 & _).
    + reflexivity.
    + reflexivity.
    + exists s'. split; [exact H1|].
      assert (frames [Region true 0 8388608; Region false 8388608 4096] = 2048) as Hf by reflexivity. rewrite Hf in H2.
      split; [rewrite H2 by lia; reflexivity|rewrite H2 by lia; reflexivity].
Defined.
