(* ===== verification/Handover.v ===== *)
(** From the loader to the kernel: the end of [awd_main] (src/src/awd/main.c)
    stores the configuration block and the entry point, and [kernel_enter] jumps
    through the page tables the loader has built.  This file puts [AwdMain] and
    [Entry] together: what the kernel sees through those tables is what its
    entry code and [kernel_early] rely on. *)

From S2P Require Import Prelude Memory LogDevices KernelLog Lobo KernelBitset Pmm KernelHeap KernelList KernelEarly GdtUtil Processor AwdAlloc PageTable PageBuilder AwdKernel AwdPaging AwdMain Entry.
Local Open Scope Z_scope.
Local Open Scope mach_scope.

(** ** The end of awd_main *)

Section Handover.
Variable pl : places.

(** The four assignments to [awd_info], in the order of the code, and the one to
    [kernel_entry_point]. *)
Definition set_up_info (i : awd_info) (m : mem) : mem :=
  let a := info pl in
  store32 (store32 (store32 (store32 m (a + 28) (log_cursor_y i)) (a + 8) (multiboot_struct i))
    (a + 20) (ptr_malloc_current i)) (a + 24) (ptr_malloc_limit i).
Definition hand_over (i : awd_info) (entry : Z) (m : mem) : mem :=
  store64 (set_up_info i m) (entry_cell pl) entry.

(** The configuration block lies at [a], as both programs declare it. *)
Record info_at (m : mem) (a : Z) (i : awd_info) : Prop := {
  ia_phstart : load32 m a = kernel_phstart i;
  ia_phsize : load32 m (a + 4) = kernel_phsize i;
  ia_multiboot : load32 m (a + 8) = multiboot_struct i;
  ia_cpus : load32 m (a + 12) = numCPUs i;
  ia_map : load32 m (a + 16) = ptr_phys_mem_map i;
  ia_current : load32 m (a + 20) = ptr_malloc_current i;
  ia_limit : load32 m (a + 24) = ptr_malloc_limit i;
  ia_cursor : load32 m (a + 28) = log_cursor_y i
}.

Lemma info_at_ext m m' a b i :
  (forall k, 0 <= k < 32 -> mget m' (b + k) = mget m (a + k)) -> info_at m a i -> info_at m' b i.
Proof.
  intros Hm. assert (forall k, 0 <= k <= 28 -> load32 m' (b + k) = load32 m (a + k)) as Hl.
  { intros k Hk. unfold load32. cbn [load]. rewrite <- !Z.add_assoc, !Hm by lia. done. }
  intros []. split; try (rewrite Hl by lia; done).
  pose proof (Hl 0 ltac:(lia)) as H0. rewrite !Z.add_0_r in H0. by rewrite H0.
Qed.

Lemma hand_over_frame i e m b :
  ~ (info pl <= b < info pl + 32) -> ~ (entry_cell pl <= b < entry_cell pl + 8) ->
  mget (hand_over i e m) b = mget m b.
Proof.
  intros Hi He. unfold hand_over, set_up_info. rewrite (mget_store_ne 8) by lia.
  by rewrite !(mget_store_ne 4) by lia.
Qed.

(** [kernel_early] finds the block as it was when the kernel was entered. *)
Lemma block_at_window a : 0 <= a < 2097152 -> MEM_PHYS_TO_VIRT a = kernel_mem_base + a.
Proof. intros Ha. unfold MEM_PHYS_TO_VIRT, KERNEL_VMB, kernel_mem_base. rewrite u64_small; lia. Qed.

Lemma kept_info m m' i :
  keeps pl m m' -> 0 <= info pl < 2097152 ->
  info_at m (info pl) i /\ info_at m (MEM_PHYS_TO_VIRT (info pl)) i ->
  info_at m' (info pl) i /\ info_at m' (MEM_PHYS_TO_VIRT (info pl)) i.
Proof.
  intros Hk Hr [H1 H2]. rewrite block_at_window in * by done.
  split; [apply (info_at_ext m m' (info pl)); [|done]|apply (info_at_ext m m' (kernel_mem_base + info pl)); [|done]]; intros k Hkr; symmetry; apply Hk; unfold kept_byte; lia.
Qed.

(** ** What the kernel sees *)

(** Memory [vm], by virtual address, is physical memory [pm] behind the tables at
    [root]. *)
Definition seen (pm : mem) (root : Z) (vm : mem) : Prop := forall va pa,
  canonical va -> mmu_walk 0 pm root va = Some pa -> mget vm va = mget pm pa.

Lemma tabulated (f : Z -> Z) (l : list Z) : exists vm : mem, forall a, a ∈ l -> mget vm a = u8 (f a).
Proof.
  induction l as [|b l [vm IH]]; [exists ∅; by intros a Ha%elem_of_nil|].
  exists (mput vm b (f b)). intros a Ha. rewrite mget_mput. case_decide as E; [by rewrite E|].
  apply elem_of_cons in Ha as [->|Ha]; [done|by apply IH].
Qed.

Lemma seen_exists pm root : exists vm, seen pm root vm.
Proof.
  destruct (tabulated (fun va => default 0 (mget pm <$> mmu_walk 0 pm root va)) (seqZ 0 (2 ^ 64))) as [vm H].
  exists vm. intros va pa Hc Hw. rewrite H.
  - rewrite Hw. apply Z.mod_small, mget_range.
  - apply elem_of_seqZ. unfold canonical in Hc. change (2 ^ 47) with 140737488355328 in Hc.
    change (2 ^ 64) with 18446744073709551616 in *. lia.
Qed.

(** ** What the linkers and the machine provide

    The loader's descriptor table, entry cell, configuration block and top-level
    page table lie apart inside its image, and the block in the first two
    megabytes, which the kernel sees twice; .bss is zero.  The kernel's
    descriptor table is in a LOAD segment of its file, and [_start] at its entry. *)
Definition apart (a n b k : Z) : Prop := a + n <= b \/ b + k <= a.

Record linked (p : platform) (md : Z) (m : mem) : Prop := {
  lk_places : paging_pml4 pl = pf_pml4 p /\ e_entry m (mod_start m md) = kernel_start_at pl;
  lk_inside : forall a n, (a, n) ∈ [(awd_gdt pl, 34); (entry_cell pl, 8); (info pl, 32)] ->
    pf_phys_start p <= a /\ a + n < pf_phys_end p /\ apart a n (pf_pml4 p) 4096;
  lk_apart : apart (awd_gdt pl) 34 (entry_cell pl) 8 /\ apart (awd_gdt pl) 34 (info pl) 32 /\
    apart (entry_cell pl) 8 (info pl) 32;
  lk_window : info pl + 32 <= 2097152 /\ kernel_mem_base + info pl + 32 <= kernel_virt md m;
  lk_table : image m (awd_gdt pl) (awd_gdt64 (awd_gdt pl));
  lk_bss : forall b, info pl <= b < info pl + 32 -> mget m b = 0;
  lk_cursor : 0 <= pf_cursor p < 2 ^ 32;
  lk_kernel_table : exists i o, is_load m (mod_start m md) i /\ 0 <= o /\
    o + 50 <= p_filesz m (phdr m (mod_start m md) i) /\
    kernel_gdt pl = p_vaddr m (phdr m (mod_start m md) i) + o /\
    image m (mod_start m md + p_offset m (phdr m (mod_start m md) i) + o) (kernel_gdt64 (kernel_gdt pl));
  lk_stack : kernel_stack_top pl mod 16 = 0 /\ 32 <= kernel_stack_top pl < 2 ^ 64 /\
    (forall b, kept_byte pl b -> ~ (kernel_stack_top pl - 32 <= b < kernel_stack_top pl));
  lk_calls : 0 <= ret_init pl < 2 ^ 64 /\ 0 <= ret_early pl < 2 ^ 64
}.

Lemma info_written m current limit cursor mb e :
  (forall b, info pl <= b < info pl + 32 -> mget m b = 0) -> 0 <= cursor < 2 ^ 32 ->
  apart (entry_cell pl) 8 (info pl) 32 ->
  info_at (hand_over (AwdInfo 0 0 (u32 mb) 0 0 (u32 current) (u32 limit) cursor) e m) (info pl)
    (AwdInfo 0 0 (u32 mb) 0 0 (u32 current) (u32 limit) cursor).
Proof.
  intros Hz Hcur Hap. unfold apart in Hap. unfold hand_over, set_up_info. cbn [log_cursor_y multiboot_struct ptr_malloc_current ptr_malloc_limit].
  assert (forall k, 0 <= k <= 28 -> load32 m (info pl + k) = 0) as Hl.
  { intros k Hk. apply (load_zero 4). intros b Hb. apply Hz. lia. }
  split; cbn [kernel_phstart kernel_phsize multiboot_struct numCPUs ptr_phys_mem_map
              ptr_malloc_current ptr_malloc_limit log_cursor_y];
    rewrite (load_store_ne 8 4) by lia; repeat rewrite (load_store_ne 4 4) by lia;
    try (rewrite (load_store_eq 4); apply Z.mod_small; try apply u32_range; lia).
  - pose proof (Hl 0 ltac:(lia)) as H. by rewrite Z.add_0_r in H.
  - by apply Hl.
  - by apply Hl.
  - by apply Hl.
Qed.

(** ** The composition *)

Section Boots.
Context (p : platform) (mb md : Z) (m : mem) (names : list (list Z)) (a a' : awd) (block : awd_info).
Context (Hboot : boot_ok p mb md m names a) (Hlinked : linked p md m).
Let entry : Z := e_entry m (mod_start m md).
Let pm : mem := hand_over block entry (a_mem a').

(** The facts about the tables that [awd_main_run] gives. *)
Context (Himage : forall o, 0 <= o < kernel_size md m ->
  mmu_walk 0 (a_mem a') (pf_pml4 p) (kernel_virt md m + o) = Some (heap_base md m + o)).
Context (Hwindow : forall b, 0 <= b < 2097152 ->
  kernel_mem_base + b < kernel_virt md m \/ kernel_virt md m + kernel_size md m + 4096 <= kernel_mem_base + b ->
  mmu_walk 0 (a_mem a') (pf_pml4 p) (kernel_mem_base + b) = Some b).
Context (Hident : forall b, pf_phys_start p <= b < round_up (pf_phys_end p) 4096 - 1 ->
  mmu_walk 0 (a_mem a') (pf_pml4 p) b = Some b).
Context (Hown : own_tables (pf_pml4 p) (tables_base md m) (a_mem a')).

(** Neither store reaches a table or the kernel's image. *)
Lemma stores_low b : heap_base md m <= b -> mget pm b = mget (a_mem a') b.
Proof.
  intros Hb. destruct Hboot as [_ _ _ _ _ _ (_ & _ & Hend) _ _ _ _].
  destruct (lk_inside _ _ _ Hlinked (entry_cell pl) 8 ltac:(set_solver)) as (_ & Hc & _).
  destruct (lk_inside _ _ _ Hlinked (info pl) 32 ltac:(set_solver)) as (_ & Hi & _).
  apply hand_over_frame; lia.
Qed.

Lemma same_walk va : mmu_walk 0 pm (pf_pml4 p) va = mmu_walk 0 (a_mem a') (pf_pml4 p) va.
Proof.
  apply Hown. intros b [Hb|Hb].
  - destruct (lk_inside _ _ _ Hlinked (entry_cell pl) 8 ltac:(set_solver)) as (_ & _ & Hc).
    destruct (lk_inside _ _ _ Hlinked (info pl) 32 ltac:(set_solver)) as (_ & _ & Hi).
    unfold apart in *. apply hand_over_frame; lia.
  - apply stores_low. destruct Hboot as [_ _ _ _ Himg _ _ _ _ _ _].
    pose proof (im_size _ _ _ _ _ Himg). unfold tables_base in Hb. lia.
Qed.

Context (vm : mem) (Hseen : seen pm (pf_pml4 p) vm).

Lemma seen_loader b : pf_phys_start p <= b < pf_phys_end p - 1 -> mget vm b = mget pm b.
Proof.
  intros Hb. destruct Hboot as [_ _ _ _ _ _ (H0 & _ & Hend) _ Hh _ _].
  destruct (round_up_spec (pf_phys_end p) 4096 ltac:(lia)) as [Hr _].
  apply Hseen; [left; change (2 ^ 47) with 140737488355328; lia|]. rewrite same_walk. apply Hident. lia.
Qed.

Lemma seen_window b : 0 <= b < 2097152 -> kernel_mem_base + b < kernel_virt md m ->
  mget vm (kernel_mem_base + b) = mget pm b.
Proof.
  intros Hb Hv. apply Hseen.
  - right. unfold kernel_mem_base. change (2 ^ 47) with 140737488355328. change (2 ^ 64) with 18446744073709551616. lia.
  - rewrite same_walk. apply Hwindow; [done|by left].
Qed.

Lemma seen_image o : 0 <= o < kernel_size md m ->
  mget vm (kernel_virt md m + o) = mget (a_mem a') (heap_base md m + o).
Proof.
  intros Ho. destruct Hboot as [_ _ _ _ _ (_ & Hv & Hs) _ _ _ _ _].
  rewrite <- stores_low by lia. apply Hseen; [|rewrite same_walk; by apply Himage].
  right. unfold kernel_mem_base in Hv. change (2 ^ 47) with 140737488355328.
  change (2 ^ 64) with 18446744073709551616 in *. lia.
Qed.

(** The LOAD segments, and the memory of the loader. *)
Context (Hload : forall i o, is_load m (mod_start m md) i -> 0 <= o < p_filesz m (phdr m (mod_start m md) i) ->
  exists pa, mmu_walk 0 (a_mem a') (pf_pml4 p) (p_vaddr m (phdr m (mod_start m md) i) + o) = Some pa /\
    mget (a_mem a') pa = mget m (mod_start m md + p_offset m (phdr m (mod_start m md) i) + o)).
Context (Hkeep : forall b, b < pf_pml4 p \/ pf_pml4 p + 4096 <= b < heap_base md m -> mget (a_mem a') b = mget m b).

Lemma seen_segment i o :
  is_load m (mod_start m md) i -> 0 <= o < p_filesz m (phdr m (mod_start m md) i) ->
  mget vm (p_vaddr m (phdr m (mod_start m md) i) + o) =
    mget m (mod_start m md + p_offset m (phdr m (mod_start m md) i) + o).
Proof.
  intros Hi Ho. destruct (Hload i o Hi Ho) as (pa & Hw & <-).
  destruct Hboot as [_ _ _ _ Himg _ _ _ _ _ _]. destruct (im_virt _ _ _ _ _ Himg i Hi) as [H1 H2].
  set (o' := p_vaddr m (phdr m (mod_start m md) i) + o - kernel_virt md m).
  replace (p_vaddr m (phdr m (mod_start m md) i) + o) with (kernel_virt md m + o') in * by (unfold o'; lia).
  rewrite Himage in Hw by (unfold o'; lia). injection Hw as <-. apply seen_image. unfold o'; lia.
Qed.

Lemma loader_kept b :
  pf_phys_start p <= b < pf_phys_end p -> b < pf_pml4 p \/ pf_pml4 p + 4096 <= b -> mget (a_mem a') b = mget m b.
Proof. intros Hb Hp. destruct Hboot as [_ _ _ _ _ _ (_ & _ & Hend) _ _ _ _]. apply Hkeep. lia. Qed.

Lemma seen_laid_out : laid_out pl vm.
Proof.
  pose proof (lk_apart _ _ _ Hlinked) as (Ha1 & Ha2 & _).
  destruct (lk_inside _ _ _ Hlinked (awd_gdt pl) 34 ltac:(set_solver)) as (Hg1 & Hg2 & Hg3).
  destruct (lk_inside _ _ _ Hlinked (entry_cell pl) 8 ltac:(set_solver)) as (Hc1 & Hc2 & _).
  destruct (lk_inside _ _ _ Hlinked (info pl) 32 ltac:(set_solver)) as (Hi1 & Hi2 & _).
  destruct (lk_kernel_table _ _ _ Hlinked) as (i & o & Hi & Ho & Hf & Hg & Ht).
  destruct (lk_stack _ _ _ Hlinked) as (Hs1 & Hs2 & Hs3).
  pose proof Hboot as [_ _ _ _ Himg (_ & Hv1 & Hv2) (H0 & _ & Hend) _ Hh _ _].
  destruct (im_virt _ _ _ _ _ Himg i Hi) as [Hiv1 Hiv2]. pose proof (im_size _ _ _ _ _ Himg).
  unfold apart, kernel_mem_base in *. split; try done.
  - eapply image_ext; [|apply (lk_table _ _ _ Hlinked)]. intros b Hb. change (Z.of_nat _) with 34 in Hb.
    rewrite seen_loader by lia. unfold pm. rewrite hand_over_frame by lia. symmetry. apply loader_kept; lia.
  - lia.
  - intros j b Hj. pose proof (lookup_lt_Some _ _ _ Hj) as Hlt. change (length _) with 50%nat in Hlt.
    rewrite Hg, <- Z.add_assoc, seen_segment by (done || lia). rewrite <- (Ht j b Hj). f_equal. lia.
  - lia.
  - rewrite <- (proj2 (lk_places _ _ _ Hlinked)). trans (load64 pm (entry_cell pl)).
    + apply (load_ext 8). intros b Hb. apply seen_loader. lia.
    + unfold pm, hand_over. etrans; [apply (load_store_eq 8)|]. apply Z.mod_small, load64_range.
  - lia.
  - apply (lk_calls _ _ _ Hlinked).
Qed.

Context (Hblock : exists current limit, block = AwdInfo 0 0 (u32 mb) 0 0 (u32 current) (u32 limit) (pf_cursor p)).

Lemma seen_info : info_at vm (info pl) block /\ info_at vm (MEM_PHYS_TO_VIRT (info pl)) block.
Proof.
  destruct (lk_inside _ _ _ Hlinked (info pl) 32 ltac:(set_solver)) as (Hi1 & Hi2 & Hi3).
  destruct (lk_window _ _ _ Hlinked) as [Hw1 Hw2]. pose proof Hboot as [_ _ _ _ _ _ (H0 & _ & Hend) _ _ _ _].
  assert (info_at pm (info pl) block) as Hat.
  { destruct Hblock as (current & limit & E). unfold pm. rewrite E. apply info_written.
    - intros b Hb. unfold apart in Hi3. rewrite loader_kept by lia. by apply (lk_bss _ _ _ Hlinked).
    - apply (lk_cursor _ _ _ Hlinked).
    - apply (lk_apart _ _ _ Hlinked). }
  split; (eapply info_at_ext; [|exact Hat]); intros k Hk.
  - apply seen_loader. lia.
  - rewrite block_at_window, <- Z.add_assoc by lia. apply seen_window; lia.
Qed.
End Boots.

(** The block describes what is left of the loader's heap, which is behind it. *)
Definition heap_left (md : Z) (m : mem) (block : awd_info) : Prop :=
  0 <= info pl /\ info pl + 32 <= ptr_malloc_current block < heap_base md m + 262144 /\
  ptr_malloc_limit block = u32 (heap_base md m + 262144).

Lemma loader_run (p : platform) mb md m names a :
  boot_ok p mb md m names a -> linked p md m ->
  exists block a', awd_main p 732803074 mb a = Done ((block, e_entry m (mod_start m md)), a') /\
    heap_left md m block /\
    forall vm, seen (hand_over block (e_entry m (mod_start m md)) (a_mem a')) (pf_pml4 p) vm ->
      laid_out pl vm /\ 0 <= info pl < 2097152 /\
      info_at vm (info pl) block /\ info_at vm (MEM_PHYS_TO_VIRT (info pl)) block.
Proof.
  intros Hb Hl. destruct (awd_main_run p mb md m names a Hb)
    as (a' & block & Hrun & _ & Hload & Himage & Hwindow & Hident & Hkeep & Hown & Hcur & Hlim).
  destruct (lk_window _ _ _ Hl) as [Hw _].
  destruct (lk_inside _ _ _ Hl (info pl) 32 ltac:(set_solver)) as (Hi1 & Hi2 & _).
  pose proof Hb as [_ _ _ _ Himg _ ([Hps _] & _ & Hend) _ _ _ _]. pose proof (im_size _ _ _ _ _ Himg).
  exists block, a'. split; [exact Hrun|]. split; [unfold heap_left, tables_base in *; lia|]. intros vm Hseen. split.
  - by apply (seen_laid_out p mb md m names a a' block).
  - split; [lia|]. apply (seen_info p mb md m names a a' block); try done. exact (awd_main_block _ _ _ _ _ _ _ Hrun).
Qed.
End Handover.

(** ** Into the kernel *)

(** The state in which [kernel_early] starts, on AWD's page tables: its code can be
    named by interrupt gates, and its argument is the address of the block, which
    the kernel's window shows too. *)
Record kernel_reached {C : Cpu} (pl : places) (p : platform) (block : awd_info) (s : proc) : Prop := {
  kd_early : at_kernel_early pl s;
  kd_tables : p_reg s CR3 = pf_pml4 p;
  kd_long : long_mode_active s = true;
  kd_gate : exists d, descriptor 8 s = Done (d, s) /\ code_ok 0 d = true /\ desc_long d = true;
  kd_info : info_at (p_mem s) (p_reg s RDI) block;
  kd_window : info_at (p_mem s) (MEM_PHYS_TO_VIRT (p_reg s RDI)) block
}.

(** What follows in every state the loader leaves the processor in: [s1] is that
    behind [paging_enable]. *)
Definition enters {C : Cpu} (pl : places) (p : platform) (constructors : ST proc unit) (block : awd_info)
    (pm : mem) (s1 : proc) : Prop := forall s2,
  (forall r, r ∈ [CS; CR0; CR3; CR4; EFER] -> p_reg s2 r = p_reg s1 r) -> seen pm (p_reg s2 CR3) (p_mem s2) ->
  exists s3, enter_lobo pl constructors s2 = Done (tt, s3) /\ kernel_reached pl p block s3.

Lemma loader_enters_run (C : Cpu) pl p mb md m names a constructors s0 s0' s :
  boot_ok p mb md m names a -> linked pl p md m -> check_longmode s0 = Done (pf_longmode p, s0') ->
  Z.testbit (p_reg s CR0) PE = true -> Z.land (p_reg s CS) 3 = 0 -> abi_ok pl constructors ->
  let entry := e_entry m (mod_start m md) in
  exists block a' s1, awd_main p 732803074 mb a = Done ((block, entry), a') /\
    paging_enable pl s = Done (tt, s1) /\ p_reg s1 CR3 = pf_pml4 p /\ long_mode_active s1 = true /\
    enters pl p constructors block (hand_over pl block entry (a_mem a')) s1 /\ heap_left pl md m block.
Proof.
  intros Hboot Hlinked Hcheck Hpe Hcpl Habi entry.
  destruct (loader_run pl p mb md m names a Hboot Hlinked) as (block & a' & Hrun & Hleft & Hview).
  assert (has_long_mode = true) as Hlm.
  { destruct (check_longmode_run s0) as (s' & H & _). rewrite Hcheck in H. injection H as H _.
    destruct (bo_cpu _ _ _ _ _ _ Hboot) as [_ Hne]. by destruct has_long_mode. }
  destruct (paging_enable_run pl s Hlm Hpe Hcpl) as (s1 & H1 & [Hact Hcr3 _] & _).
  destruct (kernel_entered C pl constructors s Hlm Hpe Hcpl Habi) as (s1' & H1' & _ & Henter).
  rewrite H1 in H1'. injection H1' as <-. destruct (lk_places _ _ _ _ Hlinked) as [Hpml _]. rewrite Hpml in *.
  exists block, a', s1. do 4 (split; [done|]). split; [|done]. intros s2 Hsame Hseen.
  rewrite Hsame, Hcr3 in Hseen by compute_done. destruct (Hview _ Hseen) as (Hlaid & Hir & Hi).
  destruct (Henter s2 Hsame Hlaid) as (s3 & H3 & He & H3c & H3l & H3d & Hk).
  exists s3. split; [done|]. destruct (kept_info _ (p_mem s2) (p_mem s3) block Hk Hir Hi) as [Hi1 Hi2].
  split; rewrite ?(ke_argument _ _ He); done.
Qed.

(** ** Theorem *)


(** The machine of [AwdMain] and the processor of [Entry]. *)
Lemma sample_linked : linked sample_places boot_platform 8192 boot_memory.
Proof.
  assert (mod_start boot_memory 8192 = 2097152) as Hs by (vm_compute; reflexivity).
  split; rewrite ?Hs.
  - split; vm_compute; reflexivity.
  - intros x n Hx. refine (proj1 (Forall_forall (fun q => pf_phys_start boot_platform <= q.1 /\
      q.1 + q.2 < pf_phys_end boot_platform /\ apart q.1 q.2 (pf_pml4 boot_platform) 4096) _) _ (x, n) (proj1 (list_elem_of_In _ _) Hx)).
    unfold apart. repeat (apply Forall_cons_2; [cbn; lia|]). apply Forall_nil_2.
  - unfold apart. cbn. lia.
  - assert (kernel_virt 8192 boot_memory = kernel_mem_base + 2097152) as -> by (vm_compute; reflexivity). cbn. unfold kernel_mem_base. lia.
  - apply holds_image. vm_compute. reflexivity.
  - intros b Hb. cbn in Hb. unfold boot_memory, sample_elf.
    repeat rewrite mget_poke_ne by (vm_compute (Z.of_nat _); lia). done.
  - cbn. lia.
  - exists 0, 0. split; [split; [split; [lia|vm_compute; reflexivity]|vm_compute; reflexivity]|].
    split; [lia|]. split; [vm_compute; discriminate|]. split; [vm_compute; reflexivity|].
    apply holds_image. vm_compute. reflexivity.
  - split; [done|]. split; [cbn; lia|]. unfold kept_byte, kernel_mem_base. cbn. intros; lia.
  - cbn. lia.
Qed.

