(* ===== verification/Vmm.v ===== *)
(** Lobo's virtual memory manager (src/src/lobo/mem/vmm.cpp,
    arch/x86_64/vmm.cpp, kernel/vmm.h, kernel/mem/memmap.h) over page tables in
    kernel memory.

    A walk here always sees the tables as they are in memory; the processor's
    cache of translations, and the functions that invalidate it by address, are
    in [Tlb]. *)

From S2P Require Import Prelude Memory AwdAlloc PageTable PageBuilder Lobo KernelBitset Pmm KernelHeap.
Local Open Scope Z_scope.
Local Open Scope mach_scope.

(** ** vmm.h *)

Definition VMM_PAGE_PRESENT : Z := 1.
Definition VMM_PAGE_WRITE : Z := 2.
Definition VMM_MAP_UNBACKED : Z := 1.
Definition VMM_MAP_REGION_KERNEL : Z := 2.
Definition VMM_MAP_PHYS : Z := 8.

Definition VMM_PAGE_CREATE_ENTRY (x flags : Z) : Z := Z.lor x flags.
(** [x & (~0xFF)]: the int [~0xFF] is sign-extended to 64 bits. *)
Definition VMM_PAGE_ENTRY_ADDR (x : Z) : Z := Z.land x (2 ^ 64 - 2 ^ 8).

(** ** arch/x86_64/vmm.cpp *)

Definition find_page_table (pt index : Z) (create : bool) : ST kstate Z :=
  m ← gets k_mem;
  if entry m pt index =? 0 then
    if negb create then mret 0
    else
      table ← kmalloc_aligned 4096 4096;
      modify (fun s => set_kmem (memset (k_mem s) table 0 4096) s) ;;
      let table_phys := MEM_VIRT_TO_PHYS table in
      modify (fun s => set_kmem
        (set_entry (k_mem s) pt index (VMM_PAGE_CREATE_ENTRY table_phys 3)) s) ;;
      mret table
  else mret (MEM_PHYS_TO_VIRT (VMM_PAGE_ENTRY_ADDR (entry m pt index))).

(** The address of the entry; 0, the null pointer, if a table is missing. *)
Definition find_page_entry (p4 addr : Z) (create : bool) : ST kstate Z :=
  p3_addr ← find_page_table p4 (idx4 addr) create;
  if p3_addr =? 0 then mret 0
  else
    p2_addr ← find_page_table p3_addr (idx3 addr) create;
    if p2_addr =? 0 then mret 0
    else
      p1_addr ← find_page_table p2_addr (idx2 addr) create;
      if p1_addr =? 0 then mret 0 else mret (p1_addr + 8 * idx1 addr).

(** The loop of [map_pages]; [addr_limit] is computed before it. *)
Fixpoint map_pages_loop (fuel : nat) (p4 addr addr_limit p_addr flags : Z) : ST kstate unit :=
  match fuel with
  | O => stop_with OutOfFuel
  | S fuel' =>
      if addr <? addr_limit then
        entry ← find_page_entry p4 addr true;
        when (entry =? 0) (kpanic "vmm: Unable to map page, unable to find entry") ;;
        m ← gets k_mem;
        when (negb (Z.land (load64 m entry) VMM_PAGE_PRESENT =? 0))
          (klog "vmm" "Attempting to map 0x%016p, which is already mapped." [KNum addr] ;;
           kpanic "vmm: Attempted to remap a page!") ;;
        modify (fun s => set_kmem
          (store64 (k_mem s) entry (VMM_PAGE_CREATE_ENTRY p_addr flags)) s) ;;
        map_pages_loop fuel' p4 (addr +64 4096) addr_limit (p_addr +64 4096) flags
      else skip
  end.

(** The iterations a region of [size] bytes needs, and the last test. *)
Definition pages_fuel (size : Z) : nat := Z.to_nat (size / 4096) + 2.

Definition map_pages (p4 addr p_addr size flags : Z) : ST kstate unit :=
  map_pages_loop (pages_fuel size) p4 addr (addr +64 size) p_addr (u8 flags).

Fixpoint unmap_pages_loop (fuel : nat) (p4 addr addr_limit : Z) : ST kstate unit :=
  match fuel with
  | O => stop_with OutOfFuel
  | S fuel' =>
      if addr <? addr_limit then
        entry ← find_page_entry p4 addr true;
        when (entry =? 0) (kpanic "vmm: Unable to map page, unable to find entry") ;;
        modify (fun s => set_kmem (store64 (k_mem s) entry VMM_PAGE_WRITE) s) ;;
        unmap_pages_loop fuel' p4 (addr +64 4096) addr_limit
      else skip
  end.

Definition unmap_pages (p4 addr size : Z) : ST kstate unit :=
  unmap_pages_loop (pages_fuel size) p4 addr (addr +64 size).

Definition swap_page_directory (newMemorySpace : Z) : ST kstate unit :=
  let phys_addr := MEM_VIRT_TO_PHYS newMemorySpace in
  klog "vmm" "swap page dir: %p phys addr %p
" [KNum newMemorySpace; KNum phys_addr] ;;
  cli ;;
  modify (fun s => let v := k_vmm s in
    set_kvmm (Vmm (m_init v) (pdir_kernel v) newMemorySpace) s) ;;
  write_cr3 phys_addr ;;
  sti.

Definition vmm_invalidate : ST kstate unit :=
  v ← gets k_vmm; swap_page_directory (pdir_current v).

(** ** mem/vmm.cpp *)

Definition init_kernel_page_directory : ST kstate unit :=
  dir ← kmalloc_aligned 4096 4096;
  modify (fun s => let v := k_vmm s in set_kvmm (Vmm (m_init v) dir (pdir_current v)) s) ;;
  modify (fun s => set_kmem (memset (k_mem s) dir 0 4096) s) ;;
  modify (fun s => let v := k_vmm s in set_kvmm (Vmm (m_init v) (pdir_kernel v) dir) s) ;;
  swap_page_directory dir ;;
  klog "vmm" "Switched to Kernel Page Table 0x%016p" [KNum dir].

Definition vmm_init : ST kstate unit :=
  v ← gets k_vmm;
  if m_init v then skip
  else
    modify (fun s => let v := k_vmm s in set_kvmm (Vmm true (pdir_kernel v) (pdir_current v)) s) ;;
    init_kernel_page_directory.

Definition has_flag (flags f : Z) : bool := negb (Z.land flags f =? 0).

Definition vmm_map (desired_addr length perm flags : Z) : ST kstate Z :=
  let ram_backed := negb (has_flag flags VMM_MAP_UNBACKED) in
  let region_kernel := has_flag flags VMM_MAP_REGION_KERNEL in
  let desired_is_paddr := has_flag flags VMM_MAP_PHYS in
  la ← (if ram_backed then
          if desired_addr =? 0 then
            p_addr ← pmm_allocate (length / 4096);
            if region_kernel then mret (MEM_PHYS_TO_VIRT p_addr, p_addr)
            else kpanic "vmm: Unimplemented, no free address finding"
          else if region_kernel then
            assert_c (KERNEL_VMB <? desired_addr) "l_addr > (logical_addr_t)&KERNEL_VMB" ;;
            mret (desired_addr, MEM_VIRT_TO_PHYS desired_addr)
          else kpanic "vmm: Unimplemented, no free address finding"
        else if desired_is_paddr then
          if region_kernel then mret (MEM_PHYS_TO_VIRT desired_addr, desired_addr)
          else mret (desired_addr, desired_addr)
        else kpanic "vmm: Unimplemented, no unmapped memory support");
  let l_addr := fst la in
  let p_addr := snd la in
  v ← gets k_vmm;
  map_pages (pdir_current v) l_addr p_addr length perm ;;
  v' ← gets k_vmm;
  swap_page_directory (pdir_current v') ;;
  mret l_addr.

Definition vmm_map_direct (v_addr p_addr length perm flags : Z) : ST kstate Z :=
  v ← gets k_vmm;
  map_pages (pdir_current v) v_addr p_addr length perm ;;
  v' ← gets k_vmm;
  swap_page_directory (pdir_current v') ;;
  mret v_addr.

Definition vmm_unmap (address length : Z) : ST kstate Z :=
  v ← gets k_vmm;
  unmap_pages (pdir_current v) address length ;;
  v' ← gets k_vmm;
  swap_page_directory (pdir_current v') ;;
  mret 0.

(** ** mem/memmap.h: a mapping with the lifetime of an object *)

Record memmap := Memmap { mm_ram_backed : bool; mm_addr : Z; mm_sz : Z }.

Definition memmap_new (size perm flags : Z) : ST kstate memmap :=
  virt_addr ← vmm_map 0 size perm flags; mret (Memmap true virt_addr size).
Definition memmap_at (address size perm flags : Z) : ST kstate memmap :=
  virt_addr ← vmm_map address size perm flags; mret (Memmap true virt_addr size).
Definition memmap_direct (p_addr v_addr size perm flags : Z) : ST kstate memmap :=
  vmm_map_direct v_addr p_addr size perm flags ;; mret (Memmap false v_addr size).
Definition memmap_destroy (mm : memmap) : ST kstate unit :=
  vmm_unmap (mm_addr mm) (mm_sz mm) ;; skip.
Definition memmap_get (mm : memmap) : Z := mm_addr mm.
(** [operator[]]: the address of the byte that the reference is to. *)
Definition memmap_index (mm : memmap) (idx : Z) : ST kstate Z :=
  assert_c (idx <? mm_sz mm) "idx < sz" ;; mret (mm_addr mm +64 idx).

(** ** Specification *)

Abbreviation LIM31 := 2147483648.

(** The pages of a region and the entries they get. *)
Definition page_count (size : Z) : Z := (size + 4095) / 4096.
Definition map_entries (addr p_addr size flags : Z) : list (Z * Z) :=
  (fun k => (addr + 4096 * k, Z.lor (p_addr + 4096 * k) flags)) <$> seqZ 0 (page_count size).
Definition unmap_entries (addr size : Z) : list (Z * Z) :=
  (fun k => (addr + 4096 * k, VMM_PAGE_WRITE)) <$> seqZ 0 (page_count size).

Section Tables.
(** Bytes that no page table operation touches. *)
Variable keep : Z -> Prop.
Variables (root c0 n0 : Z).

Record vmm_inv (tab : gmap (list Z) Z) (s : kstate) : Prop := {
  vi_heap : kheap_ok s;
  vi_over : earlyAllocLimit (k_heap s) + 8192 < 2 ^ 64;
  vi_wf : pt_wf KERNEL_VMB LIM31 (k_mem s) tab root;
  vi_cur : kalloc_at s 4096 = c0 + 4096 * (Z.of_nat (size tab) - n0);
  vi_fit : kalloc_at s 4096 <= earlyAllocLimit (k_heap s);
  vi_below : forall p t, tab !! p = Some t -> t + 4096 <= earlyAllocBase (k_heap s) /\
    forall a, bitmap_byte s a -> ~ (t <= a < t + 4096);
  vi_bitmap : forall a, bitmap_byte s a -> a < earlyAllocBase (k_heap s);
  vi_keep : forall a, keep a -> a < earlyAllocBase (k_heap s) /\ ~ bitmap_byte s a /\
    forall p t, tab !! p = Some t -> ~ (t <= a < t + 4096);
}.

Record vmm_frame (s s' : kstate) : Prop := {
  vf_keep : forall a, keep a -> mget (k_mem s') a = mget (k_mem s) a;
  vf_limit : earlyAllocLimit (k_heap s') = earlyAllocLimit (k_heap s);
  vf_rest : same_rest s s';
}.

(** The heap has room for the tables of [D]. *)
Definition vmm_room (D : gset (list Z)) (s : kstate) : bool :=
  c0 + 4096 * (Z.of_nat (size D) - n0) <=? earlyAllocLimit (k_heap s).

#[local] Instance vmm_frame_pre : PreOrder vmm_frame.
Proof.
  split.
  - intros s. split; [done..|apply same_rest_refl].
  - intros s1 s2 s3 [H1 H2 H3] [H1' H2' H3']. split.
    + intros a Ha. by rewrite H1', H1.
    + congruence.
    + by eapply same_rest_trans.
Qed.

Lemma vmm_room_mono D D' s : D ⊆ D' -> vmm_room D' s = true -> vmm_room D s = true.
Proof. unfold vmm_room. intros Hs%subseteq_size H. lia. Qed.

Lemma vmm_room_inv tab s : vmm_inv tab s -> vmm_room (dom tab) s = true.
Proof.
  intros H. unfold vmm_room. rewrite size_dom, <- (vi_cur _ _ H).
  pose proof (vi_fit _ _ H). lia.
Qed.

Lemma vmm_room_frame D s s' : vmm_frame s s' -> vmm_room D s' = vmm_room D s.
Proof. intros H. unfold vmm_room. by rewrite (vf_limit _ _ H). Qed.

(** Lobo as a builder of page tables. *)
Instance vmm_builder : PageBuilder kstate := {|
  pb_root := root;
  pb_mem := k_mem;
  pb_inv := vmm_inv;
  pb_frame := vmm_frame;
  pb_room := vmm_room;
  pb_oom := Panic "kmalloc(early): Ran out of memory!";
  pb_room_mono := vmm_room_mono;
  pb_room_inv := vmm_room_inv;
  pb_room_frame := vmm_room_frame;
  pb_inv_root := fun tab s H => pt_root _ _ _ _ _ (vi_wf _ _ H);
|}.

(** An address the kernel's tables can have. *)
Lemma table_address tab s p t :
  vmm_inv tab s -> tab !! p = Some t -> KERNEL_VMB <= t /\ t + 4096 < 2 ^ 64 /\ t mod 4096 = 0.
Proof.
  intros Hi Ht. destruct (pt_table _ _ _ _ _ (vi_wf _ _ Hi) _ _ Ht) as [(H1 & H2 & H3) _].
  pose proof (kh_range _ (vi_heap _ _ Hi)) as Hr. pose proof (vi_over _ _ Hi) as Ho.
  destruct (vi_below _ _ Hi _ _ Ht) as [Hb _].
  unfold KERNEL_VMB in *. change (2 ^ 64) with 18446744073709551616 in *.
  split; [lia|]. split; [lia|]. lia_div.
Qed.

Lemma find_table_old tab s p t i t' create :
  vmm_inv tab s -> tab !! p = Some t -> (length p < 3)%nat -> 0 <= i < 512 ->
  tab !! (p ++ [i]) = Some t' -> find_page_table t i create s = Done (t', s).
Proof.
  intros Hinv Hp Hlen Hi Ht'. pose proof (vi_wf _ _ Hinv) as Hwf.
  pose proof (pt_entry _ _ _ _ _ Hwf p t i Hp Hlen Hi) as He. rewrite Ht' in He.
  destruct (table_address _ _ _ _ Hinv Ht') as (H1 & H2 & H3).
  unfold KERNEL_VMB in H1. change (2 ^ 64) with 18446744073709551616 in *.
  unfold find_page_table. rewrite gets_bind, He. unfold PT_FLAGS, KERNEL_VMB.
  destruct (t' - 18446744071562067968 + 3 =? 0) eqn:E; [lia|]. unfold VMM_PAGE_ENTRY_ADDR.
  rewrite (land_clear_low_w 64 8) by (change (2 ^ 64) with 18446744073709551616; lia).
  change (2 ^ 8) with 256. unfold mret, ST_ret. do 2 f_equal.
  rewrite phys_to_virt_low by lia_div. unfold KERNEL_VMB. lia_div.
Qed.

Lemma find_table_absent tab s p t i :
  vmm_inv tab s -> tab !! p = Some t -> (length p < 3)%nat -> 0 <= i < 512 ->
  tab !! (p ++ [i]) = None -> find_page_table t i false s = Done (0, s).
Proof.
  intros Hinv Hp Hlen Hi Hnone.
  pose proof (pt_entry _ _ _ _ _ (vi_wf _ _ Hinv) p t i Hp Hlen Hi) as He. rewrite Hnone in He.
  unfold find_page_table. by rewrite gets_bind, He.
Qed.

(** Byte ranges an allocation and the clearing of a new table leave alone. *)
Lemma new_table_keeps tab s p0 s1 t :
  vmm_inv tab s -> allocated s 4096 p0 s1 -> p0 = kalloc_at s 4096 ->
  t + 4096 <= earlyAllocBase (k_heap s) -> (forall a, bitmap_byte s a -> ~ (t <= a < t + 4096)) ->
  agree_on (memset (k_mem s1) p0 0 4096) (k_mem s) t 4096.
Proof.
  intros Hinv Ha -> Ht Hb b Hr. destruct (kalloc_at_spec s 4096 ltac:(lia)) as [Hp _].
  rewrite memset_get by lia. rewrite decide_False by lia.
  apply (ka_mem _ _ _ _ Ha). intros _ Hbm. by apply (Hb b).
Qed.

Lemma find_table_new tab s p t i :
  vmm_inv tab s -> tab !! p = Some t -> (length p < 3)%nat -> 0 <= i < 512 ->
  tab !! (p ++ [i]) = None ->
  let n := kalloc_at s 4096 in
  if n + 4096 <=? earlyAllocLimit (k_heap s) then
    exists s', find_page_table t i true s = Done (n, s') /\
      vmm_inv (<[p ++ [i] := n]> tab) s' /\ vmm_frame s s' /\
      (forall va, leaf (k_mem s') (<[p ++ [i] := n]> tab) va = leaf (k_mem s) tab va)
  else find_page_table t i true s = Stopped (Panic "kmalloc(early): Ran out of memory!").
Proof.
  intros Hinv Hp Hlen Hi Hnone n.
  pose proof Hinv as [Hok Hov Hwf Hcur Hfit Hbelow Hbm Hkeep].
  pose proof (pt_entry _ _ _ _ _ Hwf p t i Hp Hlen Hi) as He. rewrite Hnone in He.
  pose proof (kalloc_at_spec s 4096 ltac:(lia)) as [Hn Hnal]. fold n in Hn, Hnal.
  pose proof (kh_range _ Hok) as Hr. unfold KERNEL_VMB in Hr.
  change (2 ^ 64) with 18446744073709551616 in *.
  pose proof (kmalloc_aligned_run s 4096 4096 Hok ltac:(lia) ltac:(change (2 ^ 63) with 9223372036854775808; lia)
    ltac:(change (2 ^ 64) with 18446744073709551616; lia)) as Hrun. cbv zeta in Hrun. fold n in Hrun.
  unfold find_page_table. rewrite gets_bind, He, Z.eqb_refl. cbn [negb].
  destruct (n + 4096 <=? earlyAllocLimit (k_heap s)) eqn:E; [|by apply bind_stopped].
  destruct Hrun as (s1 & Hrun & Ha). rewrite (bind_done _ _ _ _ _ Hrun), !modify_bind.
  set (m1 := memset (k_mem s1) n 0 4096).
  assert (MEM_VIRT_TO_PHYS n = n - KERNEL_VMB) as Hphys
    by (apply virt_to_phys_high; unfold KERNEL_VMB; change (2 ^ 64) with 18446744073709551616; lia).
  unfold VMM_PAGE_CREATE_ENTRY. rewrite Hphys, (lor_aligned 12)
    by (unfold KERNEL_VMB; change (2 ^ 12) with 4096; lia_div).
  assert (forall q u, tab !! q = Some u -> agree_on m1 (k_mem s) u 4096) as Hag.
  { intros q u Hq. destruct (Hbelow _ _ Hq) as [H1 H2].
    by apply (new_table_keeps tab s n s1 u Hinv Ha). }
  pose proof (pt_wf_ext KERNEL_VMB LIM31 _ m1 _ _ Hag Hwf) as Hwf1.
  assert (table_ok KERNEL_VMB LIM31 n) as Hnok by (unfold table_ok, KERNEL_VMB; lia_div).
  assert (forall q u, tab !! q = Some u -> u <> n) as Hfresh.
  { intros q u Hq ->. destruct (Hbelow _ _ Hq). lia. }
  destruct (pt_extend KERNEL_VMB LIM31 ltac:(lia) m1 tab root p t i n Hwf1 Hp Hlen Hi Hnone Hnok Hfresh)
    as [Hwf2 Hleaf2].
  { intros j Hj. apply (memset_zero_load 8); lia. }
  destruct (Hbelow _ _ Hp) as [Htb Htbm]. unfold PT_FLAGS in *.
  assert (k_pmm s1 = k_pmm s) as Hpmm by apply (ka_rest _ _ _ _ Ha).
  assert (forall m a, bitmap_byte (set_kmem m (set_kmem m1 s1)) a <-> bitmap_byte s a) as Hbb.
  { intros m a. unfold bitmap_byte. cbn [k_pmm set_kmem]. by rewrite Hpmm. }
  eexists. split; [reflexivity|]. split; [|split].
  - assert (kheap_ok s1) as Hok1 by (apply (allocated_ok s 4096 4096 n s1); (done || lia)).
    split; cbn [k_heap k_mem set_kmem]; rewrite ?(ka_heap _ _ _ _ Ha); cbn [earlyAllocLimit earlyAllocBase].
    + destruct Hok1 as [G1 G2 G3 G4]. split; try done.
    + change (2 ^ 64) with 18446744073709551616. lia.
    + exact Hwf2.
    + rewrite map_size_insert_None by done. unfold kalloc_at at 1. cbn [k_heap set_kmem].
      rewrite (ka_heap _ _ _ _ Ha). cbn [earlyAllocBase]. unfold round_up.
      assert ((n + 4096) mod 4096 = 0) as -> by lia_div. simpl Z.eqb. cbv iota. fold n in Hcur. lia.
    + unfold kalloc_at. cbn [k_heap set_kmem]. rewrite (ka_heap _ _ _ _ Ha).
      cbn [earlyAllocBase]. unfold round_up.
      assert ((n + 4096) mod 4096 = 0) as -> by lia_div. simpl Z.eqb. cbv iota. lia.
    + intros q u Hq. setoid_rewrite Hbb. rewrite lookup_insert in Hq. case_decide as Hd.
      * injection Hq as <-. split; [lia|]. intros a Hab. specialize (Hbm a Hab). lia.
      * destruct (Hbelow _ _ Hq) as [H1 H2]. split; [lia|done].
    + intros a Hab%Hbb. specialize (Hbm a Hab). lia.
    + intros a Hka. destruct (Hkeep a Hka) as (H1 & H2 & H3). split; [lia|].
      rewrite Hbb. split; [done|]. intros q u Hq. rewrite lookup_insert in Hq. case_decide.
      * injection Hq as <-. lia.
      * by apply (H3 q).
  - split.
    + intros a Hka. destruct (Hkeep a Hka) as (H1 & H2 & H3). cbn [k_mem set_kmem].
      rewrite mget_set_entry_ne by (try done; specialize (H3 _ _ Hp); lia).
      unfold m1. rewrite memset_get by lia. rewrite decide_False by lia. by apply (ka_mem _ _ _ _ Ha).
    + cbn [k_heap set_kmem]. by rewrite (ka_heap _ _ _ _ Ha).
    + destruct (ka_rest _ _ _ _ Ha) as [G1 G2 G3 G4 G5 G6]. by split.
  - intros va. cbn [k_mem set_kmem]. rewrite Hleaf2. by apply leaf_ext.
Qed.

Lemma find_table_ok : level_ok (fun t i => find_page_table t i true).
Proof.
  intros tab s p t i D Hinv Hp Hlen Hi ->.
  change (pb_inv tab s) with (vmm_inv tab s) in Hinv. cbn [pb_room vmm_builder].
  destruct (tab !! (p ++ [i])) as [t'|] eqn:E.
  - assert (dom tab ∪ {[ p ++ [i] ]} = dom tab) as ->.
    { apply elem_of_dom_2 in E. set_solver. }
    rewrite (vmm_room_inv _ _ Hinv). exists tab, s, t'.
    rewrite (find_table_old tab s p t i t' true) by done.
    split; [done|]. split; [|done]. by split.
  - pose proof (find_table_new tab s p t i Hinv Hp Hlen Hi E) as Hnew. cbv zeta in Hnew.
    assert (vmm_room (dom tab ∪ {[ p ++ [i] ]}) s =
      (kalloc_at s 4096 + 4096 <=? earlyAllocLimit (k_heap s))) as ->.
    { unfold vmm_room. rewrite (vi_cur _ _ Hinv).
      rewrite size_union by (apply not_elem_of_dom in E; set_solver).
      rewrite size_dom, size_singleton. f_equal. lia. }
    destruct (_ <=? _); [|done]. destruct Hnew as (s' & H1 & H2 & H3 & H4).
    do 3 eexists. split; [exact H1|]. split; [|apply lookup_insert_eq].
    split; try done. rewrite dom_insert_L. set_solver.
Qed.

(** [find_page_entry] with [create]: the address of the last-level entry. *)
Lemma find_entry_run tab s va D :
  vmm_inv tab s -> D = dom tab ∪ prefixes va ->
  if vmm_room D s then
    exists tab' s' t, find_page_entry root va true s = Done (t + 8 * idx1 va, s') /\
      grown tab s D tab' s' /\ tab' !! [idx4 va; idx3 va; idx2 va] = Some t
  else find_page_entry root va true s = Stopped (Panic "kmalloc(early): Ran out of memory!").
Proof.
  intros Hinv HD. pose proof (walk3 _ tab s va D find_table_ok Hinv HD) as H.
  change (pb_room D s) with (vmm_room D s) in H. change pb_root with root in H.
  assert (forall tab s p t, vmm_inv tab s -> tab !! p = Some t -> (t =? 0) = false) as Hnz.
  { intros tab1 u p t Hi Ht. destruct (table_address _ _ _ _ Hi Ht) as (H1 & _).
    unfold KERNEL_VMB in H1. lia. }
  unfold find_page_entry. destruct (vmm_room D s).
  - destruct H as (t3 & s1 & t2 & s2 & tab' & t1 & s' & H1 & H2 & H3 & G & Ht & tab1 & tab2 & I1 & T1 & I2 & T2).
    exists tab', s', t1. split; [|done].
    rewrite (bind_done _ _ _ _ _ H1), (Hnz _ _ _ _ I1 T1), (bind_done _ _ _ _ _ H2), (Hnz _ _ _ _ I2 T2).
    rewrite (bind_done _ _ _ _ _ H3), (Hnz _ _ _ _ (gr_inv _ _ _ _ _ G) Ht). done.
  - destruct H as [H|(t3 & s1 & tab1 & H1 & I1 & T1 & [H|(t2 & s2 & tab2 & H2 & I2 & T2 & H)])].
    + by apply bind_stopped.
    + rewrite (bind_done _ _ _ _ _ H1), (Hnz _ _ _ _ I1 T1). by apply bind_stopped.
    + rewrite (bind_done _ _ _ _ _ H1), (Hnz _ _ _ _ I1 T1), (bind_done _ _ _ _ _ H2), (Hnz _ _ _ _ I2 T2).
      by apply bind_stopped.
Qed.

(** Writing a last-level entry. *)
Lemma write_leaf_run tab s t va e :
  vmm_inv tab s -> tab !! [idx4 va; idx3 va; idx2 va] = Some t ->
  let s' := set_kmem (set_entry (k_mem s) t (idx1 va) e) s in
  vmm_inv tab s' /\ vmm_frame s s' /\
  (forall va', leaf (k_mem s') tab va' = if decide (vpage va' = vpage va) then u64 e else leaf (k_mem s) tab va').
Proof.
  intros Hinv Ht s'. pose proof Hinv as [Hok Hov Hwf Hcur Hfit Hbelow Hbm Hkeep].
  pose proof (idx1_range va) as Hi.
  destruct (pt_set_leaf KERNEL_VMB LIM31 (k_mem s) tab root va t e Hwf Ht) as [Hwf' Hleaf].
  split; [|split]; [|split|done].
  - destruct Hok as [G1 G2 G3 G4]. split; try done.
  - intros a Ha. destruct (Hkeep a Ha) as (_ & _ & H3). specialize (H3 _ _ Ht).
    cbn [s' k_mem set_kmem]. apply mget_set_entry_ne; [done|lia].
  - done.
  - by split.
Qed.

(** ** Mapping *)

Definition REMAP : stop := Panic "vmm: Attempted to remap a page!".
Definition NOMEM : stop := Panic "kmalloc(early): Ran out of memory!".

(** One iteration of [map_pages]. *)
Lemma map_step fuel tab s addr lim p_addr flags D :
  vmm_inv tab s -> addr < lim -> D = dom tab ∪ prefixes addr ->
  if vmm_room D s then
    if Z.testbit (leaf (k_mem s) tab addr) 0
    then map_pages_loop (S fuel) root addr lim p_addr flags s = Stopped REMAP
    else exists tab' s',
      map_pages_loop (S fuel) root addr lim p_addr flags s =
        map_pages_loop fuel root (addr +64 4096) lim (p_addr +64 4096) flags s' /\
      vmm_inv tab' s' /\ vmm_frame s s' /\ dom tab' = D /\
      (forall va, leaf (k_mem s') tab' va =
         if decide (vpage va = vpage addr) then u64 (Z.lor p_addr flags) else leaf (k_mem s) tab va)
  else map_pages_loop (S fuel) root addr lim p_addr flags s = Stopped NOMEM.
Proof.
  intros Hinv Hlt HD. pose proof (find_entry_run tab s addr D Hinv HD) as H.
  cbn [map_pages_loop]. assert ((addr <? lim) = true) as -> by lia.
  destruct (vmm_room D s); [|by apply bind_stopped].
  destruct H as (tab1 & s1 & t & H1 & [Gi Gf Gd Gl] & Ht).
  change (pb_inv tab1 s1) with (vmm_inv tab1 s1) in Gi. cbn [pb_mem vmm_builder] in Gl.
  destruct (table_address _ _ _ _ Gi Ht) as (Hta & _ & _). unfold KERNEL_VMB in Hta.
  pose proof (idx1_range addr) as Hi.
  rewrite (bind_done _ _ _ _ _ H1). assert ((t + 8 * idx1 addr =? 0) = false) as -> by lia.
  rewrite (bind_done (when false _) _ s1 tt s1) by done. rewrite gets_bind.
  assert (load64 (k_mem s1) (t + 8 * idx1 addr) = leaf (k_mem s) tab addr) as ->.
  { rewrite <- Gl. unfold leaf. by rewrite Ht. }
  change VMM_PAGE_PRESENT with (Z.shiftl 1 0). rewrite land_pow2_zero by lia.
  destruct (Z.testbit (leaf (k_mem s) tab addr) 0); [done|].
  rewrite (bind_done (when false _) _ s1 tt s1) by done. rewrite modify_bind.
  destruct (write_leaf_run tab1 s1 t addr (Z.lor p_addr flags) Gi Ht) as (Hi' & Hf' & Hl').
  exists tab1. eexists. split; [reflexivity|]. split; [exact Hi'|].
  split; [by etransitivity; [exact Gf|exact Hf']|]. split; [done|].
  intros va. rewrite Hl'. by rewrite Gl.
Qed.

(** One iteration of [unmap_pages]. *)
Lemma unmap_step fuel tab s addr lim D :
  vmm_inv tab s -> addr < lim -> D = dom tab ∪ prefixes addr ->
  if vmm_room D s then
    exists tab' s',
      unmap_pages_loop (S fuel) root addr lim s = unmap_pages_loop fuel root (addr +64 4096) lim s' /\
      vmm_inv tab' s' /\ vmm_frame s s' /\ dom tab' = D /\
      (forall va, leaf (k_mem s') tab' va =
         if decide (vpage va = vpage addr) then VMM_PAGE_WRITE else leaf (k_mem s) tab va)
  else unmap_pages_loop (S fuel) root addr lim s = Stopped NOMEM.
Proof.
  intros Hinv Hlt HD. pose proof (find_entry_run tab s addr D Hinv HD) as H.
  cbn [unmap_pages_loop]. assert ((addr <? lim) = true) as -> by lia.
  destruct (vmm_room D s); [|by apply bind_stopped].
  destruct H as (tab1 & s1 & t & H1 & [Gi Gf Gd Gl] & Ht).
  change (pb_inv tab1 s1) with (vmm_inv tab1 s1) in Gi. cbn [pb_mem vmm_builder] in Gl.
  destruct (table_address _ _ _ _ Gi Ht) as (Hta & _ & _). unfold KERNEL_VMB in Hta.
  pose proof (idx1_range addr) as Hi.
  rewrite (bind_done _ _ _ _ _ H1). assert ((t + 8 * idx1 addr =? 0) = false) as -> by lia.
  rewrite (bind_done (when false _) _ s1 tt s1) by done. rewrite modify_bind.
  destruct (write_leaf_run tab1 s1 t addr VMM_PAGE_WRITE Gi Ht) as (Hi' & Hf' & Hl').
  exists tab1. eexists. split; [reflexivity|]. split; [exact Hi'|].
  split; [by etransitivity; [exact Gf|exact Hf']|]. split; [done|].
  intros va. rewrite Hl'. by rewrite Gl.
Qed.

Section Region.
Variables (addr size : Z).
Let n : Z := page_count size.
Hypothesis Hsize : 0 <= size.
Hypothesis Haddr : 0 <= addr /\ addr + 4096 * n < 2 ^ 64.
Hypothesis Hn : n <= 2 ^ 36.

Lemma region_test k : 0 <= k <= n -> (addr + 4096 * k <? addr + size) = (k <? n).
Proof. unfold n, page_count. intros Hk. lia_div. Qed.

Lemma region_next k : 0 <= k < n -> (addr + 4096 * k) +64 4096 = addr + 4096 * (k + 1).
Proof.
  intros Hk. change (2 ^ 64) with 18446744073709551616 in Haddr. rewrite u64_small by lia. lia.
Qed.

(** The pages of a region are distinct. *)
Lemma region_vpage j k :
  0 <= j < n -> 0 <= k < n -> vpage (addr + 4096 * j) = vpage (addr + 4096 * k) <-> j = k.
Proof.
  intros Hj Hk. unfold vpage. change (2 ^ 36) with 68719476736 in *.
  split; [|by intros ->]. intros H. lia_div.
Qed.

Lemma region_end : addr +64 size = addr + size.
Proof.
  change (2 ^ 64) with 18446744073709551616 in Haddr. apply u64_small.
  unfold n, page_count in Haddr. lia_div.
Qed.

Lemma pages_fuel_enough : n < Z.of_nat (pages_fuel size).
Proof. unfold pages_fuel, n, page_count. lia_div. Qed.

Definition free_from (k : Z) (tab : gmap (list Z) Z) (s : kstate) : Prop :=
  forall j, k <= j < n -> Z.testbit (leaf (k_mem s) tab (addr + 4096 * j)) 0 = false.

Section Map.
Variables (p_addr flags : Z).
Hypothesis Hp : 0 <= p_addr /\ p_addr + 4096 * n <= 2 ^ 64 - 4096.

Definition entries_from (k : Z) : list (Z * Z) :=
  (fun k => (addr + 4096 * k, Z.lor (p_addr + 4096 * k) flags)) <$> seqZ k (n - k).

Lemma entries_from_cons k :
  0 <= k < n -> entries_from k = (addr + 4096 * k, Z.lor (p_addr + 4096 * k) flags) :: entries_from (k + 1).
Proof.
  intros Hk. unfold entries_from. rewrite seqZ_cons by lia. rewrite fmap_cons.
  replace (Z.succ k) with (k + 1) by lia. by replace (Z.pred (n - k)) with (n - (k + 1)) by lia.
Qed.

Lemma map_loop_run fuel k tab s :
  vmm_inv tab s -> 0 <= k <= n -> n - k < Z.of_nat fuel ->
  let D := dom tab ∪ tables_of (entries_from k) in
  let run := map_pages_loop fuel root (addr + 4096 * k) (addr + size) (p_addr + 4096 * k) flags s in
  (free_from k tab s ->
   if vmm_room D s then
     exists tab' s', run = Done (tt, s') /\ vmm_inv tab' s' /\ vmm_frame s s' /\ dom tab' = D /\
       (forall va, leaf (k_mem s') tab' va = last_write (entries_from k) va (leaf (k_mem s) tab va))
   else run = Stopped NOMEM) /\
  (~ free_from k tab s -> exists r, run = Stopped r /\ (vmm_room D s = true -> r = REMAP)).
Proof.
  revert k tab s. induction fuel as [|fuel IH]; intros k tab s Hinv Hk Hf D run; [lia|].
  destruct (decide (k < n)) as [Hlt|Hge].
  2:{ assert (entries_from k = []) as Hnil by (unfold entries_from; by rewrite seqZ_nil by lia).
      assert (D = dom tab) as HD by (unfold D; rewrite Hnil; simpl; set_solver).
      assert (run = Done (tt, s)) as Hrun.
      { unfold run. cbn [map_pages_loop]. rewrite region_test by lia.
        by assert ((k <? n) = false) as -> by lia. }
      split.
      - intros _. rewrite HD, (vmm_room_inv _ _ Hinv). exists tab, s. rewrite Hnil. by split.
      - intros []. intros j Hj. lia. }
  assert (D = dom tab ∪ prefixes (addr + 4096 * k) ∪ tables_of (entries_from (k + 1))) as HD.
  { unfold D. rewrite entries_from_cons by lia. cbn [tables_of foldr fst]. set_solver. }
  pose proof (region_test k ltac:(lia)) as Htest. assert ((k <? n) = true) as Hkn by lia.
  rewrite Hkn in Htest.
  pose proof (map_step fuel tab s (addr + 4096 * k) (addr + size) (p_addr + 4096 * k) flags _
    Hinv ltac:(lia) eq_refl) as Hstep. fold run in Hstep.
  assert (vmm_room D s = true -> vmm_room (dom tab ∪ prefixes (addr + 4096 * k)) s = true) as Hmono.
  { apply vmm_room_mono. rewrite HD. set_solver. }
  destruct (vmm_room (dom tab ∪ prefixes (addr + 4096 * k)) s) eqn:R1.
  2:{ split; intros _.
      - destruct (vmm_room D s); [by specialize (Hmono eq_refl)|]. exact Hstep.
      - eexists. split; [exact Hstep|]. intros Hr. by specialize (Hmono Hr). }
  destruct (Z.testbit (leaf (k_mem s) tab (addr + 4096 * k)) 0) eqn:Eb.
  { split.
    - intros Hfree. rewrite Hfree in Eb by lia. done.
    - intros _. eexists. split; [exact Hstep|done]. }
  destruct Hstep as (tab1 & s1 & Hrun & Hi1 & Hf1 & Hd1 & Hl1).
  rewrite region_next in Hrun by lia. change (2 ^ 64) with 18446744073709551616 in Hp.
  rewrite (u64_small (p_addr + 4096 * k + 4096)) in Hrun by lia.
  replace (p_addr + 4096 * k + 4096) with (p_addr + 4096 * (k + 1)) in Hrun by lia.
  assert (free_from (k + 1) tab1 s1 <-> free_from k tab s) as Hfree.
  { split; intros H j Hj.
    - destruct (decide (j = k)) as [->|]; [done|]. rewrite <- (H j) by lia. rewrite Hl1.
      rewrite decide_False; [done|]. rewrite region_vpage by lia. lia.
    - rewrite Hl1, decide_False; [apply H; lia|]. rewrite region_vpage by lia. lia. }
  destruct (IH (k + 1) tab1 s1 Hi1 ltac:(lia) ltac:(lia)) as [IH1 IH2].
  rewrite Hd1, <- HD, (vmm_room_frame _ _ _ Hf1), Hfree, <- Hrun in IH1.
  rewrite Hd1, <- HD, (vmm_room_frame _ _ _ Hf1), Hfree, <- Hrun in IH2.
  split; [|exact IH2]. intros H. specialize (IH1 H).
  destruct (vmm_room D s); [|exact IH1]. destruct IH1 as (tab2 & s2 & G1 & G2 & G3 & G4 & G5).
  exists tab2, s2. split; [exact G1|]. split; [done|].
  split; [by etransitivity; [exact Hf1|exact G3]|]. split; [done|].
  intros va. rewrite G5, (entries_from_cons k) by lia. cbn [last_write foldl fst snd]. by rewrite Hl1.
Qed.
End Map.

(** [unmap_pages] as a writer of pages. *)
Lemma unmap_loop_writes fuel k :
  0 <= k <= n -> n - k < Z.of_nat fuel ->
  writes_pages (unmap_pages_loop fuel root (addr + 4096 * k) (addr + size))
    ((fun k => (addr + 4096 * k, VMM_PAGE_WRITE)) <$> seqZ k (n - k)).
Proof.
  revert k. induction fuel as [|fuel IH]; intros k Hk Hf; [lia|].
  destruct (decide (k < n)) as [Hlt|Hge].
  2:{ rewrite seqZ_nil by lia. cbn [unmap_pages_loop fmap list_fmap]. rewrite region_test by lia.
      assert ((k <? n) = false) as -> by lia. apply writes_pages_skip. }
  rewrite seqZ_cons by lia. rewrite fmap_cons.
  replace (Z.succ k) with (k + 1) by lia. replace (Z.pred (n - k)) with (n - (k + 1)) by lia.
  set (l := _ <$> seqZ (k + 1) _). specialize (IH (k + 1) ltac:(lia) ltac:(lia)). fold l in IH.
  intros tab s Hinv D.
  assert (D = dom tab ∪ prefixes (addr + 4096 * k) ∪ tables_of l) as HD.
  { unfold D. cbn [tables_of foldr fst]. set_solver. }
  pose proof (region_test k ltac:(lia)) as Htest. assert ((k <? n) = true) as Hkn by lia.
  rewrite Hkn in Htest.
  pose proof (unmap_step fuel tab s (addr + 4096 * k) (addr + size) _ Hinv ltac:(lia) eq_refl) as Hstep.
  assert (pb_room D s = true -> vmm_room (dom tab ∪ prefixes (addr + 4096 * k)) s = true) as Hmono.
  { apply vmm_room_mono. rewrite HD. set_solver. }
  destruct (vmm_room (dom tab ∪ prefixes (addr + 4096 * k)) s).
  2:{ destruct (pb_room D s); [by specialize (Hmono eq_refl)|]. exact Hstep. }
  destruct Hstep as (tab1 & s1 & Hrun & Hi1 & Hf1 & Hd1 & Hl1). rewrite region_next in Hrun by lia.
  specialize (IH tab1 s1 Hi1). cbv zeta in IH. rewrite Hd1, <- HD in IH.
  assert (pb_room D s1 = pb_room D s) as Hrf by exact (vmm_room_frame D s s1 Hf1).
  rewrite Hrf in IH. rewrite Hrun.
  destruct (pb_room D s); [|exact IH]. destruct IH as (tab2 & s2 & G1 & G2 & G3 & G4 & G5).
  exists tab2, s2. split; [exact G1|]. split; [done|].
  split; [by etransitivity; [exact Hf1|exact G3]|]. split; [done|].
  intros va. rewrite G5. cbn [last_write foldl fst snd pb_mem vmm_builder]. by rewrite Hl1.
Qed.
End Region.

(** ** Whole operations *)

(** The translation the processor makes with these tables. *)
Definition walk (s : kstate) (va : Z) : option Z :=
  mmu_walk KERNEL_VMB (k_mem s) (root - KERNEL_VMB) va.

Lemma walk_leaf tab s va : vmm_inv tab s -> walk s va = translate_entry (leaf (k_mem s) tab va) va.
Proof. intros H. unfold walk. by rewrite (mmu_walk_wf KERNEL_VMB LIM31 ltac:(lia) _ _ _ va (vi_wf _ _ H)). Qed.

Lemma translate_none e va : translate_entry e va = None <-> Z.testbit e 0 = false.
Proof. unfold translate_entry. by destruct (Z.testbit e 0). Qed.

(** A region that can be mapped: page-aligned, canonical, away from the end of
    the address space. *)
Record map_args (v p size perm : Z) : Prop := {
  ma_size : 0 <= size;
  ma_virt : canonical_run v (page_count size) /\ v + 4096 * page_count size < 2 ^ 64;
  ma_phys : 0 <= p /\ p mod 4096 = 0 /\ p + 4096 * page_count size <= 2 ^ 52;
  ma_perm : 0 <= perm < 256 /\ Z.testbit perm 0 = true;
}.

Lemma canonical_run_bounds v n :
  canonical_run v n -> 0 <= n -> 0 <= v /\ n <= 2 ^ 36.
Proof.
  intros [_ H] Hn. change (2 ^ 47) with 140737488355328 in H.
  change (2 ^ 64) with 18446744073709551616 in H. change (2 ^ 36) with 68719476736. lia.
Qed.

Definition map_tables (v size : Z) : gset (list Z) :=
  tables_of ((fun k => (v + 4096 * k, 0)) <$> seqZ 0 (page_count size)).

Lemma tables_of_fst l l' : l.*1 = l'.*1 -> tables_of l = tables_of l'.
Proof.
  revert l'. induction l as [|[a b] l IH]; intros [|[a' b'] l']; simpl; try done.
  intros [= -> H]. unfold tables_of in *. simpl. by rewrite (IH l' H).
Qed.

Lemma map_tables_entries v size (f : Z -> Z) :
  tables_of ((fun k => (v + 4096 * k, f k)) <$> seqZ 0 (page_count size)) = map_tables v size.
Proof. unfold map_tables. apply tables_of_fst. by rewrite <- !list_fmap_compose. Qed.

Definition in_run (v size va : Z) : Prop := v <= va < v + 4096 * page_count size.
#[local] Instance in_run_dec v size va : Decision (in_run v size va).
Proof. unfold in_run. apply _. Defined.

Definition all_unmapped (v size : Z) (s : kstate) : Prop :=
  forall j, 0 <= j < page_count size -> walk s (v + 4096 * j) = None.

Lemma map_pages_run tab s v p size perm :
  vmm_inv tab s -> map_args v p size perm ->
  let D := dom tab ∪ map_tables v size in
  (all_unmapped v size s ->
   if vmm_room D s then
     exists tab' s', map_pages root v p size perm s = Done (tt, s') /\ vmm_inv tab' s' /\
       vmm_frame s s' /\ dom tab' = D /\
       (forall va, canonical va ->
          walk s' va = if decide (in_run v size va) then Some (p + (va - v)) else walk s va)
   else map_pages root v p size perm s = Stopped NOMEM) /\
  (~ all_unmapped v size s -> exists r, map_pages root v p size perm s = Stopped r /\
     (vmm_room D s = true -> r = REMAP)).
Proof.
  intros Hinv [Hsz [Hv Hv'] [Hp0 [Hpa Hpl]] [Hperm Hbit]] D.
  assert (0 <= page_count size) as Hpc by (unfold page_count; lia_div).
  destruct (canonical_run_bounds _ _ Hv Hpc) as [Hv0 Hn].
  change (2 ^ 64) with 18446744073709551616 in *. change (2 ^ 52) with 4503599627370496 in *.
  assert (forall k, 0 <= k < page_count size -> p + 4096 * k < 4503599627370496) as Hpk by lia.
  pose proof (map_loop_run v size Hsz ltac:(change (2 ^ 64) with 18446744073709551616; lia) Hn
    p perm ltac:(change (2 ^ 64) with 18446744073709551616; lia) (pages_fuel size) 0 tab s Hinv
    ltac:(lia) ltac:(pose proof (pages_fuel_enough size); lia)) as Hrun. cbv zeta in Hrun.
  rewrite !Z.mul_0_r, !Z.add_0_r in Hrun.
  assert (entries_from v size p perm 0 =
    (fun k => (v + 4096 * k, Z.lor (p + 4096 * k) perm)) <$> seqZ 0 (page_count size)) as Hent
    by (unfold entries_from; by rewrite Z.sub_0_r).
  rewrite Hent, map_tables_entries in Hrun. fold D in Hrun.
  assert (map_pages root v p size perm s =
    map_pages_loop (pages_fuel size) root v (v + size) p perm s) as Heq.
  { unfold map_pages. rewrite (region_end v size) by (change (2 ^ 64) with 18446744073709551616; lia).
    by rewrite (u8_small perm) by lia. }
  rewrite <- Heq in Hrun.
  assert (free_from v size 0 tab s <-> all_unmapped v size s) as Hfree.
  { unfold free_from, all_unmapped. split; intros H j Hj.
    - rewrite (walk_leaf tab) by done. by apply translate_none, H.
    - apply (translate_none _ (v + 4096 * j)). rewrite <- (walk_leaf tab) by done. by apply H. }
  rewrite Hfree in Hrun. destruct Hrun as [H1 H2]. split; [|exact H2].
  intros Hun. specialize (H1 Hun). destruct (vmm_room D s); [|exact H1].
  destruct H1 as (tab' & s' & G1 & G2 & G3 & G4 & G5). exists tab', s'.
  split; [done|]. split; [done|]. split; [done|]. split; [done|].
  intros va Hc. rewrite (walk_leaf tab' s'), (walk_leaf tab s) by done. rewrite G5.
  set (f := fun k => if decide (0 <= k < page_count size) then p + 4096 * k + perm else 0).
  assert ((fun k => (v + 4096 * k, Z.lor (p + 4096 * k) perm)) <$> seqZ 0 (page_count size) =
    (fun k => (v + 4096 * k, f k)) <$> seqZ 0 (page_count size)) as ->.
  { apply list_fmap_ext. intros i k Hk. apply list_elem_of_lookup_2, elem_of_seqZ in Hk.
    unfold f. rewrite decide_True by lia. f_equal.
    apply (lor_aligned 12); change (2 ^ 12) with 4096; [lia|lia_div|lia]. }
  rewrite (last_write_run f v (page_count size)) by
    first [done | lia | (intros j; unfold f; change (2 ^ 64) with 18446744073709551616;
                         case_decide; [specialize (Hpk j)|]; lia)].
  destruct (decide (in_run v size va)) as [Hd|Hd]; unfold in_run in Hd;
    [rewrite decide_True by done|by rewrite decide_False].
  unfold f. rewrite decide_True by lia_div.
  apply translate_run; first [done | lia | apply Hv].
Qed.

Lemma unmap_pages_run tab s v size :
  vmm_inv tab s -> 0 <= size -> canonical_run v (page_count size) ->
  v + 4096 * page_count size < 2 ^ 64 ->
  let D := dom tab ∪ map_tables v size in
  if vmm_room D s then
    exists tab' s', unmap_pages root v size s = Done (tt, s') /\ vmm_inv tab' s' /\
      vmm_frame s s' /\ dom tab' = D /\
      (forall va, canonical va -> walk s' va = if decide (in_run v size va) then None else walk s va)
  else unmap_pages root v size s = Stopped NOMEM.
Proof.
  intros Hinv Hsz Hv Hv' D. assert (0 <= page_count size) as Hpc by (unfold page_count; lia_div).
  destruct (canonical_run_bounds _ _ Hv Hpc) as [Hv0 Hn].
  pose proof (unmap_loop_writes v size Hsz ltac:(lia) Hn (pages_fuel size) 0 ltac:(lia)
    ltac:(pose proof (pages_fuel_enough size); lia)) as Hrun.
  rewrite Z.mul_0_r, Z.add_0_r, Z.sub_0_r in Hrun.
  specialize (Hrun tab s Hinv). cbv zeta in Hrun. rewrite map_tables_entries in Hrun. fold D in Hrun.
  change (pb_room D s) with (vmm_room D s) in Hrun.
  assert (unmap_pages root v size s = unmap_pages_loop (pages_fuel size) root v (v + size) s) as ->.
  { unfold unmap_pages. by rewrite (region_end v size) by lia. }
  destruct (vmm_room D s); [|exact Hrun].
  destruct Hrun as (tab' & s' & G1 & G2 & G3 & G4 & G5). exists tab', s'.
  split; [done|]. split; [done|]. split; [done|]. split; [done|].
  intros va Hc. rewrite (walk_leaf tab' s'), (walk_leaf tab s) by done.
  change (pb_mem s') with (k_mem s') in G5. rewrite G5.
  rewrite (last_write_run (fun _ => VMM_PAGE_WRITE) v (page_count size)) by (done || lia).
  destruct (decide (in_run v size va)) as [Hd|Hd]; unfold in_run in Hd;
    [by rewrite decide_True|by rewrite decide_False].
Qed.

(** Loading the page directory changes the processor, the record of the
    current directory and the log; if the directory does not map the running
    code, that is its end. *)
Definition swapped (dir : Z) (s : kstate) : kstate :=
  KState (k_mem s) (k_heap s) (k_pmm s) (Vmm (m_init (k_vmm s)) (pdir_kernel (k_vmm s)) dir) (k_sched s) (k_drivers s)
    (Cpu true (cpu_status (k_cpu s)) (MEM_VIRT_TO_PHYS dir) (cpu_rsp (k_cpu s)) (cpu_regs (k_cpu s)) (cpu_rip (k_cpu s)))
    (k_kbd s) (k_out s)
    (k_log s ++ [KLogCall "vmm" "swap page dir: %p phys addr %p
" [KNum dir; KNum (MEM_VIRT_TO_PHYS dir)]]).

Lemma swap_run dir s :
  swap_page_directory dir s = if code_mapped (swapped dir s) then Done (tt, swapped dir s) else Stopped page_fault.
Proof.
  unfold swap_page_directory. rewrite klog_bind. unfold cli. rewrite set_if_bind, modify_bind.
  unfold mbind, ST_bind. rewrite write_cr3_run.
  match goal with |- context [code_mapped (set_cr3 ?a ?t)] => change (code_mapped (set_cr3 a t)) with (code_mapped (swapped dir s)) end.
  by destruct (code_mapped (swapped dir s)).
Qed.

(** The tables map the running code. *)
Definition maps_code (s : kstate) : Prop :=
  canonical (cpu_rip (k_cpu s)) /\ walk s (cpu_rip (k_cpu s)) <> None.

(** The VMM in operation: the current directory is the root of the tables, and
    maps the code that runs. *)
Definition vmm_running (tab : gmap (list Z) Z) (s : kstate) : Prop :=
  vmm_inv tab s /\ pdir_current (k_vmm s) = root /\ maps_code s.

Lemma vmm_inv_swap tab s (v : vmm_state) c log :
  vmm_inv tab s ->
  vmm_inv tab (KState (k_mem s) (k_heap s) (k_pmm s) v (k_sched s) (k_drivers s) c (k_kbd s) (k_out s) log).
Proof. intros [[G1 G2 G3 G4] H2 H3 H4 H5 H6 H7 H8]. by split. Qed.

Lemma root_phys tab s : vmm_inv tab s -> MEM_VIRT_TO_PHYS root = root - KERNEL_VMB.
Proof.
  intros H. destruct (table_address _ _ _ _ H (pt_root _ _ _ _ _ (vi_wf _ _ H))) as (H1 & H2 & _).
  apply virt_to_phys_high. unfold KERNEL_VMB in *. lia.
Qed.

Lemma swapped_mapped tab s : vmm_inv tab s -> code_mapped (swapped root s) = true <-> maps_code s.
Proof.
  intros Hi. unfold code_mapped, maps_code, cr3_walk, walk. cbn [swapped k_cpu k_mem cpu_rip cpu_cr3].
  rewrite (root_phys _ _ Hi), andb_true_iff, bool_decide_eq_true.
  destruct (mmu_walk KERNEL_VMB (k_mem s) (root - KERNEL_VMB) (cpu_rip (k_cpu s))); intuition (done || congruence).
Qed.

(** What [map_direct] and [unmap] do after the tables are written. *)
Definition finish {A} (r : A) : ST kstate A := v' ← gets k_vmm; swap_page_directory (pdir_current v') ;; mret r.

Lemma finish_run {A} (r : A) tab s :
  vmm_inv tab s -> pdir_current (k_vmm s) = root -> maps_code s ->
  exists s', finish r s = Done (r, s') /\
    k_mem s' = k_mem s /\ cpu_cr3 (k_cpu s') = root - KERNEL_VMB /\ cpu_rip (k_cpu s') = cpu_rip (k_cpu s) /\
    vmm_running tab s' /\ (forall D, vmm_room D s' = vmm_room D s).
Proof.
  intros Hi Hroot Hcode. unfold finish. rewrite gets_bind, Hroot. pose proof (swap_run root s) as Hs.
  rewrite (proj2 (swapped_mapped tab s Hi) Hcode) in Hs.
  rewrite (bind_done _ _ _ _ _ Hs). exists (swapped root s). split; [reflexivity|].
  split; [done|]. split; [by apply (root_phys tab s)|]. split; [done|]. split; [|done].
  split; [by apply vmm_inv_swap|done].
Qed.

Lemma finish_fault {A} (r : A) tab s :
  vmm_inv tab s -> pdir_current (k_vmm s) = root -> ~ maps_code s -> finish r s = Stopped page_fault.
Proof.
  intros Hi Hroot Hcode. unfold finish. rewrite gets_bind, Hroot. apply bind_stopped. rewrite swap_run.
  destruct (code_mapped (swapped root s)) eqn:E; [|done]. by apply (swapped_mapped tab s Hi) in E.
Qed.

Lemma frame_vmm s s' : vmm_frame s s' -> k_vmm s' = k_vmm s.
Proof. intros [_ _ [_ H _ _ _ _]]. exact H. Qed.
Lemma frame_rip s s' : vmm_frame s s' -> cpu_rip (k_cpu s') = cpu_rip (k_cpu s).
Proof. intros [_ _ [_ _ _ _ _ (_ & _ & H) _]]. exact H. Qed.

(** The state after an operation on the tables. *)
Record mapped_state (tab : gmap (list Z) Z) (s s' : kstate) : Prop := {
  ms_running : vmm_running tab s';
  ms_cr3 : cpu_cr3 (k_cpu s') = root - KERNEL_VMB;
  ms_code : cpu_rip (k_cpu s') = cpu_rip (k_cpu s);
  ms_keep : forall a, keep a -> mget (k_mem s') a = mget (k_mem s) a;
  ms_room : forall D, vmm_room D s' = vmm_room D s;
}.

Lemma map_direct_run tab s v p size perm flags :
  vmm_running tab s -> map_args v p size perm ->
  let D := dom tab ∪ map_tables v size in
  (all_unmapped v size s ->
   if vmm_room D s then
     exists tab' s', vmm_map_direct v p size perm flags s = Done (v, s') /\
       mapped_state tab' s s' /\ dom tab' = D /\
       (forall va, canonical va ->
          walk s' va = if decide (in_run v size va) then Some (p + (va - v)) else walk s va)
   else vmm_map_direct v p size perm flags s = Stopped NOMEM) /\
  (~ all_unmapped v size s -> exists r, vmm_map_direct v p size perm flags s = Stopped r /\
     (vmm_room D s = true -> r = REMAP)).
Proof.
  intros (Hinv & Hroot & Hcode) Hargs D. destruct (map_pages_run tab s v p size perm Hinv Hargs) as [H1 H2].
  fold D in H1, H2. unfold vmm_map_direct. rewrite gets_bind, Hroot. split.
  - intros Hun. specialize (H1 Hun). destruct (vmm_room D s); [|by apply bind_stopped].
    destruct H1 as (tab' & s1 & G1 & G2 & G3 & G4 & G5). rewrite (bind_done _ _ _ _ _ G1). fold (finish v).
    assert (maps_code s1) as Hcode1.
    { destruct Hcode as [Hc1 Hc2]. unfold maps_code. rewrite (frame_rip _ _ G3). split; [done|].
      rewrite G5 by done. by case_decide. }
    destruct (finish_run v tab' s1) as (s' & F1 & F2 & F3 & F4 & F5 & F6);
      [done|by rewrite (frame_vmm _ _ G3)|done|].
    exists tab', s'. split; [done|]. split; [|split; [done|]].
    + split; [done|done|by rewrite F4, (frame_rip _ _ G3)| |].
      * intros a Ha. rewrite F2. by apply G3.
      * intros D'. by rewrite F6, (vmm_room_frame _ _ _ G3).
    + intros va Hc. rewrite <- G5 by done. unfold walk. by rewrite F2.
  - intros Hn. destruct (H2 Hn) as (r & G1 & G2). exists r. split; [by apply bind_stopped|done].
Qed.

(** No address of an unmapped region translates, so the running code is not in it. *)
Lemma unmapped_walk tab s v size va :
  vmm_inv tab s -> canonical_run v (page_count size) -> all_unmapped v size s ->
  canonical va -> in_run v size va -> walk s va = None.
Proof.
  intros Hinv Hv Hun Hc Hd. unfold in_run in Hd.
  assert (vpage va = vpage (v + 4096 * ((va - v) / 4096))) as Hpage.
  { apply vpage_canonical; [done|apply (canonical_run_in v (page_count size)); [done|lia_div]|].
    destruct Hv as [Hv _]. lia_div. }
  specialize (Hun ((va - v) / 4096) ltac:(lia_div)).
  rewrite (walk_leaf tab s) in Hun |- * by done. apply translate_none in Hun. apply translate_none.
  unfold leaf in *. apply vpage_eq in Hpage as (-> & -> & -> & ->). exact Hun.
Qed.
Lemma code_not_in_region tab s v size :
  vmm_running tab s -> canonical_run v (page_count size) -> all_unmapped v size s ->
  ~ in_run v size (cpu_rip (k_cpu s)).
Proof. intros (Hinv & _ & Hc & Hw) Hv Hun Hin. by apply Hw, (unmapped_walk tab s v size). Qed.

(** The code that unmaps itself does not go on. *)
Lemma unmap_run tab s v size :
  vmm_running tab s -> 0 <= size -> canonical_run v (page_count size) ->
  v + 4096 * page_count size < 2 ^ 64 ->
  let D := dom tab ∪ map_tables v size in
  if vmm_room D s then
    if decide (in_run v size (cpu_rip (k_cpu s))) then vmm_unmap v size s = Stopped page_fault
    else exists tab' s', vmm_unmap v size s = Done (0, s') /\ mapped_state tab' s s' /\ dom tab' = D /\
      (forall va, canonical va -> walk s' va = if decide (in_run v size va) then None else walk s va)
  else vmm_unmap v size s = Stopped NOMEM.
Proof.
  intros (Hinv & Hroot & [Hc1 Hc2]) Hsz Hv Hv' D. pose proof (unmap_pages_run tab s v size Hinv Hsz Hv Hv') as H.
  cbv zeta in H. fold D in H. unfold vmm_unmap. rewrite gets_bind, Hroot.
  destruct (vmm_room D s); [|by apply bind_stopped].
  destruct H as (tab' & s1 & G1 & G2 & G3 & G4 & G5). rewrite (bind_done _ _ _ _ _ G1). fold (finish 0).
  pose proof (G5 _ Hc1) as Hw. rewrite <- (frame_rip _ _ G3) in Hw at 1.
  case_decide as Hd.
  { apply (finish_fault 0 tab'); [done|by rewrite (frame_vmm _ _ G3)|]. by intros [_ Hn]. }
  destruct (finish_run 0 tab' s1) as (s' & F1 & F2 & F3 & F4 & F5 & F6);
    [done|by rewrite (frame_vmm _ _ G3)| |].
  { split; [by rewrite (frame_rip _ _ G3)|by rewrite Hw]. }
  exists tab', s'. split; [done|]. split; [|split; [done|]].
  - split; [done|done|by rewrite F4, (frame_rip _ _ G3)| |].
    + intros a Ha. rewrite F2. by apply G3.
    + intros D'. by rewrite F6, (vmm_room_frame _ _ _ G3).
  - intros va Hc. rewrite <- G5 by done. unfold walk. by rewrite F2.
Qed.

End Tables.

(** ** Initialisation *)

Definition below_heap (s : kstate) (a : Z) : Prop :=
  a < earlyAllocBase (k_heap s) /\ ~ bitmap_byte s a.

(** [init_kernel_page_directory] up to the loading of the directory. *)
Definition new_directory : ST kstate Z :=
  dir ← kmalloc_aligned 4096 4096;
  modify (fun s => let v := k_vmm s in set_kvmm (Vmm (m_init v) dir (pdir_current v)) s) ;;
  modify (fun s => set_kmem (memset (k_mem s) dir 0 4096) s) ;;
  modify (fun s => let v := k_vmm s in set_kvmm (Vmm (m_init v) (pdir_kernel v) dir) s) ;;
  mret dir.

Lemma init_directory_parts s :
  init_kernel_page_directory s =
    (dir ← new_directory; swap_page_directory dir ;; klog "vmm" "Switched to Kernel Page Table 0x%016p" [KNum dir]) s.
Proof.
  unfold init_kernel_page_directory, new_directory, mbind, ST_bind.
  by destruct (kmalloc_aligned 4096 4096 s) as [[dir s']|r].
Qed.

Lemma new_directory_run s :
  kheap_ok s -> (forall a, bitmap_byte s a -> a < earlyAllocBase (k_heap s)) ->
  earlyAllocLimit (k_heap s) + 8192 < 2 ^ 64 ->
  let dir := kalloc_at s 4096 in
  if dir + 4096 <=? earlyAllocLimit (k_heap s) then
    exists s', new_directory s = Done (dir, s') /\
      vmm_inv (below_heap s) dir (dir + 4096) 1 {[ [] := dir ]} s' /\
      pdir_current (k_vmm s') = dir /\ (forall va, walk dir s' va = None) /\
      cpu_rip (k_cpu s') = cpu_rip (k_cpu s) /\ earlyAllocLimit (k_heap s') = earlyAllocLimit (k_heap s)
  else new_directory s = Stopped NOMEM.
Proof.
  intros Hok Hbm Hov dir. change (2 ^ 64) with 18446744073709551616 in Hov.
  pose proof (kalloc_at_spec s 4096 ltac:(lia)) as [Hd Hdal]. fold dir in Hd, Hdal.
  pose proof (kh_range _ Hok) as Hr. unfold KERNEL_VMB in Hr.
  pose proof (kmalloc_aligned_run s 4096 4096 Hok ltac:(lia)
    ltac:(change (2 ^ 63) with 9223372036854775808; lia)
    ltac:(change (2 ^ 64) with 18446744073709551616; simpl; lia)) as Hrun. cbv zeta in Hrun. fold dir in Hrun.
  unfold new_directory. destruct (dir + 4096 <=? earlyAllocLimit (k_heap s)) eqn:E; [|by apply bind_stopped].
  destruct Hrun as (s2 & Hrun & Ha). rewrite (bind_done _ _ _ _ _ Hrun), !modify_bind.
  pose proof (allocated_ok s 4096 4096 dir s2 Hok eq_refl ltac:(lia) ltac:(lia) ltac:(simpl; lia) Ha) as Hok2.
  destruct Ha as [Hheap _ _ _ [Hpmm _ _ _ _ (_ & _ & Hrip) _]].
  assert (table_ok KERNEL_VMB LIM31 dir) as Htok by (unfold table_ok, KERNEL_VMB; lia_div).
  destruct (pt_empty KERNEL_VMB LIM31 (memset (k_mem s2) dir 0 4096) dir Htok) as [Hwf Hleaf].
  { intros i Hi. apply (memset_zero_load 8); lia. }
  assert (round_up (dir + 4096) 4096 = dir + 4096) as Hru.
  { unfold round_up. by assert ((dir + 4096) mod 4096 = 0) as -> by lia_div. }
  eexists. split; [reflexivity|].
  match goal with |- vmm_inv _ _ _ _ _ ?u /\ _ => set (s3 := u) end.
  assert (k_heap s3 = k_heap s2 /\ k_pmm s3 = k_pmm s2 /\ k_mem s3 = memset (k_mem s2) dir 0 4096) as (E1 & E2 & E3) by done.
  assert (vmm_inv (below_heap s) dir (dir + 4096) 1 {[ [] := dir ]} s3) as Hinv.
  { split; unfold kalloc_at, bitmap_byte; rewrite ?E1, ?E2, ?E3, ?Hheap, ?Hpmm; cbn [earlyAllocLimit earlyAllocBase].
    - destruct Hok2 as [G1 G2 G3 G4]. unfold bitmap_byte in G4. rewrite Hpmm in G4.
      rewrite Hheap in G1, G2, G3, G4. split; unfold bitmap_byte; rewrite E1, ?E2, Hheap, ?Hpmm; [exact G1|exact G2|exact G3|exact G4].
    - change (2 ^ 64) with 18446744073709551616. lia.
    - exact Hwf.
    - rewrite map_size_singleton, Hru. lia.
    - rewrite Hru. lia.
    - intros q t [<- <-]%lookup_singleton_Some. split; [lia|]. intros a Hab. specialize (Hbm a Hab). lia.
    - intros a Hab. specialize (Hbm a Hab). lia.
    - intros a [Hka Hkb]. split; [lia|]. split; [exact Hkb|]. intros q t [_ <-]%lookup_singleton_Some. lia. }
  split; [exact Hinv|]. split; [done|]. split; [|split; [exact Hrip|by rewrite E1, Hheap]].
  intros va. rewrite (walk_leaf _ _ _ _ _ _ va Hinv), E3. by rewrite Hleaf.
Qed.

(** [vmm::init] loads the new directory while it is empty: the next instruction
    is not mapped. *)
Lemma vmm_init_run s :
  kheap_ok s -> m_init (k_vmm s) = false ->
  (forall a, bitmap_byte s a -> a < earlyAllocBase (k_heap s)) ->
  earlyAllocLimit (k_heap s) + 8192 < 2 ^ 64 ->
  vmm_init s = Stopped (if kalloc_at s 4096 + 4096 <=? earlyAllocLimit (k_heap s) then page_fault else NOMEM).
Proof.
  intros Hok Hinit Hbm Hov. unfold vmm_init. rewrite gets_bind, Hinit, modify_bind.
  match goal with |- context [set_kvmm ?v s] => set (s1 := set_kvmm v s) end.
  assert (kheap_ok s1) as Hok1 by (destruct Hok; by split).
  pose proof (new_directory_run s1 Hok1 Hbm Hov) as H. cbv zeta in H.
  change (kalloc_at s1 4096) with (kalloc_at s 4096) in H. change (k_heap s1) with (k_heap s) in H.
  rewrite init_directory_parts. destruct (_ <=? _); [|by apply bind_stopped].
  destruct H as (s2 & H & Hinv & Hcur & Hw & _). rewrite (bind_done _ _ _ _ _ H). apply bind_stopped.
  rewrite swap_run. destruct (code_mapped _) eqn:E; [|done].
  by apply (swapped_mapped _ _ _ _ _ _ Hinv) in E as [_ []].
Qed.

(** A directory that maps a region before it is loaded, as the line of
    [init_kernel_page_directory] that is commented out would have it. *)
Definition mapped_directory (v p sz : Z) : ST kstate unit :=
  dir ← new_directory; map_pages dir v p sz 3 ;; swap_page_directory dir.

Lemma mapped_directory_run s v p sz :
  kheap_ok s -> (forall a, bitmap_byte s a -> a < earlyAllocBase (k_heap s)) ->
  earlyAllocLimit (k_heap s) + 8192 < 2 ^ 64 -> map_args v p sz 3 ->
  canonical (cpu_rip (k_cpu s)) -> in_run v sz (cpu_rip (k_cpu s)) ->
  let dir := kalloc_at s 4096 in
  let D := {[ [] ]} ∪ map_tables v sz in
  dir + 4096 * Z.of_nat (size D) <= earlyAllocLimit (k_heap s) ->
  exists tab s', mapped_directory v p sz s = Done (tt, s') /\
    vmm_running (below_heap s) dir (dir + 4096) 1 tab s' /\ dom tab = D /\
    (forall va, canonical va -> walk dir s' va = if decide (in_run v sz va) then Some (p + (va - v)) else None).
Proof.
  intros Hok Hbm Hov Hargs Hc Hin dir D Hroom. pose proof (new_directory_run s Hok Hbm Hov) as H. cbv zeta in H. fold dir in H.
  assert (size D <> 0%nat) as Hne.
  { intros H0%size_empty_inv. assert ([] ∈ D) as Hd by (unfold D; set_solver). rewrite H0 in Hd. set_solver. }
  rewrite (proj2 (Z.leb_le _ _)) in H by lia. destruct H as (s1 & H1 & Hinv & Hcur & Hw & Hrip & Hlim).
  destruct (map_pages_run _ _ _ _ _ s1 v p sz 3 Hinv Hargs) as [H2 _]. specialize (H2 (fun j _ => Hw _)).
  rewrite dom_singleton_L in H2. fold D in H2.
  assert (vmm_room (dir + 4096) 1 D s1 = true) as Hr by (unfold vmm_room; rewrite Hlim; apply Z.leb_le; lia).
  rewrite Hr in H2. destruct H2 as (tab & s2 & H2 & Hinv2 & Hf & Hd & Hw2).
  assert (forall va, canonical va -> walk dir s2 va = if decide (in_run v sz va) then Some (p + (va - v)) else None) as Hw3
    by (intros va Hva; by rewrite Hw2, Hw).
  assert (maps_code dir s2) as Hcode.
  { unfold maps_code. rewrite (frame_rip _ _ _ Hf), Hrip. split; [done|]. rewrite Hw3, decide_True by done. discriminate. }
  exists tab, (swapped dir s2). unfold mapped_directory. rewrite (bind_done _ _ _ _ _ H1), (bind_done _ _ _ _ _ H2), swap_run.
  rewrite (proj2 (swapped_mapped _ _ _ _ tab s2 Hinv2) Hcode). split; [done|]. split; [|done].
  split; [by apply vmm_inv_swap|done].
Qed.

Lemma memmap_index_run b v size i s :
  0 <= i -> 0 <= v /\ v + size < 2 ^ 64 ->
  memmap_index (Memmap b v size) i s =
    if i <? size then Done (v + i, s) else Stopped (AssertFailed "idx < sz").
Proof.
  change (2 ^ 64) with 18446744073709551616. intros Hi Hv. unfold memmap_index. cbn [mm_sz mm_addr].
  destruct (i <? size) eqn:E; [|done]. rewrite assert_bind by done. by rewrite u64_small by lia.
Qed.

(** ** The theorems *)

(** C4. [vmm::map_direct] on running page tables: if no page of the region is mapped
    and the heap has room for the tables it needs, it returns, and the
    processor translates exactly the region's addresses by displacement to the
    physical address and every other address as before; bytes kept apart from
    the tables do not change.  Mapping a mapped page panics, and so does a full
    heap. *)
Theorem vmm_map_direct_correct (keep : Z -> Prop) (root c0 n0 : Z) (tab : gmap (list Z) Z)
    (s : kstate) (v p size perm flags : Z)
    (Hrun : vmm_running keep root c0 n0 tab s) (Hargs : map_args v p size perm) :
  let D := dom tab ∪ map_tables v size in
  (all_unmapped root v size s ->
   if vmm_room c0 n0 D s then
     exists tab' s', vmm_map_direct v p size perm flags s = Done (v, s') /\
       mapped_state keep root c0 n0 tab' s s' /\
       (forall va, canonical va -> walk root s' va =
          if decide (v <= va < v + 4096 * page_count size) then Some (p + (va - v)) else walk root s va)
   else vmm_map_direct v p size perm flags s = Stopped NOMEM) /\
  (~ all_unmapped root v size s -> exists r, vmm_map_direct v p size perm flags s = Stopped r /\
     (vmm_room c0 n0 D s = true -> r = REMAP)).
Proof.
  intros D. destruct (map_direct_run keep root c0 n0 tab s v p size perm flags Hrun Hargs) as [H1 H2].
  split; [|exact H2]. intros Hun. specialize (H1 Hun). fold D in H1.
  destruct (vmm_room c0 n0 D s); [|exact H1].
  destruct H1 as (tab' & s' & G1 & G2 & _ & G3). exists tab', s'. split; [done|]. split; [done|].
  intros va Hc. rewrite (G3 va Hc). unfold in_run. repeat case_decide; tauto.
Qed.

(** C21. A [memmap] object maps in its constructor and unmaps in its destructor:
    while it lives, element [i] of it is the byte at physical address [p + i],
    and an index out of range fails its assertion; after its destruction every
    address translates as before, and the same region can be mapped again. *)
Theorem memmap_roundtrip (keep : Z -> Prop) (root c0 n0 : Z) (tab : gmap (list Z) Z)
    (s : kstate) (v p size perm flags : Z)
    (Hrun : vmm_running keep root c0 n0 tab s) (Hargs : map_args v p size perm)
    (Hun : all_unmapped root v size s)
    (Hroom : vmm_room c0 n0 (dom tab ∪ map_tables v size) s = true) :
  exists mm s1 s2 s3,
    memmap_direct p v size perm flags s = Done (mm, s1) /\
    memmap_get mm = v /\
    (forall i, 0 <= i -> memmap_index mm i s1 =
       if i <? size then Done (v + i, s1) else Stopped (AssertFailed "idx < sz")) /\
    (forall i, 0 <= i < 4096 * page_count size -> walk root s1 (v + i) = Some (p + i)) /\
    memmap_destroy mm s1 = Done (tt, s2) /\
    (forall va, canonical va -> walk root s2 va = walk root s va) /\
    memmap_direct p v size perm flags s2 = Done (mm, s3) /\
    (forall a, keep a -> mget (k_mem s3) a = mget (k_mem s) a).
Proof.
  pose proof Hargs as [Hsz [Hv Hv'] Hp Hperm]. set (D := dom tab ∪ map_tables v size) in *.
  destruct (map_direct_run keep root c0 n0 tab s v p size perm flags Hrun Hargs) as [H1 _].
  specialize (H1 Hun). fold D in H1. rewrite Hroom in H1.
  destruct H1 as (tab1 & s1 & G1 & [M1 _ C1 K1 R1] & D1 & W1).
  pose proof (unmap_run keep root c0 n0 tab1 s1 v size M1 Hsz Hv Hv') as H2. cbv zeta in H2.
  pose proof (code_not_in_region _ _ _ _ tab s v size Hrun Hv Hun) as Hout. rewrite <- C1 in Hout. rewrite (decide_False _ _ Hout) in H2.
  assert (dom tab1 ∪ map_tables v size = D) as HD by (rewrite D1; unfold D; set_solver).
  rewrite HD, R1, Hroom in H2. destruct H2 as (tab2 & s2 & G2 & [M2 _ _ K2 R2] & D2 & W2).
  assert (forall j, 0 <= j < page_count size -> canonical (v + 4096 * j)) as Hcan.
  { intros j Hj. apply (canonical_run_in v (page_count size)); [done|lia]. }
  assert (forall j, 0 <= j < page_count size -> walk root s2 (v + 4096 * j) = None) as Hun2.
  { intros j Hj. rewrite W2 by auto. apply decide_True. unfold in_run. lia. }
  destruct (map_direct_run keep root c0 n0 tab2 s2 v p size perm flags M2 Hargs) as [H3 _].
  specialize (H3 Hun2). assert (dom tab2 ∪ map_tables v size = D) as HD2 by (rewrite D2; unfold D; set_solver).
  rewrite HD2, R2, R1, Hroom in H3. destruct H3 as (tab3 & s3 & G3 & [_ _ _ K3 _] & _ & _).
  exists (Memmap false v size), s1, s2, s3. unfold memmap_direct, memmap_destroy.
  rewrite (bind_done _ _ _ _ _ G1), (bind_done _ _ _ _ _ G3). cbn [mm_addr mm_sz].
  rewrite (bind_done _ _ _ _ _ G2).
  split; [done|]. split; [done|]. split; [|split; [|split; [done|split; [|split; [done|]]]]].
  - intros i Hi. apply memmap_index_run; [done|].
    clear - Hv Hv' Hsz. destruct Hv as [_ Hv]. split; [change (2 ^ 64) with 18446744073709551616 in *; change (2 ^ 47) with 140737488355328 in *; lia|].
    assert (size <= 4096 * page_count size) by (unfold page_count; lia_div). lia.
  - intros i Hi. rewrite W1 by (eapply canonical_run_in; [done|lia]). unfold in_run.
    rewrite decide_True by lia. f_equal. lia.
  - intros va Hc. rewrite W2, W1 by done. case_decide as Hd; [|done]. symmetry.
    by apply (unmapped_walk keep root c0 n0 tab s v size); [apply Hrun|..].
  - intros a Ha. by rewrite K3, K2, K1.
Qed.

(** [vmm::unmap]: exactly the region's pages lose their translation, even when
    they had none; a full heap stops it, and code that is in the region faults
    when the tables are loaded. *)
Theorem vmm_unmap_correct (keep : Z -> Prop) (root c0 n0 : Z) (tab : gmap (list Z) Z)
    (s : kstate) (v size : Z)
    (Hrun : vmm_running keep root c0 n0 tab s) (Hsize : 0 <= size)
    (Hv : canonical_run v (page_count size)) (Hend : v + 4096 * page_count size < 2 ^ 64) :
  if vmm_room c0 n0 (dom tab ∪ map_tables v size) s then
    if decide (v <= cpu_rip (k_cpu s) < v + 4096 * page_count size) then vmm_unmap v size s = Stopped page_fault
    else exists tab' s', vmm_unmap v size s = Done (0, s') /\ mapped_state keep root c0 n0 tab' s s' /\
      (forall va, canonical va -> walk root s' va =
         if decide (v <= va < v + 4096 * page_count size) then None else walk root s va)
  else vmm_unmap v size s = Stopped NOMEM.
Proof.
  pose proof (unmap_run keep root c0 n0 tab s v size Hrun Hsize Hv Hend) as H. cbv zeta in H.
  destruct (vmm_room _ _ _ s); [|exact H]. 
  destruct (decide (in_run v size (cpu_rip (k_cpu s)))) as [Hd|Hd]; unfold in_run in Hd;
    [by rewrite decide_True|rewrite decide_False by done].
  destruct H as (tab' & s' & G1 & G2 & _ & G3). exists tab', s'. split; [done|]. split; [done|].
  intros va Hc. rewrite (G3 va Hc). unfold in_run. repeat case_decide; tauto.
Qed.

(** C26. [vmm::init] loads its new page directory while it is empty.  No address
    translates any more, not that of the next instruction, nor any of the
    interrupt table or the stack: the kernel ends there with a page fault that
    it cannot handle. *)
Theorem vmm_init_maps_nothing (s : kstate)
    (Hok : kheap_ok s) (Hinit : m_init (k_vmm s) = false)
    (Hbm : forall a, bitmap_byte s a -> a < earlyAllocBase (k_heap s))
    (Hover : earlyAllocLimit (k_heap s) + 8192 < 2 ^ 64) :
  let dir := kalloc_at s 4096 in
  if dir + 4096 <=? earlyAllocLimit (k_heap s) then
    vmm_init s = Stopped page_fault /\
    exists s', new_directory s = Done (dir, s') /\
      forall va, mmu_walk KERNEL_VMB (k_mem s') (dir - KERNEL_VMB) va = None
  else vmm_init s = Stopped NOMEM.
Proof.
  intros dir. pose proof (vmm_init_run s Hok Hinit Hbm Hover) as H. pose proof (new_directory_run s Hok Hbm Hover) as H2.
  cbv zeta in H2. fold dir in H, H2. destruct (_ <=? _); [|exact H].
  destruct H2 as (s' & G1 & _ & _ & G2 & _). split; [exact H|]. by exists s'.
Qed.

(** A kernel of 64 pages, the first 16 in use, with the bitmap at page 1 and the
    heap from page 2 to page 15, in full mode. *)
Definition vmm_sample : kstate :=
  set_kcpu (Cpu true 0 0 0 (replicate 15 0) (KERNEL_VMB + 512))
    (sample_kstate (poke ∅ (KERNEL_VMB + 4096) [255; 255])
      (KHeap (KERNEL_VMB + 8192) (KERNEL_VMB + 65535) Full)
      (Pmm (Bitset (KERNEL_VMB + 4096) 64) true 64 0 0)).
Definition vmm_sample_root : Z := KERNEL_VMB + 8192.
(** Its 16 pages mapped. *)
Definition vmm_sample_running : kstate :=
  match mapped_directory KERNEL_VMB 0 65536 vmm_sample with Done (_, s) => s | Stopped _ => vmm_sample end.
Definition vmm_sample_tables : gset (list Z) := {[ [] ]} ∪ map_tables KERNEL_VMB 65536.

Lemma vmm_sample_facts :
  kheap_ok vmm_sample /\ (forall a, bitmap_byte vmm_sample a -> a < earlyAllocBase (k_heap vmm_sample)) /\
  earlyAllocLimit (k_heap vmm_sample) + 8192 < 2 ^ 64.
Proof.
  assert (forall a, bitmap_byte vmm_sample a -> a < earlyAllocBase (k_heap vmm_sample)) as Hb.
  { intros a Ha. change (KERNEL_VMB + 4096 <= a < KERNEL_VMB + 4096 + 9) in Ha.
    change (a < KERNEL_VMB + 8192). lia. }
  split; [|split; [exact Hb|vm_compute; reflexivity]]. split.
  - discriminate.
  - vm_compute. split; discriminate.
  - vm_compute. reflexivity.
  - intros _. split; [vm_compute; reflexivity|exact Hb].
Qed.

Lemma vmm_sample_map_args : map_args KERNEL_VMB 0 65536 3.
Proof.
  split; [lia| | |]; vm_compute; repeat split; try (right; split); discriminate || reflexivity.
Qed.

Lemma vmm_sample_ready : exists tab,
  vmm_running (below_heap vmm_sample) vmm_sample_root (vmm_sample_root + 4096) 1 tab vmm_sample_running /\
  dom tab = vmm_sample_tables /\
  (forall va, canonical va -> walk vmm_sample_root vmm_sample_running va =
     if decide (in_run KERNEL_VMB 65536 va) then Some (0 + (va - KERNEL_VMB)) else None).
Proof.
  destruct vmm_sample_facts as (H1 & H2 & H3).
  destruct (mapped_directory_run vmm_sample KERNEL_VMB 0 65536 H1 H2 H3 vmm_sample_map_args) as (tab & s' & G1 & G2 & G3 & G4).
  - right. vm_compute. split; [discriminate|reflexivity].
  - vm_compute. split; [discriminate|reflexivity].
  - vm_compute. discriminate.
  - change (kalloc_at vmm_sample 4096) with vmm_sample_root in G2, G4.
    assert (vmm_sample_running = s') as -> by (unfold vmm_sample_running; by rewrite G1).
    exists tab. split; [exact G2|]. split; [exact G3|exact G4].
Qed.

Lemma vmm_sample_args : map_args 4194304 65536 8192 3.
Proof. split; [lia|vm_compute; repeat split; try (left; split); discriminate|vm_compute; repeat split; discriminate|
  vm_compute; repeat split; discriminate]. Qed.

(** The region of the samples is not mapped. *)
Lemma vmm_sample_unmapped va : 0 <= va < 8388608 -> walk vmm_sample_root vmm_sample_running va = None.
Proof.
  intros Hva. destruct vmm_sample_ready as (tab & _ & _ & Hw). rewrite Hw by (left; lia).
  apply decide_False. unfold in_run, KERNEL_VMB. lia.
Qed.
Lemma vmm_sample_free : all_unmapped vmm_sample_root 4194304 8192 vmm_sample_running.
Proof. intros j Hj. change (page_count 8192) with 2 in Hj. apply vmm_sample_unmapped. lia. Qed.
Lemma vmm_sample_room (tab : gmap (list Z) Z) :
  dom tab = vmm_sample_tables ->
  vmm_room (vmm_sample_root + 4096) 1 (dom tab ∪ map_tables 4194304 8192) vmm_sample_running = true.
Proof. intros ->. vm_compute. reflexivity. Qed.

Lemma vmm_map_direct_correct_witness :
  exists s', vmm_map_direct 4194304 65536 8192 3 0 vmm_sample_running = Done (4194304, s') /\
    walk vmm_sample_root s' 4198410 = Some 69642.
Proof.
  destruct vmm_sample_ready as (tab & Hr & Hd & _).
  destruct (vmm_map_direct_correct _ _ _ _ _ _ 4194304 65536 8192 3 0 Hr vmm_sample_args) as [H _].
  specialize (H vmm_sample_free). rewrite (vmm_sample_room tab Hd) in H. destruct H as (tab' & s' & G1 & _ & G2). exists s'. split; [exact G1|].
  rewrite G2 by (left; lia). reflexivity.
Defined.

Lemma memmap_roundtrip_witness :
  exists mm s1 s2, memmap_direct 65536 4194304 8192 3 0 vmm_sample_running = Done (mm, s1) /\
    memmap_destroy mm s1 = Done (tt, s2) /\ walk vmm_sample_root s2 4194304 = None.
Proof.
  destruct vmm_sample_ready as (tab & Hr & Hd & _).
  destruct (memmap_roundtrip _ _ _ _ _ _ 4194304 65536 8192 3 0 Hr vmm_sample_args)
    as (mm & s1 & s2 & s3 & G1 & _ & _ & _ & G2 & G3 & _).
  - exact vmm_sample_free.
  - exact (vmm_sample_room tab Hd).
  - exists mm, s1, s2. split; [exact G1|]. split; [exact G2|]. rewrite G3 by (left; lia). apply vmm_sample_unmapped. lia.
Defined.

Lemma vmm_unmap_correct_witness :
  (exists s', vmm_unmap 4194304 8192 vmm_sample_running = Done (0, s') /\ walk vmm_sample_root s' 4194304 = None) /\
  vmm_unmap KERNEL_VMB 65536 vmm_sample_running = Stopped page_fault.
Proof.
  destruct vmm_sample_ready as (tab & Hr & Hd & _). split.
  - pose proof (vmm_unmap_correct _ _ _ _ _ _ 4194304 8192 Hr ltac:(lia)
      (proj1 (ma_virt _ _ _ _ vmm_sample_args)) ltac:(vm_compute; reflexivity)) as H.
    rewrite (vmm_sample_room tab Hd) in H. rewrite decide_False in H by (vm_compute; intros [_ H']; discriminate H').
    destruct H as (tab' & s' & G1 & _ & G2). exists s'. split; [exact G1|].
    rewrite G2 by (left; lia). reflexivity.
  - pose proof (vmm_unmap_correct _ _ _ _ _ _ KERNEL_VMB 65536 Hr ltac:(lia)
      (proj1 (ma_virt _ _ _ _ vmm_sample_map_args)) ltac:(vm_compute; reflexivity)) as H.
    rewrite Hd in H. match type of H with if ?b then _ else _ => assert (b = true) as Hb by (vm_compute; reflexivity) end.
    rewrite Hb, decide_True in H by (vm_compute; split; [discriminate|reflexivity]). exact H.
Defined.

Lemma vmm_init_maps_nothing_witness : vmm_init vmm_sample = Stopped page_fault.
Proof.
  destruct vmm_sample_facts as (H1 & H2 & H3).
  pose proof (vmm_init_maps_nothing vmm_sample H1 eq_refl H2 H3) as H. cbv zeta in H.
  change (kalloc_at vmm_sample 4096 + 4096 <=? earlyAllocLimit (k_heap vmm_sample)) with true in H.
  exact (proj1 H).
Defined.

(** [vmm::map] with no address allocates [length / 0x1000] pages but maps
    [length] bytes rounded up: a region of one page and a byte gets one page
    from the page manager and maps two, the second of which stays free for
    others. *)
Theorem vmm_map_rounds_down :
  exists s', vmm_map 0 4097 3 2 vmm_sample_running = Done (KERNEL_VMB + 65536, s') /\
    page_used vmm_sample_running 16 = false /\ page_used s' 16 = true /\
    walk vmm_sample_root s' (KERNEL_VMB + 65536 + 4096) = Some (65536 + 4096) /\
    page_used s' 17 = false.
Proof.
  assert (match vmm_map 0 4097 3 2 vmm_sample_running with
    | Done (a, s') => bool_decide (a = KERNEL_VMB + 65536) && page_used s' 16 && negb (page_used s' 17) &&
        bool_decide (walk vmm_sample_root s' (KERNEL_VMB + 65536 + 4096) = Some (65536 + 4096))
    | Stopped _ => false
    end = true) as H by (vm_compute; reflexivity).
  destruct (vmm_map 0 4097 3 2 vmm_sample_running) as [[a s']|]; [|done].
  rewrite !andb_true_iff, !bool_decide_eq_true, negb_true_iff in H.
  destruct H as [[[-> H1] H2] H3]. exists s'. split; [done|].
  split; [vm_compute; reflexivity|]. done.
Qed.
