(* ===== verification/Tlb.v ===== *)
(** Address translation as the processor performs it: through a cache.  The
    flushing half of Lobo's memory manager (vmm::invalidate in its three
    versions and the uses of swap_page_directory in src/src/lobo/mem/vmm.cpp and
    arch/x86_64/vmm.cpp) on a machine whose translation lookaside buffer may
    hold stale entries.

    [Vmm] describes what the operations do to the tables; here they run on a
    kernel together with a TLB.  What the processor puts into the TLB while code
    runs is not determined by the code: [mmu_caches] is a parameter, and
    [mmu_caches_ok] says what the architecture promises of it.  No page is
    global: bit 8 of an entry is in none of the flags, which are eight bits.

    The loads and stores that the memory manager's own code makes are described
    without translation, as in [Vmm] ([run_on]): they are to the kernel's own
    memory, and the translations of that are not among those it changes.  What
    the cache holds decides what later accesses see ([access]). *)

From S2P Require Import Prelude Memory AwdAlloc PageTable PageBuilder Lobo KernelBitset Pmm KernelHeap Vmm.
Local Open Scope Z_scope.
Local Open Scope mach_scope.

(** ** The processor *)

(** The cached translations: number of a virtual page to the physical address
    of its frame. *)
Abbreviation tlb := (gmap Z Z).

Record machine := Machine { mc_kernel : kstate; mc_tlb : tlb }.

(** The translation an access gets: the cached one if there is one. *)
Definition access (x : machine) (va : Z) : option Z :=
  match mc_tlb x !! (va / 4096) with
  | Some f => Some (f + va mod 4096)
  | None => cr3_walk (mc_kernel x) va
  end.

(** The frame the tables give page [n]. *)
Definition current (s : kstate) (n f : Z) : Prop :=
  canonical (4096 * n) /\ cr3_walk s (4096 * n) = Some f.
Definition coherent (s : kstate) (t : tlb) : Prop := forall n f, t !! n = Some f -> current s n f.

(** What is in the TLB after code that took the kernel from [s] to [s']. *)
Class Mmu := mmu_caches : kstate -> kstate -> tlb -> tlb.

(** Code that changes neither memory nor CR3 leaves old entries, or some of
    them, and translations by the tables. *)
Class MmuOk (M : Mmu) := mmu_caches_ok : forall s s' t n f,
  k_mem s' = k_mem s -> cpu_cr3 (k_cpu s') = cpu_cr3 (k_cpu s) ->
  mmu_caches s s' t !! n = Some f -> t !! n = Some f \/ current s' n f.

Section Machine.
Context {M : Mmu}.

(** Code of the kernel that executes no [mov cr3] and no [invlpg]. *)
Definition run_on {A} (m : ST kstate A) : ST machine A := fun x =>
  match m (mc_kernel x) with
  | Done (a, s') => Done (a, Machine s' (mmu_caches (mc_kernel x) s' (mc_tlb x)))
  | Stopped r => Stopped r
  end.

(** [movq a, %cr3] empties the TLB; [invlpg (a)] drops the page of [a]. *)
Definition load_cr3 (a : Z) : ST machine unit := fun x =>
  match write_cr3 a (mc_kernel x) with
  | Done (r, s') => Done (r, Machine s' ∅)
  | Stopped r => Stopped r
  end.
Definition invlpg (a : Z) : ST machine unit := fun x =>
  Done (tt, Machine (mc_kernel x)
    (mmu_caches (mc_kernel x) (mc_kernel x) (delete (a / 4096) (mc_tlb x)))).

(** ** arch/x86_64/vmm.cpp *)

(** [swap_page_directory]: what is logged, [cli] and the assignment come before
    CR3 is loaded. *)
Definition swap_before (newMemorySpace : Z) : ST kstate unit :=
  let phys_addr := MEM_VIRT_TO_PHYS newMemorySpace in
  klog "vmm" "swap page dir: %p phys addr %p
" [KNum newMemorySpace; KNum phys_addr] ;;
  cli ;;
  modify (fun s => let v := k_vmm s in
    set_kvmm (Vmm (m_init v) (pdir_kernel v) newMemorySpace) s).
Definition tlb_swap_page_directory (newMemorySpace : Z) : ST machine unit :=
  run_on (swap_before newMemorySpace) ;;
  load_cr3 (MEM_VIRT_TO_PHYS newMemorySpace) ;;
  run_on sti.

Definition invalidate_all : ST machine unit :=
  v ← run_on (gets k_vmm); tlb_swap_page_directory (pdir_current v).
Definition invalidate_addr (addr : Z) : ST machine unit := invlpg addr.
Fixpoint invalidate_range (fuel : nat) (start_addr end_addr : Z) : ST machine unit :=
  match fuel with
  | O => stop_with OutOfFuel
  | S fuel' =>
      if start_addr <? end_addr then
        invalidate_addr start_addr ;;
        invalidate_range fuel' (start_addr +64 4096) end_addr
      else skip
  end.

(** ** mem/vmm.cpp *)

Definition tlb_map_direct (v_addr p_addr length perm flags : Z) : ST machine Z :=
  v ← run_on (gets k_vmm);
  run_on (map_pages (pdir_current v) v_addr p_addr length perm) ;;
  v' ← run_on (gets k_vmm);
  tlb_swap_page_directory (pdir_current v') ;;
  mret v_addr.

Definition tlb_unmap (address length : Z) : ST machine Z :=
  v ← run_on (gets k_vmm);
  run_on (unmap_pages (pdir_current v) address length) ;;
  v' ← run_on (gets k_vmm);
  tlb_swap_page_directory (pdir_current v') ;;
  mret 0.

(** ** Coherence *)

(** The indices and the offset of an address depend on its last 48 bits. *)
Lemma page_vpage va : vpage (4096 * (va / 4096)) = vpage va.
Proof. unfold vpage. f_equal. lia_div. Qed.

Lemma mmu_walk_page off m cr3 va :
  mmu_walk off m cr3 va = (fun f => f + va mod 4096) <$> mmu_walk off m cr3 (4096 * (va / 4096)).
Proof.
  pose proof (proj1 (vpage_eq _ _) (page_vpage va)) as (H4 & H3 & H2 & H1).
  unfold mmu_walk. rewrite H4, H3, H2, H1.
  destruct (mmu_next off m cr3 (idx4 va)) as [p3|]; [|done].
  destruct (mmu_next off m p3 (idx3 va)) as [p2|]; [|done].
  destruct (mmu_next off m p2 (idx2 va)) as [p1|]; [|done]. cbv zeta.
  destruct (Z.testbit _ 0); [|done]. cbn [fmap option_fmap option_map]. do 2 f_equal.
  rewrite Z.mul_comm, Z_mod_mult. lia.
Qed.

(** With a coherent TLB an access gets the translation of the tables. *)
Lemma coherent_access s t va : coherent s t -> access (Machine s t) va = cr3_walk s va.
Proof.
  intros H. unfold access. cbn [mc_tlb mc_kernel]. destruct (t !! (va / 4096)) as [f|] eqn:E; [|done].
  destruct (H _ _ E) as [_ Hw]. unfold cr3_walk in *. rewrite mmu_walk_page, Hw. done.
Qed.

Lemma coherent_empty s : coherent s ∅.
Proof. intros n f H. by rewrite lookup_empty in H. Qed.

Lemma current_ext s s' n f :
  k_mem s' = k_mem s -> cpu_cr3 (k_cpu s') = cpu_cr3 (k_cpu s) -> current s n f -> current s' n f.
Proof. unfold current, cr3_walk. by intros -> ->. Qed.

Lemma coherent_ext s s' t :
  k_mem s' = k_mem s -> cpu_cr3 (k_cpu s') = cpu_cr3 (k_cpu s) -> coherent s t -> coherent s' t.
Proof. intros Hm Hc H n f Hn. by apply (current_ext s), H. Qed.

Context {MOk : MmuOk M}.

Lemma caches_coherent s s' t :
  k_mem s' = k_mem s -> cpu_cr3 (k_cpu s') = cpu_cr3 (k_cpu s) ->
  coherent s t -> coherent s' (mmu_caches s s' t).
Proof.
  intros Hm Hc Ht n f Hn. destruct (mmu_caches_ok _ _ _ _ _ Hm Hc Hn) as [Ho|]; [|done].
  apply (current_ext s); auto.
Qed.

Lemma access_coherent s s' t :
  (forall n f, t !! n = Some f -> current s n f \/ current s' n f) ->
  coherent s' t <-> forall va, access (Machine s' t) va = cr3_walk s' va.
Proof.
  intros Ht. split; [intros H va; by apply coherent_access|]. intros H n f E.
  split; [destruct (Ht n f E) as [[]|[]]; done|]. rewrite <- H. unfold access. cbn [mc_tlb mc_kernel].
  replace (4096 * n / 4096) with n by lia_div. rewrite E. f_equal. lia_div.
Qed.

(** Loading CR3 makes any TLB coherent. *)
Lemma swap_coherent dir x s :
  swap_page_directory dir (mc_kernel x) = Done (tt, s) ->
  exists t, tlb_swap_page_directory dir x = Done (tt, Machine s t) /\ coherent s t.
Proof.
  destruct x as [s0 t0]. cbn [mc_kernel]. rewrite swap_run. destruct (code_mapped (swapped dir s0)) eqn:E; [|done].
  intros [= <-]. set (s1 := match swap_before dir s0 with Done (_, s') => s' | Stopped _ => s0 end).
  assert (swap_before dir s0 = Done (tt, s1)) as H1 by done.
  assert (code_mapped (set_cr3 (MEM_VIRT_TO_PHYS dir) s1) = true) as E1 by exact E.
  assert (write_cr3 (MEM_VIRT_TO_PHYS dir) s1 = Done (tt, set_cr3 (MEM_VIRT_TO_PHYS dir) s1)) as H2
    by (by rewrite write_cr3_run, E1).
  unfold tlb_swap_page_directory. erewrite bind_done; [|unfold run_on; cbn [mc_kernel]; rewrite H1; reflexivity].
  erewrite bind_done; [|unfold load_cr3; cbn [mc_kernel]; rewrite H2; reflexivity].
  eexists. split; [reflexivity|]. apply caches_coherent; [done|done|]. apply coherent_empty.
Qed.

Lemma then_swap_coherent {A} (m : Z -> ST kstate unit) (r : A) x s' :
  (v ← gets k_vmm; m (pdir_current v) ;;
   v' ← gets k_vmm; swap_page_directory (pdir_current v') ;; mret r) (mc_kernel x) = Done (r, s') ->
  exists t, (v ← run_on (gets k_vmm); run_on (m (pdir_current v)) ;;
     v' ← run_on (gets k_vmm); tlb_swap_page_directory (pdir_current v') ;; mret r) x =
       Done (r, Machine s' t) /\ coherent s' t.
Proof.
  destruct x as [s t]. cbn [mc_kernel]. rewrite gets_bind. intros H.
  apply bind_done_inv in H as ([] & s1 & Hm & H). rewrite gets_bind in H.
  rewrite (bind_done (run_on (gets k_vmm)) _ _ _ _ eq_refl). cbn [mc_kernel mc_tlb].
  rewrite (bind_done (run_on (m _)) _ _ tt (Machine s1 (mmu_caches s s1 (mmu_caches s s t))))
    by (unfold run_on; cbn [mc_kernel mc_tlb]; by rewrite Hm).
  rewrite (bind_done (run_on (gets k_vmm)) _ _ _ _ eq_refl). cbn [mc_kernel mc_tlb].
  apply bind_done_inv in H as ([] & s2 & Hk & H). injection H as E. rewrite <- E.
  destruct (swap_coherent _ (Machine s1 (mmu_caches s1 s1 (mmu_caches s s1 (mmu_caches s s t)))) s2 Hk) as (t2 & Hs & Hc).
  rewrite (bind_done _ _ _ _ _ Hs). exists t2. split; [reflexivity|exact Hc].
Qed.

Lemma map_direct_coherent v p size perm flags x a s' :
  vmm_map_direct v p size perm flags (mc_kernel x) = Done (a, s') ->
  exists t, tlb_map_direct v p size perm flags x = Done (a, Machine s' t) /\ coherent s' t.
Proof.
  intros H. assert (a = v) as ->.
  { unfold vmm_map_direct in H. rewrite gets_bind in H. apply bind_done_inv in H as (? & ? & _ & H).
    rewrite gets_bind in H. apply bind_done_inv in H as (? & ? & _ & H). by injection H as <-. }
  exact (then_swap_coherent (fun dir => map_pages dir v p size perm) v x s' H).
Qed.

Lemma unmap_coherent v size x a s' :
  vmm_unmap v size (mc_kernel x) = Done (a, s') ->
  exists t, tlb_unmap v size x = Done (a, Machine s' t) /\ coherent s' t.
Proof.
  intros H. assert (a = 0) as ->.
  { unfold vmm_unmap in H. rewrite gets_bind in H. apply bind_done_inv in H as (? & ? & _ & H).
    rewrite gets_bind in H. apply bind_done_inv in H as (? & ? & _ & H). by injection H as <-. }
  exact (then_swap_coherent (fun dir => unmap_pages dir v size) 0 x s' H).
Qed.

(** ** The loop of [invalidate(start, end)] *)

(** The last address of the residue of [start] in a page. *)
Definition last_in_step (start : Z) : Z := 2 ^ 64 - 4096 + start mod 4096.

Lemma invalidate_range_run fuel start end_ s t :
  0 <= start < 2 ^ 64 -> 0 <= end_ < 2 ^ 64 -> (start < end_ -> end_ <= last_in_step start) ->
  (0 < fuel)%nat -> page_count (end_ - start) < Z.of_nat fuel ->
  exists t', invalidate_range fuel start end_ (Machine s t) = Done (tt, Machine s t') /\
    forall n f, t' !! n = Some f -> current s n f \/
      t !! n = Some f /\ ~ (start / 4096 <= n < start / 4096 + page_count (end_ - start)).
Proof.
  unfold last_in_step, page_count. change (2 ^ 64) with 18446744073709551616.
  revert start t. induction fuel as [|fuel IH]; intros start t Hs He Hl Hf0 Hf; [lia|].
  cbn [invalidate_range]. destruct (start <? end_) eqn:E.
  2:{ exists t. split; [done|]. intros n f Hn. right. split; [done|]. lia_div. }
  assert (start + 4096 < 18446744073709551616) as Hw by lia_div.
  rewrite u64_small by lia. unfold invalidate_addr.
  rewrite (bind_done (invlpg start) _ _ tt (Machine s (mmu_caches s s (delete (start / 4096) t)))) by done.
  destruct (IH (start + 4096) (mmu_caches s s (delete (start / 4096) t))) as (t' & H1 & H2);
    [lia|lia|intros; lia_div|lia_div|lia_div|].
  exists t'. split; [exact H1|]. intros n f Hn. destruct (H2 n f Hn) as [|[Hn' Hr]]; [by left|].
  destruct (mmu_caches_ok _ _ _ _ _ eq_refl eq_refl Hn') as [Hd|]; [|by left].
  apply lookup_delete_Some in Hd as [Hne Hd]. right. split; [done|].
  intros Hin. apply Hr. clear - Hin Hne. lia_div.
Qed.

Lemma invalidate_range_forever fuel start end_ x :
  0 <= start < end_ -> end_ < 2 ^ 64 -> last_in_step start < end_ ->
  invalidate_range fuel start end_ x = Stopped OutOfFuel.
Proof.
  unfold last_in_step. change (2 ^ 64) with 18446744073709551616.
  revert start x. induction fuel as [|fuel IH]; intros start x Hs He Hl; [done|].
  cbn [invalidate_range]. rewrite (proj2 (Z.ltb_lt start end_)) by lia.
  rewrite (bind_done (invalidate_addr start) _ _ _ _ eq_refl).
  assert (u64 (start + 4096) mod 4096 = start mod 4096 /\ 0 <= u64 (start + 4096) < end_) as [Hm Hr].
  { pose proof (u64_range (start + 4096)). unfold u64 in *. clear IH. split; lia_div. }
  apply IH; [exact Hr|exact He|by rewrite Hm].
Qed.

(** ** Unmapping without loading CR3 *)

Section Unmap.
Variables (keep : Z -> Prop) (root c0 n0 : Z) (tab tab' : gmap (list Z) Z) (s s' : kstate) (v size : Z).
Hypothesis (Hcr3 : cpu_cr3 (k_cpu s) = root - KERNEL_VMB) (Hframe : vmm_frame keep s s').
Hypothesis (Hv : canonical_run v (page_count size)).
Hypothesis Hwalk : forall va, canonical va ->
  walk root s' va = if decide (in_run v size va) then None else walk root s va.

Definition page_in_run (n : Z) : Prop := v / 4096 <= n < v / 4096 + page_count size.

Lemma page_in_run_iff n : in_run v size (4096 * n) <-> page_in_run n.
Proof. destruct Hv as [Ha _]. unfold in_run, page_in_run. split; lia_div. Qed.

Lemma cr3_before va : cr3_walk s va = walk root s va.
Proof. unfold cr3_walk, walk. by rewrite Hcr3. Qed.
Lemma cr3_after va : cr3_walk s' va = walk root s' va.
Proof. unfold cr3_walk, walk. by rewrite (sr_cr3 _ _ (vf_rest _ _ _ Hframe)), Hcr3. Qed.

Lemma unmapped_not_current n f : page_in_run n -> ~ current s' n f.
Proof.
  intros Hn [Hc Hw]. rewrite cr3_after, Hwalk, decide_True in Hw by (done || by apply page_in_run_iff). done.
Qed.

Lemma other_still_current n f : ~ page_in_run n -> current s n f -> current s' n f.
Proof.
  intros Hn [Hc Hw]. split; [done|]. rewrite cr3_after, Hwalk, decide_False
    by (done || by rewrite page_in_run_iff). by rewrite <- cr3_before.
Qed.

(** Entries from before or after the unmapping are coherent unless they are
    for pages of the region. *)
Lemma unmap_coherent_iff t :
  (forall n f, t !! n = Some f -> current s n f \/ current s' n f) ->
  coherent s' t <-> forall n, page_in_run n -> t !! n = None.
Proof.
  intros Ht. split.
  - intros H n Hn. destruct (t !! n) as [f|] eqn:E; [|done].
    by destruct (unmapped_not_current n f Hn (H _ _ E)).
  - intros H n f E. destruct (Ht n f E) as [Ho|]; [|done]. apply other_still_current; [|done].
    intros Hn. by rewrite (H n Hn) in E.
Qed.

Lemma invalidate_region t :
  0 <= size -> v + 4096 * page_count size < 2 ^ 64 ->
  (forall n f, t !! n = Some f -> current s n f \/ current s' n f) ->
  exists t', invalidate_range (pages_fuel size) v (v +64 size) (Machine s' t) = Done (tt, Machine s' t') /\
    coherent s' t'.
Proof.
  intros Hsz Hend Ht. change (2 ^ 64) with 18446744073709551616 in Hend.
  pose proof (canonical_run_bounds _ _ Hv ltac:(unfold page_count; lia_div)) as [Hv0 _].
  assert (page_count size < Z.of_nat (pages_fuel size)) as Hfuel by (unfold pages_fuel, page_count; lia_div).
  assert (0 <= size <= 4096 * page_count size) as Hpc by (unfold page_count; lia_div).
  rewrite u64_small by lia.
  destruct (invalidate_range_run (pages_fuel size) v (v + size) s' t) as (t' & H1 & H2);
    rewrite ?Z.add_simpl_l; [change (2 ^ 64) with 18446744073709551616; lia..| | |done|].
  - intros _. unfold last_in_step. change (2 ^ 64) with 18446744073709551616.
    destruct Hv as [Ha _]. clear - Ha Hend Hpc. lia_div.
  - unfold pages_fuel. lia.
  - exists t'. split; [exact H1|]. intros n f E. destruct (H2 n f E) as [|[Ho Hn]]; [done|].
    rewrite Z.add_simpl_l in Hn. destruct (Ht n f Ho); [|done]. by apply other_still_current.
Qed.

End Unmap.

End Machine.

(** ** The theorems *)

(** C5. A region that is mapped and later unmapped, as the processor sees it: from
    any contents of the TLB, after [map_direct] an access to byte [i] of the
    region reaches physical address [p + i], after [unmap] it faults, and every
    other address is translated as the tables said before the two. *)
Theorem accesses_follow_mapping (M : Mmu) (MOk : MmuOk M) (keep : Z -> Prop) (root c0 n0 : Z)
    (tab : gmap (list Z) Z) (s : kstate) (t : tlb) (v p size perm flags : Z)
    (Hrun : vmm_running keep root c0 n0 tab s) (Hargs : map_args v p size perm)
    (Hun : all_unmapped root v size s)
    (Hroom : vmm_room c0 n0 (dom tab ∪ map_tables v size) s = true) :
  exists x1 x2, tlb_map_direct v p size perm flags (Machine s t) = Done (v, x1) /\
    tlb_unmap v size x1 = Done (0, x2) /\
    (forall va, canonical va ->
       if decide (v <= va < v + 4096 * page_count size)
       then access x1 va = Some (p + (va - v)) /\ access x2 va = None
       else access x1 va = walk root s va /\ access x2 va = walk root s va).
Proof.
  destruct (map_direct_run keep root c0 n0 tab s v p size perm flags Hrun Hargs) as [H _].
  specialize (H Hun). cbv zeta in H. rewrite Hroom in H.
  destruct H as (tab1 & s1 & G1 & [M1 C1 I1 K1 R1] & D1 & W1).
  pose proof (code_not_in_region _ _ _ _ tab s v size Hrun (proj1 (ma_virt _ _ _ _ Hargs)) Hun) as Hout. rewrite <- I1 in Hout.
  pose proof (unmap_run keep root c0 n0 tab1 s1 v size M1 (ma_size _ _ _ _ Hargs)
    (proj1 (ma_virt _ _ _ _ Hargs)) (proj2 (ma_virt _ _ _ _ Hargs))) as H. cbv zeta in H.
  replace (dom tab1 ∪ map_tables v size) with (dom tab ∪ map_tables v size) in H by (rewrite D1; set_solver).
  rewrite R1, Hroom, (decide_False _ _ Hout) in H. destruct H as (tab2 & s2 & G2 & [M2 C2 I2 K2 R2] & D2 & W2).
  destruct (map_direct_coherent v p size perm flags (Machine s t) v s1 G1) as (t1 & T1 & Co1).
  destruct (unmap_coherent v size (Machine s1 t1) 0 s2 G2) as (t2 & T2 & Co2).
  exists (Machine s1 t1), (Machine s2 t2). split; [exact T1|]. split; [exact T2|]. intros va Hc.
  rewrite !coherent_access by done. unfold cr3_walk. rewrite C1, C2.
  change (mmu_walk KERNEL_VMB (k_mem s1) (root - KERNEL_VMB) va) with (walk root s1 va).
  change (mmu_walk KERNEL_VMB (k_mem s2) (root - KERNEL_VMB) va) with (walk root s2 va).
  rewrite W2, W1 by done. unfold in_run. by repeat case_decide.
Qed.

(** C28. [invalidate(start, end)]: the loop ends exactly when [end] is not beyond the
    last address that [start] reaches in steps of a page before it wraps
    around.  When it ends it takes no more steps than there are pages of
    [end - start] bytes, the kernel is as it was, and what is left in the TLB
    is current or was there before outside the [ceil((end - start) / 0x1000)]
    pages from that of [start]; when it does not, no number of steps is
    enough. *)
Theorem invalidate_range_exact (M : Mmu) (MOk : MmuOk M) (start end_ : Z) (s : kstate) (t : tlb)
    (Hs : 0 <= start < 2 ^ 64) (He : 0 <= end_ < 2 ^ 64) :
  if decide (start < end_ /\ 2 ^ 64 - 4096 + start mod 4096 < end_) then
    forall fuel, invalidate_range fuel start end_ (Machine s t) = Stopped OutOfFuel
  else
    forall fuel, (Z.to_nat (page_count (end_ - start)) < fuel)%nat ->
    exists t', invalidate_range fuel start end_ (Machine s t) = Done (tt, Machine s t') /\
      forall n f, t' !! n = Some f -> current s n f \/
        t !! n = Some f /\ ~ (start / 4096 <= n < start / 4096 + page_count (end_ - start)).
Proof.
  case_decide as Hd.
  - intros fuel. destruct Hd as [H1 H2]. apply invalidate_range_forever; [lia|lia|exact H2].
  - intros fuel Hf. apply invalidate_range_run; [done|done| |lia|lia].
    intros Hlt. unfold last_in_step. apply Z.nlt_ge. intros H. by apply Hd.
Qed.

(** C27. After [unmap_pages] alone, without the loading of CR3, a TLB with
    translations from before and after is stale exactly if it holds a page of
    the region; invalidating the region's addresses then makes it coherent, as
    loading CR3 would. *)
Theorem invalidate_after_unmap (M : Mmu) (MOk : MmuOk M) (keep : Z -> Prop) (root c0 n0 : Z)
    (tab : gmap (list Z) Z) (s : kstate) (v size : Z)
    (Hinv : vmm_inv keep root c0 n0 tab s) (Hcr3 : cpu_cr3 (k_cpu s) = root - KERNEL_VMB)
    (Hsize : 0 <= size) (Hv : canonical_run v (page_count size))
    (Hend : v + 4096 * page_count size < 2 ^ 64)
    (Hroom : vmm_room c0 n0 (dom tab ∪ map_tables v size) s = true) :
  exists s', unmap_pages root v size s = Done (tt, s') /\
    forall t, (forall n f, t !! n = Some f -> current s n f \/ current s' n f) ->
      ((forall va, access (Machine s' t) va = cr3_walk s' va) <->
       (forall n, v / 4096 <= n < v / 4096 + page_count size -> t !! n = None)) /\
      exists t', invalidate_range (pages_fuel size) v (v +64 size) (Machine s' t) = Done (tt, Machine s' t') /\
        forall va, access (Machine s' t') va = cr3_walk s' va.
Proof.
  pose proof (unmap_pages_run keep root c0 n0 tab s v size Hinv Hsize Hv Hend) as H. cbv zeta in H.
  rewrite Hroom in H. destruct H as (tab' & s' & G1 & _ & G3 & _ & W). exists s'. split; [exact G1|].
  intros t Ht. split.
  - rewrite <- (access_coherent s s' t Ht). apply (unmap_coherent_iff keep root s s' v size Hcr3 G3 Hv W t Ht).
  - destruct (invalidate_region keep root s s' v size Hcr3 G3 Hv W t Hsize Hend Ht) as (t' & H1 & H2).
    exists t'. split; [exact H1|]. intros va. by apply coherent_access.
Qed.

(** ** Witnesses *)

(** A processor that keeps everything and always loads page 1024. *)
Definition eager_mmu : Mmu := fun _ s' t =>
  match cr3_walk s' (4096 * 1024) with Some f => <[1024 := f]> t | None => t end.

Lemma eager_mmu_ok : MmuOk eager_mmu.
Proof.
  intros s s' t n f _ _. unfold mmu_caches, eager_mmu.
  destruct (cr3_walk s' (4096 * 1024)) as [g|] eqn:E; [|by left].
  intros [[<- <-]|[_ H]]%lookup_insert_Some; [right|by left]. split; [|exact E]. left. lia.
Qed.

(** A TLB with a stale entry for the page at 0x400000. *)
Definition stale_tlb : tlb := {[ 1024 := 12288; 5 := 0 ]}.

Lemma accesses_follow_mapping_witness :
  access (Machine vmm_sample_running stale_tlb) 4194304 = Some 12288 /\
  exists x1 x2,
    tlb_map_direct (M := eager_mmu) 4194304 65536 8192 3 0 (Machine vmm_sample_running stale_tlb) =
      Done (4194304, x1) /\
    tlb_unmap (M := eager_mmu) 4194304 8192 x1 = Done (0, x2) /\
    access x1 4198410 = Some 69642 /\ access x2 4194304 = None.
Proof.
  split; [reflexivity|]. destruct vmm_sample_ready as (tab & Hr & Hd & _).
  destruct (accesses_follow_mapping eager_mmu eager_mmu_ok _ _ _ _ _ _ stale_tlb 4194304 65536 8192 3 0
    Hr vmm_sample_args vmm_sample_free (vmm_sample_room tab Hd)) as (x1 & x2 & G1 & G2 & G3).
  exists x1, x2. split; [exact G1|]. split; [exact G2|].
  change (page_count 8192) with 2 in G3. split.
  - pose proof (G3 4198410 ltac:(left; lia)) as H. rewrite decide_True in H by lia. exact (proj1 H).
  - pose proof (G3 4194304 ltac:(left; lia)) as H. rewrite decide_True in H by lia. exact (proj2 H).
Defined.

(** The last page of the address space is never reached from an aligned
    address; a region that starts inside a page can lose its last one. *)
Lemma invalidate_range_exact_witness :
  (forall fuel, invalidate_range (M := eager_mmu) fuel 0 (2 ^ 64 - 1) (Machine vmm_sample_running stale_tlb) =
     Stopped OutOfFuel) /\
  exists t', invalidate_range (M := eager_mmu) 2 4095 4097 (Machine vmm_sample_running stale_tlb) =
    Done (tt, Machine vmm_sample_running t') /\ page_count (4097 - 4095) = 1.
Proof.
  split.
  - pose proof (invalidate_range_exact eager_mmu eager_mmu_ok 0 (2 ^ 64 - 1) vmm_sample_running stale_tlb
      ltac:(lia) ltac:(lia)) as H. rewrite decide_True in H by (split; vm_compute; reflexivity). exact H.
  - pose proof (invalidate_range_exact eager_mmu eager_mmu_ok 4095 4097 vmm_sample_running stale_tlb
      ltac:(lia) ltac:(lia)) as H. rewrite decide_False in H by (intros [_ H']; vm_compute in H'; discriminate).
    destruct (H 2%nat ltac:(vm_compute; lia)) as (t' & G & _). exists t'. split; [exact G|reflexivity].
Defined.

Lemma invalidate_after_unmap_witness :
  exists s', unmap_pages vmm_sample_root 4194304 4096 vmm_sample_running = Done (tt, s') /\
    exists t', invalidate_range (M := eager_mmu) (pages_fuel 4096) 4194304 4198400 (Machine s' ∅) =
      Done (tt, Machine s' t') /\ access (Machine s' t') 4194304 = cr3_walk s' 4194304.
Proof.
  destruct vmm_sample_ready as (tab & Hr & Hd & _).
  destruct (invalidate_after_unmap eager_mmu eager_mmu_ok _ _ _ _ _ vmm_sample_running 4194304 4096
    (proj1 Hr) ltac:(vm_compute; reflexivity) ltac:(lia)
    ltac:(split; [reflexivity|left; vm_compute; split; discriminate]) ltac:(vm_compute; reflexivity)
    ltac:(rewrite Hd; vm_compute; reflexivity)) as (s' & G1 & G2).
  exists s'. split; [exact G1|].
  destruct (G2 ∅) as [_ (t' & H1 & H2)]; [by intros n f Hn|].
  exists t'. split; [exact H1|apply H2].
Defined.
