(* ===== verification/Scheduler.v ===== *)
(** Threads and the scheduler: src/src/lobo/task/scheduler.cpp with the control
    blocks of include/kernel/task.h and the context switch of
    arch/x86_64/switch_thread.s.

    Control blocks, their list and the stacks lie in kernel memory; the
    scheduler object is [k_sched].  Each thread of the model has a register
    context, either in the processor ([k_cpu]) or in the frame its
    [stack_top] points to. *)

From S2P Require Import Prelude Memory AwdAlloc Lobo KernelBitset Pmm KernelHeap KernelList.
Local Open Scope Z_scope.
Local Open Scope mach_scope.

(** ** Control blocks *)

Inductive TCBState := Ready | Running | Waiting | Dead.
Definition state_code (st : TCBState) : Z :=
  match st with Ready => 0 | Running => 1 | Waiting => 2 | Dead => 3 end.

Definition TCB_SIZE : Z := 40.
Definition stack_top (m : mem) (t : Z) : Z := load64 m t.
Definition tcb_state (m : mem) (t : Z) : Z := load32 m (t + 8).
Definition threadName (m : mem) (t : Z) : Z := load64 m (t + 16).
Definition threadID (m : mem) (t : Z) : Z := load64 m (t + 24).
Definition tcb_taskID (m : mem) (t : Z) : Z := load64 m (t + 32).

Definition task_vas (m : mem) (k : Z) : Z := load64 m k.
Definition task_taskID (m : mem) (k : Z) : Z := load64 m (k + 8).

Definition kstore64 (a v : Z) : ST kstate unit :=
  modify (fun s => set_kmem (store64 (k_mem s) a v) s).
Definition kstore32 (a v : Z) : ST kstate unit :=
  modify (fun s => set_kmem (store32 (k_mem s) a v) s).
Definition set_state (t : Z) (st : TCBState) : ST kstate unit := kstore32 (t + 8) (state_code st).

(** A member access through a null pointer. *)
Definition non_null (p : Z) : ST kstate unit := when (p =? 0) (stop_with (Fault "null pointer")).

(** ** The scheduler object *)

Definition with_sched (f : sched_state -> sched_state) : ST kstate unit :=
  modify (fun s => set_ksched (f (k_sched s)) s).
Definition set_enabled (b : bool) (c : sched_state) : sched_state :=
  Sched b (idleThread c) (currentThread c) (threads c) (tasks c) (kernelTask c) (currentTask c)
    (currentThreadIndex c) (next_tid c).
Definition set_current (t : Z) (c : sched_state) : sched_state :=
  Sched (schedulingEnabled c) (idleThread c) t (threads c) (tasks c) (kernelTask c) (currentTask c)
    (currentThreadIndex c) (next_tid c).
Definition set_threads (l : slist) (c : sched_state) : sched_state :=
  Sched (schedulingEnabled c) (idleThread c) (currentThread c) l (tasks c) (kernelTask c)
    (currentTask c) (currentThreadIndex c) (next_tid c).
Definition set_tasks (l : slist) (c : sched_state) : sched_state :=
  Sched (schedulingEnabled c) (idleThread c) (currentThread c) (threads c) l (kernelTask c)
    (currentTask c) (currentThreadIndex c) (next_tid c).
Definition set_task (k : Z) (c : sched_state) : sched_state :=
  Sched (schedulingEnabled c) (idleThread c) (currentThread c) (threads c) (tasks c) (kernelTask c)
    k (currentThreadIndex c) (next_tid c).
Definition set_index (i : Z) (c : sched_state) : sched_state :=
  Sched (schedulingEnabled c) (idleThread c) (currentThread c) (threads c) (tasks c) (kernelTask c)
    (currentTask c) i (next_tid c).
Definition set_next_tid (i : Z) (c : sched_state) : sched_state :=
  Sched (schedulingEnabled c) (idleThread c) (currentThread c) (threads c) (tasks c) (kernelTask c)
    (currentTask c) (currentThreadIndex c) i.

(** ** switch_thread.s *)

Definition set_cpu_regs (r : list Z) : ST kstate unit :=
  modify (fun s => let c := k_cpu s in
    set_kcpu (Cpu (cpu_if c) (cpu_status c) (cpu_cr3 c) (cpu_rsp c) r (cpu_rip c)) s).
Definition set_rsp (a : Z) : ST kstate unit :=
  modify (fun s => let c := k_cpu s in
    set_kcpu (Cpu (cpu_if c) (cpu_status c) (cpu_cr3 c) a (cpu_regs c) (cpu_rip c)) s).
Definition set_rip (a : Z) : ST kstate unit :=
  modify (fun s => let c := k_cpu s in
    set_kcpu (Cpu (cpu_if c) (cpu_status c) (cpu_cr3 c) (cpu_rsp c) (cpu_regs c) a) s).

Definition push (v : Z) : ST kstate unit :=
  rsp ← gets (fun s => cpu_rsp (k_cpu s));
  set_rsp (rsp -64 8) ;;
  kstore64 (rsp -64 8) v.
Definition pop : ST kstate Z :=
  rsp ← gets (fun s => cpu_rsp (k_cpu s));
  v ← gets (fun s => load64 (k_mem s) rsp);
  set_rsp (rsp +64 8) ;;
  mret v.

(** [pop r15 ... pop rax]: the register popped last is first in [cpu_regs]. *)
Fixpoint pops (n : nat) (regs : list Z) : ST kstate (list Z) :=
  match n with
  | O => mret regs
  | S n' => v ← pop; pops n' (v :: regs)
  end.

(** The call with [rdi], [rsi] its arguments; [ret] is the address after it. *)
Definition switch_thread (ret newThread oldThread : Z) : ST kstate unit :=
  regs ← gets (fun s => cpu_regs (k_cpu s));
  set_cpu_regs (<[5%nat := oldThread]> (<[6%nat := newThread]> regs)) ;;
  push ret ;;
  regs ← gets (fun s => cpu_regs (k_cpu s));
  forM regs push ;;
  rsp ← gets (fun s => cpu_rsp (k_cpu s));
  kstore64 oldThread rsp ;;
  m ← gets k_mem;
  set_rsp (load64 m newThread) ;;
  regs ← pops 15 [];
  set_cpu_regs regs ;;
  rip ← pop;
  set_rip rip.

Definition switch_task_vas (newTask oldTask : Z) : ST kstate unit :=
  m ← gets k_mem;
  regs ← gets (fun s => cpu_regs (k_cpu s));
  let rcx := load64 m newTask in
  rax ← gets (fun s => cpu_cr3 (k_cpu s));
  set_cpu_regs (<[0%nat := rax]> (<[1%nat := rcx]> regs)) ;;
  if rax =? rcx then skip else write_cr3 rax.

(** ** scheduler.cpp *)

(** [resume] is the address after the call of [switch_thread] in
    [SwitchThread], [str_kernel] and [str_idle] those of two literals. *)
Section Scheduler.
Context (resume str_kernel str_idle : Z).

Definition PrintThreadInfo (tcb : Z) : ST kstate unit :=
  assert_c (negb (tcb =? 0)) "tcb != nullptr" ;;
  m ← gets k_mem;
  klog "sched" "Thread %s: TID %d, Stack: 0x%016p"
    [KNum (threadName m tcb); KNum (threadID m tcb); KNum (stack_top m tcb)].

Definition SwitchTask (task : Z) : ST kstate unit :=
  assert_c (negb (task =? 0)) "task != nullptr" ;;
  curTask ← gets (fun s => currentTask (k_sched s));
  with_sched (set_task task) ;;
  switch_task_vas task curTask.

Definition SwitchThread (newThread : Z) : ST kstate unit :=
  assert_c (negb (newThread =? 0)) "newThread != nullptr" ;;
  curThread ← gets (fun s => currentThread (k_sched s));
  with_sched (set_current newThread) ;;
  switch_thread resume newThread curThread.

Definition threads_push_back (t : Z) : ST kstate unit :=
  l ← gets (fun s => threads (k_sched s));
  l' ← push_back l t;
  with_sched (set_threads l').

Definition Scheduler_Init : ST kstate unit :=
  kt ← gets (fun s => kernelTask (k_sched s));
  kstore32 (kt + 16) (state_code Running) ;;
  kstore64 (kt + 24) str_kernel ;;
  pdir ← gets (fun s => pdir_kernel (k_vmm s));
  kstore64 kt (MEM_VIRT_TO_PHYS pdir) ;;
  kstore64 (kt + 8) 0 ;;
  l ← gets (fun s => tasks (k_sched s));
  l' ← push_back l kt;
  with_sched (set_tasks l') ;;
  idle ← gets (fun s => idleThread (k_sched s));
  kstore64 idle 0 ;;
  kstore64 (idle + 16) str_idle ;;
  kstore64 (idle + 32) 0 ;;
  with_sched (set_current idle) ;;
  with_sched (set_task kt) ;;
  SwitchTask kt ;;
  SwitchThread idle ;;
  threads_push_back idle.

(** The sixteen words of a new thread's stack, from [stack_top] upwards. *)
Definition initial_frame (stack_top function : Z) : list Z :=
  [0; 0; 0; 0; 0; 0; 0; 0; 0; 0; stack_top; 0; 0; 0; 0; function].

Fixpoint store_words (a : Z) (ws : list Z) : ST kstate unit :=
  match ws with
  | [] => skip
  | w :: ws' => kstore64 a w ;; store_words (a + 8) ws'
  end.

(** The increment of the [int] [next_tid] overflows at its largest value. *)
Definition CreateThread (name function : Z) : ST kstate Z :=
  toCreate ← kmalloc TCB_SIZE;
  klog "thread" "Creating thread %s => 0x%16p" [KNum name; KNum function] ;;
  stk ← kmalloc THREAD_STACK_SIZE;
  let stackAddr := stk +64 THREAD_STACK_SIZE in
  kstore64 (toCreate + 16) name ;;
  kstore64 toCreate (stackAddr -64 8 * 16) ;;
  tid ← gets (fun s => next_tid (k_sched s));
  when (tid =? 2147483647) (stop_with (Fault "signed overflow")) ;;
  with_sched (set_next_tid (tid + 1)) ;;
  kstore64 (toCreate + 24) (u64 tid) ;;
  set_state toCreate Ready ;;
  task ← gets (fun s => currentTask (k_sched s));
  non_null task ;;
  m ← gets k_mem;
  kstore64 (toCreate + 32) (task_taskID m task) ;;
  m ← gets k_mem;
  store_words (stack_top m toCreate) (initial_frame (stack_top m toCreate) function) ;;
  threads_push_back toCreate ;;
  mret toCreate.

Definition EnableScheduling : ST kstate unit := with_sched (set_enabled true).
Definition DisableScheduling : ST kstate unit := with_sched (set_enabled false).

Definition maxTries : Z := 500.

(** [if (++currentThreadIndex >= threads.size()) currentThreadIndex = 0;] *)
Definition next_index : ST kstate unit :=
  i ← gets (fun s => currentThreadIndex (k_sched s));
  with_sched (set_index (i +64 1)) ;;
  l ← gets (fun s => threads (k_sched s));
  when (list_size l <=? i +64 1) (with_sched (set_index 0)).

Definition thread_at_index : ST kstate Z :=
  c ← gets k_sched;
  list_at (threads c) (currentThreadIndex c).

(** The [while (true)] loop; [tries] grows to 501 at most. *)
Fixpoint schedule_loop (fuel : nat) (tries : Z) : ST kstate unit :=
  match fuel with
  | O => stop_with OutOfFuel
  | S fuel' =>
      next_index ;;
      new_thread ← thread_at_index;
      non_null new_thread ;;
      st ← gets (fun s => tcb_state (k_mem s) new_thread);
      if negb (st =? state_code Ready) then
        let tries' := tries + 1 in
        if maxTries <? tries' then skip else schedule_loop fuel' tries'
      else
        cur ← gets (fun s => currentThread (k_sched s));
        non_null cur ;;
        set_state cur Ready ;;
        set_state new_thread Running ;;
        t ← thread_at_index;
        SwitchThread t
  end.
Definition schedule_fuel : nat := Z.to_nat (maxTries + 1).

Definition Schedule : ST kstate unit :=
  enabled ← gets (fun s => schedulingEnabled (k_sched s));
  if negb enabled then skip else schedule_loop schedule_fuel 0.

Definition Yield : ST kstate unit := Schedule.

End Scheduler.

(** ** Contexts *)

(** What a thread needs to go on: registers, stack pointer, next instruction. *)
Record context := Ctx { c_regs : list Z; c_rsp : Z; c_rip : Z }.

Definition cpu_ctx (s : kstate) : context :=
  Ctx (cpu_regs (k_cpu s)) (cpu_rsp (k_cpu s)) (cpu_rip (k_cpu s)).

(** The words of a frame, from its lowest address on. *)
Definition frame_words (m : mem) (sp : Z) (n : nat) : list Z :=
  (fun i => load64 m (sp + 8 * i)) <$> seqZ 0 (Z.of_nat n).

(** The context in the frame that [stack_top] points to. *)
Definition saved_ctx (m : mem) (t : Z) : context :=
  Ctx (rev (frame_words m (stack_top m t) 15)) (stack_top m t + 128) (load64 m (stack_top m t + 120)).

(** The context of the running thread at a call of [switch_thread]. *)
Definition call_ctx (ret newThread oldThread : Z) (s : kstate) : context :=
  Ctx (<[5%nat := oldThread]> (<[6%nat := newThread]> (cpu_regs (k_cpu s)))) (cpu_rsp (k_cpu s)) ret.

Definition is_word (v : Z) : Prop := 0 <= v < 2 ^ 64.

(** ** Frames *)

Lemma frame_words_S m sp n :
  frame_words m sp (S n) = frame_words m sp n ++ [load64 m (sp + 8 * Z.of_nat n)].
Proof. unfold frame_words. by rewrite seqZ_S, fmap_app. Qed.

Lemma frame_words_cons m sp n :
  frame_words m sp (S n) = load64 m sp :: frame_words m (sp + 8) n.
Proof.
  unfold frame_words. rewrite Nat2Z.inj_succ, seqZ_cons by lia. cbn [fmap list_fmap].
  f_equal; [f_equal; lia|]. rewrite Z.pred_succ, <- (fmap_add_seqZ 1 0), <- list_fmap_compose.
  apply list_fmap_ext. intros i x _. change (load64 m (sp + 8 * (1 + x)) = load64 m (sp + 8 + 8 * x)). f_equal. lia.
Qed.

Lemma frame_words_ext m m' sp n :
  (forall a, sp <= a < sp + 8 * Z.of_nat n -> mget m' a = mget m a) ->
  frame_words m' sp n = frame_words m sp n.
Proof.
  intros H. apply list_fmap_ext. intros i x Hx. apply lookup_seqZ in Hx as [-> Hi].
  apply (load_ext 8). intros a Ha. apply H. lia.
Qed.

Lemma frame_words_length m sp n : length (frame_words m sp n) = n.
Proof. unfold frame_words. rewrite length_fmap, length_seqZ. lia. Qed.

Lemma set_kmem_twice m m' s : set_kmem m (set_kmem m' s) = set_kmem m s.
Proof. done. Qed.

(** [store_words] lays out a frame. *)
Lemma store_words_run ws a s :
  Forall is_word ws ->
  exists m, store_words a ws s = Done (tt, set_kmem m s) /\
    frame_words m a (length ws) = ws /\ agree_outside m (k_mem s) a (8 * Z.of_nat (length ws)).
Proof.
  revert a s. induction ws as [|w ws IH]; intros a s Hw.
  - exists (k_mem s). split; [by destruct s|]. done.
  - apply Forall_cons in Hw as [Hw Hws]. cbn [store_words length]. unfold kstore64. rewrite modify_bind.
    destruct (IH (a + 8) (set_kmem (store64 (k_mem s) a w) s) Hws) as (m & H1 & H2 & H3).
    exists m. split; [exact H1|]. cbn [k_mem set_kmem] in H3. split.
    + rewrite frame_words_cons, H2. f_equal. transitivity (load64 (store64 (k_mem s) a w) a).
      * apply (load_agree_outside 8 _ _ _ _ _ H3). lia.
      * rewrite load64_store64_eq. apply u64_small. exact Hw.
    + intros b Hb. rewrite H3 by lia. by apply (mget_store_ne 8); lia.
Qed.

Definition cpu_with (regs : list Z) (rsp rip : Z) (c : cpu_state) : cpu_state :=
  Cpu (cpu_if c) (cpu_status c) (cpu_cr3 c) rsp regs rip.

(** Pushing registers makes the frame of their reverse. *)
Lemma pushes_run ws s :
  let rsp := cpu_rsp (k_cpu s) in
  let n := 8 * Z.of_nat (length ws) in
  Forall is_word ws -> n <= rsp < 2 ^ 64 ->
  exists m, forM ws push s = Done (tt, set_kmem m (set_kcpu
      (cpu_with (cpu_regs (k_cpu s)) (rsp - n) (cpu_rip (k_cpu s)) (k_cpu s)) s)) /\
    frame_words m (rsp - n) (length ws) = rev ws /\ agree_outside m (k_mem s) (rsp - n) n.
Proof.
  revert s. induction ws as [|w ws IH]; intros s rsp n Hw Hn.
  - exists (k_mem s). split; [|done]. unfold n, rsp. cbn. rewrite Z.sub_0_r.
    by destruct s as [? ? ? ? ? ? [] ? ? ?].
  - apply Forall_cons in Hw as [Hw Hws]. unfold is_word in Hw. subst rsp n.
    change (2 ^ 64) with 18446744073709551616 in *. cbn [length] in Hn. cbn [forM].

    change (2 ^ 64) with 18446744073709551616 in *.
    match goal with |- context [mbind ?k ?p s] =>
      assert (p s = Done (tt, set_kmem (store64 (k_mem s) (cpu_rsp (k_cpu s) - 8) w) (set_kcpu
        (cpu_with (cpu_regs (k_cpu s)) (cpu_rsp (k_cpu s) - 8) (cpu_rip (k_cpu s)) (k_cpu s)) s))) as Hp
    end.
    { unfold push, set_rsp, kstore64. rewrite gets_bind, modify_bind. by rewrite u64_small by lia. }
    rewrite (bind_done _ _ _ _ _ Hp). clear Hp.
    match goal with |- context [forM ws push ?t] => set (s1 := t) end.
    destruct (IH s1 Hws) as (m & H1 & H2 & H3).
    { cbn [s1 k_cpu set_kmem set_kcpu cpu_rsp cpu_with].
      change (2 ^ 64) with 18446744073709551616. lia. }
    cbn [s1 k_cpu set_kmem set_kcpu cpu_rsp cpu_with cpu_regs cpu_rip k_mem] in H1, H2, H3.
    assert (cpu_rsp (k_cpu s) - 8 - 8 * Z.of_nat (length ws) =
      cpu_rsp (k_cpu s) - 8 * Z.of_nat (length (w :: ws))) as He by (cbn [length]; lia).
    rewrite He in H1, H2, H3. exists m. split; [exact H1|]. cbn [length rev] in *. split.
    + rewrite frame_words_S, H2. f_equal. f_equal.
      transitivity (load64 (store64 (k_mem s) (cpu_rsp (k_cpu s) - 8) w) (cpu_rsp (k_cpu s) - 8)).
      * replace (_ + _) with (cpu_rsp (k_cpu s) - 8) by lia.
        apply (load_agree_outside 8 _ _ _ _ _ H3). lia.
      * rewrite load64_store64_eq. by apply u64_small.
    + intros b Hb. rewrite H3 by lia. apply (mget_store_ne 8). lia.
Qed.

Lemma pops_run n acc s :
  let rsp := cpu_rsp (k_cpu s) in
  0 <= rsp -> rsp + 8 * Z.of_nat n < 2 ^ 64 ->
  pops n acc s = Done (rev (frame_words (k_mem s) rsp n) ++ acc,
    set_kcpu (cpu_with (cpu_regs (k_cpu s)) (rsp + 8 * Z.of_nat n) (cpu_rip (k_cpu s)) (k_cpu s)) s).
Proof.
  revert acc s. induction n as [|n IH]; intros acc s rsp Hr Hn.
  - cbn. unfold rsp. rewrite Z.add_0_r. by destruct s as [? ? ? ? ? ? [] ? ? ?].
  - change (2 ^ 64) with 18446744073709551616 in *. cbn [pops]. unfold pop, set_rsp.
    rewrite (bind_done _ _ s (load64 (k_mem s) rsp) (set_kcpu
      (cpu_with (cpu_regs (k_cpu s)) (rsp + 8) (cpu_rip (k_cpu s)) (k_cpu s)) s)).
    2:{ rewrite !gets_bind, modify_bind. fold rsp. by rewrite u64_small by lia. }
    rewrite IH by (cbn; change (2 ^ 64) with 18446744073709551616; lia). cbn [k_cpu set_kcpu cpu_with cpu_rsp cpu_regs cpu_rip k_mem].
    rewrite frame_words_cons. cbn [rev]. rewrite <- app_assoc.
    replace (rsp + 8 + 8 * Z.of_nat n) with (rsp + 8 * Z.of_nat (S n)) by lia. done.
Qed.

(** ** The context switch *)

Lemma cpu_rsp_with regs rsp rip c : cpu_rsp (cpu_with regs rsp rip c) = rsp.
Proof. done. Qed.

(** A step that only touches the processor or memory. *)
Lemma set_regs_bind {B} r (k : unit -> ST kstate B) s :
  (set_cpu_regs r ≫= k) s =
    k tt (set_kcpu (cpu_with r (cpu_rsp (k_cpu s)) (cpu_rip (k_cpu s)) (k_cpu s)) s).
Proof. done. Qed.
Lemma set_rsp_bind {B} a (k : unit -> ST kstate B) s :
  (set_rsp a ≫= k) s =
    k tt (set_kcpu (cpu_with (cpu_regs (k_cpu s)) a (cpu_rip (k_cpu s)) (k_cpu s)) s).
Proof. done. Qed.
Lemma kstore64_bind {B} a v (k : unit -> ST kstate B) s :
  (kstore64 a v ≫= k) s = k tt (set_kmem (store64 (k_mem s) a v) s).
Proof. done. Qed.
Lemma kstore32_bind {B} a v (k : unit -> ST kstate B) s :
  (kstore32 a v ≫= k) s = k tt (set_kmem (store32 (k_mem s) a v) s).
Proof. done. Qed.
Lemma with_sched_bind {B} f (k : unit -> ST kstate B) s :
  (with_sched f ≫= k) s = k tt (set_ksched (f (k_sched s)) s).
Proof. done. Qed.

Lemma saved_ctx_ext m m' t :
  (forall a, t <= a < t + 8 -> mget m' a = mget m a) ->
  (forall a, stack_top m t <= a < stack_top m t + 128 -> mget m' a = mget m a) ->
  saved_ctx m' t = saved_ctx m t /\ stack_top m' t = stack_top m t.
Proof.
  intros H1 H2. assert (stack_top m' t = stack_top m t) as Ht.
  { apply (load_ext 8). intros a Ha. apply H1. lia. }
  split; [|done]. unfold saved_ctx. rewrite Ht. f_equal.
  - f_equal. apply frame_words_ext. intros a Ha. apply H2. lia.
  - apply (load_ext 8). intros a Ha. apply H2. lia.
Qed.

(** [switch_thread]: the caller's context is saved under the old control block,
    the processor has the context saved under the new one, and only the frame
    and the old [stack_top] are written. *)
Lemma switch_thread_run ret new old s :
  let rsp := cpu_rsp (k_cpu s) in
  let c := call_ctx ret new old s in
  length (cpu_regs (k_cpu s)) = 15%nat -> Forall is_word (c_regs c) -> is_word ret ->
  128 <= rsp < 2 ^ 64 -> old + 8 <= rsp - 128 \/ rsp <= old ->
  (new <> old -> (new + 8 <= rsp - 128 \/ rsp <= new) /\ (new + 8 <= old \/ old + 8 <= new)) ->
  (new <> old -> stack_top (k_mem s) new + 128 < 2 ^ 64) ->
  exists m, switch_thread ret new old s = Done (tt, set_kmem m (set_kcpu
      (cpu_with (c_regs (saved_ctx m new)) (c_rsp (saved_ctx m new)) (c_rip (saved_ctx m new)) (k_cpu s)) s)) /\
    saved_ctx m old = c /\ stack_top m old = rsp - 128 /\
    (forall a, ~ (rsp - 128 <= a < rsp) -> ~ (old <= a < old + 8) -> mget m a = mget (k_mem s) a).
Proof.
  intros rsp c Hlen Hregs Hret Hrsp Hold Hnew Htop.
  change (2 ^ 64) with 18446744073709551616 in *.
  assert (length (c_regs c) = 15%nat) as Hlen' by (by cbn; rewrite !length_insert).
  unfold switch_thread. rewrite gets_bind, set_regs_bind. set (s1 := set_kcpu _ s).
  destruct (pushes_run (ret :: c_regs c) s1) as (m1 & H1 & H2 & H3).
  { by apply Forall_cons. }
  { cbn [length]. rewrite Hlen'. exact Hrsp. }
  cbn [length] in H1, H2, H3. rewrite Hlen' in H1, H2, H3.
  change (8 * Z.of_nat 16) with 128 in H1, H2, H3. fold rsp in H1, H2, H3.
  change (cpu_rsp (k_cpu s1)) with rsp in H1, H2, H3.
  change (cpu_regs (k_cpu s1)) with (c_regs c) in *. change (k_mem s1) with (k_mem s) in *.
  destruct (push ret s1) as [[[] s2]|] eqn:E; cbn [forM] in H1.
  2:{ by rewrite (bind_stopped _ _ _ _ E) in H1. }
  rewrite (bind_done _ _ _ _ _ E) in H1. rewrite (bind_done _ _ _ _ _ E), gets_bind.
  assert (cpu_regs (k_cpu s2) = c_regs c) as -> by (by injection E as <-).
  rewrite (bind_done _ _ _ _ _ H1), gets_bind, kstore64_bind, gets_bind, set_rsp_bind.
  clear H1 E s2. cbn [k_mem k_cpu set_kmem set_kcpu cpu_with cpu_rsp cpu_rip].
  set (m := store64 m1 old (rsp - 128)).
  assert (forall a, ~ (rsp - 128 <= a < rsp) -> ~ (old <= a < old + 8) -> mget m a = mget (k_mem s) a) as Hm.
  { intros a Ha Ho. unfold m. rewrite (mget_store_ne 8) by lia. apply H3. lia. }
  assert (stack_top m old = rsp - 128) as Htold.
  { unfold stack_top, m. rewrite load64_store64_eq. apply u64_small. lia. }
  assert (0 <= stack_top m new /\ stack_top m new + 128 < 18446744073709551616 \/
          new = old) as Htnew.
  { destruct (decide (new = old)) as [|Hne]; [by right|left]. split; [apply load64_range|].
    destruct (Hnew Hne). assert (stack_top m new = stack_top (k_mem s) new) as ->; [|by apply Htop].
    apply (load_ext 8). intros a Ha. apply Hm; lia. }
  exists m. split; [|split; [|split]].
  - change (load64 m new) with (stack_top m new).
    destruct (decide (stack_top m new + 128 < 18446744073709551616)) as [Hok|Hbad].
    + match goal with |- context [(pops 15 [] ≫= _) ?t] => set (s3 := t) end.
      rewrite (bind_done _ _ _ _ _ (pops_run 15 [] s3 ltac:(apply load64_range)
        ltac:(change (2 ^ 64) with 18446744073709551616; cbn [s3 k_cpu set_kcpu cpu_with cpu_rsp]; lia))).
      rewrite set_regs_bind, app_nil_r.
      unfold pop. cbn [s3 k_mem k_cpu set_kmem set_kcpu cpu_with cpu_rsp cpu_rip cpu_regs].
      unfold saved_ctx. cbn [c_regs c_rsp c_rip].
      unfold set_rip, set_rsp, gets, modify, mbind, ST_bind, mret, ST_ret.
      cbn [s3 k_mem k_cpu set_kmem set_kcpu cpu_with cpu_rsp cpu_rip cpu_regs].
      change (8 * Z.of_nat 15) with 120.
      rewrite u64_small by (pose proof (load64_range m new); unfold stack_top in *; lia).
      by replace (stack_top m new + 120 + 8) with (stack_top m new + 128) by lia.
    + destruct Htnew as [?|Heq]; [lia|]. rewrite Heq, Htold in Hbad. lia.
  - rewrite <- (frame_words_ext _ m) in H2.
    2:{ intros a Ha. apply (mget_store_ne 8). lia. }
    cbn [rev] in H2. rewrite frame_words_S in H2. apply app_inj_tail in H2 as [Hf Hr].
    unfold saved_ctx. rewrite Htold, Hf, rev_involutive. change (8 * Z.of_nat 15) with 120 in Hr.
    rewrite Hr, Z.sub_add. done.
  - done.
  - exact Hm.
Qed.

(** ** The invariant of the scheduler *)

(** Where the control blocks, their list nodes and their stacks are. *)
Record layout := Layout {
  ly_nodes : list Z;
  ly_tcbs : list Z;
  ly_lo : Z -> Z;
  ly_hi : Z -> Z;
}.

Definition tcb_byte (t a : Z) : Prop := t <= a < t + TCB_SIZE.
Definition stack_byte (L : layout) (t a : Z) : Prop := ly_lo L t <= a < ly_hi L t.

Definition current (s : kstate) : Z := currentThread (k_sched s).
Definition index (s : kstate) : Z := currentThreadIndex (k_sched s).

(** The places do not overlap. *)
Record layout_ok (L : layout) : Prop := {
  lo_addr : forall t, t ∈ ly_tcbs L ->
    KERNEL_VMB <= t /\ t + TCB_SIZE < 2 ^ 64 /\ 0 <= ly_lo L t /\ ly_hi L t < 2 ^ 64;
  lo_nodup : NoDup (ly_tcbs L);
  lo_tcbs : forall t t' a, t ∈ ly_tcbs L -> t' ∈ ly_tcbs L -> tcb_byte t a -> tcb_byte t' a -> t = t';
  lo_stacks : forall t t' a, t ∈ ly_tcbs L -> t' ∈ ly_tcbs L ->
    stack_byte L t a -> stack_byte L t' a -> t = t';
  lo_stack_tcb : forall t t' a, t ∈ ly_tcbs L -> t' ∈ ly_tcbs L -> stack_byte L t a -> ~ tcb_byte t' a;
  lo_nodes : forall n t a, n ∈ ly_nodes L -> t ∈ ly_tcbs L -> node_byte n a ->
    ~ tcb_byte t a /\ ~ stack_byte L t a;
}.

(** The thread is off the processor, with its frame on its stack. *)
Definition parked (L : layout) (m : mem) (t : Z) : Prop :=
  ly_lo L t <= stack_top m t /\ stack_top m t + 128 <= ly_hi L t.

(** The running thread has room for a frame. *)
Definition has_room (L : layout) (s : kstate) : Prop :=
  ly_lo L (current s) + 128 <= cpu_rsp (k_cpu s) <= ly_hi L (current s) /\
  length (cpu_regs (k_cpu s)) = 15%nat /\ Forall is_word (cpu_regs (k_cpu s)).

Record sched_inv (L : layout) (s : kstate) : Prop := {
  si_layout : layout_ok L;
  si_ready : heap_ready s;
  si_list : list_repr s (threads (k_sched s)) (ly_nodes L) (ly_tcbs L);
  si_current : current s ∈ ly_tcbs L;
  si_index : 0 <= index s < Z.of_nat (length (ly_tcbs L));
  si_client : forall t a, t ∈ ly_tcbs L -> tcb_byte t a \/ stack_byte L t a -> client_byte s a;
  si_parked : forall t, t ∈ ly_tcbs L -> t <> current s -> parked L (k_mem s) t;
  si_room : has_room L s;
  si_running : forall t, t ∈ ly_tcbs L -> t <> current s -> tcb_state (k_mem s) t <> state_code Running;
}.

(** The thread [k] places after the current index, cyclically. *)
Definition nth_after (tcbs : list Z) (i k : Z) : option Z :=
  tcbs !! Z.to_nat ((i + k) mod Z.of_nat (length tcbs)).
Definition is_ready (m : mem) (t : Z) : bool := tcb_state m t =? state_code Ready.

(** [t] is the first ready thread after index [i], [k] places on. *)
Definition chosen (m : mem) (tcbs : list Z) (i k t : Z) : Prop :=
  1 <= k <= maxTries + 1 /\ nth_after tcbs i k = Some t /\ is_ready m t = true /\
  forall k' t', 1 <= k' < k -> nth_after tcbs i k' = Some t' -> is_ready m t' = false.
Definition none_chosen (m : mem) (tcbs : list Z) (i : Z) : Prop :=
  forall k t, 1 <= k <= maxTries + 1 -> nth_after tcbs i k = Some t -> is_ready m t = false.

(** From [s] to [s'] the processor has gone from the current thread to [t]. *)
Record switched (resume : Z) (L : layout) (s : kstate) (i t : Z) (s' : kstate) : Prop := {
  sw_state : s' = set_kmem (k_mem s') (set_kcpu (k_cpu s')
    (set_ksched (set_current t (set_index i (k_sched s))) s));
  sw_cpu : cpu_ctx s' = (if decide (t = current s) then call_ctx resume t t s
                         else saved_ctx (k_mem s) t) /\
    cpu_if (k_cpu s') = cpu_if (k_cpu s) /\ cpu_cr3 (k_cpu s') = cpu_cr3 (k_cpu s);
  sw_saved : saved_ctx (k_mem s') (current s) = call_ctx resume t (current s) s /\
    stack_top (k_mem s') (current s) = cpu_rsp (k_cpu s) - 128;
  sw_states : forall t', t' ∈ ly_tcbs L -> tcb_state (k_mem s') t' =
    if decide (t' = t) then state_code Running
    else if decide (t' = current s) then state_code Ready else tcb_state (k_mem s) t';
  sw_mem : forall a,
    ~ (cpu_rsp (k_cpu s) - 128 <= a < cpu_rsp (k_cpu s)) ->
    ~ (current s <= a < current s + 12) -> ~ (t + 8 <= a < t + 12) ->
    mget (k_mem s') a = mget (k_mem s) a;
}.

(** ** Proofs about one call *)

Section Schedule.
Context (resume : Z).
Hypothesis Hresume : is_word resume.

Lemma nth_after_some tcbs i k : tcbs <> [] -> 0 <= i -> 0 <= k -> exists t, nth_after tcbs i k = Some t.
Proof.
  intros Hne Hi Hk. apply lookup_lt_is_Some. destruct tcbs as [|t tcbs]; [done|].
  pose proof (Z.mod_pos_bound (i + k) (Z.of_nat (length (t :: tcbs))) ltac:(simpl; lia)). lia.
Qed.

Definition at_index (j : Z) (s : kstate) : kstate := set_ksched (set_index j (k_sched s)) s.

Lemma inv_size L s : sched_inv L s -> m_size (threads (k_sched s)) = Z.of_nat (length (ly_tcbs L)) /\
  Z.of_nat (length (ly_tcbs L)) < 2 ^ 63.
Proof.
  intros HI. destruct (si_list _ _ HI) as [Hc _ [Hs Hb] _]. rewrite <- (chain_length _ _ _ _ Hc).
  split; [done|]. pose proof (kh_range _ (hr_ok _ (si_ready _ _ HI))).
  pose proof (kh_limit _ (hr_ok _ (si_ready _ _ HI))).
  unfold KERNEL_VMB in *. change (2 ^ 64) with 18446744073709551616 in *.
  change (2 ^ 63) with 9223372036854775808. lia.
Qed.

Lemma next_index_run L s :
  sched_inv L s -> next_index s = Done (tt, at_index ((index s + 1) mod Z.of_nat (length (ly_tcbs L))) s).
Proof.
  intros HI. destruct (inv_size _ _ HI) as [Hs Hlt]. pose proof (si_index _ _ HI) as Hi.
  change (2 ^ 63) with 9223372036854775808 in Hlt. fold (index s) in *.
  unfold next_index. rewrite gets_bind, with_sched_bind, gets_bind. fold (index s).
  unfold list_size. cbn [k_sched set_ksched threads set_index]. rewrite Hs.
  rewrite u64_small by lia. destruct (Z.of_nat (length (ly_tcbs L)) <=? index s + 1) eqn:E.
  - replace (index s + 1) with (Z.of_nat (length (ly_tcbs L))) by lia. rewrite Z.mod_same by lia. done.
  - rewrite Z.mod_small by lia. done.
Qed.

Lemma inv_at_index L s j :
  0 <= j < Z.of_nat (length (ly_tcbs L)) -> sched_inv L s -> sched_inv L (at_index j s).
Proof.
  intros Hj [? [[? ? ? ?] ?] [? ? ? [? ? ?]] ? ? ? ? ? ?]. by split.
Qed.

Lemma thread_at_run L s t :
  sched_inv L s -> nth_after (ly_tcbs L) (index s) 0 = Some t -> thread_at_index s = Done (t, s).
Proof.
  intros HI Ht. unfold thread_at_index. rewrite gets_bind. pose proof (si_index _ _ HI) as Hi.
  fold (index s). rewrite (list_at_run _ _ _ _ _ (si_list _ _ HI)) by lia.
  unfold nth_after in Ht. rewrite Z.add_0_r, Z.mod_small in Ht by lia. by rewrite Ht.
Qed.

Lemma inv_nonnull L s t : sched_inv L s -> t ∈ ly_tcbs L -> (t =? 0) = false.
Proof.
  intros HI Ht. destruct (lo_addr _ (si_layout _ _ HI) t Ht) as [H _]. unfold KERNEL_VMB in H. lia.
Qed.

(** Tries on threads that are not ready only move the index. *)
Lemma schedule_skip L s k fuel tries :
  sched_inv L s -> tries + Z.of_nat k <= maxTries ->
  (forall k' t', 1 <= k' <= Z.of_nat k -> nth_after (ly_tcbs L) (index s) k' = Some t' ->
     is_ready (k_mem s) t' = false) ->
  schedule_loop resume (k + fuel) tries s =
    schedule_loop resume fuel (tries + Z.of_nat k)
      (at_index ((index s + Z.of_nat k) mod Z.of_nat (length (ly_tcbs L))) s).
Proof.
  revert s tries. induction k as [|k IH]; intros s tries HI Htr Hnr; pose proof (si_index _ _ HI) as Hi.
  - rewrite !Z.add_0_r, Z.mod_small by lia. f_equal. by destruct s as [? ? ? ? [] ? ? ? ? ?].
  - cbn [plus schedule_loop].
    rewrite (bind_done _ _ _ _ _ (next_index_run _ _ HI)).
    set (s1 := at_index _ s).
    assert (ly_tcbs L <> []) as Hne by (intros He; rewrite He in Hi; simpl in Hi; lia).
    destruct (nth_after_some (ly_tcbs L) (index s) 1 Hne ltac:(lia) ltac:(lia)) as [t Ht].
    pose proof (Z.mod_pos_bound (index s + 1) (Z.of_nat (length (ly_tcbs L))) ltac:(lia)) as Hmod.
    assert (sched_inv L s1) as HI1 by (by apply inv_at_index).
    assert (nth_after (ly_tcbs L) (index s1) 0 = Some t) as Ht1.
    { unfold nth_after in *. cbn. rewrite Z.add_0_r, Z.mod_mod by lia. done. }
    rewrite (bind_done _ _ _ _ _ (thread_at_run _ _ _ HI1 Ht1)).
    assert (t ∈ ly_tcbs L) as Hin by (by eapply list_elem_of_lookup_2).
    unfold non_null. rewrite (inv_nonnull _ _ _ HI Hin), (bind_done (when false _) _ s1 tt s1), gets_bind by done.
    change (k_mem s1) with (k_mem s).
    pose proof (Hnr 1 t ltac:(lia) Ht) as Hr. unfold is_ready in Hr. rewrite Hr. cbn [negb].
    assert ((maxTries <? tries + 1) = false) as -> by lia.
    rewrite IH; [|done|lia|].
    + change (index s1) with ((index s + 1) mod Z.of_nat (length (ly_tcbs L))).
      rewrite Zplus_mod_idemp_l.
      replace (index s + 1 + Z.of_nat k) with (index s + Z.of_nat (S k)) by lia.
      by replace (tries + 1 + Z.of_nat k) with (tries + Z.of_nat (S k)) by lia.
    + intros k' t' Hk' Ht'. apply (Hnr (k' + 1) t'); [lia|]. rewrite <- Ht'. unfold nth_after.
      change (index s1) with ((index s + 1) mod Z.of_nat (length (ly_tcbs L))).
      rewrite Zplus_mod_idemp_l. by replace (index s + (k' + 1)) with (index s + 1 + k') by lia.
Qed.

Lemma apart_intervals a la b lb :
  0 < la -> 0 < lb -> (forall x, a <= x < a + la -> b <= x < b + lb -> False) ->
  a + la <= b \/ b + lb <= a.
Proof. intros Hla Hlb H. specialize (H (Z.max a b)). lia. Qed.

(** Facts about the places, as intervals. *)
Lemma frame_tcb L s t :
  sched_inv L s -> t ∈ ly_tcbs L ->
  t + TCB_SIZE <= cpu_rsp (k_cpu s) - 128 \/ cpu_rsp (k_cpu s) <= t.
Proof.
  intros HI Ht. pose proof (si_room _ _ HI) as [Hr _].
  replace (cpu_rsp (k_cpu s)) with (cpu_rsp (k_cpu s) - 128 + 128) at 2 by lia.
  apply apart_intervals; [unfold TCB_SIZE; lia|lia|]. intros x H1 H2.
  apply (lo_stack_tcb _ (si_layout _ _ HI) (current s) t x (si_current _ _ HI) Ht); [|done].
  unfold stack_byte. lia.
Qed.

Lemma tcbs_apart L t t' :
  layout_ok L -> t ∈ ly_tcbs L -> t' ∈ ly_tcbs L -> t <> t' ->
  t + TCB_SIZE <= t' \/ t' + TCB_SIZE <= t.
Proof.
  intros HL Ht Ht' Hne. apply apart_intervals; [by unfold TCB_SIZE..|].
  intros x H1 H2. by apply Hne, (lo_tcbs _ HL t t' x).
Qed.

(** A saved frame of one thread is apart from what the switch writes. *)
Lemma saved_apart L s t a :
  sched_inv L s -> t ∈ ly_tcbs L -> t <> current s -> stack_byte L t a ->
  ~ (cpu_rsp (k_cpu s) - 128 <= a < cpu_rsp (k_cpu s)) /\
  forall t', t' ∈ ly_tcbs L -> ~ tcb_byte t' a.
Proof.
  intros HI Ht Hne Ha. split; [|intros t' Ht'; exact (lo_stack_tcb _ (si_layout _ _ HI) t t' a Ht Ht' Ha)].
  intros Hf. apply Hne. eapply (lo_stacks _ (si_layout _ _ HI)); [done|apply HI|done|].
  pose proof (si_room _ _ HI) as [Hr _]. unfold stack_byte. lia.
Qed.

(** Scheduler state with other memory, same places. *)
Lemma list_kept_mem L s s' :
  sched_inv L s -> k_heap s' = k_heap s -> k_pmm s' = k_pmm s ->
  threads (k_sched s') = threads (k_sched s) ->
  (forall n a, n ∈ ly_nodes L -> node_byte n a -> mget (k_mem s') a = mget (k_mem s) a) ->
  list_repr s' (threads (k_sched s')) (ly_nodes L) (ly_tcbs L).
Proof.
  intros HI Hh Hp Ht Hm. rewrite Ht. apply (repr_kept s); [|by rewrite Hh|apply HI].
  intros n a Hn Ha. split; [|by apply (Hm n)].
  pose proof (no_client _ _ (lr_nodes _ _ _ _ (si_list _ _ HI)) n a Hn Ha) as [H1 H2].
  split; [by rewrite Hh|]. unfold bitmap_byte in *. by rewrite Hp.
Qed.

Lemma store_state_get m t st a :
  ~ (t + 8 <= a < t + 12) -> mget (store32 m (t + 8) st) a = mget m a.
Proof. intros H. apply (mget_store_ne 4). lia. Qed.

Lemma load_state_eq m t st : tcb_state (store32 m (t + 8) (state_code st)) t = state_code st.
Proof. unfold tcb_state. rewrite (load_store_eq 4). by destruct st. Qed.

Definition switch_to (t : Z) : ST kstate unit :=
  cur ← gets (fun s => currentThread (k_sched s));
  non_null cur ;;
  set_state cur Ready ;;
  set_state t Running ;;
  t' ← thread_at_index;
  SwitchThread resume t'.

Lemma load_state_get m m' t :
  (forall a, t + 8 <= a < t + 12 -> mget m' a = mget m a) -> tcb_state m' t = tcb_state m t.
Proof. intros H. apply (load_ext 4). intros a Ha. apply H. lia. Qed.

Lemma load_top_get m m' t :
  (forall a, t <= a < t + 8 -> mget m' a = mget m a) -> stack_top m' t = stack_top m t.
Proof. intros H. apply (load_ext 8). intros a Ha. apply H. lia. Qed.

Lemma is_word_addr L t : layout_ok L -> t ∈ ly_tcbs L -> is_word t.
Proof.
  intros HL Ht. destruct (lo_addr _ HL t Ht) as (H1 & H2 & _).
  unfold is_word, KERNEL_VMB, TCB_SIZE in *. lia.
Qed.

Lemma saved_words m t : length (c_regs (saved_ctx m t)) = 15%nat /\ Forall is_word (c_regs (saved_ctx m t)).
Proof.
  cbn [saved_ctx c_regs]. rewrite length_rev, frame_words_length. split; [done|].
  apply Forall_rev, Forall_fmap, Forall_forall. intros i _. apply load64_range.
Qed.

Lemma switch_to_mem L s t :
  sched_inv L s -> nth_after (ly_tcbs L) (index s) 0 = Some t ->
  exists s', switch_to t s = Done (tt, s') /\ switched resume L s (index s) t s'.
Proof.
  intros HI Ht. assert (t ∈ ly_tcbs L) as Hin by (by eapply list_elem_of_lookup_2).
  set (cur := current s). pose proof (si_current _ _ HI) as Hcin. fold cur in Hcin.
  pose proof (si_layout _ _ HI) as HL. pose proof (si_room _ _ HI) as (Hrsp & Hlen & Hregs).
  destruct (lo_addr _ HL cur Hcin) as (_ & _ & Hlo & Hhi). fold cur in Hrsp.
  set (m2 := store32 (store32 (k_mem s) (cur + 8) (state_code Ready)) (t + 8) (state_code Running)).
  assert (forall a, ~ (cur + 8 <= a < cur + 12) -> ~ (t + 8 <= a < t + 12) -> mget m2 a = mget (k_mem s) a) as Hm2.
  { intros a H1 H2. unfold m2. by rewrite !store_state_get. }
  set (s2 := set_kmem m2 s).
  assert (thread_at_index s2 = Done (t, s2)) as Hat.
  { assert (list_repr s2 (threads (k_sched s2)) (ly_nodes L) (ly_tcbs L)) as Hl2.
    { apply (list_kept_mem L s s2); try done. intros n a Hn Ha.
      destruct (lo_nodes _ HL n cur a Hn Hcin Ha) as [H1 _], (lo_nodes _ HL n t a Hn Hin Ha) as [H2 _].
      unfold tcb_byte, TCB_SIZE in *. apply Hm2; lia. }
    pose proof (si_index _ _ HI). unfold thread_at_index. rewrite gets_bind.
    change (currentThreadIndex (k_sched s2)) with (index s).
    rewrite (list_at_run _ _ _ _ _ Hl2) by lia.
    unfold nth_after in Ht. rewrite Z.add_0_r, Z.mod_small in Ht by lia. by rewrite Ht. }
  unfold switch_to. rewrite gets_bind. fold (current s) cur. unfold non_null.
  rewrite (inv_nonnull _ _ _ HI Hcin), (bind_done (when false _) _ s tt s) by done.
  unfold set_state. rewrite !kstore32_bind. rewrite set_kmem_twice.
  change (set_kmem _ s) with s2. rewrite (bind_done _ _ _ _ _ Hat).
  unfold SwitchThread. rewrite assert_bind by (by rewrite (inv_nonnull _ _ _ HI Hin)).
  rewrite gets_bind, with_sched_bind. change (currentThread (k_sched s2)) with cur.
  set (s3 := set_ksched _ s2).
  pose proof (frame_tcb L s cur HI Hcin) as Hfc. pose proof (frame_tcb L s t HI Hin) as Hft.
  unfold TCB_SIZE in Hfc, Hft. change (2 ^ 64) with 18446744073709551616 in *.
  destruct (switch_thread_run resume t cur s3) as (m & Hrun & Hs1 & Hs2 & Hs3); try done.
  - cbn. by repeat apply Forall_insert; [|by eapply is_word_addr..].
  - change (cpu_rsp (k_cpu s3)) with (cpu_rsp (k_cpu s)). change (2 ^ 64) with 18446744073709551616. lia.
  - change (cpu_rsp (k_cpu s3)) with (cpu_rsp (k_cpu s)). lia.
  - intros Hne. change (cpu_rsp (k_cpu s3)) with (cpu_rsp (k_cpu s)).
    destruct (tcbs_apart _ _ _ HL Hin Hcin Hne); unfold TCB_SIZE in *; lia.
  - intros Hne. change (k_mem s3) with m2.
    rewrite (load_top_get (k_mem s) m2).
    + destruct (si_parked _ _ HI t Hin Hne) as [_ Hp]. destruct (lo_addr _ HL t Hin) as (_ & _ & _ & Hhi').
      change (2 ^ 64) with 18446744073709551616 in *. lia.
    + intros a Ha. destruct (tcbs_apart _ _ _ HL Hin Hcin Hne); unfold TCB_SIZE in *; apply Hm2; lia.
  - eexists. split; [exact Hrun|]. change (cpu_rsp (k_cpu s3)) with (cpu_rsp (k_cpu s)) in *.
    change (k_mem s3) with m2 in Hs3.
    assert (forall a, ~ (cpu_rsp (k_cpu s) - 128 <= a < cpu_rsp (k_cpu s)) ->
      ~ (cur <= a < cur + 12) -> ~ (t + 8 <= a < t + 12) -> mget m a = mget (k_mem s) a) as Hm.
    { intros a H1 H2 H3. rewrite Hs3 by lia. apply Hm2; lia. }
    split.
    + cbn. destruct s as [? ? ? ? [] ? ? ? ? ?]. done.
    + split; [|done]. case_decide as Hd.
      * cbn [k_mem set_kmem k_cpu cpu_ctx]. unfold cpu_ctx. cbn [k_cpu set_kmem set_kcpu cpu_with cpu_regs cpu_rsp cpu_rip].
        rewrite Hd. change (current s) with cur. rewrite Hs1, Hd. done.
      * assert (saved_ctx m t = saved_ctx (k_mem s) t) as Heq.
        { apply saved_ctx_ext.
          - intros a Ha. destruct (tcbs_apart _ _ _ HL Hin Hcin Hd); unfold TCB_SIZE in *; apply Hm; lia.
          - intros a Ha. destruct (si_parked _ _ HI t Hin Hd) as [Hp1 Hp2].
            destruct (saved_apart L s t a HI Hin Hd) as [Hf Ht']; [unfold stack_byte; lia|].
            pose proof (Ht' _ Hin). pose proof (Ht' _ Hcin). unfold tcb_byte, TCB_SIZE in *. apply Hm; lia. }
        by rewrite <- Heq.
    + by split.
    + intros t' Ht'. cbn [k_mem set_kmem].
      assert (tcb_state m t' = tcb_state m2 t') as ->.
      { apply load_state_get. intros a Ha. pose proof (frame_tcb L s t' HI Ht') as Hf.
        unfold TCB_SIZE in Hf. apply Hs3; [lia|]. destruct (decide (t' = cur)) as [->|Hne]; [lia|].
        destruct (tcbs_apart _ _ _ HL Ht' Hcin Hne); unfold TCB_SIZE in *; lia. }
      unfold m2. destruct (decide (t' = t)) as [->|Hne]; [apply load_state_eq|].
      rewrite (load_state_get (store32 (k_mem s) (cur + 8) (state_code Ready))).
      2:{ intros a Ha. apply store_state_get.
          destruct (tcbs_apart _ _ _ HL Ht' Hin Hne); unfold TCB_SIZE in *; lia. }
      fold cur. destruct (decide (t' = cur)) as [->|Hne']; [apply load_state_eq|].
      apply load_state_get. intros a Ha. apply store_state_get.
      destruct (tcbs_apart _ _ _ HL Ht' Hcin Hne'); unfold TCB_SIZE in *; lia.
    + intros a H1 H2 H3. by apply Hm.
Qed.

(** A switch keeps the invariant. *)
Lemma switched_inv L s i t s' :
  sched_inv L s -> t ∈ ly_tcbs L -> 0 <= i < Z.of_nat (length (ly_tcbs L)) ->
  switched resume L s i t s' -> sched_inv L s'.
Proof.
  intros HI Ht Hi [Hst (Hcpu & _ & _) [Hsv Htop] Hstates Hmem].
  pose proof (si_layout _ _ HI) as HL. pose proof (si_current _ _ HI) as Hcin.
  pose proof (si_room _ _ HI) as (Hrsp & Hlen & Hregs).
  assert (current s' = t) as Hcur by (by rewrite Hst).
  assert (index s' = i) as Hidx by (by rewrite Hst).
  assert (k_heap s' = k_heap s) as Hh by (by rewrite Hst).
  assert (k_pmm s' = k_pmm s) as Hp by (by rewrite Hst).
  assert (threads (k_sched s') = threads (k_sched s)) as Hth by (by rewrite Hst).
  assert (forall a, client_byte s a -> client_byte s' a) as Hcl.
  { intros a [H1 H2]. split; [by rewrite Hh|]. unfold bitmap_byte in *. by rewrite Hp. }
  assert (forall t' a, t' ∈ ly_tcbs L -> t' <> current s -> t' <> t -> tcb_byte t' a \/ stack_byte L t' a ->
    mget (k_mem s') a = mget (k_mem s) a) as Hother.
  { intros t' a Ht' H1 H2 Ha. assert (~ tcb_byte (current s) a /\ ~ tcb_byte t a /\
      ~ (cpu_rsp (k_cpu s) - 128 <= a < cpu_rsp (k_cpu s))) as (G1 & G2 & G3).
    { destruct Ha as [Ha|Ha].
      - split; [|split].
        + intros Hb. by apply H1, (lo_tcbs _ HL t' (current s) a).
        + intros Hb. by apply H2, (lo_tcbs _ HL t' t a).
        + pose proof (frame_tcb L s t' HI Ht'). unfold tcb_byte in Ha. lia.
      - destruct (saved_apart L s t' a HI Ht' H1 Ha) as [Hf Hb]. split; [|split]; auto. }
    unfold tcb_byte, TCB_SIZE in *. apply Hmem; lia. }
  split; try done.
  - destruct (si_ready _ _ HI) as [[R1 R2 R3 R4] R5]. unfold bitmap_byte in *.
    split; [split|]; unfold bitmap_byte; rewrite ?Hh, ?Hp; done.
  - apply (list_kept_mem L s s'); try done. intros n a Hn Ha.
    destruct (lo_nodes _ HL n (current s) a Hn Hcin Ha) as [H1 H2].
    destruct (lo_nodes _ HL n t a Hn Ht Ha) as [H3 _].
    unfold tcb_byte, stack_byte, TCB_SIZE in *. apply Hmem; lia.
  - by rewrite Hcur.
  - by rewrite Hidx.
  - intros t' a Ht' Ha. apply Hcl. by eapply si_client.
  - rewrite Hcur. intros t' Ht' Hne. destruct (decide (t' = current s)) as [->|Hne'].
    + unfold parked. rewrite Htop. lia.
    + destruct (si_parked _ _ HI t' Ht' Hne') as [H1 H2]. unfold parked.
      rewrite (load_top_get (k_mem s) (k_mem s')); [done|]. intros a Ha.
      apply (Hother t'); try done. left. unfold tcb_byte, TCB_SIZE. lia.
  - unfold has_room. rewrite Hcur. pose proof (f_equal c_regs Hcpu) as Hr1.
    pose proof (f_equal c_rsp Hcpu) as Hr2. cbn [cpu_ctx c_regs c_rsp] in Hr1, Hr2. rewrite Hr1, Hr2.
    case_decide as Hd.
    + cbn. rewrite Hd in *. rewrite !length_insert. repeat split; [lia|lia|done|].
      repeat apply Forall_insert; try done; by eapply is_word_addr.
    + destruct (si_parked _ _ HI t Ht Hd) as [H1 H2]. cbn [c_rsp saved_ctx].
      split; [lia|]. apply saved_words.
  - rewrite Hcur. intros t' Ht' Hne. rewrite Hstates by done. rewrite decide_False by done.
    destruct (decide (t' = current s)); [intros [=]|]. by apply (si_running _ _ HI).
Qed.

Lemma schedule_loop_hit L s k t tries fuel :
  sched_inv L s -> chosen (k_mem s) (ly_tcbs L) (index s) k t ->
  schedule_loop resume (S fuel) tries (at_index ((index s + (k - 1)) mod Z.of_nat (length (ly_tcbs L))) s) =
    switch_to t (at_index ((index s + k) mod Z.of_nat (length (ly_tcbs L))) s).
Proof.
  intros HI (Hk & Ht & Hr & _). pose proof (si_index _ _ HI) as Hi.
  set (s0 := at_index _ s). cbn [schedule_loop].
  pose proof (Z.mod_pos_bound (index s + (k - 1)) (Z.of_nat (length (ly_tcbs L))) ltac:(lia)) as Hm1.
  pose proof (Z.mod_pos_bound (index s + k) (Z.of_nat (length (ly_tcbs L))) ltac:(lia)) as Hm2.
  assert (sched_inv L s0) as HI0 by (by apply inv_at_index).
  rewrite (bind_done _ _ _ _ _ (next_index_run _ _ HI0)).
  change (index s0) with ((index s + (k - 1)) mod Z.of_nat (length (ly_tcbs L))).
  rewrite Zplus_mod_idemp_l. replace (index s + (k - 1) + 1) with (index s + k) by lia.
  set (s1 := at_index _ s0).
  assert (sched_inv L s1) as HI1 by (by apply inv_at_index).
  assert (nth_after (ly_tcbs L) (index s1) 0 = Some t) as Ht1.
  { unfold nth_after in *. cbn. rewrite Z.add_0_r, Z.mod_mod by lia. done. }
  rewrite (bind_done _ _ _ _ _ (thread_at_run _ _ _ HI1 Ht1)).
  assert (t ∈ ly_tcbs L) as Hin by (by eapply list_elem_of_lookup_2).
  unfold non_null. rewrite (inv_nonnull _ _ _ HI Hin), (bind_done (when false _) _ s1 tt s1), gets_bind by done.
  change (k_mem s1) with (k_mem s). unfold is_ready in Hr. rewrite Hr. done.
Qed.

(** [Schedule] when scheduling is on. *)
Lemma schedule_hit L s k t :
  sched_inv L s -> schedulingEnabled (k_sched s) = true ->
  chosen (k_mem s) (ly_tcbs L) (index s) k t ->
  exists s', Schedule resume s = Done (tt, s') /\
    switched resume L s ((index s + k) mod Z.of_nat (length (ly_tcbs L))) t s' /\ sched_inv L s'.
Proof.
  intros HI Hen Hch. pose proof Hch as (Hk & Ht & _ & Hbefore). pose proof (si_index _ _ HI) as Hi.
  unfold maxTries in Hk.
  unfold Schedule. rewrite gets_bind, Hen. cbn [negb].
  replace schedule_fuel with (Z.to_nat (k - 1) + S (Z.to_nat (501 - k)))%nat
    by (unfold schedule_fuel, maxTries; lia).
  rewrite (schedule_skip L) by first [assumption|unfold maxTries; lia|intros k' t' Hk'; apply Hbefore; lia].
  rewrite Z2Nat.id by lia.
  rewrite (schedule_loop_hit L s k t) by done.
  pose proof (Z.mod_pos_bound (index s + k) (Z.of_nat (length (ly_tcbs L))) ltac:(lia)) as Hm2.
  destruct (switch_to_mem L (at_index ((index s + k) mod Z.of_nat (length (ly_tcbs L))) s) t)
    as (s' & Hrun & Hsw).
  { by apply inv_at_index. }
  { unfold nth_after in *. cbn. rewrite Z.add_0_r, Z.mod_mod by lia. done. }
  exists s'. split; [exact Hrun|].
  assert (switched resume L s ((index s + k) mod Z.of_nat (length (ly_tcbs L))) t s') as Hsw'.
  { destruct Hsw as [H1 H2 H3 H4 H5]. by split. }
  split; [done|]. eapply switched_inv; [done| |done|done]. by eapply list_elem_of_lookup_2.
Qed.

Lemma schedule_none L s :
  sched_inv L s -> schedulingEnabled (k_sched s) = true ->
  none_chosen (k_mem s) (ly_tcbs L) (index s) ->
  Schedule resume s = Done (tt, at_index ((index s + (maxTries + 1)) mod Z.of_nat (length (ly_tcbs L))) s).
Proof.
  intros HI Hen Hnone. pose proof (si_index _ _ HI) as Hi. unfold Schedule.
  rewrite gets_bind, Hen. cbn [negb]. replace schedule_fuel with (500 + 1)%nat by done.
  rewrite (schedule_skip L) by first [assumption|unfold maxTries; lia|intros k' t' Hk'; apply Hnone; unfold maxTries; lia].
  change (Z.of_nat 500) with 500. change (maxTries + 1) with 501. set (n := Z.of_nat (length (ly_tcbs L))) in *.
  pose proof (Z.mod_pos_bound (index s + 500) n ltac:(lia)) as Hm1.
  pose proof (Z.mod_pos_bound (index s + 501) n ltac:(lia)) as Hm2.
  set (s0 := at_index _ s). cbn [schedule_loop].
  assert (sched_inv L s0) as HI0 by (by apply inv_at_index).
  rewrite (bind_done _ _ _ _ _ (next_index_run _ _ HI0)).
  change (index s0) with ((index s + 500) mod n). fold n.
  rewrite Zplus_mod_idemp_l. replace (index s + 500 + 1) with (index s + 501) by lia.
  set (s1 := at_index _ s0). assert (sched_inv L s1) as HI1 by (by apply inv_at_index).
  assert (ly_tcbs L <> []) as Hne by (intros He; unfold n in *; rewrite He in Hi; simpl in Hi; lia).
  destruct (nth_after_some (ly_tcbs L) (index s) 501 Hne ltac:(lia) ltac:(lia)) as [t Ht].
  assert (nth_after (ly_tcbs L) (index s1) 0 = Some t) as Ht1.
  { unfold nth_after in *. cbn [s1 at_index k_sched set_ksched index currentThreadIndex set_index].
    change (index s1) with ((index s + 501) mod n). fold n. rewrite Z.add_0_r, Z.mod_mod by lia. done. }
  rewrite (bind_done _ _ _ _ _ (thread_at_run _ _ _ HI1 Ht1)).
  assert (t ∈ ly_tcbs L) as Hin by (by eapply list_elem_of_lookup_2).
  unfold non_null. rewrite (inv_nonnull _ _ _ HI Hin), (bind_done (when false _) _ s1 tt s1), gets_bind by done.
  change (k_mem s1) with (k_mem s). pose proof (Hnone 501 t ltac:(unfold maxTries; lia) Ht) as Hr.
  unfold is_ready in Hr. rewrite Hr. done.
Qed.

Lemma schedule_off s : schedulingEnabled (k_sched s) = false -> Schedule resume s = Done (tt, s).
Proof. intros H. unfold Schedule. by rewrite gets_bind, H. Qed.

(** One of the cases holds. *)
Lemma chosen_dec m tcbs i :
  tcbs <> [] -> 0 <= i -> (exists k t, chosen m tcbs i k t) \/ none_chosen m tcbs i.
Proof.
  intros Hne Hi.
  cut (forall n : nat, (exists k t, chosen m tcbs i k t) \/
    forall k t, 1 <= k <= Z.of_nat n -> k <= maxTries + 1 -> nth_after tcbs i k = Some t -> is_ready m t = false).
  { intros H. destruct (H (Z.to_nat (maxTries + 1))) as [?|Hn]; [by left|right].
    intros k t Hk. apply Hn; unfold maxTries in *; lia. }
  induction n as [|n [IH|IH]]; [right; lia|by left|].
  destruct (decide (Z.of_nat (S n) <= maxTries + 1)) as [Hle|Hgt].
  2:{ right. intros k t Hk Hk'. apply IH; lia. }
  destruct (nth_after_some tcbs i (Z.of_nat (S n)) Hne Hi ltac:(lia)) as [t Ht].
  destruct (is_ready m t) eqn:E.
  - left. exists (Z.of_nat (S n)), t. split; [lia|]. split; [done|]. split; [done|].
    intros k' t' Hk'. apply IH; lia.
  - right. intros k t' Hk Hk' Ht'. destruct (decide (k = Z.of_nat (S n))) as [->|].
    + rewrite Ht in Ht'. by injection Ht' as <-.
    + apply (IH k); (done || lia).
Qed.

End Schedule.

(** ** A new thread *)

(** The context a new thread starts with: all registers 0 but [rbp]. *)
Definition start_ctx (stackAddr function : Z) : context :=
  Ctx [0; 0; 0; 0; stackAddr - 128; 0; 0; 0; 0; 0; 0; 0; 0; 0; 0] stackAddr function.

Definition add_thread (L : layout) (node t stk : Z) : layout :=
  Layout (ly_nodes L ++ [node]) (ly_tcbs L ++ [t])
    (fun x => if decide (x = t) then stk else ly_lo L x)
    (fun x => if decide (x = t) then stk + THREAD_STACK_SIZE else ly_hi L x).

(** The heap has room for [CreateThread]. *)
Definition create_ok (s : kstate) (name function : Z) : Prop :=
  earlyAllocLimit (k_heap s) + 8 + THREAD_STACK_SIZE < 2 ^ 64 /\
  currentTask (k_sched s) <> 0 /\
  (forall a, currentTask (k_sched s) <= a < currentTask (k_sched s) + 16 -> client_byte s a) /\
  0 <= next_tid (k_sched s) < 2147483647 /\ is_word name /\ is_word function.

(** What [CreateThread] has made in [m]. *)
Record new_thread (m : mem) (t stk name function tid task : Z) : Prop := {
  nt_name : threadName m t = name;
  nt_tid : threadID m t = tid;
  nt_state : tcb_state m t = state_code Ready;
  nt_task : tcb_taskID m t = task;
  nt_top : stack_top m t = stk + THREAD_STACK_SIZE - 128;
  nt_ctx : saved_ctx m t = start_ctx (stk + THREAD_STACK_SIZE) function;
}.

Lemma new_thread_ext m m' t stk name function tid task :
  (forall a, tcb_byte t a \/ stk <= a < stk + THREAD_STACK_SIZE -> mget m' a = mget m a) ->
  new_thread m t stk name function tid task -> new_thread m' t stk name function tid task.
Proof.
  intros Hm [H1 H2 H3 H4 H5 H6]. unfold tcb_byte, TCB_SIZE, THREAD_STACK_SIZE in *.
  assert (forall k, 0 <= k <= 32 -> load64 m' (t + k) = load64 m (t + k)) as Hl.
  { intros k Hk. apply (load_ext 8). intros a Ha. apply Hm. lia. }
  destruct (saved_ctx_ext m m' t) as [E1 E2].
  { intros a Ha. apply Hm. lia. }
  { rewrite H5. intros a Ha. apply Hm. lia. }
  split; unfold threadName, threadID, tcb_taskID in *; rewrite ?Hl by lia; try done.
  - rewrite <- H3. apply load_state_get. intros a Ha. apply Hm. lia.
  - by rewrite E2.
  - by rewrite E1.
Qed.

Section Create.
Context (t stk name function tid task : Z).
Hypothesis Ht : 0 <= t.
Hypothesis Hapart : t + TCB_SIZE <= stk.
Hypothesis Hstk : stk + THREAD_STACK_SIZE < 2 ^ 64.
Hypothesis Hname : is_word name.
Hypothesis Hfun : is_word function.
Hypothesis Htask : is_word task.
Hypothesis Htid : 0 <= tid < 2147483647.

(** The memory before the frame is written. *)
Definition create_fields (m : mem) : mem :=
  let top := stk + THREAD_STACK_SIZE - 128 in
  store64 (store32 (store64 (store64 (store64 m (t + 16) name) t top) (t + 24) tid)
    (t + 8) (state_code Ready)) (t + 32) task.

Lemma create_fields_top m : stack_top (create_fields m) t = stk + THREAD_STACK_SIZE - 128.
Proof.
  unfold is_word, THREAD_STACK_SIZE, TCB_SIZE, stack_top, create_fields in *.
  change (2 ^ 64) with 18446744073709551616 in *.
  rewrite load64_store64_ne by lia. unfold load64, store32. rewrite (load_store_ne 4 8) by lia.
  fold load64. rewrite load64_store64_ne by lia. rewrite load64_store64_eq.
  apply u64_small. lia.
Qed.

Lemma create_frame_run s :
  let top := stk + THREAD_STACK_SIZE - 128 in
  exists m, store_words top (initial_frame top function) (set_kmem (create_fields (k_mem s)) s)
      = Done (tt, set_kmem m s) /\
    new_thread m t stk name function tid task /\
    (forall a, ~ tcb_byte t a -> ~ (stk <= a < stk + THREAD_STACK_SIZE) -> mget m a = mget (k_mem s) a).
Proof.
  intros top. unfold is_word, THREAD_STACK_SIZE, TCB_SIZE in *.
  change (2 ^ 64) with 18446744073709551616 in *. cbn in top.
  assert (Forall is_word (initial_frame top function)) as Hw.
  { unfold is_word. change (2 ^ 64) with 18446744073709551616. unfold initial_frame, top.
    repeat apply Forall_cons_2; try lia. apply Forall_nil_2. }
  destruct (store_words_run _ top (set_kmem (create_fields (k_mem s)) s) Hw) as (m & H1 & H2 & H3).
  exists m. split; [exact H1|]. change (8 * Z.of_nat _) with 128 in H3.
  change (length _) with 16%nat in H2. cbn [k_mem set_kmem] in H3.
  assert (forall b, t <= b -> b + 8 <= t + 40 -> load64 m b = load64 (create_fields (k_mem s)) b) as Hl.
  { intros b Hb1 Hb2. apply (load_agree_outside 8 _ _ _ _ _ H3). unfold top. lia. }
  assert (stack_top m t = top) as Htop.
  { unfold stack_top. rewrite Hl by lia. exact (create_fields_top (k_mem s)). }
  split; [split|].
  - unfold threadName. rewrite Hl by lia. unfold create_fields, store32.
    rewrite load64_store64_ne by lia. unfold load64. rewrite (load_store_ne 4 8) by lia.
    fold load64. rewrite !load64_store64_ne by lia. rewrite load64_store64_eq. apply u64_small. lia.
  - unfold threadID. rewrite Hl by lia. unfold create_fields, store32.
    rewrite load64_store64_ne by lia. unfold load64. rewrite (load_store_ne 4 8) by lia.
    fold load64. rewrite load64_store64_eq. apply u64_small. lia.
  - unfold tcb_state, load32. rewrite (load_agree_outside 4 _ _ _ _ _ H3) by (unfold top; lia).
    unfold create_fields. unfold store64. rewrite (load_store_ne 8 4) by lia. apply load_state_eq.
  - unfold tcb_taskID. rewrite Hl by lia. unfold create_fields. rewrite load64_store64_eq.
    apply u64_small. lia.
  - rewrite Htop. unfold top, THREAD_STACK_SIZE. lia.
  - unfold saved_ctx. rewrite Htop. unfold start_ctx. rewrite frame_words_S in H2.
    change (initial_frame top function) with
      ([0; 0; 0; 0; 0; 0; 0; 0; 0; 0; top; 0; 0; 0; 0] ++ [function]) in H2.
    apply app_inj_tail in H2 as [Hf Hr]. rewrite Hf. cbn [rev app].
    change (8 * Z.of_nat 15) with 120 in Hr. rewrite Hr. unfold top, THREAD_STACK_SIZE.
    by rewrite Z.sub_add.
  - intros a Ha1 Ha2. unfold tcb_byte, TCB_SIZE in Ha1. rewrite H3 by (unfold top; lia).
    unfold create_fields, store64, store32. by rewrite !mget_store_ne by lia.
Qed.
End Create.

(** What the components see of [CreateThread]. *)
(** Memory of the running code that is neither a list node nor a control block. *)
Definition spared (L : layout) (s : kstate) (a : Z) : Prop :=
  client_byte s a /\ (forall n, n ∈ ly_nodes L -> ~ node_byte n a) /\ (forall t, t ∈ ly_tcbs L -> ~ tcb_byte t a).

Record created (name function : Z) (L : layout) (s : kstate) (t : Z) (L' : layout) (s' : kstate) : Prop := {
  cr_inv : sched_inv L' s';
  cr_layout : exists node stk, L' = add_thread L node t stk /\
    new_thread (k_mem s') t stk name function (next_tid (k_sched s))
      (task_taskID (k_mem s) (currentTask (k_sched s)));
  cr_sched : exists l, k_sched s' = set_threads l (set_next_tid (next_tid (k_sched s) + 1) (k_sched s));
  cr_old : forall a, client_byte s a -> (forall n, n ∈ ly_nodes L -> ~ node_byte n a) ->
    client_byte s' a /\ mget (k_mem s') a = mget (k_mem s) a;
  cr_cpu : cpu_ctx s' = cpu_ctx s /\ cpu_cr3 (k_cpu s') = cpu_cr3 (k_cpu s);
  cr_limit : earlyAllocLimit (k_heap s') = earlyAllocLimit (k_heap s);
  cr_client : forall a, client_byte s a -> client_byte s' a;
  cr_spared : forall a, spared L s a -> spared L' s' a;
}.

Definition out_of_memory : stop := Panic "kmalloc(early): Ran out of memory!".

(** The allocations of [CreateThread] before the list node. *)
Record alloc_two (s : kstate) (t stk : Z) (s' : kstate) : Prop := {
  a2_ready : heap_ready s';
  a2_t : earlyAllocBase (k_heap s) <= t /\ KERNEL_VMB <= t /\ t + TCB_SIZE <= stk /\
    stk + THREAD_STACK_SIZE < 2 ^ 64;
  a2_new : forall a, t <= a < t + TCB_SIZE \/ stk <= a < stk + THREAD_STACK_SIZE -> client_byte s' a;
  a2_old : forall a, client_byte s a -> client_byte s' a /\ mget (k_mem s') a = mget (k_mem s) a;
  a2_base : earlyAllocBase (k_heap s) <= earlyAllocBase (k_heap s');
  a2_limit : earlyAllocLimit (k_heap s') = earlyAllocLimit (k_heap s);
  a2_rest : same_rest s s';
}.

Lemma alloc_two_run s {A} name function (k : Z -> Z -> ST kstate A) :
  heap_ready s -> earlyAllocLimit (k_heap s) + 8 + THREAD_STACK_SIZE < 2 ^ 64 ->
  let prog := (t ← kmalloc TCB_SIZE;
    klog "thread" "Creating thread %s => 0x%16p" [KNum name; KNum function] ;;
    stk ← kmalloc THREAD_STACK_SIZE; k t stk) in
  prog s = Stopped out_of_memory \/
  exists t stk s', prog s = k t stk s' /\ alloc_two s t stk s'.
Proof.
  intros Hr Hov prog. unfold prog. clear prog.
  assert (forall sz s, heap_ready s -> 0 <= sz <= THREAD_STACK_SIZE ->
    earlyAllocLimit (k_heap s) + 8 + THREAD_STACK_SIZE < 2 ^ 64 ->
    kmalloc sz s = Stopped out_of_memory \/
    exists p s', kmalloc sz s = Done (p, s') /\ client_alloc s sz p s') as Hk.
  { clear. intros sz s Hr Hsz Hov. unfold THREAD_STACK_SIZE in *.
    pose proof (kmalloc_client s sz Hr ltac:(lia) ltac:(lia)) as H. cbv zeta in H.
    destruct (_ <=? _); [right|by left]. destruct H as (s' & H1 & H2). by exists (kalloc_at s 8), s'. }
  destruct (Hk TCB_SIZE s Hr ltac:(unfold TCB_SIZE, THREAD_STACK_SIZE; lia) Hov)
    as [H1|(t & s1 & H1 & C1)]; [left; by rewrite (bind_stopped _ _ _ _ H1)|].
  rewrite (bind_done _ _ _ _ _ H1). unfold klog. rewrite modify_bind. set (s1' := set_klog _ s1).
  pose proof (ca_ready _ _ _ _ C1) as [[R1 R2 R3 R4] Rb].
  destruct (Hk THREAD_STACK_SIZE s1') as [H2|(stk & s2 & H2 & C2)].
  { split; [by split|exact Rb]. }
  { unfold THREAD_STACK_SIZE. lia. }
  { cbn. by rewrite (ca_limit _ _ _ _ C1). }
  { left. by rewrite (bind_stopped _ _ _ _ H2). }
  right. exists t, stk, s2. split; [by rewrite (bind_done _ _ _ _ _ H2)|].
  destruct C1 as [_ N1 B1 O1 E1 L1 [? ? ? ? ? ? ?]], C2 as [Rd2 N2 B2 O2 E2 L2 S2].
  cbn [s1' k_heap set_klog] in *. split; try done.
  - lia.
  - intros a [Ha|Ha]; [apply (O2 a), B1, Ha|by apply B2].
  - intros a Ha. destruct (O1 a Ha) as [G1 G2]. destruct (O2 a G1) as [G3 G4]. split; [done|].
    rewrite G4. exact G2.
  - unfold TCB_SIZE, THREAD_STACK_SIZE in *. lia.
  - congruence.
  - eapply same_rest_trans; [|exact S2]. by split.
Qed.

Lemma new_layout_ok L s t stk node :
  sched_inv L s -> earlyAllocBase (k_heap s) <= t -> KERNEL_VMB <= t ->
  t + TCB_SIZE <= stk -> stk + THREAD_STACK_SIZE < 2 ^ 64 ->
  (forall a, client_byte s a \/ tcb_byte t a \/ stk <= a < stk + THREAD_STACK_SIZE -> ~ node_byte node a) ->
  layout_ok (add_thread L node t stk).
Proof.
  intros HI Hb Hv Hts Hstk Hnode. pose proof (si_layout _ _ HI) as [L1 L2 L3 L4 L5 L6].
  assert (forall x a, x ∈ ly_tcbs L -> tcb_byte x a \/ stack_byte L x a -> a < t) as Hold.
  { intros x a Hx Ha. destruct (si_client _ _ HI x a Hx Ha) as [H _]. lia. }
  assert (forall n a, n ∈ ly_nodes L -> node_byte n a -> a < t) as Holdn.
  { intros n a Hn Ha. destruct (no_client _ _ (lr_nodes _ _ _ _ (si_list _ _ HI)) n a Hn Ha) as [H _]. lia. }
  assert (forall x, x ∈ ly_tcbs L -> x < t) as Hlt.
  { intros x Hx. apply (Hold x); [done|]. left. unfold tcb_byte, TCB_SIZE. lia. }
  assert (forall x, x ∈ ly_tcbs L ++ [t] -> x = t \/ (x ∈ ly_tcbs L /\ x <> t)) as Hcase.
  { intros x [Hx| ->%list_elem_of_singleton]%elem_of_app; [right|by left].
    split; [done|]. intros ->. by specialize (Hlt _ Hx); lia. }
  unfold THREAD_STACK_SIZE, TCB_SIZE, tcb_byte, stack_byte, KERNEL_VMB in *.
  change (2 ^ 64) with 18446744073709551616 in *.
  split; cbn [ly_tcbs ly_nodes ly_lo ly_hi add_thread]; unfold tcb_byte, stack_byte, TCB_SIZE, KERNEL_VMB;
    cbn [ly_tcbs ly_nodes ly_lo ly_hi add_thread]; change (2 ^ 64) with 18446744073709551616.
  - intros x [->|[Hx Hne]]%Hcase; [rewrite !decide_True by done; unfold THREAD_STACK_SIZE; lia|].
    rewrite !decide_False by done. by apply L1.
  - apply NoDup_app. split; [done|]. split; [|apply NoDup_singleton].
    intros x Hx ->%list_elem_of_singleton. specialize (Hlt _ Hx). lia.
  - intros x y a [->|[Hx Hx']]%Hcase [->|[Hy Hy']]%Hcase Ha1 Ha2; [done| | |by apply (L3 x y a)].
    + specialize (Hold y a Hy (or_introl Ha2)). lia.
    + specialize (Hold x a Hx (or_introl Ha1)). lia.
  - intros x y a [->|[Hx Hx']]%Hcase [->|[Hy Hy']]%Hcase;
      rewrite ?(decide_True (P := t = t)) by done; rewrite ?(decide_False (P := _ = t)) by done;
      intros Ha1 Ha2; [done| | |by apply (L4 x y a)].
    + specialize (Hold y a Hy (or_intror Ha2)). lia.
    + specialize (Hold x a Hx (or_intror Ha1)). lia.
  - intros x y a [->|[Hx Hx']]%Hcase [->|[Hy Hy']]%Hcase;
      rewrite ?(decide_True (P := t = t)) by done; rewrite ?(decide_False (P := _ = t)) by done;
      intros Ha1 Ha2; [lia| | |by apply (L5 x y a)].
    + specialize (Hold y a Hy (or_introl Ha2)). lia.
    + specialize (Hold x a Hx (or_intror Ha1)). lia.
  - intros n x a [Hn| ->%list_elem_of_singleton]%elem_of_app [->|[Hx Hx']]%Hcase Hna;
      rewrite ?(decide_True (P := t = t)) by done; rewrite ?(decide_False (P := _ = t)) by done.
    + specialize (Holdn n a Hn Hna). lia.
    + by apply (L6 n x a).
    + split; intros Ha; apply (Hnode a); auto.
    + split; intros Ha; apply (Hnode a); [left|done|left|done]; apply (si_client _ _ HI x a Hx); [by left|by right].
Qed.

Lemma heap_ready_same s s' :
  k_heap s' = k_heap s -> k_pmm s' = k_pmm s -> heap_ready s -> heap_ready s'.
Proof.
  intros Hh Hp [[R1 R2 R3 R4] R5]. unfold bitmap_byte in *.
  split; [split|]; unfold bitmap_byte; rewrite ?Hh, ?Hp; done.
Qed.

Lemma client_byte_same s s' a :
  k_heap s' = k_heap s -> k_pmm s' = k_pmm s -> client_byte s a <-> client_byte s' a.
Proof. intros Hh Hp. unfold client_byte, bitmap_byte. by rewrite Hh, Hp. Qed.

(** The part of [CreateThread] after its two allocations. *)
Definition create_rest (name function toCreate stk : Z) : ST kstate Z :=
  let stackAddr := stk +64 THREAD_STACK_SIZE in
  kstore64 (toCreate + 16) name ;;
  kstore64 toCreate (stackAddr -64 8 * 16) ;;
  tid ← gets (fun s => next_tid (k_sched s));
  when (tid =? 2147483647) (stop_with (Fault "signed overflow")) ;;
  with_sched (set_next_tid (tid + 1)) ;;
  kstore64 (toCreate + 24) (u64 tid) ;;
  set_state toCreate Ready ;;
  task ← gets (fun s => currentTask (k_sched s));
  non_null task ;;
  m ← gets k_mem;
  kstore64 (toCreate + 32) (task_taskID m task) ;;
  m ← gets k_mem;
  store_words (stack_top m toCreate) (initial_frame (stack_top m toCreate) function) ;;
  threads_push_back toCreate ;;
  mret toCreate.

(** ... up to the list. *)
Lemma create_rest_run s0 s t stk name function :
  alloc_two s0 t stk s -> create_ok s0 name function ->
  exists m, create_rest name function t stk s =
      (threads_push_back t ;; mret t)
        (set_kmem m (set_ksched (set_next_tid (next_tid (k_sched s0) + 1) (k_sched s0)) s)) /\
    new_thread m t stk name function (next_tid (k_sched s0))
      (task_taskID (k_mem s0) (currentTask (k_sched s0))) /\
    (forall a, ~ tcb_byte t a -> ~ (stk <= a < stk + THREAD_STACK_SIZE) -> mget m a = mget (k_mem s) a).
Proof.
  intros [_ (Hb & Hv & Hts & Hst) _ Hold _ _ Hrest] (_ & Htask & Htc & Htid & Hname & Hfun).
  pose proof (sr_sched _ _ Hrest) as Hsch. set (tid := next_tid (k_sched s0)) in *.
  set (task := currentTask (k_sched s0)) in *. set (tskid := task_taskID (k_mem s0) task).
  assert (0 <= t) as Ht by (unfold KERNEL_VMB in Hv; lia).
  assert (is_word tskid) as Htw by apply load64_range.
  unfold create_rest. rewrite !kstore64_bind, gets_bind.
  cbn [k_sched set_kmem]. rewrite Hsch. fold tid.
  rewrite (bind_done (when (tid =? 2147483647) _) _ _ tt _
    ltac:(by rewrite (proj2 (Z.eqb_neq tid 2147483647) ltac:(lia)))).
  rewrite with_sched_bind, kstore64_bind. unfold set_state. rewrite kstore32_bind, gets_bind.
  cbn [k_sched set_kmem set_ksched currentTask set_next_tid]. rewrite Hsch. fold task.
  unfold non_null. rewrite (bind_done (when (task =? 0) _) _ _ tt _
    ltac:(by rewrite (proj2 (Z.eqb_neq task 0) Htask))).
  rewrite gets_bind, kstore64_bind, gets_bind. cbn [k_mem set_kmem set_ksched].
  rewrite (u64_small tid) by lia. unfold THREAD_STACK_SIZE, TCB_SIZE in *.
  change (2 ^ 64) with 18446744073709551616 in *.
  rewrite (u64_small (stk + 4 * 4096)) by lia. rewrite (u64_small (stk + 4 * 4096 - 8 * 16)) by lia.
  match goal with |- context [task_taskID ?m task] =>
    assert (task_taskID m task = tskid) as -> end.
  { unfold task_taskID. apply (load_ext 8). intros a Ha.
    assert (client_byte s0 a) as Hca by (apply Htc; lia). destruct Hca as [Hca1 Hca2].
    unfold store64, store32. rewrite !mget_store_ne by lia. by apply Hold. }
  match goal with |- context [mbind _ (store_words (stack_top ?m t) _)] =>
    change m with (create_fields t stk name tid tskid (k_mem s));
    rewrite (create_fields_top t stk name tid tskid Ht ltac:(exact Hts)
      ltac:(change (2 ^ 64) with 18446744073709551616; unfold THREAD_STACK_SIZE; lia) (k_mem s)) end.
  destruct (create_frame_run t stk name function tid tskid Ht ltac:(exact Hts)
    ltac:(change (2 ^ 64) with 18446744073709551616; unfold THREAD_STACK_SIZE; lia) Hname Hfun Htw Htid
    (set_ksched (set_next_tid (tid + 1) (k_sched s0)) s)) as (m & H1 & H2 & H3).
  cbn [k_mem set_ksched] in H1, H3. rewrite !set_kmem_twice.
  exists m. split; [|by split]. by rewrite (bind_done _ _ _ _ _ H1).
Qed.

(** The invariant after a thread has been added. *)
Lemma created_inv L s s' t stk node l tid :
  sched_inv L s -> layout_ok (add_thread L node t stk) -> heap_ready s' ->
  list_repr s' l (ly_nodes L ++ [node]) (ly_tcbs L ++ [t]) ->
  k_sched s' = set_threads l (set_next_tid tid (k_sched s)) ->
  (forall a, client_byte s a -> (forall n, n ∈ ly_nodes L -> ~ node_byte n a) ->
    client_byte s' a /\ mget (k_mem s') a = mget (k_mem s) a) ->
  (forall a, tcb_byte t a \/ stk <= a < stk + THREAD_STACK_SIZE -> client_byte s' a) ->
  stack_top (k_mem s') t = stk + THREAD_STACK_SIZE - 128 ->
  tcb_state (k_mem s') t = state_code Ready -> cpu_ctx s' = cpu_ctx s ->
  sched_inv (add_thread L node t stk) s'.
Proof.
  intros HI HL Hr Hl Hsc Hold Hnew Htop Hst Hcpu.
  assert (current s' = current s) as Hcur by (unfold current; by rewrite Hsc).
  assert (index s' = index s) as Hidx by (unfold index; by rewrite Hsc).
  assert (forall x, x ∈ ly_tcbs L -> x <> t) as Hnt.
  { intros x Hx ->. pose proof (lo_nodup _ HL) as Hnd. cbn in Hnd.
    apply NoDup_app in Hnd as (_ & Hnd & _). apply (Hnd t Hx). left. }
  assert (forall x a, x ∈ ly_tcbs L -> tcb_byte x a \/ stack_byte L x a ->
    client_byte s' a /\ mget (k_mem s') a = mget (k_mem s) a) as Hkeep.
  { intros x a Hx Ha. apply Hold; [by eapply si_client|]. intros n Hn Hna.
    destruct (lo_nodes _ (si_layout _ _ HI) n x a Hn Hx Hna). tauto. }
  pose proof (si_current _ _ HI) as Hcin. pose proof (Hnt _ Hcin) as Hcne.
  assert (forall x, x ∈ ly_tcbs L ++ [t] -> x = t \/ x ∈ ly_tcbs L) as Hcase.
  { intros x [Hx| ->%list_elem_of_singleton]%elem_of_app; auto. }
  split; try done; cbn [ly_tcbs ly_nodes add_thread].
  - by rewrite Hsc.
  - rewrite Hcur. apply elem_of_app. by left.
  - rewrite Hidx, length_app, Nat2Z.inj_add. pose proof (si_index _ _ HI). lia.
  - unfold stack_byte. cbn [ly_lo ly_hi add_thread]. intros x a [->|Hx]%Hcase.
    + rewrite !decide_True by done. apply Hnew.
    + rewrite !decide_False by (by apply Hnt). intros Ha. by eapply Hkeep.
  - rewrite Hcur. unfold parked. cbn [ly_lo ly_hi add_thread]. intros x [->|Hx]%Hcase Hne.
    + rewrite !decide_True, Htop by done. unfold THREAD_STACK_SIZE. lia.
    + rewrite !decide_False by (by apply Hnt).
      rewrite (load_top_get (k_mem s)); [by apply (si_parked _ _ HI)|].
      intros a Ha. apply (Hkeep x); [done|]. left. unfold tcb_byte, TCB_SIZE. lia.
  - unfold has_room. rewrite Hcur. cbn [ly_lo ly_hi add_thread]. rewrite !decide_False by done.
    injection Hcpu as Hc1 Hc2 Hc3. rewrite Hc1, Hc2. apply (si_room _ _ HI).
  - rewrite Hcur. intros x [->|Hx]%Hcase Hne; [by rewrite Hst|].
    rewrite (load_state_get (k_mem s)); [by apply (si_running _ _ HI)|].
    intros a Ha. apply (Hkeep x); [done|]. left. unfold tcb_byte, TCB_SIZE. lia.
Qed.

Lemma CreateThread_run L s name function :
  sched_inv L s -> create_ok s name function ->
  CreateThread name function s = Stopped out_of_memory \/
  exists t L' s', CreateThread name function s = Done (t, s') /\ created name function L s t L' s'.
Proof.
  intros HI Hok. pose proof Hok as (Hov & _).
  destruct (alloc_two_run s name function (create_rest name function) (si_ready _ _ HI) Hov)
    as [H|(t & stk & s2 & H & A2)]; [by left|].
  change (CreateThread name function s) with
    ((t ← kmalloc TCB_SIZE;
      klog "thread" "Creating thread %s => 0x%16p" [KNum name; KNum function] ;;
      stk ← kmalloc THREAD_STACK_SIZE; create_rest name function t stk) s).
  rewrite H. clear H. destruct (create_rest_run s s2 t stk name function A2 Hok) as (m3 & H3 & Hnt & Hm3).
  rewrite H3. clear H3. destruct A2 as [R2 (Hb & Hv & Hts & Hst) New2 Old2 Base2 Lim2 Rest2].
  set (sc3 := set_next_tid _ (k_sched s)). set (s3 := set_kmem m3 (set_ksched sc3 s2)).
  assert (heap_ready s3) as Hr3 by (by apply (heap_ready_same s2 s3)).
  assert (forall a, client_byte s a -> client_byte s3 a /\ mget m3 a = mget (k_mem s) a) as Hold3.
  { intros a Ha. destruct (Old2 a Ha) as [G1 G2].
    split; [by apply (client_byte_same s2 s3)|]. rewrite <- G2. destruct Ha as [Ha _].
    unfold THREAD_STACK_SIZE, TCB_SIZE, tcb_byte in *. apply Hm3; unfold TCB_SIZE; lia. }
  assert (list_repr s3 (threads (k_sched s)) (ly_nodes L) (ly_tcbs L)) as Hl3.
  { apply (repr_kept s); [|exact Base2|apply HI]. intros n a Hn Ha. apply Hold3.
    exact (no_client _ _ (lr_nodes _ _ _ _ (si_list _ _ HI)) n a Hn Ha). }
  assert (is_word t) as Htw by (unfold is_word, KERNEL_VMB, THREAD_STACK_SIZE, TCB_SIZE in *; lia).
  pose proof (push_back_run s3 _ _ _ t Hl3 Hr3
    ltac:(change (k_heap s3) with (k_heap s2); rewrite Lim2; unfold THREAD_STACK_SIZE in Hov; lia) Htw) as Hpb.
  cbv zeta in Hpb. unfold threads_push_back. 
  match goal with |- context [((gets ?f ≫= ?g) ;; ?k) s3] =>
    destruct (kalloc_at s3 8 + 16 <=? earlyAllocLimit (k_heap s3)) end.
  2:{ left. change (threads (k_sched s3)) with (threads (k_sched s)) in Hpb.
      match goal with |- context [mbind ?k ?p s3] => assert (p s3 = Stopped out_of_memory) as Hp end.
      { rewrite gets_bind. change (threads (k_sched s3)) with (threads (k_sched s)).
        by rewrite (bind_stopped _ _ _ _ Hpb). }
      by rewrite (bind_stopped _ _ _ _ Hp). }
  right. destruct Hpb as (l4 & s4 & Hp4 & Hk4 & Hl4 & Hf4).
  exists t, (add_thread L (kalloc_at s3 8) t stk), (set_ksched (set_threads l4 (k_sched s4)) s4).
  match goal with |- context [mbind ?k ?p s3] =>
    assert (p s3 = Done (tt, set_ksched (set_threads l4 (k_sched s4)) s4)) as Hp end.
  { rewrite gets_bind. change (threads (k_sched s3)) with (threads (k_sched s)).
    by rewrite (bind_done _ _ _ _ _ Hp4). }
  rewrite (bind_done _ _ _ _ _ Hp). split; [done|].
  destruct Hk4 as [K1 K2 K3 K4 K5 K6]. pose proof (sr_sched _ _ K6) as Hsc4.
  set (s' := set_ksched _ s4).
  assert (forall a, client_byte s a -> (forall n, n ∈ ly_nodes L -> ~ node_byte n a) ->
    client_byte s' a /\ mget (k_mem s') a = mget (k_mem s) a) as Hold.
  { intros a Ha Hna. destruct (Hold3 a Ha) as [G1 G2]. split.
    - apply (client_byte_same s4 s'); [done..|]. by apply K4.
    - change (k_mem s') with (k_mem s4). rewrite <- G2. by apply K5. }
  assert (forall a, tcb_byte t a \/ stk <= a < stk + THREAD_STACK_SIZE -> client_byte s3 a) as Hnew3.
  { intros a Ha. apply (client_byte_same s2 s3); [done..|]. by apply New2. }
  assert (forall a n, tcb_byte t a \/ stk <= a < stk + THREAD_STACK_SIZE -> n ∈ ly_nodes L -> ~ node_byte n a) as Hnn.
  { intros a n Ha Hn Hna.
    destruct (no_client _ _ (lr_nodes _ _ _ _ (si_list _ _ HI)) n a Hn Hna) as [G _].
    unfold tcb_byte, TCB_SIZE, THREAD_STACK_SIZE in *. lia. }
  assert (new_thread (k_mem s') t stk name function (next_tid (k_sched s))
    (task_taskID (k_mem s) (currentTask (k_sched s)))) as Hnt'.
  { eapply new_thread_ext; [|exact Hnt]. intros a Ha. apply K5; [by apply Hnew3|].
    intros n Hn. by apply Hnn. }
  assert (k_sched s' = set_threads l4 (set_next_tid (next_tid (k_sched s) + 1) (k_sched s))) as Hsch
    by (cbn [s' k_sched set_ksched]; by rewrite Hsc4).
  assert (cpu_ctx s' = cpu_ctx s /\ cpu_cr3 (k_cpu s') = cpu_cr3 (k_cpu s)) as Hcpu.
  { destruct Rest2 as [_ _ _ _ C1 (C2 & C3 & C4) _], K6 as [_ _ _ _ D1 (D2 & D3 & D4) _].
    change (k_cpu s3) with (k_cpu s2) in *. unfold cpu_ctx. change (k_cpu s') with (k_cpu s4).
    split; [f_equal|]; congruence. }
  assert (forall a, tcb_byte t a \/ stk <= a < stk + THREAD_STACK_SIZE -> client_byte s' a) as Hnew'.
  { intros a Ha. apply (client_byte_same s4 s'); [done..|]. by apply K4, Hnew3. }
  split; try done.
  - eapply (created_inv L s s'); try done; [| | |apply Hnt'|apply Hnt'|apply Hcpu].
    + eapply new_layout_ok; try done. intros a Ha. apply Hf4.
      destruct Ha as [Ha|Ha]; [by apply Hold3|by apply Hnew3].
    + by apply (heap_ready_same s4 s').
    + destruct Hl4 as [G1 G2 G3 [G4 G5 G6]]. by split; [| | |split].
  - by eexists _, _.
  - by eexists.
  - cbn [s' k_heap set_ksched]. rewrite K3. exact Lim2.
  - intros a Ha. apply (client_byte_same s4 s'); [done..|]. by apply K4, Hold3.
  - intros a (Ha & Hna & Hta). split; [by apply Hold|]. cbn [ly_nodes ly_tcbs add_thread]. split.
    + intros n [Hn| ->%list_elem_of_singleton]%elem_of_app; [by apply Hna|]. by apply Hf4, Hold3.
    + intros u [Hu| ->%list_elem_of_singleton]%elem_of_app; [by apply Hta|].
      destruct Ha as [Ha _]. unfold tcb_byte. lia.
Qed.

(** ** Interleavings *)

(** What the running thread may do between two calls of the scheduler: anything
    that leaves the control blocks, their list and the other threads' stacks
    alone, and room for a frame on its own stack.  Turning scheduling on or off
    is one such action. *)
Record activity (L : layout) (s s' : kstate) : Prop := {
  ac_sched : exists b, k_sched s' = set_enabled b (k_sched s);
  ac_ready : heap_ready s';
  ac_base : earlyAllocBase (k_heap s) <= earlyAllocBase (k_heap s');
  ac_client : forall a, client_byte s a -> client_byte s' a;
  ac_nodes : forall n a, n ∈ ly_nodes L -> node_byte n a -> mget (k_mem s') a = mget (k_mem s) a;
  ac_tcbs : forall t a, t ∈ ly_tcbs L -> tcb_byte t a -> mget (k_mem s') a = mget (k_mem s) a;
  ac_stacks : forall t a, t ∈ ly_tcbs L -> t <> current s -> stack_byte L t a ->
    mget (k_mem s') a = mget (k_mem s) a;
  ac_room : has_room L s';
}.

Section Steps.
Context (resume : Z).
Hypothesis Hresume : is_word resume.

(** The layout after [CreateThread] has returned [t]: the new list node is the
    tail, the stack ends above the frame. *)
Definition new_layout (L : layout) (t : Z) (s' : kstate) : layout :=
  add_thread L (m_tail (threads (k_sched s'))) t (stack_top (k_mem s') t + 128 - THREAD_STACK_SIZE).

Inductive kstep : layout * kstate -> layout * kstate -> Prop :=
  | K_activity L s s' : activity L s s' -> kstep (L, s) (L, s')
  | K_schedule L s s' : Schedule resume s = Done (tt, s') -> kstep (L, s) (L, s')
  | K_create L s s' name function t :
      create_ok s name function -> CreateThread name function s = Done (t, s') ->
      kstep (L, s) (new_layout L t s', s').

Lemma activity_inv L s s' : sched_inv L s -> activity L s s' -> sched_inv L s'.
Proof.
  intros HI [(b & Hsc) Hr Hb Hcl Hn Ht Hs Hroom].
  assert (current s' = current s) as Hcur by (unfold current; by rewrite Hsc).
  assert (index s' = index s) as Hidx by (unfold index; by rewrite Hsc).
  split; try done; [apply HI| | | | | |].
  - rewrite Hsc. apply (repr_kept s); [|done|apply HI]. intros n a Hnn Ha. split; [|by apply (Hn n)].
    apply Hcl. exact (no_client _ _ (lr_nodes _ _ _ _ (si_list _ _ HI)) n a Hnn Ha).
  - rewrite Hcur. apply HI.
  - rewrite Hidx. apply HI.
  - intros t a Htt Ha. by eapply Hcl, si_client.
  - rewrite Hcur. intros t Htt Hne. unfold parked. rewrite (load_top_get (k_mem s)); [by apply HI|].
    intros a Ha. apply (Ht t); [done|]. unfold tcb_byte, TCB_SIZE. lia.
  - rewrite Hcur. intros t Htt Hne. rewrite (load_state_get (k_mem s)); [by apply (si_running _ _ HI)|].
    intros a Ha. apply (Ht t); [done|]. unfold tcb_byte, TCB_SIZE. lia.
Qed.

(** [Schedule] returns, with a state of one of three kinds. *)
Lemma schedule_cases L s :
  sched_inv L s -> exists s', Schedule resume s = Done (tt, s') /\ sched_inv L s' /\
    (s' = s /\ schedulingEnabled (k_sched s) = false \/
     schedulingEnabled (k_sched s) = true /\ none_chosen (k_mem s) (ly_tcbs L) (index s) /\
       s' = at_index ((index s + (maxTries + 1)) mod Z.of_nat (length (ly_tcbs L))) s \/
     schedulingEnabled (k_sched s) = true /\
     exists k t, chosen (k_mem s) (ly_tcbs L) (index s) k t /\
       switched resume L s ((index s + k) mod Z.of_nat (length (ly_tcbs L))) t s').
Proof.
  intros HI. destruct (schedulingEnabled (k_sched s)) eqn:Hen.
  2:{ exists s. split; [by apply schedule_off|]. auto. }
  pose proof (si_index _ _ HI) as Hi.
  assert (ly_tcbs L <> []) as Hne by (intros He; rewrite He in Hi; simpl in Hi; lia).
  destruct (chosen_dec (k_mem s) (ly_tcbs L) (index s) Hne ltac:(lia)) as [(k & t & Hch)|Hn].
  - destruct (schedule_hit resume Hresume L s k t HI Hen Hch) as (s' & H1 & H2 & H3).
    exists s'. split; [done|]. split; [done|]. right. right. split; [done|]. by exists k, t.
  - exists (at_index ((index s + (maxTries + 1)) mod Z.of_nat (length (ly_tcbs L))) s).
    split; [by apply (schedule_none resume)|]. split; [|auto].
    apply inv_at_index; [|done]. apply Z.mod_pos_bound. lia.
Qed.

Lemma created_layout L s t L' s' name function :
  created name function L s t L' s' -> L' = new_layout L t s'.
Proof.
  intros [HI' (node & stk & -> & Hnt) _ _ _ _ _]. unfold new_layout.
  rewrite (nt_top _ _ _ _ _ _ _ Hnt). pose proof (lr_tail _ _ _ _ (si_list _ _ HI')) as Hl.
  cbn [ly_nodes add_thread] in Hl. rewrite last_snoc, decide_False in Hl by (by destruct (ly_nodes L)).
  injection Hl as <-. f_equal. lia.
Qed.

Lemma create_created L s s' t name function :
  sched_inv L s -> create_ok s name function -> CreateThread name function s = Done (t, s') ->
  created name function L s t (new_layout L t s') s'.
Proof.
  intros HI Hok Hrun. destruct (CreateThread_run L s name function HI Hok) as [H|(t1 & L1 & s1 & H & Hc)].
  - by rewrite Hrun in H.
  - rewrite Hrun in H. injection H as -> ->. by rewrite <- (created_layout _ _ _ _ _ _ _ Hc).
Qed.

Lemma kstep_inv x y : kstep x y -> sched_inv x.1 x.2 -> sched_inv y.1 y.2.
Proof.
  intros Hst HI. destruct Hst as [L s s' Ha|L s s' Hr|L s s' name function t Hok Hr]; cbn [fst snd] in *.
  - by eapply activity_inv.
  - destruct (schedule_cases L s HI) as (s1 & H1 & H2 & _). rewrite Hr in H1. by injection H1 as <-.
  - by eapply cr_inv, create_created.
Qed.

Lemma ksteps_inv x y : rtc kstep x y -> sched_inv x.1 x.2 -> sched_inv y.1 y.2.
Proof. induction 1 as [|x y z H1 H2 IH]; [done|]. intros HI. by eapply IH, kstep_inv. Qed.

(** *** A thread that is off the processor keeps its context and its stack. *)

Definition keeps_thread (t : Z) (x y : layout * kstate) : Prop :=
  t ∈ ly_tcbs y.1 /\ saved_ctx (k_mem y.2) t = saved_ctx (k_mem x.2) t /\
  stack_top (k_mem y.2) t = stack_top (k_mem x.2) t /\
  (tcb_state (k_mem y.2) t = tcb_state (k_mem x.2) t) /\
  ly_lo y.1 t = ly_lo x.1 t /\ ly_hi y.1 t = ly_hi x.1 t /\
  forall a, stack_byte x.1 t a -> mget (k_mem y.2) a = mget (k_mem x.2) a.

Lemma keeps_from_bytes t L L' s s' :
  t ∈ ly_tcbs L' -> parked L (k_mem s) t -> ly_lo L' t = ly_lo L t -> ly_hi L' t = ly_hi L t ->
  (forall a, tcb_byte t a \/ stack_byte L t a -> mget (k_mem s') a = mget (k_mem s) a) ->
  keeps_thread t (L, s) (L', s').
Proof.
  intros Ht [Hp1 Hp2] Hlo Hhi Hm. unfold keeps_thread. cbn [fst snd]. split; [done|].
  destruct (saved_ctx_ext (k_mem s) (k_mem s') t) as [E1 E2].
  { intros a Ha. apply Hm. left. unfold tcb_byte, TCB_SIZE. lia. }
  { intros a Ha. apply Hm. right. unfold stack_byte. lia. }
  split; [done|]. split; [done|]. split.
  - apply load_state_get. intros a Ha. apply Hm. left. unfold tcb_byte, TCB_SIZE. lia.
  - split; [done|]. split; [done|]. intros a Ha. apply Hm. by right.
Qed.

Lemma switched_keeps L s i t s' x :
  sched_inv L s -> switched resume L s i t s' -> t ∈ ly_tcbs L -> x ∈ ly_tcbs L ->
  x <> current s -> x <> t -> keeps_thread x (L, s) (L, s').
Proof.
  intros HI Hsw Ht Hx Hne Hnt. apply keeps_from_bytes; try done; [by apply HI|].
  pose proof (si_layout _ _ HI) as HL. intros a Ha.
  assert (~ tcb_byte (current s) a /\ ~ tcb_byte t a /\
      ~ (cpu_rsp (k_cpu s) - 128 <= a < cpu_rsp (k_cpu s))) as (G1 & G2 & G3).
  { destruct Ha as [Ha|Ha].
    - split; [|split].
      + intros Hb. by apply Hne, (lo_tcbs _ HL x (current s) a); [|apply HI|..].
      + intros Hb. by apply Hnt, (lo_tcbs _ HL x t a).
      + pose proof (frame_tcb L s x HI Hx). unfold tcb_byte in Ha. lia.
    - destruct (saved_apart L s x a HI Hx Hne Ha) as [Hf Hb]. split; [apply Hb, HI|]. split; auto. }
  unfold tcb_byte, TCB_SIZE in *. apply (sw_mem _ _ _ _ _ _ Hsw); lia.
Qed.

Lemma kstep_keeps x y t :
  kstep x y -> sched_inv x.1 x.2 -> t ∈ ly_tcbs x.1 -> t <> current x.2 -> t <> current y.2 ->
  keeps_thread t x y.
Proof.
  intros Hst HI Ht Hne Hne'.
  destruct Hst as [L s s' Ha|L s s' Hr|L s s' name function n Hok Hr]; cbn [fst snd] in *.
  - apply keeps_from_bytes; try done; [by apply HI|]. intros a [Hb|Hb].
    + by apply (ac_tcbs _ _ _ Ha t).
    + by apply (ac_stacks _ _ _ Ha t).
  - destruct (schedule_cases L s HI) as (s1 & H1 & H2 & Hc). rewrite Hr in H1. injection H1 as <-.
    destruct Hc as [[-> _]|[(_ & _ & ->)|(_ & k & u & Hch & Hsw)]].
    + apply keeps_from_bytes; try done. by apply HI.
    + apply keeps_from_bytes; try done. by apply HI.
    + destruct Hch as (_ & Hu & _). eapply switched_keeps; try done.
      * by eapply list_elem_of_lookup_2.
      * intros ->. apply Hne'. unfold current. by rewrite (sw_state _ _ _ _ _ _ Hsw).
  - pose proof (create_created _ _ _ _ _ _ HI Hok Hr) as Hcr.
    assert (t <> n) as Htn.
    { intros ->. pose proof (lo_nodup _ (si_layout _ _ (cr_inv _ _ _ _ _ _ _ Hcr))) as Hnd.
      apply NoDup_app in Hnd as (_ & Hnd & _). apply (Hnd n Ht). left. }
    apply keeps_from_bytes.
    + cbn. apply elem_of_app. by left.
    + by apply HI.
    + cbn. by rewrite decide_False.
    + cbn. by rewrite decide_False.
    + intros a Ha. apply (cr_old _ _ _ _ _ _ _ Hcr); [by eapply si_client|].
      intros m Hm Hma. destruct (lo_nodes _ (si_layout _ _ HI) m t a Hm Ht Hma). tauto.
Qed.

(** Steps after which [t] is not on the processor. *)
Definition step_off (t : Z) (x y : layout * kstate) : Prop := kstep x y /\ t <> current y.2.

Lemma steps_off_keep x y t :
  rtc (step_off t) x y -> sched_inv x.1 x.2 -> t ∈ ly_tcbs x.1 -> t <> current x.2 ->
  sched_inv y.1 y.2 /\ t <> current y.2 /\ keeps_thread t x y.
Proof.
  induction 1 as [x|x y z [H1 H1'] H2 IH]; intros HI Ht Hne; [done|].
  pose proof (kstep_keeps x y t H1 HI Ht Hne H1') as (K0 & K1 & K2 & K3 & K4 & K5 & K6).
  destruct (IH (kstep_inv _ _ H1 HI) K0 H1') as (G1 & G2 & J0 & J1 & J2 & J3 & J4 & J5 & J6).
  split; [done|]. split; [done|]. unfold keeps_thread. split; [done|].
  split; [congruence|]. split; [congruence|]. split; [congruence|]. split; [congruence|].
  split; [congruence|]. intros a Ha. rewrite J6; [by apply K6|].
  unfold stack_byte in *. rewrite K4, K5. exact Ha.
Qed.

End Steps.

(** ** Initialisation *)

(** What [switch_task_vas] leaves: the registers it clobbers. *)
Definition task_switched (k : Z) (s : kstate) : kstate :=
  set_kcpu (cpu_with
      (<[0%nat := cpu_cr3 (k_cpu s)]> (<[1%nat := task_vas (k_mem s) k]> (cpu_regs (k_cpu s))))
      (cpu_rsp (k_cpu s)) (cpu_rip (k_cpu s)) (k_cpu s))
    (set_ksched (set_task k (k_sched s)) s).

(** CR3 is loaded with its own value, and only if the task's tables are others. *)
Lemma SwitchTask_run k s :
  k <> 0 ->
  SwitchTask k s = if (cpu_cr3 (k_cpu s) =? task_vas (k_mem s) k) || code_mapped s
    then Done (tt, task_switched k s) else Stopped page_fault.
Proof.
  intros Hk. unfold SwitchTask. rewrite assert_bind by (by rewrite (proj2 (Z.eqb_neq k 0) Hk)).
  rewrite gets_bind, with_sched_bind. unfold switch_task_vas. rewrite !gets_bind, set_regs_bind.
  cbn [k_mem k_cpu set_ksched]. unfold task_vas. destruct (_ =? _); [done|].
  rewrite write_cr3_run. by destruct s as [? ? ? ? ? ? [] ? ? ?].
Qed.

(** What the boot code must have set up: the two static control blocks and the
    boot stack, apart from each other, in memory no allocation will hand out. *)
Record init_ok (lo hi : Z) (s : kstate) : Prop := {
  io_ready : heap_ready s;
  io_limit : earlyAllocLimit (k_heap s) + 24 < 2 ^ 64;
  io_lists : threads (k_sched s) = SList 0 0 0 /\ tasks (k_sched s) = SList 0 0 0;
  io_index : currentThreadIndex (k_sched s) = 0;
  io_task : 0 < kernelTask (k_sched s) /\ kernelTask (k_sched s) + 32 < 2 ^ 64;
  io_idle : KERNEL_VMB <= idleThread (k_sched s) /\ idleThread (k_sched s) + TCB_SIZE < 2 ^ 64;
  io_stack : 0 <= lo /\ hi < 2 ^ 64;
  io_client : forall a, kernelTask (k_sched s) <= a < kernelTask (k_sched s) + 32 \/
    tcb_byte (idleThread (k_sched s)) a \/ lo <= a < hi -> client_byte s a;
  io_apart : forall a, tcb_byte (idleThread (k_sched s)) a ->
    ~ (lo <= a < hi) /\ ~ (kernelTask (k_sched s) <= a < kernelTask (k_sched s) + 32);
  io_apart' : forall a, lo <= a < hi -> ~ (kernelTask (k_sched s) <= a < kernelTask (k_sched s) + 32);
  io_room : lo + 128 <= cpu_rsp (k_cpu s) <= hi /\
    length (cpu_regs (k_cpu s)) = 15%nat /\ Forall is_word (cpu_regs (k_cpu s));
  io_cr3 : is_word (cpu_cr3 (k_cpu s));
}.

Section Init.
Context (resume str_kernel str_idle : Z).
Hypothesis Hresume : is_word resume.

Definition boot_layout (node idle lo hi : Z) : layout :=
  Layout [node] [idle] (fun _ => lo) (fun _ => hi).

(** The state after [Init]. *)
Record initialised (lo hi : Z) (s s' : kstate) : Prop := {
  in_inv : exists node, sched_inv (boot_layout node (idleThread (k_sched s)) lo hi) s' /\
    forall a, client_byte s a -> ~ (kernelTask (k_sched s) <= a < kernelTask (k_sched s) + 32) ->
      ~ tcb_byte (idleThread (k_sched s)) a -> ~ (lo <= a < hi) ->
      spared (boot_layout node (idleThread (k_sched s)) lo hi) s' a /\ mget (k_mem s') a = mget (k_mem s) a;
  in_current : current s' = idleThread (k_sched s) /\
    currentTask (k_sched s') = kernelTask (k_sched s) /\ index s' = 0;
  in_task : task_vas (k_mem s') (kernelTask (k_sched s)) = MEM_VIRT_TO_PHYS (pdir_kernel (k_vmm s)) /\
    task_taskID (k_mem s') (kernelTask (k_sched s)) = 0 /\
    (forall a, kernelTask (k_sched s) <= a < kernelTask (k_sched s) + 32 -> client_byte s' a);
  in_tasks : exists node, list_repr s' (tasks (k_sched s')) [node] [kernelTask (k_sched s)];
  in_cpu : cpu_cr3 (k_cpu s') = cpu_cr3 (k_cpu s) /\ cpu_rsp (k_cpu s') = cpu_rsp (k_cpu s) /\
    cpu_rip (k_cpu s') = resume;
  in_tid : next_tid (k_sched s') = next_tid (k_sched s) /\
    schedulingEnabled (k_sched s') = schedulingEnabled (k_sched s);
  in_limit : earlyAllocLimit (k_heap s') = earlyAllocLimit (k_heap s);
}.

(** The first half: the kernel task. *)
Definition init_task : ST kstate unit :=
  kt ← gets (fun s => kernelTask (k_sched s));
  kstore32 (kt + 16) (state_code Running) ;;
  kstore64 (kt + 24) str_kernel ;;
  pdir ← gets (fun s => pdir_kernel (k_vmm s));
  kstore64 kt (MEM_VIRT_TO_PHYS pdir) ;;
  kstore64 (kt + 8) 0 ;;
  l ← gets (fun s => tasks (k_sched s));
  l' ← push_back l kt;
  with_sched (set_tasks l').

(** The second: the idle thread. *)
Definition init_idle (kt : Z) : ST kstate unit :=
  idle ← gets (fun s => idleThread (k_sched s));
  kstore64 idle 0 ;;
  kstore64 (idle + 16) str_idle ;;
  kstore64 (idle + 32) 0 ;;
  with_sched (set_current idle) ;;
  with_sched (set_task kt) ;;
  SwitchTask kt ;;
  SwitchThread resume idle ;;
  threads_push_back idle.

Lemma init_task_run lo hi s :
  init_ok lo hi s ->
  init_task s = Stopped out_of_memory \/
  exists s' l node, init_task s = Done (tt, s') /\ k_sched s' = set_tasks l (k_sched s) /\
    list_repr s' l [node] [kernelTask (k_sched s)] /\ heap_ready s' /\
    (forall a, client_byte s a -> client_byte s' a) /\
    earlyAllocBase (k_heap s) <= earlyAllocBase (k_heap s') /\
    earlyAllocLimit (k_heap s') = earlyAllocLimit (k_heap s) /\
    (forall a, client_byte s a -> ~ node_byte node a) /\
    task_vas (k_mem s') (kernelTask (k_sched s)) = MEM_VIRT_TO_PHYS (pdir_kernel (k_vmm s)) /\
    task_taskID (k_mem s') (kernelTask (k_sched s)) = 0 /\
    cpu_ctx s' = cpu_ctx s /\ cpu_cr3 (k_cpu s') = cpu_cr3 (k_cpu s) /\
    (forall a, client_byte s a -> ~ (kernelTask (k_sched s) <= a < kernelTask (k_sched s) + 32) ->
       mget (k_mem s') a = mget (k_mem s) a).
Proof.
  intros [Hr Hlim [_ Hts] _ Hkt _ _ Hcl _ _ _ _]. set (kt := kernelTask (k_sched s)) in *.
  change (2 ^ 64) with 18446744073709551616 in Hkt.
  unfold init_task. rewrite gets_bind. fold kt. rewrite kstore32_bind, kstore64_bind, gets_bind, !kstore64_bind, gets_bind.
  cbn [k_sched k_vmm set_kmem]. rewrite !set_kmem_twice, Hts.
  set (pd := MEM_VIRT_TO_PHYS _). cbn [k_mem set_kmem].
  set (m := store64 _ (kt + 8) 0). set (s1 := set_kmem m s).
  assert (heap_ready s1) as Hr1 by (by apply (heap_ready_same s s1)).
  pose proof (push_back_run s1 no_slist [] [] kt (empty_repr s1 (hr_ok _ Hr1)) Hr1 Hlim
    ltac:(unfold is_word in *; change (2 ^ 64) with 18446744073709551616; lia)) as H. cbv zeta in H.
  change (SList 0 0 0) with no_slist.
  destruct (_ <=? _) in H; [right|left; by rewrite (bind_stopped _ _ _ _ H)].
  destruct H as (l & s2 & H2 & [K1 K2 K3 K4 K5 [_ _ K6 _ K7 (K8 & K9 & K10) _]] & Hl2 & Hf2).
  rewrite (bind_done _ _ _ _ _ H2). change (k_sched s1) with (k_sched s) in K6.
  exists (set_ksched (set_tasks l (k_sched s2)) s2), l, (kalloc_at s1 8).
  split; [done|]. split; [cbn [k_sched set_ksched]; by rewrite K6|].
  assert (forall b, kt <= b -> b + 8 <= kt + 32 -> load64 (k_mem s2) b = load64 m b) as Hld.
  { intros b Hb1 Hb2. apply (load_ext 8). intros a Ha. apply K5.
    - apply (client_byte_same s s1); [done..|]. apply Hcl. lia.
    - intros n []%not_elem_of_nil. }
  split; [destruct Hl2 as [G1 G2 G3 [G4 G5 G6]]; by split; [| | |split]|].
  split; [by apply (heap_ready_same s2)|]. split; [exact K4|]. split; [exact K2|].
  split; [exact K3|]. split; [exact Hf2|]. cbn [k_mem k_cpu set_ksched].
  split; [|split; [|split; [unfold cpu_ctx; cbn [k_cpu set_ksched]; f_equal; done|split; [exact K7|]]]].
  - unfold task_vas. rewrite Hld by lia. unfold m. rewrite load64_store64_ne by lia.
    rewrite load64_store64_eq. apply u64_idem.
  - unfold task_taskID. rewrite Hld by lia. unfold m. by rewrite load64_store64_eq.
  - intros a Ha Hout. rewrite K5; [|by apply (client_byte_same s s1)|by intros n []%not_elem_of_nil].
    change (k_mem s1) with m. fold kt in Hout. unfold m, store64, store32. by rewrite !mget_store_ne by lia.
Qed.

Lemma init_split s :
  Scheduler_Init resume str_kernel str_idle s =
    (init_task ;; init_idle (kernelTask (k_sched s))) s.
Proof.
  unfold Scheduler_Init, init_task, kstore32, kstore64, with_sched, gets, modify, mbind, ST_bind.
  by destruct (push_back _ _ _) as [[l s1]|].
Qed.

(** The first switch, of the idle thread to itself, only gives it a frame. *)
Lemma self_switch_run idle s :
  currentThread (k_sched s) = idle -> KERNEL_VMB <= idle -> is_word idle ->
  length (cpu_regs (k_cpu s)) = 15%nat -> Forall is_word (cpu_regs (k_cpu s)) ->
  128 <= cpu_rsp (k_cpu s) < 2 ^ 64 ->
  idle + 8 <= cpu_rsp (k_cpu s) - 128 \/ cpu_rsp (k_cpu s) <= idle ->
  exists m, SwitchThread resume idle s = Done (tt, set_kmem m (set_kcpu
      (cpu_with (c_regs (call_ctx resume idle idle s)) (cpu_rsp (k_cpu s)) resume (k_cpu s))
        (set_ksched (set_current idle (k_sched s)) s))) /\
    (forall a, ~ (cpu_rsp (k_cpu s) - 128 <= a < cpu_rsp (k_cpu s)) -> ~ (idle <= a < idle + 8) ->
       mget m a = mget (k_mem s) a).
Proof.
  intros Hcur Hid Hw Hlen Hregs Hrsp Hap. unfold SwitchThread.
  rewrite assert_bind by (unfold KERNEL_VMB in Hid; by rewrite (proj2 (Z.eqb_neq idle 0) ltac:(lia))).
  rewrite gets_bind, with_sched_bind, Hcur. set (s1 := set_ksched _ s).
  destruct (switch_thread_run resume idle idle s1) as (m & H1 & H2 & H3 & H4); try done.
  - cbn. by repeat apply Forall_insert.
  - exists m. rewrite H2 in H1. cbn [call_ctx c_rsp c_rip] in H1. split; [exact H1|exact H4].
Qed.

Definition call_regs (idle kt : Z) (s : kstate) : list Z :=
  <[5%nat := idle]> (<[6%nat := idle]>
    (<[0%nat := cpu_cr3 (k_cpu s)]> (<[1%nat := task_vas (k_mem s) kt]> (cpu_regs (k_cpu s))))).

Lemma idle_stores_keep idle v m a :
  ~ tcb_byte idle a ->
  mget (store64 (store64 (store64 m idle 0) (idle + 16) v) (idle + 32) 0) a = mget m a.
Proof. unfold tcb_byte, TCB_SIZE. intros H. unfold store64. by rewrite !mget_store_ne by lia. Qed.

Lemma init_idle_run lo hi s kt :
  let idle := idleThread (k_sched s) in
  heap_ready s -> earlyAllocLimit (k_heap s) + 24 < 2 ^ 64 ->
  threads (k_sched s) = SList 0 0 0 -> currentThreadIndex (k_sched s) = 0 -> 0 < kt ->
  KERNEL_VMB <= idle -> idle + TCB_SIZE < 2 ^ 64 -> 0 <= lo -> hi < 2 ^ 64 ->
  (forall a, tcb_byte idle a \/ lo <= a < hi -> client_byte s a) ->
  (forall a, tcb_byte idle a -> ~ (lo <= a < hi) /\ ~ (kt <= a < kt + 32)) ->
  has_room (boot_layout 0 (current s) lo hi) s -> is_word (cpu_cr3 (k_cpu s)) ->
  init_idle kt s = Stopped out_of_memory \/
  init_idle kt s = Stopped page_fault /\ task_vas (k_mem s) kt <> cpu_cr3 (k_cpu s) \/
  exists s' node, init_idle kt s = Done (tt, s') /\
    sched_inv (boot_layout node idle lo hi) s' /\
    (exists l, k_sched s' = set_threads l (set_current idle (set_task kt (k_sched s)))) /\
    (forall a, client_byte s a -> client_byte s' a) /\
    earlyAllocBase (k_heap s) <= earlyAllocBase (k_heap s') /\
    earlyAllocLimit (k_heap s') = earlyAllocLimit (k_heap s) /\
    (forall a, client_byte s a -> ~ (tcb_byte idle a) -> ~ (lo <= a < hi) ->
       mget (k_mem s') a = mget (k_mem s) a) /\
    (forall a, client_byte s a -> ~ node_byte node a) /\
    cpu_cr3 (k_cpu s') = cpu_cr3 (k_cpu s) /\ cpu_rsp (k_cpu s') = cpu_rsp (k_cpu s) /\
    cpu_rip (k_cpu s') = resume.
Proof.
  intros idle Hr Hlim Hth Hi0 Hkt Hid Hid' Hlo Hhi Hcl Hap (Hrsp & Hlen & Hregs) Hcr3.
  cbn [boot_layout ly_lo ly_hi] in Hrsp.
  change (2 ^ 64) with 18446744073709551616 in *.
  unfold init_idle. rewrite gets_bind. fold idle.
  rewrite !kstore64_bind, !with_sched_bind, !set_kmem_twice. cbn [k_mem set_kmem].
  set (m0 := store64 _ (idle + 32) 0).
  match goal with |- context [(SwitchTask kt ;; _) ?x] => set (s1 := x) end.
  assert (task_vas (k_mem s1) kt = task_vas (k_mem s) kt) as Hvas.
  { apply (load_ext 8). intros a Ha. apply (idle_stores_keep idle).
    intros Hb%Hap. lia. }
  pose proof (SwitchTask_run kt s1 ltac:(lia)) as Hsw. change (cpu_cr3 (k_cpu s1)) with (cpu_cr3 (k_cpu s)) in Hsw.
  rewrite Hvas in Hsw. destruct (_ || _) eqn:Ecr; [|right; left].
  2:{ apply orb_false_iff in Ecr as [Ecr%Z.eqb_neq _]. split; [by rewrite (bind_stopped _ _ _ _ Hsw)|congruence]. }
  rewrite (bind_done _ _ _ _ _ Hsw). set (s2 := task_switched kt s1).
  assert (idle + TCB_SIZE <= cpu_rsp (k_cpu s) - 128 \/ cpu_rsp (k_cpu s) <= idle) as Hint.
  { replace (cpu_rsp (k_cpu s)) with (cpu_rsp (k_cpu s) - 128 + 128) at 2 by lia.
    apply apart_intervals; [by unfold TCB_SIZE|lia|]. intros x H1 H2. apply (proj1 (Hap x H1)). lia. }
  assert (is_word idle) as Hidw by (unfold is_word, KERNEL_VMB, TCB_SIZE in *; change (2 ^ 64) with 18446744073709551616; lia).
  destruct (self_switch_run idle s2) as (m3 & H3 & Hm3); try done.
  { cbn. by rewrite !length_insert. }
  { cbn. apply Forall_insert; [apply Forall_insert; [done|apply load64_range]|done]. }
  { change (cpu_rsp (k_cpu s2)) with (cpu_rsp (k_cpu s)). change (2 ^ 64) with 18446744073709551616. lia. }
  { change (cpu_rsp (k_cpu s2)) with (cpu_rsp (k_cpu s)). unfold TCB_SIZE in Hint. lia. }
  rewrite (bind_done _ _ _ _ _ H3). clear H3.
  change (cpu_rsp (k_cpu s2)) with (cpu_rsp (k_cpu s)) in *. change (k_mem s2) with m0 in Hm3.
  match goal with |- context [threads_push_back idle ?x] => set (s3 := x) end.
  assert (heap_ready s3) as Hr3 by (by apply (heap_ready_same s s3)).
  assert (forall a, ~ tcb_byte idle a -> ~ (lo <= a < hi) -> mget m3 a = mget (k_mem s) a) as Hm.
  { intros a H1 H2. rewrite Hm3 by (unfold tcb_byte, TCB_SIZE in H1; lia). by apply (idle_stores_keep idle). }
  pose proof (push_back_run s3 no_slist [] [] idle (empty_repr s3 (hr_ok _ Hr3)) Hr3 Hlim Hidw) as H.
  cbv zeta in H. unfold threads_push_back. rewrite gets_bind.
  change (threads (k_sched s3)) with (threads (k_sched s)). rewrite Hth. change (SList 0 0 0) with no_slist.
  destruct (_ <=? _) in H; [right; right|left; by rewrite (bind_stopped _ _ _ _ H)].
  destruct H as (l & s4 & H4 & [K1 K2 K3 K4 K5 [_ _ K6 _ K7 (K8 & K9 & K10) _]] & Hl4 & Hf4).
  rewrite (bind_done _ _ _ _ _ H4). set (node := kalloc_at s3 8) in *.
  set (s' := set_ksched (set_threads l (k_sched s4)) s4).
  exists s', node. split; [done|].
  assert (k_sched s' = set_threads l (set_current idle (set_task kt (k_sched s)))) as Hsch.
  { cbn [s' k_sched set_ksched]. by rewrite K6. }
  assert (current s' = idle) as Hcur by (unfold current; by rewrite Hsch).
  change (k_cpu s3) with (cpu_with (call_regs idle kt s1) (cpu_rsp (k_cpu s)) resume (k_cpu s)) in *.
  cbn [cpu_with cpu_cr3 cpu_rsp cpu_regs cpu_rip] in K7, K8, K9, K10.
  split; [|split; [by eexists|split; [exact K4|split; [exact K2|split; [exact K3|split; [|split; [exact Hf4|done]]]]]]].
  2:{ intros a Ha H1 H2. change (k_mem s') with (k_mem s4). rewrite K5; [by apply Hm|done|].
      intros n []%not_elem_of_nil. }
  assert (forall x, x ∈ [idle] -> x = idle) as Hone by (intros x Hx; by apply list_elem_of_singleton in Hx).
  split; cbn [boot_layout ly_nodes ly_tcbs].
  - split; cbn [boot_layout ly_nodes ly_tcbs ly_lo ly_hi]; unfold stack_byte; cbn [boot_layout ly_lo ly_hi].
    + intros x ->%Hone. change (2 ^ 64) with 18446744073709551616. lia.
    + apply NoDup_singleton.
    + by intros x y a ->%Hone ->%Hone.
    + by intros x y a ->%Hone ->%Hone.
    + intros x y a ->%Hone ->%Hone Ha Hb. by apply (proj1 (Hap a Hb)).
    + intros n x a ->%list_elem_of_singleton ->%Hone Ha.
      split; intros Hb; apply (Hf4 a); try done; apply (client_byte_same s s3); try done; apply Hcl; auto.
  - by apply (heap_ready_same s4 s').
  - rewrite Hsch. destruct Hl4 as [G1 G2 G3 [G4 G5 G6]]. by split; [| | |split].
  - rewrite Hcur. left.
  - unfold index. rewrite Hsch. cbn. by rewrite Hi0.
  - intros x a ->%Hone Ha. apply (client_byte_same s4 s'); [done..|]. apply K4.
    apply (client_byte_same s s3); [done..|]. by apply Hcl.
  - rewrite Hcur. by intros x ->%Hone.
  - unfold has_room. rewrite Hcur. change (k_cpu s') with (k_cpu s4). rewrite K8, K9.
    cbn [boot_layout ly_lo ly_hi]. split; [done|]. unfold call_regs. rewrite !length_insert.
    split; [done|]. repeat apply Forall_insert; try done. apply load64_range.
  - rewrite Hcur. by intros x ->%Hone.
Qed.

Lemma Scheduler_Init_run lo hi s :
  init_ok lo hi s ->
  Scheduler_Init resume str_kernel str_idle s = Stopped out_of_memory \/
  Scheduler_Init resume str_kernel str_idle s = Stopped page_fault /\
    MEM_VIRT_TO_PHYS (pdir_kernel (k_vmm s)) <> cpu_cr3 (k_cpu s) \/
  exists s', Scheduler_Init resume str_kernel str_idle s = Done (tt, s') /\ initialised lo hi s s'.
Proof.
  intros Hok. rewrite init_split.
  destruct (init_task_run lo hi s Hok) as [H|(s1 & l & n & H1 & Hsc & Hl & Hr & Hcl & Hb & Hli & Hf & Hv & Hid & Hcpu & Hcr & Hm1)];
    [left; by rewrite (bind_stopped _ _ _ _ H)|]. rewrite (bind_done _ _ _ _ _ H1).
  pose proof Hok as [Ho1 Ho2 [Ho3 Ho4] Ho5 Ho6 Ho7 Ho8 Ho9 Ho10 Ho11 Ho12 Ho13].
  injection Hcpu as Hc1 Hc2 Hc3.
  destruct (init_idle_run lo hi s1 (kernelTask (k_sched s))) as [H|[[H Hne]|(s' & node & H & Hinv & [l' Hsc'] & Hcl' & Hb' & Hli' & Hm & Hnf & Hcr' & Hrsp & Hrip)]];
    rewrite ?Hsc; try done; [by rewrite Hli|apply Ho6|apply Ho7|apply Ho7|apply Ho8|apply Ho8| | | | | |].
  - intros a Ha. apply Hcl, Ho9. auto.
  - unfold has_room. cbn [boot_layout ly_lo ly_hi]. by rewrite Hc1, Hc2.
  - by rewrite Hcr.
  - by left.
  - right; left. split; [done|]. by rewrite <- Hv, <- Hcr.
  - right; right. exists s'. split; [done|].
    assert (forall a, kernelTask (k_sched s) <= a < kernelTask (k_sched s) + 32 ->
      mget (k_mem s') a = mget (k_mem s1) a) as Hkt.
    { intros a Ha. apply Hm; rewrite ?Hsc; [by apply Hcl, Ho9; left| |].
      - intros Hb1. by apply (Ho10 a Hb1).
      - intros Hb1. by apply (Ho11 a Hb1). }
    rewrite Hsc in Hinv, Hsc'. split; rewrite ?Hsc'; try done.
    + exists node. split; [done|]. intros a Ha G1 G2 G3. rewrite Hsc in Hm.
      split; [|by rewrite Hm, Hm1 by auto]. split; [by apply Hcl', Hcl|]. cbn [boot_layout ly_nodes ly_tcbs].
      split; intros x ->%list_elem_of_singleton; [by apply Hnf, Hcl|exact G2].
    + split; [unfold current; by rewrite Hsc'|]. split; [done|]. unfold index. rewrite Hsc'. exact Ho5.
    + unfold task_vas, task_taskID in *. split; [|split].
      * rewrite <- Hv. apply (load_ext 8). intros a Ha. apply Hkt. lia.
      * rewrite <- Hid. apply (load_ext 8). intros a Ha. apply Hkt. lia.
      * intros a Ha. apply Hcl', Hcl, Ho9. by left.
    + exists n. cbn. apply (repr_kept s1); [|lia|exact Hl]. intros k a Hk Ha.
      pose proof (no_client _ _ (lr_nodes _ _ _ _ Hl) k a Hk Ha) as Hca.
      apply list_elem_of_singleton in Hk as ->. split; [by apply Hcl'|].
      apply Hm; [done|rewrite Hsc|]; intros Hb1; apply (Hf a); try done; apply Ho9; auto.
    + by rewrite Hcr', Hcr, Hrsp, Hc2.
    + by rewrite Hli', Hli.
Qed.

End Init.
