(* ===== verification/Budget.v ===== *)
(** How much of its heap the kernel uses: [spends n m] says that a run of [m]
    takes at most [n] bytes from the heap, and stops for lack of memory only if
    fewer than [n] are left.  The rules go through a body by its structure; the
    results are what a list node, a driver's registration, a thread and the
    scheduler's initialisation need. *)

From S2P Require Import Prelude Memory Lobo KernelBitset Pmm KernelHeap KernelList KernelEarly Scheduler.
Local Open Scope Z_scope.
Local Open Scope mach_scope.

Definition hbase (s : kstate) : Z := earlyAllocBase (k_heap s).
Definition hlimit (s : kstate) : Z := earlyAllocLimit (k_heap s).
(** The position is inside the heap, and no sum with a request wraps around. *)
Definition bounded (s : kstate) : Prop := 0 <= hbase s <= hlimit s /\ hlimit s + 8 + THREAD_STACK_SIZE < 2 ^ 64.

Record spends {A} (n : Z) (m : ST kstate A) : Prop := Spends {
  spends_at : forall s, bounded s ->
    match m s with
    | Done (_, s') => hbase s <= hbase s' <= hbase s + n /\ hbase s' <= hlimit s' /\ hlimit s' = hlimit s
    | Stopped r => r = out_of_memory -> hlimit s < hbase s + n
    end
}.
Arguments Spends {A n m} _.
Arguments spends_at {A n m} _ _ _.

Lemma spends_short {A} n (m : ST kstate A) s :
  spends n m -> bounded s -> m s = Stopped out_of_memory -> hlimit s < hbase s + n.
Proof. intros [H] Hb E. specialize (H s Hb). rewrite E in H. by apply H. Qed.
Lemma ready_bounded s :
  heap_ready s -> earlyAllocLimit (k_heap s) + 8 + THREAD_STACK_SIZE < 2 ^ 64 -> bounded s.
Proof.
  intros [Hk _] Hl. pose proof (kh_range _ Hk). unfold bounded, hbase, hlimit, KERNEL_VMB in *. lia.
Qed.

Create HintDb budget.

(** ** Rules *)

Section Rules.
Context {A B : Type}.

Lemma sp_bind n1 n2 (m : ST kstate A) (f : A -> ST kstate B) :
  0 <= n2 -> spends n1 m -> (forall a, spends n2 (f a)) -> spends (n1 + n2) (m ≫= f).
Proof.
  intros Hn [Hm] Hf. split. intros s Hb. specialize (Hm s Hb). unfold mbind, ST_bind.
  destruct (m s) as [[a s1]|r]; [|intros Hr; specialize (Hm Hr); lia].
  destruct Hm as ((H1 & H2) & H3 & H4). pose proof (spends_at (Hf a) s1) as H. unfold bounded in *.
  destruct (f a s1) as [[b s2]|r]; [destruct H as ((G1 & G2) & G3 & G4); lia|].
  intros Hr. specialize (H ltac:(lia) Hr). lia.
Qed.
Lemma sp_mono n n' (m : ST kstate A) : n <= n' -> spends n m -> spends n' m.
Proof.
  intros Hn [H]. split. intros s Hb. specialize (H s Hb). destruct (m s) as [[a s1]|r]; [lia|].
  intros Hr. specialize (H Hr). lia.
Qed.

(** What does not touch the heap. *)
Lemma sp_bind0 (m : ST kstate A) (f : A -> ST kstate B) :
  spends 0 m -> (forall a, spends 0 (f a)) -> spends 0 (m ≫= f).
Proof. intros. by apply (sp_bind 0 0). Qed.
Lemma sp_first n (m : ST kstate A) (f : A -> ST kstate B) :
  0 <= n -> spends 0 m -> (forall a, spends n (f a)) -> spends n (m ≫= f).
Proof. intros. by apply (sp_bind 0 n). Qed.
Lemma sp_last n (m : ST kstate A) (f : A -> ST kstate B) :
  spends n m -> (forall a, spends 0 (f a)) -> spends n (m ≫= f).
Proof. intros. replace n with (n + 0) by lia. by apply sp_bind. Qed.
Lemma sp_ret (a : A) : spends 0 (mret a).
Proof. split. intros s Hb. unfold bounded in Hb. cbn. lia. Qed.
Lemma sp_gets (f : kstate -> A) : spends 0 (gets f).
Proof. split. intros s Hb. unfold bounded in Hb. cbn. lia. Qed.
Lemma sp_stop r : r <> out_of_memory -> spends 0 (stop_with (A := A) r).
Proof. intros Hne. split. intros s _ Hr. by destruct Hne. Qed.
Lemma sp_if n (b : bool) (m1 m2 : ST kstate A) : spends n m1 -> spends n m2 -> spends n (if b then m1 else m2).
Proof. by destruct b. Qed.
Lemma sp_modify f : (forall s, k_heap (f s) = k_heap s) -> spends 0 (modify f).
Proof. intros H. split. intros s Hb. cbn. unfold bounded, hbase, hlimit in *. rewrite H. lia. Qed.
Lemma sp_skip : spends 0 skip.
Proof. split. intros s Hb. unfold bounded in Hb. cbn. lia. Qed.
End Rules.

Lemma sp_when b m : spends 0 m -> spends 0 (when b m).
Proof. intros H. destruct b; [exact H|apply sp_skip]. Qed.
Lemma sp_assert b c : spends 0 (assert_c b c).
Proof. destruct b; [apply sp_skip|by apply sp_stop]. Qed.
Lemma sp_forM {A} (l : list A) f : (forall x, spends 0 (f x)) -> spends 0 (forM l f).
Proof. intros H. induction l as [|x l IH]; cbn [forM]; [apply sp_skip|by apply sp_bind0]. Qed.

#[export] Hint Resolve sp_ret sp_gets sp_skip sp_assert sp_forM : budget.
#[export] Hint Extern 1 (spends 0 (stop_with _)) => apply sp_stop; discriminate : budget.
#[export] Hint Extern 1 (spends 0 (modify _)) => apply sp_modify; intros ?; reflexivity : budget.

Ltac sp_step :=
  match goal with
  | |- spends 0 (_ ≫= _) => apply sp_bind0; [|intros ?]
  | |- spends _ (if _ then _ else _) => apply sp_if
  | |- spends 0 (when _ _) => apply sp_when
  | |- spends _ (let _ := _ in _) => cbv zeta
  end.
Ltac budget := repeat sp_step; auto with budget.

(** ** The operations *)

Lemma sp_klog c f a : spends 0 (klog c f a).
Proof. unfold klog. budget. Qed.
Lemma sp_set_if b : spends 0 (set_if b).
Proof. unfold set_if. budget. Qed.
Lemma sp_pmm_set a : spends 0 (pmm_set a).
Proof. unfold pmm_set, bitmap_set, bitset_set, bitset_put. budget. Qed.
Lemma sp_kstore64 a v : spends 0 (kstore64 a v).
Proof. unfold kstore64. budget. Qed.
Lemma sp_kstore32 a v : spends 0 (kstore32 a v).
Proof. unfold kstore32. budget. Qed.
Lemma sp_with_sched f : spends 0 (with_sched f).
Proof. unfold with_sched. budget. Qed.
Lemma sp_non_null a : spends 0 (non_null a).
Proof. unfold non_null. budget. Qed.
#[export] Hint Resolve sp_klog sp_set_if sp_pmm_set sp_kstore64 sp_kstore32 sp_with_sched sp_non_null : budget.

(** A request takes its size and what aligns it. *)
Definition request (sz : Z) : Z := sz + 7.

(** The rest of [kmalloc_aligned] once the position, [b] before, is aligned. *)
Lemma sp_take s b p sz (m : ST kstate Z) :
  0 <= b <= p -> p <= b + 7 -> b <= hlimit s -> hlimit s + 8 + THREAD_STACK_SIZE < 2 ^ 64 -> 0 <= sz <= THREAD_STACK_SIZE ->
  (p + sz <= hlimit s -> match m s with
     | Done (_, s') => hbase s' = p + sz /\ hlimit s' = hlimit s
     | Stopped r => r <> out_of_memory
     end) ->
  match (when (hlimit s <? p +64 sz) (kpanic "kmalloc(early): Ran out of memory!") ;; m) s with
  | Done (_, s') => b <= hbase s' <= b + request sz /\ hbase s' <= hlimit s' /\ hlimit s' = hlimit s
  | Stopped r => r = out_of_memory -> hlimit s < b + request sz
  end.
Proof.
  intros Hp Hp7 Hb Hl Hsz Hm. unfold THREAD_STACK_SIZE, request in *. change (2 ^ 64) with 18446744073709551616 in Hl.
  rewrite u64_small by lia. destruct (Z.ltb_spec (hlimit s) (p + sz)) as [Hlt|Hle]; [intros _; lia|].
  change ((when false _ ;; m) s) with (m s). specialize (Hm Hle). destruct (m s) as [[a s']|r]; [lia|done].
Qed.

Lemma sp_kmalloc sz : 0 <= sz <= THREAD_STACK_SIZE -> spends (request sz) (kmalloc sz).
Proof.
  intros Hsz. split. intros s [Hb Hl]. unfold kmalloc, kmalloc_aligned.
  destruct (kalloc_at_spec s 8 ltac:(lia)) as [Hp _]. fold (hbase s) in Hp. set (p := kalloc_at s 8) in *.
  assert (0 <= hbase s /\ hbase s + 8 < 2 ^ 64) as [Hb0 Hb8] by (unfold THREAD_STACK_SIZE in *; lia).
  assert (p + sz <= hlimit s -> u64 (p + sz) = p + sz) as Hu by (intros; apply u64_small; unfold THREAD_STACK_SIZE in *; lia).
  rewrite gets_bind. destruct (currentMode (k_heap s)) eqn:Em; [done| |].
  - rewrite (bind_done _ _ _ _ _ (align_base_run s 8 ltac:(lia) Hb0 Hb8)), !gets_bind. fold p.
    set (s1 := set_kheap _ s). change (hlimit s) with (hlimit s1) in *. apply (sp_take s1 (hbase s) p sz); [lia..|]. intros Hle.
    change (earlyAllocBase (k_heap s1)) with p. unfold set_base.
    rewrite modify_bind, klog_bind, Hu by done. done.
  - unfold cli. rewrite set_if_bind, gets_bind. set (s0 := set_kcpu _ s).
    rewrite (bind_done _ _ _ _ _ (align_base_run s0 8 ltac:(lia) Hb0 Hb8)), !gets_bind. change (kalloc_at s0 8) with p.
    set (s1 := set_kheap _ s0). change (hlimit s) with (hlimit s1) in *. apply (sp_take s1 (hbase s) p sz); [lia..|]. intros Hle.
    change (earlyAllocBase (k_heap s1)) with p. cbv zeta. rewrite Hu by done.
    match goal with |- context [when ?b ?m ≫= _] => assert (spends 0 (when b m)) as [Hw] by budget end.
    specialize (Hw s1). unfold mbind, ST_bind. destruct (when _ _ s1) as [[[] s2]|r].
    + destruct Hw as (_ & _ & Hw); [split; change (hbase s1) with p; lia|]. done.
    + intros Hr. specialize (Hw ltac:(split; change (hbase s1) with p; lia) Hr).
      change (hbase s1) with p in Hw. lia.
Qed.
#[export] Hint Resolve sp_kmalloc : budget.

(** ** Lists and threads *)

Lemma sp_set_value n v : spends 0 (set_value n v).
Proof. unfold set_value. budget. Qed.
Lemma sp_set_next n v : spends 0 (set_next n v).
Proof. unfold set_next. budget. Qed.
#[export] Hint Resolve sp_set_value sp_set_next : budget.

Definition node_request : Z := request NODE_SIZE.
Lemma sp_push_back l v : spends node_request (push_back l v).
Proof.
  unfold push_back, create_head. sp_step; (apply sp_last; [by apply sp_kmalloc|intros n]); budget.
Qed.
Lemma sp_driver_add d : spends node_request (driver_registry_add d).
Proof.
  unfold driver_registry_add. apply sp_first; [done|auto with budget|intros l].
  apply sp_last; [apply sp_push_back|intros l']. budget.
Qed.
Lemma sp_threads_push t : spends node_request (threads_push_back t).
Proof.
  unfold threads_push_back. apply sp_first; [done|auto with budget|intros l].
  apply sp_last; [apply sp_push_back|intros l']. budget.
Qed.

Lemma sp_set_rsp a : spends 0 (set_rsp a).
Proof. unfold set_rsp. budget. Qed.
Lemma sp_set_rip a : spends 0 (set_rip a).
Proof. unfold set_rip. budget. Qed.
Lemma sp_set_cpu_regs r : spends 0 (set_cpu_regs r).
Proof. unfold set_cpu_regs. budget. Qed.
Lemma sp_write_cr3 a : spends 0 (write_cr3 a).
Proof. unfold write_cr3, set_cr3. budget. Qed.
#[export] Hint Resolve sp_set_rsp sp_set_rip sp_set_cpu_regs sp_write_cr3 : budget.
Lemma sp_push v : spends 0 (push v).
Proof. unfold push. budget. Qed.
Lemma sp_pop : spends 0 pop.
Proof. unfold pop. budget. Qed.
#[export] Hint Resolve sp_push sp_pop : budget.
Lemma sp_pops n regs : spends 0 (pops n regs).
Proof. revert regs. induction n as [|n IH]; intros regs; cbn [pops]; budget. Qed.
#[export] Hint Resolve sp_pops : budget.
Lemma sp_switch_thread ret new old : spends 0 (switch_thread ret new old).
Proof. unfold switch_thread. budget. Qed.
Lemma sp_switch_task new old : spends 0 (switch_task_vas new old).
Proof. unfold switch_task_vas. budget. Qed.
#[export] Hint Resolve sp_switch_thread sp_switch_task : budget.
Lemma sp_SwitchTask t : spends 0 (SwitchTask t).
Proof. unfold SwitchTask. budget. Qed.
Lemma sp_SwitchThread resume t : spends 0 (SwitchThread resume t).
Proof. unfold SwitchThread. budget. Qed.
Lemma sp_set_state t st : spends 0 (set_state t st).
Proof. unfold set_state. budget. Qed.
Lemma sp_store_words a ws : spends 0 (store_words a ws).
Proof. revert a. induction ws as [|w ws IH]; intros a; cbn [store_words]; budget. Qed.
Lemma sp_PrintThreadInfo t : spends 0 (PrintThreadInfo t).
Proof. unfold PrintThreadInfo. budget. Qed.
Lemma sp_EnableScheduling : spends 0 EnableScheduling.
Proof. unfold EnableScheduling. budget. Qed.
#[export] Hint Resolve sp_SwitchTask sp_SwitchThread sp_set_state sp_store_words sp_PrintThreadInfo
  sp_EnableScheduling : budget.

Lemma sp_count l a b : spends 0 (count_pages l a b).
Proof. revert a b. induction l as [|i l IH]; intros a b; cbn [count_pages]; unfold pmm_test, bitmap_test, bitset_test; budget. Qed.
#[export] Hint Resolve sp_count : budget.
Lemma sp_print_free_memory : spends 0 debug_print_free_memory.
Proof. unfold debug_print_free_memory. budget. Qed.

(** Steps off the heap before one that may use it. *)
Ltac sp_skips := repeat match goal with
  | |- spends _ (_ ≫= _) => apply sp_first; [done|solve [budget]|intros ?]
  end.

Definition init_needs : Z := node_request + node_request.
Lemma sp_Scheduler_Init resume k i : spends init_needs (Scheduler_Init resume k i).
Proof.
  unfold Scheduler_Init. sp_skips. apply sp_bind; [done|apply sp_push_back|intros l]. sp_skips.
  apply sp_threads_push.
Qed.

Definition thread_needs : Z := request TCB_SIZE + (request THREAD_STACK_SIZE + node_request).
Lemma sp_CreateThread name function : spends thread_needs (CreateThread name function).
Proof.
  unfold CreateThread. apply sp_bind; [done|by apply sp_kmalloc|intros t]. sp_skips.
  apply sp_bind; [done|by apply sp_kmalloc|intros stk]. cbv zeta. sp_skips.
  apply sp_last; [apply sp_threads_push|intros ?]. budget.
Qed.
