(* ===== verification/Threads.v ===== *)
(** What the scheduler of [Scheduler] promises to threads: every call of
    [Schedule] returns and switches to the next ready thread in turn, a thread
    that is switched out goes on later as if nothing had happened, a created
    thread starts at its function, and no ready thread waits for more turns
    than there are threads. *)

From S2P Require Import Prelude Memory AwdAlloc Lobo KernelBitset Pmm KernelHeap KernelList Scheduler Budget.
Local Open Scope Z_scope.
Local Open Scope mach_scope.

(** ** Turns *)

(** [n] calls of [Schedule] with scheduling on, between them anything the
    running threads may do, none of them giving the processor to [t]. *)
Inductive turns_without (resume : Z) (L : layout) (t : Z) : nat -> kstate -> kstate -> Prop :=
  | T_none s : turns_without resume L t 0 s s
  | T_activity n s s1 s2 :
      activity L s s1 -> turns_without resume L t n s1 s2 -> turns_without resume L t n s s2
  | T_turn n s s1 s2 :
      schedulingEnabled (k_sched s) = true -> Schedule resume s = Done (tt, s1) -> current s1 <> t ->
      turns_without resume L t n s1 s2 -> turns_without resume L t (S n) s s2.

(** How many threads come before position [j] after index [i]. *)
Definition ahead (n i j : Z) : Z := (j - i - 1) mod n.

Lemma ahead_after tcbs i j t :
  0 <= i -> tcbs !! j = Some t ->
  nth_after tcbs i (ahead (Z.of_nat (length tcbs)) i (Z.of_nat j) + 1) = Some t.
Proof.
  intros Hi Hj. pose proof (lookup_lt_Some _ _ _ Hj) as Hlt. unfold nth_after, ahead.
  replace (i + ((Z.of_nat j - i - 1) mod Z.of_nat (length tcbs) + 1))
    with (i + 1 + (Z.of_nat j - i - 1) mod Z.of_nat (length tcbs)) by lia.
  rewrite Zplus_mod_idemp_r. replace (i + 1 + (Z.of_nat j - i - 1)) with (Z.of_nat j) by lia.
  rewrite Z.mod_small by lia. by rewrite Nat2Z.id.
Qed.

Lemma ahead_bound n i j : 0 < n -> 0 <= ahead n i j < n.
Proof. intros. by apply Z.mod_pos_bound. Qed.

(** Moving [k] places forward, not past [j], brings [j] nearer. *)
Lemma ahead_step n i j k :
  0 < n -> 1 <= k <= ahead n i j -> ahead n ((i + k) mod n) j = ahead n i j - k.
Proof.
  intros Hn Hk. pose proof (ahead_bound n i j Hn) as Hb. unfold ahead in *.
  rewrite <- (Z.mod_small ((j - i - 1) mod n - k) n) by lia.
  rewrite Zminus_mod_idemp_l.
  replace (j - (i + k) mod n - 1) with (j - 1 - (i + k) mod n) by lia.
  rewrite Zminus_mod_idemp_r. f_equal. lia.
Qed.

Section Fair.
Context (resume : Z).
Hypothesis Hresume : is_word resume.

Lemma turns_bound L t n s s' j :
  turns_without resume L t n s s' ->
  sched_inv L s -> ly_tcbs L !! j = Some t -> t <> current s ->
  is_ready (k_mem s) t = true -> Z.of_nat (length (ly_tcbs L)) <= maxTries + 1 ->
  Z.of_nat n <= ahead (Z.of_nat (length (ly_tcbs L))) (index s) (Z.of_nat j).
Proof.
  intros Hturns HI Hj Hne Hready Hlen. pose proof (list_elem_of_lookup_2 _ _ _ Hj) as Ht.
  assert (0 < Z.of_nat (length (ly_tcbs L))) as Hpos by (apply lookup_lt_Some in Hj; lia).
  revert HI Hne Hready. induction Hturns as [s|n s s1 s2 Ha _ IH|n s s1 s2 Hen Hr Hoff _ IH]; intros HI Hne Hready.
  - by apply ahead_bound.
  - pose proof (activity_inv L s s1 HI Ha) as HI1.
    destruct (ac_sched _ _ _ Ha) as [b Hb].
    assert (index s1 = index s) as Hi by (unfold index; by rewrite Hb).
    assert (current s1 = current s) as Hc by (unfold current; by rewrite Hb).
    rewrite <- Hi. apply IH; [done|by rewrite Hc|]. unfold is_ready in *.
    rewrite (load_state_get (k_mem s)); [done|]. intros a Hax. apply (ac_tcbs _ _ _ Ha t); [done|].
    unfold tcb_byte, TCB_SIZE. lia.
  - destruct (schedule_cases resume Hresume L s HI) as (s1' & H1 & HI1 & Hc).
    rewrite Hr in H1. injection H1 as <-.
    pose proof (si_index _ _ HI) as Hi. pose proof (ahead_after _ (index s) _ _ ltac:(lia) Hj) as Hat.
    pose proof (ahead_bound (Z.of_nat (length (ly_tcbs L))) (index s) (Z.of_nat j) Hpos) as Hb.
    set (d := ahead _ (index s) _) in *.
    destruct Hc as [[_ Hoff']|[(_ & Hn & _)|(_ & k & u & Hch & Hsw)]]; [congruence| |].
    + rewrite (Hn (d + 1) t ltac:(lia) Hat) in Hready. done.
    + destruct Hch as (Hk & Hu & Hur & Hbefore). pose proof (list_elem_of_lookup_2 _ _ _ Hu) as Huin.
      assert (current s1 = u) as Hcur by (unfold current; by rewrite (sw_state _ _ _ _ _ _ Hsw)).
      assert (u <> t) as Hut by congruence.
      assert (k <= d) as Hkd.
      { destruct (decide (k <= d)); [done|]. exfalso.
        destruct (decide (k = d + 1)) as [->|]; [congruence|].
        rewrite (Hbefore (d + 1) t ltac:(lia) Hat) in Hready. done. }
      assert (index s1 = (index s + k) mod Z.of_nat (length (ly_tcbs L))) as Hidx
        by (unfold index at 1; by rewrite (sw_state _ _ _ _ _ _ Hsw)).
      assert (is_ready (k_mem s1) t = true) as Hready1.
      { unfold is_ready. rewrite (sw_states _ _ _ _ _ _ Hsw t Ht).
        by rewrite !decide_False by done. }
      specialize (IH HI1 ltac:(congruence) Hready1).
      rewrite Hidx, ahead_step in IH by (fold d; lia). fold d in IH. lia.
Qed.

(** ** Resumption *)

Lemma switched_current L s i t s' : switched resume L s i t s' -> current s' = t.
Proof. intros Hsw. unfold current. by rewrite (sw_state _ _ _ _ _ _ Hsw). Qed.

(** A change of the current thread is a switch. *)
Lemma schedule_switches L s s' :
  sched_inv L s -> Schedule resume s = Done (tt, s') -> current s' <> current s ->
  sched_inv L s' /\ current s' ∈ ly_tcbs L /\ is_ready (k_mem s) (current s') = true /\
  exists i, switched resume L s i (current s') s'.
Proof.
  intros HI Hr Hne. destruct (schedule_cases resume Hresume L s HI) as (s1 & H1 & HI1 & Hc).
  rewrite Hr in H1. injection H1 as <-. split; [done|].
  destruct Hc as [[-> _]|[(_ & _ & ->)|(_ & k & u & (_ & Hu & Hready & _) & Hsw)]]; [done|done|].
  rewrite (switched_current _ _ _ _ _ Hsw).
  split; [by eapply list_elem_of_lookup_2|]. split; [done|]. by eexists.
Qed.

(** A thread off the processor in [x] that [Schedule] picks later gets the
    context it had in [x], its stack as it was. *)
Lemma resume_from x L2 s2 s3 t :
  sched_inv x.1 x.2 -> t ∈ ly_tcbs x.1 -> t <> current x.2 ->
  rtc (step_off resume t) x (L2, s2) -> Schedule resume s2 = Done (tt, s3) -> current s3 = t ->
  cpu_ctx s3 = saved_ctx (k_mem x.2) t /\ tcb_state (k_mem s3) t = state_code Running /\
  is_ready (k_mem x.2) t = true /\
  forall a, stack_byte x.1 t a -> mget (k_mem s3) a = mget (k_mem x.2) a.
Proof.
  intros HI Ht Hne Hst Hr Hcur.
  destruct (steps_off_keep resume Hresume _ _ t Hst HI Ht Hne) as (HI2 & Hne2 & K0 & K1 & K2 & K3 & K4 & K5 & K6).
  cbn [fst snd] in *.
  destruct (schedule_switches L2 s2 s3 HI2 Hr ltac:(congruence)) as (HI3 & _ & Hready & i & Hsw).
  rewrite Hcur in *. pose proof (sw_cpu _ _ _ _ _ _ Hsw) as (Hcpu & _). rewrite decide_False in Hcpu by done.
  split; [by rewrite Hcpu|]. split.
  { rewrite (sw_states _ _ _ _ _ _ Hsw t K0). by rewrite decide_True. }
  split; [unfold is_ready in *; by rewrite <- K3|].
  intros a Ha. rewrite <- K6 by done.
  assert (stack_byte L2 t a) as Ha2 by (unfold stack_byte in *; by rewrite K4, K5).
  destruct (saved_apart L2 s2 t a HI2 K0 Hne2 Ha2) as [Hf Hb].
  pose proof (Hb _ K0). pose proof (Hb _ (si_current _ _ HI2)). unfold tcb_byte, TCB_SIZE in *.
  apply (sw_mem _ _ _ _ _ _ Hsw); lia.
Qed.

Lemma thread_resumes_run L0 L2 s0 s1 s2 s3 :
  sched_inv L0 s0 -> Schedule resume s0 = Done (tt, s1) -> current s1 <> current s0 ->
  rtc (step_off resume (current s0)) (L0, s1) (L2, s2) ->
  Schedule resume s2 = Done (tt, s3) -> current s3 = current s0 ->
  cpu_ctx s3 = call_ctx resume (current s1) (current s0) s0 /\
  tcb_state (k_mem s3) (current s0) = state_code Running /\
  forall a, cpu_rsp (k_cpu s0) <= a < ly_hi L0 (current s0) -> mget (k_mem s3) a = mget (k_mem s0) a.
Proof.
  intros HI Hout Hoff Hsteps Hin Hon.
  destruct (schedule_switches L0 s0 s1 HI Hout Hoff) as (HI1 & Hin1 & _ & i & Hsw).
  pose proof (si_current _ _ HI) as Hc0.
  destruct (resume_from (L0, s1) L2 s2 s3 (current s0) HI1 Hc0 ltac:(cbn; congruence)
    Hsteps Hin Hon) as (H1 & H2 & _ & H3). cbn [fst snd] in *.
  split; [rewrite H1; apply (sw_saved _ _ _ _ _ _ Hsw)|]. split; [done|].
  intros a Ha. pose proof (si_room _ _ HI) as [Hroom _].
  assert (stack_byte L0 (current s0) a) as Hsb by (unfold stack_byte; lia).
  rewrite H3 by done. pose proof (lo_stack_tcb _ (si_layout _ _ HI) _ _ a Hc0 Hc0 Hsb) as Hn1.
  pose proof (lo_stack_tcb _ (si_layout _ _ HI) _ _ a Hc0 Hin1 Hsb) as Hn2.
  unfold tcb_byte, TCB_SIZE in *. apply (sw_mem _ _ _ _ _ _ Hsw); lia.
Qed.

End Fair.

(** Turning scheduling on or off is an action of the running thread. *)
Lemma enabling_activity L s b :
  sched_inv L s -> activity L s (set_ksched (set_enabled b (k_sched s)) s).
Proof.
  intros HI. split; try done; [by exists b|by apply (heap_ready_same s), HI|apply HI].
Qed.

(** A finished [Init]. *)
Lemma init_done resume str_kernel str_idle lo hi s s' :
  is_word resume -> init_ok lo hi s -> Scheduler_Init resume str_kernel str_idle s = Done (tt, s') ->
  initialised resume lo hi s s' /\
  sched_inv (boot_layout (m_tail (threads (k_sched s'))) (idleThread (k_sched s)) lo hi) s'.
Proof.
  intros Hresume Hok Hinit.
  destruct (Scheduler_Init_run resume str_kernel str_idle Hresume lo hi s Hok) as [H|[[H _]|(s1 & H & Hi)]];
    rewrite Hinit in H; [done|done|]. injection H as <-. split; [done|].
  destruct (in_inv _ _ _ _ _ Hi) as (node & Hinv & _).
  pose proof (lr_tail _ _ _ _ (si_list _ _ Hinv)) as Htail. injection Htail as Htail. by subst node.
Qed.

(** ** Theorems *)

(** C6. [Schedule] always returns.  With scheduling off it does nothing.  Else it
    switches to the first ready thread after the current index, in list order
    and cyclically, among the next 501; the thread it leaves becomes ready with
    its context saved on its stack, the new one is running with the context it
    had saved, and nothing else in memory changes.  When none of them is ready
    it only moves the index on by 501. *)
Theorem schedule_correct (resume : Z) (L : layout) (s : kstate)
    (Hresume : is_word resume) (HI : sched_inv L s) :
  exists s', Schedule resume s = Done (tt, s') /\ sched_inv L s' /\
    (s' = s /\ schedulingEnabled (k_sched s) = false \/
     schedulingEnabled (k_sched s) = true /\ none_chosen (k_mem s) (ly_tcbs L) (index s) /\
       s' = at_index ((index s + (maxTries + 1)) mod Z.of_nat (length (ly_tcbs L))) s \/
     schedulingEnabled (k_sched s) = true /\
     exists k t, chosen (k_mem s) (ly_tcbs L) (index s) k t /\
       switched resume L s ((index s + k) mod Z.of_nat (length (ly_tcbs L))) t s').
Proof. by apply schedule_cases. Qed.

(** A thread that is switched out resumes where it was: however the other
    threads run, create threads and call [Schedule] in between, when it is
    switched in again the processor has the registers and the stack pointer it
    called with ([rdi] and [rsi] being the arguments of the call), continues
    after the call, and the thread's stack is what it was. *)
Theorem thread_resumes (resume : Z) (L0 L2 : layout) (s0 s1 s2 s3 : kstate)
    (Hresume : is_word resume) (HI : sched_inv L0 s0)
    (Hout : Schedule resume s0 = Done (tt, s1)) (Hoff : current s1 <> current s0)
    (Hsteps : rtc (step_off resume (current s0)) (L0, s1) (L2, s2))
    (Hin : Schedule resume s2 = Done (tt, s3)) (Hon : current s3 = current s0) :
  cpu_ctx s3 = call_ctx resume (current s1) (current s0) s0 /\
  tcb_state (k_mem s3) (current s0) = state_code Running /\
  forall a, cpu_rsp (k_cpu s0) <= a < ly_hi L0 (current s0) -> mget (k_mem s3) a = mget (k_mem s0) a.
Proof.
  by apply (thread_resumes_run resume Hresume L0 L2 s0 s1 s2 s3).
Qed.

(** C13. A thread made by [CreateThread] is ready, carries its name, the next thread
    id and the task of its creator, and the first time it is scheduled the
    processor is at its function, with an empty stack of 16 KiB and all
    registers 0 but [rbp]. *)
Theorem new_thread_starts (resume : Z) (L L2 : layout) (s s1 s2 s3 : kstate) (name function t : Z)
    (Hresume : is_word resume) (HI : sched_inv L s) (Hok : create_ok s name function)
    (Hcreate : CreateThread name function s = Done (t, s1))
    (Hsteps : rtc (step_off resume t) (new_layout L t s1, s1) (L2, s2))
    (Hin : Schedule resume s2 = Done (tt, s3)) (Hon : current s3 = t) :
  (exists stk, new_thread (k_mem s1) t stk name function (next_tid (k_sched s))
     (task_taskID (k_mem s) (currentTask (k_sched s))) /\
   ly_lo (new_layout L t s1) t = stk /\ ly_hi (new_layout L t s1) t = stk + THREAD_STACK_SIZE /\
   cpu_ctx s3 = start_ctx (stk + THREAD_STACK_SIZE) function) /\
  next_tid (k_sched s1) = next_tid (k_sched s) + 1 /\ sched_inv (new_layout L t s1) s1.
Proof.
  pose proof (create_created L s s1 t name function HI Hok Hcreate) as Hcr.
  pose proof Hcr as [HI1 (node & stk & HL & Hnt) (l & Hsc) _ _ _ _].
  assert (t ∉ ly_tcbs L) as Hfresh.
  { intros Ht. pose proof (lo_nodup _ (si_layout _ _ HI1)) as Hnd.
    apply NoDup_app in Hnd as (_ & Hnd & _). apply (Hnd t Ht). left. }
  assert (t <> current s1) as Hne.
  { intros ->. apply Hfresh. unfold current. rewrite Hsc. apply (si_current _ _ HI). }
  destruct (resume_from resume Hresume (new_layout L t s1, s1) L2 s2 s3 t HI1) as (H1 & _); try done.
  { cbn. apply elem_of_app. right. left. }
  split; [|split; [by rewrite Hsc|done]]. exists stk. split; [done|]. rewrite HL. cbn.
  rewrite !decide_True by done. split; [done|]. split; [done|].
  rewrite H1. cbn [snd]. exact (nt_ctx _ _ _ _ _ _ _ Hnt).
Qed.

(** C7. Round robin is fair: with at most 501 threads, a ready thread that is off
    the processor gets it after at most as many turns as there are other
    threads, whatever the running threads do. *)
Theorem schedule_fair (resume : Z) (L : layout) (s s' : kstate) (t : Z) (n : nat)
    (Hresume : is_word resume) (HI : sched_inv L s) (Ht : t ∈ ly_tcbs L) (Hoff : t <> current s)
    (Hready : tcb_state (k_mem s) t = state_code Ready)
    (Hlen : Z.of_nat (length (ly_tcbs L)) <= maxTries + 1)
    (Hturns : turns_without resume L t n s s') :
  (n < length (ly_tcbs L))%nat.
Proof.
  apply list_elem_of_lookup_1 in Ht as [j Hj].
  pose proof (turns_bound resume Hresume L t n s s' j Hturns HI Hj Hoff
    ltac:(unfold is_ready; by rewrite Hready) Hlen) as H.
  pose proof (lookup_lt_Some _ _ _ Hj) as Hlt.
  pose proof (ahead_bound (Z.of_nat (length (ly_tcbs L))) (index s) (Z.of_nat j) ltac:(lia)). lia.
Qed.

(** C2. The system never gets stuck: after [Init], in every state the threads can
    reach by running, creating threads and calling [Schedule], the invariant
    holds, [Schedule] returns, [CreateThread] returns a thread or - only if the
    heap has less than [thread_needs] bytes left - panics because memory is
    full, and no thread but the current one is marked
    running. *)
Theorem scheduler_reachable_ok (resume str_kernel str_idle lo hi : Z) (s0 s1 : kstate)
    (Hresume : is_word resume) (Hok : init_ok lo hi s0)
    (Hinit : Scheduler_Init resume str_kernel str_idle s0 = Done (tt, s1)) :
  let L0 := boot_layout (m_tail (threads (k_sched s1))) (idleThread (k_sched s0)) lo hi in
  forall L s, rtc (kstep resume) (L0, s1) (L, s) ->
    sched_inv L s /\
    (exists s', Schedule resume s = Done (tt, s')) /\
    (forall name function, create_ok s name function ->
       hlimit s < hbase s + thread_needs /\ CreateThread name function s = Stopped out_of_memory \/
       exists t s', CreateThread name function s = Done (t, s')) /\
    (forall t, t ∈ ly_tcbs L -> tcb_state (k_mem s) t = state_code Running -> t = current s).
Proof.
  intros L0 L s Hsteps. destruct (init_done _ _ _ _ _ _ _ Hresume Hok Hinit) as [_ Hinv].
  pose proof (ksteps_inv resume Hresume _ _ Hsteps Hinv) as HI. cbn [fst snd] in HI.
  split; [done|]. split; [|split].
  - destruct (schedule_cases resume Hresume L s HI) as (s' & H & _). by exists s'.
  - intros name function Hc. destruct (CreateThread_run L s name function HI Hc) as [H|(t & L' & s' & H & _)]; [left|by eauto].
    split; [|done]. refine (spends_short _ _ _ (sp_CreateThread name function) _ H).
    apply ready_bounded; [apply HI|apply Hc].
  - intros t Ht Hrun. destruct (decide (t = current s)); [done|].
    by destruct (si_running _ _ HI t Ht).
Qed.

(** [Init] makes the kernel task and the idle thread, which is the code that
    called it, or panics because memory is full - only if the heap has less than
    [init_needs] bytes left.  The kernel's directory is the one in CR3: the load
    of CR3 in [SwitchTask], which would fault where the directory does not map
    the kernel, is skipped. *)
Theorem scheduler_init_correct (resume str_kernel str_idle lo hi : Z) (s : kstate)
    (Hresume : is_word resume) (Hok : init_ok lo hi s)
    (Hcr3 : cpu_cr3 (k_cpu s) = MEM_VIRT_TO_PHYS (pdir_kernel (k_vmm s)))
    (Hroom : earlyAllocLimit (k_heap s) + 8 + THREAD_STACK_SIZE < 2 ^ 64) :
  hlimit s < hbase s + init_needs /\ Scheduler_Init resume str_kernel str_idle s = Stopped out_of_memory \/
  exists s', Scheduler_Init resume str_kernel str_idle s = Done (tt, s') /\
    initialised resume lo hi s s'.
Proof.
  destruct (Scheduler_Init_run resume str_kernel str_idle Hresume lo hi s Hok) as [H|[[_ H]|H]];
    [left|by rewrite Hcr3 in H|by right].
  split; [|done]. refine (spends_short _ _ _ (sp_Scheduler_Init _ _ _) _ H).
  apply ready_bounded; [apply Hok|done].
Qed.

(** Switching to another task does not switch the address space: CR3 is what it
    was, also when the new task's tables are others ([switch_task_vas] then
    loads CR3 with the value it has just read from it, which faults only where
    the code runs on translations that are no longer in the tables). *)
Theorem switch_task_keeps_address_space (k : Z) (s : kstate) :
  (k = 0 -> SwitchTask k s = Stopped (AssertFailed "task != nullptr")) /\
  (k <> 0 -> code_mapped s = true \/ task_vas (k_mem s) k = cpu_cr3 (k_cpu s) ->
     exists s', SwitchTask k s = Done (tt, s') /\ currentTask (k_sched s') = k /\
       cpu_cr3 (k_cpu s') = cpu_cr3 (k_cpu s) /\ k_mem s' = k_mem s).
Proof.
  split; [by intros ->|]. intros Hk Hm. exists (task_switched k s). split; [|done].
  rewrite SwitchTask_run by done. destruct Hm as [->| ->]; [by rewrite orb_true_r|by rewrite Z.eqb_refl].
Qed.

(** ** Witnesses: two threads *)

Definition sample_resume : Z := KERNEL_VMB + 512.
Definition sample_boot : kstate :=
  KState ∅ (KHeap (KERNEL_VMB + 65536) (KERNEL_VMB + 1048576) EarlyBoot) no_pmm
    (Vmm true (KERNEL_VMB + 131072) (KERNEL_VMB + 131072))
    (Sched false (KERNEL_VMB + 4160) 0 no_slist no_slist (KERNEL_VMB + 4096) 0 0 1) no_slist
    (Cpu true 0 131072 (KERNEL_VMB + 16000) [1; 2; 3; 4; 5; 6; 7; 8; 9; 10; 11; 12; 13; 14; 15] 0)
    (Kbd ∅ 0 false) [] [].
Definition sample_lo : Z := KERNEL_VMB + 8192.
Definition sample_hi : Z := KERNEL_VMB + 16384.

Definition state_after {A} (o : outcome (A * kstate)) : kstate :=
  match o with Done (_, s) => s | Stopped _ => sample_boot end.
Definition finished {A} (o : outcome (A * kstate)) : bool :=
  match o with Done _ => true | Stopped _ => false end.

Lemma finished_done {A} (o : outcome (A * kstate)) :
  finished o = true -> exists a, o = Done (a, state_after o).
Proof. destruct o as [[a s]|]; [by exists a|done]. Qed.

Definition sample_started : kstate := state_after (Scheduler_Init sample_resume 0 0 sample_boot).
Definition sample_layout : layout :=
  boot_layout (m_tail (threads (k_sched sample_started))) (KERNEL_VMB + 4160) sample_lo sample_hi.
Definition sample_thread : Z := KERNEL_VMB + 65568.
Definition sample_created : kstate := state_after (CreateThread 7 (KERNEL_VMB + 1024) sample_started).
Definition sample_two : kstate :=
  set_ksched (set_enabled true (k_sched sample_created)) sample_created.
Definition sample_layout2 : layout := new_layout sample_layout sample_thread sample_created.
Definition sample_switched : kstate := state_after (Schedule sample_resume sample_two).
Definition sample_back : kstate := state_after (Schedule sample_resume sample_switched).

Lemma sample_resume_word : is_word sample_resume.
Proof. vm_compute. split; [discriminate|reflexivity]. Qed.

Lemma sample_boot_ok : init_ok sample_lo sample_hi sample_boot.
Proof.
  assert (forall a, bitmap_byte sample_boot a -> a < KERNEL_VMB) as Hb.
  { intros a Ha. change (0 <= a < 0 + 1) in Ha. unfold KERNEL_VMB. lia. }
  split.
  - split; [split; [done|vm_compute; split; discriminate|done|done]|].
    intros a Ha%Hb. cbn. unfold KERNEL_VMB in *. lia.
  - vm_compute. reflexivity.
  - done.
  - done.
  - vm_compute. done.
  - vm_compute. split; [discriminate|done].
  - vm_compute. split; [discriminate|done].
  - intros a Ha. unfold tcb_byte, TCB_SIZE, sample_lo, sample_hi in Ha. cbn [k_sched sample_boot kernelTask idleThread] in Ha.
    assert (KERNEL_VMB <= a < KERNEL_VMB + 65536) as Hr by lia. split.
    + change (a < KERNEL_VMB + 65536). lia.
    + intros Hc%Hb. lia.
  - intros a. unfold tcb_byte, TCB_SIZE, sample_lo, sample_hi. cbn [k_sched sample_boot kernelTask idleThread]. lia.
  - intros a. unfold sample_lo, sample_hi. cbn [k_sched sample_boot kernelTask idleThread]. lia.
  - split; [vm_compute; split; discriminate|]. split; [done|].
    assert (Forall (fun v => 0 <= v < 16) [1; 2; 3; 4; 5; 6; 7; 8; 9; 10; 11; 12; 13; 14; 15]) as Hw
      by (repeat (apply Forall_cons_2; [lia|]); apply Forall_nil_2).
    eapply Forall_impl; [exact Hw|]. intros v Hv. cbn beta in Hv. unfold is_word.
    change (2 ^ 64) with 18446744073709551616. lia.
  - vm_compute. split; [discriminate|reflexivity].
Qed.

Lemma sample_init_done : Scheduler_Init sample_resume 0 0 sample_boot = Done (tt, sample_started).
Proof.
  destruct (finished_done (Scheduler_Init sample_resume 0 0 sample_boot)) as [[] H]; [|exact H].
  vm_compute. reflexivity.
Qed.

Lemma sample_create_done : CreateThread 7 (KERNEL_VMB + 1024) sample_started = Done (sample_thread, sample_created).
Proof.
  destruct (finished_done (CreateThread 7 (KERNEL_VMB + 1024) sample_started)) as [t H].
  { vm_compute. reflexivity. }
  assert (match CreateThread 7 (KERNEL_VMB + 1024) sample_started with
    | Done (x, _) => x =? sample_thread | Stopped _ => false end = true) as Ht by (vm_compute; reflexivity).
  rewrite H in Ht. apply Z.eqb_eq in Ht as ->. exact H.
Qed.

Lemma sample_started_ok :
  sched_inv sample_layout sample_started /\ create_ok sample_started 7 (KERNEL_VMB + 1024).
Proof.
  destruct (init_done _ _ _ _ _ _ _ sample_resume_word sample_boot_ok sample_init_done) as [Hi Hinv].
  split; [exact Hinv|].
  assert (currentTask (k_sched sample_started) = KERNEL_VMB + 4096) as Ht by (vm_compute; reflexivity).
  split; [vm_compute; reflexivity|]. rewrite Ht. split; [vm_compute; discriminate|]. split.
  - intros a Ha. destruct (in_task _ _ _ _ _ Hi) as (_ & _ & Hc). apply Hc.
    change (kernelTask (k_sched sample_boot)) with (KERNEL_VMB + 4096). lia.
  - split; [vm_compute; split; [discriminate|reflexivity]|].
    split; vm_compute; (split; [discriminate|reflexivity]).
Qed.

Lemma sample_two_ok : sched_inv sample_layout2 sample_created /\ sched_inv sample_layout2 sample_two.
Proof.
  destruct sample_started_ok as [HI Hok].
  pose proof (create_created _ _ _ _ _ _ HI Hok sample_create_done) as Hc.
  pose proof (cr_inv _ _ _ _ _ _ _ Hc) as HI2. split; [exact HI2|].
  apply (activity_inv sample_layout2 sample_created); [exact HI2|].
  exact (enabling_activity sample_layout2 sample_created true HI2).
Qed.

Lemma sample_switch_done : Schedule sample_resume sample_two = Done (tt, sample_switched).
Proof.
  destruct (finished_done (Schedule sample_resume sample_two)) as [[] H]; [vm_compute; reflexivity|exact H].
Qed.
Lemma sample_back_done : Schedule sample_resume sample_switched = Done (tt, sample_back).
Proof.
  destruct (finished_done (Schedule sample_resume sample_switched)) as [[] H]; [vm_compute; reflexivity|exact H].
Qed.

Lemma schedule_correct_witness :
  exists s', Schedule sample_resume sample_two = Done (tt, s') /\ sched_inv sample_layout2 s'.
Proof.
  destruct (schedule_correct sample_resume sample_layout2 sample_two sample_resume_word (proj2 sample_two_ok))
    as (s' & H1 & H2 & _).
  exists s'. split; [exact H1|exact H2].
Defined.

Lemma thread_resumes_witness :
  current sample_switched = sample_thread /\ current sample_back = KERNEL_VMB + 4160 /\
  cpu_ctx sample_back = call_ctx sample_resume sample_thread (KERNEL_VMB + 4160) sample_two.
Proof.
  assert (current sample_switched = sample_thread) as H1 by (vm_compute; reflexivity).
  assert (current sample_back = current sample_two) as H2 by (vm_compute; reflexivity).
  assert (current sample_two = KERNEL_VMB + 4160) as H3 by (vm_compute; reflexivity).
  destruct (thread_resumes sample_resume sample_layout2 sample_layout2 sample_two sample_switched sample_switched
    sample_back sample_resume_word (proj2 sample_two_ok) sample_switch_done
    ltac:(rewrite H1, H3; vm_compute; discriminate) (rtc_refl _ _) sample_back_done H2) as [H _].
  rewrite H1, H3 in H. rewrite H2, H3. split; [exact H1|]. split; [reflexivity|exact H].
Defined.

Lemma new_thread_starts_witness :
  cpu_ctx sample_switched = start_ctx (KERNEL_VMB + 65608 + THREAD_STACK_SIZE) (KERNEL_VMB + 1024) /\
  current sample_switched = sample_thread.
Proof.
  assert (current sample_switched = sample_thread) as H1 by (vm_compute; reflexivity).
  destruct sample_started_ok as [HI Hok].
  assert (rtc (step_off sample_resume sample_thread) (sample_layout2, sample_created) (sample_layout2, sample_two)) as Hst.
  { apply rtc_once. split; [|vm_compute; discriminate]. apply K_activity.
    exact (enabling_activity sample_layout2 sample_created true (proj1 sample_two_ok)). }
  destruct (new_thread_starts sample_resume sample_layout sample_layout2 sample_started sample_created sample_two
    sample_switched 7 (KERNEL_VMB + 1024) sample_thread sample_resume_word HI Hok sample_create_done Hst
    sample_switch_done H1) as [(stk & _ & Hlo & _ & H) _].
  assert (stk = KERNEL_VMB + 65608) as Hs by (rewrite <- Hlo; vm_compute; reflexivity).
  rewrite Hs in H. split; [exact H|exact H1].
Defined.

Lemma schedule_fair_witness : (0 < 2)%nat.
Proof.
  assert (length (ly_tcbs sample_layout2) = 2%nat) as Hlen by reflexivity.
  rewrite <- Hlen.
  apply (schedule_fair sample_resume sample_layout2 sample_two sample_two sample_thread 0
    sample_resume_word (proj2 sample_two_ok)).
  - cbn. right. left.
  - vm_compute. discriminate.
  - vm_compute. reflexivity.
  - rewrite Hlen. vm_compute. discriminate.
  - apply T_none.
Defined.

Lemma scheduler_reachable_ok_witness : exists s', Schedule sample_resume sample_started = Done (tt, s').
Proof.
  destruct (scheduler_reachable_ok sample_resume 0 0 sample_lo sample_hi sample_boot sample_started
    sample_resume_word sample_boot_ok sample_init_done _ _ (rtc_refl _ _)) as (_ & H & _).
  exact H.
Defined.

Lemma scheduler_init_correct_witness :
  exists s', Scheduler_Init sample_resume 0 0 sample_boot = Done (tt, s') /\
    initialised sample_resume sample_lo sample_hi sample_boot s'.
Proof.
  destruct (scheduler_init_correct sample_resume 0 0 sample_lo sample_hi sample_boot sample_resume_word sample_boot_ok)
    as [[H _]|H]; [vm_compute; reflexivity|reflexivity|vm_compute in H; discriminate H|exact H].
Defined.
