(* ===== verification/Keyboard.v ===== *)
(** The keyboard: the scancode queue and the decoding of scancodes to
    characters (src/src/lobo/hal/keyboard.cpp), filled by the PS/2 interrupt
    (arch/x86_64/drivers/ps2_keyboard.cpp) and read by the keyboard thread and
    the debugger. *)

From S2P Require Import Prelude Memory Lobo KernelBitset.
Local Open Scope Z_scope.
Local Open Scope mach_scope.

(** ** The tables *)

(** Both tables have 256 elements; those not listed are 0. *)
Definition kbdus : list Z :=
  [0; 27; 49; 50; 51; 52; 53; 54; 55; 56; 57; 48; 45; 61; 8; 9; 113; 119; 101; 114; 116; 121;
   117; 105; 111; 112; 91; 93; 10; 0; 97; 115; 100; 102; 103; 104; 106; 107; 108; 59; 39; 96; 0;
   92; 122; 120; 99; 118; 98; 110; 109; 44; 46; 47; 0; 42; 0; 32; 0; 0; 0; 0; 0; 0; 0; 0; 0; 0;
   0; 0; 0; 0; 0; 0; 45; 0; 0; 0; 43; 0; 0; 0; 0; 0; 0; 0; 0; 0; 0; 0].
Definition kbdus_shift : list Z :=
  [0; 27; 33; 64; 35; 36; 37; 94; 38; 42; 40; 41; 95; 43; 8; 9; 81; 87; 69; 82; 84; 89; 85; 73;
   79; 80; 91; 93; 10; 0; 65; 83; 68; 70; 71; 72; 74; 75; 76; 58; 34; 126; 0; 124; 90; 88; 67;
   86; 66; 78; 77; 60; 62; 63; 0; 42; 0; 32; 0; 0; 0; 0; 0; 0; 0; 0; 0; 0; 0; 0; 0; 0; 0; 0; 45;
   0; 0; 0; 43; 0; 0; 0; 0; 0; 0; 0; 0; 0; 0; 0].
Definition table_get (t : list Z) (i : Z) : Z := default 0 (t !! Z.to_nat i).

(** ** keyboard.cpp *)

Definition scancode_queue_max : Z := 128.

Definition set_queue (q : mem) (sz : Z) : ST kstate unit :=
  modify (fun s => set_kkbd (Kbd q sz (mod_shift_set (k_kbd s))) s).
Definition set_shift (b : bool) : ST kstate unit :=
  modify (fun s => set_kkbd (Kbd (scancode_queue (k_kbd s)) (scancode_queue_sz (k_kbd s)) b) s).

Definition recieve_scancode (c : Z) : ST kstate unit :=
  k ← gets k_kbd;
  assert_c (scancode_queue_sz k <? scancode_queue_max) "scancode_queue_sz < scancode_queue_max" ;;
  set_queue (mput (scancode_queue k) (scancode_queue_sz k) c) (scancode_queue_sz k +64 1).

Definition queue_empty : ST kstate bool := gets (fun s => scancode_queue_sz (k_kbd s) =? 0).

(** The element after the moved ones is cleared: with a full queue that is
    element 128 of 128. *)
Definition scancode_queue_pop : ST kstate Z :=
  e ← queue_empty;
  if (e : bool) then mret 0
  else
    k ← gets k_kbd;
    let sz := scancode_queue_sz k in
    let val := mget (scancode_queue k) 0 in
    let q := memmove (scancode_queue k) 0 1 (sz -64 1) in
    when (scancode_queue_max <=? sz) (stop_with (Fault "scancode_queue[scancode_queue_sz]")) ;;
    set_queue (mput q sz 0) (sz -64 1) ;;
    mret val.

(** The result is a [char], which is signed. *)
Definition read_scancode : ST kstate Z :=
  e ← queue_empty;
  if (e : bool) then mret 0
  else scancode ← scancode_queue_pop; mret (s8 scancode).

Fixpoint getchar_loop (fuel : nat) : ST kstate Z :=
  match fuel with
  | O => stop_with OutOfFuel
  | S fuel' =>
      sc ← read_scancode;
      if sc =? 0 then mret 0
      else
        let sc_is_up := negb (Z.land sc 128 =? 0) in
        let sc := if sc_is_up then s8 (Z.land sc 127) else sc in
        when (sc =? 42) (set_shift (negb sc_is_up)) ;;
        if negb sc_is_up then
          k ← gets k_kbd;
          mret (s8 (table_get (if mod_shift_set k then kbdus_shift else kbdus) sc))
        else getchar_loop fuel'
  end.

(** Every iteration but the last takes a scancode from the queue. *)
Definition getchar_fuel (k : keyboard) : nat := S (Z.to_nat (scancode_queue_sz k)).
Definition getchar_async : ST kstate Z :=
  k ← gets k_kbd; getchar_loop (getchar_fuel k).

(** [ps2_keyboard::on_interrupt]; [scan] is what port 0x60 gives. *)
Definition ps2_on_interrupt (scan : Z) : ST kstate unit := recieve_scancode (u8 scan).

(** ** Specification: a queue, and a decoder with one bit of state *)

Definition kbd_repr (k : keyboard) (q : list Z) : Prop :=
  scancode_queue_sz k = Z.of_nat (length q) /\ Z.of_nat (length q) <= scancode_queue_max /\
  forall i c, q !! i = Some c -> mget (scancode_queue k) (Z.of_nat i) = c.

(** The state [s] with the keyboard that holds [q]. *)
Definition holds (s : kstate) (q : list Z) (shift : bool) : Prop :=
  kbd_repr (k_kbd s) q /\ mod_shift_set (k_kbd s) = shift.

Definition is_down (c : Z) : bool := c <? 128.
Definition shift_after (c : Z) (shift : bool) : bool :=
  if c =? 42 then true else if c =? 170 then false else shift.
Definition char_of (shift : bool) (c : Z) : Z := table_get (if shift then kbdus_shift else kbdus) c.

(** What one call of [getchar_async] does: the character, the rest of the
    queue, the shift state. *)
Fixpoint next_char (q : list Z) (shift : bool) : Z * list Z * bool :=
  match q with
  | [] => (0, [], shift)
  | c :: q' =>
      if c =? 0 then (0, q', shift)
      else if is_down c then (char_of (shift_after c shift) c, q', shift_after c shift)
      else next_char q' (shift_after c shift)
  end.

(** Everything the scancodes of [q] type. *)
Fixpoint chars (q : list Z) (shift : bool) : list Z :=
  match q with
  | [] => []
  | c :: q' =>
      let shift' := shift_after c shift in
      (if is_down c && negb (char_of shift' c =? 0) then [char_of shift' c] else []) ++ chars q' shift'
  end.

(** A reader that polls [n] times and keeps the characters, as the keyboard
    thread of main.cpp does. *)
Fixpoint poll (n : nat) : ST kstate (list Z) :=
  match n with
  | O => mret []
  | S n' => c ← getchar_async; l ← poll n'; mret (if c =? 0 then l else c :: l)
  end.

(** The scancodes of a US keyboard that type a character: press and release,
    with the left shift key held where needed. *)
Definition key_of (t : list Z) (c : Z) : option Z :=
  (fun p => Z.of_nat p.1) <$> list_find (fun x => x = c) t.
Definition type_char (c : Z) : list Z :=
  match key_of kbdus c with
  | Some k => [k; k + 128]
  | None => match key_of kbdus_shift c with
            | Some k => [42; k; k + 128; 170]
            | None => []
            end
  end.
Definition typeable (c : Z) : bool := negb (c =? 0) && negb (bool_decide (type_char c = [])).

(** ** The queue *)

Lemma repr_bytes k q c : kbd_repr k q -> c ∈ q -> 0 <= c < 256.
Proof.
  intros (_ & _ & H) [i Hi]%list_elem_of_lookup_1. rewrite <- (H i c Hi). apply mget_range.
Qed.

Lemma receive_run s q shift c :
  holds s q shift -> 0 <= c < 256 ->
  if Z.of_nat (length q) <? scancode_queue_max
  then exists k, recieve_scancode c s = Done (tt, set_kkbd k s) /\ kbd_repr k (q ++ [c]) /\
         mod_shift_set k = shift
  else recieve_scancode c s = Stopped (AssertFailed "scancode_queue_sz < scancode_queue_max").
Proof.
  intros [(Hsz & Hle & Hq) Hsh] Hc. unfold recieve_scancode. rewrite gets_bind, Hsz.
  destruct (Z.of_nat (length q) <? scancode_queue_max) eqn:E; [|done]. rewrite assert_bind by done.
  eexists. split; [reflexivity|]. split; [|done]. unfold scancode_queue_max in *.
  split; [cbn [scancode_queue_sz]; rewrite length_app; simpl length; rewrite u64_small by lia; lia|].
  split; [rewrite length_app; simpl length; unfold scancode_queue_max; lia|].
  intros i x Hi. cbn [scancode_queue]. apply lookup_app_Some in Hi as [Hi|[Hi1 Hi]].
  - pose proof (lookup_lt_Some _ _ _ Hi). rewrite mget_mput_ne by lia. by apply Hq.
  - apply list_lookup_singleton_Some in Hi as [Hi <-].
    replace (Z.of_nat i) with (Z.of_nat (length q)) by lia. rewrite mget_mput_eq. by apply u8_small.
Qed.

Lemma pop_run s q shift :
  holds s q shift ->
  match q with
  | [] => scancode_queue_pop s = Done (0, s)
  | c :: q' =>
      if Z.of_nat (length q) <? scancode_queue_max
      then exists k, scancode_queue_pop s = Done (c, set_kkbd k s) /\ kbd_repr k q' /\ mod_shift_set k = shift
      else scancode_queue_pop s = Stopped (Fault "scancode_queue[scancode_queue_sz]")
  end.
Proof.
  intros [(Hsz & Hle & Hq) Hsh]. unfold scancode_queue_pop, queue_empty. rewrite gets_bind, Hsz.
  destruct q as [|c q']; [done|]. cbn [length] in *.
  assert ((Z.of_nat (S (length q')) =? 0) = false) as -> by (apply Z.eqb_neq; lia). rewrite gets_bind, Hsz.
  unfold scancode_queue_max in *.
  destruct (Z.of_nat (S (length q')) <? 128) eqn:E.
  - assert ((128 <=? Z.of_nat (S (length q'))) = false) as -> by lia.
    rewrite (bind_done (when false _) _ s tt s) by done.
    pose proof (Hq 0%nat c eq_refl) as H0. change (Z.of_nat 0) with 0 in H0. rewrite H0.
    eexists. split; [reflexivity|]. split; [|done].
    rewrite u64_small by lia. split; [cbn [scancode_queue_sz]; lia|].
    split; [unfold scancode_queue_max; lia|]. intros i x Hi. cbn [scancode_queue].
    pose proof (lookup_lt_Some _ _ _ Hi). rewrite mget_mput_ne by lia.
    rewrite memmove_get by lia. rewrite decide_True by lia.
    replace (1 + (Z.of_nat i - 0)) with (Z.of_nat (S i)) by lia. by apply Hq.
  - assert ((128 <=? Z.of_nat (S (length q'))) = true) as -> by lia. done.
Qed.

Lemma read_run s c q shift :
  holds s (c :: q) shift -> Z.of_nat (length (c :: q)) < scancode_queue_max ->
  exists k, read_scancode s = Done (s8 c, set_kkbd k s) /\ kbd_repr k q /\ mod_shift_set k = shift.
Proof.
  intros Hh Hlt. pose proof (pop_run _ _ _ Hh) as Hp. cbn beta iota in Hp.
  assert ((Z.of_nat (length (c :: q)) <? scancode_queue_max) = true) as Hb by lia. rewrite Hb in Hp.
  destruct Hp as (k & Hp & Hk & Hs). exists k. split; [|done].
  unfold read_scancode, queue_empty. rewrite gets_bind.
  destruct Hh as [(Hsz & _) _]. rewrite Hsz. cbn [length].
  assert ((Z.of_nat (S (length q)) =? 0) = false) as -> by (apply Z.eqb_neq; lia). by rewrite (bind_done _ _ _ _ _ Hp).
Qed.

(** The bit tests of the code on a byte read into a signed [char]. *)
Lemma scancode_bits c :
  0 < c < 256 ->
  (s8 c =? 0) = false /\ negb (Z.land (s8 c) 128 =? 0) = negb (is_down c) /\
  (if negb (is_down c) then s8 (Z.land (s8 c) 127) else s8 c) = (if is_down c then c else c - 128) /\
  s8 (char_of true c) = char_of true c /\ s8 (char_of false c) = char_of false c.
Proof.
  intros Hc.
  assert (forallb (fun c => negb (s8 c =? 0) && (bool_decide (negb (Z.land (s8 c) 128 =? 0) = negb (is_down c)))
    && ((if negb (is_down c) then s8 (Z.land (s8 c) 127) else s8 c) =? (if is_down c then c else c - 128))
    && (s8 (char_of true c) =? char_of true c) && (s8 (char_of false c) =? char_of false c))
    (seqZ 1 255) = true) as H by (vm_compute; reflexivity).
  rewrite forallb_forall in H. specialize (H c). rewrite !andb_true_iff in H.
  destruct H as [[[[H1 H2] H3] H4] H5]; [apply list_elem_of_In, elem_of_seqZ; lia|].
  apply bool_decide_eq_true in H2. split; [by destruct (s8 c =? 0)|].
  split; [done|]. split; [lia|]. split; lia.
Qed.

Lemma getchar_loop_run q s shift fuel :
  holds s q shift -> Z.of_nat (length q) < scancode_queue_max -> (length q < fuel)%nat ->
  let '(c, q', shift') := next_char q shift in
  exists k, getchar_loop fuel s = Done (c, set_kkbd k s) /\ kbd_repr k q' /\ mod_shift_set k = shift'.
Proof.
  revert s shift fuel. induction q as [|c q IH]; intros s shift [|fuel] Hh Hlt Hf; try (simpl in Hf; lia).
  - exists (k_kbd s). cbn [getchar_loop]. unfold read_scancode, queue_empty.
    destruct Hh as [Hk Hs]. pose proof Hk as (Hsz & _).
    rewrite (bind_done _ _ s 0 s); [|rewrite gets_bind, Hsz; done].
    split; [by destruct s|done].
  - destruct (read_run _ _ _ _ Hh Hlt) as (k & Hr & Hk & Hs).
    pose proof (repr_bytes _ _ c (proj1 Hh) ltac:(left)) as Hc.
    cbn [getchar_loop next_char]. rewrite (bind_done _ _ _ _ _ Hr).
    destruct (c =? 0) eqn:E0.
    { apply Z.eqb_eq in E0 as ->. change (s8 0 =? 0) with true. by exists k. }
    destruct (scancode_bits c ltac:(lia)) as (-> & -> & -> & H4 & H5).
    set (s1 := set_kkbd k s). cbn [length] in Hlt, Hf.
    destruct (is_down c) eqn:Ed; cbn [negb]; unfold is_down in Ed.
    + assert (exists k1, when (c =? 42) (set_shift true) s1 = Done (tt, set_kkbd k1 s) /\ kbd_repr k1 q /\
        mod_shift_set k1 = shift_after c shift) as (k1 & Hw & Hk1 & Hs1).
      { unfold shift_after. destruct (c =? 42) eqn:E; cbn [when].
        - eexists. split; [reflexivity|]. done.
        - exists k. split; [done|]. split; [done|]. by destruct (c =? 170) eqn:E2; [lia|]. }
      rewrite (bind_done _ _ _ _ _ Hw), gets_bind. cbn [k_kbd set_kkbd]. rewrite Hs1.
      exists k1. split; [|done]. fold (char_of (shift_after c shift) c).
      by destruct (shift_after c shift); rewrite ?H4, ?H5.
    + assert (exists k1, when (c - 128 =? 42) (set_shift false) s1 = Done (tt, set_kkbd k1 s) /\ kbd_repr k1 q /\
        mod_shift_set k1 = shift_after c shift) as (k1 & Hw & Hk1 & Hs1).
      { unfold shift_after. assert ((c =? 42) = false) as -> by lia.
        destruct (c - 128 =? 42) eqn:E; cbn [when].
        - assert ((c =? 170) = true) as -> by lia. eexists. split; [reflexivity|]. done.
        - assert ((c =? 170) = false) as -> by lia. exists k. done. }
      rewrite (bind_done _ _ _ _ _ Hw).
      specialize (IH (set_kkbd k1 s) (shift_after c shift) fuel ltac:(done) ltac:(lia) ltac:(lia)).
      destruct (next_char q (shift_after c shift)) as [[c2 q2] sh2].
      destruct IH as (k2 & H & Hk2). by exists k2.
Qed.

Lemma getchar_run q s shift :
  holds s q shift -> Z.of_nat (length q) < scancode_queue_max ->
  let '(c, q', shift') := next_char q shift in
  exists k, getchar_async s = Done (c, set_kkbd k s) /\ kbd_repr k q' /\ mod_shift_set k = shift'.
Proof.
  intros Hh Hlt. apply (getchar_loop_run q s shift); try done.
  unfold getchar_fuel. destruct Hh as [(Hsz & _) _]. rewrite Hsz. lia.
Qed.

(** ** Sequences of interrupts and reads *)

Inductive kbd_op := Receive (c : Z) | GetChar.
Definition byte_op (o : kbd_op) : Prop := match o with Receive c => 0 <= c < 256 | GetChar => True end.

(** The characters the calls of [getchar_async] give, in order. *)
Fixpoint kbd_run (os : list kbd_op) : ST kstate (list Z) :=
  match os with
  | [] => mret []
  | Receive c :: os' => ps2_on_interrupt c ;; kbd_run os'
  | GetChar :: os' => c ← getchar_async; l ← kbd_run os'; mret (c :: l)
  end.

Fixpoint kbd_spec (os : list kbd_op) (q : list Z) (shift : bool) : outcome (list Z * (list Z * bool)) :=
  match os with
  | [] => Done ([], (q, shift))
  | Receive c :: os' =>
      if Z.of_nat (length q) <? scancode_queue_max then kbd_spec os' (q ++ [c]) shift
      else Stopped (AssertFailed "scancode_queue_sz < scancode_queue_max")
  | GetChar :: os' =>
      if Z.of_nat (length q) <? scancode_queue_max then
        let '(c, q', shift') := next_char q shift in
        match kbd_spec os' q' shift' with
        | Done (l, r) => Done (c :: l, r)
        | Stopped r => Stopped r
        end
      else Stopped (Fault "scancode_queue[scancode_queue_sz]")
  end.

Lemma getchar_full s q shift :
  holds s q shift -> Z.of_nat (length q) = scancode_queue_max ->
  getchar_async s = Stopped (Fault "scancode_queue[scancode_queue_sz]").
Proof.
  intros Hh Hlen. pose proof (pop_run _ _ _ Hh) as Hp. pose proof Hh as [(Hsz & _) _].
  destruct q as [|c q]; [done|]. rewrite Hlen in Hp. cbn beta iota in Hp.
  assert (read_scancode s = Stopped (Fault "scancode_queue[scancode_queue_sz]")) as Hr.
  { unfold read_scancode, queue_empty. rewrite gets_bind, Hsz, Hlen. cbn [Z.eqb scancode_queue_max].
    by rewrite (bind_stopped _ _ _ _ Hp). }
  unfold getchar_async. rewrite gets_bind. unfold getchar_fuel. cbn [getchar_loop].
  by rewrite (bind_stopped _ _ _ _ Hr).
Qed.

Lemma kbd_run_spec os s q shift :
  holds s q shift -> Forall byte_op os ->
  match kbd_spec os q shift with
  | Done (l, (q', shift')) =>
      exists k, kbd_run os s = Done (l, set_kkbd k s) /\ kbd_repr k q' /\ mod_shift_set k = shift'
  | Stopped r => kbd_run os s = Stopped r
  end.
Proof.
  revert s q shift. induction os as [|[c|] os IH]; intros s q shift Hh Hos.
  - exists (k_kbd s). split; [by destruct s|exact Hh].
  - apply Forall_cons in Hos as [Hc Hos]. cbn [kbd_spec kbd_run]. unfold ps2_on_interrupt.
    cbn [byte_op] in Hc. rewrite (u8_small c) by done.
    pose proof (receive_run s q shift c Hh Hc) as H.
    destruct (Z.of_nat (length q) <? scancode_queue_max); [|by rewrite (bind_stopped _ _ _ _ H)].
    destruct H as (k & H & Hk & Hs). rewrite (bind_done _ _ _ _ _ H).
    specialize (IH (set_kkbd k s) (q ++ [c]) shift ltac:(done) Hos).
    by destruct (kbd_spec os (q ++ [c]) shift) as [[l [q' sh']]|].
  - apply Forall_cons in Hos as [_ Hos]. cbn [kbd_spec kbd_run].
    destruct (Z.of_nat (length q) <? scancode_queue_max) eqn:E.
    + pose proof (getchar_run q s shift Hh ltac:(lia)) as H.
      destruct (next_char q shift) as [[c q1] sh1]. destruct H as (k & H & Hk & Hs).
      rewrite (bind_done _ _ _ _ _ H).
      specialize (IH (set_kkbd k s) q1 sh1 ltac:(done) Hos).
      destruct (kbd_spec os q1 sh1) as [[l [q' sh']]|].
      * destruct IH as (k' & H' & Hk'). rewrite (bind_done _ _ _ _ _ H'). by exists k'.
      * by rewrite (bind_stopped _ _ _ _ IH).
    + pose proof Hh as [(_ & Hle & _) _]. by rewrite (bind_stopped _ _ _ _ (getchar_full s q shift Hh ltac:(lia))).
Qed.

(** ** Typing *)

Lemma next_char_length q shift : (length (next_char q shift).1.2 <= length q)%nat /\
  (q <> [] -> length (next_char q shift).1.2 < length q)%nat.
Proof.
  revert shift. induction q as [|c q IH]; intros shift; [done|]. cbn [next_char].
  destruct (c =? 0); [simpl; lia|]. destruct (is_down c); [simpl; lia|].
  destruct (IH (shift_after c shift)) as [H _]. cbn [length]. lia.
Qed.

(** One read takes the first character of what the queue types. *)
Lemma next_char_chars q shift :
  Forall (fun c => 0 <= c < 256) q ->
  let '(c, q', shift') := next_char q shift in
  chars q shift = (if c =? 0 then [] else [c]) ++ chars q' shift'.
Proof.
  intros Hq. revert shift. induction Hq as [|c q Hc _ IH]; intros shift; [done|].
  cbn [next_char chars]. destruct (c =? 0) eqn:E0.
  { apply Z.eqb_eq in E0 as ->. unfold shift_after. cbn [Z.eqb].
    by replace (char_of shift 0) with 0 by (by destruct shift). }
  destruct (is_down c); cbn [andb].
  - by destruct (char_of (shift_after c shift) c =? 0).
  - cbn [app]. apply IH.
Qed.

Lemma next_char_bytes q shift :
  Forall (fun c => 0 <= c < 256) q -> Forall (fun c => 0 <= c < 256) (next_char q shift).1.2.
Proof.
  intros Hq. revert shift. induction Hq as [|c q Hc Hq IH]; intros shift; [done|].
  cbn [next_char]. destruct (c =? 0); [done|]. by destruct (is_down c).
Qed.

Lemma poll_run n s q shift :
  holds s q shift -> Z.of_nat (length q) < scancode_queue_max -> (length q <= n)%nat ->
  exists k, poll n s = Done (chars q shift, set_kkbd k s) /\ kbd_repr k [].
Proof.
  revert s q shift. induction n as [|n IH]; intros s q shift Hh Hlt Hn.
  - destruct q; [|simpl in Hn; lia]. exists (k_kbd s). split; [by destruct s|apply Hh].
  - assert (Forall (fun c => 0 <= c < 256) q) as Hq.
    { apply Forall_forall. intros c Hc. exact (repr_bytes _ _ c (proj1 Hh) Hc). }
    cbn [poll]. pose proof (getchar_run q s shift Hh Hlt) as H.
    pose proof (next_char_chars q shift Hq) as Hch. pose proof (next_char_length q shift) as [Hl Hl'].
    destruct (next_char q shift) as [[c q1] sh1]. destruct H as (k & H & Hk & Hs).
    rewrite (bind_done _ _ _ _ _ H). cbn [fst snd] in *.
    destruct (IH (set_kkbd k s) q1 sh1 ltac:(done) ltac:(lia)) as (k' & H' & Hk').
    { destruct q as [|c0 q]; [simpl in *; lia|]. specialize (Hl' ltac:(done)). simpl in *. lia. }
    rewrite (bind_done _ _ _ _ _ H'). exists k'. split; [|done]. rewrite Hch.
    by destruct (c =? 0).
Qed.

Fixpoint shift_end (q : list Z) (shift : bool) : bool :=
  match q with [] => shift | c :: q' => shift_end q' (shift_after c shift) end.

Lemma chars_app q1 q2 shift : chars (q1 ++ q2) shift = chars q1 shift ++ chars q2 (shift_end q1 shift).
Proof.
  revert shift. induction q1 as [|c q1 IH]; intros shift; [done|]. cbn [app chars shift_end].
  by rewrite IH, app_assoc.
Qed.

(** Checked for all 256 characters. *)
Lemma type_char_ok c :
  0 <= c < 256 -> typeable c = true ->
  chars (type_char c) false = [c] /\ shift_end (type_char c) false = false /\
  Forall (fun x => 0 <= x < 256) (type_char c).
Proof.
  intros Hc Ht.
  assert (forallb (fun c => negb (typeable c) || (bool_decide (chars (type_char c) false = [c])
    && negb (shift_end (type_char c) false) && forallb (fun x => (0 <=? x) && (x <? 256)) (type_char c)))
    (seqZ 0 256) = true) as H by (vm_compute; reflexivity).
  rewrite forallb_forall in H. specialize (H c). rewrite Ht in H. cbn [negb orb] in H.
  rewrite !andb_true_iff in H. destruct H as [[H1 H2] H3]; [apply list_elem_of_In, elem_of_seqZ; lia|].
  apply bool_decide_eq_true in H1. split; [done|]. split; [by destruct (shift_end _ _)|].
  rewrite forallb_forall in H3. apply Forall_forall. intros x Hx%list_elem_of_In. specialize (H3 x Hx). lia.
Qed.

Definition byte_char (c : Z) : Prop := 0 <= c < 256.
Definition type_text (txt : list Z) : list Z := concat (type_char <$> txt).

Lemma type_text_ok txt :
  Forall byte_char txt -> forallb typeable txt = true ->
  chars (type_text txt) false = txt /\ Forall byte_char (type_text txt).
Proof.
  intros Hb Ht. cut (chars (type_text txt) false = txt /\ shift_end (type_text txt) false = false /\
    Forall byte_char (type_text txt)); [tauto|].
  induction Hb as [|c txt Hc _ IH]; [done|]. cbn [forallb] in Ht. apply andb_true_iff in Ht as [Ht1 Ht].
  destruct (IH Ht) as (H1 & H2 & H3). destruct (type_char_ok c Hc Ht1) as (G1 & G2 & G3).
  unfold type_text in *. cbn [fmap list_fmap concat].
  assert (forall q1 q2 b, shift_end (q1 ++ q2) b = shift_end q2 (shift_end q1 b)) as Happ.
  { clear. induction q1 as [|c q1 IH]; intros q2 b; [done|]. apply IH. }
  rewrite chars_app, Happ, G1, G2, H1, H2. split; [done|]. split; [done|]. by apply Forall_app.
Qed.

Lemma receive_all_run codes s q shift :
  holds s q shift -> Forall byte_char codes -> Z.of_nat (length (q ++ codes)) <= scancode_queue_max ->
  exists k, forM codes ps2_on_interrupt s = Done (tt, set_kkbd k s) /\
    kbd_repr k (q ++ codes) /\ mod_shift_set k = shift.
Proof.
  revert s q. induction codes as [|c codes IH]; intros s q Hh Hb Hlen.
  - exists (k_kbd s). rewrite app_nil_r. split; [by destruct s|exact Hh].
  - apply Forall_cons in Hb as [Hc Hb]. cbn [forM]. change (ps2_on_interrupt c) with (recieve_scancode (u8 c)).
    rewrite (u8_small c) by exact Hc. pose proof (receive_run s q shift c Hh Hc) as H.
    rewrite length_app in Hlen. cbn [length] in Hlen.
    assert ((Z.of_nat (length q) <? scancode_queue_max) = true) as Hlt by lia. rewrite Hlt in H.
    destruct H as (k & H & Hk & Hs).
    rewrite (bind_done _ _ _ _ _ H). specialize (IH (set_kkbd k s) (q ++ [c]) ltac:(done) Hb).
    rewrite <- app_assoc in IH. destruct IH as (k' & H' & Hk'); [rewrite length_app; cbn [length app]; lia|].
    by exists k'.
Qed.

(** ** Theorems *)

(** C17. Any sequence of keyboard interrupts and reads behaves as a queue of at most
    128 scancodes followed by a decoder whose only state is the shift key:
    reads return the decoded characters in the order the keys came.  An
    interrupt with a full queue fails its assertion, and a read from a full
    queue writes behind the array. *)
Theorem keyboard_refines (os : list kbd_op) (s : kstate) (q : list Z) (shift : bool)
    (Hh : holds s q shift) (Hos : Forall byte_op os) :
  match kbd_spec os q shift with
  | Done (l, (q', shift')) =>
      exists k, kbd_run os s = Done (l, set_kkbd k s) /\ kbd_repr k q' /\ mod_shift_set k = shift'
  | Stopped r => kbd_run os s = Stopped r
  end.
Proof. exact (kbd_run_spec os s q shift Hh Hos). Qed.

Definition sample_keys : kstate := sample_kstate ∅ no_heap no_pmm.
Lemma sample_keys_empty : holds sample_keys [] false.
Proof. split; [|done]. split; [done|]. split; [vm_compute; discriminate|]. intros i c Hi. by rewrite lookup_nil in Hi. Qed.

Lemma keyboard_refines_witness :
  exists k, kbd_run [Receive 42; Receive 30; GetChar; GetChar; Receive 158; GetChar; GetChar] sample_keys =
    Done ([0; 65; 0; 0], set_kkbd k sample_keys).
Proof.
  pose proof (keyboard_refines [Receive 42; Receive 30; GetChar; GetChar; Receive 158; GetChar; GetChar]
    sample_keys [] false sample_keys_empty) as H.
  destruct H as (k & H & _).
  - repeat (apply Forall_cons_2; [cbn; lia || done|]). apply Forall_nil_2.
  - exists k. exact H.
Defined.

(** What is typed is what is read: pressing and releasing the keys of a text
    (shift where needed) and then polling the keyboard gives the text, for
    every text of characters the keyboard has whose scancodes fit the queue. *)
Theorem typing_roundtrip (txt : list Z) (n : nat) (s : kstate)
    (Hs : holds s [] false) (Hb : Forall byte_char txt) (Ht : forallb typeable txt = true)
    (Hfit : Z.of_nat (length (type_text txt)) < scancode_queue_max)
    (Hn : (length (type_text txt) <= n)%nat) :
  exists k, (forM (type_text txt) ps2_on_interrupt ;; poll n) s = Done (txt, set_kkbd k s) /\ kbd_repr k [].
Proof.
  destruct (type_text_ok txt Hb Ht) as [Hch Hbytes].
  destruct (receive_all_run (type_text txt) s [] false Hs Hbytes) as (k & H & Hk & Hsh); [simpl; lia|].
  rewrite (bind_done _ _ _ _ _ H). destruct (poll_run n (set_kkbd k s) (type_text txt) false) as (k' & H' & Hk');
    [done|done|done|]. rewrite Hch in H'. by exists k'.
Qed.

(** "Hi!" *)
Lemma typing_roundtrip_witness :
  exists k, (forM (type_text [72; 105; 33]) ps2_on_interrupt ;; poll 20) sample_keys =
    Done ([72; 105; 33], set_kkbd k sample_keys).
Proof.
  destruct (typing_roundtrip [72; 105; 33] 20 sample_keys sample_keys_empty) as (k & H & _).
  - repeat (apply Forall_cons_2; [split; vm_compute; (discriminate || reflexivity)|]). apply Forall_nil_2.
  - vm_compute. reflexivity.
  - vm_compute. reflexivity.
  - vm_compute. repeat constructor.
  - exists k. exact H.
Defined.
