(* ===== verification/KeyboardRace.v ===== *)
(** The keyboard queue between two instructions: scancode_queue_pop
    (src/src/lobo/hal/keyboard.cpp) when keyboard interrupts arrive inside it.
    The thread that reads the queue runs with interrupts on and the queue has
    no lock; [Keyboard] describes the interrupts that come between calls.

    The handler itself runs with interrupts off, so interrupts come between the
    accesses of the function to the queue and to scancode_queue_sz, and this is
    where they are described: before the size is tested, before the first
    element is read, before the size is read for the move, before each byte
    that [memmove] copies and behind the last, before the size is read for the
    clearing store and between that and the store, before the size is read for
    the decrement and between that and the store of the new one, and after it.
    (An interrupt between the load and the store of one copied byte writes
    behind all bytes that are copied, and is as one before the load.)

    The move's size may be that of the test and the decrement's that of the
    clearing store, kept in a register: the source allows it, [memmove] is a
    call and rules it out between the two pairs.  [build] says which, and the
    theorem is about all four.  No other thread takes from the queue
    meanwhile. *)

From S2P Require Import Prelude Memory Lobo KernelBitset Keyboard.
Local Open Scope Z_scope.
Local Open Scope mach_scope.

(** The scancodes that arrive, by the place; [in_copy] lists those before each
    byte that is copied. *)
Record arrivals := Arrivals {
  at_entry : list Z;
  at_read : list Z;
  at_move : list Z;
  in_copy : list (list Z);
  at_clear : list Z;
  in_clear : list Z;
  at_decrement : list Z;
  in_decrement : list Z;
  at_return : list Z;
}.
Definition no_arrivals : arrivals := Arrivals [] [] [] [] [] [] [] [] [].

(** Which sizes the compiled function keeps in a register. *)
Record build := Build { reuse_move : bool; reuse_decrement : bool }.

Definition irqs (l : list Z) : ST kstate unit := forM l ps2_on_interrupt.
Definition queue_size : ST kstate Z := gets (fun s => scancode_queue_sz (k_kbd s)).

(** The loop of [memmove]; scancodes for bytes it does not copy come after it. *)
Fixpoint move_bytes (n : nat) (i : Z) (l : list (list Z)) : ST kstate unit :=
  match n with
  | O => irqs (concat l)
  | S n' =>
      irqs (hd [] l) ;;
      k ← gets k_kbd;
      set_queue (mput (scancode_queue k) i (mget (scancode_queue k) (i + 1))) (scancode_queue_sz k) ;;
      move_bytes n' (i + 1) (tail l)
  end.

(** The function from the clearing store on, and the whole of it. *)
Definition pop_late (r : build) (a : arrivals) (val : Z) : ST kstate Z :=
  irqs (at_clear a) ;;
  sz ← queue_size;
  irqs (in_clear a) ;;
  when (scancode_queue_max <=? sz) (stop_with (Fault "scancode_queue[scancode_queue_sz]")) ;;
  k ← gets k_kbd;
  set_queue (mput (scancode_queue k) sz 0) (scancode_queue_sz k) ;;
  irqs (at_decrement a) ;;
  sz' ← queue_size;
  irqs (in_decrement a) ;;
  k ← gets k_kbd;
  set_queue (scancode_queue k) ((if reuse_decrement r then sz else sz') -64 1) ;;
  irqs (at_return a) ;;
  mret val.

Definition pop_interrupted (r : build) (a : arrivals) : ST kstate Z :=
  irqs (at_entry a) ;;
  sz ← queue_size;
  if sz =? 0 then irqs (at_return a) ;; mret 0
  else
    irqs (at_read a) ;;
    k ← gets k_kbd;
    let val := mget (scancode_queue k) 0 in
    irqs (at_move a) ;;
    sz' ← queue_size;
    move_bytes (Z.to_nat ((if reuse_move r then sz else sz') -64 1)) 0 (in_copy a) ;;
    pop_late r a val.

(** ** The steps on the abstract queue *)

Lemma move_bytes_alone n i s :
  move_bytes n i [] s = Done (tt, set_kkbd (Kbd (memmove_up n i 0 1 (scancode_queue (k_kbd s)))
    (scancode_queue_sz (k_kbd s)) (mod_shift_set (k_kbd s))) s).
Proof.
  revert i s. induction n as [|n IH]; intros i s; cbn [move_bytes memmove_up concat].
  - by destruct s as [? ? ? ? ? ? ? [] ? ?].
  - rewrite (bind_done (irqs (hd [] [])) _ s tt s eq_refl), gets_bind.
    erewrite bind_done by reflexivity. cbn [tail]. rewrite IH.
    cbn [k_kbd set_kkbd scancode_queue scancode_queue_sz mod_shift_set].
    by rewrite Z.add_0_l, (Z.add_comm 1 i).
Qed.

Lemma pop_uninterrupted r s : pop_interrupted r no_arrivals s = scancode_queue_pop s.
Proof.
  unfold pop_interrupted, scancode_queue_pop, queue_empty, queue_size.
  rewrite (bind_done (irqs (at_entry no_arrivals)) _ s tt s eq_refl), !gets_bind.
  destruct (scancode_queue_sz (k_kbd s) =? 0) eqn:E0; [done|].
  rewrite (bind_done (irqs (at_read no_arrivals)) _ s tt s eq_refl), !gets_bind. cbv zeta.
  rewrite (bind_done (irqs (at_move no_arrivals)) _ s tt s eq_refl), gets_bind.
  replace (if reuse_move r then _ else _) with (scancode_queue_sz (k_kbd s)) by (by destruct (reuse_move r)).
  rewrite (bind_done _ _ _ _ _ (move_bytes_alone _ 0 s)). unfold pop_late, queue_size.
  cbv [mbind ST_bind gets modify when skip mret ST_ret stop_with irqs set_queue no_arrivals].
  cbn [at_clear in_clear at_decrement in_decrement at_return forM].
  cbv [skip]. cbn [k_kbd set_kkbd scancode_queue_sz scancode_queue mod_shift_set].
  destruct (scancode_queue_max <=? scancode_queue_sz (k_kbd s)); [done|]. by destruct (reuse_decrement r).
Qed.

Definition last_of (q : list Z) : Z := default 0 (last q).

Lemma shrunk_repr m n b q k :
  kbd_repr (Kbd m n b) q -> (k <= length q)%nat -> kbd_repr (Kbd m (Z.of_nat k) b) (take k q).
Proof.
  intros (Hsz & Hle & Hq) Hk. split; [cbn [scancode_queue_sz]; rewrite length_take; lia|].
  split; [rewrite length_take; lia|]. intros i x [Hi Hlt]%lookup_take_Some. by apply Hq.
Qed.

(** The state [s] whose queue is [m] with the [n] elements of [q]. *)
Definition with_queue (s : kstate) (m : mem) (q : list Z) (b : bool) : kstate :=
  set_kkbd (Kbd m (Z.of_nat (length q)) b) s.
Definition queue_is (m : mem) (q : list Z) : Prop := kbd_repr (Kbd m (Z.of_nat (length q)) false) q.

Lemma queue_is_repr m q b : queue_is m q <-> kbd_repr (Kbd m (Z.of_nat (length q)) b) q.
Proof. done. Qed.

Lemma holds_with_queue s q b :
  holds s q b -> exists m, s = with_queue s m q b /\ queue_is m q.
Proof.
  intros [(Hsz & Hle & Hq) Hb]. exists (scancode_queue (k_kbd s)). split; [|by split].
  unfold with_queue. rewrite <- Hsz, <- Hb. by destruct s as [? ? ? ? ? ? ? [] ? ?].
Qed.

(** A stretch of interrupts. *)
Lemma irqs_run l s m q b :
  queue_is m q -> Forall byte_char l -> Z.of_nat (length (q ++ l)) <= scancode_queue_max ->
  exists m', irqs l (with_queue s m q b) = Done (tt, with_queue s m' (q ++ l) b) /\ queue_is m' (q ++ l).
Proof.
  intros Hk Hl Hlen. destruct (receive_all_run l (with_queue s m q b) q b) as (k & H & (Hsz & Hk') & Hb);
    [by split|done|done|].
  exists (scancode_queue k). unfold irqs. rewrite H. split; [|by split].
  unfold with_queue. rewrite <- Hsz, <- Hb. by destruct k.
Qed.

Lemma set_queue_bind {B} m' (q' : list Z) n (f : unit -> ST kstate B) s m q b :
  n = Z.of_nat (length q') ->
  (set_queue m' n ≫= f) (with_queue s m q b) = f tt (with_queue s m' q' b).
Proof. by intros ->. Qed.

(** What clearing the element [n] that the queue has meanwhile grown over does
    to what arrived: the first of it becomes 0. *)
Definition zap (l : list Z) : list Z := match l with [] => [] | _ :: l' => 0 :: l' end.

Lemma cleared_is m q l :
  queue_is m (q ++ l) -> queue_is (mput m (Z.of_nat (length q)) 0) (q ++ zap l).
Proof.
  intros (_ & Hle & Hq). assert (length (zap l) = length l) as Hl by (by destruct l).
  split; [done|]. split; [rewrite length_app in *; by rewrite Hl|].
  intros i x Hi. cbn [scancode_queue] in *. destruct (decide (i = length q)) as [->|Hne].
  - rewrite mget_mput_eq. rewrite lookup_app_r, Nat.sub_diag in Hi by done. by destruct l; simplify_eq/=.
  - rewrite mget_mput_ne by lia. apply Hq. apply lookup_app_Some in Hi as [Hi|[Hge Hi]].
    + by apply lookup_app_l_Some.
    + apply lookup_app_Some. right. split; [done|]. destruct l; [done|].
      destruct (i - length q)%nat eqn:E; [lia|]. exact Hi.
Qed.

(** ** The copying *)

(** The queue after [i] bytes are copied. *)
Definition part_moved (i : nat) (q l : list Z) : list Z := take i (tail q) ++ drop i q ++ l.

Lemma part_moved_step i q x l :
  q !! S i = Some x -> <[i := x]> (part_moved i q l) = part_moved (S i) q l.
Proof.
  intros Hx. unfold part_moved. pose proof (lookup_lt_Some _ _ _ Hx) as Hlt.
  destruct q as [|c q]; [done|]. cbn [tail lookup list_lookup] in *.
  assert (length (take i q) = i) as Hlen by (cbn [length] in Hlt; rewrite length_take; lia).
  rewrite insert_app_r_alt by lia. rewrite Hlen, Nat.sub_diag.
  destruct (lookup_lt_is_Some_2 (c :: q) i) as [y Hy]; [lia|].
  rewrite (drop_S (c :: q) y i) by done. cbn [app insert list_insert].
  rewrite (take_S_r q i x) by done. by rewrite <- app_assoc.
Qed.
Lemma part_moved_app i q l l' : part_moved i q l ++ l' = part_moved i q (l ++ l').
Proof. unfold part_moved. by rewrite <- !app_assoc. Qed.
Lemma length_part_moved i q l : (i < length q)%nat -> length (part_moved i q l) = length (q ++ l).
Proof.
  intros Hi. unfold part_moved. rewrite !length_app, length_take, length_drop.
  destruct q; cbn [length tail] in *; lia.
Qed.
Lemma part_moved_all c q l : part_moved (length q) (c :: q) l = q ++ [last_of (c :: q)] ++ l.
Proof.
  unfold part_moved. cbn [tail]. rewrite take_ge by done. do 2 f_equal. unfold last_of.
  rewrite last_lookup. cbn [length Nat.pred].
  destruct (lookup_lt_is_Some_2 (c :: q) (length q)) as [y Hy]; [cbn [length]; lia|].
  rewrite (drop_S _ y) by done. rewrite Hy, drop_ge by (cbn [length]; lia). done.
Qed.

Lemma moved_byte m i q l :
  (S i < length q)%nat -> queue_is m (part_moved i q l) ->
  queue_is (mput m (Z.of_nat i) (mget m (Z.of_nat i + 1))) (part_moved (S i) q l).
Proof.
  intros Hi (_ & Hle & Hq). cbn [scancode_queue] in Hq.
  destruct (lookup_lt_is_Some_2 q (S i) Hi) as [x Hx]. rewrite <- (part_moved_step i q x l Hx).
  assert (part_moved i q l !! S i = Some x) as Hp.
  { unfold part_moved. destruct q as [|c q]; [done|]. cbn [tail length] in *.
    rewrite lookup_app_r, length_take by (rewrite length_take; lia).
    rewrite Nat.min_l by lia. apply lookup_app_l_Some. rewrite lookup_drop.
    by replace (i + (S i - i))%nat with (S i) by lia. }
  split; [done|]. split; [by rewrite length_insert|]. intros j y Hy. cbn [scancode_queue].
  destruct (decide (j = i)) as [->|Hne].
  - rewrite mget_mput_eq. rewrite list_lookup_insert_eq in Hy
      by (rewrite length_part_moved, length_app by lia; lia).
    injection Hy as <-. rewrite <- (Hq _ _ Hp). by rewrite u8_small, Nat2Z.inj_succ by apply mget_range.
  - rewrite mget_mput_ne by lia. rewrite list_lookup_insert_ne in Hy by done. by apply Hq.
Qed.

(** The loop with its interrupts. *)
Lemma move_bytes_run q s b n i ls l m :
  length q = S (n + i) -> queue_is m (part_moved i q l) -> Forall byte_char (concat ls) ->
  Z.of_nat (length (q ++ l ++ concat ls)) <= scancode_queue_max ->
  exists m', move_bytes n (Z.of_nat i) ls (with_queue s m (part_moved i q l) b) =
      Done (tt, with_queue s m' (part_moved (n + i) q (l ++ concat ls)) b) /\
    queue_is m' (part_moved (n + i) q (l ++ concat ls)).
Proof.
  revert i ls l m. induction n as [|n IH]; intros i ls l m Hlen Hq Hb Hfit; cbn [move_bytes].
  - destruct (irqs_run (concat ls) s m _ b Hq Hb) as (m' & R & Q).
    { rewrite length_app, length_part_moved by lia. rewrite !length_app in *. lia. }
    rewrite part_moved_app in R, Q. by exists m'.
  - assert (concat ls = hd [] ls ++ concat (tail ls)) as Hls by (by destruct ls).
    rewrite Hls in Hb, Hfit |- *. apply Forall_app in Hb as [Hb1 Hb2].
    destruct (irqs_run (hd [] ls) s m _ b Hq Hb1) as (m1 & R & Q).
    { rewrite length_app, length_part_moved by lia. rewrite !length_app in *. lia. }
    rewrite part_moved_app in R, Q. rewrite (bind_done _ _ _ _ _ R), gets_bind.
    cbn [with_queue k_kbd set_kkbd scancode_queue_sz scancode_queue].
    fold (with_queue s m1 (part_moved i q (l ++ hd [] ls)) b).
    rewrite (set_queue_bind _ (part_moved (S i) q (l ++ hd [] ls))) by (rewrite !length_part_moved by lia; done).
    apply moved_byte in Q; [|lia].
    destruct (IH (S i) (tail ls) (l ++ hd [] ls) _ ltac:(lia) Q Hb2) as (m' & R' & Q').
    { rewrite !length_app in *. lia. }
    exists m'. rewrite app_assoc. replace (S n + i)%nat with (n + S i)%nat by lia.
    replace (Z.of_nat i + 1) with (Z.of_nat (S i)) in R' |- * by lia. by split.
Qed.

(** ** The call *)

(** What the queue holds afterwards, [q] being what the move is about and
    [late] what arrives from then on but is counted by the decrement. *)
Definition shifted (q late : list Z) : list Z := tail q ++ take (length late) (last_of q :: late).

Lemma length_shifted c q late : length (shifted (c :: q) late) = (length q + length late)%nat.
Proof. unfold shifted. rewrite length_app, length_take. cbn [tail length]. lia. Qed.

Lemma take_shifted c q late more :
  take (length q + length late) ((q ++ [last_of (c :: q)]) ++ late ++ more) = shifted (c :: q) late.
Proof.
  unfold shifted. cbn [tail length]. rewrite <- app_assoc. cbn [app].
  rewrite take_app_add. f_equal. rewrite app_comm_cons, take_app_le; [done|cbn [length]; lia].
Qed.

(** What arrives too early for the decrement to count it twice over: from the
    read of the move's size on, [l0] having come before the copying. *)
Definition counted (r : build) (a : arrivals) (l0 : list Z) : list Z :=
  (l0 ++ concat (in_copy a) ++ at_clear a) ++
  if reuse_decrement r then [] else zap (in_clear a) ++ at_decrement a.

(** The clearing store. *)
Lemma clear_run a s m q b :
  queue_is m q -> Forall byte_char (in_clear a) -> Z.of_nat (length (q ++ in_clear a)) < scancode_queue_max ->
  exists m', forall A (f : unit -> ST kstate A),
    (irqs (in_clear a) ;;
     when (scancode_queue_max <=? Z.of_nat (length q)) (stop_with (Fault "scancode_queue[scancode_queue_sz]")) ;;
     k ← gets k_kbd;
     x ← set_queue (mput (scancode_queue k) (Z.of_nat (length q)) 0) (scancode_queue_sz k); f x)
      (with_queue s m q b) = f tt (with_queue s m' (q ++ zap (in_clear a)) b) /\
    queue_is m' (q ++ zap (in_clear a)).
Proof.
  intros Q B Hlen. destruct (irqs_run (in_clear a) s m q b Q B) as (m1 & R1 & Q1); [lia|].
  exists (mput m1 (Z.of_nat (length q)) 0). intros A f. split; [|by apply cleared_is].
  rewrite (bind_done _ _ _ _ _ R1).
  assert ((scancode_queue_max <=? Z.of_nat (length q)) = false) as ->
    by (apply Z.leb_gt; rewrite length_app in Hlen; lia).
  rewrite (bind_done (when false _) _ _ tt _ eq_refl), gets_bind.
  cbn [with_queue k_kbd set_kkbd scancode_queue_sz scancode_queue].
  fold (with_queue s m1 (q ++ in_clear a) b).
  rewrite (set_queue_bind _ (q ++ zap (in_clear a))); [done|]. rewrite !length_app. by destruct (in_clear a).
Qed.

Lemma pop_late_run r a val s m c q b l0 :
  let l := l0 ++ concat (in_copy a) in
  queue_is m (q ++ [last_of (c :: q)] ++ l) -> Forall byte_char (at_clear a ++ in_clear a ++ at_decrement a ++ in_decrement a ++ at_return a) ->
  Z.of_nat (length (c :: q) + length l + length (at_clear a ++ in_clear a ++ at_decrement a ++ in_decrement a ++ at_return a)) < scancode_queue_max ->
  exists m', pop_late r a val (with_queue s m (q ++ [last_of (c :: q)] ++ l) b) =
      Done (val, with_queue s m' (shifted (c :: q) (counted r a l0) ++ at_return a) b) /\
    queue_is m' (shifted (c :: q) (counted r a l0) ++ at_return a).
Proof.
  intros l Hq Hb Hlen. rewrite !Forall_app in Hb.
  destruct Hb as (B1 & B2 & B3 & B4 & B5). rewrite !length_app in Hlen. cbn [length] in Hlen.
  assert (scancode_queue_max = 128) as Hmax by done. unfold pop_late, queue_size.
  set (q0 := q ++ [last_of (c :: q)] ++ l) in *.
  assert (length q0 = S (length q + length l)) as Hl0 by (unfold q0; rewrite !length_app; cbn [length]; lia).
  destruct (irqs_run (at_clear a) s m q0 b Hq B1) as (m1 & R1 & Q1); [rewrite !length_app; lia|].
  rewrite (bind_done _ _ _ _ _ R1), gets_bind. cbn [with_queue k_kbd set_kkbd scancode_queue_sz].
  fold (with_queue s m1 (q0 ++ at_clear a) b).
  destruct (clear_run a s m1 (q0 ++ at_clear a) b Q1 B2) as (m2 & R2); [rewrite !length_app; lia|].
  rewrite (proj1 (R2 _ _)). pose proof (proj2 (R2 _ (fun _ => skip))) as Q2. clear R2.
  assert (length (zap (in_clear a)) = length (in_clear a)) as Hz by (by destruct (in_clear a)).
  set (q1 := (q0 ++ at_clear a) ++ zap (in_clear a)) in *.
  destruct (irqs_run (at_decrement a) s m2 q1 b Q2 B3) as (m3 & R3 & Q3);
    [unfold q1; rewrite !length_app; lia|].
  rewrite (bind_done _ _ _ _ _ R3), gets_bind.
  destruct (irqs_run (in_decrement a) s m3 _ b Q3 B4) as (m4 & R4 & Q4); [unfold q1; rewrite !length_app; lia|].
  rewrite (bind_done _ _ _ _ _ R4), gets_bind. cbn [with_queue k_kbd set_kkbd scancode_queue_sz scancode_queue].
  fold (with_queue s m4 ((q1 ++ at_decrement a) ++ in_decrement a) b).
  set (n := (length q + length (counted r a l0))%nat).
  assert (exists more, (q1 ++ at_decrement a) ++ in_decrement a =
    (q ++ [last_of (c :: q)]) ++ counted r a l0 ++ more) as [more Hmore].
  { unfold counted, q1, q0, l. destruct (reuse_decrement r); eexists; rewrite <- !app_assoc; reflexivity. }
  assert (Z.of_nat n = (if reuse_decrement r then Z.of_nat (length (q0 ++ at_clear a))
      else Z.of_nat (length (q1 ++ at_decrement a))) -64 1 /\ (n <= length (q1 ++ at_decrement a))%nat) as [Hn Hn'].
  { unfold n, counted, q1. unfold l in Hl0, Hlen. rewrite !length_app in *.
    destruct (reuse_decrement r); rewrite ?length_app, Hl0; cbn [length]; rewrite u64_small; lia. }
  apply (shrunk_repr _ _ _ _ n) in Q4; [|rewrite length_app; lia].
  assert (take n ((q1 ++ at_decrement a) ++ in_decrement a) = shifted (c :: q) (counted r a l0)) as Ht
    by (rewrite Hmore; apply take_shifted).
  rewrite Ht in Q4. replace n with (length (shifted (c :: q) (counted r a l0))) in Q4 by apply length_shifted.
  rewrite (set_queue_bind m4 (shifted (c :: q) (counted r a l0))) by (rewrite length_shifted; by rewrite <- Hn).
  destruct (irqs_run (at_return a) s m4 (shifted (c :: q) (counted r a l0)) b Q4 B5) as (m5 & R5 & Q5).
  { rewrite length_app, length_shifted. fold n. unfold q1 in Hn'. rewrite !length_app in Hn'. lia. }
  exists m5. by rewrite (bind_done _ _ _ _ _ R5).
Qed.

Definition before_move (r : build) (a : arrivals) (q : list Z) : list Z :=
  (q ++ at_entry a) ++ if reuse_move r then [] else at_read a ++ at_move a.
Definition before_copy (r : build) (a : arrivals) : list Z :=
  if reuse_move r then at_read a ++ at_move a else [].
Definition all_arrivals (a : arrivals) : list Z :=
  at_entry a ++ at_read a ++ at_move a ++ concat (in_copy a) ++ at_clear a ++ in_clear a ++
    at_decrement a ++ in_decrement a ++ at_return a.

(** The start of the call, as far as a queue that is not empty. *)
Lemma pop_start_run r a s m q b :
  queue_is m q -> Forall byte_char (at_entry a ++ at_read a ++ at_move a) ->
  Z.of_nat (length (q ++ at_entry a ++ at_read a ++ at_move a)) <= scancode_queue_max -> q ++ at_entry a <> [] ->
  let q1 := before_move r a q in
  exists m', pop_interrupted r a (with_queue s m q b) =
      (move_bytes (length (tail q1)) 0 (in_copy a) ;; pop_late r a (hd 0 q1))
        (with_queue s m' (q1 ++ before_copy r a) b) /\
    queue_is m' (q1 ++ before_copy r a).
Proof.
  intros Q Hb Hlen Hne q1. rewrite !Forall_app in Hb. destruct Hb as (B1 & B2 & B3). rewrite !length_app in Hlen.
  unfold pop_interrupted, queue_size.
  destruct (irqs_run (at_entry a) s m q b Q B1) as (m1 & R1 & Q1); [rewrite !length_app; lia|].
  rewrite (bind_done _ _ _ _ _ R1), gets_bind. cbn [with_queue k_kbd set_kkbd scancode_queue_sz].
  fold (with_queue s m1 (q ++ at_entry a) b).
  destruct (q ++ at_entry a) as [|c l] eqn:Eq; [done|].
  assert ((Z.of_nat (length (c :: l)) =? 0) = false) as -> by (apply Z.eqb_neq; cbn [length]; lia).
  assert (length (c :: l) = length q + length (at_entry a))%nat as Hcl by (by rewrite <- Eq, length_app).
  destruct (irqs_run (at_read a) s _ _ b Q1 B2) as (m2 & R2 & Q2); [rewrite length_app; lia|].
  rewrite (bind_done _ _ _ _ _ R2), gets_bind. cbn [with_queue k_kbd set_kkbd scancode_queue].
  fold (with_queue s m2 ((c :: l) ++ at_read a) b). cbv zeta.
  destruct (irqs_run (at_move a) s _ _ b Q2 B3) as (m3 & R3 & Q3); [rewrite !length_app; lia|].
  rewrite (bind_done _ _ _ _ _ R3), gets_bind. cbn [with_queue k_kbd set_kkbd scancode_queue_sz].
  fold (with_queue s m3 (((c :: l) ++ at_read a) ++ at_move a) b).
  assert (((c :: l) ++ at_read a) ++ at_move a = q1 ++ before_copy r a) as E.
  { unfold q1, before_move, before_copy. rewrite Eq. destruct (reuse_move r); by rewrite <- !app_assoc, ?app_nil_r. }
  assert (hd 0 q1 = mget m2 0) as -> by
    (unfold q1, before_move; rewrite Eq; symmetry; exact (proj2 (proj2 Q2) 0%nat c eq_refl)).
  exists m3. rewrite E in *. split; [|exact Q3]. do 2 f_equal. unfold q1, before_move, before_copy in *.
  assert (scancode_queue_max = 128) by done.
  rewrite Eq. destruct (reuse_move r); rewrite ?app_nil_r, ?length_app; cbn [app length tail];
    rewrite ?length_app; cbn [length]; rewrite u64_small by (cbn [length] in Hcl; lia); lia.
Qed.

Lemma pop_interrupted_run r a s q b :
  holds s q b -> Forall byte_char (all_arrivals a) ->
  Z.of_nat (length (q ++ all_arrivals a)) < scancode_queue_max -> q ++ at_entry a <> [] ->
  let q1 := before_move r a q in
  exists k, pop_interrupted r a s = Done (hd 0 q1, set_kkbd k s) /\
    kbd_repr k (shifted q1 (counted r a (before_copy r a)) ++ at_return a) /\ mod_shift_set k = b.
Proof.
  intros Hh Hb Hlen Hne q1. unfold all_arrivals in *.
  destruct (holds_with_queue s q b Hh) as (m & -> & Q).
  assert (length (q1 ++ before_copy r a) = length (q ++ at_entry a ++ at_read a ++ at_move a)) as Hq1.
  { unfold q1, before_move, before_copy. destruct (reuse_move r); by rewrite ?app_nil_r, <- !app_assoc. }
  rewrite !Forall_app in Hb. destruct Hb as (B1 & B2 & B3 & B4 & B5). rewrite !length_app in Hq1. rewrite !length_app in Hlen.
  destruct (pop_start_run r a s m q b Q) as (m1 & -> & Q1); [by rewrite !Forall_app|rewrite !length_app; lia|done|].
  fold q1 in Q1 |- *. assert (q1 <> []) as Hq0 by (unfold q1, before_move; by destruct (q ++ at_entry a)).
  destruct q1 as [|c q']; [done|]. cbn [tail].
  destruct (move_bytes_run (c :: q') s b (length q') 0 (in_copy a) (before_copy r a) m1) as (m2 & R2 & Q2);
    [cbn [length]; lia|exact Q1|done|rewrite !length_app; lia|].
  rewrite Nat.add_0_r in R2, Q2. rewrite (part_moved_all c q') in R2, Q2.
  erewrite bind_done by exact R2.
  destruct (pop_late_run r a (hd 0 (c :: q')) s m2 c q' b (before_copy r a) Q2) as (m3 & R3 & Q3).
  - by rewrite !Forall_app in *.
  - rewrite !length_app. lia.
  - rewrite R3. eexists. split; [reflexivity|]. by split.
Qed.

Lemma pop_empty_run r a s b :
  holds s [] b -> Forall byte_char (at_return a) -> Z.of_nat (length (at_return a)) <= scancode_queue_max ->
  at_entry a = [] ->
  exists k, pop_interrupted r a s = Done (0, set_kkbd k s) /\ kbd_repr k (at_return a) /\ mod_shift_set k = b.
Proof.
  intros Hh Hb Hlen He. destruct (holds_with_queue s [] b Hh) as (m & -> & Q).
  destruct (irqs_run (at_return a) s m [] b Q Hb Hlen) as (m1 & R1 & Q1).
  unfold pop_interrupted, queue_size. rewrite He.
  rewrite (bind_done (irqs []) _ (with_queue s m [] b) tt _ eq_refl), gets_bind.
  change (scancode_queue_sz (k_kbd (with_queue s m [] b)) =? 0) with true. cbv iota.
  rewrite (bind_done _ _ _ _ _ R1). eexists. split; [reflexivity|]. by split.
Qed.

(** ** The theorems *)

(** C19. [scancode_queue_pop] interrupted between any of its accesses by any
    scancodes that fit, and whichever of the sizes it keeps in a register.  On
    an empty queue it returns 0 and leaves what arrives afterwards.  Else it
    returns the oldest scancode and leaves the shift state alone; scancodes
    that arrive before the move's size is read are queued behind the others,
    and so are those that come after the decrement's store.  But [n] scancodes
    that arrive in between and that the decrement counts leave the queue with
    the last scancode of before a second time and only the first [n - 1] of
    them; the first of those that come inside the clearing store is
    overwritten with 0; and those the decrement does not count are lost.  So
    with no arrival in between the call takes effect at one point in time, and
    as it stands in the code without interrupts. *)
Theorem pop_interrupted_queue (r : build) (a : arrivals) (s : kstate) (q : list Z) (shift : bool)
    (Hh : holds s q shift) (Hb : Forall byte_char (all_arrivals a))
    (Hfit : Z.of_nat (length (q ++ all_arrivals a)) < scancode_queue_max) :
  let early := if reuse_move r then [] else at_read a ++ at_move a in
  let before := (q ++ at_entry a) ++ early in
  let late := ((if reuse_move r then at_read a ++ at_move a else []) ++ concat (in_copy a) ++ at_clear a) ++
    (if reuse_decrement r then [] else zap (in_clear a) ++ at_decrement a) in
  let after := tail before ++ take (length late) (last_of before :: late) ++ at_return a in
  (q ++ at_entry a = [] ->
     exists k, pop_interrupted r a s = Done (0, set_kkbd k s) /\ mod_shift_set k = shift /\
       kbd_repr k (at_return a)) /\
  (q ++ at_entry a <> [] ->
     exists k, pop_interrupted r a s = Done (hd 0 before, set_kkbd k s) /\ mod_shift_set k = shift /\
       kbd_repr k after /\
       (late = [] -> in_clear a ++ at_decrement a ++ in_decrement a = [] ->
          hd 0 before :: after = q ++ all_arrivals a)) /\
  pop_interrupted r no_arrivals s = scancode_queue_pop s.
Proof.
  intros early before late after. split; [|split; [|apply pop_uninterrupted]].
  - intros [-> He]%app_eq_nil. unfold all_arrivals in Hb, Hfit. rewrite !Forall_app in Hb. rewrite !length_app in Hfit.
    destruct (pop_empty_run r a s shift Hh) as (k & R & K & S); [apply Hb|lia|done|by exists k].
  - intros Hne. destruct (pop_interrupted_run r a s q shift Hh Hb Hfit Hne) as (k & R & K & S).
    exists k. split; [exact R|]. split; [exact S|]. split.
    + unfold shifted in K. rewrite <- app_assoc in K. exact K.
    + intros Hl Hd. apply app_eq_nil in Hd as [H1 Hd]. apply app_eq_nil in Hd as [H2 H3].
      unfold after. rewrite Hl. cbn [length take app]. unfold late in Hl.
      apply app_eq_nil in Hl as [Hl _]. apply app_eq_nil in Hl as [H4 Hl]. apply app_eq_nil in Hl as [H5 H6].
      assert (before = q ++ at_entry a ++ at_read a ++ at_move a) as Hbef.
      { unfold before, early. destruct (reuse_move r); [by rewrite H4, !app_nil_r|by rewrite <- app_assoc]. }
      assert (before <> []) as Hb0 by (unfold before; by destruct (q ++ at_entry a)).
      unfold all_arrivals. rewrite H1, H2, H3, H5, H6. cbn [app].
      destruct before as [|c l]; [done|]. cbn [hd tail].
      rewrite app_comm_cons, Hbef. by rewrite <- !app_assoc.
Qed.

(** Pressing the A key, with its release arriving while the press is taken
    from the queue: the key is read twice and its release never. *)
Definition late_release : arrivals := Arrivals [] [] [] [] [158] [] [] [] [].

Lemma pop_interrupted_queue_witness :
  exists s k, holds s [30] false /\
    pop_interrupted (Build false false) late_release s = Done (30, set_kkbd k s) /\ kbd_repr k [30].
Proof.
  destruct (receive_all_run [30] sample_keys [] false sample_keys_empty) as (k0 & _ & Hk0 & Hs0);
    [repeat (constructor; [unfold byte_char; lia|]); constructor|vm_compute; discriminate|].
  exists (set_kkbd k0 sample_keys).
  destruct (pop_interrupted_queue (Build false false) late_release (set_kkbd k0 sample_keys) [30] false)
    as (_ & H & _).
  - by split.
  - repeat (constructor; [unfold byte_char; lia|]). constructor.
  - vm_compute. reflexivity.
  - destruct H as (k & R & _ & K & _); [discriminate|]. exists k. split; [by split|]. split; [exact R|exact K].
Defined.

(** What a reader of the queue sees of it: the character typed twice. *)
Theorem late_release_types_twice (r : build) (s : kstate) (shift : bool) (Hh : holds s [30] shift) :
  exists k, (pop_interrupted r late_release ;; poll 2) s =
    Done ([char_of shift 30], set_kkbd k s) /\ kbd_repr k [].
Proof.
  destruct (pop_interrupted_run r late_release s [30] shift Hh) as (k & R & K & S).
  - repeat (constructor; [unfold byte_char; lia|]). constructor.
  - vm_compute. reflexivity.
  - discriminate.
  - assert (kbd_repr k [30]) as K1 by (by destruct r as [[] []]).
    assert (hd 0 (before_move r late_release [30]) = 30) as E by (by destruct r as [[] []]).
    rewrite (bind_done _ _ _ _ _ R).
    destruct (poll_run 2 (set_kkbd k s) [30] shift) as (k' & H & Hk'); [by split|vm_compute; reflexivity|cbn; lia|].
    exists k'. split; [|exact Hk']. rewrite H. by destruct shift.
Qed.
