(* ===== verification/Debugger.v ===== *)
(** The kernel debugger (src/src/lobo/debug/kernel_debugger.cpp): its line
    editor, its commands and the loop that reads and runs them.

    The debugger polls the keyboard; the scancodes that arrive are an argument:
    before the n-th poll the keyboard interrupt delivers the n-th list of
    [arrivals].  A run whose arrivals are used up is [OutOfFuel]. *)

From S2P Require Import Prelude Memory Lobo KernelBitset Pmm KernelHeap KernelList Scheduler Keyboard KernelLog.
Local Open Scope Z_scope.
Local Open Scope mach_scope.

(** ** The line editor *)

(** [char input_buffer[100]], a memory of its own addressed by index. *)
Definition buffer_store (buf : mem) (i c : Z) : ST kstate mem :=
  when (negb ((0 <=? i) && (i <? 100))) (stop_with (Fault "input_buffer[input_index]")) ;;
  mret (mput buf i (u8 c)).

Fixpoint input_loop (arrivals : list (list Z)) (input_buffer : mem) (input_index : Z) : ST kstate (mem * list (list Z)) :=
  match arrivals with
  | [] => stop_with OutOfFuel
  | codes :: arrivals' =>
      forM codes ps2_on_interrupt ;;
      c ← getchar_async;
      if c =? 10 then kwrite_char c ;; mret (input_buffer, arrivals')
      else if c =? 8 then
        kwrite_char 8 ;;
        buf ← buffer_store input_buffer input_index 0;
        input_loop arrivals' buf (if input_index - 1 <? 0 then 0 else input_index - 1)
      else if c =? 0 then input_loop arrivals' input_buffer input_index
      else
        let i := if 98 <? input_index then 98 else input_index in
        buf ← buffer_store input_buffer i c;
        kwrite_char c ;;
        input_loop arrivals' buf (i + 1)
  end.

(** [strcmp(input_buffer, cmd) == 0], with the literal behind the buffer. *)
Definition buffer_is (buf : mem) (cmd : string) : ST kstate bool :=
  match strcmp 101 (poke buf 128 (literal cmd)) 0 128 with
  | Some r => mret (r =? 0)
  | None => stop_with (Fault "input_buffer is not terminated")
  end.

(** ** The commands *)

Definition drivers_count : ST kstate unit :=
  l ← gets k_drivers;
  klog "drvreg" "%d Drivers loaded" [KNum (list_size l)].

(** driver.h: a vtable pointer, the name, the type. *)
Definition m_name (m : mem) (drv : Z) : Z := load64 m (drv + 8).

(** An iteration per node; the fuel is one more than the size of the list. *)
Fixpoint list_drivers (fuel : nat) (node : Z) : ST kstate unit :=
  match fuel with
  | O => stop_with OutOfFuel
  | S fuel' =>
      if itr_ne node list_end then
        m ← gets k_mem;
        assert_c (negb (node_value m node =? 0)) "*drv_it != nullptr" ;;
        klog_raw "%s " [KNum (m_name m (node_value m node))] ;;
        list_drivers fuel' (itr_next m node)
      else skip
  end.
Definition drivers_list : ST kstate unit :=
  l ← gets k_drivers;
  list_drivers (S (Z.to_nat (m_size l))) (list_begin l) ;;
  klog_raw "
" [].

Definition state_name (st : Z) : string :=
  if st =? state_code Dead then "Dead"
  else if st =? state_code Waiting then "Waiting"
  else if st =? state_code Ready then "Ready"
  else if st =? state_code Running then "Running"
  else "Unknown".
Definition schedulable (st : Z) : bool := (st =? state_code Ready) || (st =? state_code Running).

Fixpoint count_schedulable (fuel : nat) (node numSchedulable : Z) : ST kstate Z :=
  match fuel with
  | O => stop_with OutOfFuel
  | S fuel' =>
      if itr_ne node list_end then
        m ← gets k_mem;
        let thread := node_value m node in
        non_null thread ;;
        count_schedulable fuel' (itr_next m node)
          (if schedulable (tcb_state m thread) then numSchedulable + 1 else numSchedulable)
      else mret numSchedulable
  end.
Fixpoint print_threads (fuel : nat) (node : Z) : ST kstate unit :=
  match fuel with
  | O => stop_with OutOfFuel
  | S fuel' =>
      if itr_ne node list_end then
        m ← gets k_mem;
        let thread := node_value m node in
        non_null thread ;;
        klog "sched" "| %7d | %7d | %-20s | %7s |"
          [KNum (tcb_taskID m thread); KNum (threadID m thread); KNum (threadName m thread);
           KStr (state_name (tcb_state m thread))] ;;
        print_threads fuel' (itr_next m node)
      else skip
  end.
Definition debug_threads : ST kstate unit :=
  l ← gets (fun s => threads (k_sched s));
  numSchedulable ← count_schedulable (S (Z.to_nat (m_size l))) (list_begin l) 0;
  klog "sched" "%d threads, %d schedulable" [KNum (list_size l); KNum numSchedulable] ;;
  klog "sched" "| %7s | %7s | %-20s | %7s |" [KStr "Task ID"; KStr "TID"; KStr "Thread Name"; KStr "State"] ;;
  print_threads (S (Z.to_nat (m_size l))) (list_begin l).

Definition commands : list (string * ST kstate unit) := [
  ("pmm/free", debug_print_free_memory);
  ("pmm/freepages", debug_print_free_pages);
  ("drivers/count", drivers_count);
  ("drivers/list", drivers_list);
  ("threads", debug_threads)
]%string.

Fixpoint find_command (buf : mem) (l : list (string * ST kstate unit)) : ST kstate (option (ST kstate unit)) :=
  match l with
  | [] => mret None
  | (cmd, fn) :: l' => e ← buffer_is buf cmd; if (e : bool) then mret (Some fn) else find_command buf l'
  end.

Definition help : ST kstate unit :=
  klog "debug" "Command List:" [] ;;
  klog "debug" "pmm: pmm/free, pmm/freepages," [] ;;
  klog "debug" "drivers: drivers/count, drivers/list" [] ;;
  klog "debug" "scheduler: threads" [] ;;
  klog "debug" "debugger: help, exit" [].

(** The string in the buffer, up to its terminator. *)
Fixpoint c_string (n : nat) (m : mem) (p : Z) : list Z :=
  match n with
  | O => []
  | S n' => if mget m p =? 0 then [] else mget m p :: c_string n' m (p + 1)
  end.
Definition chars_string (l : list Z) : string :=
  String.string_of_list_ascii ((fun c => Ascii.ascii_of_nat (Z.to_nat c)) <$> l).
Definition invalid_command (buf : mem) : ST kstate unit :=
  let quote := chars_string [34] in
  klog "debug" (String.append "Invalid command " (String.append quote (String.append "%s" quote)))
    [KStr (chars_string (c_string 100 buf 0))].

(** What follows a line that is not ["exit"]. *)
Definition run_command (buf : mem) : ST kstate unit :=
  h ← buffer_is buf "help";
  if (h : bool) then help
  else
    func ← find_command buf commands;
    match func with Some fn => fn | None => invalid_command buf end.

(** [frame] is what the stack holds where the buffer lies. *)
Section Enter.
Context (frame : mem).

(** Every line takes a poll, so the number of polls bounds the iterations. *)
Fixpoint enter_loop (fuel : nat) (wasSchedulingEnabled : bool) (arrivals : list (list Z)) : ST kstate (list (list Z)) :=
  match fuel with
  | O => stop_with OutOfFuel
  | S fuel' =>
      klog_raw "  debug => " [] ;;
      r ← input_loop arrivals (memset frame 0 0 100) 0;
      e ← buffer_is r.1 "exit";
      if (e : bool) then when wasSchedulingEnabled EnableScheduling ;; mret r.2
      else run_command r.1 ;; enter_loop fuel' wasSchedulingEnabled r.2
  end.

Definition enter (arrivals : list (list Z)) : ST kstate (list (list Z)) :=
  wasSchedulingEnabled ← gets (fun s => schedulingEnabled (k_sched s));
  DisableScheduling ;;
  klog "debug" "Entered kernel debugger!" [] ;;
  enter_loop (S (length arrivals)) wasSchedulingEnabled arrivals.

End Enter.

(** ** Specification of the line editor *)

(** The text in the buffer, and whether the cursor is before its last
    character (after a backspace) or behind it. *)
Record line := Line { ln_text : list Z; ln_back : bool }.
Definition drop_last (l : list Z) : list Z := take (pred (length l)) l.

(** A backspace removes a character only when the key before it was a backspace
    too; a character replaces the last one after a backspace, and when the
    line is full. *)
Definition press (t : line) (c : Z) : line :=
  if c =? 8 then
    let txt := if ln_back t then drop_last (ln_text t) else ln_text t in
    Line txt (negb (bool_decide (txt = [])))
  else Line ((if ln_back t || (length (ln_text t) =? 99)%nat then drop_last (ln_text t) else ln_text t) ++ [c]) false.
Definition edited (cs : list Z) : line := foldl press (Line [] false) cs.

Definition index_of (t : line) : Z := Z.of_nat (length (ln_text t)) - (if ln_back t then 1 else 0).
Definition line_ok (t : line) : Prop :=
  (length (ln_text t) <= 99)%nat /\ (ln_back t = true -> ln_text t <> []) /\ Forall (fun c => 0 < c < 128) (ln_text t).
Definition buf_repr (buf : mem) (t : line) : Prop :=
  forall i, (i < 100)%nat -> mget buf (Z.of_nat i) = default 0 (ln_text t !! i).

(** The characters polled up to the end of a line, with what is left; [None] if
    the arrivals end before or do not fit the queue. *)
Fixpoint poll_line (arrivals : list (list Z)) (q : list Z) (shift : bool) :
    option (list Z * list (list Z) * list Z * bool) :=
  match arrivals with
  | [] => None
  | codes :: arrivals' =>
      if Z.of_nat (length (q ++ codes)) <? scancode_queue_max then
        let '(c, q', shift') := next_char (q ++ codes) shift in
        if c =? 10 then Some ([], arrivals', q', shift')
        else
          '(cs, a, q'', shift'') ← poll_line arrivals' q' shift';
          Some (if c =? 0 then cs else c :: cs, a, q'', shift'')
      else None
  end.

(** ** Proofs *)

Lemma length_drop_last l : length (drop_last l) = pred (length l).
Proof. unfold drop_last. rewrite length_take. lia. Qed.

Lemma drop_last_lookup l i : drop_last l !! i = if decide (S i < length l)%nat then l !! i else None.
Proof.
  unfold drop_last. case_decide; [apply lookup_take_lt; lia|apply lookup_take_ge; lia].
Qed.

Lemma drop_last_forall P l : Forall P l -> Forall P (drop_last l).
Proof. apply Forall_take. Qed.

Lemma buf_repr_store buf t i c t' :
  buf_repr buf t -> 0 <= c < 256 ->
  (forall j, (j < 100)%nat -> default 0 (ln_text t' !! j) = if decide (j = i) then c else default 0 (ln_text t !! j)) ->
  buf_repr (mput buf (Z.of_nat i) c) t'.
Proof.
  intros Hb Hc H j Hj. rewrite H by done. case_decide as E.
  - subst. rewrite mget_mput_eq. by apply u8_small.
  - rewrite mget_mput_ne by lia. by apply Hb.
Qed.

Lemma press_back buf t :
  line_ok t -> buf_repr buf t ->
  0 <= index_of t < 100 /\ line_ok (press t 8) /\ buf_repr (mput buf (index_of t) 0) (press t 8) /\
  index_of (press t 8) = (if index_of t - 1 <? 0 then 0 else index_of t - 1).
Proof.
  destruct t as [l b]. intros (Hlen & Hne & Hch) Hb. cbn [ln_text ln_back] in *. unfold press, index_of.
  rewrite Z.eqb_refl. cbn [ln_text ln_back]. destruct b.
  - specialize (Hne eq_refl). assert (length l <> 0%nat) by (by destruct l).
    pose proof (length_drop_last l) as Hdl. split; [lia|]. split; [|split].
    + split; [cbn; lia|]. split; [|by apply drop_last_forall]. cbn. intros H0. by case_bool_decide.
    + replace (Z.of_nat (length l) - 1) with (Z.of_nat (pred (length l))) by lia.
      eapply buf_repr_store; [exact Hb|lia|]. intros j Hj. cbn [ln_text]. rewrite drop_last_lookup.
      repeat case_decide; try done; try lia. by rewrite lookup_ge_None_2 by lia.
    + case_bool_decide as E.
      * assert (pred (length l) = 0%nat) by (by rewrite <- Hdl, E). cbn [negb]. rewrite Hdl. destruct (_ <? 0) eqn:?; lia.
      * assert (length (drop_last l) <> 0%nat) by (by destruct (drop_last l)). cbn [negb]. destruct (_ <? 0) eqn:?; lia.
  - split; [lia|]. split; [|split].
    + split; [done|]. split; [|done]. cbn. by case_bool_decide.
    + rewrite Z.sub_0_r. eapply buf_repr_store; [exact Hb|lia|]. intros j Hj. cbn [ln_text].
      case_decide; [|done]. subst. by rewrite lookup_ge_None_2 by lia.
    + case_bool_decide as E; [by subst|]. assert (length l <> 0%nat) by (by destruct l). cbn [negb]. destruct (_ <? 0) eqn:?; lia.
Qed.

Lemma press_char buf t c :
  line_ok t -> buf_repr buf t -> 0 < c < 128 -> c <> 8 ->
  let i := if 98 <? index_of t then 98 else index_of t in
  0 <= i < 100 /\ line_ok (press t c) /\ buf_repr (mput buf i c) (press t c) /\ index_of (press t c) = i + 1.
Proof.
  destruct t as [l b]. intros (Hlen & Hne & Hch) Hb Hc H8. unfold press, index_of. cbn [ln_text ln_back] in *.
  assert ((c =? 8) = false) as -> by lia. cbn [ln_text ln_back].
  set (l' := if b || (length l =? 99)%nat then drop_last l else l).
  assert (b = true -> length l <> 0%nat) as Hnb by (intros E; specialize (Hne E); by destruct l).
  assert ((if 98 <? Z.of_nat (length l) - (if b then 1 else 0) then 98
    else Z.of_nat (length l) - (if b then 1 else 0)) = Z.of_nat (length l') /\ (length l' <= 98)%nat /\
    (forall j, (j < length l')%nat -> l' !! j = l !! j) /\ (length l <= S (length l'))%nat) as (Hi & Hl' & Hlk & Hll).
  { pose proof (length_drop_last l). unfold l'. destruct b; cbn [orb].
    - rewrite length_drop_last. specialize (Hnb eq_refl). destruct (98 <? _) eqn:?; [lia|]. split; [lia|]. split; [lia|]. split; [|lia].
      intros j Hj. rewrite drop_last_lookup, decide_True by lia. done.
    - destruct (length l =? 99)%nat eqn:E.
      + apply Nat.eqb_eq in E. rewrite length_drop_last. destruct (98 <? _) eqn:?; [|lia]. split; [lia|]. split; [lia|]. split; [|lia].
        intros j Hj. rewrite drop_last_lookup, decide_True by lia. done.
      + apply Nat.eqb_neq in E. destruct (98 <? _) eqn:?; [lia|]. split; [lia|]. split; [lia|]. split; [done|lia]. }
  assert (Forall (fun c => 0 < c < 128) l') as Hch'.
  { unfold l'. destruct (b || _); [by apply drop_last_forall|done]. }
  clearbody l'. cbv zeta. rewrite Hi. split; [lia|]. split; [|split].
  - split; [cbn [ln_text]; rewrite length_app; change (length [c]) with 1%nat; lia|]. split; [done|].
    cbn [ln_text]. apply Forall_app. split; [done|by apply Forall_singleton].
  - eapply buf_repr_store; [exact Hb|lia|]. intros j Hj. cbn [ln_text]. case_decide as E.
    + subst. by rewrite list_lookup_middle.
    + destruct (decide (j < length l')%nat).
      * rewrite lookup_app_l by done. by rewrite Hlk.
      * rewrite !lookup_ge_None_2; [done|lia|rewrite length_app; simpl; lia].
  - rewrite length_app. simpl length. lia.
Qed.

Lemma table_range t : Forall (fun c => 0 <= c < 128) t -> forall i, 0 <= table_get t i < 128.
Proof.
  intros H i. unfold table_get. destruct (t !! Z.to_nat i) eqn:E; cbn; [|lia]. by eapply Forall_lookup_1 in H.
Qed.

Lemma char_of_range shift c : 0 <= char_of shift c < 128.
Proof.
  unfold char_of. apply table_range. apply Forall_forall. intros x Hx%list_elem_of_In.
  destruct shift; [pose (t := kbdus_shift)|pose (t := kbdus)];
    (assert (forallb (fun c => (0 <=? c) && (c <? 128)) t = true) as H by (vm_compute; reflexivity);
     rewrite forallb_forall in H; specialize (H x Hx); lia).
Qed.

Lemma next_char_range q shift : 0 <= (next_char q shift).1.1 < 128.
Proof.
  revert shift. induction q as [|c q IH]; intros shift; cbn [next_char]; [cbn; lia|].
  destruct (c =? 0); [cbn; lia|]. destruct (is_down c); [apply char_of_range|apply IH].
Qed.

Lemma buffer_store_run buf i c s : 0 <= i < 100 -> 0 <= c < 256 -> buffer_store buf i c s = Done (mput buf i c, s).
Proof.
  intros Hi Hc. unfold buffer_store. assert (((0 <=? i) && (i <? 100)) = true) as -> by lia. cbn [negb when].
  by rewrite u8_small.
Qed.

(** The state with another keyboard and [out] more calls of the log. *)
Definition polled (s : kstate) (k : keyboard) (out : list klog_call) : kstate :=
  set_klog (k_log s ++ out) (set_kkbd k s).

Lemma polled_polled s k out k' out' : polled (polled s k out) k' out' = polled s k' (out ++ out').
Proof. destruct s. unfold polled, set_klog, set_kkbd. cbn. by rewrite app_assoc. Qed.
Lemma polled_kbd s k : set_kkbd k s = polled s k [].
Proof. destruct s. unfold polled, set_klog, set_kkbd. cbn. by rewrite app_nil_r. Qed.
Lemma polled_write s k out c : set_klog (k_log (polled s k out) ++ [KWriteChar c]) (polled s k out) = polled s k (out ++ [KWriteChar c]).
Proof. destruct s. unfold polled, set_klog, set_kkbd. cbn. by rewrite app_assoc. Qed.

Lemma input_loop_run arrivals s q shift buf t cs rest q' shift' :
  holds s q shift -> Forall (Forall byte_char) arrivals -> line_ok t -> buf_repr buf t ->
  poll_line arrivals q shift = Some (cs, rest, q', shift') ->
  exists buf' k, input_loop arrivals buf (index_of t) s =
      Done ((buf', rest), polled s k ((KWriteChar <$> cs) ++ [KWriteChar 10])) /\
    kbd_repr k q' /\ mod_shift_set k = shift' /\ line_ok (foldl press t cs) /\ buf_repr buf' (foldl press t cs).
Proof.
  revert s q shift buf t cs. induction arrivals as [|codes arrivals IH]; intros s q shift buf t cs Hh Ha Ht Hb Hp; [done|].
  apply Forall_cons in Ha as [Hc Ha]. cbn [poll_line] in Hp. destruct (_ <? _) eqn:Ef; [|done].
  destruct (receive_all_run codes s q shift Hh Hc ltac:(lia)) as (k1 & H1 & Hk1 & Hs1).
  pose proof (getchar_run (q ++ codes) (set_kkbd k1 s) shift (conj Hk1 Hs1) ltac:(lia)) as H2.
  pose proof (next_char_range (q ++ codes) shift) as Hr. destruct (next_char (q ++ codes) shift) as [[c q2] sh2].
  destruct H2 as (k2 & H2 & Hk2). cbn [fst] in Hr. cbn [input_loop].
  rewrite (bind_done _ _ _ _ _ H1), (bind_done _ _ _ _ _ H2). change (set_kkbd k2 (set_kkbd k1 s)) with (set_kkbd k2 s).
  rewrite polled_kbd. clear H1 H2 Hk1 Hs1 k1.
  destruct (c =? 10) eqn:E10.
  { injection Hp as <- <- <- <-. rewrite kwrite_char_bind, polled_write. apply Z.eqb_eq in E10 as ->. exists buf, k2.
    split; [done|]. tauto. }
  destruct (poll_line arrivals q2 sh2) as [[[[cs' rest'] q3] sh3]|] eqn:Epl; [|done]. cbn in Hp. injection Hp as <- <- <- <-.
  assert (forall out, holds (polled s k2 out) q2 sh2) as Hh2 by (intros; exact Hk2).
  destruct (c =? 8) eqn:E8.
  - apply Z.eqb_eq in E8 as ->. destruct (press_back buf t Ht Hb) as (Hi & Ht' & Hb' & Hidx).
    rewrite kwrite_char_bind, polled_write, (bind_done _ _ _ _ _ (buffer_store_run buf (index_of t) 0 _ Hi ltac:(lia))).
    rewrite <- Hidx. destruct (IH _ _ _ _ _ _ (Hh2 ([] ++ [KWriteChar 8])) Ha Ht' Hb' Epl) as (buf' & k & H & Hk). rewrite polled_polled in H.
    exists buf', k. split; [exact H|exact Hk].
  - destruct (c =? 0) eqn:E0.
    + destruct (IH _ _ _ _ _ _ (Hh2 []) Ha Ht Hb Epl) as (buf' & k & H & Hk). rewrite polled_polled in H.
      exists buf', k. split; [exact H|exact Hk].
    + destruct (press_char buf t c Ht Hb ltac:(lia) ltac:(lia)) as (Hi & Ht' & Hb' & Hidx). cbv zeta.
      rewrite (bind_done _ _ _ _ _ (buffer_store_run buf _ c _ Hi ltac:(lia))), kwrite_char_bind, polled_write, <- Hidx.
      destruct (IH _ _ _ _ _ _ (Hh2 ([] ++ [KWriteChar c])) Ha Ht' Hb' Epl) as (buf' & k & H & Hk). rewrite polled_polled in H.
      exists buf', k. split; [exact H|exact Hk].
Qed.

(** The cleared buffer. *)
Lemma cleared_buffer frame : buf_repr (memset frame 0 0 100) (Line [] false).
Proof. intros i Hi. rewrite memset_get, decide_True by lia. done. Qed.

Lemma mget_poke_eq m a l i b : l !! i = Some b -> 0 <= b < 256 -> mget (poke m a l) (a + Z.of_nat i) = b.
Proof.
  revert m a i. induction l as [|x l IH]; intros m a [|i] Hi Hb; simplify_eq/=.
  - rewrite mget_poke_ne by lia. rewrite Z.add_0_r, mget_mput_eq. by apply u8_small.
  - replace (a + Z.of_nat (S i)) with (a + 1 + Z.of_nat i) by lia. by apply IH.
Qed.

Lemma buffer_cstring buf t m :
  line_ok t -> buf_repr buf t -> (forall i, 0 <= i < 100 -> mget m i = mget buf i) -> cstring m 0 (ln_text t).
Proof.
  intros (Hlen & _ & Hch) Hb Hm. split; [|split].
  - eapply Forall_impl; [exact Hch|]. unfold byte_ok. cbn; intros; lia.
  - intros i b Hi. pose proof (lookup_lt_Some _ _ _ Hi). rewrite Z.add_0_l, Hm, Hb, Hi by lia. done.
  - rewrite Z.add_0_l, Hm, Hb, lookup_ge_None_2 by lia. done.
Qed.

(** A command name. *)
Definition cmd_ok (cmd : string) : bool := forallb (fun c => (0 <? c) && (c <? 256)) (text cmd).

Lemma buffer_is_run buf t cmd s :
  line_ok t -> buf_repr buf t -> cmd_ok cmd = true ->
  buffer_is buf cmd s = Done (bool_decide (ln_text t = text cmd), s).
Proof.
  intros Ht Hb Hcmd. unfold cmd_ok in Hcmd. rewrite forallb_forall in Hcmd.
  assert (Forall byte_ok (text cmd)) as Hby.
  { apply Forall_forall. intros c Hc%list_elem_of_In. specialize (Hcmd c Hc). unfold byte_ok. lia. }
  assert (cstring (poke buf 128 (literal cmd)) 128 (text cmd)) as H2.
  { unfold literal. split; [done|]. split.
    - intros i b Hi. pose proof (Forall_lookup_1 _ _ _ _ Hby Hi) as [? ?]. apply mget_poke_eq; [|lia]. by apply lookup_app_l_Some.
    - apply mget_poke_eq; [|lia]. by apply list_lookup_middle. }
  assert (cstring (poke buf 128 (literal cmd)) 0 (ln_text t)) as H1.
  { apply (buffer_cstring buf t); [done..|]. intros i Hi. apply mget_poke_ne. lia. }
  unfold buffer_is. rewrite (strcmp_spec_ok _ _ _ _ _ _ H1 H2) by (destruct Ht; lia).
  unfold mret, ST_ret. do 2 f_equal. pose proof (strcmp_spec_zero (ln_text t) (text cmd) (proj1 H1) Hby) as Hz.
  case_bool_decide; [apply Z.eqb_eq|apply Z.eqb_neq]; tauto.
Qed.

(** ** Nothing but the keyboard and the log changes *)

Definition polls (s s' : kstate) : Prop := exists k out, s' = polled s k out.
Abbreviation quiet := (steps polls).

Lemma polled_refl s : s = polled s (k_kbd s) [].
Proof. rewrite <- polled_kbd. by destruct s. Qed.
#[export] Instance polls_preorder : PreOrder polls.
Proof.
  split.
  - intros s. exists (k_kbd s), []. apply polled_refl.
  - intros s1 s2 s3 (k1 & o1 & ->) (k2 & o2 & ->). exists k2, (o1 ++ o2). apply polled_polled.
Qed.
Lemma quiet_log out : quiet (modify (fun s => set_klog (k_log s ++ out) s)).
Proof. intros s b s' [= <- <-]. exists (k_kbd s), out. by destruct s. Qed.
Lemma quiet_kbd (f : kstate -> keyboard) : quiet (modify (fun s => set_kkbd (f s) s)).
Proof. intros s b s' [= <- <-]. exists (f s), []. apply polled_kbd. Qed.
#[export] Hint Resolve quiet_log quiet_kbd : steps.
Lemma quiet_klog c f a : quiet (klog c f a).
Proof. apply quiet_log. Qed.
Lemma quiet_klog_raw f a : quiet (klog_raw f a).
Proof. apply quiet_log. Qed.
Lemma quiet_write c : quiet (kwrite_char c).
Proof. apply quiet_log. Qed.
#[export] Hint Resolve quiet_klog quiet_klog_raw quiet_write : steps.

Lemma quiet_receive c : quiet (ps2_on_interrupt c).
Proof. unfold ps2_on_interrupt, recieve_scancode, set_queue. steps. Qed.
Lemma quiet_getchar : quiet getchar_async.
Proof.
  unfold getchar_async. apply steps_bind; [exact _|apply steps_gets, _|]. intros k. induction (getchar_fuel k) as [|n IH]; cbn [getchar_loop]; [steps|].
  unfold read_scancode, queue_empty, scancode_queue_pop, queue_empty, set_queue, set_shift. steps.
Qed.
#[export] Hint Resolve quiet_receive quiet_getchar : steps.

Lemma quiet_input arrivals buf i : quiet (input_loop arrivals buf i).
Proof.
  revert buf i. induction arrivals as [|c ar IH]; intros buf i; cbn [input_loop]; unfold buffer_store; steps.
Qed.
Lemma quiet_buffer_is buf cmd : quiet (buffer_is buf cmd).
Proof. unfold buffer_is. destruct (strcmp _ _ _ _); steps. Qed.
Lemma quiet_count l a b : quiet (count_pages l a b).
Proof.
  revert a b. induction l as [|i l IH]; intros a b; cbn [count_pages]; [steps|].
  unfold pmm_test, bitmap_test, bitset_test. steps.
Qed.
#[export] Hint Resolve quiet_input quiet_buffer_is quiet_count : steps.

Lemma quiet_commands : Forall (fun c => quiet c.2) commands.
Proof.
  unfold commands. repeat (apply Forall_cons_2; [cbn [snd]|]); [| | | | |apply Forall_nil_2].
  - unfold debug_print_free_memory. steps.
  - unfold debug_print_free_pages. steps.
  - unfold drivers_count. steps.
  - unfold drivers_list. apply steps_bind; [exact _|apply steps_gets, _|]. intros l. steps. generalize (S (Z.to_nat (m_size l))), (list_begin l).
    induction n as [|n IH]; intros z; cbn [list_drivers]; steps.
  - unfold debug_threads. apply steps_bind; [exact _|apply steps_gets, _|]. intros l. steps; generalize (S (Z.to_nat (m_size l))), (list_begin l).
    + generalize 0. intros z n. revert z. induction n as [|n IH]; intros z z'; cbn [count_schedulable]; unfold non_null; steps.
    + induction n as [|n IH]; intros z; cbn [print_threads]; unfold non_null; steps.
Qed.

Lemma quiet_find buf l : quiet (find_command buf l).
Proof. induction l as [|[cmd fn] l IH]; cbn [find_command]; steps. Qed.
Lemma find_command_in buf l s fn s' : find_command buf l s = Done (Some fn, s') -> exists cmd, (cmd, fn) ∈ l.
Proof.
  revert s. induction l as [|[cmd g] l IH]; intros s; cbn [find_command]; [done|].
  intros (e & s1 & _ & H)%bind_done_inv. destruct e; [injection H as -> _; exists cmd; left|].
  destruct (IH _ H) as [c Hc]. exists c. by right.
Qed.

Lemma quiet_run buf : quiet (run_command buf).
Proof.
  unfold run_command. apply steps_bind; [exact _|auto with steps|]. intros h. apply steps_if; [unfold help; steps|]. intros s a' s' (f & s1 & H1 & H2)%bind_done_inv.
  destruct (quiet_find _ _ _ _ _ H1) as (k1 & o1 & E1).
  assert (quiet match f with Some fn => fn | None => invalid_command buf end) as Hq.
  { destruct f as [fn|]; [|apply quiet_log]. destruct (find_command_in _ _ _ _ _ H1) as [cmd Hin].
    pose proof quiet_commands as Hc. rewrite Forall_forall in Hc. exact (Hc _ Hin). }
  destruct (Hq _ _ _ H2) as (k2 & o2 & ->). subst. exists k2, (o1 ++ o2). apply polled_polled.
Qed.

Lemma enter_loop_quiet frame fuel was arrivals s r s' :
  enter_loop frame fuel was arrivals s = Done (r, s') ->
  exists k out, s' = polled (if was then set_ksched (set_enabled true (k_sched s)) s else s) k out.
Proof.
  revert arrivals s. induction fuel as [|fuel IH]; intros arrivals s; cbn [enter_loop]; [done|].
  intros (u & s1 & H1 & (r1 & s2 & H2 & (e & s3 & H3 & H)%bind_done_inv)%bind_done_inv)%bind_done_inv.
  destruct (quiet_log _ _ _ _ H1) as (k1 & o1 & ->). destruct (quiet_input _ _ _ _ _ _ H2) as (k2 & o2 & ->).
  destruct (quiet_buffer_is _ _ _ _ _ H3) as (k3 & o3 & ->). rewrite !polled_polled in H. destruct e.
  - destruct was; injection H as <- <-; exists k3, (o1 ++ o2 ++ o3); rewrite ?app_assoc; by destruct s.
  - apply bind_done_inv in H as (u' & s4 & H4 & H5). destruct (quiet_run _ _ _ _ H4) as (k4 & o4 & ->).
    rewrite polled_polled in H5. destruct (IH _ _ H5) as (k5 & o5 & ->).
    exists k5, (((o1 ++ o2) ++ o3) ++ o4 ++ o5). destruct was, s; unfold polled; cbn; by rewrite ?app_assoc.
Qed.

(** ** The dispatch *)

(** The command a line names. *)
Definition command_of (txt : list Z) : option (ST kstate unit) :=
  (fun p => p.2.2) <$> list_find (fun c => txt = text c.1) commands.

Lemma find_command_run buf t s :
  line_ok t -> buf_repr buf t -> find_command buf commands s = Done (command_of (ln_text t), s).
Proof.
  intros Ht Hb. unfold command_of. assert (Forall (fun c => cmd_ok c.1 = true) commands) as Hc by (repeat constructor).
  induction commands as [|[cmd fn] l IH]; [done|]. apply Forall_cons in Hc as [Hc Hl].
  cbn [find_command list_find]. rewrite (bind_done _ _ _ _ _ (buffer_is_run buf t cmd s Ht Hb Hc)). cbn [fst].
  case_bool_decide as E; [by rewrite decide_True|]. rewrite decide_False by done. rewrite (IH Hl).
  by destruct (list_find _ l) as [[i x]|].
Qed.

Lemma c_string_run m p l n : cstring m p l -> (length l < n)%nat -> c_string n m p = l.
Proof.
  revert p l. induction n as [|n IH]; intros p l Hl Hn; [lia|]. cbn [c_string]. destruct l as [|b l].
  - by rewrite (cstring_nil _ _ Hl).
  - apply cstring_tail in Hl as (-> & [Hb _] & Hl). assert ((b =? 0) = false) as -> by lia.
    f_equal. apply IH; [done|]. simpl in Hn. lia.
Qed.

(** What a line other than ["exit"] runs. *)
Definition line_action (txt : list Z) : ST kstate unit :=
  if bool_decide (txt = text "help") then help
  else match command_of txt with
       | Some fn => fn
       | None => klog "debug" (String.append "Invalid command " (chars_string [34; 37; 115; 34])) [KStr (chars_string txt)]
       end.

Lemma run_command_run buf t s : line_ok t -> buf_repr buf t -> run_command buf s = line_action (ln_text t) s.
Proof.
  intros Ht Hb. unfold run_command, line_action.
  rewrite (bind_done _ _ _ _ _ (buffer_is_run buf t "help" s Ht Hb eq_refl)). case_bool_decide; [done|].
  rewrite (bind_done _ _ _ _ _ (find_command_run buf t s Ht Hb)). destruct (command_of _); [done|].
  unfold invalid_command. rewrite (c_string_run buf 0 (ln_text t)); [done| |destruct Ht; lia].
  by apply (buffer_cstring buf t).
Qed.

(** One line of the session. *)
Lemma enter_loop_step frame fuel was arrivals s q shift cs rest q' shift' :
  holds s q shift -> Forall (Forall byte_char) arrivals -> poll_line arrivals q shift = Some (cs, rest, q', shift') ->
  exists k, kbd_repr k q' /\ mod_shift_set k = shift' /\
    let s1 := polled s k (KLogRaw "  debug => " [] :: (KWriteChar <$> cs) ++ [KWriteChar 10]) in
    enter_loop frame (S fuel) was arrivals s =
      (if bool_decide (ln_text (edited cs) = text "exit") then when was EnableScheduling ;; mret rest
       else line_action (ln_text (edited cs)) ;; enter_loop frame fuel was rest) s1.
Proof.
  intros Hh Ha Hp. set (s0 := set_klog (k_log s ++ [KLogRaw "  debug => " []]) s).
  destruct (input_loop_run arrivals s0 q shift (memset frame 0 0 100) (Line [] false) cs rest q' shift' Hh Ha) as (buf & k & H & Hk1 & Hk2 & Ht & Hb).
  - split; [cbn; lia|]. split; [done|apply Forall_nil_2].
  - apply (cleared_buffer frame).
  - exact Hp.
  - exists k. split; [done|]. split; [done|]. intros s1. cbn [enter_loop]. rewrite klog_raw_bind. fold s0.
    change (index_of (Line [] false)) with 0 in H. rewrite (bind_done _ _ _ _ _ H). cbn [fst snd].
    assert (polled s0 k ((KWriteChar <$> cs) ++ [KWriteChar 10]) = s1) as ->.
    { unfold s0, s1, polled. destruct s. cbn. by rewrite <- app_assoc. }
    rewrite (bind_done _ _ _ _ _ (buffer_is_run buf _ "exit" s1 Ht Hb eq_refl)).
    change (foldl press (Line [] false) cs) with (edited cs) in *. case_bool_decide; [done|].
    unfold mbind, ST_bind. by rewrite (run_command_run buf (edited cs) s1 Ht Hb).
Qed.

(** ** The lists *)

Definition thread_row (m : mem) (t : Z) : klog_call :=
  KLogCall "sched" "| %7d | %7d | %-20s | %7s |"
    [KNum (tcb_taskID m t); KNum (threadID m t); KNum (threadName m t); KStr (state_name (tcb_state m t))].

(** The first node of a chain: neither it nor its value is null. *)
Ltac visit_node Hc Hn Hv :=
  let Hnv := fresh "Hnv" in let Hn0 := fresh "Hn0" in let Hv0 := fresh "Hv0" in
  destruct Hc as (-> & Hnv & Hc); apply Forall_cons in Hn as [Hn0 Hn]; apply Forall_cons in Hv as [Hv0 Hv];
  apply Z.eqb_neq in Hn0 as En; apply Z.eqb_neq in Hv0 as Ev; unfold itr_ne, list_end; rewrite En; cbn [negb]; rewrite gets_bind, Hnv.

(** A loop over a list visits its values in order. *)
Lemma print_threads_run fuel node nodes vals s :
  chain (k_mem s) node nodes vals -> Forall (fun n => n <> 0) nodes -> Forall (fun v => v <> 0) vals ->
  (length nodes < fuel)%nat ->
  print_threads fuel node s = Done (tt, set_klog (k_log s ++ (thread_row (k_mem s) <$> vals)) s).
Proof.
  revert node vals s fuel. induction nodes as [|n nodes IH]; intros node [|v vals] s [|fuel] Hc Hn Hv Hf; try (by destruct Hc) || lia.
  - cbn in Hc |- *. subst. cbn [Z.eqb]. rewrite app_nil_r. by destruct s.
  - cbn [print_threads]. visit_node Hc Hn Hv. unfold non_null. rewrite Ev.
    rewrite (bind_done (when false _) _ s tt s), klog_bind by done. fold (thread_row (k_mem s) v).
    unfold itr_next. rewrite En.
    rewrite (IH _ vals (set_klog _ s) fuel Hc Hn Hv) by (simpl in Hf; lia). cbn. rewrite <- app_assoc. by destruct s.
Qed.

Definition num_schedulable (m : mem) (l : list Z) : Z :=
  Z.of_nat (length (filter (fun t => schedulable (tcb_state m t) = true) l)).

Lemma count_schedulable_run fuel node nodes vals s c :
  chain (k_mem s) node nodes vals -> Forall (fun n => n <> 0) nodes -> Forall (fun v => v <> 0) vals ->
  (length nodes < fuel)%nat ->
  count_schedulable fuel node c s = Done (c + num_schedulable (k_mem s) vals, s).
Proof.
  revert node vals c fuel. induction nodes as [|n nodes IH]; intros node [|v vals] c [|fuel] Hc Hn Hv Hf; try (by destruct Hc) || lia.
  - cbn in Hc |- *. subst. by rewrite Z.add_0_r.
  - cbn [count_schedulable]. visit_node Hc Hn Hv. unfold non_null. rewrite Ev.
    rewrite (bind_done (when false _) _ s tt s) by done.
    unfold itr_next. rewrite En.
    rewrite (IH _ vals _ fuel Hc Hn Hv) by (simpl in Hf; lia). unfold num_schedulable. rewrite filter_cons.
    destruct (schedulable (tcb_state (k_mem s) v)); [rewrite decide_True by done|by rewrite decide_False by done].
    cbn [length]. rewrite Nat2Z.inj_succ. do 2 f_equal. lia.
Qed.

Definition driver_name (m : mem) (d : Z) : klog_call := KLogRaw "%s " [KNum (m_name m d)].
Lemma list_drivers_run fuel node nodes vals s :
  chain (k_mem s) node nodes vals -> Forall (fun n => n <> 0) nodes -> Forall (fun v => v <> 0) vals ->
  (length nodes < fuel)%nat ->
  list_drivers fuel node s = Done (tt, set_klog (k_log s ++ (driver_name (k_mem s) <$> vals)) s).
Proof.
  revert node vals s fuel. induction nodes as [|n nodes IH]; intros node [|v vals] s [|fuel] Hc Hn Hv Hf; try (by destruct Hc) || lia.
  - cbn in Hc |- *. subst. cbn [Z.eqb]. rewrite app_nil_r. by destruct s.
  - cbn [list_drivers]. visit_node Hc Hn Hv. rewrite Ev.
    rewrite assert_bind, klog_raw_bind by done. fold (driver_name (k_mem s) v).
    unfold itr_next. rewrite En.
    rewrite (IH _ vals (set_klog _ s) fuel Hc Hn Hv) by (simpl in Hf; lia). cbn. rewrite <- app_assoc. by destruct s.
Qed.

Lemma repr_chain s l nodes vals :
  list_repr s l nodes vals -> chain (k_mem s) (m_head l) nodes vals /\ Forall (fun n => n <> 0) nodes /\
    (length nodes < S (Z.to_nat (m_size l)))%nat /\ m_size l = Z.of_nat (length vals).
Proof.
  intros [Hc _ [Hs _] [Ha _ _]]. split; [done|]. split; [|split].
  - apply Forall_forall. intros n Hn. destruct (Ha n Hn). unfold KERNEL_VMB in *. lia.
  - lia.
  - by rewrite <- (chain_length _ _ _ _ Hc).
Qed.

(** ** Sessions *)

Definition session_start (s : kstate) : kstate :=
  set_klog (k_log s ++ [KLogCall "debug" "Entered kernel debugger!" []]) (set_ksched (set_enabled false (k_sched s)) s).

Lemma enter_step frame arrivals s q shift cs rest q' shift' :
  holds s q shift -> Forall (Forall byte_char) arrivals -> poll_line arrivals q shift = Some (cs, rest, q', shift') ->
  exists k, kbd_repr k q' /\ mod_shift_set k = shift' /\
    let s1 := polled (session_start s) k (KLogRaw "  debug => " [] :: (KWriteChar <$> cs) ++ [KWriteChar 10]) in
    enter frame arrivals s =
      (if bool_decide (ln_text (edited cs) = text "exit")
       then when (schedulingEnabled (k_sched s)) EnableScheduling ;; mret rest
       else line_action (ln_text (edited cs)) ;;
            enter_loop frame (length arrivals) (schedulingEnabled (k_sched s)) rest) s1.
Proof.
  intros Hh Ha Hp.
  destruct (enter_loop_step frame (length arrivals) (schedulingEnabled (k_sched s)) arrivals (session_start s) q shift cs rest q' shift' Hh Ha Hp)
    as (k & H1 & H2 & H). exists k. split; [done|]. split; [done|]. exact H.
Qed.

Lemma enter_quiet frame arrivals s r s' :
  enter frame arrivals s = Done (r, s') -> exists k out, s' = polled s k out.
Proof.
  intros H. change (enter frame arrivals s) with
    (enter_loop frame (S (length arrivals)) (schedulingEnabled (k_sched s)) arrivals (session_start s)) in H.
  apply enter_loop_quiet in H as (k & out & ->). exists k, (KLogCall "debug" "Entered kernel debugger!" [] :: out).
  destruct s as [? ? ? ? sc ? ? ? ? lg], sc as [e]. unfold polled, session_start. destruct e; cbn; by rewrite <- app_assoc.
Qed.

Lemma edited_snoc cs c : edited (cs ++ [c]) = press (edited cs) c.
Proof. unfold edited. by rewrite foldl_app. Qed.

Lemma edited_plain cs : Forall (fun c => c <> 8) cs -> (length cs <= 99)%nat -> edited cs = Line cs false.
Proof.
  induction cs as [|c cs IH] using rev_ind; intros H8 Hlen; [done|]. rewrite edited_snoc.
  apply Forall_app in H8 as [H8 Hc%Forall_cons_1]. rewrite length_app in Hlen. cbn [length] in Hlen.
  rewrite IH by (done || lia). unfold press. cbn [ln_text ln_back orb]. destruct Hc as [Hc _].
  assert ((c =? 8) = false) as -> by lia. by assert ((length cs =? 99)%nat = false) as -> by (apply Nat.eqb_neq; lia).
Qed.

(** ** Theorems *)

(** C16. The line editor: what is polled up to the newline is echoed, and the buffer
    then holds, as a C string within its 100 bytes, the text the keys of the
    line edit; without backspaces and up to 99 characters that is what was
    typed. *)
Theorem debugger_line_editor (frame : mem) (arrivals : list (list Z)) (s : kstate) (q : list Z) (shift : bool)
    (cs : list Z) (rest : list (list Z)) (q' : list Z) (shift' : bool)
    (Hs : holds s q shift) (Ha : Forall (Forall byte_char) arrivals)
    (Hp : poll_line arrivals q shift = Some (cs, rest, q', shift')) :
  exists buf k, input_loop arrivals (memset frame 0 0 100) 0 s =
      Done ((buf, rest), polled s k ((KWriteChar <$> cs) ++ [KWriteChar 10])) /\
    kbd_repr k q' /\ mod_shift_set k = shift' /\
    cstring buf 0 (ln_text (edited cs)) /\ (length (ln_text (edited cs)) <= 99)%nat /\
    (Forall (fun c => c <> 8) cs -> (length cs <= 99)%nat -> ln_text (edited cs) = cs).
Proof.
  destruct (input_loop_run arrivals s q shift (memset frame 0 0 100) (Line [] false) cs rest q' shift' Hs Ha)
    as (buf & k & H & Hk1 & Hk2 & Ht & Hb); [by split; [cbn; lia|split; [|apply Forall_nil_2]]|apply cleared_buffer|done|].
  change (foldl press (Line [] false) cs) with (edited cs) in *.
  exists buf, k. split; [exact H|]. split; [done|]. split; [done|]. split; [by apply (buffer_cstring buf (edited cs))|].
  split; [apply Ht|]. intros H8 Hlen. by rewrite edited_plain.
Qed.

(** "ab", as presses and releases that arrive one key per poll. *)
Lemma debugger_line_editor_witness :
  exists buf k, input_loop (type_char <$> [97; 98; 10]) (memset ∅ 0 0 100) 0 sample_keys =
    Done ((buf, []), polled sample_keys k [KWriteChar 97; KWriteChar 98; KWriteChar 10]) /\ cstring buf 0 [97; 98].
Proof.
  destruct (debugger_line_editor ∅ (type_char <$> [97; 98; 10]) sample_keys [] false [97; 98] [] [156] false)
    as (buf & k & H & _ & _ & Hc & _).
  - exact sample_keys_empty.
  - repeat constructor; vm_compute; discriminate.
  - vm_compute. reflexivity.
  - exists buf, k. split; [exact H|exact Hc].
Defined.

(** The first backspace after a character erases nothing: the line the debugger
    sees is the one without the backspace, whatever was typed before. *)
Theorem debugger_backspace_keeps (frame : mem) (arrivals : list (list Z)) (s : kstate) (q : list Z) (shift : bool)
    (cs : list Z) (c : Z) (rest : list (list Z)) (q' : list Z) (shift' : bool)
    (Hs : holds s q shift) (Ha : Forall (Forall byte_char) arrivals) (Hc : c <> 8)
    (Hp : poll_line arrivals q shift = Some (cs ++ [c; 8], rest, q', shift')) :
  exists buf s', input_loop arrivals (memset frame 0 0 100) 0 s = Done ((buf, rest), s') /\
    cstring buf 0 (ln_text (edited (cs ++ [c]))).
Proof.
  destruct (input_loop_run arrivals s q shift (memset frame 0 0 100) (Line [] false) (cs ++ [c; 8]) rest q' shift' Hs Ha)
    as (buf & k & H & _ & _ & Ht & Hb); [by split; [cbn; lia|split; [|apply Forall_nil_2]]|apply cleared_buffer|done|].
  change (foldl press (Line [] false) (cs ++ [c; 8])) with (edited (cs ++ [c; 8])) in *.
  do 2 eexists. split; [exact H|]. assert (ln_text (edited (cs ++ [c; 8])) = ln_text (edited (cs ++ [c]))) as <-.
  { replace (cs ++ [c; 8]) with ((cs ++ [c]) ++ [8]) by (by rewrite <- app_assoc). rewrite (edited_snoc _ 8), edited_snoc.
    unfold press at 2 3. by assert ((c =? 8) = false) as -> by lia. }
  by apply (buffer_cstring buf (edited (cs ++ [c; 8]))).
Qed.

(** "ab", backspace. *)
Lemma debugger_backspace_keeps_witness :
  exists buf s', input_loop (type_char <$> [97; 98; 8; 10]) (memset ∅ 0 0 100) 0 sample_keys = Done ((buf, []), s') /\
    cstring buf 0 [97; 98].
Proof.
  refine (debugger_backspace_keeps ∅ (type_char <$> [97; 98; 8; 10]) sample_keys [] false [97] 98 [] [156] false _ _ _ _).
  - exact sample_keys_empty.
  - repeat constructor; vm_compute; discriminate.
  - discriminate.
  - vm_compute. reflexivity.
Defined.

(** C20. The commands: in a session, a first line ["exit"] leaves the debugger with
    scheduling as it was on entry; every other line, with scheduling off, runs
    the command it names (or help, or the error message), and the session goes
    on with the lines that follow. *)
Theorem debugger_dispatch (frame : mem) (arrivals : list (list Z)) (s : kstate) (q : list Z) (shift : bool)
    (cs : list Z) (rest : list (list Z)) (q' : list Z) (shift' : bool)
    (Hs : holds s q shift) (Ha : Forall (Forall byte_char) arrivals)
    (Hp : poll_line arrivals q shift = Some (cs, rest, q', shift')) :
  exists s1 k out, holds s1 q' shift' /\ schedulingEnabled (k_sched s1) = false /\
    k_log s1 = k_log s ++ out /\
    (ln_text (edited cs) = text "exit" -> enter frame arrivals s = Done (rest, polled s k out)) /\
    (ln_text (edited cs) <> text "exit" ->
       enter frame arrivals s =
         (line_action (ln_text (edited cs)) ;;
          enter_loop frame (length arrivals) (schedulingEnabled (k_sched s)) rest) s1).
Proof.
  destruct (enter_step frame arrivals s q shift cs rest q' shift' Hs Ha Hp) as (k & Hk1 & Hk2 & H). cbv zeta in H.
  match type of H with _ = _ ?t => set (s1 := t) in * end.
  eexists s1, k, ([KLogCall "debug" "Entered kernel debugger!" []] ++ KLogRaw "  debug => " [] :: (KWriteChar <$> cs) ++ [KWriteChar 10]).
  split; [done|]. split; [done|]. split; [|split].
  - unfold s1, polled, session_start. cbn [k_log set_klog set_kkbd]. by rewrite app_assoc.
  - intros He. rewrite bool_decide_true in H by done. rewrite H. unfold s1, polled, session_start.
    destruct s as [? ? ? ? sc ? ? ? ? lg], sc as [e]. destruct e; cbn; by rewrite <- app_assoc.
  - intros He. by rewrite bool_decide_false in H.
Qed.

(** "exit" *)
Lemma debugger_dispatch_witness :
  exists k out, enter ∅ (type_char <$> [101; 120; 105; 116; 10]) sample_keys = Done ([], polled sample_keys k out).
Proof.
  destruct (debugger_dispatch ∅ (type_char <$> [101; 120; 105; 116; 10]) sample_keys [] false [101; 120; 105; 116] [] [156] false)
    as (s1 & k & out & _ & _ & _ & H & _).
  - exact sample_keys_empty.
  - repeat constructor; vm_compute; discriminate.
  - vm_compute. reflexivity.
  - exists k, out. apply H. vm_compute. reflexivity.
Defined.

(** C15. The debugger only looks: when it returns, nothing but the keyboard's queue
    and the log has changed, whatever was typed in the session. *)
Theorem debugger_transparent (frame : mem) (arrivals : list (list Z)) (s s' : kstate) (rest : list (list Z))
    (Hrun : enter frame arrivals s = Done (rest, s')) :
  k_mem s' = k_mem s /\ k_heap s' = k_heap s /\ k_pmm s' = k_pmm s /\ k_vmm s' = k_vmm s /\
  k_sched s' = k_sched s /\ k_drivers s' = k_drivers s /\ k_cpu s' = k_cpu s /\ k_out s' = k_out s /\
  exists out, k_log s' = k_log s ++ out.
Proof.
  destruct (enter_quiet frame arrivals s rest s' Hrun) as (k & out & ->). repeat (split; [done|]). by exists out.
Qed.

Lemma debugger_transparent_witness :
  exists s', enter ∅ (type_char <$> [101; 120; 105; 116; 10]) sample_keys = Done ([], s') /\ k_mem s' = ∅.
Proof.
  destruct (enter_step ∅ (type_char <$> [101; 120; 105; 116; 10]) sample_keys [] false [101; 120; 105; 116] [] [156] false)
    as (k & _ & _ & H).
  - exact sample_keys_empty.
  - repeat constructor; vm_compute; discriminate.
  - vm_compute. reflexivity.
  - cbv zeta in H. rewrite bool_decide_true in H by (vm_compute; reflexivity). eexists. split; [exact H|].
    exact (proj1 (debugger_transparent _ _ _ _ _ H)).
Defined.

(** The two listings: "threads" prints the number of threads and of those that
    are ready or running, then a row per thread in the order of the list;
    "drivers/list" prints the name of every driver in the order they were
    added. *)
Theorem debugger_listings (s : kstate) (nodes vals : list Z) (dnodes drvs : list Z)
    (Ht : list_repr s (threads (k_sched s)) nodes vals) (Hv : Forall (fun v => v <> 0) vals)
    (Hd : list_repr s (k_drivers s) dnodes drvs) (Hw : Forall (fun v => v <> 0) drvs) :
  debug_threads s = Done (tt, set_klog (k_log s ++
    [KLogCall "sched" "%d threads, %d schedulable" [KNum (Z.of_nat (length vals)); KNum (num_schedulable (k_mem s) vals)];
     KLogCall "sched" "| %7s | %7s | %-20s | %7s |" [KStr "Task ID"; KStr "TID"; KStr "Thread Name"; KStr "State"]] ++
    (thread_row (k_mem s) <$> vals)) s) /\
  drivers_list s = Done (tt, set_klog (k_log s ++ (driver_name (k_mem s) <$> drvs) ++ [KLogRaw "
" []]) s) /\
  drivers_count s = Done (tt, set_klog (k_log s ++ [KLogCall "drvreg" "%d Drivers loaded" [KNum (Z.of_nat (length drvs))]]) s).
Proof.
  destruct (repr_chain _ _ _ _ Ht) as (Hc & Hn & Hl & Hs). destruct (repr_chain _ _ _ _ Hd) as (Dc & Dn & Dl & Ds).
  split; [|split].
  - unfold debug_threads. rewrite gets_bind. rewrite (bind_done _ _ _ _ _ (count_schedulable_run _ _ nodes vals s 0 Hc Hn Hv Hl)).
    rewrite !klog_bind. unfold list_size. rewrite Hs, Z.add_0_l, <- Hs.
    match goal with |- print_threads _ _ ?t = _ => rewrite (print_threads_run _ _ nodes vals t) by done end.
    destruct s; cbn; by rewrite <- !app_assoc.
  - unfold drivers_list. rewrite gets_bind, (bind_done _ _ _ _ _ (list_drivers_run _ _ dnodes drvs s Dc Dn Hw Dl)).
    destruct s; cbn; unfold klog_raw, modify; cbn. by rewrite <- app_assoc.
  - unfold drivers_count, list_size. rewrite gets_bind, Ds. done.
Qed.

(** A list of one thread, a waiting one. *)
Definition one_thread : kstate :=
  let node := KERNEL_VMB + 4096 in let tcb := KERNEL_VMB + 8192 in
  set_ksched (set_threads (SList node node 1) sample_sched)
    (sample_kstate (store32 (store64 ∅ node tcb) (tcb + 8) 2) (KHeap (KERNEL_VMB + 12288) (KERNEL_VMB + 65536) EarlyBoot) no_pmm).

Lemma one_thread_repr : list_repr one_thread (threads (k_sched one_thread)) [KERNEL_VMB + 4096] [KERNEL_VMB + 8192].
Proof.
  split.
  - split; [done|]. split; vm_compute; reflexivity.
  - rewrite decide_False by done. done.
  - split; [done|]. vm_compute. discriminate.
  - split.
    + intros n ->%list_elem_of_singleton. split; vm_compute; (discriminate || reflexivity).
    + intros n a ->%list_elem_of_singleton Hb. unfold node_byte, NODE_SIZE in Hb. split.
      * change (a < KERNEL_VMB + 12288). lia.
      * change (~ (0 <= a < 1)). unfold KERNEL_VMB in Hb. lia.
    + intros i j n n' Hi%list_lookup_singleton_Some Hj%list_lookup_singleton_Some. lia.
Qed.

Lemma debugger_listings_witness :
  debug_threads one_thread = Done (tt, set_klog [
    KLogCall "sched" "%d threads, %d schedulable" [KNum 1; KNum 0];
    KLogCall "sched" "| %7s | %7s | %-20s | %7s |" [KStr "Task ID"; KStr "TID"; KStr "Thread Name"; KStr "State"];
    KLogCall "sched" "| %7d | %7d | %-20s | %7s |" [KNum 0; KNum 0; KNum 0; KStr "Waiting"]] one_thread).
Proof.
  refine (proj1 (debugger_listings one_thread [KERNEL_VMB + 4096] [KERNEL_VMB + 8192] [] [] _ _ _ _)).
  - exact one_thread_repr.
  - repeat constructor. discriminate.
  - apply empty_repr. split; [done|vm_compute; split; discriminate|reflexivity|discriminate].
  - constructor.
Defined.
