(* ===== verification/Interrupts.v ===== *)
(** Interrupts: the descriptor table and the handlers of
    src/src/lobo/arch/x86_64/interrupts.cpp, and the entry and exit code of
    interrupt_asm.s around them.  The table, the saved registers and the frame
    the processor pushes are in kernel memory. *)

From S2P Require Import Prelude Memory Lobo KernelBitset KernelHeap KernelList Scheduler Keyboard.
Local Open Scope Z_scope.
Local Open Scope mach_scope.

(** ** The descriptor table *)

(** interrupts.h *)
Record idt_table_entry := IDTEntry {
  offset_low : Z;
  cs_selector : Z;
  ist : Z;
  attributes : Z;
  offset_mid : Z;
  offset_hi : Z;
  zero_2 : Z;
}.
Definition IDT_ENTRY_SIZE : Z := 16.

Definition idt_populate_entry (entry cs_selector attributes : Z) : idt_table_entry :=
  IDTEntry (u16 (Z.land entry 65535)) cs_selector 0 attributes
    (u16 (Z.shiftr (Z.land entry 4294901760) 16))
    (u32 (Z.shiftr (Z.land entry 18446744069414584320) 32)) 0.

(** The packed structure at its address. *)
Definition store_entry (m : mem) (a : Z) (e : idt_table_entry) : mem :=
  let m := store 2 m a (offset_low e) in
  let m := store 2 m (a + 2) (cs_selector e) in
  let m := mput m (a + 4) (ist e) in
  let m := mput m (a + 5) (attributes e) in
  let m := store 2 m (a + 6) (offset_mid e) in
  let m := store32 m (a + 8) (offset_hi e) in
  store32 m (a + 12) (zero_2 e).

(** ** interrupts.cpp *)

Definition exception_strings : list string :=
  ["Divide By Zero"; "Debug"; "NMI"; "Breakpoint"; "Overflow"; "Bound Range Exceeded";
   "Invalid Opcode"; "Device Not Avalable"; "Double Falt"; "Coprocessor Segment Overrun";
   "Invalid TSS"; "Segment Not Present"; "Stack-Segment Fault"; "General Protection Fault";
   "Page Fault"; "Reserved"; "x87 Floating-Point Exception"; "Alignment Check"; "Machine Check";
   "SIMD Floating-Point Exception"; "Virtualization Exception"; "Reserved"; "Reserved"; "Reserved";
   "Reserved"; "Reserved"; "Reserved"; "Reserved"; "Reserved"; "Security Exception"; "Reserved"].

(** [InterruptContext]: fifteen registers, [r15] first; what the stub pushed;
    what the processor pushed. *)
Definition ctx_reg (m : mem) (r : Z) (i : Z) : Z := load64 m (r + 8 * i).
Definition ctx_int_no (m : mem) (r : Z) : Z := ctx_reg m r 15.
Definition ctx_err_code (m : mem) (r : Z) : Z := ctx_reg m r 16.
Definition ctx_rip (m : mem) (r : Z) : Z := ctx_reg m r 17.
Definition ctx_userrsp (m : mem) (r : Z) : Z := ctx_reg m r 20.

(** [exception_strings[int_no]], an access out of range for 31. *)
Definition exception_name (int_no : Z) : ST kstate string :=
  match exception_strings !! Z.to_nat int_no with
  | Some n => mret n
  | None => stop_with (Fault "exception_strings[int_no]")
  end.

Definition HaltCPU : ST kstate unit := cli ;; stop_with Halted.

(** The report of an exception; [cr2] is the register's value. *)
Definition fault_report (cr2 r : Z) : ST kstate unit :=
  m ← gets k_mem;
  let int_no := ctx_int_no m r in
  let reg i := KNum (ctx_reg m r i) in
  klog_raw "%35sException
" [KStr ""] ;;
  name ← exception_name int_no;
  klog "fault" "%s (int %d), Error Code: 0x%08x" [KStr name; KNum int_no; KNum (u32 (ctx_err_code m r))] ;;
  klog "fault" "RBP:0x%016p RSP:0x%016p RIP:0x%016p" [reg 10; KNum (ctx_userrsp m r); KNum (ctx_rip m r)] ;;
  klog "fault" "RAX:0x%016p RBX:0x%016p RCX:0x%016p" [reg 14; reg 11; reg 13] ;;
  klog "fault" "RDX:0x%016p RDI:0x%016p RSI:0x%016p" [reg 12; reg 8; reg 9] ;;
  klog "fault" " R8:0x%016p  R9:0x%016p R10:0x%016p" [reg 7; reg 6; reg 5] ;;
  klog "fault" "R11:0x%016p R12:0x%016p R13:0x%016p" [reg 4; reg 3; reg 2] ;;
  klog "fault" "R14:0x%016p R15:0x%016p" [reg 1; reg 0] ;;
  when (int_no =? 14) (klog "fault" "Faulting address: 0x%016p
" [KNum cr2]).

Definition fault_handler (cr2 r : Z) : ST kstate unit :=
  m ← gets k_mem;
  klog "int" "Caught an interrupt! %d, error %p" [KNum (ctx_int_no m r); KNum (ctx_err_code m r)] ;;
  when (ctx_int_no m r <? 32) (fault_report cr2 r ;; HaltCPU).

(** End of interrupt, to the slave for its lines, and to the master. *)
Definition send_eoi (int_no : Z) : ST kstate unit :=
  when (40 <=? int_no) (outb 160 32) ;; outb 32 32.

(** [resume] is that of [SwitchThread]; [scan] is what port 0x60 gives. *)
Definition interrupt_handler (resume scan r : Z) : ST kstate unit :=
  m ← gets k_mem;
  let int_no := ctx_int_no m r in
  if int_no =? 32 then
    send_eoi int_no ;; sti ;; Schedule resume
  else
    (if int_no =? 33 then ps2_on_interrupt scan
     else klog "int" "Recieved IRQ %d, handled." [KNum (int_no -64 32)]) ;;
    send_eoi int_no.

(** The addresses of the stubs, of the table and of its pointer. *)
Section Table.
Context (isr irq : Z -> Z) (table_idt table_idt_ptr : Z).

Definition set_gate (v handler : Z) : ST kstate unit :=
  modify (fun s => set_kmem (store_entry (k_mem s) (table_idt + IDT_ENTRY_SIZE * v)
    (idt_populate_entry handler 8 142)) s).

Definition pic_remap : list (Z * Z) :=
  [(32, 17); (160, 17); (33, 32); (161, 40); (33, 4); (161, 2); (33, 1); (161, 1); (33, 0); (161, 0)].

(** [lidt]: the limit and the base in memory at [idtr]. *)
Definition interrupt_set_idt (idtr : Z) : ST kstate (Z * Z) :=
  m ← gets k_mem; mret (load16 m idtr, load64 m (idtr + 2)).

(** The result is what the processor has loaded. *)
Definition init_idt : ST kstate (Z * Z) :=
  klog "int" "Initialising interrupts" [] ;;
  modify (fun s => set_kmem (memset (k_mem s) table_idt 0 (IDT_ENTRY_SIZE * 256)) s) ;;
  forM pic_remap (fun o => outb o.1 o.2) ;;
  forM (seqZ 0 32) (fun i => set_gate i (isr i)) ;;
  forM (seqZ 0 16) (fun i => set_gate (32 + i) (irq i)) ;;
  modify (fun s => set_kmem (store64 (k_mem s) (table_idt_ptr + 2) table_idt) s) ;;
  modify (fun s => set_kmem (store 2 (k_mem s) table_idt_ptr (IDT_ENTRY_SIZE * 256 - 1)) s) ;;
  idtr ← interrupt_set_idt table_idt_ptr;
  sti ;;
  klog "int" "Interrupts enabled" [] ;;
  mret idtr.

End Table.

(** ** interrupt_asm.s *)

(** RFLAGS: bit 1 is always 1, bit 9 is the interrupt flag, the others are in
    [cpu_status]. *)
Definition flags_word (c : cpu_state) : Z :=
  Z.lor (Z.lor 2 (if cpu_if c then 512 else 0)) (cpu_status c).
Definition set_status (st : Z) : ST kstate unit :=
  modify (fun s => let c := k_cpu s in
    set_kcpu (Cpu (cpu_if c) st (cpu_cr3 c) (cpu_rsp c) (cpu_regs c) (cpu_rip c)) s).
Definition set_flags (w : Z) : ST kstate unit :=
  set_if (Z.testbit w 9) ;; set_status (Z.land w STATUS_FLAGS).

(** The frame the processor pushes on an interrupt in 64-bit mode, on the stack
    pointer rounded down to 16.  In the handler interrupts, the trap flag (bit
    8), nested tasks (14) and the resume flag (16) are off.  (For a fault it
    also sets the resume flag of the image, which nothing reads.) *)
Definition gate_status (st : Z) : Z := Z.land st (Z.lnot (256 + 16384 + 65536)).
Definition cpu_interrupt (ss cs : Z) : ST kstate unit :=
  c ← gets k_cpu;
  set_rsp (cpu_rsp c - cpu_rsp c mod 16) ;;
  forM [ss; cpu_rsp c; flags_word c; cs; cpu_rip c] push ;;
  set_if false ;; set_status (gate_status (cpu_status c)).

(** [iretq]. *)
Definition iretq : ST kstate unit :=
  rip ← pop; pop ;; flags ← pop; rsp ← pop; pop ;;
  set_flags flags ;; set_rsp rsp ;; set_rip rip.

(** The end of [irq_common]. *)
Definition irq_exit : ST kstate unit :=
  regs ← pops 15 [];
  set_cpu_regs regs ;;
  rsp ← gets (fun s => cpu_rsp (k_cpu s));
  set_rsp (rsp +64 16) ;;
  iretq.

(** [interrupt_saveregs], and the handler's argument: the stack pointer. *)
Definition common_entry : ST kstate Z :=
  regs ← gets (fun s => cpu_regs (k_cpu s));
  forM regs push ;;
  rsp ← gets (fun s => cpu_rsp (k_cpu s));
  set_cpu_regs (<[6%nat := rsp]> (<[4%nat := 0]> regs)) ;;
  mret rsp.

(** [interrupt_irqN] and [irq_common]: 176 bytes of stack for the processor's
    frame and the saved registers.  The handler's own C++ frames lie below. *)
Definition irq_stub (int_no : Z) (handler : Z -> ST kstate unit) : ST kstate unit :=
  forM [0; int_no] push ;;
  rsp ← common_entry;
  handler rsp ;;
  irq_exit.

(** The exceptions whose stub is an [isr_handler_error]. *)
Definition isr_error_code (int_no : Z) : bool :=
  bool_decide (int_no ∈ [8; 10; 11; 12; 13; 14; 17; 21; 30]).

(** [interrupt_isrN] and [isr_common]. *)
Definition isr_stub (int_no : Z) (handler : Z -> ST kstate unit) : ST kstate unit :=
  forM (if isr_error_code int_no then [int_no] else [0; int_no]) push ;;
  rsp ← common_entry;
  handler rsp ;;
  irq_exit.

(** An exception: an interrupt, and for some of them an error code. *)
Definition cpu_exception (ss cs : Z) (err : option Z) : ST kstate unit :=
  cpu_interrupt ss cs ;; forM (option_list err) push.

(** ** What the processor reads in the table *)

Record gate := Gate {
  g_offset : Z;
  g_selector : Z;
  g_ist : Z;
  g_type : Z;
  g_dpl : Z;
  g_present : bool;
}.
Definition read_gate (m : mem) (a : Z) : gate :=
  let attr := mget m (a + 5) in
  Gate (load16 m a + 65536 * load16 m (a + 6) + 4294967296 * load32 m (a + 8))
    (load16 m (a + 2)) (mget m (a + 4) mod 8) (attr mod 16) (attr / 32 mod 4) (Z.testbit attr 7).
Definition interrupt_gate (handler : Z) : gate := Gate handler 8 0 14 0 true.

(** The gate of vector [v] of the table [lidt] has loaded. *)
Definition vector_gate (m : mem) (idtr : Z * Z) (v : Z) : option gate :=
  if IDT_ENTRY_SIZE * v + 15 <=? idtr.1 then Some (read_gate m (idtr.2 + IDT_ENTRY_SIZE * v)) else None.

(** *** The interrupt controllers (8259A): the four initialisation words *)

Record pic := Pic { p_expect : nat; p_offset : Z; p_mask : Z }.
Definition pic_command (v : Z) (p : pic) : pic :=
  if Z.testbit v 4 then Pic 2 (p_offset p) 0 else p.
Definition pic_data (v : Z) (p : pic) : pic :=
  match p_expect p with
  | 2%nat => Pic 3 (Z.land v 248) (p_mask p)
  | 3%nat => Pic 4 (p_offset p) (p_mask p)
  | 4%nat => Pic 0 (p_offset p) (p_mask p)
  | _ => Pic (p_expect p) (p_offset p) v
  end.
Definition pic_write (ps : pic * pic) (o : Z * Z) : pic * pic :=
  if o.1 =? 32 then (pic_command o.2 ps.1, ps.2)
  else if o.1 =? 33 then (pic_data o.2 ps.1, ps.2)
  else if o.1 =? 160 then (ps.1, pic_command o.2 ps.2)
  else if o.1 =? 161 then (ps.1, pic_data o.2 ps.2)
  else ps.
Definition pics_after (out : list (Z * Z)) : pic * pic :=
  foldl pic_write (Pic 0 0 255, Pic 0 0 255) out.

(** ** Gates *)

Lemma load16_store m a v : load16 (store 2 m a v) a = u16 v.
Proof. apply (load_store_eq 2). Qed.
Lemma load32_store m a v : load32 (store32 m a v) a = u32 v.
Proof. apply (load_store_eq 4). Qed.

Lemma store_entry_outside m a e : agree_outside (store_entry m a e) m a 16.
Proof.
  intros b Hb. unfold store_entry, store32. rewrite !mget_store_ne, !mget_mput_ne, !mget_store_ne by lia.
  done.
Qed.

Lemma populate_offset h :
  0 <= h < 2 ^ 64 ->
  let e := idt_populate_entry h 8 142 in
  offset_low e = h mod 65536 /\ offset_mid e = h / 65536 mod 65536 /\ offset_hi e = h / 4294967296.
Proof.
  intros Hh e. unfold e, idt_populate_entry. cbn [offset_low offset_mid offset_hi].
  rewrite !Z.shiftr_land.
  change (Z.shiftr 4294901760 16) with (2 ^ 16 - 1).
  change (Z.shiftr 18446744069414584320 32) with (2 ^ 32 - 1).
  rewrite !field_spec by lia. change 65535 with (Z.ones 16). rewrite Z.land_ones by lia.
  change (2 ^ 64) with 18446744073709551616 in Hh. change (2 ^ 16) with 65536. change (2 ^ 32) with 4294967296.
  unfold u16, u32. rewrite !Z.mod_mod by lia. split; [done|]. split; [done|].
  apply Z.mod_small. lia_div.
Qed.

Lemma gate_stored m a h :
  0 <= h < 2 ^ 64 -> read_gate (store_entry m a (idt_populate_entry h 8 142)) a = interrupt_gate h.
Proof.
  intros Hh. destruct (populate_offset h Hh) as (H1 & H2 & H3).
  set (e := idt_populate_entry h 8 142) in *. change (2 ^ 64) with 18446744073709551616 in Hh.
  unfold read_gate, store_entry. cbn [ist cs_selector attributes zero_2 e idt_populate_entry].
  mem_simpl. rewrite H1, H2, H3. unfold interrupt_gate.
  change (256 ^ Z.of_nat 2) with 65536. change (256 ^ Z.of_nat 4) with 4294967296.
  rewrite !Z.mod_mod by lia. rewrite (Z.mod_small (h / 4294967296)) by lia_div.
  f_equal. lia_div.
Qed.

Lemma read_gate_ext m m' a : (forall b, a <= b < a + 16 -> mget m' b = mget m b) -> read_gate m' a = read_gate m a.
Proof.
  intros H. unfold read_gate. rewrite !(H (a + 5)), !(H (a + 4)) by lia.
  assert (forall b n, a <= b -> b + Z.of_nat n <= a + 16 -> load n m' b = load n m b) as Hl.
  { intros b n Hb1 Hb2. apply load_ext. intros c Hc. apply H. lia. }
  unfold load16, load32. by rewrite !Hl by lia.
Qed.

Lemma memset_zero_gate m base i :
  0 <= i < 256 -> g_present (read_gate (memset m base 0 4096) (base + 16 * i)) = false.
Proof.
  intros Hi. unfold read_gate. cbn [g_present]. rewrite memset_get by lia. rewrite decide_True by lia. done.
Qed.

(** A loop that fills consecutive gates. *)
Lemma gates_run table handler k n s :
  0 <= k -> 0 <= n -> (forall i, 0 <= i < n -> 0 <= handler i < 2 ^ 64) ->
  exists m, forM (seqZ 0 n) (fun i => set_gate table (k + i) (handler i)) s = Done (tt, set_kmem m s) /\
    (forall i, 0 <= i < n -> read_gate m (table + 16 * (k + i)) = interrupt_gate (handler i)) /\
    agree_outside m (k_mem s) (table + 16 * k) (16 * n).
Proof.
  intros Hk Hn. pattern n. apply natlike_ind; [| |done]; clear n Hn.
  - intros _. exists (k_mem s). split; [by destruct s|]. split; [lia|done].
  - intros n Hn IH Hh. destruct IH as (m & H1 & H2 & H3); [intros i Hi; apply Hh; lia|].
    assert (seqZ 0 (Z.succ n) = seqZ 0 n ++ [n]) as ->.
    { rewrite <- (Z2Nat.id n) at 1 by done. rewrite <- Nat2Z.inj_succ, seqZ_S.
      by rewrite !Z2Nat.id, Z.add_0_l by done. }
    rewrite (ST_eq_at (forM_app _ _ _) s), (bind_done _ _ _ _ _ H1). cbn [forM].
    eexists. split; [reflexivity|]. cbn [k_mem set_kmem]. unfold IDT_ENTRY_SIZE.
    assert (forall a, ~ (table + 16 * (k + n) <= a < table + 16 * (k + n) + 16) ->
      mget (store_entry m (table + 16 * (k + n)) (idt_populate_entry (handler n) 8 142)) a = mget m a) as Hs.
    { intros a Ha. by apply store_entry_outside. }
    split.
    + intros i Hi. destruct (decide (i = n)) as [->|Hne]; [apply gate_stored, Hh; lia|].
      rewrite <- (H2 i) by lia. apply read_gate_ext. intros b Hb. apply Hs. lia.
    + intros a Ha. rewrite Hs by lia. apply H3. lia.
Qed.

(** ** Port output *)

Lemma outs_run l s : forM l (fun o => outb o.1 o.2) s = Done (tt, set_kout (k_out s ++ ((fun o => (o.1, u8 o.2)) <$> l)) s).
Proof.
  revert s. induction l as [|o l IH]; intros s.
  - cbn. rewrite app_nil_r. by destruct s.
  - cbn [forM]. rewrite outb_bind, IH. cbn [k_out set_kout fmap list_fmap].
    by rewrite <- app_assoc.
Qed.

Lemma remapped out :
  pics_after (out ++ ((fun o => (o.1, u8 o.2)) <$> pic_remap)) = (Pic 0 32 0, Pic 0 40 0).
Proof.
  unfold pics_after. rewrite foldl_app. by destruct (foldl pic_write _ out) as [[] []].
Qed.

(** ** Initialisation *)

Lemma set_idt_bind {B} p (k : Z * Z -> ST kstate B) s :
  (interrupt_set_idt p ≫= k) s = k (load16 (k_mem s) p, load64 (k_mem s) (p + 2)) s.
Proof. done. Qed.

Section Init.
Context (isr irq : Z -> Z) (table ptr : Z).
Hypothesis Hisr : forall i, 0 <= i < 32 -> 0 <= isr i < 2 ^ 64.
Hypothesis Hirq : forall i, 0 <= i < 16 -> 0 <= irq i < 2 ^ 64.
Hypothesis Htable : 0 <= table < 2 ^ 64.
Hypothesis Hptr : ptr + 10 <= table \/ table + 4096 <= ptr.

Definition vector_handler (v : Z) : Z := if v <? 32 then isr v else irq (v - 32).

(** The state after [init_idt]. *)
Record idt_ready (s s' : kstate) : Prop := {
  ir_gates : forall v, 0 <= v < 48 ->
    vector_gate (k_mem s') (4095, table) v = Some (interrupt_gate (vector_handler v));
  ir_absent : forall v g, 48 <= v < 256 -> vector_gate (k_mem s') (4095, table) v = Some g -> g_present g = false;
  ir_mem : forall a, ~ (table <= a < table + 4096) -> ~ (ptr <= a < ptr + 10) ->
    mget (k_mem s') a = mget (k_mem s) a;
  ir_out : k_out s' = k_out s ++ ((fun o => (o.1, u8 o.2)) <$> pic_remap);
  ir_cpu : k_cpu s' = Cpu true (cpu_status (k_cpu s)) (cpu_cr3 (k_cpu s)) (cpu_rsp (k_cpu s)) (cpu_regs (k_cpu s)) (cpu_rip (k_cpu s));
  ir_rest : k_heap s' = k_heap s /\ k_pmm s' = k_pmm s /\ k_vmm s' = k_vmm s /\
    k_sched s' = k_sched s /\ k_drivers s' = k_drivers s /\ k_kbd s' = k_kbd s;
}.

Lemma init_idt_run s :
  exists s', init_idt isr irq table ptr s = Done ((4095, table), s') /\ idt_ready s s'.
Proof.
  unfold init_idt. rewrite klog_bind, modify_bind. change (IDT_ENTRY_SIZE * 256) with 4096.
  match goal with |- context [(forM pic_remap ?f ;; _) ?t] => set (s1 := t) end.
  rewrite (bind_done _ _ _ _ _ (outs_run pic_remap s1)). set (s2 := set_kout _ s1).
  destruct (gates_run table isr 0 32 s2 ltac:(lia) ltac:(lia) Hisr) as (m3 & H3 & G3 & A3).
  erewrite bind_done; [|exact H3].
  destruct (gates_run table irq 32 16 (set_kmem m3 s2) ltac:(lia) ltac:(lia) Hirq) as (m4 & H4 & G4 & A4).
  erewrite bind_done; [|exact H4]. cbn [k_mem set_kmem] in A4.
  rewrite !modify_bind, set_idt_bind. cbn [k_mem set_kmem].
  match goal with |- context [(load16 ?m ptr, load64 ?m (ptr + 2))] =>
    assert ((load16 m ptr, load64 m (ptr + 2)) = (4095, table)) as -> end.
  { mem_simpl. f_equal. change (256 ^ Z.of_nat 8) with (2 ^ 64). by apply Z.mod_small. }
  unfold sti. rewrite set_if_bind, klog_bind. eexists. split; [reflexivity|].
  cbn [k_mem k_cpu k_out set_kmem set_kcpu set_kout set_klog s2 s1].
  assert (forall a, ~ (ptr <= a < ptr + 10) -> mget (store 2 (store64 m4 (ptr + 2) table) ptr 4095) a = mget m4 a) as Hm.
  { intros a Ha. mem_simpl. done. }
  assert (forall v, 0 <= v < 256 -> vector_gate (store 2 (store64 m4 (ptr + 2) table) ptr 4095) (4095, table) v
    = Some (read_gate m4 (table + 16 * v))) as Hg.
  { intros v Hv. unfold vector_gate. cbn [fst snd]. unfold IDT_ENTRY_SIZE.
    assert ((16 * v + 15 <=? 4095) = true) as -> by lia. f_equal. apply read_gate_ext.
    intros b Hb. apply Hm. lia. }
  split; cbn [k_mem k_cpu k_out set_kmem set_kcpu set_kout set_klog].
  4-5: reflexivity. 4: repeat split.
  - intros v Hv. rewrite Hg by lia. f_equal. unfold vector_handler. destruct (v <? 32) eqn:E.
    + rewrite <- (G3 v) by lia. apply read_gate_ext. intros b Hb. apply A4. lia.
    + rewrite <- (G4 (v - 32)) by lia. f_equal. lia.
  - intros v g Hv. rewrite Hg by lia. intros [= <-].
    rewrite <- (memset_zero_gate (k_mem s) table v) by lia. f_equal. apply read_gate_ext.
    intros b Hb. rewrite A4 by lia. apply A3. lia.
  - intros a H1 H2. rewrite Hm, A4, A3 by lia. cbn [s2 s1 k_mem set_kmem set_kout set_klog].
    rewrite memset_get by lia. by rewrite decide_False by lia.
Qed.
End Init.

(** ** Entry and exit *)

(** The frame of an interrupt is 22 words below the rounded stack pointer. *)
Definition irq_base (s : kstate) : Z := cpu_rsp (k_cpu s) - cpu_rsp (k_cpu s) mod 16.
Definition irq_frame (s : kstate) : Z := irq_base s - 176.

Record irq_ok (ss cs : Z) (s : kstate) : Prop := {
  iq_room : 176 <= irq_base s;
  iq_words : is_word ss /\ is_word cs /\ is_word (cpu_rip (k_cpu s)) /\ is_word (cpu_rsp (k_cpu s));
  iq_regs : length (cpu_regs (k_cpu s)) = 15%nat /\ Forall is_word (cpu_regs (k_cpu s));
  iq_status : Z.land (cpu_status (k_cpu s)) STATUS_FLAGS = cpu_status (k_cpu s);
}.

(** The image of RFLAGS and back. *)
Lemma flags_word_range c : Z.land (cpu_status c) STATUS_FLAGS = cpu_status c -> is_word (flags_word c).
Proof.
  intros H. assert (flags_word c = flags_word c mod 2 ^ 22) as ->.
  { rewrite <- Z.land_ones by lia. unfold flags_word. rewrite Z.land_lor_distr_l. f_equal.
    - by destruct (cpu_if c).
    - by rewrite <- H, <- Z.land_assoc. }
  pose proof (Z.mod_pos_bound (flags_word c) (2 ^ 22) eq_refl) as Hb. unfold is_word.
  change (2 ^ 22) with 4194304 in *. change (2 ^ 64) with 18446744073709551616. lia.
Qed.
Lemma flags_word_back c :
  Z.land (cpu_status c) STATUS_FLAGS = cpu_status c ->
  Z.testbit (flags_word c) 9 = cpu_if c /\ Z.land (flags_word c) STATUS_FLAGS = cpu_status c.
Proof.
  intros H. unfold flags_word. rewrite Z.lor_spec, Z.land_lor_distr_l, H. split.
  - rewrite <- H, Z.land_spec. change (Z.testbit STATUS_FLAGS 9) with false.
    rewrite andb_false_r, orb_false_r. by destruct (cpu_if c).
  - by destruct (cpu_if c).
Qed.

Lemma set_flags_bind {B} w (k : unit -> ST kstate B) s :
  (set_flags w ≫= k) s = k tt (set_kcpu (Cpu (Z.testbit w 9) (Z.land w STATUS_FLAGS) (cpu_cr3 (k_cpu s))
    (cpu_rsp (k_cpu s)) (cpu_regs (k_cpu s)) (cpu_rip (k_cpu s))) s).
Proof. done. Qed.

(** The state in which the handler is called. *)
Definition in_handler (m : mem) (s : kstate) : kstate :=
  set_kmem m (set_kcpu (Cpu false (gate_status (cpu_status (k_cpu s))) (cpu_cr3 (k_cpu s)) (irq_frame s)
    (<[6%nat := irq_frame s]> (<[4%nat := 0]> (cpu_regs (k_cpu s)))) (cpu_rip (k_cpu s))) s).

Lemma frame_words_app m sp a b :
  frame_words m sp (a + b) = frame_words m sp a ++ frame_words m (sp + 8 * Z.of_nat a) b.
Proof.
  revert sp. induction a as [|a IH]; intros sp; cbn [plus].
  - cbn [frame_words app]. change (8 * Z.of_nat 0) with 0. by rewrite Z.add_0_r.
  - rewrite !frame_words_cons, IH. cbn [app]. do 3 f_equal. lia.
Qed.

Lemma frame_word m sp n i w : frame_words m sp n !! i = Some w -> load64 m (sp + 8 * Z.of_nat i) = w.
Proof.
  intros H. unfold frame_words in H. rewrite list_lookup_fmap in H.
  destruct (seqZ 0 (Z.of_nat n) !! i) as [x|] eqn:E; [|done]. apply lookup_seqZ in E as [-> _].
  injection H as <-. by rewrite Z.add_0_l.
Qed.

(** Two consecutive lists of pushes. *)
Lemma forM_push_app l1 l2 {B} (k : unit -> ST kstate B) s :
  (forM l1 push ;; forM l2 push ;; (k tt)) s = (forM (l1 ++ l2) push ;; k tt) s.
Proof.
  pose proof (forM_app l1 l2 push) as [H]. unfold mbind, ST_bind. rewrite (H s).
  unfold mbind, ST_bind. by destruct (forM l1 push s) as [[[] s1]|].
Qed.

Lemma pop_at s :
  0 <= cpu_rsp (k_cpu s) -> cpu_rsp (k_cpu s) + 8 < 2 ^ 64 ->
  pop s = Done (load64 (k_mem s) (cpu_rsp (k_cpu s)),
    set_kcpu (cpu_with (cpu_regs (k_cpu s)) (cpu_rsp (k_cpu s) + 8) (cpu_rip (k_cpu s)) (k_cpu s)) s).
Proof.
  change (2 ^ 64) with 18446744073709551616. intros H1 H2. unfold pop. rewrite !gets_bind, set_rsp_bind.
  by rewrite u64_small by lia.
Qed.

(** What the frame holds. *)
Record irq_saved (ss cs e n : Z) (s : kstate) (m : mem) : Prop := {
  is_regs : frame_words m (irq_frame s) 15 = rev (cpu_regs (k_cpu s));
  is_int_no : ctx_int_no m (irq_frame s) = n;
  is_err : ctx_err_code m (irq_frame s) = e;
  is_cpu : ctx_rip m (irq_frame s) = cpu_rip (k_cpu s) /\
    ctx_reg m (irq_frame s) 19 = flags_word (k_cpu s) /\
    ctx_userrsp m (irq_frame s) = cpu_rsp (k_cpu s);
  is_outside : agree_outside m (k_mem s) (irq_frame s) 176;
}.

Lemma irq_enter ss cs e n s :
  irq_ok ss cs s -> is_word e -> 0 <= n < 256 ->
  exists m, irq_saved ss cs e n s m /\
    forall B (k : Z -> ST kstate B),
      (cpu_interrupt ss cs ;; forM [e; n] push ;; (common_entry ≫= k)) s = k (irq_frame s) (in_handler m s).
Proof.
  intros [Hroom (Hss & Hcs & Hrip & Hrsp) [Hlen Hregs] Hst] H0 Hn. set (b := irq_base s) in *.
  assert (b <= cpu_rsp (k_cpu s) < 2 ^ 64) as Hb.
  { unfold b, irq_base, is_word in *. pose proof (Z.mod_pos_bound (cpu_rsp (k_cpu s)) 16 eq_refl). lia. }
  change (2 ^ 64) with 18446744073709551616 in Hb.
  assert (is_word (flags_word (k_cpu s))) as Hfl.
  { by apply flags_word_range. }
  assert (is_word n) as Hnw by (unfold is_word; change (2 ^ 64) with 18446744073709551616; lia).
  set (l1 := [ss; cpu_rsp (k_cpu s); flags_word (k_cpu s); cs; cpu_rip (k_cpu s)]).
  destruct (pushes_run l1 (set_kcpu (cpu_with (cpu_regs (k_cpu s)) b (cpu_rip (k_cpu s)) (k_cpu s)) s))
    as (m1 & H1 & F1 & A1).
  { unfold l1. repeat (apply Forall_cons_2; [assumption|]). apply Forall_nil_2. }
  { change (2 ^ 64) with 18446744073709551616. cbn. lia. }
  cbn [k_cpu set_kcpu cpu_rsp cpu_with cpu_regs cpu_rip k_mem l1 length] in H1, F1, A1.
  change (8 * Z.of_nat 5) with 40 in *.
  set (s2 := set_kmem m1 (set_kcpu (Cpu false (gate_status (cpu_status (k_cpu s))) (cpu_cr3 (k_cpu s)) (b - 40) (cpu_regs (k_cpu s)) (cpu_rip (k_cpu s))) s)).
  destruct (pushes_run [e; n] s2) as (m2 & H2 & F2 & A2).
  { repeat (apply Forall_cons_2; [assumption|]). apply Forall_nil_2. }
  { change (2 ^ 64) with 18446744073709551616. cbn. lia. }
  cbn [k_cpu set_kcpu cpu_rsp cpu_with cpu_regs cpu_rip k_mem length s2 set_kmem cpu_cr3 cpu_if] in H2, F2, A2.
  change (8 * Z.of_nat 2) with 16 in *. replace (b - 40 - 16) with (b - 56) in * by lia.
  set (s3 := set_kmem m2 (set_kcpu (Cpu false (gate_status (cpu_status (k_cpu s))) (cpu_cr3 (k_cpu s)) (b - 56) (cpu_regs (k_cpu s)) (cpu_rip (k_cpu s))) s)).
  destruct (pushes_run (cpu_regs (k_cpu s)) s3 Hregs) as (m3 & H3 & F3 & A3).
  { rewrite Hlen. change (2 ^ 64) with 18446744073709551616. cbn. lia. }
  rewrite Hlen in H3, F3, A3.
  cbn [k_cpu set_kcpu cpu_rsp cpu_with cpu_regs cpu_rip k_mem s3 set_kmem cpu_cr3 cpu_if] in H3, F3, A3.
  change (8 * Z.of_nat 15) with 120 in *. replace (b - 56 - 120) with (b - 176) in * by lia.
  exists m3. unfold in_handler, ctx_int_no, ctx_rip, ctx_userrsp, ctx_reg, irq_frame. fold b. split.
  - assert (forall i w, (i < 5)%nat -> frame_words m1 (b - 40) 5 !! i = Some w ->
      load64 m3 (b - 40 + 8 * Z.of_nat i) = w) as Hl1.
    { intros i w Hi Hw. rewrite <- (frame_word _ _ _ _ _ Hw). apply (load_ext 8). intros a Ha.
      rewrite A3, A2 by lia. done. }
    rewrite F1 in Hl1. cbn [rev app] in Hl1.
    assert (forall i w, (i < 2)%nat -> [n; e] !! i = Some w ->
      load64 m3 (b - 176 + 8 * (15 + Z.of_nat i)) = w) as Hl2.
    { intros i w Hi Hw. change [n; e] with (rev [e; n]) in Hw. rewrite <- F2 in Hw.
      rewrite <- (frame_word _ _ _ _ _ Hw). transitivity (load64 m3 (b - 56 + 8 * Z.of_nat i)); [f_equal; lia|].
      apply (load_ext 8). intros a Ha. apply A3. lia. }
    split.
    + exact F3.
    + unfold ctx_int_no, ctx_reg, irq_frame. fold b. apply (Hl2 0%nat n); [lia|done].
    + unfold ctx_err_code, ctx_reg, irq_frame. fold b. apply (Hl2 1%nat e); [lia|done].
    + unfold ctx_rip, ctx_userrsp, ctx_reg, irq_frame. fold b.
      specialize (Hl1 0%nat _ ltac:(lia) eq_refl) as G0. specialize (Hl1 2%nat _ ltac:(lia) eq_refl) as G2.
      specialize (Hl1 3%nat _ ltac:(lia) eq_refl) as G3.
      split; [rewrite <- G0; f_equal; lia|]. split; [rewrite <- G2; f_equal; lia|rewrite <- G3; f_equal; lia].
    + unfold irq_frame. fold b. intros a Ha. rewrite A3, A2, A1 by lia. done.
  - intros B k. unfold cpu_interrupt.
    assert ((c ← gets k_cpu; set_rsp (cpu_rsp c - cpu_rsp c mod 16) ;;
      forM [ss; cpu_rsp c; flags_word c; cs; cpu_rip c] push ;; set_if false ;;
      set_status (gate_status (cpu_status c))) s = Done (tt, s2)) as Hc.
    { rewrite gets_bind, set_rsp_bind. fold (irq_base s). fold b.
      erewrite bind_done; [|exact H1]. done. }
    rewrite (bind_done _ _ _ _ _ Hc). erewrite bind_done; [|exact H2].
    erewrite bind_done; [reflexivity|]. unfold common_entry. rewrite gets_bind.
    cbn [k_cpu set_kcpu set_kmem cpu_with cpu_regs]. erewrite bind_done; [|exact H3].
    rewrite gets_bind, set_regs_bind. done.
Qed.

(** Leaving the handler restores the processor, but for CR3, whatever has been
    done in between. *)
Definition restored (s s2 : kstate) : kstate :=
  set_kcpu (Cpu (cpu_if (k_cpu s)) (cpu_status (k_cpu s)) (cpu_cr3 (k_cpu s2)) (cpu_rsp (k_cpu s)) (cpu_regs (k_cpu s))
    (cpu_rip (k_cpu s))) s2.

Lemma irq_exit_run ss cs e n s m s2 :
  irq_ok ss cs s -> irq_saved ss cs e n s m ->
  cpu_rsp (k_cpu s2) = irq_frame s ->
  (forall a, irq_frame s <= a < irq_base s -> mget (k_mem s2) a = mget m a) ->
  irq_exit s2 = Done (tt, restored s s2).
Proof.
  intros [Hroom (Hss & Hcs & Hrip & Hrsp) [Hlen Hregs] Hst] [F1 F2 _ (F3 & F4 & F5) F6] Hr Hmem.
  assert (irq_base s <= cpu_rsp (k_cpu s) < 2 ^ 64) as Hb.
  { unfold irq_base, is_word in *. pose proof (Z.mod_pos_bound (cpu_rsp (k_cpu s)) 16 eq_refl). lia. }
  change (2 ^ 64) with 18446744073709551616 in Hb.
  assert (frame_words (k_mem s2) (irq_frame s) 15 = rev (cpu_regs (k_cpu s))) as F1'.
  { rewrite <- F1. apply frame_words_ext. intros a Ha. apply Hmem. unfold irq_frame in *. lia. }
  assert (forall i, 15 <= i <= 21 -> load64 (k_mem s2) (irq_frame s + 8 * i) = ctx_reg m (irq_frame s) i) as Hl.
  { intros i Hi. apply (load_ext 8). intros a Ha. apply Hmem. unfold irq_frame in *. lia. }
  assert (0 <= irq_frame s /\ irq_frame s + 176 < 18446744073709551616) as Hf by (unfold irq_frame; lia).
  unfold irq_exit. rewrite (bind_done _ _ _ _ _ (pops_run 15 [] s2 ltac:(rewrite Hr; lia)
    ltac:(rewrite Hr; change (2 ^ 64) with 18446744073709551616; lia))).
  rewrite Hr, F1', rev_involutive, app_nil_r, set_regs_bind, gets_bind, set_rsp_bind.
  cbn [k_cpu k_mem set_kcpu cpu_with cpu_rsp cpu_regs cpu_rip]. change (8 * Z.of_nat 15) with 120.
  rewrite u64_small by lia. unfold iretq.
  repeat match goal with
  | |- context [(pop ≫= ?k) ?t] =>
      rewrite (bind_done pop k t _ _ (pop_at t
        ltac:(cbn [k_cpu k_mem set_kcpu cpu_with cpu_rsp cpu_regs cpu_rip]; lia)
        ltac:(cbn [k_cpu k_mem set_kcpu cpu_with cpu_rsp cpu_regs cpu_rip];
              change (2 ^ 64) with 18446744073709551616; lia)));
      cbn [k_cpu k_mem set_kcpu cpu_with cpu_rsp cpu_regs cpu_rip]
  end.
  rewrite set_flags_bind, set_rsp_bind.
  cbn [k_cpu k_mem set_kcpu cpu_with cpu_rsp cpu_regs cpu_rip cpu_if cpu_cr3].
  unfold set_rip, modify, cpu_with. cbn [k_cpu k_mem set_kcpu cpu_with cpu_rsp cpu_regs cpu_rip cpu_if cpu_cr3].
  replace (irq_frame s + 120 + 16) with (irq_frame s + 8 * 17) by lia.
  replace (irq_frame s + 8 * 17 + 8 + 8) with (irq_frame s + 8 * 19) by lia.
  replace (irq_frame s + 8 * 19 + 8) with (irq_frame s + 8 * 20) by lia.
  rewrite !Hl by lia. fold (ctx_rip m (irq_frame s)) (ctx_userrsp m (irq_frame s)).
  rewrite F3, F4, F5. unfold restored. destruct (flags_word_back (k_cpu s) Hst) as [-> ->]. done.
Qed.

(** An interrupt whose handler leaves the processor and the frame as they are. *)
Lemma irq_run ss cs n handler s :
  irq_ok ss cs s -> 0 <= n < 256 ->
  exists m, irq_saved ss cs 0 n s m /\
    (forall r, handler (irq_frame s) (in_handler m s) = Stopped r ->
      (cpu_interrupt ss cs ;; irq_stub n handler) s = Stopped r) /\
    forall s2, handler (irq_frame s) (in_handler m s) = Done (tt, s2) ->
      cpu_rsp (k_cpu s2) = irq_frame s ->
      (forall a, irq_frame s <= a < irq_base s -> mget (k_mem s2) a = mget m a) ->
      (cpu_interrupt ss cs ;; irq_stub n handler) s = Done (tt, restored s s2).
Proof.
  intros Hok Hn. destruct (irq_enter ss cs 0 n s Hok ltac:(done) Hn) as (m & Hsv & Hent).
  exists m. split; [done|]. unfold irq_stub. split.
  - intros r Hh. by rewrite Hent, (bind_stopped _ _ _ _ Hh).
  - intros s2 Hh Hcpu Hmem. rewrite Hent, (bind_done _ _ _ _ _ Hh). by eapply irq_exit_run.
Qed.

(** The handlers other than the timer's. *)
Lemma device_handler_run resume scan r n s :
  ctx_int_no (k_mem s) r = n -> 33 <= n < 48 ->
  interrupt_handler resume scan r s =
    ((if n =? 33 then ps2_on_interrupt scan
      else klog "int" "Recieved IRQ %d, handled." [KNum (n - 32)]) ;; send_eoi n) s.
Proof.
  intros Hn Hr. unfold interrupt_handler. rewrite gets_bind, Hn.
  assert ((n =? 32) = false) as -> by lia. by rewrite u64_small by lia.
Qed.

Definition eoi_bytes (n : Z) : list (Z * Z) := (if 40 <=? n then [(160, 32)] else []) ++ [(32, 32)].

Lemma send_eoi_run n s : send_eoi n s = Done (tt, set_kout (k_out s ++ eoi_bytes n) s).
Proof.
  unfold send_eoi, eoi_bytes. destruct (40 <=? n); [|done]. cbn [when].
  rewrite outb_bind. unfold outb, modify. cbn [k_out set_kout]. by rewrite <- app_assoc.
Qed.
