(* ===== verification/Structs.v ===== *)
(** The structures the two programs share with the boot loader, the processor,
    each other and their own memory: their declarations, from the headers
    (multiboot.h, elf64.h, awd/info.h, awd_info.h, interrupts.h, vmm.h, task.h,
    single_linked_list.h, driver.h), laid out by [CTypes]; and that the
    accesses by offset listed in [loader_fields] and [kernel_fields], the
    loader's stores to the configuration block and the kernel's to a table entry
    are those to the members they are named after. *)

From S2P Require Import Prelude Memory CTypes LogDevices KernelLog Lobo KernelBitset Pmm KernelHeap KernelList KernelEarly Scheduler Keyboard Debugger Interrupts Processor AwdAlloc PageTable AwdKernel AwdMain Entry Handover.
Local Open Scope Z_scope.

(** ** multiboot.h *)

Definition multiboot_header_t : ctype := c_struct
  [("magic", uint32); ("flags", uint32); ("checksum", uint32);
   ("header_addr", uint32); ("load_addr", uint32); ("load_end_addr", uint32); ("bss_end_addr", uint32);
   ("entry_addr", uint32); ("mode_type", uint32); ("width", uint32); ("height", uint32); ("depth", uint32)].
Definition multiboot_aout_symbol_table : ctype := c_struct
  [("tabsize", uint32); ("strsize", uint32); ("addr", uint32); ("reserved", uint32)].
Definition multiboot_elf_section_header_table : ctype := c_struct
  [("num", uint32); ("size", uint32); ("addr", uint32); ("shndx", uint32)].
Definition multiboot_info : ctype := c_struct
  [("flags", uint32); ("mem_lower", uint32); ("mem_upper", uint32); ("boot_device", uint32); ("cmdline", uint32);
   ("mods_count", uint32); ("mods_addr", uint32);
   ("u", c_union [("aout_sym", multiboot_aout_symbol_table); ("elf_sec", multiboot_elf_section_header_table)]);
   ("mmap_length", uint32); ("mmap_addr", uint32); ("drives_length", uint32); ("drives_addr", uint32);
   ("config_table", uint32); ("boot_loader_name", uint32); ("apm_table", uint32);
   ("vbe_control_info", uint32); ("vbe_mode_info", uint32); ("vbe_mode", uint16);
   ("vbe_interface_seg", uint16); ("vbe_interface_off", uint16); ("vbe_interface_len", uint16);
   ("framebuffer_addr", uint64); ("framebuffer_pitch", uint32); ("framebuffer_width", uint32);
   ("framebuffer_height", uint32); ("framebuffer_bpp", uint8); ("framebuffer_type", uint8);
   ("_", c_union
     [("palette", c_struct [("framebuffer_palette_addr", uint32); ("framebuffer_palette_num_colors", uint16)]);
      ("fields", c_struct
        [("framebuffer_red_field_position", uint8); ("framebuffer_red_mask_size", uint8);
         ("framebuffer_green_field_position", uint8); ("framebuffer_green_mask_size", uint8);
         ("framebuffer_blue_field_position", uint8); ("framebuffer_blue_mask_size", uint8)])])].
Definition multiboot_color : ctype := c_struct [("red", uint8); ("green", uint8); ("blue", uint8)].
Definition multiboot_mmap_entry : ctype := c_packed
  [("size", uint32); ("addr", uint64); ("len", uint64); ("type", uint32)].
Definition multiboot_mod_list : ctype := c_struct
  [("mod_start", uint32); ("mod_end", uint32); ("cmdline", uint32); ("pad", uint32)].
Definition multiboot_apm_info : ctype := c_struct
  [("version", uint16); ("cseg", uint16); ("offset", uint32); ("cseg_16", uint16); ("dseg", uint16);
   ("flags", uint16); ("cseg_len", uint16); ("cseg_16_len", uint16); ("dseg_len", uint16)].

(** ** elf64.h *)

Definition elf64_header_t : ctype := c_struct
  [("e_ident", CArray uint8 16); ("e_type", uint16); ("e_machine", uint16); ("e_version", uint32);
   ("e_entry", uint64); ("e_phoff", uint64); ("e_shoff", uint64); ("e_flags", uint32); ("e_ehsize", uint16);
   ("e_phentsize", uint16); ("e_phnum", uint16); ("e_shentsize", uint16); ("e_shnum", uint16); ("e_shstrndx", uint16)].
Definition Elf64_Word : ctype := uint32.
Definition Elf64_Off : ctype := uint64.
Definition Elf64_Addr : ctype := uint64.
Definition Elf64_Xword : ctype := uint64.
Definition elf64_pheader_t : ctype := c_struct
  [("p_type", Elf64_Word); ("p_flags", Elf64_Word); ("p_offset", Elf64_Off); ("p_vaddr", Elf64_Addr);
   ("p_paddr", Elf64_Addr); ("p_filesz", Elf64_Xword); ("p_memsz", Elf64_Xword); ("p_align", Elf64_Xword)].

(** ** The block the loader hands over: awd/info.h in AWD, awd_info.h in Lobo *)

Definition awd_info_t : ctype := c_struct
  [("kernel_phstart", uint32); ("kernel_phsize", uint32); ("multiboot_struct", uint32); ("numCPUs", uint32);
   ("ptr_phys_mem_map", uint32); ("ptr_malloc_current", uint32); ("ptr_malloc_limit", uint32);
   ("log_cursor_y", uint32)].
Definition lobo_awd_info_t : ctype := c_struct
  [("kernel_phstart", uint32); ("kernel_phsize", uint32); ("multiboot_struct", uint32); ("numCPUs", uint32);
   ("ptr_phys_mem_map", uint32); ("ptr_malloc_current", uint32); ("ptr_malloc_limit", uint32);
   ("log_cursor_y", uint32)].
(** [char] is one byte. *)
Definition awd_physmemmap_t : ctype := c_struct
  [("next", uint32); ("type", CInt 1); ("startAddress_hi", uint32); ("startAddress_lo", uint32);
   ("size_hi", uint32); ("size_lo", uint32)].

(** ** Lobo's own *)

Definition idt_table_entry_t : ctype := c_packed
  [("offset_low", uint16); ("cs_selector", uint16); ("ist", uint8); ("attributes", uint8);
   ("offset_mid", uint16); ("offset_hi", uint32); ("zero_2", uint32)].
Definition idt_table_ptr_t : ctype := c_packed [("limit", uint16); ("address", uint64)].
Definition InterruptContext : ctype := c_struct
  ((fun r => (r, uint64)) <$>
    ["r15"; "r14"; "r13"; "r12"; "r11"; "r10"; "r9"; "r8"; "rdi"; "rsi"; "rbp"; "rbx"; "rdx"; "rcx"; "rax";
     "int_no"; "err_code"; "rip"; "cs"; "eflags"; "userrsp"; "ss"]).

Definition physical_addr_t : ctype := uint64.
Definition page_entry_t : ctype := c_struct [("data", physical_addr_t)].
Definition page_table_t : ctype := c_struct [("entries", CArray physical_addr_t 512)].

(** An enumeration is an [int]. *)
Definition ThreadControlBlock : ctype := c_struct
  [("stack_top", uint64); ("state", uint32); ("threadName", CPtr); ("threadID", uint64); ("taskID", uint64)].
Definition TaskControlBlock : ctype := c_struct
  [("vas", uint64); ("taskID", uint64); ("state", uint32); ("taskName", CPtr)].

(** The lists hold pointers. *)
Definition linked_list_node : ctype := c_struct [("m_value", CPtr); ("m_next", CPtr)].

(** A class with virtual functions starts with the pointer to their table. *)
Definition driver_class : ctype := c_struct [("vptr", CPtr); ("m_name", CPtr); ("m_type", uint32)].

(** ** Access by member *)

Lemma read_member_at {A : Abi} t path m a o t' n :
  member t path = Some (o, t') -> scalar_size t' = Some n -> read_member t path m a = Some (load n m (a + o)).
Proof. intros H1 H2. unfold read_member. by rewrite H1, H2. Qed.
Lemma write_member_at {A : Abi} t path m a v o t' n :
  member t path = Some (o, t') -> scalar_size t' = Some n -> write_member t path m a v = Some (store n m (a + o) v).
Proof. intros H1 H2. unfold write_member. by rewrite H1, H2. Qed.

(** Element [i] of the member of array type. *)
Definition read_element {A : Abi} (t : ctype) (path : list string) (i : Z) (m : mem) (a : Z) : option Z :=
  match member t path with
  | Some (o, CArray t' n) =>
      if (0 <=? i) && (i <? n) then (fun k => load k m (a + o + sizeof t' * i)) <$> scalar_size t' else None
  | _ => None
  end.

Lemma read_element_at {A : Abi} t path i m a o t' n k :
  member t path = Some (o, CArray t' n) -> scalar_size t' = Some k -> 0 <= i < n ->
  read_element t path i m a = Some (load k m (a + o + sizeof t' * i)).
Proof.
  intros H1 H2 Hi. unfold read_element. rewrite H1, H2.
  assert ((0 <=? i) = true /\ (i <? n) = true) as [-> ->] by lia. done.
Qed.

Ltac by_member :=
  intros; erewrite read_member_at; [|vm_compute; reflexivity|reflexivity]; rewrite ?Z.add_0_r; reflexivity.

(** [get] reads the member of a [t] under the ABI. *)
Definition reads (A : Abi) (t : ctype) (path : list string) (get : mem -> Z -> Z) : Prop :=
  forall m a, read_member t path m a = Some (get m a).

(** The accesses of the loader, which is compiled for i386, and of the kernel,
    which is compiled for x86-64, by structure and member. *)
Definition loader_fields : list (ctype * string * (mem -> Z -> Z)) :=
  [(elf64_header_t, "e_type", e_type); (elf64_header_t, "e_machine", e_machine);
   (elf64_header_t, "e_entry", e_entry); (elf64_header_t, "e_phoff", e_phoff);
   (elf64_header_t, "e_phentsize", e_phentsize); (elf64_header_t, "e_phnum", e_phnum);
   (elf64_pheader_t, "p_type", p_type); (elf64_pheader_t, "p_offset", p_offset);
   (elf64_pheader_t, "p_vaddr", p_vaddr); (elf64_pheader_t, "p_filesz", p_filesz);
   (elf64_pheader_t, "p_memsz", p_memsz);
   (multiboot_info, "mods_count", mods_count); (multiboot_info, "mods_addr", mods_addr);
   (multiboot_info, "boot_loader_name", boot_loader_name);
   (multiboot_mod_list, "mod_start", mod_start); (multiboot_mod_list, "mod_end", mod_end);
   (multiboot_mod_list, "cmdline", mod_cmdline)].
Definition kernel_fields : list (ctype * string * (mem -> Z -> Z)) :=
  [(lobo_awd_info_t, "ptr_phys_mem_map", ai_ptr_phys_mem_map);
   (lobo_awd_info_t, "ptr_malloc_current", ai_ptr_malloc_current);
   (lobo_awd_info_t, "ptr_malloc_limit", ai_ptr_malloc_limit); (lobo_awd_info_t, "log_cursor_y", ai_log_cursor_y);
   (awd_physmemmap_t, "next", mm_next);
   (linked_list_node, "m_value", node_value); (linked_list_node, "m_next", node_next);
   (ThreadControlBlock, "stack_top", stack_top); (ThreadControlBlock, "state", tcb_state);
   (ThreadControlBlock, "threadName", threadName); (ThreadControlBlock, "threadID", threadID);
   (ThreadControlBlock, "taskID", tcb_taskID);
   (TaskControlBlock, "vas", task_vas); (TaskControlBlock, "taskID", task_taskID);
   (driver_class, "m_name", m_name);
   (InterruptContext, "int_no", ctx_int_no); (InterruptContext, "err_code", ctx_err_code);
   (InterruptContext, "rip", ctx_rip); (InterruptContext, "userrsp", ctx_userrsp)].

Definition all_read (A : Abi) (l : list (ctype * string * (mem -> Z -> Z))) : Prop :=
  Forall (fun '(t, f, get) => reads A t [f] get) l.

Lemma loader_reads : all_read i386 loader_fields.
Proof. unfold all_read, reads. repeat (apply Forall_cons_2; [by_member|]). apply Forall_nil_2. Qed.
Lemma kernel_reads : all_read x86_64 kernel_fields.
Proof. unfold all_read, reads. repeat (apply Forall_cons_2; [by_member|]). apply Forall_nil_2. Qed.

(** The array members. *)
Lemma ident_element i m h :
  0 <= i < 16 -> read_element (A := i386) elf64_header_t ["e_ident"] i m h = Some (e_ident m h i).
Proof.
  intros Hi. erewrite read_element_at; [|vm_compute; reflexivity|reflexivity|done].
  f_equal. cbn [sizeof uint8]. rewrite Z.add_0_r, Z.mul_1_l. change (Z.to_nat 1) with 1%nat.
  unfold e_ident. cbn [load]. lia.
Qed.
Lemma entries_element i m t :
  0 <= i < 512 -> read_element (A := x86_64) page_table_t ["entries"] i m t = Some (entry m t i).
Proof.
  intros Hi. erewrite read_element_at; [|vm_compute; reflexivity|reflexivity|done]. by rewrite Z.add_0_r.
Qed.

(** The signed and the split members of a node of the memory map. *)
Lemma map_node_reads m a :
  s8 <$> read_member (A := x86_64) awd_physmemmap_t ["type"] m a = Some (mm_type m a) /\
  (exists hi lo, read_member (A := x86_64) awd_physmemmap_t ["startAddress_hi"] m a = Some hi /\
     read_member (A := x86_64) awd_physmemmap_t ["startAddress_lo"] m a = Some lo /\
     mm_startAddress m a = Z.lor (u64 (Z.shiftl hi 32)) lo) /\
  (exists hi lo, read_member (A := x86_64) awd_physmemmap_t ["size_hi"] m a = Some hi /\
     read_member (A := x86_64) awd_physmemmap_t ["size_lo"] m a = Some lo /\
     mm_size m a = Z.lor (u64 (Z.shiftl hi 32)) lo).
Proof.
  split; [|split; do 2 eexists; (split; [by_member|split; [by_member|reflexivity]])].
  erewrite read_member_at; [|vm_compute; reflexivity|reflexivity].
  cbn [fmap option_fmap option_map]. f_equal. unfold mm_type. f_equal. change (Z.to_nat 1) with 1%nat. cbn [load]. lia.
Qed.

(** Storing members one after the other. *)
Fixpoint write_members {A : Abi} (t : ctype) (fs : list (string * Z)) (m : mem) (a : Z) : option mem :=
  match fs with
  | [] => Some m
  | (f, v) :: fs' => match write_member t [f] m a v with Some m' => write_members t fs' m' a | None => None end
  end.

Ltac write_one := erewrite write_member_at; [|vm_compute; reflexivity|reflexivity]; rewrite ?Z.add_0_r; cbn [write_members].

Lemma store_entry_members m a e :
  write_members (A := x86_64) idt_table_entry_t
    [("offset_low", offset_low e); ("cs_selector", cs_selector e); ("ist", ist e); ("attributes", attributes e);
     ("offset_mid", offset_mid e); ("offset_hi", offset_hi e); ("zero_2", zero_2 e)] m a = Some (store_entry m a e).
Proof. cbn [write_members]. do 7 write_one. reflexivity. Qed.

Lemma set_up_info_members pl i m :
  write_members (A := i386) awd_info_t
    [("log_cursor_y", log_cursor_y i); ("multiboot_struct", multiboot_struct i);
     ("ptr_malloc_current", ptr_malloc_current i); ("ptr_malloc_limit", ptr_malloc_limit i)] m (info pl)
  = Some (set_up_info pl i m).
Proof. cbn [write_members]. do 4 write_one. reflexivity. Qed.

(** Both programs see the block alike. *)
Lemma member_uint32 (A : Abi) path : member uint32 path = match path with [] => Some (0, uint32) | _ => None end.
Proof. by destruct path. Qed.
Lemma same_block path : member (A := i386) awd_info_t path = member (A := x86_64) lobo_awd_info_t path.
Proof.
  destruct path as [|f path]; [done|]. cbn [member].
  replace (members (A := i386) awd_info_t) with (members (A := x86_64) lobo_awd_info_t) by (vm_compute; reflexivity).
  destruct (lookup_member f _) as [[o t]|] eqn:E; [|done].
  assert (t = uint32) as ->; [|by rewrite !member_uint32].
  revert E. vm_compute (members _). cbn [lookup_member].
  repeat (destruct (String.eqb _ f); [by intros [= <- <-]|]). done.
Qed.

(** ** Theorems *)

(** The header in multiboot.s starts the structure of multiboot.h, whose first
    three fields "must equal 0 mod 2^32". *)
Theorem multiboot_header_fields (m : mem) (a : Z) (Himage : image m a multiboot_header) :
  exists magic flags checksum,
    read_member (A := i386) multiboot_header_t ["magic"] m a = Some magic /\
    read_member (A := i386) multiboot_header_t ["flags"] m a = Some flags /\
    read_member (A := i386) multiboot_header_t ["checksum"] m a = Some checksum /\
    magic = 464367618 /\ (magic + flags + checksum) mod 2 ^ 32 = 0.
Proof.
  do 3 eexists. split; [|split; [|split]].
  1-3: erewrite read_member_at; [reflexivity|vm_compute; reflexivity|reflexivity].
  change (Z.to_nat 4) with 4%nat. change (a + 0) with (a + Z.of_nat 0). change (a + 4) with (a + Z.of_nat 4). change (a + 8) with (a + Z.of_nat 8).
  rewrite (image_at _ _ _ 0 4 MAGIC Himage), (image_at _ _ _ 4 4 MB_FLAGS Himage), (image_at _ _ _ 8 4 CHECKSUM Himage)
    by (vm_compute; reflexivity).
  split; vm_compute; reflexivity.
Qed.
