(* ===== verification/Traps.v ===== *)
(** What the interrupt code of [Interrupts] promises to the code it interrupts:
    the table that the processor loads sends every vector to its stub; a device
    interrupt leaves the interrupted code no trace; a thread the timer preempts
    goes on later exactly where it was; an exception is reported with the
    registers of the code that raised it. *)

From S2P Require Import Prelude Memory AwdAlloc Lobo KernelBitset Pmm KernelHeap KernelList Scheduler Threads Keyboard Interrupts.
Local Open Scope Z_scope.
Local Open Scope mach_scope.

(** ** The timer *)

(** From the interrupt to the call of [Schedule]. *)
Definition timer_prologue (ss cs : Z) : ST kstate Z :=
  cpu_interrupt ss cs ;;
  forM [0; 32] push ;;
  rsp ← common_entry;
  send_eoi 32 ;; sti ;; mret rsp.

(** The state in which it calls [Schedule]. *)
Definition preempted (m : mem) (s : kstate) : kstate :=
  let s1 := set_kout (k_out s ++ [(32, 32)]) (in_handler m s) in
  set_kcpu (Cpu true (cpu_status (k_cpu s1)) (cpu_cr3 (k_cpu s1)) (cpu_rsp (k_cpu s1)) (cpu_regs (k_cpu s1)) (cpu_rip (k_cpu s1))) s1.

Lemma prologue_run ss cs s :
  irq_ok ss cs s ->
  exists m, irq_saved ss cs 0 32 s m /\
    timer_prologue ss cs s = Done (irq_frame s, preempted m s) /\
    forall resume scan, (cpu_interrupt ss cs ;; irq_stub 32 (interrupt_handler resume scan)) s =
      (Schedule resume ;; irq_exit) (preempted m s).
Proof.
  intros Hok. destruct (irq_enter ss cs 0 32 s Hok ltac:(done) ltac:(done)) as (m & Hsv & Hent).
  exists m. split; [done|]. split.
  - unfold timer_prologue. rewrite Hent, (bind_done _ _ _ _ _ (send_eoi_run 32 _)).
    unfold sti. by rewrite set_if_bind.
  - intros resume scan. unfold irq_stub. rewrite Hent.
    assert (interrupt_handler resume scan (irq_frame s) (in_handler m s) = Schedule resume (preempted m s)) as Hh.
    { unfold interrupt_handler. rewrite gets_bind. cbn [k_mem in_handler set_kmem].
      rewrite (is_int_no _ _ _ _ _ _ Hsv). change (32 =? 32) with true. cbn iota.
      rewrite (bind_done _ _ _ _ _ (send_eoi_run 32 _)). unfold sti. by rewrite set_if_bind. }
    unfold mbind, ST_bind at 1. by rewrite Hh.
Qed.

(** Entering the handler only writes to the stack of the running thread. *)
Lemma preempted_activity L ss cs s m :
  sched_inv L s -> irq_ok ss cs s -> irq_saved ss cs 0 32 s m ->
  ly_lo L (current s) + 304 <= irq_base s -> activity L s (preempted m s).
Proof.
  intros HI [Hroom (_ & _ & _ & Hrsp) [Hlen Hregs] _] Hsv Hlo.
  pose proof (si_current _ _ HI) as Hc. pose proof (si_layout _ _ HI) as HL.
  pose proof (si_room _ _ HI) as [[_ Hhi] _].
  assert (irq_base s <= cpu_rsp (k_cpu s)) as Hb.
  { unfold irq_base. pose proof (Z.mod_pos_bound (cpu_rsp (k_cpu s)) 16 eq_refl). lia. }
  assert (forall a, ~ stack_byte L (current s) a -> mget m a = mget (k_mem s) a) as Hm.
  { intros a Ha. apply (is_outside _ _ _ _ _ _ Hsv). unfold stack_byte, irq_frame in *. lia. }
  split; cbn [preempted k_mem k_heap k_pmm k_sched set_kcpu set_kout in_handler set_kmem].
  - exists (schedulingEnabled (k_sched s)). by destruct (k_sched s).
  - apply (heap_ready_same s); [done|done|apply HI].
  - done.
  - intros a Ha. by apply (client_byte_same s).
  - intros n a Hn Ha. apply Hm. intros Hs. by destruct (lo_nodes _ HL n (current s) a Hn Hc Ha).
  - intros t a Ht Ha. apply Hm. intros Hs. by apply (lo_stack_tcb _ HL _ t a Hc Ht Hs).
  - intros t a Ht Hne Ha. apply Hm. intros Hs. apply Hne. by apply (lo_stacks _ HL t (current s) a).
  - split; [change (current (preempted m s)) with (current s); cbn; unfold irq_frame; lia|]. cbn.
    split; [by rewrite !length_insert|].
    apply Forall_insert; [apply Forall_insert; [done|]|]; unfold is_word, irq_frame in *;
      change (2 ^ 64) with 18446744073709551616 in *; lia.
Qed.

(** A preempted thread that [Schedule] has brought back. *)
Lemma preempted_return resume L0 L2 ss cs s m s1 s2 s3 :
  is_word resume -> sched_inv L0 s -> irq_ok ss cs s -> irq_saved ss cs 0 32 s m ->
  ly_lo L0 (current s) + 304 <= irq_base s ->
  Schedule resume (preempted m s) = Done (tt, s1) -> current s1 <> current s ->
  rtc (step_off resume (current s)) (L0, s1) (L2, s2) ->
  Schedule resume s2 = Done (tt, s3) -> current s3 = current s ->
  irq_exit s3 = Done (tt, restored s s3) /\
  forall a, cpu_rsp (k_cpu s) <= a < ly_hi L0 (current s) -> mget (k_mem s3) a = mget (k_mem s) a.
Proof.
  intros Hres HI Hok Hsv Hlo Hout Hoff Hst Hin Hon.
  pose proof (activity_inv _ _ _ HI (preempted_activity L0 ss cs s m HI Hok Hsv Hlo)) as HI0.
  destruct (thread_resumes_run resume Hres L0 L2 (preempted m s) s1 s2 s3 HI0 Hout Hoff Hst Hin Hon)
    as (Hctx & _ & Hmem).
  change (current (preempted m s)) with (current s) in *.
  change (cpu_rsp (k_cpu (preempted m s))) with (irq_frame s) in *.
  change (k_mem (preempted m s)) with m in *.
  pose proof (si_room _ _ HI) as [[_ Hhi] _].
  assert (irq_base s <= cpu_rsp (k_cpu s)) as Hb.
  { unfold irq_base. pose proof (Z.mod_pos_bound (cpu_rsp (k_cpu s)) 16 eq_refl). lia. }
  split.
  - eapply irq_exit_run; [done|done| |].
    + change (cpu_rsp (k_cpu s3)) with (c_rsp (cpu_ctx s3)). by rewrite Hctx.
    + intros a Ha. apply Hmem. lia.
  - intros a Ha. rewrite Hmem by (unfold irq_frame in *; lia). apply (is_outside _ _ _ _ _ _ Hsv).
    unfold irq_frame. lia.
Qed.

(** ** Devices *)

(** What the handler of line [n - 32] does besides acknowledging. *)
Definition device_effect (scan n : Z) : ST kstate unit :=
  if n =? 33 then ps2_on_interrupt scan else klog "int" "Recieved IRQ %d, handled." [KNum (n - 32)].

Lemma device_run resume scan r n s :
  ctx_int_no (k_mem s) r = n -> 33 <= n < 48 ->
  interrupt_handler resume scan r s = (device_effect scan n ;; send_eoi n) s.
Proof. apply device_handler_run. Qed.

(** [restored s s2] when the processor was left as the handler got it. *)
Lemma restored_cpu s m s2 : k_cpu s2 = k_cpu (in_handler m s) -> k_cpu (restored s s2) = k_cpu s.
Proof. intros H. unfold restored. cbn. rewrite H. cbn. by destruct (k_cpu s). Qed.

(** ** Exceptions *)

(** The lines [fault_handler] logs. *)
Definition fault_lines (n err cr2 : Z) (s : kstate) : list klog_call :=
  let r i := KNum (default 0 (cpu_regs (k_cpu s) !! i)) in
  [KLogRaw "%35sException
" [KStr ""];
   KLogCall "fault" "%s (int %d), Error Code: 0x%08x"
     [KStr (default "" (exception_strings !! Z.to_nat n)); KNum n; KNum (u32 err)];
   KLogCall "fault" "RBP:0x%016p RSP:0x%016p RIP:0x%016p" [r 4%nat; KNum (cpu_rsp (k_cpu s)); KNum (cpu_rip (k_cpu s))];
   KLogCall "fault" "RAX:0x%016p RBX:0x%016p RCX:0x%016p" [r 0%nat; r 3%nat; r 1%nat];
   KLogCall "fault" "RDX:0x%016p RDI:0x%016p RSI:0x%016p" [r 2%nat; r 6%nat; r 5%nat];
   KLogCall "fault" " R8:0x%016p  R9:0x%016p R10:0x%016p" [r 7%nat; r 8%nat; r 9%nat];
   KLogCall "fault" "R11:0x%016p R12:0x%016p R13:0x%016p" [r 10%nat; r 11%nat; r 12%nat];
   KLogCall "fault" "R14:0x%016p R15:0x%016p" [r 13%nat; r 14%nat]] ++
  (if n =? 14 then [KLogCall "fault" "Faulting address: 0x%016p
" [KNum cr2]] else []).

(** The vectors for which the processor pushes an error code: double fault,
    invalid TSS, segment not present, stack, general protection, page fault,
    alignment check, control protection, security. *)
Definition has_error_code (n : Z) : bool :=
  (n =? 8) || ((10 <=? n) && (n <=? 14)) || (n =? 17) || (n =? 21) || (n =? 30).
Definition pushed_error (n e : Z) : option Z := if has_error_code n then Some e else None.

Lemma stubs_agree n : 0 <= n < 32 -> isr_error_code n = has_error_code n.
Proof.
  intros Hn. assert (forallb (fun n => Bool.eqb (isr_error_code n) (has_error_code n)) (seqZ 0 32) = true) as H
    by (vm_compute; reflexivity).
  rewrite forallb_forall in H. apply Bool.eqb_prop, H, list_elem_of_In, elem_of_seqZ. lia.
Qed.

(** From the exception to the call of [fault_handler]. *)
Definition fault_entry (ss cs n e : Z) : ST kstate Z :=
  cpu_exception ss cs (pushed_error n e) ;;
  forM (if isr_error_code n then [n] else [0; n]) push ;; common_entry.

Lemma exception_enter ss cs n e s :
  irq_ok ss cs s -> is_word e -> 0 <= n < 32 ->
  let err := if has_error_code n then e else 0 in
  exists m, irq_saved ss cs err n s m /\
    fault_entry ss cs n e s = Done (irq_frame s, in_handler m s) /\
    forall handler, (cpu_exception ss cs (pushed_error n e) ;; isr_stub n handler) s =
      (handler (irq_frame s) ;; irq_exit) (in_handler m s).
Proof.
  intros Hok He Hn err. destruct (irq_enter ss cs err n s Hok) as (m & Hsv & Hent); [|lia|].
  { unfold err. by destruct (has_error_code n). }
  exists m. split; [done|]. unfold fault_entry, isr_stub. rewrite (stubs_agree n Hn).
  assert (forall B (k : Z -> ST kstate B), (cpu_exception ss cs (pushed_error n e) ;;
    forM (if has_error_code n then [n] else [0; n]) push ;; (common_entry ≫= k)) s = k (irq_frame s) (in_handler m s)) as Hk.
  { intros B k. rewrite <- Hent. unfold err, pushed_error, cpu_exception. destruct (has_error_code n);
      cbn [option_list forM]; rewrite (ST_eq_at (bind_assoc _ _ _) s); unfold mbind, ST_bind;
      destruct (cpu_interrupt ss cs s) as [[[] s1]|]; reflexivity. }
  split; [|intros handler; exact (Hk _ (fun rsp => handler rsp ;; irq_exit))].
  etransitivity; [|exact (Hk _ mret)]. unfold mbind, ST_bind.
  destruct (cpu_exception _ _ _ s) as [[[] s1]|]; [|done]. destruct (forM _ push s1) as [[[] s2]|]; [|done].
  by destruct (common_entry s2) as [[]|].
Qed.

Lemma exception_name_run n s :
  0 <= n -> exception_name n s =
    if n <=? 30 then Done (default "" (exception_strings !! Z.to_nat n), s)
    else Stopped (Fault "exception_strings[int_no]").
Proof.
  intros Hn. unfold exception_name. destruct (n <=? 30) eqn:E.
  - destruct (lookup_lt_is_Some_2 exception_strings (Z.to_nat n)) as [x Hx]; [simpl; lia|]. by rewrite Hx.
  - rewrite lookup_ge_None_2; [done|]. simpl. lia.
Qed.

(** The registers of the interrupted code, as the handler finds them. *)
Lemma saved_reg ss cs e n s m i :
  irq_ok ss cs s -> irq_saved ss cs e n s m -> (i < 15)%nat ->
  ctx_reg m (irq_frame s) (14 - Z.of_nat i) = default 0 (cpu_regs (k_cpu s) !! i).
Proof.
  intros [_ _ [Hlen _] _] Hsv Hi.
  assert (frame_words m (irq_frame s) 15 !! (14 - i)%nat = Some (default 0 (cpu_regs (k_cpu s) !! i))) as H.
  { rewrite (is_regs _ _ _ _ _ _ Hsv), rev_alt. fold (reverse (cpu_regs (k_cpu s))). rewrite reverse_lookup by lia. rewrite Hlen.
    replace (15 - S (14 - i))%nat with i by lia.
    destruct (lookup_lt_is_Some_2 (cpu_regs (k_cpu s)) i) as [x Hx]; [lia|]. by rewrite Hx. }
  rewrite <- (frame_word _ _ _ _ _ H). unfold ctx_reg. f_equal. lia.
Qed.

Lemma fault_report_run ss cs e n cr2 s s1 m :
  irq_ok ss cs s -> irq_saved ss cs e n s m -> 0 <= n -> k_mem s1 = m ->
  fault_report cr2 (irq_frame s) s1 =
    if n <=? 30 then Done (tt, set_klog (k_log s1 ++ fault_lines n e cr2 s) s1)
    else Stopped (Fault "exception_strings[int_no]").
Proof.
  intros Hok Hsv Hn Hm. unfold fault_report. rewrite gets_bind. cbv zeta. rewrite Hm.
  pose proof (fun i => saved_reg ss cs e n s m i Hok Hsv) as Hr.
  rewrite (is_int_no _ _ _ _ _ _ Hsv), (is_err _ _ _ _ _ _ Hsv).
  destruct (is_cpu _ _ _ _ _ _ Hsv) as (-> & _ & ->).
  unfold fault_lines. rewrite <- !Hr by lia. clear Hr.
  rewrite klog_raw_bind. unfold mbind at 1, ST_bind at 1. rewrite exception_name_run by done.
  destruct (n <=? 30); [|done]. rewrite !klog_bind. cbn [k_log set_klog].
  destruct (n =? 14); unfold when, klog, modify; cbn [k_log set_klog]; rewrite <- !app_assoc; reflexivity.
Qed.

(** ** Theorems *)

(** C23. [init_idt] makes a table in which vectors 0 to 31 are gates to the exception
    stubs and 32 to 47 gates to the interrupt stubs, with the kernel's code
    segment, at privilege level 0, interrupts off on entry; the other vectors
    are absent; it gives the processor that table, all 256 entries of it; the
    controllers deliver their lines at vectors 32 and 40 with nothing masked;
    interrupts are on, and memory elsewhere is what it was. *)
Theorem init_idt_correct (isr irq : Z -> Z) (table ptr : Z) (s : kstate)
    (Hisr : forall i, 0 <= i < 32 -> 0 <= isr i < 2 ^ 64)
    (Hirq : forall i, 0 <= i < 16 -> 0 <= irq i < 2 ^ 64)
    (Htable : 0 <= table < 2 ^ 64)
    (Hptr : ptr + 10 <= table \/ table + 4096 <= ptr) :
  exists s', init_idt isr irq table ptr s = Done ((4095, table), s') /\
    (forall v, 0 <= v < 48 -> vector_gate (k_mem s') (4095, table) v =
       Some (Gate (if v <? 32 then isr v else irq (v - 32)) 8 0 14 0 true)) /\
    (forall v, 48 <= v < 256 -> exists g, vector_gate (k_mem s') (4095, table) v = Some g /\ g_present g = false) /\
    pics_after (k_out s') = (Pic 0 32 0, Pic 0 40 0) /\
    cpu_if (k_cpu s') = true /\
    (forall a, ~ (table <= a < table + 4096) -> ~ (ptr <= a < ptr + 10) -> mget (k_mem s') a = mget (k_mem s) a).
Proof.
  destruct (init_idt_run isr irq table ptr Hisr Hirq Htable Hptr s) as (s' & H & Hi).
  exists s'. split; [done|]. split; [intros v Hv; by rewrite (ir_gates _ _ _ _ _ _ Hi)|]. split.
  { intros v Hv. unfold vector_gate. cbn [fst snd]. unfold IDT_ENTRY_SIZE.
    destruct (16 * v + 15 <=? 4095) eqn:E; [|lia]. eexists. split; [reflexivity|].
    apply (ir_absent _ _ _ _ _ _ Hi v); [done|]. unfold vector_gate. cbn [fst snd]. unfold IDT_ENTRY_SIZE. by rewrite E. }
  split; [by rewrite (ir_out _ _ _ _ _ _ Hi), remapped|]. split; [by rewrite (ir_cpu _ _ _ _ _ _ Hi)|].
  apply Hi.
Qed.

(** C22. A device interrupt is transparent: for lines 1 to 15 the code it interrupts
    goes on with the processor as it was (registers, flags, stack pointer, CR3),
    memory changed only in the 176 bytes below its rounded stack pointer, which
    the stub's frame takes (the C++ handler's own frames, which the compiler
    lays out, lie below these and are not described); the controllers have their
    end of interrupt; the keyboard's scancode is at the end of the queue and not
    logged, another line is (the comment in interrupt_handler says that any
    line but 0 is).  With a full queue the keyboard's handler stops in its
    assertion. *)
Theorem device_interrupt_transparent (ss cs n resume scan : Z) (q : list Z) (shift : bool) (s : kstate)
    (Hok : irq_ok ss cs s) (Hn : 33 <= n < 48) (Hk : holds s q shift) :
  if (n =? 33) && (scancode_queue_max <=? Z.of_nat (length q))
  then (cpu_interrupt ss cs ;; irq_stub n (interrupt_handler resume scan)) s =
    Stopped (AssertFailed "scancode_queue_sz < scancode_queue_max")
  else exists s', (cpu_interrupt ss cs ;; irq_stub n (interrupt_handler resume scan)) s = Done (tt, s') /\
    k_cpu s' = k_cpu s /\ agree_outside (k_mem s') (k_mem s) (irq_frame s) 176 /\
    k_out s' = k_out s ++ eoi_bytes n /\
    holds s' (if n =? 33 then q ++ [u8 scan] else q) shift /\
    k_log s' = k_log s ++ (if n =? 33 then [] else [KLogCall "int" "Recieved IRQ %d, handled." [KNum (n - 32)]]) /\
    k_heap s' = k_heap s /\ k_pmm s' = k_pmm s /\ k_vmm s' = k_vmm s /\ k_sched s' = k_sched s.
Proof.
  destruct (irq_run ss cs n (interrupt_handler resume scan) s Hok ltac:(lia)) as (m & Hsv & Hstop & Hrun).
  pose proof (device_run resume scan _ n (in_handler m s) (is_int_no _ _ _ _ _ _ Hsv) Hn) as Hd.
  rewrite Hd in Hstop. setoid_rewrite Hd in Hrun. clear Hd. pose proof (is_outside _ _ _ _ _ _ Hsv) as Hout.
  unfold device_effect in *. destruct (n =? 33) eqn:En; cbn [andb].
  - assert (holds (in_handler m s) q shift) as Hk2 by exact Hk.
    pose proof (receive_run (in_handler m s) q shift (u8 scan) Hk2 (u8_range _)) as Hr.
    unfold ps2_on_interrupt in *. destruct (scancode_queue_max <=? Z.of_nat (length q)) eqn:Eq.
    + assert ((Z.of_nat (length q) <? scancode_queue_max) = false) as Hlt by lia. rewrite Hlt in Hr.
      apply Hstop. by apply bind_stopped.
    + assert ((Z.of_nat (length q) <? scancode_queue_max) = true) as Hlt by lia. rewrite Hlt in Hr.
      destruct Hr as (k & Hr & Hk3 & Hsh).
      eexists. split; [eapply Hrun|]; [rewrite (bind_done _ _ _ _ _ Hr); apply send_eoi_run|done|done|].
      split; [by apply (restored_cpu s m)|]. split; [exact Hout|]. split; [done|].
      split; [done|]. split; [by rewrite app_nil_r|done].
  - eexists. split; [eapply Hrun|]; [rewrite klog_bind; apply send_eoi_run|done|done|].
    split; [by apply (restored_cpu s m)|]. split; [exact Hout|]. done.
Qed.

(** C1. Preemption is transparent: a thread the timer interrupts, with room on its
    stack for the two frames, acknowledges the interrupt and calls [Schedule]
    with interrupts on; if that gives the processor to another thread, then
    however the others run, create threads and are preempted, when [Schedule]
    comes back to the thread it goes on at the instruction it was at, with the
    registers, flags and stack pointer it had, and its stack what it was. *)
Theorem preempted_thread_resumes (resume ss cs : Z) (L0 L2 : layout) (s s0 s1 s2 s3 : kstate) (r : Z)
    (Hresume : is_word resume) (HI : sched_inv L0 s) (Hok : irq_ok ss cs s)
    (Hroom : ly_lo L0 (current s) + 304 <= irq_base s)
    (Htimer : timer_prologue ss cs s = Done (r, s0))
    (Hout : Schedule resume s0 = Done (tt, s1)) (Hoff : current s1 <> current s)
    (Hsteps : rtc (step_off resume (current s)) (L0, s1) (L2, s2))
    (Hin : Schedule resume s2 = Done (tt, s3)) (Hon : current s3 = current s) :
  sched_inv L0 s0 /\ k_out s0 = k_out s ++ [(32, 32)] /\ cpu_if (k_cpu s0) = true /\
  exists s4, irq_exit s3 = Done (tt, s4) /\ cpu_ctx s4 = cpu_ctx s /\ cpu_if (k_cpu s4) = cpu_if (k_cpu s) /\
    flags_word (k_cpu s4) = flags_word (k_cpu s) /\
    forall a, cpu_rsp (k_cpu s) <= a < ly_hi L0 (current s) -> mget (k_mem s4) a = mget (k_mem s) a.
Proof.
  destruct (prologue_run ss cs s Hok) as (m & Hsv & Hrun & _). rewrite Hrun in Htimer. injection Htimer as <- <-.
  split; [exact (activity_inv _ _ _ HI (preempted_activity L0 ss cs s m HI Hok Hsv Hroom))|].
  split; [done|]. split; [done|].
  destruct (preempted_return resume L0 L2 ss cs s m s1 s2 s3 Hresume HI Hok Hsv Hroom Hout Hoff Hsteps Hin Hon)
    as [Hexit Hmem].
  exists (restored s s3). split; [exact Hexit|]. do 3 (split; [reflexivity|]). exact Hmem.
Qed.

(** The timer's stub is the prologue, [Schedule] and the exit. *)
Theorem timer_interrupt_schedules (ss cs resume scan : Z) (s : kstate) (Hok : irq_ok ss cs s) :
  (cpu_interrupt ss cs ;; irq_stub 32 (interrupt_handler resume scan)) s =
    (timer_prologue ss cs ;; Schedule resume ;; irq_exit) s /\
  (schedulingEnabled (k_sched s) = false ->
   exists s', (cpu_interrupt ss cs ;; irq_stub 32 (interrupt_handler resume scan)) s = Done (tt, s') /\
     k_cpu s' = k_cpu s /\ agree_outside (k_mem s') (k_mem s) (irq_frame s) 176 /\
     k_out s' = k_out s ++ [(32, 32)] /\ k_sched s' = k_sched s).
Proof.
  destruct (prologue_run ss cs s Hok) as (m & Hsv & Hrun & Hall). split.
  - by rewrite Hall, (bind_done _ _ _ _ _ Hrun).
  - intros Hoff. rewrite Hall, (bind_done _ _ _ _ _ (schedule_off resume (preempted m s) Hoff)).
    exists (restored s (preempted m s)). split; [by eapply irq_exit_run|].
    split; [unfold restored; cbn; by destruct (k_cpu s)|]. split; [apply Hsv|done].
Qed.

(** C24. An exception is reported and halts the machine: whether the processor pushes
    an error code for it or the stub pushes 0, the handler finds the vector, the
    code and the registers of the code that raised it, and logs them.  For
    vector 31 it reads behind the table of names. *)
Theorem fault_reported (ss cs n e cr2 : Z) (s : kstate)
    (Hok : irq_ok ss cs s) (He : is_word e) (Hn : 0 <= n < 32) :
  let err := if has_error_code n then e else 0 in
  (exists r s1, fault_entry ss cs n e s = Done (r, s1) /\ k_log s1 = k_log s /\
     agree_outside (k_mem s1) (k_mem s) (irq_frame s) 176 /\
     fault_report cr2 r s1 =
       if n <=? 30 then Done (tt, set_klog (k_log s ++ fault_lines n err cr2 s) s1)
       else Stopped (Fault "exception_strings[int_no]")) /\
  (cpu_exception ss cs (pushed_error n e) ;; isr_stub n (fault_handler cr2)) s =
    Stopped (if n <=? 30 then Halted else Fault "exception_strings[int_no]").
Proof.
  intros err. destruct (exception_enter ss cs n e s Hok He Hn) as (m & Hsv & Hent & Hall). fold err in Hsv.
  split.
  - exists (irq_frame s), (in_handler m s). split; [done|]. split; [done|]. split; [apply Hsv|].
    apply (fault_report_run ss cs err n cr2 s (in_handler m s) m); [done|done|lia|done].
  - rewrite Hall. apply bind_stopped. unfold fault_handler. rewrite gets_bind, klog_bind.
    change (k_mem (in_handler m s)) with m. rewrite (is_int_no _ _ _ _ _ _ Hsv).
    assert ((n <? 32) = true) as -> by lia. cbn [when].
    set (s1 := set_klog _ _). pose proof (fault_report_run ss cs err n cr2 s s1 m Hok Hsv ltac:(lia) eq_refl) as Hr.
    destruct (n <=? 30); [by rewrite (bind_done _ _ _ _ _ Hr)|by rewrite (bind_stopped _ _ _ _ Hr)].
Qed.

(** ** Witnesses *)

Lemma init_idt_correct_witness :
  exists s', init_idt (fun i => KERNEL_VMB + 16 * i) (fun i => KERNEL_VMB + 4096 + 16 * i) (KERNEL_VMB + 8192)
    (KERNEL_VMB + 4096) sample_keys = Done ((4095, KERNEL_VMB + 8192), s') /\ cpu_if (k_cpu s') = true.
Proof.
  destruct (init_idt_correct (fun i => KERNEL_VMB + 16 * i) (fun i => KERNEL_VMB + 4096 + 16 * i) (KERNEL_VMB + 8192)
    (KERNEL_VMB + 4096) sample_keys) as (s' & H & _ & _ & _ & Hif & _).
  - intros i Hi. unfold KERNEL_VMB. change (2 ^ 64) with 18446744073709551616. lia.
  - intros i Hi. unfold KERNEL_VMB. change (2 ^ 64) with 18446744073709551616. lia.
  - vm_compute. split; [discriminate|reflexivity].
  - unfold KERNEL_VMB. lia.
  - exists s'. split; [exact H|exact Hif].
Defined.

Lemma sample_irq_ok : irq_ok 16 8 sample_two.
Proof.
  split.
  - vm_compute. discriminate.
  - repeat split; vm_compute; (discriminate || reflexivity).
  - exact (proj2 (si_room _ _ (proj2 sample_two_ok))).
  - vm_compute. reflexivity.
Qed.

Lemma sample_two_keys : holds sample_two [] false.
Proof.
  assert (k_kbd sample_two = Kbd ∅ 0 false) as Hk by (vm_compute; reflexivity).
  unfold holds. rewrite Hk. exact sample_keys_empty.
Qed.

(** A key is pressed. *)
Lemma device_interrupt_transparent_witness :
  exists s', (cpu_interrupt 16 8 ;; irq_stub 33 (interrupt_handler sample_resume 30)) sample_two = Done (tt, s') /\
    k_cpu s' = k_cpu sample_two /\ holds s' [30] false.
Proof.
  pose proof (device_interrupt_transparent 16 8 33 sample_resume 30 [] false sample_two sample_irq_ok ltac:(lia)
    sample_two_keys) as H.
  destruct H as (s' & H1 & H2 & _ & _ & H3 & _).
  exists s'. split; [exact H1|]. split; [exact H2|exact H3].
Defined.

Lemma timer_interrupt_schedules_witness :
  (cpu_interrupt 16 8 ;; irq_stub 32 (interrupt_handler sample_resume 0)) sample_two =
    (timer_prologue 16 8 ;; Schedule sample_resume ;; irq_exit) sample_two.
Proof. exact (proj1 (timer_interrupt_schedules 16 8 sample_resume 0 sample_two sample_irq_ok)). Defined.

Definition sample_ticked : kstate := state_after (timer_prologue 16 8 sample_two).
Definition sample_other : kstate := state_after (Schedule sample_resume sample_ticked).
Definition sample_again : kstate := state_after (Schedule sample_resume sample_other).

Lemma sample_ticked_done : exists r, timer_prologue 16 8 sample_two = Done (r, sample_ticked).
Proof. apply (finished_done (timer_prologue 16 8 sample_two)). vm_compute. reflexivity. Qed.
Lemma sample_other_done : Schedule sample_resume sample_ticked = Done (tt, sample_other).
Proof.
  destruct (finished_done (Schedule sample_resume sample_ticked)) as [[] H]; [vm_compute; reflexivity|exact H].
Qed.
Lemma sample_again_done : Schedule sample_resume sample_other = Done (tt, sample_again).
Proof.
  destruct (finished_done (Schedule sample_resume sample_other)) as [[] H]; [vm_compute; reflexivity|exact H].
Qed.

(** The idle thread is preempted, the second thread runs, and is left. *)
Lemma preempted_thread_resumes_witness :
  current sample_other = sample_thread /\
  exists s4, irq_exit sample_again = Done (tt, s4) /\ cpu_ctx s4 = cpu_ctx sample_two.
Proof.
  assert (current sample_other = sample_thread) as H1 by (vm_compute; reflexivity).
  assert (current sample_again = current sample_two) as H2 by (vm_compute; reflexivity).
  destruct sample_ticked_done as [r Hr].
  destruct (preempted_thread_resumes sample_resume 16 8 sample_layout2 sample_layout2 sample_two sample_ticked
    sample_other sample_other sample_again r sample_resume_word (proj2 sample_two_ok) sample_irq_ok
    ltac:(vm_compute; discriminate) Hr sample_other_done ltac:(vm_compute; discriminate) (rtc_refl _ _)
    sample_again_done H2) as (_ & _ & _ & s4 & H3 & H4 & _).
  split; [exact H1|]. exists s4. split; [exact H3|exact H4].
Defined.

(** A page fault. *)
Lemma fault_reported_witness :
  (cpu_exception 16 8 (Some 2) ;; isr_stub 14 (fault_handler 4096)) sample_two = Stopped Halted.
Proof.
  assert (is_word 2) as Hw by (vm_compute; split; [discriminate|reflexivity]).
  exact (proj2 (fault_reported 16 8 14 2 4096 sample_two sample_irq_ok Hw ltac:(lia))).
Defined.
