(* ===== verification/KernelMain.v ===== *)
(** The main function of the kernel and its threads (src/src/lobo/main.cpp):
    the scheduler is initialised, four threads are created, the state of two
    of them is set by hand, and scheduling starts. *)

From S2P Require Import Prelude Memory AwdAlloc Lobo KernelBitset Pmm KernelHeap KernelList KernelEarly Scheduler Budget Threads Keyboard KernelLog Debugger.
Local Open Scope Z_scope.
Local Open Scope mach_scope.

(** ** The threads: one iteration of each loop *)

(** [frame] and [arrivals] are the debugger's. *)
Definition thread_read_keyboard (frame : mem) (arrivals : list (list Z)) : ST kstate (list (list Z)) :=
  c ← getchar_async;
  if c =? 126 then enter frame arrivals
  else when (negb (c =? 0)) (kwrite_char c) ;; mret arrivals.

Definition test_thread2 (resume : Z) : ST kstate unit := Yield resume.

Definition test_thread3 (resume : Z) (frame : mem) (arrivals : list (list Z)) : ST kstate (list (list Z)) :=
  klog "lobo" "Entered k/test_dead" [] ;;
  rest ← enter frame arrivals;
  Yield resume ;;
  mret rest.

Definition test_thread4 (resume : Z) (frame : mem) (arrivals : list (list Z)) : ST kstate (list (list Z)) :=
  klog "lobo" "Entered k/test_waiting" [] ;;
  rest ← enter frame arrivals;
  Yield resume ;;
  mret rest.

(** ** kernel_main *)

(** What the linker provides: the resumption address of [SwitchThread], the
    scheduler's literals, and name and function of the four threads. *)
Record image := Image {
  im_resume : Z; im_kernel : Z; im_idle : Z;
  im_keyboard : Z * Z; im_test2 : Z * Z; im_dead : Z * Z; im_waiting : Z * Z;
}.

(** The last call, [cpu::IdleLoop], halts until the next interrupt, forever:
    the result is the state it idles in. *)
Definition kernel_main (im : image) : ST kstate unit :=
  klog "lobo" "Entered Kernel Main" [] ;;
  debug_print_free_memory ;;
  Scheduler_Init (im_resume im) (im_kernel im) (im_idle im) ;;
  CreateThread (im_keyboard im).1 (im_keyboard im).2 ;;
  CreateThread (im_test2 im).1 (im_test2 im).2 ;;
  deadThread ← CreateThread (im_dead im).1 (im_dead im).2;
  waitingThread ← CreateThread (im_waiting im).1 (im_waiting im).2;
  set_state deadThread Dead ;;
  set_state waitingThread Waiting ;;
  EnableScheduling ;;
  klog "lobo" "Entered idle thread" [].

(** ** Creating several threads *)

Fixpoint create_all (l : list (Z * Z)) : ST kstate (list Z) :=
  match l with
  | [] => mret []
  | x :: l' => t ← CreateThread x.1 x.2; ts ← create_all l'; mret (t :: ts)
  end.

(** There is what [k] calls of [CreateThread] need, besides memory. *)
Definition create_ready (s : kstate) (k : Z) : Prop :=
  earlyAllocLimit (k_heap s) + 8 + THREAD_STACK_SIZE < 2 ^ 64 /\
  currentTask (k_sched s) <> 0 /\
  (forall a, currentTask (k_sched s) <= a < currentTask (k_sched s) + 16 -> client_byte s a) /\
  0 <= next_tid (k_sched s) /\ next_tid (k_sched s) + k <= 2147483647.

Definition fresh_thread (m : mem) (x : Z * Z) (t : Z) : Prop :=
  threadName m t = x.1 /\ tcb_state m t = state_code Ready /\ c_rip (saved_ctx m t) = x.2.

(** The control blocks and the stacks of [L] are in [m'] what they are in [m]. *)
Definition threads_kept (L : layout) (m m' : mem) : Prop :=
  forall t a, t ∈ ly_tcbs L -> tcb_byte t a \/ stack_byte L t a -> mget m' a = mget m a.

Lemma created_step L s x k t L' s' :
  sched_inv L s -> create_ready s (k + 1) -> created x.1 x.2 L s t L' s' ->
  create_ready s' k /\ threads_kept L (k_mem s) (k_mem s') /\ ly_tcbs L' = ly_tcbs L ++ [t] /\
  current s' = current s /\ index s' = index s /\ schedulingEnabled (k_sched s') = schedulingEnabled (k_sched s) /\
  (forall u a, u ∈ ly_tcbs L -> stack_byte L u a -> stack_byte L' u a) /\
  exists stk tid task, new_thread (k_mem s') t stk x.1 x.2 tid task /\
    (forall a, tcb_byte t a \/ stk <= a < stk + THREAD_STACK_SIZE -> tcb_byte t a \/ stack_byte L' t a).
Proof.
  intros HI (H1 & H2 & H3 & H4 & H5) [HI' (node & stk & -> & Hnt) [l Hsc] Hold _ Hlim Hcl _].
  assert (t ∉ ly_tcbs L) as Hfresh.
  { intros Ht. pose proof (lo_nodup _ (si_layout _ _ HI')) as Hnd.
    apply NoDup_app in Hnd as (_ & Hnd & _). apply (Hnd t Ht). left. }
  split; [|split; [|split; [done|]]].
  - unfold create_ready. rewrite Hlim, Hsc. cbn. split; [done|]. split; [done|]. split; [|lia].
    intros a Ha. apply Hcl, H3. exact Ha.
  - intros u a Hu Ha. apply Hold; [by apply (si_client _ _ HI u)|]. intros n Hn Hna.
    destruct (lo_nodes _ (si_layout _ _ HI) n u a Hn Hu Hna). tauto.
  - unfold current, index. rewrite Hsc. do 3 (split; [done|]). split.
    + intros u a Hu. unfold stack_byte. cbn. by rewrite !decide_False by congruence.
    + exists stk, (next_tid (k_sched s)), (task_taskID (k_mem s) (currentTask (k_sched s))). split; [exact Hnt|].
      intros a [Ha|Ha]; [by left|right]. unfold stack_byte. cbn. by rewrite !decide_True by done.
Qed.

Lemma create_ready_ok s k x :
  create_ready s k -> 1 <= k -> is_word x.1 -> is_word x.2 -> create_ok s x.1 x.2.
Proof. intros (H1 & H2 & H3 & H4 & H5) Hk Hn Hf. split; [exact H1|]. split; [exact H2|]. split; [exact H3|]. split; [lia|done]. Qed.

Lemma create_all_run l L s :
  sched_inv L s -> create_ready s (Z.of_nat (length l)) -> Forall (fun x => is_word x.1 /\ is_word x.2) l ->
  create_all l s = Stopped out_of_memory \/
  exists ts L' s', create_all l s = Done (ts, s') /\ sched_inv L' s' /\ ly_tcbs L' = ly_tcbs L ++ ts /\
    Forall2 (fresh_thread (k_mem s')) l ts /\ threads_kept L (k_mem s) (k_mem s') /\
    current s' = current s /\ index s' = index s /\ schedulingEnabled (k_sched s') = schedulingEnabled (k_sched s) /\
    cpu_cr3 (k_cpu s') = cpu_cr3 (k_cpu s) /\
    (forall a, spared L s a -> spared L' s' a /\ mget (k_mem s') a = mget (k_mem s) a).
Proof.
  revert L s. induction l as [|x l IH]; intros L s HI Hr Hw.
  - right. exists [], L, s. rewrite app_nil_r. do 8 (split; [done|]). split; [done|]. by split.
  - apply Forall_cons in Hw as [[Hw1 Hw2] Hw]. cbn [create_all length] in *. rewrite Nat2Z.inj_succ in Hr.
    destruct (CreateThread_run L s x.1 x.2 HI (create_ready_ok s _ x Hr ltac:(lia) Hw1 Hw2)) as [H|(t & L1 & s1 & H & Hc)].
    { left. by apply bind_stopped. }
    pose proof (cr_inv _ _ _ _ _ _ _ Hc) as HI1.
    destruct (created_step L s x _ t L1 s1 HI Hr Hc) as (Hr1 & K1 & Ht1 & C1 & I1 & E1 & S1 & stk & tid & task & Hnt & Hst).
    rewrite (bind_done _ _ _ _ _ H). destruct (IH L1 s1 HI1 Hr1 Hw) as [H2|(ts & L' & s' & H2 & HI' & Ht' & F' & K' & C' & I' & E' & R' & P')].
    { left. by apply bind_stopped. }
    right. exists (t :: ts), L', s'. rewrite (bind_done _ _ _ _ _ H2). split; [done|]. split; [done|].
    split; [rewrite Ht', Ht1; by rewrite <- app_assoc|].
    split; [|split; [|split; [congruence|split; [congruence|split; [congruence|split; [|]]]]]].
    + constructor; [|done]. assert (new_thread (k_mem s') t stk x.1 x.2 tid task) as [N1 _ N2 _ _ N3].
      { eapply new_thread_ext; [|exact Hnt]. intros a Ha. apply (K' t); [|by apply Hst].
        rewrite Ht1. apply elem_of_app. right. left. }
      unfold fresh_thread. by rewrite N1, N2, N3.
    + intros u a Hu Ha. rewrite (K' u); [by apply (K1 u)| |].
      * rewrite Ht1. apply elem_of_app. by left.
      * destruct Ha as [Ha|Ha]; [by left|right; by apply S1].
    + rewrite R'. apply (cr_cpu _ _ _ _ _ _ _ Hc).
    + intros a Ha. destruct (P' a (cr_spared _ _ _ _ _ _ _ Hc a Ha)) as [P1 P2]. split; [exact P1|].
      rewrite P2. destruct Ha as (G1 & G2 & _). by apply (cr_old _ _ _ _ _ _ _ Hc).
Qed.

(** Setting the state of a thread that is off the processor. *)
Lemma set_state_inv L s t st :
  sched_inv L s -> t ∈ ly_tcbs L -> t <> current s -> st <> Running ->
  sched_inv L (set_kmem (store32 (k_mem s) (t + 8) (state_code st)) s).
Proof.
  intros HI Ht Hne Hst. set (s' := set_kmem _ s).
  assert (forall a, ~ tcb_byte t a -> mget (k_mem s') a = mget (k_mem s) a) as Hm.
  { intros a Ha. apply store_state_get. unfold tcb_byte, TCB_SIZE in Ha. lia. }
  assert (forall u, stack_top (k_mem s') u = stack_top (k_mem s) u \/ ~ u ∈ ly_tcbs L) as Htop.
  { intros u. destruct (decide (u ∈ ly_tcbs L)) as [Hu|]; [left|by right]. apply load_top_get. intros a Ha.
    destruct (decide (u = t)) as [->|Hut]; [apply store_state_get; lia|]. apply Hm.
    destruct (tcbs_apart L u t (si_layout _ _ HI) Hu Ht Hut); unfold tcb_byte, TCB_SIZE in *; lia. }
  split; try apply HI.
  - by apply (heap_ready_same s s'), HI.
  - apply (list_kept_mem L s); [done..|]. intros n a Hn Ha. apply Hm.
    by destruct (lo_nodes _ (si_layout _ _ HI) n t a Hn Ht Ha).
  - intros u Hu Huc. destruct (Htop u) as [E|]; [|done]. unfold parked. rewrite E. by apply HI.
  - intros u Hu Huc. destruct (decide (u = t)) as [->|Hut].
    + change (k_mem s') with (store32 (k_mem s) (t + 8) (state_code st)). rewrite load_state_eq. by destruct st.
    + rewrite (load_state_get (k_mem s)); [by apply HI|]. intros a Ha. apply Hm.
      destruct (tcbs_apart L u t (si_layout _ _ HI) Hu Ht Hut); unfold tcb_byte, TCB_SIZE in *; lia.
Qed.

Lemma fresh_state L s t u st x :
  sched_inv L s -> t ∈ ly_tcbs L -> u ∈ ly_tcbs L -> t <> u -> t <> current s ->
  fresh_thread (k_mem s) x t -> fresh_thread (store32 (k_mem s) (u + 8) (state_code st)) x t.
Proof.
  intros HI Ht Hu Hne Hc (H1 & H2 & H3). set (m' := store32 _ _ _).
  assert (forall a, ~ tcb_byte u a -> mget m' a = mget (k_mem s) a) as Hm.
  { intros a Ha. apply store_state_get. unfold tcb_byte, TCB_SIZE in Ha. lia. }
  assert (forall a, tcb_byte t a -> mget m' a = mget (k_mem s) a) as Htb.
  { intros a Ha. apply Hm. destruct (tcbs_apart L t u (si_layout _ _ HI) Ht Hu Hne); unfold tcb_byte, TCB_SIZE in *; lia. }
  unfold tcb_byte, TCB_SIZE in Htb. destruct (saved_ctx_ext (k_mem s) m' t) as [E1 E2].
  - intros a Ha. apply Htb. lia.
  - intros a Ha. apply Hm. apply (lo_stack_tcb _ (si_layout _ _ HI) t u a Ht Hu).
    destruct (si_parked _ _ HI t Ht Hc). unfold stack_byte. lia.
  - split; [|split; [|by rewrite E1]].
    + rewrite <- H1. apply (load_ext 8). intros a Ha. apply Htb. lia.
    + rewrite <- H2. apply load_state_get. intros a Ha. apply Htb. lia.
Qed.

Lemma print_free_run s : pmm_ok s ->
  exists out, debug_print_free_memory s = Done (tt, set_klog (k_log s ++ out) s).
Proof.
  intros Hok. unfold debug_print_free_memory. rewrite gets_bind, (bind_done _ _ _ _ _ (count_all_run s 0 Hok ltac:(lia))).
  cbv zeta. rewrite klog_bind. unfold klog, modify. eexists. do 2 f_equal. cbn [k_log set_klog]. rewrite <- app_assoc.
  by destruct s.
Qed.

Lemma init_ok_log lo hi s out : init_ok lo hi s -> init_ok lo hi (set_klog out s).
Proof. intros [H1 ? ? ? ? ? ? ? ? ? ? ?]. split; try done. by apply (heap_ready_same s). Qed.

(** [kernel_main] as a list of creations. *)
Lemma kernel_main_creates im s :
  kernel_main im s =
    (klog "lobo" "Entered Kernel Main" [] ;;
     debug_print_free_memory ;;
     Scheduler_Init (im_resume im) (im_kernel im) (im_idle im) ;;
     ts ← create_all [im_keyboard im; im_test2 im; im_dead im; im_waiting im];
     match ts with
     | [_; _; dead; waiting] =>
         set_state dead Dead ;; set_state waiting Waiting ;; EnableScheduling ;; klog "lobo" "Entered idle thread" []
     | _ => skip
     end) s.
Proof.
  unfold kernel_main, create_all, mbind, ST_bind, mret, ST_ret.
  destruct (klog _ _ _ s) as [[? s0]|]; [|done]. destruct (debug_print_free_memory s0) as [[? s1]|]; [|done].
  destruct (Scheduler_Init _ _ _ s1) as [[? s2]|]; [|done].
  destruct (CreateThread (im_keyboard im).1 _ s2) as [[? s3]|]; [|done].
  destruct (CreateThread (im_test2 im).1 _ s3) as [[? s4]|]; [|done].
  destruct (CreateThread (im_dead im).1 _ s4) as [[? s5]|]; [|done].
  by destruct (CreateThread (im_waiting im).1 _ s5) as [[? s6]|].
Qed.

(** What [kernel_main] needs: a machine on which [Init] may run, a page manager,
    and the numbers of the image. *)
Record main_ready (lo hi : Z) (im : image) (s : kstate) : Prop := {
  mr_init : init_ok lo hi s;
  mr_cr3 : cpu_cr3 (k_cpu s) = MEM_VIRT_TO_PHYS (pdir_kernel (k_vmm s));
  mr_pmm : pmm_ok s;
  mr_room : earlyAllocLimit (k_heap s) + 8 + THREAD_STACK_SIZE < 2 ^ 64;
  mr_tid : 0 <= next_tid (k_sched s) /\ next_tid (k_sched s) + 4 <= 2147483647;
  mr_words : is_word (im_resume im) /\ Forall (fun x => is_word x.1 /\ is_word x.2)
    [im_keyboard im; im_test2 im; im_dead im; im_waiting im];
}.

(** Up to the creation of the threads. *)
Lemma main_start_run lo hi im s :
  main_ready lo hi im s ->
  exists s1, init_ok lo hi s1 /\ k_sched s1 = k_sched s /\ k_heap s1 = k_heap s /\
    k_cpu s1 = k_cpu s /\ k_vmm s1 = k_vmm s /\ k_pmm s1 = k_pmm s /\ k_mem s1 = k_mem s /\
    forall B (k : unit -> ST kstate B),
      (klog "lobo" "Entered Kernel Main" [] ;; debug_print_free_memory ;; k tt) s = k tt s1.
Proof.
  intros [Hi _ Hp _ _ _]. set (s0 := set_klog (k_log s ++ [KLogCall "lobo" "Entered Kernel Main" []]) s).
  destruct (print_free_run s0 Hp) as (out & H). exists (set_klog (k_log s0 ++ out) s0).
  split; [by apply init_ok_log, init_ok_log|]. do 6 (split; [done|]).
  intros B k. rewrite klog_bind. fold s0. by rewrite (bind_done _ _ _ _ _ H).
Qed.

(** The system [kernel_main] leaves: threads [idle], [t1] ... [t4]. *)
Record main_done (im : image) (idle t1 t2 t3 t4 : Z) (L : layout) (s : kstate) : Prop := {
  md_inv : sched_inv L s;
  md_tcbs : ly_tcbs L = [idle; t1; t2; t3; t4];
  md_current : current s = idle /\ index s = 0 /\ schedulingEnabled (k_sched s) = true;
  md_ready : fresh_thread (k_mem s) (im_keyboard im) t1 /\ fresh_thread (k_mem s) (im_test2 im) t2;
  md_parked : tcb_state (k_mem s) t3 = state_code Dead /\ tcb_state (k_mem s) t4 = state_code Waiting;
}.

Lemma inv_log L s out : sched_inv L s -> sched_inv L (set_klog out s).
Proof.
  intros HI. apply (activity_inv L s); [done|]. split; try done.
  - exists (schedulingEnabled (k_sched s)). by destruct s as [? ? ? ? [] ? ? ? ? ?].
  - by apply (heap_ready_same s), HI.
  - apply HI.
Qed.

Lemma distinct_at (l : list Z) i j x y : NoDup l -> l !! i = Some x -> l !! j = Some y -> i <> j -> x <> y.
Proof. intros Hnd Hi Hj Hne ->. apply Hne. by eapply NoDup_lookup. Qed.

Lemma set_states_run im idle t1 t2 t3 t4 L s :
  sched_inv L s -> ly_tcbs L = [idle; t1; t2; t3; t4] -> current s = idle -> index s = 0 ->
  Forall2 (fresh_thread (k_mem s)) [im_keyboard im; im_test2 im; im_dead im; im_waiting im] [t1; t2; t3; t4] ->
  exists s', (set_state t3 Dead ;; set_state t4 Waiting ;; EnableScheduling ;; klog "lobo" "Entered idle thread" []) s = Done (tt, s') /\
    main_done im idle t1 t2 t3 t4 L s' /\ cpu_cr3 (k_cpu s') = cpu_cr3 (k_cpu s) /\
    (forall a, spared L s a -> mget (k_mem s') a = mget (k_mem s) a).
Proof.
  intros HI Ht Hc Hi Hf. inversion Hf as [|? ? ? ? F1 Hf1]; subst. inversion Hf1 as [|? ? ? ? F2 _]; subst.
  pose proof (lo_nodup _ (si_layout _ _ HI)) as Hnd. rewrite Ht in Hnd.
  pose proof (fun i j x y => distinct_at _ i j x y Hnd) as Hne.
  pose proof (Hne 0%nat 1%nat _ _ eq_refl eq_refl ltac:(done)) as A1. pose proof (Hne 0%nat 2%nat _ _ eq_refl eq_refl ltac:(done)) as A2.
  pose proof (Hne 0%nat 3%nat _ _ eq_refl eq_refl ltac:(done)) as A3. pose proof (Hne 0%nat 4%nat _ _ eq_refl eq_refl ltac:(done)) as A4.
  pose proof (Hne 1%nat 3%nat _ _ eq_refl eq_refl ltac:(done)) as B3. pose proof (Hne 1%nat 4%nat _ _ eq_refl eq_refl ltac:(done)) as B4.
  pose proof (Hne 2%nat 3%nat _ _ eq_refl eq_refl ltac:(done)) as C3. pose proof (Hne 2%nat 4%nat _ _ eq_refl eq_refl ltac:(done)) as C4.
  pose proof (Hne 3%nat 4%nat _ _ eq_refl eq_refl ltac:(done)) as D4. clear Hne.
  assert (forall i x, [current s; t1; t2; t3; t4] !! i = Some x -> x ∈ ly_tcbs L) as Hin
    by (intros i x Hx; rewrite Ht; by eapply list_elem_of_lookup_2).
  pose proof (Hin 1%nat _ eq_refl) as I1. pose proof (Hin 2%nat _ eq_refl) as I2.
  pose proof (Hin 3%nat _ eq_refl) as I3. pose proof (Hin 4%nat _ eq_refl) as I4. clear Hin.
  pose proof (set_state_inv L s t3 Dead HI I3 (not_eq_sym A3) ltac:(done)) as HI1.
  set (s1 := set_kmem (store32 (k_mem s) (t3 + 8) (state_code Dead)) s) in *.
  pose proof (set_state_inv L s1 t4 Waiting HI1 I4 (not_eq_sym A4) ltac:(done)) as HI2.
  set (s2 := set_kmem (store32 (k_mem s1) (t4 + 8) (state_code Waiting)) s1) in *.
  pose proof (activity_inv L s2 _ HI2 (enabling_activity L s2 true HI2)) as HI3.
  set (s3 := set_ksched (set_enabled true (k_sched s2)) s2) in *.
  eexists. split; [reflexivity|]. split; [|split; [done|]].
  2:{ intros a (_ & _ & Ha). pose proof (Ha t3 I3) as N3. pose proof (Ha t4 I4) as N4. unfold tcb_byte, TCB_SIZE in *.
      change (mget (store32 (store32 (k_mem s) (t3 + 8) (state_code Dead)) (t4 + 8) (state_code Waiting)) a = mget (k_mem s) a).
      by rewrite !store_state_get by lia. }
  split; [| done | done | |].
  - by apply inv_log.
  - assert (forall x t, t ∈ ly_tcbs L -> t <> current s -> t <> t3 -> t <> t4 -> fresh_thread (k_mem s) x t ->
      fresh_thread (k_mem s2) x t) as Hk.
    { intros x t It Hc1 H3 H4 F. apply (fresh_state L s1 t t4 Waiting); try done. by apply (fresh_state L s t t3 Dead). }
    split; apply Hk; done || by apply not_eq_sym.
  - change (tcb_state (k_mem s2) t3 = state_code Dead /\ tcb_state (k_mem s2) t4 = state_code Waiting). split.
    + rewrite (load_state_get (k_mem s1)); [apply load_state_eq|]. intros a Ha. apply store_state_get.
      destruct (tcbs_apart L t3 t4 (si_layout _ _ HI) I3 I4 D4); unfold TCB_SIZE in *; lia.
    + apply load_state_eq.
Qed.

Lemma kernel_main_run lo hi im s :
  main_ready lo hi im s ->
  kernel_main im s = Stopped out_of_memory \/
  exists L t1 t2 t3 t4 s', kernel_main im s = Done (tt, s') /\
    main_done im (idleThread (k_sched s)) t1 t2 t3 t4 L s' /\ cpu_cr3 (k_cpu s') = cpu_cr3 (k_cpu s) /\
    (forall a, client_byte s a -> ~ (kernelTask (k_sched s) <= a < kernelTask (k_sched s) + 32) ->
       ~ tcb_byte (idleThread (k_sched s)) a -> ~ (lo <= a < hi) -> mget (k_mem s') a = mget (k_mem s) a).
Proof.
  intros Hok. rewrite kernel_main_creates. destruct (main_start_run lo hi im s Hok) as (s1 & Hi1 & Hsc & Hh & Hcp & Hv & Hp & Hm & Hrun).
  destruct Hok as [_ Hcr3 _ Hroom [Htid1 Htid2] [Hres Hw]].
  match goal with |- context [_ ;; debug_print_free_memory ;; ?k] => specialize (Hrun _ (fun _ => k)) end.
  cbv beta in Hrun. rewrite Hrun. clear Hrun.
  destruct (Scheduler_Init_run (im_resume im) (im_kernel im) (im_idle im) Hres lo hi s1 Hi1) as [H|[[_ H]|(s2 & H & Hin)]].
  { left. by apply bind_stopped. }
  { by rewrite Hcp, Hv, Hcr3 in H. }
  rewrite (bind_done _ _ _ _ _ H). clear H. destruct Hin as [(node & HI & Hspare) (Hc & Htask & Hidx) (_ & _ & Hcl) _ (Hcr2 & _) [Hnt _] Hlim].
  rewrite Hsc in *. set (idle := idleThread (k_sched s)) in *.
  assert (create_ready s2 (Z.of_nat (length [im_keyboard im; im_test2 im; im_dead im; im_waiting im]))) as Hcr.
  { split; [by rewrite Hlim, Hh|]. split; [|split; [|cbn [length]; lia]].
    - rewrite Htask. destruct (io_task _ _ _ Hi1) as [Hk _]. rewrite Hsc in Hk. lia.
    - intros a Ha. rewrite Htask in Ha. apply Hcl. lia. }
  destruct (create_all_run _ _ s2 HI Hcr Hw) as [H|(ts & L' & s3 & H & HI' & Ht & Hf & _ & Hc3 & Hi3 & _ & Hr3 & Hs3)].
  { left. by apply bind_stopped. }
  right. pose proof (Forall2_length _ _ _ Hf) as Hlen. rewrite (bind_done _ _ _ _ _ H).
  destruct ts as [|t1 [|t2 [|t3 [|t4 [|]]]]]; try done.
  destruct (set_states_run im idle t1 t2 t3 t4 L' s3) as (s' & H' & Hd & Hr4 & Hm4); try done; [congruence..|].
  exists L', t1, t2, t3, t4, s'. split; [done|]. split; [done|]. split; [congruence|].
  intros a Ha G1 G2 G3. destruct (Hspare a) as [P1 P2]; [by apply (client_byte_same s s1)|done..|].
  destruct (Hs3 a P1) as [P3 P4]. by rewrite (Hm4 a P3), P4, P2, Hm.
Qed.

(** The first call of [Schedule] after it. *)
Lemma main_schedule_run im idle t1 t2 t3 t4 L s :
  is_word (im_resume im) -> main_done im idle t1 t2 t3 t4 L s ->
  exists s', Schedule (im_resume im) s = Done (tt, s') /\ current s' = t1 /\
    cpu_rip (k_cpu s') = (im_keyboard im).2 /\ sched_inv L s'.
Proof.
  intros Hw [HI Ht (Hc & Hi & Hen) [(_ & Hst & Hrip) _] _].
  destruct (schedule_hit (im_resume im) Hw L s 1 t1 HI Hen) as (s'' & H'' & Hsw & HI'').
  - split; [unfold maxTries; lia|]. rewrite Ht, Hi. split; [done|]. split; [unfold is_ready; by rewrite Hst|]. intros. lia.
  - exists s''. split; [done|]. split; [by apply (switched_current _ _ _ _ _ _ Hsw)|]. split; [|done].
    destruct (sw_cpu _ _ _ _ _ _ Hsw) as [Hcpu _].
    pose proof (lo_nodup _ (si_layout _ _ HI)) as Hnd. rewrite Ht in Hnd.
    rewrite decide_False in Hcpu.
    + injection Hcpu as _ _ Hr. rewrite Hr. exact Hrip.
    + rewrite Hc. exact (distinct_at _ 1 0 _ _ Hnd eq_refl eq_refl ltac:(done)).
Qed.

(** What [kernel_main] needs of the heap. *)
Definition main_needs : Z := init_needs + 4 * thread_needs.
Lemma sp_kernel_main im : spends main_needs (kernel_main im).
Proof.
  unfold kernel_main. sp_skips. apply sp_first; [done|apply sp_print_free_memory|intros _].
  apply sp_bind; [done|apply sp_Scheduler_Init|intros _].
  apply (sp_mono (thread_needs + (thread_needs + (thread_needs + thread_needs)))); [done|].
  do 3 (apply sp_bind; [done|apply sp_CreateThread|intros ?]). apply sp_last; [apply sp_CreateThread|intros ?]. budget.
Qed.

(** ** Theorem *)

(** [kernel_main] stops for lack of memory - only if the heap has less than
    [main_needs] bytes left - or leaves a well-formed system: scheduling is on, the idle thread runs, the keyboard thread and the second
    one are ready at their functions with their names, the other two are dead
    and waiting; and the next call of [Schedule] starts the keyboard thread. *)
Theorem kernel_main_correct (lo hi : Z) (im : image) (s : kstate) (Hok : main_ready lo hi im s) :
  hlimit s < hbase s + main_needs /\ kernel_main im s = Stopped out_of_memory \/
  exists L t1 t2 t3 t4 s', kernel_main im s = Done (tt, s') /\
    main_done im (idleThread (k_sched s)) t1 t2 t3 t4 L s' /\
    exists s'', Schedule (im_resume im) s' = Done (tt, s'') /\ current s'' = t1 /\
      cpu_rip (k_cpu s'') = (im_keyboard im).2 /\ sched_inv L s''.
Proof.
  destruct (kernel_main_run lo hi im s Hok) as [H|(L & t1 & t2 & t3 & t4 & s' & H & Hd & _)]; [left|right].
  { split; [|done]. refine (spends_short _ _ _ (sp_kernel_main im) _ H).
    apply ready_bounded; [apply (mr_init _ _ _ _ Hok)|apply (mr_room _ _ _ _ Hok)]. }
  exists L, t1, t2, t3, t4, s'. split; [done|]. split; [done|].
  exact (main_schedule_run im _ t1 t2 t3 t4 L s' (proj1 (mr_words _ _ _ _ Hok)) Hd).
Qed.

Definition sample_image : image :=
  Image sample_resume 0 0 (16, KERNEL_VMB + 1024) (32, KERNEL_VMB + 1280) (48, KERNEL_VMB + 1536) (64, KERNEL_VMB + 1792).

Lemma kernel_main_correct_witness :
  exists L t1 t2 t3 t4 s', kernel_main sample_image sample_boot = Done (tt, s') /\
    main_done sample_image (KERNEL_VMB + 4160) t1 t2 t3 t4 L s'.
Proof.
  destruct (kernel_main_correct sample_lo sample_hi sample_image sample_boot) as [[H _]|(L & t1 & t2 & t3 & t4 & s' & H & Hd & _)].
  - split; [exact sample_boot_ok|vm_compute; reflexivity|split; [done|vm_compute; split; [discriminate|reflexivity]]|vm_compute; reflexivity
      |split; vm_compute; discriminate|].
    split; [exact sample_resume_word|].
    repeat (apply Forall_cons_2; [split; vm_compute; (split; [discriminate|reflexivity])|]). apply Forall_nil_2.
  - exfalso. vm_compute in H. discriminate H.
  - exists L, t1, t2, t3, t4, s'. split; [exact H|exact Hd].
Defined.
