(* ===== verification/Echo.v ===== *)
(** From the key to the screen: keyboard interrupts (ps2_keyboard.cpp,
    hal/keyboard.cpp), the turns of the keyboard thread (main.cpp) between and
    after them, and the log's devices (log.cpp, vga_console.cpp, uart.cpp). *)

From S2P Require Import Prelude Memory TextScreen LogDevices KernelLog Lobo Keyboard Debugger KernelMain.
Local Open Scope Z_scope.

(** What happens at the keyboard: an interrupt with a scancode, or a turn of
    the thread that reads. *)
Fixpoint at_keyboard (frame : mem) (os : list kbd_op) (arrivals : list (list Z)) : ST kstate (list (list Z)) :=
  match os with
  | [] => mret arrivals
  | Receive c :: os' => ps2_on_interrupt c ;; at_keyboard frame os' arrivals
  | GetChar :: os' => rest ← thread_read_keyboard frame arrivals; at_keyboard frame os' rest
  end.

(** The scancodes that arrive. *)
Fixpoint arriving (os : list kbd_op) : list Z :=
  match os with
  | [] => []
  | Receive c :: os' => c :: arriving os'
  | GetChar :: os' => arriving os'
  end.

Lemma arriving_app os1 os2 : arriving (os1 ++ os2) = arriving os1 ++ arriving os2.
Proof. induction os1 as [|[c|] os1 IH]; cbn; by rewrite ?IH. Qed.
Lemma arriving_reads n : arriving (replicate n GetChar) = [].
Proof. by induction n. Qed.

(** ** One turn of the thread *)

Lemma next_char_end q shift : let '(c, q', shift') := next_char q shift in shift_end q shift = shift_end q' shift'.
Proof.
  revert shift. induction q as [|c q IH]; intros shift; [done|]. cbn [next_char shift_end].
  destruct (c =? 0) eqn:E; [by apply Z.eqb_eq in E as ->|].
  destruct (is_down c); [done|]. apply IH.
Qed.

(** A read takes the next character of all that is typed, if it gives one. *)
Lemma next_char_more q cs shift :
  Forall byte_char q ->
  let '(c, q', shift') := next_char q shift in
  chars (q ++ cs) shift = (if c =? 0 then [] else [c]) ++ chars (q' ++ cs) shift'.
Proof.
  intros Hq. pose proof (next_char_chars q shift Hq) as H1. pose proof (next_char_end q shift) as H2.
  destruct (next_char q shift) as [[c q'] sh']. by rewrite !chars_app, H1, H2, app_assoc.
Qed.

Definition shown (c : Z) : list Z := if c =? 0 then [] else [c].
Definition after (s : kstate) (k : keyboard) (out : list Z) : kstate :=
  set_klog (k_log s ++ (KWriteChar <$> out)) (set_kkbd k s).

Lemma read_keyboard_run frame ar s q shift :
  holds s q shift -> Z.of_nat (length q) < scancode_queue_max -> (next_char q shift).1.1 <> 126 ->
  let '(c, q', shift') := next_char q shift in
  exists k, thread_read_keyboard frame ar s = Done (ar, after s k (shown c)) /\ holds (after s k (shown c)) q' shift'.
Proof.
  intros Hh Hlt Hne. pose proof (getchar_run q s shift Hh Hlt) as H.
  destruct (next_char q shift) as [[c q'] sh']. destruct H as (k & H & Hk & Hs). cbn in Hne.
  exists k. unfold thread_read_keyboard, after, shown. rewrite (bind_done _ _ _ _ _ H).
  assert ((c =? 126) = false) as -> by lia.
  split; [|done]. destruct (c =? 0); cbn [negb when]; [|done].
  cbn. rewrite app_nil_r. by destruct s.
Qed.

Lemma after_after s k1 k2 o1 o2 : after (after s k1 o1) k2 o2 = after s k2 (o1 ++ o2).
Proof. unfold after. cbn. by rewrite fmap_app, app_assoc. Qed.
Lemma holds_after s k out q shift : kbd_repr k q -> mod_shift_set k = shift -> holds (after s k out) q shift.
Proof. done. Qed.

(** ** Any interleaving *)

(** As long as the queue has room for everything that arrives, what has been
    shown is what was typed, but for what is still in the queue. *)
Lemma at_keyboard_run frame ar os s q shift :
  holds s q shift -> Forall byte_op os ->
  Z.of_nat (length (q ++ arriving os)) < scancode_queue_max -> 126 ∉ chars (q ++ arriving os) shift ->
  exists k out q' shift',
    at_keyboard frame os ar s = Done (ar, after s k out) /\ holds (after s k out) q' shift' /\
    chars (q ++ arriving os) shift = out ++ chars q' shift' /\ (length q' <= length (q ++ arriving os))%nat.
Proof.
  revert s q shift. induction os as [|[c|] os IH]; intros s q shift Hh Hos Hlen Hne; cbn [at_keyboard arriving] in *.
  - exists (k_kbd s), [], q, shift. unfold after. rewrite !app_nil_r. split; [by destruct s|]. by destruct s.
  - apply Forall_cons in Hos as [Hc Hos]. cbn [byte_op] in Hc. unfold ps2_on_interrupt. rewrite (u8_small c) by done.
    pose proof (receive_run s q shift c Hh Hc) as H. rewrite length_app in Hlen. cbn [length] in Hlen.
    assert ((Z.of_nat (length q) <? scancode_queue_max) = true) as Hlt by lia. rewrite Hlt in H.
    destruct H as (k & H & Hk & Hs). rewrite (bind_done _ _ _ _ _ H).
    destruct (IH (set_kkbd k s) (q ++ [c]) shift) as (k' & out & q' & sh' & H' & Hh' & Hch & Hle);
      [done|done|rewrite !length_app; cbn [length]; lia|by rewrite <- app_assoc|].
    rewrite <- app_assoc in Hch, Hle. by exists k', out, q', sh'.
  - apply Forall_cons in Hos as [_ Hos].
    assert (Forall byte_char q) as Hq by (apply Forall_forall; intros c Hc; exact (repr_bytes _ _ c (proj1 Hh) Hc)).
    pose proof (next_char_more q (arriving os) shift Hq) as Hmore.
    pose proof (read_keyboard_run frame ar s q shift Hh) as Hread.
    pose proof (next_char_length q shift) as [Hl _].
    destruct (next_char q shift) as [[c q1] sh1]. cbn [fst snd] in *. fold (shown c) in Hmore. rewrite Hmore in Hne.
    rewrite length_app in Hlen.
    destruct Hread as (k & H & Hh1); [lia| |].
    { intros ->. apply Hne. by left. }
    rewrite (bind_done _ _ _ _ _ H).
    destruct (IH (after s k (shown c)) q1 sh1) as (k' & out & q' & sh' & H' & Hh' & Hch & Hle);
      [done|done|rewrite length_app; lia| |].
    { intros Hin. apply Hne. apply elem_of_app. by right. }
    rewrite after_after in H', Hh'. exists k', (shown c ++ out), q', sh'. split; [exact H'|]. split; [exact Hh'|].
    split; [by rewrite Hmore, Hch, app_assoc|]. rewrite length_app in *. lia.
Qed.

(** Enough turns empty the queue. *)
Lemma reads_empty frame ar n s q shift :
  holds s q shift -> Z.of_nat (length q) < scancode_queue_max -> 126 ∉ chars q shift -> (length q <= n)%nat ->
  exists k, at_keyboard frame (replicate n GetChar) ar s = Done (ar, after s k (chars q shift)) /\ kbd_repr k [].
Proof.
  revert s q shift. induction n as [|n IH]; intros s q shift Hh Hlt Hne Hn.
  - destruct q; [|simpl in Hn; lia]. exists (k_kbd s). unfold after. cbn. rewrite app_nil_r. split; [by destruct s|apply Hh].
  - assert (Forall byte_char q) as Hq by (apply Forall_forall; intros c Hc; exact (repr_bytes _ _ c (proj1 Hh) Hc)).
    pose proof (next_char_more q [] shift Hq) as Hmore. rewrite !app_nil_r in Hmore.
    pose proof (read_keyboard_run frame ar s q shift Hh Hlt) as Hread.
    pose proof (next_char_length q shift) as [Hl Hl'].
    destruct (next_char q shift) as [[c q1] sh1]. cbn [fst snd] in *. rewrite app_nil_r in Hmore. fold (shown c) in Hmore.
    rewrite Hmore in Hne. destruct Hread as (k & H & Hh1).
    { intros ->. apply Hne. by left. }
    cbn [replicate at_keyboard]. rewrite (bind_done _ _ _ _ _ H).
    destruct (IH (after s k (shown c)) q1 sh1) as (k' & H' & Hk'); [done|lia| | |].
    { intros Hin. apply Hne. apply elem_of_app. by right. }
    { destruct q as [|c0 q]; [simpl in *; lia|]. specialize (Hl' ltac:(done)). simpl in *. lia. }
    rewrite after_after in H'. exists k'. split; [|done]. by rewrite Hmore.
Qed.

Lemma at_keyboard_app frame os1 os2 ar s ar' s' :
  at_keyboard frame os1 ar s = Done (ar', s') -> at_keyboard frame (os1 ++ os2) ar s = at_keyboard frame os2 ar' s'.
Proof.
  revert ar s. induction os1 as [|[c|] os1 IH]; intros ar s; cbn [at_keyboard app].
  - by intros [= -> ->].
  - intros ([] & s1 & H1 & H2)%bind_done_inv. rewrite (bind_done _ _ _ _ _ H1). by apply IH.
  - intros (r & s1 & H1 & H2)%bind_done_inv. rewrite (bind_done _ _ _ _ _ H1). by apply IH.
Qed.

(** The calls [WriteChar] that a run has recorded, made on the log's devices. *)
Lemma write_chars_run cs l :
  log_ok l -> Forall byte_char cs -> exists l', forM cs WriteChar l = Done (tt, l') /\ shows l (view_print cs (the_view l)) l'.
Proof.
  intros Hl Hcs. destruct (emit_run cs l Hl Hcs) as (l' & H & Hs & _). by exists l'.
Qed.

(** C18. A text typed at the keyboard appears on the screen: in whatever order its
    scancodes arrive between the turns of the thread that reads the keyboard,
    as long as the queue has room for them, after enough further turns the
    thread has written exactly the text to the log, the queue is empty, and the
    text console and the serial port have shown it.  The tilde is left out: it
    starts the debugger. *)
Theorem typed_text_shown (txt : list Z) (os : list kbd_op) (n : nat) (frame : mem) (ar : list (list Z))
    (s : kstate) (l : log_state)
    (Hs : holds s [] false) (Hl : log_ok l) (Hos : Forall byte_op os)
    (Hb : Forall byte_char txt) (Ht : forallb typeable txt = true) (Htilde : 126 ∉ txt)
    (Harr : arriving os = type_text txt) (Hfit : Z.of_nat (length (type_text txt)) < scancode_queue_max)
    (Hn : (length (type_text txt) <= n)%nat) :
  exists k l',
    at_keyboard frame (os ++ replicate n GetChar) ar s = Done (ar, after s k txt) /\ kbd_repr k [] /\
    forM txt WriteChar l = Done (tt, l') /\ vga_abs (l_vga l') = lw_term (view_print txt (the_view l)) /\
    uart_out (l_uart l') = lw_sent (view_print txt (the_view l)) /\
    outside_screen (vmem (l_vga l')) (vmem (l_vga l)).
Proof.
  destruct (type_text_ok txt Hb Ht) as [Hch _]. destruct (write_chars_run txt l Hl Hb) as (l' & Hw & _ & Hv & Ho).
  destruct (at_keyboard_run frame ar os s [] false Hs Hos) as (k1 & out & q & sh & H1 & Hh1 & Hc1 & Hle);
    [by rewrite Harr|cbn [app]; by rewrite Harr, Hch|].
  cbn [app] in Hc1, Hle. rewrite Harr, Hch in Hc1. rewrite Harr in Hle.
  destruct (reads_empty frame ar n (after s k1 out) q sh Hh1) as (k2 & H2 & Hk2); [lia| |lia|].
  { intros Hin. apply Htilde. rewrite Hc1. apply elem_of_app. by right. }
  rewrite after_after, <- Hc1 in H2. exists k2, l'.
  split; [by rewrite (at_keyboard_app _ _ _ _ _ _ _ H1)|]. split; [done|]. split; [done|].
  by rewrite <- Hv.
Qed.

(** "Hi": the thread runs while H is being typed and again before the last key
    is released. *)
Definition sample_typing : list kbd_op :=
  [Receive 42; GetChar; Receive 35; Receive 163; GetChar; Receive 170; Receive 23; GetChar; Receive 151].
Lemma typed_text_shown_witness :
  exists k l', at_keyboard ∅ (sample_typing ++ replicate 6 GetChar) [] sample_keys = Done ([], after sample_keys k [72; 105]) /\
    forM [72; 105] WriteChar sample_log = Done (tt, l').
Proof.
  destruct (typed_text_shown [72; 105] sample_typing 6 ∅ [] sample_keys sample_log sample_keys_empty sample_log_ok)
    as (k & l' & H1 & _ & H2 & _).
  - repeat (apply Forall_cons_2; [cbn; lia || done|]). apply Forall_nil_2.
  - repeat (apply Forall_cons_2; [split; vm_compute; (discriminate || reflexivity)|]). apply Forall_nil_2.
  - vm_compute. reflexivity.
  - set_solver.
  - vm_compute. reflexivity.
  - vm_compute. reflexivity.
  - vm_compute. repeat constructor.
  - exists k, l'. split; [exact H1|exact H2].
Defined.
