(* ===== verification/KernelStart.v ===== *)
(** The entry of the kernel: [kernel_early] of
    src/src/lobo/arch/x86_64/kernel_early.cpp, which initialises the components
    in turn and calls [kernel_main].  As it is written it ends with a page fault
    in [vmm_init], which loads a page directory that maps nothing; [late_setup]
    is what stands behind that call, and [Boot] describes it for a machine on
    which the call would have left the kernel mapped.

    The information block is read at the address AWD passes at first, which
    AWD's tables map to itself, and through the kernel's window by
    [init_memory]; both show the same block ([Handover]). *)

From S2P Require Import Prelude Memory AwdAlloc PageTable PageBuilder AwdKernel AwdPaging AwdMain LogDevices KernelLog Lobo KernelBitset Pmm KernelHeap KernelList KernelEarly Vmm Scheduler Threads Interrupts KernelMain.
Local Open Scope Z_scope.
Local Open Scope mach_scope.

(** ** Step 2, on the log and its devices *)

Definition boot_devices (log_cursor_y : Z) : ST log_state unit :=
  on_vga (vga_Init 0 log_cursor_y) ;;
  SetSerialLogging (Some DevUart) ;;
  SetTerminalDevice (Some DevVga).

(** ** kernel_early *)

(** version.cpp; what it prints is [KernelLog.kernel_version_print]. *)
Definition version_print : ST kstate unit :=
  klog_raw " +----------------------------------------------------------------------------+
" [] ;;
  klog_raw "%26sThe Lobo Kernel (v 0.0.0.1)
" [KStr ""] ;;
  klog_raw " +-------+--------------------------------------------------------------------+
" [].

(** link.ld *)
Definition KERNEL_VMA : Z := KERNEL_VMB + 2097152.

(** What the linker provides: the stubs, the interrupt table and its pointer,
    the three drivers, and what [kernel_main] needs. *)
Record kernel_image := KernelImage {
  ki_isr : Z -> Z; ki_irq : Z -> Z;
  ki_table : Z; ki_table_ptr : Z;
  ki_serial : Z; ki_vga : Z; ki_ps2 : Z;
  ki_main : image;
}.

(** Steps 1 to 6a without the devices of step 2. *)
Definition early_setup (ki : kernel_image) (awd_info : Z) : ST kstate unit :=
  m ← gets k_mem;
  heap_early_init (ai_ptr_malloc_current m awd_info +64 KERNEL_VMB) (ai_ptr_malloc_limit m awd_info +64 KERNEL_VMB) ;;
  version_print ;;
  klog "debug" "   Kernel VM Base: 0x%016p" [KNum KERNEL_VMB] ;;
  klog "debug" "Kernel VM Address: 0x%016p" [KNum KERNEL_VMA] ;;
  init_idt (ki_isr ki) (ki_irq ki) (ki_table ki) (ki_table_ptr ki) ;;
  vmm_init.

(** The rest; [fuel] is that of [init_memory]. *)
Definition late_setup (ki : kernel_image) (fuel : nat) (awd_info : Z) : ST kstate unit :=
  init_memory fuel (MEM_PHYS_TO_VIRT awd_info) ;;
  heap_init_full ;;
  driver_registry_add (ki_serial ki) ;;
  driver_registry_add (ki_vga ki) ;;
  driver_registry_add (ki_ps2 ki) ;;
  kernel_main (ki_main ki).

Definition kernel_early (ki : kernel_image) (fuel : nat) (awd_info : Z) : ST kstate unit :=
  early_setup ki awd_info ;;
  late_setup ki fuel awd_info.

(** ** Proofs *)

Lemma boot_devices_run y s :
  0 <= y < 25 -> 0 <= vga_leftColumn (vd (l_vga s)) < 80 -> 0 <= vga_attribute (vd (l_vga s)) < 256 ->
  exists s', boot_devices y s = Done (tt, s') /\ log_ok s' /\ vga_y (vd (l_vga s')) = y /\ vga_x (vd (l_vga s')) = 0 /\
    vmem (l_vga s') = vmem (l_vga s).
Proof.
  intros Hy Hl Ha. eexists. split; [reflexivity|]. split; [|done]. split; [done|done|]. by split; cbn; try lia.
Qed.

(** What [kernel_early] is called with: the block at [info], as AWD's tables map
    it, below the heap it describes; static objects as the program starts with
    them; the interrupt table elsewhere. *)
Record entry_ok (ki : kernel_image) (info current limit : Z) (s : kstate) : Prop := {
  en_block : 0 <= info /\ info + 32 <= current <= limit /\ limit < 2147483648 - 16384;
  en_heap : ai_ptr_malloc_current (k_mem s) info = current /\ ai_ptr_malloc_limit (k_mem s) info = limit;
  en_static : k_pmm s = no_pmm /\ m_init (k_vmm s) = false;
  en_stubs : (forall i, 0 <= i < 32 -> 0 <= ki_isr ki i < 2 ^ 64) /\ (forall i, 0 <= i < 16 -> 0 <= ki_irq ki i < 2 ^ 64);
  en_table : 0 <= ki_table ki < 2 ^ 64 /\
    (ki_table_ptr ki + 10 <= ki_table ki \/ ki_table ki + 4096 <= ki_table_ptr ki);
}.

(** The heap has a page, aligned, for the directory. *)
Definition directory_fits (current limit : Z) : bool :=
  round_up (KERNEL_VMB + current) 4096 + 4096 <=? KERNEL_VMB + limit.

(** The load of the directory ends the run. *)
Lemma early_setup_run ki info current limit s :
  entry_ok ki info current limit s ->
  early_setup ki info s = Stopped (if directory_fits current limit then page_fault else out_of_memory).
Proof.
  intros [(Hi & Hc & Hl) [Hcur Hlim] [Hp Hv] [Hisr Hirq] [Ht Hptr]].
  unfold early_setup. rewrite gets_bind, Hcur, Hlim. unfold heap_early_init. rewrite modify_bind.
  assert (current +64 KERNEL_VMB = KERNEL_VMB + current /\ limit +64 KERNEL_VMB = KERNEL_VMB + limit) as [-> ->]
    by (unfold KERNEL_VMB; rewrite !u64_small by lia; lia).
  set (s0 := set_kheap (KHeap (KERNEL_VMB + current) (KERNEL_VMB + limit) EarlyBoot) s).
  assert (exists out, forall B (k : unit -> ST kstate B),
    (version_print ;; klog "debug" "   Kernel VM Base: 0x%016p" [KNum KERNEL_VMB] ;;
     klog "debug" "Kernel VM Address: 0x%016p" [KNum KERNEL_VMA] ;; k tt) s0 = k tt (set_klog out s0)) as [out Hout]
    by (eexists; reflexivity).
  match goal with |- context [init_idt ?a ?b ?c ?d ;; vmm_init] =>
    pose proof (Hout _ (fun _ => init_idt a b c d ;; vmm_init)) as Hrun end.
  cbv beta in Hrun. rewrite Hrun. clear Hrun Hout. set (s1 := set_klog out s0).
  destruct (init_idt_run _ _ _ _ Hisr Hirq Ht Hptr s1) as (s2 & H2 & [_ _ _ _ _ (Ih & Ip & Iv & _)]).
  rewrite (bind_done _ _ _ _ _ H2). clear H2. change (k_heap s1) with (k_heap s0) in Ih. change (k_pmm s1) with (k_pmm s) in Ip.
  change (k_vmm s1) with (k_vmm s) in Iv. rewrite Hp in Ip.
  assert (forall a, bitmap_byte s2 a -> a = 0) as Hbm by (unfold bitmap_byte; rewrite Ip; intros a Ha; cbn in Ha; change (0 / 8) with 0 in Ha; lia).
  assert (kheap_ok s2) as Hok.
  { split; rewrite Ih; cbn; try done; unfold KERNEL_VMB; lia. }
  pose proof (vmm_init_run s2 Hok ltac:(by rewrite Iv)) as H3. rewrite Ih in H3. cbn [earlyAllocBase earlyAllocLimit s0 k_heap set_kheap] in H3.
  specialize (H3 ltac:(intros a Ha%Hbm; unfold KERNEL_VMB; lia)
    ltac:(unfold KERNEL_VMB; change (2 ^ 64) with 18446744073709551616; lia)).
  unfold directory_fits. assert (kalloc_at s2 4096 = round_up (KERNEL_VMB + current) 4096) as Hka by (unfold kalloc_at; by rewrite Ih).
  rewrite Hka in H3. exact H3.
Qed.

Lemma kernel_early_run ki fuel info current limit s :
  entry_ok ki info current limit s ->
  kernel_early ki fuel info s = Stopped (if directory_fits current limit then page_fault else out_of_memory).
Proof. intros H. by apply bind_stopped, early_setup_run. Qed.

Lemma directory_room current limit :
  0 <= current -> current + 8192 <= limit -> directory_fits current limit = true.
Proof.
  intros H0 H. unfold directory_fits. assert (0 <= KERNEL_VMB) by done.
  destruct (round_up_spec (KERNEL_VMB + current) 4096 ltac:(lia)) as [Hb _]. apply Z.leb_le. lia.
Qed.

(** ** Theorems *)

(** What is behind the load of the page directory could not run with the block
    AWD hands over either.  The loader leaves the pointer to the memory map 0;
    so, whatever [awd_main] hands over, the rest of [kernel_early] stops in
    [init_memory], where the map is empty and marking the first 4 MiB as used
    fails the bitset's assertion, or memory is full before that. *)
Theorem no_memory_map_stops (p : platform) (magic mb : Z) (a a' : awd) (block : awd_info) (entry : Z)
    (ki : kernel_image) (fuel : nat) (info : Z) (s : kstate)
    (Hawd : awd_main p magic mb a = Done ((block, entry), a'))
    (Hmap : ai_ptr_phys_mem_map (k_mem s) (MEM_PHYS_TO_VIRT info) = ptr_phys_mem_map block)
    (Hheap : kheap_ok s /\ currentMode (k_heap s) = EarlyBoot) (Hpmm : k_pmm s = no_pmm)
    (Hinfo : MEM_PHYS_TO_VIRT info + 24 <= earlyAllocBase (k_heap s))
    (Hlimit : earlyAllocLimit (k_heap s) + 9 < 2 ^ 64) (Hfuel : (0 < fuel)%nat) :
  late_setup ki fuel info s =
    Stopped (if bitmap_fits s 0 then AssertFailed "bit < m_length" else out_of_memory).
Proof.
  rewrite (awd_main_no_map _ _ _ _ _ _ _ Hawd) in Hmap. apply bind_stopped.
  destruct Hheap as [Hok Hmode]. apply no_map_stops; try done. by rewrite Hpmm.
Qed.

(** The first lines of [kernel_early] make the log's devices work: from then on
    a log call shows its line on both ([KernelLog.log_line_correct]), below
    the lines of the loader. *)
Theorem boot_devices_correct (y : Z) (s : log_state)
    (Hy : 0 <= y < 25) (Hleft : 0 <= vga_leftColumn (vd (l_vga s)) < 80)
    (Hattr : 0 <= vga_attribute (vd (l_vga s)) < 256) :
  exists s', boot_devices y s = Done (tt, s') /\ log_ok s' /\ vga_y (vd (l_vga s')) = y /\ vga_x (vd (l_vga s')) = 0 /\
    vmem (l_vga s') = vmem (l_vga s).
Proof. by apply boot_devices_run. Qed.

Definition sample_kernel_image : kernel_image :=
  KernelImage (fun i => KERNEL_VMB + i) (fun i => KERNEL_VMB + i) (KERNEL_VMB + 8192) (KERNEL_VMB + 12288) 0 0 0 sample_image.

(** The block at 4096, as [awd_main] fills it in for the bootable machine. *)
Definition block_memory (current limit : Z) : mem := store32 (store32 ∅ 4116 current) 4120 limit.
Definition sample_entry (current limit : Z) : kstate :=
  sample_kstate (block_memory current limit) no_heap no_pmm.

Definition limits_of {B} (o : outcome ((awd_info * Z) * B)) : option (Z * Z) :=
  match o with
  | Done ((b, _), _) => Some (ptr_malloc_current b, ptr_malloc_limit b)
  | Stopped _ => None
  end.
Lemma loader_limits : limits_of (awd_main boot_platform 732803074 16384 boot_machine) = Some (2142208, 2363392).
Proof. vm_compute. reflexivity. Qed.

(** The machine of [AwdMain], and the block it made, with its heap. *)
Definition sample_mapless : kstate :=
  set_kheap (KHeap (KERNEL_VMB + 2146304) (KERNEL_VMB + 2363392) EarlyBoot) (sample_entry 2142208 2363392).

Lemma no_memory_map_stops_witness :
  exists block entry a', awd_main boot_platform 732803074 16384 boot_machine = Done ((block, entry), a') /\
    late_setup sample_kernel_image 1 4096 sample_mapless = Stopped (AssertFailed "bit < m_length").
Proof.
  destruct (awd_main_run boot_platform 16384 8192 boot_memory [KERNEL_TAG_NAME] boot_machine boot_machine_ok)
    as (a' & block & H & _).
  exists block, (e_entry boot_memory (mod_start boot_memory 8192)), a'. split; [exact H|].
  refine (no_memory_map_stops boot_platform 732803074 16384 boot_machine a' block _ sample_kernel_image 1 4096
    sample_mapless H _ _ eq_refl _ _ ltac:(lia)).
  - rewrite (awd_main_no_map _ _ _ _ _ _ _ H). vm_compute. reflexivity.
  - split; [|reflexivity]. split; [done|vm_compute; split; discriminate|vm_compute; reflexivity|discriminate].
  - vm_compute. discriminate.
  - vm_compute. reflexivity.
Defined.

Definition blank_log : log_state :=
  LogState (Uart false 0 [] []) (VgaConsole (Vga 0 0 0 0 15) ∅) None None false 0.

Lemma boot_devices_correct_witness : exists s', boot_devices 10 blank_log = Done (tt, s') /\ log_ok s'.
Proof.
  destruct (boot_devices_correct 10 blank_log) as (s' & H1 & H2 & _).
  - lia.
  - cbn. lia.
  - cbn. lia.
  - exists s'. split; [exact H1|exact H2].
Defined.
