(* ===== verification/Drivers.v ===== *)
(** The drivers: their base class (src/src/lobo/include/kernel/driver.h,
    drivers/driver.cpp), and what the registry of drivers/driver_registry.cpp
    ([driver_registry_add]) makes of them.  A driver is registered by the
    address of its base object: a pointer to the class's table of virtual functions, the name, the type. *)

From S2P Require Import Prelude Memory Lobo KernelBitset Pmm KernelHeap KernelList KernelEarly Scheduler Keyboard KernelLog Debugger KernelMain Budget KernelStart.
Local Open Scope Z_scope.
Local Open Scope mach_scope.

(** ** driver.h, driver.cpp *)

Inductive driver_type := IN_KERNEL | LOADABLE.
Definition type_code (t : driver_type) : Z := match t with IN_KERNEL => 0 | LOADABLE => 1 end.
Definition DRIVER_SIZE : Z := 24.

(** The constructor: the table, then the members in the order of their
    initialisers. *)
Definition driver_new (this vtable name : Z) (drv_type : driver_type) : ST kstate unit :=
  kstore64 this vtable ;;
  kstore64 (this + 8) name ;;
  kstore32 (this + 16) (type_code drv_type).

(** The methods a driver that overrides nothing has. *)
Definition driver_init (this : Z) : ST kstate unit := skip.
Definition driver_call (this : Z) : ST kstate unit := skip.

(** ** The registry *)

Record registered (s : kstate) (drvs : list Z) (s' : kstate) : Prop := {
  rg_ready : heap_ready s';
  rg_limit : earlyAllocLimit (k_heap s') = earlyAllocLimit (k_heap s);
  rg_client : forall a, client_byte s a -> client_byte s' a;
  rg_state : k_sched s' = k_sched s /\ k_pmm s' = k_pmm s /\ k_vmm s' = k_vmm s /\ cpu_cr3 (k_cpu s') = cpu_cr3 (k_cpu s) /\
    cpu_rsp (k_cpu s') = cpu_rsp (k_cpu s) /\ cpu_regs (k_cpu s') = cpu_regs (k_cpu s);
  rg_mem : forall a, client_byte s a -> mget (k_mem s') a = mget (k_mem s) a;
  rg_list : exists nodes, list_repr s' (k_drivers s') nodes drvs /\
    forall n a, n ∈ nodes -> client_byte s a -> ~ node_byte n a;
}.

Lemma registered_none s : heap_ready s -> k_drivers s = no_slist -> registered s [] s.
Proof.
  intros Hr Hn. split; try done. exists []. split; [rewrite Hn; apply empty_repr, Hr|]. intros n a []%elem_of_nil.
Qed.

Lemma registered_add s drvs s1 d :
  registered s drvs s1 -> earlyAllocLimit (k_heap s) + 24 < 2 ^ 64 -> is_word d ->
  driver_registry_add d s1 = Stopped out_of_memory \/
  exists s2, driver_registry_add d s1 = Done (tt, s2) /\ registered s (drvs ++ [d]) s2.
Proof.
  intros [Hr Hl Hc Hs Hm (nodes & Hn & Hnew)] Hlim Hd. unfold driver_registry_add. rewrite gets_bind.
  pose proof (push_back_run s1 (k_drivers s1) nodes drvs d Hn Hr ltac:(by rewrite Hl) Hd) as H. cbv zeta in H.
  destruct (_ <=? _); [|left; by apply bind_stopped]. right.
  destruct H as (l' & s2 & H & [K1 K2 K3 K4 K5 [K6 K7 K8 K9 K10 (K11 & K12 & _) _]] & Hn' & Hp).
  rewrite (bind_done _ _ _ _ _ H). eexists. split; [reflexivity|]. destruct Hs as (S1 & S2 & S3 & S4 & S5 & S6).
  split; cbn [k_heap k_sched k_pmm k_vmm k_cpu k_drivers set_kdrivers].
  - destruct K1 as [[G1 G2 G3 G4] G5]. split; [by split|exact G5].
  - congruence.
  - intros a Ha. exact (K4 a (Hc a Ha)).
  - repeat split; congruence.
  - intros a Ha. rewrite <- (Hm a Ha). apply K5; [by apply Hc|]. intros n Hn0. by apply Hnew.
  - exists (nodes ++ [kalloc_at s1 8]). split.
    2:{ intros n a [Hn0|Hn0%list_elem_of_singleton]%elem_of_app Ha; [by apply Hnew|]. subst n. by apply Hp, Hc. }
    destruct Hn' as [L1 L2 L3 [L4 L5 L6]]. split; [exact L1|exact L2|exact L3|].
    split; [exact L4|exact L5|exact L6].
Qed.

Fixpoint add_all (drvs : list Z) : ST kstate unit :=
  match drvs with
  | [] => skip
  | d :: drvs' => driver_registry_add d ;; add_all drvs'
  end.

Lemma registered_all drvs done s s1 :
  registered s done s1 -> earlyAllocLimit (k_heap s) + 24 < 2 ^ 64 -> Forall is_word drvs ->
  add_all drvs s1 = Stopped out_of_memory \/
  exists s2, add_all drvs s1 = Done (tt, s2) /\ registered s (done ++ drvs) s2.
Proof.
  intros Hr Hl Hw. revert done s1 Hr. induction Hw as [|d drvs Hd _ IH]; intros done s1 Hr; cbn [add_all].
  - right. exists s1. by rewrite app_nil_r.
  - destruct (registered_add s done s1 d Hr Hl Hd) as [H|(s2 & H & Hr2)]; [left; by apply bind_stopped|].
    rewrite (bind_done _ _ _ _ _ H). destruct (IH _ s2 Hr2) as [H2|(s3 & H2 & Hr3)]; [by left|].
    right. exists s3. split; [exact H2|]. by rewrite <- app_assoc in Hr3.
Qed.

(** ** Driver objects *)

Record driver_object := DriverObject { d_this : Z; d_vtable : Z; d_name : Z; d_type : driver_type }.

Definition construct (d : driver_object) : ST kstate unit := driver_new (d_this d) (d_vtable d) (d_name d) (d_type d).
Definition driver_byte (d : driver_object) (a : Z) : Prop := d_this d <= a < d_this d + DRIVER_SIZE.

Record driver_at (m : mem) (d : driver_object) : Prop := {
  da_vtable : load64 m (d_this d) = d_vtable d;
  da_name : m_name m (d_this d) = d_name d;
  da_type : load32 m (d_this d + 16) = type_code (d_type d);
}.

(** Objects at addresses of their own in static memory. *)
Record objects_ok (s : kstate) (ds : list driver_object) : Prop := {
  ob_words : Forall (fun d => 0 < d_this d < 2 ^ 64 /\ is_word (d_vtable d) /\ is_word (d_name d)) ds;
  ob_static : Forall (fun d => forall a, driver_byte d a -> client_byte s a) ds;
  ob_apart : ForallOrdPairs (fun d d' => forall a, driver_byte d a -> ~ driver_byte d' a) ds;
}.

Lemma driver_at_ext m m' d :
  (forall a, driver_byte d a -> mget m' a = mget m a) -> driver_at m d -> driver_at m' d.
Proof.
  unfold driver_byte, DRIVER_SIZE. intros H [H1 H2 H3].
  split; [rewrite <- H1|rewrite <- H2|rewrite <- H3]; apply load_ext; intros a Ha; apply H; lia.
Qed.

Lemma construct_run d s :
  is_word (d_vtable d) -> is_word (d_name d) ->
  exists m, construct d s = Done (tt, set_kmem m s) /\ driver_at m d /\
    forall a, ~ driver_byte d a -> mget m a = mget (k_mem s) a.
Proof.
  intros Hv Hn. eexists. split; [reflexivity|]. cbn [k_mem set_kmem]. split.
  - split; unfold m_name, load64, load32, store64, store32.
    + rewrite !load_store_ne by lia. rewrite load_store_eq. apply Z.mod_small. exact Hv.
    + rewrite load_store_ne, load_store_eq by lia. apply Z.mod_small. exact Hn.
    + rewrite load_store_eq. by destruct (d_type d).
  - intros a Ha. unfold driver_byte, DRIVER_SIZE in Ha. unfold store64, store32. by rewrite !mget_store_ne by lia.
Qed.

Lemma construct_all ds s :
  Forall (fun d => 0 < d_this d < 2 ^ 64 /\ is_word (d_vtable d) /\ is_word (d_name d)) ds ->
  ForallOrdPairs (fun d d' => forall a, driver_byte d a -> ~ driver_byte d' a) ds ->
  exists m, forM ds construct s = Done (tt, set_kmem m s) /\ Forall (driver_at m) ds /\
    forall a, Forall (fun d => ~ driver_byte d a) ds -> mget m a = mget (k_mem s) a.
Proof.
  intros Hw Ha. revert s. induction Ha as [|d ds Hd _ IH]; intros s.
  - exists (k_mem s). split; [by destruct s|done].
  - apply Forall_cons in Hw as [(_ & Hv & Hn) Hw].
    destruct (construct_run d s Hv Hn) as (m1 & H1 & D1 & M1).
    destruct (IH Hw (set_kmem m1 s)) as (m & H2 & D2 & M2).
    exists m. cbn [forM]. rewrite (bind_done _ _ _ _ _ H1). split; [exact H2|]. split.
    + constructor; [|done]. apply (driver_at_ext m1); [|done]. intros a Hda. apply M2.
      apply Forall_forall. intros d' Hd'. exact (proj1 (Forall_forall _ _) Hd d' Hd' a Hda).
    + intros a [Hda Hdsa]%Forall_cons. rewrite M2 by done. by apply M1.
Qed.

Lemma sp_add_all l : spends (node_request * Z.of_nat (length l)) (add_all l).
Proof.
  induction l as [|d l IH]; cbn [add_all length]; [rewrite Z.mul_0_r; apply sp_skip|].
  apply (sp_mono (node_request + node_request * Z.of_nat (length l))); [lia|].
  apply sp_bind; [apply Z.mul_nonneg_nonneg; [done|lia]|apply sp_driver_add|done].
Qed.

(** ** Theorems *)

(** C40. The static constructors of the drivers and their registration, as the
    debugger shows them: unless the heap has less than [node_request] bytes left
    for each, every object is in memory as constructed, "drivers/count" prints
    how many there are, and "drivers/list" their names, in the order of
    registration. *)
Theorem drivers_listed (ds : list driver_object) (s : kstate)
    (Hready : heap_ready s) (Hnone : k_drivers s = no_slist) (Hlimit : earlyAllocLimit (k_heap s) + 8 + THREAD_STACK_SIZE < 2 ^ 64)
    (Hok : objects_ok s ds) :
  hlimit s < hbase s + node_request * Z.of_nat (length ds) /\
    (forM ds construct ;; add_all (d_this <$> ds)) s = Stopped out_of_memory \/
  exists s', (forM ds construct ;; add_all (d_this <$> ds)) s = Done (tt, s') /\
    Forall (driver_at (k_mem s')) ds /\
    drivers_count s' = Done (tt, set_klog (k_log s' ++
      [KLogCall "drvreg" "%d Drivers loaded" [KNum (Z.of_nat (length ds))]]) s') /\
    drivers_list s' = Done (tt, set_klog (k_log s' ++
      ((fun d => KLogRaw "%s " [KNum (d_name d)]) <$> ds) ++ [KLogRaw "
" []]) s').
Proof.
  destruct Hok as [Hw Hst Hap]. destruct (construct_all ds s Hw Hap) as (m & H1 & D1 & _).
  rewrite (bind_done _ _ _ _ _ H1). set (s1 := set_kmem m s).
  assert (heap_ready s1) as Hr1 by (by apply (heap_ready_same s s1)).
  assert (registered s1 [] s1) as Hr by by apply registered_none.
  assert (Forall is_word (d_this <$> ds)) as Hths by (apply Forall_fmap; eapply Forall_impl; [exact Hw|]; unfold is_word; cbn; lia).
  assert (earlyAllocLimit (k_heap s1) + 24 < 2 ^ 64) as Hlim by (change (k_heap s1) with (k_heap s); unfold THREAD_STACK_SIZE in Hlimit; lia).
  destruct (registered_all _ [] s1 s1 Hr Hlim Hths) as [H|(s2 & H & [R1 R2 R3 R4 R5 (nodes & Hl & _)])]; [left|right].
  { split; [|exact H]. rewrite <- (length_fmap d_this ds).
    exact (spends_short _ _ s1 (sp_add_all _) (ready_bounded _ Hr1 Hlimit) H). }
  assert (Forall (driver_at (k_mem s2)) ds) as D2.
  { apply Forall_forall. intros d Hd. apply (driver_at_ext m); [|by apply (Forall_forall _ _) with (x := d) in D1].
    intros a Ha. apply R5. exact (proj1 (Forall_forall _ _) Hst d Hd a Ha). }
  exists s2. split; [exact H|]. split; [exact D2|].
  destruct (repr_chain _ _ _ _ Hl) as (Dc & Dn & Dl & Ds). cbn [app] in *. rewrite length_fmap in Ds. split.
  - unfold drivers_count, list_size. by rewrite gets_bind, Ds.
  - unfold drivers_list. rewrite gets_bind.
    assert (Forall (fun v => v <> 0) (d_this <$> ds)) as Hnz by (apply Forall_fmap; eapply Forall_impl; [exact Hw|]; cbn; lia).
    rewrite (bind_done _ _ _ _ _ (list_drivers_run _ _ nodes _ s2 Dc Dn Hnz Dl)).
    rewrite <- list_fmap_compose.
    assert ((driver_name (k_mem s2) ∘ d_this) <$> ds = (fun d => KLogRaw "%s " [KNum (d_name d)]) <$> ds) as ->.
    { apply Forall_fmap_ext_1. eapply Forall_impl; [exact D2|]. intros d [_ Hn _]. cbn. unfold driver_name. by rewrite Hn. }
    destruct s2; cbn; unfold klog_raw, modify; cbn. by rewrite <- app_assoc.
Qed.

(** The serial port and the keyboard, in an empty system. *)
Definition sample_drivers : list driver_object :=
  [DriverObject (KERNEL_VMB + 4096) 16 32 IN_KERNEL; DriverObject (KERNEL_VMB + 8192) 48 64 IN_KERNEL].
Definition no_drivers : kstate :=
  sample_kstate ∅ (KHeap (KERNEL_VMB + 12288) (KERNEL_VMB + 65536) EarlyBoot) no_pmm.

Lemma sample_drivers_ok : objects_ok no_drivers sample_drivers.
Proof.
  split.
  - repeat (apply Forall_cons_2; [vm_compute; repeat split; done|]). apply Forall_nil_2.
  - unfold driver_byte, DRIVER_SIZE. repeat (apply Forall_cons_2; [|]); try apply Forall_nil_2; intros a Ha; cbn [d_this] in Ha;
      (split; [change (a < KERNEL_VMB + 12288); lia|change (~ (0 <= a < 1)); unfold KERNEL_VMB in Ha; lia]).
  - unfold driver_byte, DRIVER_SIZE. repeat constructor; cbn [d_this]; lia.
Qed.

Definition returns {A} (r : outcome A) : bool := match r with Done _ => true | Stopped _ => false end.

Lemma drivers_listed_witness :
  exists s', (forM sample_drivers construct ;; add_all (d_this <$> sample_drivers)) no_drivers = Done (tt, s') /\
    drivers_list s' = Done (tt, set_klog (k_log s' ++
      [KLogRaw "%s " [KNum 32]; KLogRaw "%s " [KNum 64]; KLogRaw "
" []]) s').
Proof.
  destruct (drivers_listed sample_drivers no_drivers) as [[_ H]|(s' & H & _ & _ & H')].
  - split; [split|]; [discriminate|vm_compute; split; discriminate|reflexivity|discriminate|].
    intros a Ha. unfold bitmap_byte in Ha. change (0 <= a < 1) in Ha. unfold no_drivers. cbn [k_heap sample_kstate earlyAllocBase]. unfold KERNEL_VMB. lia.
  - reflexivity.
  - reflexivity.
  - exact sample_drivers_ok.
  - assert (returns ((forM sample_drivers construct ;; add_all (d_this <$> sample_drivers)) no_drivers) = true) as E
      by (vm_compute; reflexivity).
    rewrite H in E. discriminate E.
  - exists s'. split; [exact H|exact H'].
Defined.
