(* ===== verification/System.v ===== *)
(** The two programs together: what becomes of the kernel when AWD starts it.
    [Handover] brings the processor from the loader to [kernel_early];
    [KernelStart] runs [kernel_early], which the load of an empty page directory
    ends. *)

From S2P Require Import Prelude Memory AwdAlloc LogDevices KernelLog Lobo KernelBitset Pmm KernelHeap KernelList KernelEarly Vmm Scheduler Threads Interrupts KernelMain KernelStart GdtUtil Processor PageTable PageBuilder AwdKernel AwdPaging AwdMain Entry Handover.
Local Open Scope Z_scope.
Local Open Scope mach_scope.

(** The state of the kernel ([Lobo]) when the processor reaches [kernel_early] in
    [q]: memory, flags, address space and stack are the processor's; the objects
    of the kernel's data segment, which the loader copied, are those of [s].
    Memory is what the loader's tables, which are in CR3 until [vmm_init], show
    of it ([Handover.seen]). *)
Definition start_state (q : proc) (s : kstate) : kstate :=
  set_kmem (p_mem q)
    (set_kcpu (Lobo.Cpu (Z.testbit (p_reg q FLAGS) 9) (Z.land (p_reg q FLAGS) STATUS_FLAGS) (p_reg q CR3) (p_reg q RSP)
      (cpu_regs (k_cpu s)) (cpu_rip (k_cpu s))) s).

(** The kernel's own part of [entry_ok]: static objects as the program starts with
    them, stubs that have addresses, an interrupt table apart from its
    pointer. *)
Record kernel_static (ki : kernel_image) (s : kstate) : Prop := {
  ks_objects : k_pmm s = no_pmm /\ m_init (k_vmm s) = false;
  ks_stubs : (forall i, 0 <= i < 32 -> 0 <= ki_isr ki i < 2 ^ 64) /\ (forall i, 0 <= i < 16 -> 0 <= ki_irq ki i < 2 ^ 64);
  ks_table : 0 <= ki_table ki < 2 ^ 64 /\
    (ki_table_ptr ki + 10 <= ki_table ki \/ ki_table ki + 4096 <= ki_table_ptr ki);
}.

Lemma entry_ok_of {C : Cpu} pl p md m block ki q s :
  kernel_reached pl p block q -> heap_left pl md m block -> heap_base md m + 262144 < 2147483648 - 16384 ->
  kernel_static ki s ->
  entry_ok ki (p_reg q RDI) (ptr_malloc_current block) (ptr_malloc_limit block) (start_state q s).
Proof.
  intros Hr (H0 & Hcur & Hlim) Hlow [Hobj Hstub Htab].
  pose proof (ke_argument _ _ (kd_early _ _ _ _ Hr)) as Harg.
  rewrite u32_small in Hlim by lia.
  split; try done.
  - rewrite Harg. lia.
  - pose proof (kd_info _ _ _ _ Hr) as Hi. split; [apply (ia_current _ _ _ Hi)|apply (ia_limit _ _ _ Hi)].
Qed.

(** ** Theorem *)


(** The machine of [AwdMain], the processor of [Entry] and the kernel of
    [KernelStart]. *)
Lemma sample_static : kernel_static sample_kernel_image (sample_kstate ∅ no_heap no_pmm).
Proof.
  split; [done| |].
  - cbn. unfold KERNEL_VMB. change (2 ^ 64) with 18446744073709551616. split; intros; lia.
  - cbn. unfold KERNEL_VMB. change (2 ^ 64) with 18446744073709551616. split; [lia|right; lia].
Qed.

