(* ===== verification/Boot.v ===== *)
(** The kernel from its memory map to its threads: what [kernel_early]
    (src/src/lobo/arch/x86_64/kernel_early.cpp) does behind [vmm_init], through
    every component it initialises, up to the system [kernel_main] leaves.

    On the machine [kernel_early] does not get there: [vmm_init] loads a page
    directory that maps nothing and the run ends ([Vmm.vmm_init_maps_nothing],
    [System.system_stops]).  So this is about [late_setup], the code behind that
    call, from a state in which the tables in CR3 map the kernel and its heap
    in place, as the line that is commented out of vmm.cpp would have them
    ([Vmm.mapped_directory]; the witness is such a state).  Memory is what these
    tables show: the theorem includes that they still do in the end.

    The theorems of the components each speak of their part of the state;
    [boot_part] and [init_part] are what the steps before [kernel_main] leave
    alone, by the structure of their bodies. *)

From S2P Require Import Prelude Memory AwdAlloc PageTable PageBuilder AwdKernel AwdPaging AwdMain LogDevices KernelLog Lobo KernelBitset Pmm KernelHeap KernelList KernelEarly Vmm Scheduler Threads Interrupts Debugger KernelMain Budget KernelStart Drivers.
Local Open Scope Z_scope.
Local Open Scope mach_scope.

(** ** What the early steps leave alone *)

Definition same {T} (f : kstate -> T) (s s' : kstate) : Prop := f s' = f s.
#[export] Instance same_preorder {T} (f : kstate -> T) : PreOrder (same f).
Proof. split; [by intros s|]. intros s1 s2 s3 H1 H2. unfold same in *. congruence. Qed.

Definition boot_part (s : kstate) : sched_state * slist * Z * list Z :=
  (k_sched s, k_drivers s, cpu_rsp (k_cpu s), cpu_regs (k_cpu s)).
Definition init_part (s : kstate) : sched_state * slist * Z * list Z * vmm_state * Z :=
  (boot_part s, k_vmm s, cpu_cr3 (k_cpu s)).

Lemma init_boot {A} (m : ST kstate A) : steps (same init_part) m -> steps (same boot_part) m.
Proof. apply steps_mono. unfold same, init_part. congruence. Qed.

(** Updates of other fields. *)
#[export] Hint Extern 2 (steps (same _) (modify _)) => apply steps_modify; intros ?; reflexivity : steps.
#[export] Hint Extern 2 (steps (same _) (klog _ _ _)) => apply steps_modify; intros ?; reflexivity : steps.
#[export] Hint Extern 2 (steps (same _) (klog_raw _ _)) => apply steps_modify; intros ?; reflexivity : steps.
#[export] Hint Extern 2 (steps (same _) (outb _ _)) => apply steps_modify; intros ?; reflexivity : steps.
#[export] Hint Extern 2 (steps (same _) (set_if _)) => apply steps_modify; intros ?; reflexivity : steps.
#[export] Hint Extern 2 (steps (same _) (bitset_put _ _ _)) => apply steps_modify; intros ?; reflexivity : steps.
#[export] Hint Extern 1 (steps _ (kpanic _)) => apply steps_stop : steps.

Lemma pmm_set_same a : steps (same init_part) (pmm_set a).
Proof. unfold pmm_set, bitmap_set, bitset_set. steps. Qed.
Lemma pmm_free_same a : steps (same init_part) (pmm_free a).
Proof. unfold pmm_free, bitmap_free, bitset_clear. steps. Qed.
Lemma count_same l a b : steps (same init_part) (count_pages l a b).
Proof. apply (steps_mono polls); [|apply quiet_count]. by intros s s' (k & out & ->). Qed.
#[export] Hint Resolve pmm_set_same pmm_free_same count_same : steps.

Lemma kmalloc_aligned_same sz al : steps (same init_part) (kmalloc_aligned sz al).
Proof.
  unfold kmalloc_aligned, align_base, set_base, cli, sti. apply steps_bind; [exact _|auto with steps|]. intros []; steps.
Qed.
#[export] Hint Resolve kmalloc_aligned_same : steps.

Lemma pmm_init_same num : steps (same init_part) (pmm_init num).
Proof. unfold pmm_init, kmalloc. steps. Qed.

Lemma find_end_same fuel a e : steps (same init_part) (find_end_loop fuel a e).
Proof. revert a e. induction fuel as [|fuel IH]; intros a e; cbn [find_end_loop]; steps. Qed.
Lemma free_pages_same fuel a e : steps (same init_part) (free_pages_loop fuel a e).
Proof. revert a. induction fuel as [|fuel IH]; intros a; cbn [free_pages_loop]; steps. Qed.
#[export] Hint Resolve pmm_init_same find_end_same free_pages_same : steps.
Lemma free_regions_same fuel a : steps (same init_part) (free_regions_loop fuel a).
Proof. revert a. induction fuel as [|fuel IH]; intros a; cbn [free_regions_loop]; steps. Qed.
#[export] Hint Resolve free_regions_same : steps.

Lemma init_memory_same fuel info : steps (same init_part) (init_memory fuel info).
Proof. unfold init_memory, set_free_memory. steps. Qed.

(** ** The whole start *)

(** The tables in CR3 show the kernel's window up to [limit] in place. *)
Definition in_place (limit : Z) (s : kstate) : Prop :=
  forall va, KERNEL_VMB <= va < limit -> cr3_walk s va = Some (va - KERNEL_VMB).

(** What [late_setup] is called with: the heap from [base] to [limit], before
    the page manager; page tables [tab] of the kernel's directory, loaded, that
    map the window in place; a memory map of whole pages that reaches beyond the
    heap's limit and the first 4 MiB; the scheduler as the program starts with
    it; its two static control blocks and the boot stack from [lo] to [hi],
    apart from each other and from the tables, below the heap; an image of
    numbers. *)
Record boot_ok (ki : kernel_image) (info base limit : Z) (tab : gmap (list Z) Z) (nodes : list Z) (lo hi : Z)
    (s : kstate) : Prop := {
  bo_heap : kheap_ok s /\ k_heap s = KHeap base limit EarlyBoot /\ limit < KERNEL_VMB + 2147483648 - 147456;
  bo_pmm : k_pmm s = no_pmm;
  bo_tables : pt_wf KERNEL_VMB LIM31 (k_mem s) tab (pdir_kernel (k_vmm s)) /\
    cpu_cr3 (k_cpu s) = MEM_VIRT_TO_PHYS (pdir_kernel (k_vmm s)) /\ in_place limit s;
  bo_table_bytes : forall p t a, tab !! p = Some t -> t <= a < t + 4096 ->
    0 < a < base /\ ~ (kernelTask (k_sched s) <= a < kernelTask (k_sched s) + 32) /\
    ~ tcb_byte (idleThread (k_sched s)) a /\ ~ (lo <= a < hi);
  bo_list : mm_list (k_mem s) (ai_ptr_phys_mem_map (k_mem s) (MEM_PHYS_TO_VIRT info)) nodes;
  bo_regions : Forall region_ok (KernelEarly.memmap s nodes) /\
    Forall (fun r => mr_start r mod 4096 = 0 /\ mr_size r mod 4096 = 0) (KernelEarly.memmap s nodes);
  bo_frames : 1024 <= frames (KernelEarly.memmap s nodes) < 2 ^ 20 /\
    (limit - KERNEL_VMB) / 4096 < frames (KernelEarly.memmap s nodes);
  bo_nodes : Forall (fun a => a + 24 <= base) (MEM_PHYS_TO_VIRT info :: nodes);
  bo_lists : threads (k_sched s) = no_slist /\ tasks (k_sched s) = no_slist /\ k_drivers s = no_slist;
  bo_index : currentThreadIndex (k_sched s) = 0 /\ 0 <= next_tid (k_sched s) /\ next_tid (k_sched s) + 4 <= 2147483647;
  bo_static : forall a, kernelTask (k_sched s) <= a < kernelTask (k_sched s) + 32 \/
    tcb_byte (idleThread (k_sched s)) a \/ lo <= a < hi -> 0 < a < base;
  bo_idle : KERNEL_VMB <= idleThread (k_sched s);
  bo_apart : (forall a, tcb_byte (idleThread (k_sched s)) a ->
      ~ (lo <= a < hi) /\ ~ (kernelTask (k_sched s) <= a < kernelTask (k_sched s) + 32)) /\
    (forall a, lo <= a < hi -> ~ (kernelTask (k_sched s) <= a < kernelTask (k_sched s) + 32));
  bo_stack : 0 <= lo /\ lo + 128 <= cpu_rsp (k_cpu s) <= hi /\
    length (cpu_regs (k_cpu s)) = 15%nat /\ Forall is_word (cpu_regs (k_cpu s));
  bo_words : Forall is_word [ki_serial ki; ki_vga ki; ki_ps2 ki] /\ is_word (im_resume (ki_main ki)) /\
    Forall (fun x => is_word x.1 /\ is_word x.2)
      [im_keyboard (ki_main ki); im_test2 (ki_main ki); im_dead (ki_main ki); im_waiting (ki_main ki)];
}.

Section Boot.
Context (ki : kernel_image) (info base limit : Z) (tab : gmap (list Z) Z) (nodes : list Z) (lo hi : Z) (s : kstate).
Hypothesis Hok : boot_ok ki info base limit tab nodes lo hi s.

Lemma boot_cr3 :
  cpu_cr3 (k_cpu s) = pdir_kernel (k_vmm s) - KERNEL_VMB /\ is_word (cpu_cr3 (k_cpu s)).
Proof.
  destruct (bo_tables _ _ _ _ _ _ _ _ _ Hok) as (Hwf & Hcr3 & _).
  destruct (pt_table _ _ _ _ _ Hwf _ _ (pt_root _ _ _ _ _ Hwf)) as [(H1 & H2 & _) _].
  rewrite virt_to_phys_high in Hcr3.
  - split; [done|]. rewrite Hcr3. unfold is_word. change (2 ^ 64) with 18446744073709551616. lia.
  - assert (2 ^ 64 = KERNEL_VMB + 2147483648) by done. lia.
Qed.

(** Whatever leaves CR3 and the tables alone leaves the window in place. *)
Lemma boot_in_place s' :
  cpu_cr3 (k_cpu s') = cpu_cr3 (k_cpu s) ->
  (forall p t, tab !! p = Some t -> agree_on (k_mem s') (k_mem s) t 4096) -> in_place limit s'.
Proof.
  intros Hcr3 Hag va Hva. destruct (bo_tables _ _ _ _ _ _ _ _ _ Hok) as (Hwf & _ & Hpl).
  rewrite <- (Hpl va Hva). unfold cr3_walk. rewrite Hcr3, (proj1 boot_cr3).
  rewrite (mmu_walk_wf KERNEL_VMB LIM31 ltac:(lia) _ tab _ va (pt_wf_ext _ _ _ _ _ _ Hag Hwf)).
  rewrite (mmu_walk_wf KERNEL_VMB LIM31 ltac:(lia) _ tab _ va Hwf). by rewrite (leaf_ext _ _ _ va Hag).
Qed.

(** The map as [init_memory] finds it. *)
Lemma boot_handover : handover s (MEM_PHYS_TO_VIRT info) nodes.
Proof.
  destruct (bo_heap _ _ _ _ _ _ _ _ _ Hok) as (Hkh & Hheap & Hroom).
  destruct (bo_frames _ _ _ _ _ _ _ _ _ Hok) as [[Hf1 Hf2] _]. change (2 ^ 20) with 1048576 in Hf2.
  split; rewrite ?Hheap; cbn [earlyAllocBase earlyAllocLimit currentMode].
  - exact Hkh.
  - done.
  - by rewrite (bo_pmm _ _ _ _ _ _ _ _ _ Hok).
  - apply (bo_list _ _ _ _ _ _ _ _ _ Hok).
  - apply (bo_regions _ _ _ _ _ _ _ _ _ Hok).
  - exact Hf2.
  - apply (bo_nodes _ _ _ _ _ _ _ _ _ Hok).
  - assert (frames (KernelEarly.memmap s nodes) / 8 <= 131072) by lia_div.
    assert (2 ^ 64 = KERNEL_VMB + 2147483648) by done. lia.
Qed.

End Boot.

(** The heap once the page manager can record its pages. *)
Lemma full_heap_ready s base limit p num :
  k_heap s = KHeap base limit EarlyBoot -> bitmap (k_pmm s) = Bitset p num ->
  KERNEL_VMB <= base <= limit -> limit < 2 ^ 64 -> (limit - KERNEL_VMB) / 4096 < num -> p + num / 8 + 1 <= base ->
  heap_ready (set_kheap (KHeap base limit Full) s).
Proof.
  intros Hh Hb Hr Hl Hn Hp.
  assert (forall a, bitmap_byte (set_kheap (KHeap base limit Full) s) a -> a < base) as Hbm.
  { intros a Ha. unfold bitmap_byte in Ha. cbn [k_pmm set_kheap] in Ha. rewrite Hb in Ha. cbn in Ha. lia. }
  split; [|exact Hbm]. split; cbn [k_heap set_kheap earlyAllocBase earlyAllocLimit currentMode k_pmm]; [done|done|done|].
  intros _. split; [by rewrite Hb|exact Hbm].
Qed.

(** What the bitmap of [num] pages needs of the heap, with what aligns it; and
    what comes after the memory manager. *)
Definition memory_needs (num : Z) : Z := 7 + (num / 8 + 1).
Definition system_needs : Z := 3 * node_request + main_needs.
Definition boot_needs (num : Z) : Z := memory_needs num + system_needs.

Lemma sp_system ki :
  spends system_needs (add_all [ki_serial ki; ki_vga ki; ki_ps2 ki] ;; kernel_main (ki_main ki)).
Proof.
  unfold system_needs. apply sp_bind; [done| |intros _; apply sp_kernel_main].
  apply (sp_mono (node_request + (node_request + (node_request + 0)))); [done|]. cbn [add_all].
  do 3 (apply sp_bind; [done|apply sp_driver_add|intros _]). apply sp_skip.
Qed.

Lemma late_setup_parts ki fuel info s :
  late_setup ki fuel info s =
    ((init_memory fuel (MEM_PHYS_TO_VIRT info) ;; heap_init_full) ;;
     add_all [ki_serial ki; ki_vga ki; ki_ps2 ki] ;; kernel_main (ki_main ki)) s.
Proof.
  unfold late_setup, add_all, mbind, ST_bind.
  destruct (init_memory _ _ s) as [[? s2]|]; [|done]. destruct (heap_init_full s2) as [[? s3]|]; [|done].
  destruct (driver_registry_add (ki_serial ki) s3) as [[? s4]|]; [|done].
  destruct (driver_registry_add (ki_vga ki) s4) as [[? s5]|]; [|done].
  by destruct (driver_registry_add (ki_ps2 ki) s5) as [[? s6]|].
Qed.

Section Run.
Context (ki : kernel_image) (info base limit : Z) (tab : gmap (list Z) Z) (nodes : list Z) (lo hi : Z) (s : kstate).
Hypothesis Hok : boot_ok ki info base limit tab nodes lo hi s.

(** The memory manager from the map. *)
Record memory_ready (s' : kstate) : Prop := {
  my_registered : registered s' [] s';
  my_pmm : pmm_ok s';
  my_base : hbase s' <= base + memory_needs (frames (KernelEarly.memmap s nodes));
  my_part : init_part s' = init_part s;
  my_limit : earlyAllocLimit (k_heap s') = limit;
  my_client : forall a, 0 < a < base -> client_byte s' a;
  my_mem : forall a, a < base -> mget (k_mem s') a = mget (k_mem s) a;
  my_pages : forall i, 0 <= i < frames (KernelEarly.memmap s nodes) ->
    page_used s' i = page_taken (KernelEarly.memmap s nodes) i;
}.

Lemma boot_memory_run fuel :
  (length nodes < fuel)%nat ->
  let boot := (init_memory fuel (MEM_PHYS_TO_VIRT info) ;; heap_init_full) s in
  limit < base + memory_needs (frames (KernelEarly.memmap s nodes)) /\ boot = Stopped out_of_memory \/
  exists s', boot = Done (tt, s') /\ memory_ready s'.
Proof.
  intros Hfuel boot. set (num := frames (KernelEarly.memmap s nodes)). unfold memory_needs.
  destruct (bo_heap _ _ _ _ _ _ _ _ _ Hok) as (Hkh & Hheap & Hroom).
  pose proof (kh_range _ Hkh) as Hrange. rewrite Hheap in Hrange. cbn [earlyAllocBase earlyAllocLimit] in Hrange.
  destruct (bo_frames _ _ _ _ _ _ _ _ _ Hok) as [[Hf1 Hf2] Hf3]. destruct (bo_regions _ _ _ _ _ _ _ _ _ Hok) as [R1 R2].
  fold num in Hf1, Hf2, Hf3. assert (0 <= num / 8) as Hn8 by (clear - Hf1; lia_div).
  pose proof (init_memory_run nodes fuel _ s (boot_handover _ _ _ _ _ _ _ _ _ Hok) Hfuel) as H2. cbv zeta in H2. fold num in H2.
  pose proof (whole_pages_fit _ R1 R2) as Hfit. fold num in Hfit. rewrite Hfit, (proj2 (Z.leb_le _ _) Hf1) in H2. cbn [andb] in H2.
  set (p := kalloc_at s 8) in *.
  assert (0 <= KERNEL_VMB) as Hk0 by done.
  destruct (kalloc_at_spec s 8 ltac:(lia)) as [Hp _]. fold p in Hp. rewrite Hheap in Hp. cbn [earlyAllocBase] in Hp.
  assert (bitmap_fits s num = (p + (num / 8 + 1) <=? limit)) as Efit by (unfold bitmap_fits; fold p; by rewrite Hheap).
  rewrite Efit in H2. unfold boot. destruct (Z.leb_spec (p + (num / 8 + 1)) limit); cbn [negb] in H2;
    [|left; split; [lia|by apply bind_stopped]].
  destruct H2 as (s2 & H2 & Hpmm & Hnum & _ & Hused & _ & Hmem & Hheap2 & Hbm).
  pose proof (init_memory_same _ _ _ _ _ H2) as Hs2. rewrite (bind_done _ _ _ _ _ H2). right.
  rewrite Hheap in *. cbn [earlyAllocBase earlyAllocLimit] in *.
  unfold heap_init_full, modify. eexists. split; [reflexivity|]. rewrite Hheap2. cbn [earlyAllocBase earlyAllocLimit].
  rewrite Hheap2 in Hmem. cbn [earlyAllocBase] in Hmem.
  assert (heap_ready (set_kheap (KHeap (p + (num / 8 + 1)) limit Full) s2)) as Hready.
  { eapply full_heap_ready; [exact Hheap2|exact Hbm|lia| |exact Hf3|lia].
    assert (2 ^ 64 = KERNEL_VMB + 2147483648) by done. lia. }
  split; try done.
  - apply registered_none; [exact Hready|]. destruct (bo_lists _ _ _ _ _ _ _ _ _ Hok) as (_ & _ & Hd).
    cbn [k_drivers set_kheap]. unfold same, init_part, boot_part in Hs2. congruence.
  - cbn. fold num. unfold hbase, memory_needs. cbn. lia.
  - intros a Ha. split; [cbn; lia|]. unfold bitmap_byte. cbn [k_pmm set_kheap]. rewrite Hbm. cbn. lia.
  - intros a Ha. apply Hmem. lia.
Qed.

Lemma main_ready_of s1 s2 :
  memory_ready s1 -> registered s1 [ki_serial ki; ki_vga ki; ki_ps2 ki] s2 -> main_ready lo hi (ki_main ki) s2.
Proof.
  intros [_ Hpmm _ Hip Hl1 Hc1 _ _] [Hr Hlim Hcl (Hs1 & Hs2 & Hs3 & Hs4 & Hs5 & Hs6) _ _].
  unfold init_part, boot_part in Hip. injection Hip as B1 _ B3 B4 B5 B6. rewrite Hl1 in Hlim. rewrite B1 in Hs1.
  destruct (bo_heap _ _ _ _ _ _ _ _ _ Hok) as (Hkh & Hheap & Hroom).
  pose proof (kh_range _ Hkh) as Hrange. rewrite Hheap in Hrange. cbn [earlyAllocBase earlyAllocLimit] in Hrange.
  pose proof (bo_static _ _ _ _ _ _ _ _ _ Hok) as Hst. pose proof (bo_index _ _ _ _ _ _ _ _ _ Hok) as (Hix & Ht1 & Ht2).
  destruct (bo_lists _ _ _ _ _ _ _ _ _ Hok) as (L1 & L2 & _). destruct (bo_stack _ _ _ _ _ _ _ _ _ Hok) as (K0 & K1 & K2 & K3).
  assert (2 ^ 64 = KERNEL_VMB + 2147483648) as H64 by done.
  split.
  - split; rewrite ?Hs1, ?Hlim, ?Hs4, ?Hs5, ?Hs6, ?B3, ?B4, ?B6; try done.
    + lia.
    + pose proof (Hst (kernelTask (k_sched s)) ltac:(left; lia)).
      pose proof (Hst (kernelTask (k_sched s) + 31) ltac:(left; lia)). lia.
    + split; [apply (bo_idle _ _ _ _ _ _ _ _ _ Hok)|].
      pose proof (Hst (idleThread (k_sched s) + TCB_SIZE - 1) ltac:(right; left; unfold tcb_byte, TCB_SIZE; lia)).
      lia.
    + split; [done|]. destruct (decide (lo < hi)); [|lia]. pose proof (Hst (hi - 1) ltac:(right; right; lia)). lia.
    + intros a Ha. apply Hcl, Hc1, Hst, Ha.
    + apply (bo_apart _ _ _ _ _ _ _ _ _ Hok).
    + apply (bo_apart _ _ _ _ _ _ _ _ _ Hok).
    + apply (boot_cr3 _ _ _ _ _ _ _ _ _ Hok).
  - rewrite Hs4, Hs3, B6, B5. apply (bo_tables _ _ _ _ _ _ _ _ _ Hok).
  - unfold pmm_ok. by rewrite Hs2.
  - rewrite Hlim. unfold THREAD_STACK_SIZE. lia.
  - by rewrite Hs1.
  - apply (bo_words _ _ _ _ _ _ _ _ _ Hok).
Qed.

(** If the heap is short, this is by less than [boot_needs]. *)
Lemma system_room s1 :
  memory_ready s1 ->
  (add_all [ki_serial ki; ki_vga ki; ki_ps2 ki] ;; kernel_main (ki_main ki)) s1 = Stopped out_of_memory ->
  limit < base + boot_needs (frames (KernelEarly.memmap s nodes)).
Proof.
  intros [[[Hkh _] _ _ _ _] _ Hbase _ Hlim _ _ _] Hstop. destruct (bo_heap _ _ _ _ _ _ _ _ _ Hok) as (_ & _ & Hroom).
  pose proof (kh_range _ Hkh) as Hr. assert (2 ^ 64 = KERNEL_VMB + 2147483648) as H64 by done.
  assert (0 <= KERNEL_VMB) as Hk0 by done.
  assert (bounded s1) as Hb by (unfold bounded, hbase, hlimit, THREAD_STACK_SIZE in *; lia).
  pose proof (spends_short _ _ _ (sp_system ki) Hb Hstop) as H. unfold hbase, hlimit, boot_needs in *. lia.
Qed.

(** The tables are where none of the steps writes. *)
Lemma tables_kept s1 s2 s3 :
  memory_ready s1 -> registered s1 [ki_serial ki; ki_vga ki; ki_ps2 ki] s2 ->
  (forall a, client_byte s2 a -> ~ (kernelTask (k_sched s2) <= a < kernelTask (k_sched s2) + 32) ->
     ~ tcb_byte (idleThread (k_sched s2)) a -> ~ (lo <= a < hi) -> mget (k_mem s3) a = mget (k_mem s2) a) ->
  cpu_cr3 (k_cpu s3) = cpu_cr3 (k_cpu s2) -> in_place limit s3.
Proof.
  intros Hm Hr Hkeep Hcr3. destruct (rg_state _ _ _ Hr) as (Hs & _ & _ & Hc & _).
  pose proof (my_part _ Hm) as Hip. unfold init_part, boot_part in Hip. injection Hip as B1 _ _ _ _ B6.
  apply (boot_in_place _ _ _ _ _ _ _ _ _ Hok); [congruence|].
  intros q t Hq a Ha. destruct (bo_table_bytes _ _ _ _ _ _ _ _ _ Hok q t a Hq Ha) as (H1 & H2 & H3 & H4).
  assert (client_byte s1 a) as Hca by (by apply (my_client _ Hm)). rewrite Hs, B1 in Hkeep.
  rewrite Hkeep; [|by apply (rg_client _ _ _ Hr)|done..].
  rewrite (rg_mem _ _ _ Hr) by done. apply (my_mem _ Hm). lia.
Qed.

End Run.

(** ** The theorem *)


(** ** Witness: 8 MiB of memory, free from the start, and a heap of 4 MiB; the
    window is mapped up to the heap's limit before the directory is loaded *)

Definition sample_limit : Z := KERNEL_VMB + 4259840.
Definition sample_unmapped : kstate :=
  KState sample_map (KHeap (KERNEL_VMB + 65536) sample_limit EarlyBoot) no_pmm (Vmm true 0 0)
    (Sched false (KERNEL_VMB + 20480) 0 no_slist no_slist (KERNEL_VMB + 20544) 0 0 1) no_slist
    (Cpu false 0 0 (KERNEL_VMB + 28672) [1; 2; 3; 4; 5; 6; 7; 8; 9; 10; 11; 12; 13; 14; 15] (KERNEL_VMB + 512))
    (Kbd ∅ 0 false) [] [].
Definition sample_ready : kstate :=
  match mapped_directory KERNEL_VMB 0 4259840 sample_unmapped with Done (_, s) => s | Stopped _ => sample_unmapped end.
Definition sample_root : Z := KERNEL_VMB + 65536.
Definition sample_boot_image : kernel_image :=
  KernelImage (fun i => KERNEL_VMB + i) (fun i => KERNEL_VMB + i) (KERNEL_VMB + 12288) (KERNEL_VMB + 16384)
    (KERNEL_VMB + 36864) (KERNEL_VMB + 36896) (KERNEL_VMB + 36928) sample_image.

Lemma sample_no_bitmap a : bitmap_byte sample_unmapped a -> a = 0.
Proof. unfold bitmap_byte. intros Ha. cbn in Ha. change (0 / 8) with 0 in Ha. lia. Qed.

Lemma sample_mapped : exists tab,
  vmm_running (below_heap sample_unmapped) sample_root (sample_root + 4096) 1 tab sample_ready /\
  (forall va, canonical va -> walk sample_root sample_ready va =
     if decide (in_run KERNEL_VMB 4259840 va) then Some (0 + (va - KERNEL_VMB)) else None).
Proof.
  assert (map_args KERNEL_VMB 0 4259840 3) as Hargs.
  { split; [lia| | |]; vm_compute; repeat split; try (right; split); discriminate || reflexivity. }
  assert (kheap_ok sample_unmapped) as Hok.
  { split; [done|vm_compute; split; discriminate|vm_compute; reflexivity|discriminate]. }
  destruct (mapped_directory_run sample_unmapped KERNEL_VMB 0 4259840 Hok) as (tab & s' & G1 & G2 & _ & G4).
  - intros a ->%sample_no_bitmap. vm_compute. reflexivity.
  - vm_compute. reflexivity.
  - exact Hargs.
  - right. vm_compute. split; [discriminate|reflexivity].
  - vm_compute. split; [discriminate|reflexivity].
  - vm_compute. discriminate.
  - change (kalloc_at sample_unmapped 4096) with sample_root in G2, G4.
    assert (sample_ready = s') as -> by (unfold sample_ready; by rewrite G1).
    exists tab. split; [exact G2|exact G4].
Qed.

(** What [mapped_directory] has left. *)
Definition boot_facts (s : kstate) :=
  (k_heap s, k_pmm s, pdir_kernel (k_vmm s), cpu_cr3 (k_cpu s), k_sched s, k_drivers s,
   cpu_rsp (k_cpu s), cpu_regs (k_cpu s),
   (ai_ptr_phys_mem_map (k_mem s) (MEM_PHYS_TO_VIRT 4096), mm_next (k_mem s) (MEM_PHYS_TO_VIRT 8192),
    mm_next (k_mem s) (MEM_PHYS_TO_VIRT 8224), KernelEarly.memmap s sample_nodes)).
Lemma sample_ready_facts :
  boot_facts sample_ready =
    (KHeap (KERNEL_VMB + 90112) sample_limit EarlyBoot, no_pmm, sample_root, 65536, k_sched sample_unmapped, no_slist,
     KERNEL_VMB + 28672, [1; 2; 3; 4; 5; 6; 7; 8; 9; 10; 11; 12; 13; 14; 15],
     (8192, 8224, 0, [Region true 0 8388608; Region false 8388608 4096])).
Proof. vm_compute. reflexivity. Qed.

Record ready_facts (s : kstate) : Prop := {
  rf_heap : k_heap s = KHeap (KERNEL_VMB + 90112) sample_limit EarlyBoot;
  rf_pmm : k_pmm s = no_pmm;
  rf_root : pdir_kernel (k_vmm s) = sample_root;
  rf_cr3 : cpu_cr3 (k_cpu s) = 65536;
  rf_sched : k_sched s = k_sched sample_unmapped;
  rf_drivers : k_drivers s = no_slist;
  rf_cpu : cpu_rsp (k_cpu s) = KERNEL_VMB + 28672 /\
    cpu_regs (k_cpu s) = [1; 2; 3; 4; 5; 6; 7; 8; 9; 10; 11; 12; 13; 14; 15];
  rf_map : ai_ptr_phys_mem_map (k_mem s) (MEM_PHYS_TO_VIRT 4096) = 8192;
  rf_first : mm_next (k_mem s) (MEM_PHYS_TO_VIRT 8192) = 8224;
  rf_second : mm_next (k_mem s) (MEM_PHYS_TO_VIRT 8224) = 0;
  rf_regions : KernelEarly.memmap s sample_nodes = [Region true 0 8388608; Region false 8388608 4096];
}.
Lemma ready_facts_of s : boot_facts s =
    (KHeap (KERNEL_VMB + 90112) sample_limit EarlyBoot, no_pmm, sample_root, 65536, k_sched sample_unmapped, no_slist,
     KERNEL_VMB + 28672, [1; 2; 3; 4; 5; 6; 7; 8; 9; 10; 11; 12; 13; 14; 15],
     (8192, 8224, 0, [Region true 0 8388608; Region false 8388608 4096])) -> ready_facts s.
Proof.
  unfold boot_facts. intros H. pose proof (f_equal (fun x => x.2.2) H) as Hr. injection H as E1 E2 E3 E4 E5 E6 E7 E8 E9 E10 E11 _ _ _ _ _ _.
  split; try assumption. by split.
Qed.

Lemma ready_boot_ok tab s :
  ready_facts s -> vmm_running (below_heap sample_unmapped) sample_root (sample_root + 4096) 1 tab s ->
  (forall va, canonical va -> walk sample_root s va =
     if decide (in_run KERNEL_VMB 4259840 va) then Some (0 + (va - KERNEL_VMB)) else None) ->
  boot_ok sample_boot_image 4096 (KERNEL_VMB + 90112) sample_limit tab sample_nodes
    (KERNEL_VMB + 20608) (KERNEL_VMB + 36864) s.
Proof.
  intros [E1 E2 E3 E4 E5 E6 [E7 E8] E9 E10 E11 E12] (Hinv & _) Hwalk.
  assert (frames [Region true 0 8388608; Region false 8388608 4096] = 2048) as Hf by reflexivity.
  assert (KERNEL_VMB = 18446744071562067968) as Hk by reflexivity.
  split; rewrite ?E12, ?Hf, ?E5.
  - split; [exact (vi_heap _ _ _ _ _ _ Hinv)|]. split; [exact E1|reflexivity].
  - exact E2.
  - rewrite E3, E4. split; [exact (vi_wf _ _ _ _ _ _ Hinv)|]. split; [reflexivity|].
    intros va Hva. unfold cr3_walk. rewrite E4. change 65536 with (sample_root - KERNEL_VMB).
    unfold sample_limit in Hva. change (walk sample_root s va = Some (va - KERNEL_VMB)).
    rewrite Hwalk by (right; change (2 ^ 64) with 18446744073709551616; change (2 ^ 47) with 140737488355328; lia).
    rewrite decide_True by (unfold in_run; change (4096 * page_count 4259840) with 4259840; lia). done.
  - intros q t a Hq Ha. destruct (vi_below _ _ _ _ _ _ Hinv q t Hq) as [Hb _]. rewrite E1 in Hb.
    cbn [earlyAllocBase] in Hb. cbn [k_sched sample_unmapped kernelTask idleThread].
    destruct (pt_table _ _ _ _ _ (vi_wf _ _ _ _ _ _ Hinv) _ _ Hq) as [(Ht & _) _].
    assert (KERNEL_VMB + 65536 <= a) as Hlow.
    { destruct (Z_lt_le_dec a (KERNEL_VMB + 65536)) as [Hl|]; [|done].
      destruct (vi_keep _ _ _ _ _ _ Hinv a) as (_ & _ & Hn); [|by destruct (Hn q t Hq)].
      split; [exact Hl|]. intros ->%sample_no_bitmap. lia. }
    unfold tcb_byte, TCB_SIZE. lia.
  - rewrite E9. econstructor; [lia|]. rewrite E10. econstructor; [lia|]. rewrite E11. constructor.
  - split; repeat constructor; vm_compute; discriminate.
  - split; [lia|reflexivity].
  - repeat constructor; vm_compute; discriminate.
  - done.
  - cbn. lia.
  - cbn. unfold tcb_byte, TCB_SIZE. intros a. lia.
  - cbn. lia.
  - cbn. unfold tcb_byte, TCB_SIZE. split; intros a; lia.
  - rewrite E7, E8. split; [lia|]. split; [lia|]. split; [done|].
    repeat (apply Forall_cons_2; [unfold is_word; change (2 ^ 64) with 18446744073709551616; lia|]). apply Forall_nil_2.
  - split; [|split].
    + repeat (apply Forall_cons_2; [vm_compute; split; [discriminate|reflexivity]|]). apply Forall_nil_2.
    + exact sample_resume_word.
    + repeat (apply Forall_cons_2; [split; vm_compute; (split; [discriminate|reflexivity])|]). apply Forall_nil_2.
Qed.

